(* ===== verification/_CoqProject ===== *)
-Q . S2P
Prelude.v
Memory.v
RingBuffer.v
StateMonad.v
Heap.v
Bus.v
Clock.v
Ev3.v
Scheduler.v
PacketQueue.v
NetworkIo.v
Stdio.v
Logger.v
PciMmio.v
Pci.v
E1000.v
Ethernet.v
Routing.v
Arp.v
Ipv4.v
TablePrint.v
NetworkTask.v
Within.v
Driver.v
Reception.v
CardInit.v
Interrupt.v
MemoryMap.v
CardRegisters.v
Arm.v
ContextSwitch.v
Reset.v
ModeSwitch.v
Syscall.v
Tasks.v
Gpio.v
Devices.v
Spi.v
Ports.v
Demo.v
Boot.v
System.v
Machine.v
Types.v
Preemption.v
Answering.v
NetworkSteps.v
