(* ===== verification/Prelude.v ===== *)
(** * The ninjastorms kernel

    A model of the ninjastorms operating system (src/kernel, src/libc) for the
    VersatilePB board, and its correctness.  This file is the root of the library
    and its prelude; the files below follow the components of the kernel.

    ** The program and its model

    - Memory.v: RAM as a map from addresses to bytes, loads and stores in the
      processor's byte order; libc/string (memcpy, memset, memcmp).
    - Heap.v: libc/stdlib/malloc.c and libc/unistd/sbrk.c on that RAM, block
      headers included; an abstract allocator [spec] they refine.
    - StateMonad.v: C functions as [ST S A] (a state, undefined behaviour or
      exhausted fuel).  RingBuffer.v: arrays used as rings, and the interface
      [Fifo] of a bounded queue; the scheduler's and the packet queue implement it.
    - Bus.v: memory-mapped devices as the interface [Bus]; kernel/mmio.c.
    - Clock.v: kernel/time.c, kernel/drivers/timer.c.  Ev3.v: what the same files
      and the interrupt and scheduler code do on the second board.
    - Scheduler.v: kernel/scheduler.c, kernel/utilities.c.
    - PacketQueue.v, NetworkIo.v: the receive queue of kernel/network/network_task.c
      and kernel/network/network_io.c.
    - Stdio.v: libc/stdio (printf, puts, putchar).  Logger.v: kernel/logger/logger.c,
      and [log_line], the log calls of the other components.
    - PciMmio.v, Pci.v: kernel/pci/pci_mmio.c and pci.c.
    - E1000.v: the network card's driver, kernel/network/e1000.c; the card is the
      parameter [Card].  Ethernet.v, Routing.v, Arp.v, Ipv4.v: ethernet.c,
      routing.c, arp.c, ipv4.c, pdu_handler.c and one round of network_task.c,
      above the interface [Nic] with its laws [NicLaws].  TablePrint.v:
      arp_table_print.  NetworkTask.v: network_task_recv as a whole.
    - Driver.v: the contract [E1000Card] of the card and the proof that the driver
      of E1000.v implements [Nic] for every card that keeps it.  The contract
      promises nothing before the card's registers hold the places and lengths of
      the rings and enable both directions ([programmed]).  Reception.v: the
      receive interrupt under that contract.  CardInit.v: start_e1000 and
      e1000_init write these registers and bring the driver into the state the
      other files assume.
    - Interrupt.v: the state [kernel] of the whole kernel, kernel/interrupt.c and
      the meaning of kernel/interrupt_handler.S.  Syscall.v: kernel/syscall.c and
      syscall_handler.c.  Tasks.v: the task functions of kernel/main.c.
    - Arm.v: the processor.  ContextSwitch.v: kernel/interrupt_handler.S as
      instructions.  Reset.v: kernel/boot/start.S.  ModeSwitch.v: the inline
      assembly of interrupt.c, utilities.c, syscall.c and syscall_handler.c.
    - Gpio.v, Devices.v, Spi.v: kernel/drivers (pins; LEDs, buttons and motors;
      SPI, analog input and sensors).  Ports.v: the names of their headers and all
      of these drivers together.  Demo.v: kernel/demo.
    - MemoryMap.v: kernel/memory.h, the regions of RAM and the blocks of the devices.
      CardRegisters.v: the registers and flags of e1000.h and pci.h.
    - Boot.v: kernel_main.  System.v: the running system as a step relation.
      Types.v: the C types of its state.  Machine.v: the processor that runs the
      kernel's assembly, its compiled functions and the tasks.
    - Within.v: what the network stack does, from what its card does.
      Preemption.v: the kernel as a card, which interrupts and other tasks preempt
      while it sends.  Answering.v: the network task on the state of the whole
      kernel, and its runs between and among interrupts, system calls and other
      tasks.  NetworkSteps.v: these runs are runs of System.v.

    ** How the parts meet

    A device access goes through [Bus]; drivers are proved for any instance, under
    the documented behaviour of the registers they use ([plain_register],
    [GpioChip], [PlainRegisters], [E1000Card]).  The card and the driver share the
    descriptor rings and the buffers in RAM: [card_step] acts between any two
    reads of a status.  The interrupt handler hands packets to the network task
    through the ring of PacketQueue.v; the task sends through [Nic], which the
    driver implements.  Tasks, interrupts and system calls meet in [kernel]:
    [sys_step] of System.v has a case for each thing that can happen next, with
    tasks that may write to RAM, take packets and hand over frames at any time;
    [net_step] of Answering.v has the code of the network task in place of that.

    ** What is shown

    - Whole system: from power-on [kernel_main] starts the system, and every
      reachable state serves the next interrupt and system call and goes on in a
      created task, with the two system calls whose argument the dispatcher does not
      look at set apart as undefined (System.v, Syscall.v); its state keeps its C
      types (Types.v); a preempted task resumes with its registers, whatever the
      others do and call meanwhile (System.v); the assembly of the
      interrupt handler, of the system call and of the start-up implements the
      models above it (ContextSwitch.v, ModeSwitch.v, Reset.v); and the machine as a
      whole, with tasks that execute code of any kind, call the kernel and are
      interrupted anywhere, and a card that acts at any time, is simulated by the
      system, state for state, and comes back to a task from every interrupt and
      call (Machine.v).
    - Network: from power-on, every ARP request for our address that reaches the
      receive queue is answered on the wire, once and in order, whatever happens
      between the rounds of the network task and while it sends; packets shorter
      than a request are answered by what the queue's slot holds (Answering.v; the
      laws that hold under preemption are in Preemption.v), and the task stays
      within what System.v lets tasks do (NetworkSteps.v).  The parts of it: a
      request is answered by the driver (Driver.v), the task empties its queue
      whatever the bytes in it are (NetworkTask.v), the card's interrupt is safe
      whatever the card does meanwhile, and leaves a driver that is ready to send
      so, or a frame on its way (Reception.v), the initialisation establishes all of
      that (CardInit.v), and makes the receive buffers as large as the card is told
      they are (CardRegisters.v); each layer's function on each of its branches is in
      the layer's file.
    - Heap: blocks are aligned and disjoint in every reachable state (Heap.v).
      Scheduler: round robin, no task lost below the ring's capacity.  Formatted
      output: [vprintf] prints the text a format denotes, and numbers read back.
      PCI words: writers of any width and alignment change the bytes of the value
      only.  Drivers: what the pins and registers show afterwards, and that no
      driver of a port disturbs another (Ports.v).  The regions of RAM and the
      devices' blocks are apart (MemoryMap.v).
    - Where the code fails, the failure is a theorem as well: requests that wrap
      around in [malloc], the 16th task, an exhausted heap in [ethernet_send], an
      interrupt before the first task, an unknown pin, a frame whose length does not
      fit 16 bits, a pointer of a task followed unchecked, a counter that cannot be
      printed any more.

    ** Parameters and hypotheses

    The processor's byte order ([Cpu]) and the board's register that reports it
    ([Board]) are parameters, and theorems about the wire assume that the two
    agree.  Addresses the linker chooses are parameters.  Enumerations take one
    byte or two as with [-fshort-enums], [char] is unsigned, pointers have 32
    bits: the ABI of the compiler the project configures.

    ** Fuel

    Loops whose length depends on the state take fuel, and the theorems say how
    much is enough: [malloc] the length of the free list plus one; waiting for a
    frame to be sent [cd_delay] plus one, and as many polls more as there are
    interrupted ones; the receive loop [nic_load] plus one
    (the packets in the ring and those the card still holds); [ipv4_send] a bound
    on the polls in a second, for six seconds; [vprintf] a depth of two; the
    delays of the demonstrations and tasks their own bounds; polling the SPI
    interface the number of polls until it is ready.  The endless loop of the
    network task is cut off after any number of rounds, and the tasks' loops after
    any number of iterations.

    ** Simplifications

    - The task table, the packet queue, the ARP table and the driver's structure
      are records beside RAM, not bytes in it; ContextSwitch.v has the task table
      in RAM.  RAM holds the heap, frames, buffers and the vector table.
    - [errno] is a field of the heap's and of the scheduler's state.
    - Log calls under debugging macros (E1000_DEBUG and the like, which nothing
      defines) are not compiled and not modelled.  The others print with the seconds
      since start, which components that do not keep the clock get as an argument
      [now]; the buffer of the formatted time, which each call overwrites before it
      reads it ([log_line_buffer]), is left out of their state.
    - In [sys_step] tasks do not write to the kernel's variables or the card's
      registers, make no system call whose behaviour is undefined ([call_defined]),
      and one frame is sent at a time.  In [net_step] a round of the
      network task is preempted when it sends a frame, before the frame is given to
      the card and at every poll of the wait, which is where it spends its time;
      what it does before that to its own memory is not interleaved with interrupts.
    - In Machine.v the compiled [handle_interrupt] and [syscall_handler] are
      functions on the processor's state that are assumed to do what their source
      does in the states the system reaches, and to keep the procedure call
      standard.  The card acts there through a function on the devices and memory that
      is assumed to do in those states what [card_step] does.  A task stores to the
      memory its [UserArea] gives it; code of the kernel that tasks run in user mode
      ([malloc], the network stack) is a step of System.v only.
    - Registers inside a C function are the compiler's: [k_context] is the state
      at an interrupt or a call, and what a call leaves in r0 to r3 and r12, its
      result apart, is a parameter.
    - The functions in .init_array and .fini_array, the constructors and the
      destructor of kernel/drivers among them, are parameters of Reset.v, assumed
      there to keep the procedure call standard; what the drivers do is in Ports.v and
      Spi.v.

    ** Not modelled

    The coprocessor access that moves the vector table of the EV3 and the wait of
    its UART; headers that only declare types
    and prototypes; build files, emulator scripts and the tests. *)

From stdpp Require Export prelude gmap list list_numbers.
From Stdlib Require Export ZArith Lia.

#[global] Open Scope Z_scope.

(** ** Outcomes of C functions *)

(** The result of running C code: a value, undefined behaviour (an access
    outside the object, a NULL dereference the model tracks), or a loop that
    used up the fuel it was given. *)
Inductive outcome (A : Type) : Type :=
| Done (a : A)
| Undefined
| NoFuel.

Arguments Done {A} a.
Arguments Undefined {A}.
Arguments NoFuel {A}.

#[export] Instance outcome_ret : MRet outcome := fun A a => Done a.

#[export] Instance outcome_bind : MBind outcome := fun A B f m =>
  match m with
  | Done a => f a
  | Undefined => Undefined
  | NoFuel => NoFuel
  end.

#[export] Instance outcome_eq_dec {A} `{EqDecision A} : EqDecision (outcome A).
Proof. solve_decision. Defined.

(** ** Machine integers *)

(** Unsigned C integers are [Z] values kept in range by these wrap-around
    functions; [i32] is the conversion to the 32-bit two's complement [int]. *)
Definition u8 (z : Z) : Z := z `mod` 256.
Definition u16 (z : Z) : Z := z `mod` 65536.
Definition u32 (z : Z) : Z := z `mod` 4294967296.
Definition u64 (z : Z) : Z := z `mod` 18446744073709551616.
Definition i32 (z : Z) : Z := (z + 2147483648) `mod` 4294967296 - 2147483648.
Definition i64 (z : Z) : Z :=
  (z + 9223372036854775808) `mod` 18446744073709551616 - 9223372036854775808.

Definition is_u8 (z : Z) : Prop := 0 <= z < 256.
Definition is_u16 (z : Z) : Prop := 0 <= z < 65536.
Definition is_u32 (z : Z) : Prop := 0 <= z < 4294967296.
Definition is_u64 (z : Z) : Prop := 0 <= z < 18446744073709551616.
Definition is_i32 (z : Z) : Prop := -2147483648 <= z < 2147483648.
Definition is_i64 (z : Z) : Prop := -9223372036854775808 <= z < 9223372036854775808.

#[export] Instance is_u8_dec z : Decision (is_u8 z) := _.
#[export] Instance is_u16_dec z : Decision (is_u16 z) := _.
#[export] Instance is_u32_dec z : Decision (is_u32 z) := _.
#[export] Instance is_u64_dec z : Decision (is_u64 z) := _.
#[export] Instance is_i32_dec z : Decision (is_i32 z) := _.
#[export] Instance is_i64_dec z : Decision (is_i64 z) := _.

(** ** Byte strings *)

(** The byte order of the processor's data accesses. *)
Inductive endianness := LittleEndian | BigEndian.

#[export] Instance endianness_eq_dec : EqDecision endianness.
Proof. solve_decision. Defined.

Fixpoint le_bytes (n : nat) (z : Z) : list Z :=
  match n with
  | O => []
  | S n' => u8 z :: le_bytes n' (z / 256)
  end.

Fixpoint le_val (bs : list Z) : Z :=
  match bs with
  | [] => 0
  | b :: bs' => b + 256 * le_val bs'
  end.

(** An [n]-byte integer as it lies in memory, and back. *)
Definition enc (e : endianness) (n : nat) (z : Z) : list Z :=
  match e with
  | LittleEndian => le_bytes n z
  | BigEndian => rev (le_bytes n z)
  end.

Definition dec (e : endianness) (bs : list Z) : Z :=
  match e with
  | LittleEndian => le_val bs
  | BigEndian => le_val (rev bs)
  end.

(** Byte reversal of an [n]-byte integer (what [__builtin_bswap16/32] compute). *)
Definition bswap (n : nat) (z : Z) : Z := le_val (rev (le_bytes n z)).

(** The integers [0 .. n-1] a counting loop visits. *)
Definition zseq (n : nat) : list Z := Z.of_nat <$> seq 0 n.

(** ** Tactics *)

Create HintDb word discriminated.
Create Rewrite HintDb word.

(** Arithmetic with the wrap-around functions unfolded and [/], [mod] turned
    into linear constraints. *)
Ltac unfold_words :=
  unfold is_u8, is_u16, is_u32, is_u64, is_i32, is_i64,
    u8, u16, u32, u64, i32, i64 in *.

Ltac word_lia := unfold_words; Z.div_mod_to_equations; lia.

(** Case analysis on the boolean comparison or [decide] that blocks a goal. *)
Ltac case_bool :=
  match goal with
  | |- context [Z.eqb ?a ?b] => destruct (Z.eqb_spec a b)
  | |- context [Z.ltb ?a ?b] => destruct (Z.ltb_spec a b)
  | |- context [Z.leb ?a ?b] => destruct (Z.leb_spec a b)
  | |- context [decide ?P] => destruct (decide P)
  end.

Ltac case_bools := repeat (case_bool; simpl; try lia; try done).

(** ** Lemmas on machine integers *)

Lemma u8_range z : is_u8 (u8 z).
Proof. word_lia. Qed.

Lemma u16_range z : is_u16 (u16 z).
Proof. word_lia. Qed.

Lemma u32_range z : is_u32 (u32 z).
Proof. word_lia. Qed.

Lemma u64_range z : is_u64 (u64 z).
Proof. word_lia. Qed.

Lemma u8_id z : is_u8 z -> u8 z = z.
Proof. word_lia. Qed.

Lemma u16_id z : is_u16 z -> u16 z = z.
Proof. word_lia. Qed.

Lemma u32_id z : is_u32 z -> u32 z = z.
Proof. word_lia. Qed.

Lemma u64_id z : is_u64 z -> u64 z = z.
Proof. word_lia. Qed.

Lemma i32_id z : is_i32 z -> i32 z = z.
Proof. word_lia. Qed.

#[export] Hint Resolve u8_range u16_range u32_range u64_range : word.

Lemma Z_rem_mod_nonneg a n : 0 <= a -> 0 < n -> Z.rem a n = a `mod` n.
Proof. intros. apply Z.rem_mod_nonneg; lia. Qed.

(** ** Lemmas on byte strings *)

Lemma length_le_bytes n z : length (le_bytes n z) = n.
Proof. revert z; induction n; intros; simpl; auto. Qed.

Lemma le_bytes_u8 n z : Forall is_u8 (le_bytes n z).
Proof. revert z; induction n; intros; simpl; auto using u8_range. Qed.

Lemma le_val_le_bytes n z : le_val (le_bytes n z) = z `mod` 256 ^ Z.of_nat n.
Proof.
  revert z; induction n as [|n IH]; intros z; simpl.
  - by rewrite Z.mod_1_r.
  - rewrite IH, Nat2Z.inj_succ, Z.pow_succ_r by lia. unfold u8.
    rewrite Z.rem_mul_r by lia. done.
Qed.

Lemma le_val_range bs : Forall is_u8 bs -> 0 <= le_val bs < 256 ^ Z.of_nat (length bs).
Proof.
  induction 1 as [|b bs Hb _ IH]; simpl; [lia|].
  rewrite Nat2Z.inj_succ, Z.pow_succ_r by lia. unfold is_u8 in Hb. lia.
Qed.

Lemma le_bytes_le_val bs : Forall is_u8 bs -> le_bytes (length bs) (le_val bs) = bs.
Proof.
  induction 1 as [|b bs Hb _ IH]; simpl; [done|].
  f_equal; [unfold is_u8, u8 in *; word_lia|].
  replace ((b + 256 * le_val bs) / 256) with (le_val bs) by word_lia. done.
Qed.

Lemma length_enc e n z : length (enc e n z) = n.
Proof. destruct e; simpl; rewrite ?length_rev; apply length_le_bytes. Qed.

Lemma enc_u8 e n z : Forall is_u8 (enc e n z).
Proof. destruct e; simpl; [|apply Forall_rev]; apply le_bytes_u8. Qed.

#[export] Hint Resolve le_bytes_u8 enc_u8 : word.
#[export] Hint Rewrite length_le_bytes length_enc : word.

Lemma dec_enc e n z : dec e (enc e n z) = z `mod` 256 ^ Z.of_nat n.
Proof. destruct e; simpl; rewrite ?rev_involutive; apply le_val_le_bytes. Qed.

Lemma enc_dec e bs : Forall is_u8 bs -> enc e (length bs) (dec e bs) = bs.
Proof.
  intros Hbs. destruct e; simpl; [by apply le_bytes_le_val|].
  rewrite <- (length_rev bs), le_bytes_le_val, rev_involutive; [done|].
  by apply Forall_rev.
Qed.

Lemma dec_range e bs : Forall is_u8 bs -> 0 <= dec e bs < 256 ^ Z.of_nat (length bs).
Proof.
  intros Hbs. destruct e; simpl; [by apply le_val_range|].
  rewrite <- (length_rev bs). apply le_val_range. by apply Forall_rev.
Qed.

(** Decoding in the other byte order is decoding and swapping. *)
Lemma bswap_dec e bs : Forall is_u8 bs ->
  bswap (length bs) (dec e bs) = dec (match e with LittleEndian => BigEndian
                                      | BigEndian => LittleEndian end) bs.
Proof.
  intros Hbs. unfold bswap. destruct e; simpl.
  - by rewrite le_bytes_le_val.
  - rewrite <- (length_rev bs), le_bytes_le_val, rev_involutive by (by apply Forall_rev).
    done.
Qed.

Lemma bswap_range n z : 0 <= bswap n z < 256 ^ Z.of_nat n.
Proof.
  unfold bswap.
  replace (Z.of_nat n) with (Z.of_nat (length (rev (le_bytes n z))))
    by (by rewrite length_rev, length_le_bytes).
  apply le_val_range, Forall_rev, le_bytes_u8.
Qed.

Lemma bswap_involutive n z : 0 <= z < 256 ^ Z.of_nat n -> bswap n (bswap n z) = z.
Proof.
  intros Hz. unfold bswap.
  replace n with (length (rev (le_bytes n z))) at 1
    by (by rewrite length_rev, length_le_bytes).
  rewrite le_bytes_le_val, rev_involutive by (apply Forall_rev, le_bytes_u8).
  rewrite le_val_le_bytes, Z.mod_small; done.
Qed.

(** ** Lemmas on lists *)

Lemma length_zseq n : length (zseq n) = n.
Proof. unfold zseq. by rewrite length_fmap, length_seq. Qed.

Lemma lookup_zseq n i : (i < n)%nat -> zseq n !! i = Some (Z.of_nat i).
Proof. intros Hi. unfold zseq. by rewrite list_lookup_fmap, lookup_seq_lt by done. Qed.

Lemma elem_of_zseq n z : z ∈ zseq n <-> 0 <= z < Z.of_nat n.
Proof.
  unfold zseq. rewrite list_elem_of_fmap. setoid_rewrite elem_of_seq. split.
  - intros (k & -> & ?). lia.
  - intros ?. exists (Z.to_nat z). lia.
Qed.

(** A boolean statement about all bytes, decided by evaluation. *)
Lemma u8_forall (P : Z -> bool) :
  forallb P (zseq 256) = true -> forall v, is_u8 v -> P v = true.
Proof.
  rewrite forallb_forall. intros HP v Hv. apply HP.
  apply list_elem_of_In, elem_of_zseq. exact Hv.
Qed.

Lemma submseteq_NoDup {A} (l1 l2 : list A) : l1 ⊆+ l2 -> NoDup l2 -> NoDup l1.
Proof.
  intros Hsub Hnd. apply submseteq_Permutation in Hsub as [k Hp].
  rewrite Hp in Hnd. by apply NoDup_app in Hnd as (? & _).
Qed.
