(* ===== verification/Memory.v ===== *)
(** * Byte-addressed RAM and the libc string routines

    RAM is a finite map from addresses to bytes; an address that was never
    written reads as 0, so any initial contents can be represented.  The loads
    and stores of the C code go through [load]/[store] in the byte order of the
    processor.  [memcpy], [memset] and [memcmp] are the loops of
    libc/string/*.c. *)

From S2P Require Import Prelude.

(** ** Definitions *)

Abbreviation mem := (gmap Z Z).

(** RAM of the board; everything above is devices. *)
Definition RAM_SIZE : Z := 0x8000000.

Definition get8 (m : mem) (a : Z) : Z := u8 (default 0 (m !! a)).

Definition put8 (m : mem) (a v : Z) : mem := <[a := u8 v]> m.

Fixpoint read_bytes (m : mem) (a : Z) (n : nat) : list Z :=
  match n with
  | O => []
  | S n' => get8 m a :: read_bytes m (a + 1) n'
  end.

Fixpoint write_bytes (m : mem) (a : Z) (bs : list Z) : mem :=
  match bs with
  | [] => m
  | b :: bs' => write_bytes (put8 m a b) (a + 1) bs'
  end.

Definition load (e : endianness) (n : nat) (m : mem) (a : Z) : Z :=
  dec e (read_bytes m a n).

Definition store (e : endianness) (n : nat) (m : mem) (a v : Z) : mem :=
  write_bytes m a (enc e n v).

(** [for (i = 0; i < n; ++i) dest[i] = src[i];] with [k] iterations left. *)
Fixpoint memcpy_loop (m : mem) (dest src i : Z) (k : nat) : mem :=
  match k with
  | O => m
  | S k' => memcpy_loop (put8 m (dest + i) (get8 m (src + i))) dest src (i + 1) k'
  end.

Definition memcpy (m : mem) (dest src n : Z) : mem :=
  memcpy_loop m dest src 0 (Z.to_nat n).

(** [for (i = s; i < s + n; ++i) *i = c;] *)
Fixpoint memset_loop (m : mem) (i c : Z) (k : nat) : mem :=
  match k with
  | O => m
  | S k' => memset_loop (put8 m i (u8 c)) (i + 1) c k'
  end.

Definition memset (m : mem) (s c n : Z) : mem := memset_loop m s c (Z.to_nat n).

(** [char] is unsigned on ARM, so the difference of the first unequal pair of
    bytes is returned. *)
Fixpoint memcmp_loop (m : mem) (s1 s2 i : Z) (k : nat) : Z :=
  match k with
  | O => 0
  | S k' =>
      let res := get8 m (s1 + i) - get8 m (s2 + i) in
      if res =? 0 then memcmp_loop m s1 s2 (i + 1) k' else res
  end.

Definition memcmp (m : mem) (s1 s2 n : Z) : Z := memcmp_loop m s1 s2 0 (Z.to_nat n).

(** Two memories are equivalent when every byte reads the same. *)
#[export] Instance mem_equiv : Equiv mem := fun m1 m2 => forall a, get8 m1 a = get8 m2 a.

(** [m'] differs from [m] at most on the [n] bytes at [a]. *)
Definition same_outside (m m' : mem) (a n : Z) : Prop :=
  forall x, ~ (a <= x < a + n) -> get8 m' x = get8 m x.

(** The [n] bytes at [a] and the [k] bytes at [b] do not overlap. *)
Definition separate (a n b k : Z) : Prop := a + n <= b \/ b + k <= a.

#[export] Instance separate_dec a n b k : Decision (separate a n b k) := _.

(** ** Reading and writing bytes *)

#[export] Instance mem_equiv_equivalence : Equivalence (≡@{mem}).
Proof.
  split.
  - by intros m a.
  - intros m1 m2 H a. by rewrite (H a).
  - intros m1 m2 m3 H1 H2 a. by rewrite (H1 a), (H2 a).
Qed.

Lemma get8_range m a : is_u8 (get8 m a).
Proof. apply u8_range. Qed.

#[export] Hint Resolve get8_range : word.

Lemma get8_put8 m a v x : get8 (put8 m a v) x = if decide (a = x) then u8 v else get8 m x.
Proof.
  unfold get8, put8. rewrite lookup_insert. case_decide; [|done].
  simpl. apply u8_id, u8_range.
Qed.

Lemma length_read_bytes m a n : length (read_bytes m a n) = n.
Proof. revert a; induction n; intros; simpl; auto. Qed.

#[export] Hint Rewrite length_read_bytes : word.

Lemma read_bytes_u8 m a n : Forall is_u8 (read_bytes m a n).
Proof. revert a; induction n; intros; simpl; auto using get8_range. Qed.

#[export] Hint Resolve read_bytes_u8 : word.

Lemma lookup_read_bytes m a n i :
  (i < n)%nat -> read_bytes m a n !! i = Some (get8 m (a + Z.of_nat i)).
Proof.
  revert a i; induction n as [|n IH]; intros a [|i] Hi; simpl; [lia|lia| |].
  - by rewrite Z.add_0_r.
  - rewrite IH by lia. do 2 f_equal. lia.
Qed.

Lemma read_bytes_ext m m' a n :
  (forall x, a <= x < a + Z.of_nat n -> get8 m x = get8 m' x) ->
  read_bytes m a n = read_bytes m' a n.
Proof.
  revert a; induction n as [|n IH]; intros a H; simpl; [done|].
  f_equal; [apply H; lia | apply IH; intros; apply H; lia].
Qed.

Lemma read_bytes_app m a n k :
  read_bytes m a (n + k) = read_bytes m a n ++ read_bytes m (a + Z.of_nat n) k.
Proof.
  revert a; induction n as [|n IH]; intros a; simpl; [f_equal; lia|].
  rewrite IH. do 3 f_equal. lia.
Qed.

#[export] Instance read_bytes_proper : Proper ((≡) ==> eq ==> eq ==> eq) read_bytes.
Proof. intros m m' Hm a ? <- n ? <-. by apply read_bytes_ext. Qed.

#[export] Instance load_proper e n : Proper ((≡) ==> eq ==> eq) (load e n).
Proof. intros m m' Hm a ? <-. unfold load. by rewrite Hm. Qed.

#[export] Instance put8_proper : Proper ((≡) ==> eq ==> eq ==> (≡)) put8.
Proof. intros m m' Hm a ? <- v ? <- x. rewrite !get8_put8. by case_decide. Qed.

#[export] Instance write_bytes_proper : Proper ((≡) ==> eq ==> eq ==> (≡)) write_bytes.
Proof.
  intros m m' Hm a ? <- bs ? <-. revert a m m' Hm.
  induction bs as [|b bs IH]; intros; simpl; [done|]. apply IH. by rewrite Hm.
Qed.

Lemma get8_write_bytes m a bs x :
  get8 (write_bytes m a bs) x =
  if decide (a <= x < a + Z.of_nat (length bs))
  then u8 (bs !!! Z.to_nat (x - a)) else get8 m x.
Proof.
  revert a m; induction bs as [|b bs IH]; intros a m; simpl.
  - case_decide; [lia|done].
  - rewrite IH, get8_put8. destruct (decide (a = x)) as [<-|Hne].
    + rewrite decide_False, decide_True by lia. by rewrite Z.sub_diag.
    + repeat case_decide; try lia.
      by replace (Z.to_nat (x - a)) with (S (Z.to_nat (x - (a + 1)))) by lia.
Qed.

Lemma write_bytes_outside m a bs x :
  ~ (a <= x < a + Z.of_nat (length bs)) -> get8 (write_bytes m a bs) x = get8 m x.
Proof. intros. by rewrite get8_write_bytes, decide_False. Qed.

Lemma write_bytes_same_outside m a bs :
  same_outside m (write_bytes m a bs) a (Z.of_nat (length bs)).
Proof. intros x ?. by apply write_bytes_outside. Qed.

Lemma read_write_bytes m a bs :
  Forall is_u8 bs -> read_bytes (write_bytes m a bs) a (length bs) = bs.
Proof.
  intros Hbs. apply list_eq. intros i.
  destruct (decide (i < length bs)%nat) as [Hi|Hi].
  - rewrite lookup_read_bytes, get8_write_bytes, decide_True by lia.
    replace (Z.to_nat (a + Z.of_nat i - a)) with i by lia.
    destruct (lookup_lt_is_Some_2 bs i Hi) as [b Hb].
    rewrite (list_lookup_total_correct _ _ _ Hb), Hb. f_equal.
    apply u8_id. by eapply Forall_lookup_1.
  - rewrite !lookup_ge_None_2; [done| |rewrite length_read_bytes]; lia.
Qed.

Lemma read_write_bytes_separate m a bs b n :
  separate a (Z.of_nat (length bs)) b (Z.of_nat n) ->
  read_bytes (write_bytes m a bs) b n = read_bytes m b n.
Proof.
  intros Hs. apply read_bytes_ext. intros x Hx. apply write_bytes_outside.
  unfold separate in Hs. lia.
Qed.

Lemma write_bytes_app m a bs bs' :
  write_bytes m a (bs ++ bs') =
  write_bytes (write_bytes m a bs) (a + Z.of_nat (length bs)) bs'.
Proof.
  revert m a; induction bs as [|b bs IH]; intros m a; simpl.
  - by rewrite Z.add_0_r.
  - rewrite IH. f_equal. lia.
Qed.

(** ** Loads and stores *)

Lemma load_range e n m a : 0 <= load e n m a < 256 ^ Z.of_nat n.
Proof.
  unfold load. pose proof (dec_range e (read_bytes m a n) (read_bytes_u8 m a n)) as H.
  by rewrite length_read_bytes in H.
Qed.

Lemma load_store_same e n m a v :
  load e n (store e n m a v) a = v `mod` 256 ^ Z.of_nat n.
Proof.
  unfold load, store. pose proof (read_write_bytes m a (enc e n v) (enc_u8 e n v)) as H.
  rewrite length_enc in H. rewrite H. apply dec_enc.
Qed.

Lemma load_store_separate e n k m a b v :
  separate a (Z.of_nat n) b (Z.of_nat k) ->
  load e k (store e n m a v) b = load e k m b.
Proof.
  intros Hs. unfold load, store. rewrite read_write_bytes_separate; [done|].
  by rewrite length_enc.
Qed.

Lemma store_same_outside e n m a v : same_outside m (store e n m a v) a (Z.of_nat n).
Proof.
  unfold store. pose proof (write_bytes_same_outside m a (enc e n v)) as H.
  by rewrite length_enc in H.
Qed.

Lemma load_ext e n m m' a :
  (forall x, a <= x < a + Z.of_nat n -> get8 m x = get8 m' x) ->
  load e n m a = load e n m' a.
Proof. intros. unfold load. f_equal. by apply read_bytes_ext. Qed.

(** ** The string routines *)

Lemma memcpy_loop_eq m0 m dest src i k :
  separate dest (i + Z.of_nat k) src (i + Z.of_nat k) \/ dest <= src ->
  0 <= i ->
  (forall x, src + i <= x < src + i + Z.of_nat k -> get8 m x = get8 m0 x) ->
  memcpy_loop m dest src i k =
  write_bytes m (dest + i) (read_bytes m0 (src + i) k).
Proof.
  revert m i; induction k as [|k IH]; intros m i Hs Hi H; simpl; [done|].
  rewrite IH; try lia.
  - rewrite (H (src + i)) by lia. by rewrite <- !Z.add_assoc.
  - unfold separate in *. lia.
  - intros x Hx. rewrite get8_put8, decide_False; [apply H; lia|].
    unfold separate in Hs. lia.
Qed.

(** [memcpy] copies the source bytes when the regions do not overlap, and also
    when they do and the destination starts first (the loop runs upwards). *)
Lemma memcpy_eq m dest src n :
  0 <= n -> separate dest n src n \/ dest <= src ->
  memcpy m dest src n = write_bytes m dest (read_bytes m src (Z.to_nat n)).
Proof.
  intros Hn Hs. unfold memcpy. rewrite (memcpy_loop_eq m); rewrite ?Z.add_0_r; try done.
  rewrite Z2Nat.id by lia. by rewrite Z.add_0_l.
Qed.

Lemma memset_eq m s c n :
  memset m s c n = write_bytes m s (replicate (Z.to_nat n) (u8 c)).
Proof.
  unfold memset. generalize (Z.to_nat n) as k. intros k. revert m s.
  induction k as [|k IH]; intros; simpl; auto.
Qed.

Lemma memcmp_loop_zero m s1 s2 i k :
  memcmp_loop m s1 s2 i k = 0 <-> read_bytes m (s1 + i) k = read_bytes m (s2 + i) k.
Proof.
  revert i; induction k as [|k IH]; intros i; simpl; [done|].
  destruct (Z.eqb_spec (get8 m (s1 + i) - get8 m (s2 + i)) 0).
  - rewrite IH, <- !Z.add_assoc. split; intros E.
    + f_equal; [lia|done].
    + by injection E.
  - split; intros E; [lia|]. injection E; lia.
Qed.

Lemma memcmp_zero_iff m s1 s2 n :
  memcmp m s1 s2 n = 0 <->
  read_bytes m s1 (Z.to_nat n) = read_bytes m s2 (Z.to_nat n).
Proof. unfold memcmp. by rewrite memcmp_loop_zero, !Z.add_0_r. Qed.
