(* ===== verification/RingBuffer.v ===== *)
(** * Ring buffers that keep one slot free

    The scheduler's task queue and the network task's packet queue are both an
    array with a start and an end index, empty when the two are equal and full
    when advancing the end would reach the start.  The Section below gives the
    list of elements such a ring holds and the effect of the two index updates
    on it.  The class [Fifo] is what the two components promise to their
    clients: a bounded queue that drops an element pushed when it is full. *)

From S2P Require Import Prelude.

(** ** The elements of a ring *)

Section Ring.
Context {A : Type} `{Inhabited A} (N : Z).

Definition ring_next (i : Z) : Z := (i + 1) `mod` N.

Definition ring_count (s e : Z) : nat := Z.to_nat ((e - s) `mod` N).

Fixpoint ring_slots (s : Z) (k : nat) : list Z :=
  match k with
  | O => []
  | S k' => s :: ring_slots (ring_next s) k'
  end.

Definition ring_contents (buf : list A) (s e : Z) : list A :=
  (fun i => buf !!! Z.to_nat i) <$> ring_slots s (ring_count s e).

Definition ring_ok (buf : list A) (s e : Z) : Prop :=
  Z.of_nat (length buf) = N /\ 0 <= s < N /\ 0 <= e < N.

Lemma ring_next_range i : 0 < N -> 0 <= ring_next i < N.
Proof. intros. unfold ring_next. by apply Z.mod_pos_bound. Qed.

Lemma ring_next_cases i :
  0 <= i < N -> ring_next i = if decide (i + 1 = N) then 0 else i + 1.
Proof.
  intros. unfold ring_next. case_decide as E.
  - rewrite E. apply Z.mod_same. lia.
  - apply Z.mod_small. lia.
Qed.

Lemma ring_count_cases s e :
  0 <= s < N -> 0 <= e < N ->
  ring_count s e = if decide (s <= e) then Z.to_nat (e - s) else Z.to_nat (e - s + N).
Proof.
  intros. unfold ring_count. case_decide.
  - rewrite Z.mod_small by lia. done.
  - rewrite <- (Z.mod_add _ 1) by lia. rewrite Z.mod_small by lia. f_equal. lia.
Qed.

Lemma ring_count_bound s e : 0 < N -> Z.of_nat (ring_count s e) < N.
Proof.
  intros. unfold ring_count. pose proof (Z.mod_pos_bound (e - s) N). lia.
Qed.

Lemma ring_count_zero s e :
  0 <= s < N -> 0 <= e < N -> ring_count s e = 0%nat <-> s = e.
Proof. intros. rewrite ring_count_cases by done. case_decide; lia. Qed.

Lemma ring_count_snoc s e :
  0 <= s < N -> 0 <= e < N -> ring_next e <> s ->
  ring_count s (ring_next e) = S (ring_count s e).
Proof.
  intros Hs He Hne.
  rewrite !ring_count_cases by (auto using ring_next_range with lia).
  rewrite ring_next_cases in * by done. repeat case_decide; lia.
Qed.

Lemma ring_count_full s e :
  0 <= s < N -> 0 <= e < N ->
  ring_next e = s <-> Z.of_nat (ring_count s e) = N - 1.
Proof.
  intros Hs He. rewrite ring_next_cases, ring_count_cases by done.
  repeat case_decide; lia.
Qed.

Lemma ring_count_tail s e :
  0 <= s < N -> 0 <= e < N -> s <> e ->
  ring_count s e = S (ring_count (ring_next s) e).
Proof.
  intros Hs He Hne.
  rewrite !ring_count_cases by (auto using ring_next_range with lia).
  rewrite ring_next_cases by done. repeat case_decide; lia.
Qed.

Lemma length_ring_slots s k : length (ring_slots s k) = k.
Proof. revert s; induction k; intros; simpl; auto. Qed.

Lemma length_ring_contents buf s e : length (ring_contents buf s e) = ring_count s e.
Proof. unfold ring_contents. by rewrite length_fmap, length_ring_slots. Qed.

Lemma ring_slots_snoc s k :
  0 <= s < N ->
  ring_slots s (S k) = ring_slots s k ++ [(s + Z.of_nat k) `mod` N].
Proof.
  revert s; induction k as [|k IH]; intros s Hs.
  - simpl. rewrite Z.add_0_r, Z.mod_small by lia. done.
  - change (ring_slots s (S (S k))) with (s :: ring_slots (ring_next s) (S k)).
    rewrite IH by (apply ring_next_range; lia). simpl. do 2 f_equal.
    unfold ring_next. rewrite Z.add_mod_idemp_l by lia. do 2 f_equal; lia.
Qed.

Lemma elem_of_ring_slots s k i :
  0 <= s < N -> i ∈ ring_slots s k ->
  exists j, 0 <= j < Z.of_nat k /\ i = (s + j) `mod` N.
Proof.
  induction k as [|k IH]; intros Hs Hi; [by apply not_elem_of_nil in Hi|].
  rewrite ring_slots_snoc in Hi by done.
  apply elem_of_app in Hi as [Hi|Hi%list_elem_of_singleton].
  - destruct (IH Hs Hi) as (j & ? & ->). exists j. lia.
  - exists (Z.of_nat k). lia.
Qed.

(** The slot the next insertion fills holds no element of the ring. *)
Lemma ring_end_free s e :
  0 <= s < N -> 0 <= e < N -> e ∉ ring_slots s (ring_count s e).
Proof.
  intros Hs He Hin. apply elem_of_ring_slots in Hin as (j & Hj & Hej); [|done].
  unfold ring_count in Hj. pose proof (Z.mod_pos_bound (e - s) N).
  rewrite Hej, Zminus_mod_idemp_l in Hj.
  replace (s + j - s) with j in Hj by lia. rewrite Z.mod_small in Hj; [lia|].
  pose proof (Z.mod_pos_bound (e - s) N). unfold ring_count in *. 
  assert (j < N); [|lia]. destruct Hj as [_ Hj].
  pose proof (Z.mod_pos_bound j N). lia.
Qed.

(** ** The two index updates *)

Lemma ring_contents_nil buf s : 0 <= s < N -> ring_contents buf s s = [].
Proof.
  intros. unfold ring_contents.
  by rewrite (proj2 (ring_count_zero s s ltac:(done) ltac:(done)) eq_refl).
Qed.

Lemma ring_contents_nil_inv buf s e :
  0 <= s < N -> 0 <= e < N -> ring_contents buf s e = [] <-> s = e.
Proof.
  intros Hs He. rewrite <- (ring_count_zero s e) by done.
  rewrite <- (length_ring_contents buf). split; [by intros ->|apply nil_length_inv].
Qed.

Lemma ring_contents_insert buf s e x :
  ring_ok buf s e -> ring_next e <> s ->
  ring_contents (<[Z.to_nat e := x]> buf) s (ring_next e) = ring_contents buf s e ++ [x].
Proof.
  intros (Hlen & Hs & He) Hne. unfold ring_contents.
  rewrite ring_count_snoc, ring_slots_snoc, fmap_app by done. f_equal.
  - apply list_fmap_ext. intros i j Hij%list_elem_of_lookup_2.
    rewrite list_lookup_total_insert_ne; [done|]. intros E.
    pose proof (ring_end_free s e Hs He) as Hfree.
    apply elem_of_ring_slots in Hij as Hij'; [|done].
    destruct Hij' as (k & Hk & Hjk).
    pose proof (Z.mod_pos_bound (s + k) N). assert (j = e) as -> by lia. done.
  - simpl. f_equal.
    replace ((s + Z.of_nat (ring_count s e)) `mod` N) with e.
    + apply list_lookup_total_insert_eq. lia.
    + unfold ring_count. pose proof (Z.mod_pos_bound (e - s) N).
      rewrite Z2Nat.id, Zplus_mod_idemp_r by lia.
      replace (s + (e - s)) with e by lia. by rewrite Z.mod_small.
Qed.

Lemma ring_contents_remove buf s e :
  0 <= s < N -> 0 <= e < N -> s <> e ->
  ring_contents buf s e = (buf !!! Z.to_nat s) :: ring_contents buf (ring_next s) e.
Proof. intros Hs He Hne. unfold ring_contents. by rewrite ring_count_tail. Qed.

End Ring.

(** ** Bounded queues *)

(** The promise of a bounded queue: [fq_view] is the list of queued elements,
    a push of an admissible element ([fq_elem]) appends it while there is room
    and drops it when [fq_cap] elements are queued. *)
Class Fifo (Q A : Type) := {
  fq_ok : Q -> Prop;
  fq_elem : A -> Prop;
  fq_cap : nat;
  fq_view : Q -> list A;
  fq_push : A -> Q -> Q;
  fq_pop : Q -> option A * Q;
  fq_push_ok x q : fq_ok q -> fq_elem x -> fq_ok (fq_push x q);
  fq_pop_ok q : fq_ok q -> fq_ok (fq_pop q).2;
  fq_push_room x q : fq_ok q -> fq_elem x -> (length (fq_view q) < fq_cap)%nat ->
    fq_view (fq_push x q) = fq_view q ++ [x];
  fq_push_full x q : fq_ok q -> (fq_cap <= length (fq_view q))%nat ->
    fq_view (fq_push x q) = fq_view q;
  fq_pop_view q : fq_ok q ->
    (fq_pop q).1 = head (fq_view q) /\ fq_view (fq_pop q).2 = tail (fq_view q);
}.

Inductive fifo_op (A : Type) : Type :=
| Push (x : A)
| Pop.

Arguments Push {A} x.
Arguments Pop {A}.

Section FifoClient.
Context {Q A : Type} `{Fifo Q A}.

Definition op_ok (op : fifo_op A) : Prop :=
  match op with Push x => fq_elem x | Pop => True end.

(** A run of pushes and pops: the elements popped, the elements a push found
    room for, and the final queue. *)
Fixpoint fifo_run (ops : list (fifo_op A)) (q : Q) : list A * list A * Q :=
  match ops with
  | [] => ([], [], q)
  | Push x :: ops' =>
      let '(out, acc, q') := fifo_run ops' (fq_push x q) in
      (out, (if decide (length (fq_view q) < fq_cap)%nat then [x] else []) ++ acc, q')
  | Pop :: ops' =>
      let '(r, q1) := fq_pop q in
      let '(out, acc, q') := fifo_run ops' q1 in
      (option_list r ++ out, acc, q')
  end.

(** Whatever the interleaving, the elements leave in the order in which they
    were accepted, none is duplicated and none is lost after acceptance. *)
Lemma fifo_run_order ops q out acc q' :
  fq_ok q -> Forall op_ok ops -> fifo_run ops q = (out, acc, q') ->
  fq_ok q' /\ out ++ fq_view q' = fq_view q ++ acc.
Proof.
  revert q out acc q'. induction ops as [|[x|] ops IH]; intros q out acc q' Hq Hops Hrun; simpl in Hrun;
    try apply Forall_cons in Hops as [Hop Hops].
  - simplify_eq. by rewrite app_nil_r.
  - destruct (fifo_run ops (fq_push x q)) as [[out1 acc1] q1] eqn:E. simplify_eq.
    destruct (IH _ _ _ _ (fq_push_ok x q Hq Hop) Hops E) as [? Hord]. split; [done|].
    rewrite Hord. case_decide as Hc.
    + rewrite fq_push_room by done. by rewrite <- app_assoc.
    + rewrite fq_push_full by (done || lia). done.
  - destruct (fq_pop q) as [r q1] eqn:Ep.
    destruct (fifo_run ops q1) as [[out1 acc1] q2] eqn:E. simplify_eq.
    pose proof (fq_pop_ok q Hq) as Hq1. pose proof (fq_pop_view q Hq) as [Hr Hv].
    rewrite Ep in Hq1, Hr, Hv; simpl in *.
    destruct (IH _ _ _ _ Hq1 Hops E) as [? Hord]. split; [done|].
    rewrite <- app_assoc, Hord, Hr, Hv. by destruct (fq_view q).
Qed.

End FifoClient.
