(* ===== verification/StateMonad.v ===== *)
(** * C functions that thread a state

    [ST S A] is a C function over the global state [S] that returns an [A],
    has undefined behaviour, or runs out of fuel.  Loops whose number of
    iterations depends on the state take fuel. *)

From S2P Require Import Prelude.

Definition ST (S A : Type) : Type := S -> outcome (A * S).

#[export] Instance st_ret {S} : MRet (ST S) := fun A a s => Done (a, s).

#[export] Instance st_bind {S} : MBind (ST S) := fun A B f m s =>
  match m s with
  | Done (a, s') => f a s'
  | Undefined => Undefined
  | NoFuel => NoFuel
  end.

Section Operations.
Context {S : Type}.

Definition get : ST S S := fun s => Done (s, s).
Definition gets {A} (f : S -> A) : ST S A := fun s => Done (f s, s).
Definition modify (f : S -> S) : ST S unit := fun s => Done (tt, f s).
Definition undefined {A} : ST S A := fun _ => Undefined.
Definition no_fuel {A} : ST S A := fun _ => NoFuel.

(** A computation on a component of the state. *)
Definition zoom {T A} (view : S -> T) (set : T -> S -> S) (m : ST T A) : ST S A := fun s =>
  match m (view s) with
  | Done (a, t) => Done (a, set t s)
  | Undefined => Undefined
  | NoFuel => NoFuel
  end.

(** A total function on a component of the state. *)
Definition lift {T A} (view : S -> T) (set : T -> S -> S) (f : T -> A * T) : ST S A := fun s =>
  let '(a, t) := f (view s) in Done (a, set t s).

(** [for] over a list of indices. *)
Fixpoint for_each {I} (l : list I) (body : I -> ST S unit) : ST S unit :=
  match l with
  | [] => mret ()
  | i :: l' => body i ;; for_each l' body
  end.

(** [m] started in [s] returns [a] and leaves [s']. *)
Definition runs {A} (m : ST S A) (s : S) (a : A) (s' : S) : Prop := m s = Done (a, s').

Lemma runs_ret {A} (a : A) s : runs (mret a) s a s.
Proof. done. Qed.

Lemma runs_bind {A B} (m : ST S A) (f : A -> ST S B) s a s1 b s2 :
  runs m s a s1 -> runs (f a) s1 b s2 -> runs (m ≫= f) s b s2.
Proof. unfold runs, mbind, st_bind. by intros ->. Qed.

Lemma bind_done {A B} (m : ST S A) (f : A -> ST S B) s a s1 :
  m s = Done (a, s1) -> (m ≫= f) s = f a s1.
Proof. unfold mbind, st_bind. by intros ->. Qed.

Lemma bind_undefined {A B} (m : ST S A) (f : A -> ST S B) s : m s = Undefined -> (m ≫= f) s = Undefined.
Proof. unfold mbind, st_bind. by intros ->. Qed.

Lemma bind_done_inv {A B} (m : ST S A) (f : A -> ST S B) s b s2 :
  (m ≫= f) s = Done (b, s2) -> exists a s1, m s = Done (a, s1) /\ f a s1 = Done (b, s2).
Proof. unfold mbind, st_bind. destruct (m s) as [[a s1]| |]; [|done..]. by exists a, s1. Qed.

Lemma for_each_app {I} (l1 l2 : list I) body s :
  for_each (l1 ++ l2) body s = (for_each l1 body ;; for_each l2 body) s.
Proof.
  revert s. induction l1 as [|i l1 IH]; intros s; simpl; [done|].
  unfold mbind, st_bind in *. destruct (body i s) as [[u s1]| |]; [|done..]. apply IH.
Qed.

(** [m] returns from every state of the invariant [I] and keeps it. *)
Definition returns {A} (I : S -> Prop) (m : ST S A) : Prop :=
  forall s, I s -> exists a s', m s = Done (a, s') /\ I s'.

Lemma returns_ret {A} I (a : A) : returns I (mret a).
Proof. intros s Hs. by exists a, s. Qed.

Lemma returns_gets {A} I (f : S -> A) : returns I (gets f).
Proof. intros s Hs. by exists (f s), s. Qed.

Lemma returns_bind {A B} I (m : ST S A) (f : A -> ST S B) :
  returns I m -> (forall a, returns I (f a)) -> returns I (m ≫= f).
Proof.
  intros Hm Hf s Hs. destruct (Hm s Hs) as (a & s1 & E & H1). rewrite (bind_done _ _ _ _ _ E). by apply Hf.
Qed.

Lemma returns_if {A} I (b : bool) (m1 m2 : ST S A) : returns I m1 -> returns I m2 -> returns I (if b then m1 else m2).
Proof. by destruct b. Qed.

Lemma returns_for_each {Ix} I (l : list Ix) body : (forall i, returns I (body i)) -> returns I (for_each l body).
Proof.
  intros Hb. induction l as [|i l IH]; [apply returns_ret|]. by apply returns_bind.
Qed.

End Operations.

#[export] Hint Resolve runs_ret runs_bind : runs.

Create HintDb returns discriminated.
#[export] Hint Resolve returns_ret returns_gets : returns.

(** Totality of a program from the totality of its operations. *)
Ltac solve_returns :=
  repeat first
    [ solve [auto 2 with returns nocore]
    | match goal with |- returns _ (for_each _ _) => apply returns_for_each end
    | apply returns_bind
    | apply returns_if
    | progress cbv zeta
    | match goal with |- forall _, returns _ _ => intros ? end ].

(** Symbolic execution: expose the next operation of a program. *)
Ltac st_unfold :=
  unfold mbind, mret, st_bind, st_ret, get, gets, modify, lift, zoom, undefined in *.

Ltac st_step := st_unfold; cbn beta iota zeta.
