(* ===== verification/Heap.v ===== *)
(** * The C heap: sbrk, malloc and free

    libc/unistd/sbrk.c and libc/stdlib/malloc.c, on byte-addressed RAM: the
    header of a block (its [next] pointer and its [size]) lies in the 16 bytes
    in front of the memory handed out, and the free blocks form a singly linked
    list through these headers.  An abstract allocator (a list of free blocks,
    a list of live blocks and the break) says what the two functions promise;
    [heap_rep] ties it to RAM. *)

From S2P Require Import Prelude Memory.

(** ** Definitions *)

(** The byte order of the processor the kernel runs on. *)
Class Cpu := cpu_endian : endianness.

Definition NULL : Z := 0.
Definition ENOMEM : Z := 12.
Definition HEAP_SIZE : Z := 0x1000000.
Definition HEAP_START : Z := 0x5000000.

(** [ALIGN(val, 16)]: [(val + 15) & -16] on [size_t]. *)
Definition ALIGN_16 (val : Z) : Z := Z.land (u32 (val + 15)) (u32 (-16)).

(** [sizeof(block_t)] is 8: a pointer and a [size_t]. *)
Definition sizeof_block : Z := 8.
Definition overhead : Z := ALIGN_16 sizeof_block.

Record heap := mk_heap {
  ram : mem;
  current_heap_address : Z;
  free_head : Z;             (* free_block_list_head.next *)
  errno : Z;
}.

Definition set_ram (m : mem) (h : heap) : heap :=
  mk_heap m (current_heap_address h) (free_head h) (errno h).
Definition set_break (a : Z) (h : heap) : heap :=
  mk_heap (ram h) a (free_head h) (errno h).
Definition set_free_head (a : Z) (h : heap) : heap :=
  mk_heap (ram h) (current_heap_address h) a (errno h).
Definition set_errno (v : Z) (h : heap) : heap :=
  mk_heap (ram h) (current_heap_address h) (free_head h) v.

Definition sbrk (increment : Z) (h : heap) : Z * heap :=
  if HEAP_START + HEAP_SIZE <? u32 (current_heap_address h + increment)
  then (NULL, set_errno ENOMEM h)
  else (current_heap_address h,
        set_break (u32 (current_heap_address h + increment)) h).

(** What [block_t **head] points to: the static list head or the [next] field
    of a block. *)
Inductive link := LinkHead | LinkNext (block : Z).

Section Malloc.
Context {cpu : Cpu}.

Definition load32 (h : heap) (a : Z) : Z := load cpu_endian 4 (ram h) a.
Definition store32 (a v : Z) (h : heap) : heap :=
  set_ram (store cpu_endian 4 (ram h) a v) h.

Definition block_next (h : heap) (block : Z) : Z := load32 h block.
Definition block_size (h : heap) (block : Z) : Z := load32 h (block + 4).

Definition set_link (l : link) (v : Z) (h : heap) : heap :=
  match l with
  | LinkHead => set_free_head v h
  | LinkNext block => store32 block v h
  end.

(** The [while] loop of [malloc]: the first block of the free list that is
    large enough, already unlinked, or none. *)
Fixpoint find_block (fuel : nat) (head : link) (block size : Z) (h : heap)
    : outcome (option Z * heap) :=
  match fuel with
  | O => NoFuel
  | S fuel' =>
      if block =? NULL then Done (None, h)
      else if size <=? block_size h block
      then Done (Some block, set_link head (block_next h block) h)
      else find_block fuel' (LinkNext block) (block_next h block) size h
  end.

Definition malloc (fuel : nat) (size : Z) (h : heap) : outcome (Z * heap) :=
  let size := ALIGN_16 (u32 (size + overhead)) in
  '(found, h1) ← find_block fuel LinkHead (free_head h) size h;
  match found with
  | Some block => Done (u32 (block + overhead), h1)
  | None =>
      let '(block, h2) := sbrk size h1 in
      if block =? NULL then Done (NULL, set_errno ENOMEM h2)
      else Done (u32 (block + overhead), store32 (block + 4) size h2)
  end.

Definition free (ptr : Z) (h : heap) : heap :=
  let block := u32 (ptr - overhead) in
  let h1 := store32 block (free_head h) h in
  set_free_head block h1.

End Malloc.

Definition initial_heap (m : mem) : heap := mk_heap m HEAP_START NULL 0.

(** ** The abstract allocator *)

(** A block is its start address and its size, header included. *)
Abbreviation block := (Z * Z)%type.

Record spec_heap := mk_spec {
  s_free : list block;
  s_used : list block;
  s_brk : Z;
}.

(** The gross size of a request: header added, rounded up to 16. *)
Definition gross (size : Z) : Z := (size + 31) / 16 * 16.

Fixpoint first_fit (size : Z) (l : list block) : option (list block * block * list block) :=
  match l with
  | [] => None
  | x :: l' =>
      if size <=? x.2 then Some ([], x, l')
      else match first_fit size l' with
           | Some (pre, y, post) => Some (x :: pre, y, post)
           | None => None
           end
  end.

(** First fit on the free list, else the break moves, else nothing. *)
Definition spec_malloc (size : Z) (s : spec_heap) : Z * spec_heap :=
  match first_fit (gross size) (s_free s) with
  | Some (pre, x, post) =>
      (x.1 + 16, mk_spec (pre ++ post) (x :: s_used s) (s_brk s))
  | None =>
      if HEAP_START + HEAP_SIZE <? s_brk s + gross size then (NULL, s)
      else (s_brk s + 16,
            mk_spec (s_free s) ((s_brk s, gross size) :: s_used s) (s_brk s + gross size))
  end.

Definition block_wf (brk : Z) (x : block) : Prop :=
  x.1 `mod` 16 = 0 /\ x.2 `mod` 16 = 0 /\ 16 <= x.2 /\
  HEAP_START <= x.1 /\ x.1 + x.2 <= brk.

Definition blocks_ok (brk : Z) (l : list block) : Prop :=
  NoDup l /\ (forall x, x ∈ l -> block_wf brk x) /\
  (forall x y, x ∈ l -> y ∈ l -> x <> y -> separate x.1 x.2 y.1 y.2).

Definition spec_ok (s : spec_heap) : Prop :=
  blocks_ok (s_brk s) (s_free s ++ s_used s) /\
  s_brk s `mod` 16 = 0 /\ HEAP_START <= s_brk s <= HEAP_START + HEAP_SIZE.

Section Representation.
Context {cpu : Cpu}.

(** The blocks [l] are linked from address [a], with their sizes in place. *)
Fixpoint chain (h : heap) (a : Z) (l : list block) : Prop :=
  match l with
  | [] => a = NULL
  | x :: l' => a = x.1 /\ block_size h x.1 = x.2 /\ chain h (block_next h x.1) l'
  end.

Definition heap_rep (h : heap) (s : spec_heap) : Prop :=
  spec_ok s /\ current_heap_address h = s_brk s /\
  chain h (free_head h) (s_free s) /\
  Forall (fun x => block_size h x.1 = x.2) (s_used s).

(** The bytes of the program: inside a live block behind its header, or
    outside the part of the heap handed out so far. *)
Definition user_byte (s : spec_heap) (a : Z) : Prop :=
  (exists x, x ∈ s_used s /\ x.1 + 16 <= a < x.1 + x.2) \/ a < HEAP_START.

End Representation.

(** ** Alignment *)

Lemma land_align_16 x : is_u32 x -> Z.land x (u32 (-16)) = x / 16 * 16.
Proof.
  intros Hx. change (u32 (-16)) with (Z.ldiff (Z.ones 32) (Z.ones 4)).
  rewrite Z.ldiff_land, Z.land_assoc, <- Z.ldiff_land, Z.land_ones, Z.ldiff_ones_r by lia.
  rewrite Z.mod_small by (unfold is_u32 in Hx; lia).
  rewrite Z.shiftl_mul_pow2, Z.shiftr_div_pow2 by lia. done.
Qed.

Lemma ALIGN_16_eq v : 0 <= v < 4294967281 -> ALIGN_16 v = (v + 15) / 16 * 16.
Proof.
  intros Hv. unfold ALIGN_16. rewrite land_align_16 by apply u32_range.
  rewrite u32_id; [done|word_lia].
Qed.

Lemma ALIGN_16_aligned v : ALIGN_16 v `mod` 16 = 0.
Proof.
  unfold ALIGN_16. rewrite land_align_16 by apply u32_range. word_lia.
Qed.

Lemma overhead_eq : overhead = 16.
Proof. reflexivity. Qed.

(** What [malloc] computes for a request below 2 GiB is the gross size. *)
Lemma ALIGN_16_gross size :
  0 <= size < 2147483648 -> ALIGN_16 (u32 (size + overhead)) = gross size.
Proof.
  intros Hs. rewrite overhead_eq, u32_id by word_lia.
  rewrite ALIGN_16_eq by lia. unfold gross. do 2 f_equal. lia.
Qed.

Lemma gross_bounds size :
  0 <= size -> size + 16 <= gross size <= size + 31 /\ gross size `mod` 16 = 0 /\ 16 <= gross size.
Proof. unfold gross. word_lia. Qed.

(** ** Blocks *)

#[export] Instance blocks_ok_proper brk : Proper ((≡ₚ) ==> iff) (blocks_ok brk).
Proof.
  assert (forall l l', l ≡ₚ l' -> blocks_ok brk l -> blocks_ok brk l') as Himp.
  { intros l l' Hl (Hnd & Hwf & Hsep). split_and!.
    - by rewrite <- Hl.
    - intros x. rewrite <- Hl. apply Hwf.
    - intros x y. rewrite <- Hl. apply Hsep. }
  intros l l' Hl. split; apply Himp; [done|by symmetry].
Qed.

Lemma blocks_ok_wf brk l x : blocks_ok brk l -> x ∈ l -> block_wf brk x.
Proof. intros (_ & H & _). apply H. Qed.

Lemma blocks_ok_sep brk l x y :
  blocks_ok brk l -> x ∈ l -> y ∈ l -> x <> y -> separate x.1 x.2 y.1 y.2.
Proof. intros (_ & _ & H). apply H. Qed.

(** A fresh block at the break. *)
Lemma blocks_ok_grow brk l sz :
  blocks_ok brk l -> brk `mod` 16 = 0 -> HEAP_START <= brk -> sz `mod` 16 = 0 -> 16 <= sz ->
  blocks_ok (brk + sz) ((brk, sz) :: l).
Proof.
  intros (Hnd & Hwf & Hsep) Hbrk Hst Hsz Hpos.
  assert (forall x, x ∈ l -> x.1 + x.2 <= brk) as Hend
    by (intros x Hx; by destruct (Hwf x Hx) as (?&?&?&?&?)).
  split_and!.
  - constructor; [|done]. intros Hin. apply Hend in Hin. simpl in Hin. lia.
  - intros x [->|Hx]%elem_of_cons; unfold block_wf; simpl; [lia|].
    destruct (Hwf x Hx) as (?&?&?&?&?). lia.
  - unfold separate in *.
    intros x y [->|Hx]%elem_of_cons [->|Hy]%elem_of_cons Hne; simpl; try done.
    + right. by apply Hend.
    + left. by apply Hend.
    + by apply Hsep.
Qed.

Lemma first_fit_split size l pre x post :
  first_fit size l = Some (pre, x, post) ->
  l = pre ++ x :: post /\ size <= x.2 /\ Forall (fun y => y.2 < size) pre.
Proof.
  revert pre. induction l as [|y l IH]; intros pre; simpl; [done|].
  destruct (Z.leb_spec size y.2); [intros; by simplify_eq|].
  destruct (first_fit size l) as [[[p z] q]|]; [|done]. intros; simplify_eq.
  destruct (IH p eq_refl) as (-> & ? & ?). split_and!; auto.
Qed.

Lemma first_fit_none size l :
  first_fit size l = None -> Forall (fun y => y.2 < size) l.
Proof.
  induction l as [|y l IH]; simpl; [done|].
  destruct (Z.leb_spec size y.2); [done|].
  destruct (first_fit size l) as [[[]]|]; [done|]. intros. constructor; [lia|auto].
Qed.

(** The abstract allocator keeps its invariant. *)
Lemma spec_malloc_free size s : (length (s_free (spec_malloc size s).2) <= length (s_free s))%nat.
Proof.
  unfold spec_malloc. destruct (first_fit _ _) as [[[pre x] post]|] eqn:Hff; [|by case_match].
  apply first_fit_split in Hff as (-> & _ & _). simpl. rewrite !length_app. simpl. lia.
Qed.

Lemma spec_malloc_ok size s :
  0 <= size -> spec_ok s -> spec_ok (spec_malloc size s).2.
Proof.
  intros Hsize (Hbl & Hbrk & Hbnd). destruct (gross_bounds size Hsize) as (? & ? & ?).
  unfold spec_malloc. destruct (first_fit _ _) as [[[pre x] post]|] eqn:Hff.
  - apply first_fit_split in Hff as (E & _ & _). simpl. split_and!; simpl; try done; try lia.
    eapply blocks_ok_proper; [|exact Hbl]. rewrite E. simpl.
    rewrite <- !app_assoc. apply Permutation_app_head. simpl. by rewrite Permutation_middle.
  - destruct (Z.ltb_spec (HEAP_START + HEAP_SIZE) (s_brk s + gross size)); [done|].
    split_and!; simpl; try lia; [|word_lia].
    eapply blocks_ok_proper; [symmetry; apply Permutation_middle|].
    apply blocks_ok_grow; try done; lia.
Qed.

(** ** Headers in RAM *)

Definition link_after (l : link) (pre : list block) : link :=
  match last pre with
  | None => l
  | Some y => LinkNext y.1
  end.

Section Refinement.
Context {cpu : Cpu}.

Lemma load32_store32_eq a v h : is_u32 v -> load32 (store32 a v h) a = v.
Proof.
  intros Hv. unfold load32, store32; simpl. rewrite load_store_same.
  apply Z.mod_small. unfold is_u32 in Hv. lia.
Qed.

Lemma load32_store32_ne a b v h :
  separate a 4 b 4 -> load32 (store32 a v h) b = load32 h b.
Proof. intros Hs. unfold load32, store32; simpl. by apply load_store_separate. Qed.

Lemma load32_u32 h a : is_u32 (load32 h a).
Proof. unfold load32. pose proof (load_range cpu_endian 4 (ram h) a). unfold is_u32. lia. Qed.

(** Fields of the headers of two different blocks do not overlap. *)
Lemma header_sep brk l x y d d' :
  blocks_ok brk l -> x ∈ l -> y ∈ l -> x <> y -> 0 <= d <= 12 -> 0 <= d' <= 12 ->
  separate (x.1 + d) 4 (y.1 + d') 4.
Proof.
  intros Hok Hx Hy Hne Hd Hd'.
  destruct (blocks_ok_wf _ _ _ Hok Hx) as (?&?&?&?&?).
  destruct (blocks_ok_wf _ _ _ Hok Hy) as (?&?&?&?&?).
  pose proof (blocks_ok_sep _ _ _ _ Hok Hx Hy Hne). unfold separate in *. lia.
Qed.

Lemma chain_frame h h' a l :
  (forall x, x ∈ l -> load32 h' x.1 = load32 h x.1 /\ load32 h' (x.1 + 4) = load32 h (x.1 + 4)) ->
  chain h a l -> chain h' a l.
Proof.
  revert a. induction l as [|x l IH]; intros a Hf; simpl; [done|].
  intros (-> & Hsz & Hch). unfold block_size, block_next in *.
  destruct (Hf x ltac:(left)) as [-> ->]. split_and!; [done|done|].
  apply IH; [|done]. intros y Hy. apply Hf. by right.
Qed.

(** Writing to the [next] field of a block keeps the headers of the others. *)
Lemma store_next_frame brk l h x y v :
  blocks_ok brk l -> x ∈ l -> y ∈ l -> x <> y ->
  block_next (store32 x.1 v h) y.1 = block_next h y.1 /\
  block_size (store32 x.1 v h) y.1 = block_size h y.1.
Proof.
  intros Hok Hx Hy Hne. unfold block_next, block_size.
  split; apply load32_store32_ne.
  - pose proof (header_sep _ _ _ _ 0 0 Hok Hx Hy Hne) as Hs. rewrite !Z.add_0_r in Hs.
    apply Hs; lia.
  - pose proof (header_sep _ _ _ _ 0 4 Hok Hx Hy Hne) as Hs. rewrite !Z.add_0_r in Hs.
    apply Hs; lia.
Qed.

Lemma blocks_ok_cons_inv brk y l : blocks_ok brk (y :: l) -> (y ∉ l) /\ blocks_ok brk l.
Proof.
  intros (Hnd & Hwf & Hsep). apply NoDup_cons in Hnd as [Hy Hnd].
  split; [done|]. split_and!; [done| |].
  - intros w Hw. apply Hwf. by right.
  - intros u w Hu Hw. apply Hsep; by right.
Qed.

Lemma find_block_none fuel lk b size h l :
  chain h b l -> Forall (fun x => x.1 <> NULL) l -> (length l < fuel)%nat ->
  first_fit size l = None -> find_block fuel lk b size h = Done (None, h).
Proof.
  revert fuel lk b. induction l as [|x l IH]; intros [|fuel] lk b; simpl; try lia.
  - by intros ->.
  - intros (-> & Hsz & Hch) [Hx Hl]%Forall_cons Hfuel. rewrite Hsz.
    destruct (Z.eqb_spec x.1 NULL); [done|].
    destruct (size <=? x.2); [done|].
    destruct (first_fit size l) as [[[]]|] eqn:E; [done|]. intros _.
    apply IH; auto with lia.
Qed.

Lemma find_block_some fuel lk b size h l pre x post :
  chain h b l -> Forall (fun x => x.1 <> NULL) l -> (length l < fuel)%nat ->
  first_fit size l = Some (pre, x, post) ->
  find_block fuel lk b size h =
  Done (Some x.1, set_link (link_after lk pre) (block_next h x.1) h).
Proof.
  revert fuel lk b pre. induction l as [|y l IH]; intros [|fuel] lk b pre; simpl; try done; try lia.
  intros (-> & Hsz & Hch) [Hy Hl]%Forall_cons Hfuel. rewrite Hsz.
  destruct (Z.eqb_spec y.1 NULL); [done|].
  destruct (size <=? y.2); [intros; by simplify_eq|].
  destruct (first_fit size l) as [[[p z] q]|] eqn:E; [|done]. intros; simplify_eq.
  rewrite (IH fuel (LinkNext y.1) _ p) by (done || lia).
  unfold link_after. rewrite last_cons. by destruct (last p).
Qed.

Lemma chain_unlink_tail h brk a y pre x post :
  chain h a (y :: pre ++ x :: post) -> blocks_ok brk (y :: pre ++ x :: post) ->
  chain (set_link (link_after LinkHead (y :: pre)) (block_next h x.1) h) a (y :: pre ++ post).
Proof.
  revert a y. induction pre as [|z pre IH]; intros a y (-> & Hsz & Hch) Hok;
    destruct (blocks_ok_cons_inv _ _ _ Hok) as [Hy Hok'].
  - destruct Hch as (Hyx & _ & Hch). simpl. split_and!; [done| |].
    + unfold block_size in *. rewrite load32_store32_ne; [done|]. unfold separate. lia.
    + unfold block_next at 1. rewrite load32_store32_eq by apply load32_u32.
      eapply chain_frame; [|exact Hch]. intros w Hw.
      apply (store_next_frame brk (y :: x :: post)); try done; set_solver.
  - specialize (IH _ _ Hch Hok').
    assert (exists w, w ∈ z :: pre /\ link_after LinkHead (z :: pre) = LinkNext w.1) as (w & Hw & Elk).
    { unfold link_after. destruct (last (z :: pre)) as [w|] eqn:El.
      - exists w. split; [|done]. by apply last_Some_elem_of.
      - by apply last_None in El. }
    replace (link_after LinkHead (y :: z :: pre)) with (LinkNext w.1) by done.
    rewrite Elk in IH. simpl in IH |- *.
    destruct (store_next_frame brk (y :: (z :: pre) ++ x :: post) h w y (block_next h x.1))
      as [-> ->]; [done|set_solver..|intros ->; set_solver|]. done.
Qed.

(** Unlinking the block [malloc] found leaves a chain of the other blocks. *)
Lemma chain_unlink h brk pre x post :
  chain h (free_head h) (pre ++ x :: post) -> blocks_ok brk (pre ++ x :: post) ->
  let h' := set_link (link_after LinkHead pre) (block_next h x.1) h in
  chain h' (free_head h') (pre ++ post).
Proof.
  intros Hch Hok. destruct pre as [|y pre].
  - destruct Hch as (_ & _ & Hch). simpl.
    eapply chain_frame; [|exact Hch]. by intros.
  - assert (free_head (set_link (link_after LinkHead (y :: pre)) (block_next h x.1) h)
            = free_head h) as E.
    { unfold link_after. destruct (last (y :: pre)) eqn:El; [done|].
      by apply last_None in El. }
    simpl. rewrite E. by eapply chain_unlink_tail.
Qed.

End Refinement.

(** ** malloc and free implement the abstract allocator *)

Section MallocCorrect.
Context {cpu : Cpu}.

Lemma used_frame (h h' : heap) l :
  (forall x, x ∈ l -> block_size h' x.1 = block_size h x.1) ->
  Forall (fun x => block_size h x.1 = x.2) l -> Forall (fun x => block_size h' x.1 = x.2) l.
Proof.
  rewrite !Forall_forall. intros Hf Hl x Hx. rewrite Hf by done. by apply Hl.
Qed.

Lemma rep_nonnull s : spec_ok s -> Forall (fun x => x.1 <> NULL) (s_free s).
Proof.
  intros (Hok & _). apply Forall_forall. intros x Hx.
  destruct (blocks_ok_wf _ _ x Hok ltac:(set_solver)) as (?&?&?&?&?).
  unfold NULL, HEAP_START in *. lia.
Qed.

Lemma spec_block_u32 s x :
  spec_ok s -> x ∈ s_free s ++ s_used s ->
  is_u32 (x.1 + 16) /\ u32 (x.1 + overhead) = x.1 + 16 /\ u32 (x.1 + 16 - overhead) = x.1.
Proof.
  intros (Hok & ? & ?) Hx. destruct (blocks_ok_wf _ _ _ Hok Hx) as (?&?&?&?&?).
  rewrite overhead_eq. unfold HEAP_START, HEAP_SIZE in *. word_lia.
Qed.

(** A block taken from the free list. *)
Lemma rep_unlink h s pre x post :
  heap_rep h s -> s_free s = pre ++ x :: post ->
  heap_rep (set_link (link_after LinkHead pre) (block_next h x.1) h)
    (mk_spec (pre ++ post) (x :: s_used s) (s_brk s)).
Proof.
  intros ((Hok & Hbrk & Hbnd) & Hcur & Hch & Hused) E. rewrite E in *.
  assert (blocks_ok (s_brk s) ((pre ++ post) ++ x :: s_used s)) as Hok'.
  { eapply blocks_ok_proper; [|exact Hok]. rewrite <- !app_assoc.
    apply Permutation_app_head. simpl. by rewrite Permutation_middle. }
  assert (blocks_ok (s_brk s) (pre ++ x :: post)) as Hokf.
  { destruct Hok as (Hnd & Hwf & Hsep). split_and!.
    - by apply NoDup_app in Hnd as (? & _).
    - intros w Hw. apply Hwf. set_solver.
    - intros u w Hu Hw. apply Hsep; set_solver. }
  pose proof (chain_unlink h _ pre x post Hch Hokf) as Hch'.
  assert (Forall (fun w => block_size h w.1 = w.2) (x :: s_used s)) as Hused'.
  { constructor; [|done]. clear -Hch. revert Hch. generalize (free_head h) as a.
    induction pre as [|y pre IH]; intros a; simpl.
    - by intros (_ & ? & _).
    - intros (_ & _ & Hch). eauto. }
  split; [split; [exact Hok'|by split]|]. split; [|split; [exact Hch'|]].
  - unfold link_after. by destruct (last pre).
  - simpl. eapply used_frame; [|exact Hused']. intros w Hw.
    unfold link_after. destruct (last pre) as [y|] eqn:El; [|done]. simpl.
    apply last_Some_elem_of in El.
    apply (store_next_frame (s_brk s) ((pre ++ post) ++ x :: s_used s) h y w); [done|set_solver..|].
    intros ->. destruct Hok' as [Hnd _]. apply NoDup_app in Hnd as (_ & Hd & _).
    apply (Hd w); set_solver.
Qed.

(** A block made at the break. *)
Lemma rep_grow h s sz :
  heap_rep h s -> sz `mod` 16 = 0 -> 16 <= sz -> s_brk s + sz <= HEAP_START + HEAP_SIZE ->
  heap_rep (store32 (s_brk s + 4) sz (set_break (s_brk s + sz) h))
    (mk_spec (s_free s) ((s_brk s, sz) :: s_used s) (s_brk s + sz)).
Proof.
  intros ((Hok & Hbrk & Hbnd) & Hcur & Hch & Hused) Hsz Hpos Hfit.
  assert (blocks_ok (s_brk s + sz) ((s_brk s, sz) :: s_free s ++ s_used s)) as Hok'
    by (apply blocks_ok_grow; done || lia).
  assert (forall w d, w ∈ s_free s ++ s_used s -> 0 <= d <= 4 ->
    load32 (store32 (s_brk s + 4) sz (set_break (s_brk s + sz) h)) (w.1 + d) = load32 h (w.1 + d))
    as Hframe.
  { intros w d Hw Hd. rewrite load32_store32_ne; [done|].
    destruct (blocks_ok_wf _ _ _ Hok Hw) as (?&?&?&?&?). unfold separate. lia. }
  split; [split_and!; simpl|split; [done|split]].
  - eapply blocks_ok_proper; [symmetry; apply Permutation_middle|]. done.
  - word_lia.
  - lia.
  - lia.
  - eapply chain_frame; [|exact Hch]. intros w Hw. rewrite <- (Z.add_0_r w.1) at 1 2.
    split; apply Hframe; try lia; set_solver.
  - simpl. constructor.
    + unfold block_size; simpl. apply load32_store32_eq.
      unfold HEAP_START, HEAP_SIZE in *. word_lia.
    + eapply used_frame; [|exact Hused]. intros w Hw. apply Hframe; [set_solver|lia].
Qed.

Lemma rep_set_errno h s v : heap_rep h s -> heap_rep (set_errno v h) s.
Proof.
  intros (Hspec & Hcur & Hch & Hused). split; [done|]. split; [done|]. split; [|done].
  eapply chain_frame; [|exact Hch]. by intros.
Qed.

(** Header fields of free blocks, and memory past the break, hold no byte of
    the program. *)
Lemma user_store h s a c v :
  spec_ok s -> user_byte s a ->
  (exists y, y ∈ s_free s ++ s_used s /\ y.1 <= c <= y.1 + 12) \/ s_brk s <= c ->
  get8 (ram (store32 c v h)) a = get8 (ram h) a.
Proof.
  intros (Hok & _ & Hbnd) Ha Hc. unfold store32. simpl.
  apply (store_same_outside cpu_endian 4 (ram h) c v).
  destruct Ha as [(x & Hx & Ha)|Ha].
  - destruct (blocks_ok_wf _ _ x Hok) as (?&?&?&?&?); [set_solver|].
    destruct Hc as [(y & Hy & Hc)|Hc]; [|lia].
    destruct (decide (x = y)) as [<-|Hne]; [lia|].
    destruct (blocks_ok_wf _ _ y Hok Hy) as (?&?&?&?&?).
    pose proof (blocks_ok_sep _ _ x y Hok ltac:(set_solver) Hy Hne) as Hs.
    unfold separate in Hs. lia.
  - destruct Hc as [(y & Hy & Hc)|Hc]; [|lia].
    destruct (blocks_ok_wf _ _ y Hok Hy) as (?&?&?&?&?). lia.
Qed.

Lemma user_set_link h s a pre x post v :
  spec_ok s -> user_byte s a -> s_free s = pre ++ x :: post ->
  get8 (ram (set_link (link_after LinkHead pre) v h)) a = get8 (ram h) a.
Proof.
  intros Hspec Ha E. unfold link_after. destruct (last pre) as [y|] eqn:El; [|done].
  apply last_Some_elem_of in El. simpl. eapply user_store; [done..|].
  left. exists y. rewrite E. split; [set_solver|lia].
Qed.

(** [malloc] returns, does what the abstract allocator does, leaves the bytes
    of the program alone, and reports a missing block with ENOMEM. *)
Lemma malloc_spec fuel size h s :
  heap_rep h s -> 0 <= size < 2147483648 -> (length (s_free s) < fuel)%nat ->
  exists h', malloc fuel size h = Done ((spec_malloc size s).1, h') /\
    heap_rep h' (spec_malloc size s).2 /\
    (forall a, user_byte s a -> get8 (ram h') a = get8 (ram h) a) /\
    ((spec_malloc size s).1 = NULL -> h' = set_errno ENOMEM h).
Proof.
  intros Hrep Hsize Hfuel. pose proof Hrep as (Hspec & Hcur & Hch & Hused).
  pose proof Hspec as (Hok & Hbrk & Hbnd). pose proof (rep_nonnull s Hspec) as Hnn.
  destruct (gross_bounds size) as (? & ? & ?); [lia|].
  unfold malloc, spec_malloc. rewrite ALIGN_16_gross by done.
  destruct (first_fit (gross size) (s_free s)) as [[[pre x] post]|] eqn:Hff.
  - rewrite (find_block_some _ _ _ _ _ (s_free s) pre x post) by done. simpl.
    apply first_fit_split in Hff as (E & Hfit & _).
    destruct (spec_block_u32 s x) as (_ & -> & _); [done|rewrite E; set_solver|].
    eexists. split; [done|]. split; [by apply rep_unlink|].
    split; [by intros; eapply user_set_link|].
    destruct (blocks_ok_wf _ _ x Hok) as (?&?&?&?&?); [rewrite E; set_solver|].
    unfold NULL, HEAP_START in *. simpl. lia.
  - rewrite (find_block_none _ _ _ _ _ (s_free s)) by done. simpl.
    unfold sbrk. rewrite Hcur.
    assert (u32 (s_brk s + gross size) = s_brk s + gross size) as E
      by (apply u32_id; unfold HEAP_START, HEAP_SIZE in *; word_lia).
    rewrite E. destruct (Z.ltb_spec (HEAP_START + HEAP_SIZE) (s_brk s + gross size)).
    + simpl. eexists. split; [done|]. split; [by do 2 apply rep_set_errno|done].
    + assert (s_brk s =? NULL = false) as -> by (unfold NULL, HEAP_START in *; lia).
      assert (u32 (s_brk s + overhead) = s_brk s + 16) as ->
        by (rewrite overhead_eq; unfold HEAP_START, HEAP_SIZE in *; word_lia).
      eexists. split; [done|]. split; [by apply rep_grow|].
      split; [intros; rewrite (user_store _ s) by (done || (right; lia)); done|].
      simpl. unfold NULL, HEAP_START in *. lia.
Qed.

Lemma free_user h s x a :
  spec_ok s -> x ∈ s_used s -> user_byte s a ->
  get8 (ram (free (x.1 + 16) h)) a = get8 (ram h) a.
Proof.
  intros Hspec Hx Ha. unfold free.
  destruct (spec_block_u32 s x) as (_ & _ & ->); [done|set_solver|].
  rewrite <- (user_store h s a x.1 (free_head h)); [done..|].
  left. exists x. split; [set_solver|lia].
Qed.

(** [free] on a live block makes it the first free block. *)
Lemma free_spec h s u1 x u2 :
  heap_rep h s -> s_used s = u1 ++ x :: u2 ->
  heap_rep (free (x.1 + 16) h) (mk_spec (x :: s_free s) (u1 ++ u2) (s_brk s)).
Proof.
  intros (Hspec & Hcur & Hch & Hused) E.
  destruct (spec_block_u32 s x) as (_ & _ & Hblk); [done|rewrite E; set_solver|].
  pose proof Hspec as (Hok & Hbrk & Hbnd). rewrite E in *.
  assert (blocks_ok (s_brk s) ((x :: s_free s) ++ u1 ++ u2)) as Hok'.
  { eapply blocks_ok_proper; [|exact Hok]. simpl.
    rewrite (Permutation_middle (s_free s)). apply Permutation_app_head.
    by rewrite Permutation_middle. }
  assert (forall w, w ∈ s_free s ++ u1 ++ u2 -> w <> x) as Hdiff.
  { intros w Hw ->. apply blocks_ok_cons_inv in Hok' as [Hx _]. done. }
  assert (forall w, w ∈ s_free s ++ u1 ++ u2 ->
    block_next (free (x.1 + 16) h) w.1 = block_next h w.1 /\
    block_size (free (x.1 + 16) h) w.1 = block_size h w.1) as Hframe.
  { intros w Hw. unfold free. rewrite Hblk.
    destruct (store_next_frame (s_brk s) ((x :: s_free s) ++ u1 ++ u2) h x w (free_head h))
      as [E1 E2]; [done|set_solver..|by apply not_eq_sym, Hdiff|].
    unfold block_next, block_size, load32, store32 in *. simpl in *. by rewrite E1, E2. }
  apply Forall_app in Hused as [Hu1 [Hux Hu2]%Forall_cons].
  split; [split; [exact Hok'|by split]|]. split; [done|split].
  - unfold free. rewrite Hblk. simpl. split; [done|split].
    + unfold block_size. unfold block_size in Hux. rewrite <- Hux.
      unfold load32, store32. simpl. apply load_store_separate. unfold separate. lia.
    + assert (is_u32 (free_head h)) as Hfh.
      { destruct (s_free s) as [|y l] eqn:Efree.
        - simpl in Hch. rewrite Hch. done.
        - destruct Hch as (-> & _).
          destruct (spec_block_u32 s y) as (? & _);
            [done|rewrite Efree; set_solver|].
          destruct (blocks_ok_wf _ _ y Hok ltac:(set_solver)) as (?&?&?&?&?).
          unfold HEAP_START in *. word_lia. }
      assert (block_next (set_free_head x.1 (store32 x.1 (free_head h) h)) x.1 = free_head h) as ->.
      { by apply (load32_store32_eq x.1 (free_head h) h). }
      eapply chain_frame; [|exact Hch]. intros w Hw.
      specialize (Hframe w ltac:(set_solver)). unfold free in Hframe. rewrite Hblk in Hframe. done.
  - simpl. apply Forall_app. split; (eapply used_frame; [|done]); intros w Hw; apply Hframe; set_solver.
Qed.

(** A request that fits at the break succeeds, and the new live block is large
    enough for it. *)
(** A free block that serves a request of this size. *)
Definition has_room (size : Z) (s : spec_heap) : Prop := exists y, y ∈ s_free s /\ gross size <= y.2.

Lemma has_room_fit size s : has_room size s -> first_fit (gross size) (s_free s) <> None.
Proof.
  intros (y & Hy & Hle) E. apply first_fit_none in E. rewrite Forall_forall in E.
  pose proof (E y Hy). lia.
Qed.

Lemma malloc_room fuel size h s :
  heap_rep h s -> 0 <= size < 2147483648 -> (length (s_free s) < fuel)%nat ->
  s_brk s + gross size <= HEAP_START + HEAP_SIZE ->
  exists x h' s', malloc fuel size h = Done (x.1 + 16, h') /\ heap_rep h' s' /\
    s_used s' = x :: s_used s /\ size + 16 <= x.2 /\ is_u32 (x.1 + 16) /\
    s_brk s' <= s_brk s + gross size /\ (length (s_free s') <= length (s_free s))%nat /\
    (forall a, user_byte s a -> get8 (ram h') a = get8 (ram h) a) /\
    gross size <= x.2 /\
    (has_room size s -> s_brk s' = s_brk s /\ S (length (s_free s')) = length (s_free s)).
Proof.
  intros Hrep Hsize Hfuel Hroom.
  destruct (malloc_spec fuel size h s Hrep Hsize Hfuel) as (h' & Hm & Hrep' & Huser & _).
  destruct (gross_bounds size) as (Hg & _ & _); [lia|].
  unfold spec_malloc in *. destruct (first_fit (gross size) (s_free s)) as [[[pre x] post]|] eqn:Hff.
  - apply first_fit_split in Hff as (E & Hfit & _).
    exists x, h'. eexists. split; [exact Hm|]. split; [exact Hrep'|]. simpl.
    destruct Hrep as (Hspec & _).
    destruct (spec_block_u32 s x Hspec) as (? & _); [rewrite E; set_solver|].
    assert (S (length (pre ++ post)) = length (s_free s)) as Hl by (rewrite E, !length_app; simpl; lia).
    split_and!; [done|lia|done|lia|lia|done|done|done].
  - rewrite (proj2 (Z.ltb_ge _ _)) in * by lia.
    exists (s_brk s, gross size), h'. eexists. split; [exact Hm|]. split; [exact Hrep'|]. simpl.
    destruct Hrep as ((_ & _ & Hb) & _). unfold HEAP_START, HEAP_SIZE in *.
    split_and!; try done; try lia.
    + unfold is_u32; lia.
    + intros Hr%has_room_fit. done.
Qed.

End MallocCorrect.

(** ** What the heap promises to its clients *)

(** A client of the heap: the pointers it holds after a sequence of [malloc]
    and [free] calls, starting from the boot state. *)
Inductive heap_reachable {cpu : Cpu} (m : mem) : heap -> list Z -> Prop :=
| reach_boot : heap_reachable m (initial_heap m) []
| reach_malloc h live fuel size p h' :
    heap_reachable m h live -> 0 <= size < 2147483648 ->
    malloc fuel size h = Done (p, h') -> p <> NULL ->
    heap_reachable m h' (p :: live)
| reach_malloc_fail h live fuel size h' :
    heap_reachable m h live -> 0 <= size < 2147483648 ->
    malloc fuel size h = Done (NULL, h') ->
    heap_reachable m h' live
| reach_free h l1 p l2 :
    heap_reachable m h (l1 ++ p :: l2) -> heap_reachable m (free p h) (l1 ++ l2).

Section HeapProperties.
Context {cpu : Cpu}.

Lemma initial_heap_rep m : heap_rep (initial_heap m) (mk_spec [] [] HEAP_START).
Proof.
  split; [|done]. split; [|done]. split; [constructor|split].
  - intros x Hx. by apply not_elem_of_nil in Hx.
  - intros x y Hx. by apply not_elem_of_nil in Hx.
Qed.

(** With more fuel than there are free blocks the result does not depend on
    the fuel; with less, a [Done] result is still the right one. *)
Lemma find_block_fuel fuel fuel' lk b size h r :
  find_block fuel lk b size h = Done r -> (fuel <= fuel')%nat ->
  find_block fuel' lk b size h = Done r.
Proof.
  revert fuel' lk b. induction fuel as [|fuel IH]; intros [|fuel'] lk b; simpl; try done; try lia.
  destruct (b =? NULL); [done|]. destruct (size <=? block_size h b); [done|].
  intros. apply IH; [done|lia].
Qed.

Lemma malloc_fuel fuel fuel' size h r :
  malloc fuel size h = Done r -> (fuel <= fuel')%nat -> malloc fuel' size h = Done r.
Proof.
  intros H Hle. unfold malloc in *.
  destruct (find_block fuel _ _ _ h) as [p| |] eqn:E; simpl in H; try done.
  by rewrite (find_block_fuel _ _ _ _ _ _ _ E Hle).
Qed.

Lemma malloc_any_fuel fuel size h s p h' :
  heap_rep h s -> 0 <= size < 2147483648 -> malloc fuel size h = Done (p, h') ->
  p = (spec_malloc size s).1 /\ heap_rep h' (spec_malloc size s).2.
Proof.
  intros Hrep Hsize H.
  destruct (malloc_spec (fuel + S (length (s_free s))) size h s) as (h2 & H2 & Hrep2 & _);
    [done..|lia|].
  rewrite (malloc_fuel fuel _ _ _ _ H) in H2 by lia. by simplify_eq.
Qed.

Lemma reachable_rep m h live :
  heap_reachable m h live ->
  exists s, heap_rep h s /\ live = (fun x => x.1 + 16) <$> s_used s.
Proof.
  induction 1 as [|h live fuel size p h' _ (s & Hrep & ->) Hsize Hm Hp
                  |h live fuel size h' _ (s & Hrep & ->) Hsize Hm
                  |h l1 p l2 _ (s & Hrep & E)].
  - eexists. split; [apply initial_heap_rep|done].
  - destruct (malloc_any_fuel _ _ _ _ _ _ Hrep Hsize Hm) as [-> Hrep'].
    eexists. split; [exact Hrep'|]. unfold spec_malloc in *.
    destruct (first_fit _ _) as [[[pre x] post]|]; [done|].
    by destruct (_ <? _).
  - destruct (malloc_any_fuel _ _ _ _ _ _ Hrep Hsize Hm) as [Hnull Hrep'].
    pose proof Hrep as (Hspec & _).
    eexists. split; [exact Hrep'|]. unfold spec_malloc in *.
    destruct (first_fit _ _) as [[[pre x] post]|] eqn:Hff; simpl in *.
    + exfalso. apply first_fit_split in Hff as (E & _).
      destruct Hspec as (Hok & _).
      destruct (blocks_ok_wf _ _ x Hok) as (?&?&?&?&?); [rewrite E; set_solver|].
      unfold NULL, HEAP_START in *. lia.
    + destruct (_ <? _); [done|]. exfalso. simpl in Hnull.
      destruct Hspec as (_ & _ & ?). unfold NULL, HEAP_START in *. lia.
  - symmetry in E. apply fmap_app_inv in E as (u1 & u2' & -> & Eu2 & E).
    symmetry in Eu2. apply fmap_cons_inv in Eu2 as (x & u2 & -> & -> & ->).
    eexists. split; [by eapply free_spec|]. simpl. by rewrite fmap_app.
Qed.

(** C14: For every request below 2 GiB, [malloc] returns: either a pointer to a
    16-byte aligned block of at least the requested size that overlaps no live
    block and lies inside the 16 MiB heap, or NULL with errno ENOMEM and only
    when no free block fits and the break cannot move.  No byte of a live block
    (or outside the heap) changes. *)
Theorem malloc_sound fuel size h s :
  heap_rep h s -> 0 <= size < 2147483648 -> (length (s_free s) < fuel)%nat ->
  exists p h' s', malloc fuel size h = Done (p, h') /\ heap_rep h' s' /\
    (forall a, user_byte s a -> get8 (ram h') a = get8 (ram h) a) /\
    ((p = NULL /\ errno h' = ENOMEM /\ s' = s /\
      Forall (fun x => x.2 < gross size) (s_free s) /\
      HEAP_START + HEAP_SIZE < s_brk s + gross size) \/
     (exists x, p = x.1 + 16 /\ p `mod` 16 = 0 /\ s_used s' = x :: s_used s /\
      HEAP_START < p /\ p + size <= HEAP_START + HEAP_SIZE /\ p + size <= x.1 + x.2 /\
      Forall (fun y => separate x.1 x.2 y.1 y.2) (s_used s))).
Proof.
  intros Hrep Hsize Hfuel. destruct (malloc_spec fuel size h s) as (h' & Hm & Hrep' & Huser & Hnull);
    [done..|].
  eexists _, h', _. split; [exact Hm|]. split; [exact Hrep'|]. split; [exact Huser|].
  pose proof Hrep' as ((Hok & _ & Hbnd) & _). clear Hm Hrep'.
  destruct (gross_bounds size) as (? & ? & ?); [lia|].
  assert (forall x l, (forall y, y ∈ l -> y ∈ s_used (spec_malloc size s).2) ->
    s_used (spec_malloc size s).2 = x :: l -> gross size <= x.2 ->
    let p := x.1 + 16 in
    p `mod` 16 = 0 /\ HEAP_START < p /\ p + size <= HEAP_START + HEAP_SIZE /\
    p + size <= x.1 + x.2 /\ Forall (fun y => separate x.1 x.2 y.1 y.2) l) as Hblk.
  { intros x l Hl El Hfit p. subst p. rewrite El in Hok.
    destruct (blocks_ok_wf _ _ x Hok) as (?&?&?&?&?); [set_solver|].
    split_and!; [word_lia|lia..|]. apply Forall_forall. intros y Hy.
    apply (blocks_ok_sep _ _ x y Hok); [set_solver..|]. intros <-.
    destruct Hok as [Hnd _]. apply NoDup_app in Hnd as (_ & _ & Hnd).
    by apply NoDup_cons in Hnd as [? _]. }
  unfold spec_malloc in *.
  destruct (first_fit (gross size) (s_free s)) as [[[pre x] post]|] eqn:Hff; simpl in *.
  - right. exists x. apply first_fit_split in Hff as (_ & Hfit & _).
    destruct (Hblk x (s_used s)) as (?&?&?&?&?); [set_solver|done|done|]. by split_and!.
  - destruct (Z.ltb_spec (HEAP_START + HEAP_SIZE) (s_brk s + gross size)); simpl in *.
    + left. rewrite Hnull by done. split_and!; try done. by apply first_fit_none.
    + right. exists (s_brk s, gross size).
      destruct (Hblk (s_brk s, gross size) (s_used s)) as (?&?&?&?&?);
        [set_solver|done|simpl; lia|]. by split_and!.
Qed.

(** A block that was just freed is the first one [malloc] hands out again
    for any request it is large enough for, and the rest of the free list is as
    before the [free]. *)
Theorem malloc_after_free fuel size h s u1 x u2 :
  heap_rep h s -> s_used s = u1 ++ x :: u2 -> 0 <= size < 2147483648 ->
  gross size <= x.2 -> (S (length (s_free s)) < fuel)%nat ->
  exists h', malloc fuel size (free (x.1 + 16) h) = Done (x.1 + 16, h') /\
    heap_rep h' (mk_spec (s_free s) (x :: u1 ++ u2) (s_brk s)).
Proof.
  intros Hrep E Hsize Hfit Hfuel. pose proof (free_spec h s u1 x u2 Hrep E) as Hfree.
  destruct (malloc_spec fuel size _ _ Hfree Hsize) as (h' & Hm & Hrep' & _); [done|].
  unfold spec_malloc in Hm, Hrep'. simpl in Hm, Hrep'.
  rewrite (proj2 (Z.leb_le _ _) Hfit) in Hm, Hrep'. by eexists.
Qed.

(** C15: In every state a client can reach with requests below 2 GiB and frees
    of the pointers it holds, the pointers it holds are distinct, 16-byte
    aligned and inside the heap, and RAM holds a well-formed allocator. *)
Theorem heap_reachable_ok m h live :
  heap_reachable m h live ->
  NoDup live /\
  Forall (fun p => p `mod` 16 = 0 /\ HEAP_START < p <= HEAP_START + HEAP_SIZE) live /\
  exists s, heap_rep h s /\ live = (fun x => x.1 + 16) <$> s_used s.
Proof.
  intros Hr. destruct (reachable_rep _ _ _ Hr) as (s & Hrep & ->).
  pose proof Hrep as ((Hok & _ & Hbnd) & _). split; [|split; [|by exists s]].
  - apply NoDup_fmap_2_strong.
    + intros x y Hx Hy Exy. destruct (decide (x = y)) as [|Hne]; [done|].
      destruct (blocks_ok_wf _ _ x Hok) as (?&?&?&?&?); [set_solver|].
      destruct (blocks_ok_wf _ _ y Hok) as (?&?&?&?&?); [set_solver|].
      pose proof (blocks_ok_sep _ _ x y Hok ltac:(set_solver) ltac:(set_solver) Hne) as Hs.
      unfold separate in Hs. lia.
    + destruct Hok as [Hnd _]. by apply NoDup_app in Hnd as (_ & _ & ?).
  - apply Forall_fmap, Forall_forall. intros x Hx.
    destruct (blocks_ok_wf _ _ x Hok) as (?&?&?&?&?); [set_solver|]. simpl. word_lia.
Qed.

End HeapProperties.

Section HeapWrap.
Context {cpu : Cpu}.

Lemma malloc_break fuel size h s :
  heap_rep h s -> s_free s = [] -> (0 < fuel)%nat ->
  let sz := ALIGN_16 (u32 (size + overhead)) in
  u32 (s_brk s + sz) <= HEAP_START + HEAP_SIZE ->
  malloc fuel size h =
    Done (s_brk s + 16, store32 (s_brk s + 4) sz (set_break (u32 (s_brk s + sz)) h)).
Proof.
  intros (Hspec & Hcur & Hch & _) Hfree Hfuel sz Hfit. destruct Hspec as (_ & _ & Hbnd).
  rewrite Hfree in Hch. simpl in Hch. unfold malloc.
  destruct fuel as [|fuel]; [lia|]. simpl. rewrite Hch. simpl. unfold sbrk. rewrite Hcur.
  fold sz. rewrite (proj2 (Z.ltb_ge _ _) Hfit).
  assert (s_brk s =? NULL = false) as -> by (unfold NULL, HEAP_START in *; lia).
  do 2 f_equal. rewrite overhead_eq. unfold HEAP_START, HEAP_SIZE in *. word_lia.
Qed.

(** C40: [malloc] does not guard its size computation against wrap-around: while the
    list of free blocks is empty, a request of 0xFFFFFFE1 .. 0xFFFFFFF0 bytes, whose
    gross size wraps to 0, returns a pointer without moving the break, and the next
    allocation of any size that still fits is given the very same pointer. *)
Theorem malloc_wraps_to_overlap fuel size size' h s :
  heap_rep h s -> s_free s = [] -> (0 < fuel)%nat ->
  0xFFFFFFE1 <= size <= 0xFFFFFFF0 ->
  0 <= size' -> s_brk s + gross size' <= HEAP_START + HEAP_SIZE ->
  exists h1 h2,
    malloc fuel size h = Done (s_brk s + 16, h1) /\
    current_heap_address h1 = current_heap_address h /\
    malloc fuel size' h1 = Done (s_brk s + 16, h2).
Proof.
  intros Hrep Hfree Hfuel Hsize Hsize' Hfit.
  destruct (gross_bounds size' Hsize') as (? & ? & ?).
  pose proof Hrep as ((Hok & Hal & Hbnd) & Hcur & Hch & Hused).
  assert (ALIGN_16 (u32 (size + overhead)) = 0) as Ez.
  { rewrite overhead_eq. unfold ALIGN_16. rewrite land_align_16 by apply u32_range. word_lia. }
  assert (u32 (s_brk s + 0) = s_brk s) as E0
    by (unfold HEAP_START, HEAP_SIZE in *; word_lia).
  pose proof (malloc_break fuel size h s Hrep Hfree Hfuel) as Hm. simpl in Hm.
  rewrite Ez, E0 in Hm. specialize (Hm ltac:(lia)).
  eexists _, _. split; [exact Hm|]. split; [by rewrite Hcur|].
  assert (heap_rep (store32 (s_brk s + 4) 0 (set_break (s_brk s) h)) (mk_spec [] [] (s_brk s)))
    as Hrep1.
  { split; [|split; [done|split; [|done]]].
    - split; [|done]. split; [constructor|split].
      + intros x Hx. by apply not_elem_of_nil in Hx.
      + intros x y Hx. by apply not_elem_of_nil in Hx.
    - rewrite Hfree in Hch. done. }
  apply (malloc_break fuel size' _ _ Hrep1 eq_refl Hfuel). simpl.
  rewrite ALIGN_16_gross by (unfold HEAP_START, HEAP_SIZE in *; lia).
  unfold HEAP_START, HEAP_SIZE in *. word_lia.
Qed.

(** [sbrk]'s limit check wraps too: a request so large that the break plus
    the gross size passes 2^32 succeeds on the 16 MiB heap and leaves the break
    lower than before, pointing into memory that was already handed out or
    below the heap. *)
Theorem malloc_huge_request_succeeds fuel size h s :
  heap_rep h s -> s_free s = [] -> (0 < fuel)%nat ->
  0 <= size -> size + 31 < 4294967296 -> 4294967296 <= s_brk s + gross size ->
  exists h', malloc fuel size h = Done (s_brk s + 16, h') /\
    current_heap_address h' = s_brk s + gross size - 4294967296 /\
    current_heap_address h' < current_heap_address h.
Proof.
  intros Hrep Hfree Hfuel Hsize Hlt Hwrap.
  destruct (gross_bounds size Hsize) as (? & ? & ?).
  pose proof Hrep as ((_ & _ & Hbnd) & Hcur & _).
  assert (ALIGN_16 (u32 (size + overhead)) = gross size) as Ez.
  { rewrite overhead_eq, u32_id, ALIGN_16_eq by word_lia. unfold gross. do 2 f_equal. lia. }
  assert (u32 (s_brk s + gross size) = s_brk s + gross size - 4294967296) as Eb
    by (unfold HEAP_START, HEAP_SIZE in *; word_lia).
  pose proof (malloc_break fuel size h s Hrep Hfree Hfuel) as Hm. simpl in Hm.
  rewrite Ez, Eb in Hm. specialize (Hm ltac:(lia)).
  eexists. split; [exact Hm|]. simpl. rewrite Hcur. lia.
Qed.

End HeapWrap.

(** ** Witnesses *)

Lemma malloc_sound_witness :
  exists p h', malloc (cpu := LittleEndian) 1 100 (initial_heap ∅) = Done (p, h') /\ p <> NULL.
Proof.
  destruct (malloc_sound (cpu := LittleEndian) 1 100 (initial_heap ∅) (mk_spec [] [] HEAP_START))
    as (p & h' & s' & Hm & _ & _ & Hcase); [apply initial_heap_rep|lia|simpl; lia|].
  exists p, h'. split; [exact Hm|].
  destruct Hcase as [(_ & _ & _ & _ & Hfull)|(x & -> & _ & _ & Hp & _)].
  - vm_compute in Hfull. discriminate.
  - intros E. rewrite E in Hp. vm_compute in Hp. discriminate.
Defined.

(** A heap with one live block of 48 bytes at the start. *)
Definition one_block_heap : heap :=
  match malloc (cpu := LittleEndian) 1 20 (initial_heap ∅) with
  | Done (_, h) => h
  | _ => initial_heap ∅
  end.

Lemma one_block_rep :
  heap_rep (cpu := LittleEndian) one_block_heap
    (mk_spec [] [(HEAP_START, 48)] (HEAP_START + 48)).
Proof.
  destruct (malloc_spec (cpu := LittleEndian) 1 20 (initial_heap ∅) (mk_spec [] [] HEAP_START))
    as (h' & Hm & Hrep & _); [apply initial_heap_rep|lia|simpl; lia|].
  unfold one_block_heap. rewrite Hm. exact Hrep.
Qed.

Lemma malloc_after_free_witness :
  exists h', malloc (cpu := LittleEndian) 2 16 (free (cpu := LittleEndian) 0x5000010 one_block_heap)
             = Done (0x5000010, h').
Proof.
  destruct (malloc_after_free (cpu := LittleEndian) 2 16 one_block_heap
    (mk_spec [] [(HEAP_START, 48)] (HEAP_START + 48)) [] (HEAP_START, 48) [])
    as (h' & Hm & _); [apply one_block_rep|done|lia|done|simpl; lia|].
  exists h'. exact Hm.
Defined.

Lemma heap_reachable_ok_witness :
  exists p h, heap_reachable (cpu := LittleEndian) ∅ h [p] /\ p `mod` 16 = 0.
Proof.
  destruct (malloc (cpu := LittleEndian) 1 100 (initial_heap ∅)) as [[p h']| |] eqn:E;
    [|vm_compute in E; discriminate..].
  assert (heap_reachable (cpu := LittleEndian) ∅ h' [p]) as Hr.
  { eapply (reach_malloc ∅ _ [] 1 100); [apply reach_boot|lia|exact E|].
    intros ->. vm_compute in E. discriminate. }
  exists p, h'. split; [exact Hr|].
  destruct (heap_reachable_ok (cpu := LittleEndian) ∅ h' [p] Hr) as (_ & Hp & _).
  apply Forall_cons in Hp as [[Hal _] _]. exact Hal.
Defined.

Lemma malloc_wraps_to_overlap_witness :
  exists h1 h2,
    malloc (cpu := LittleEndian) 1 0xFFFFFFF0 (initial_heap ∅) = Done (0x5000010, h1) /\
    malloc (cpu := LittleEndian) 1 64 h1 = Done (0x5000010, h2).
Proof.
  destruct (malloc_wraps_to_overlap (cpu := LittleEndian) 1 0xFFFFFFF0 64 (initial_heap ∅)
    (mk_spec [] [] HEAP_START)) as (h1 & h2 & H1 & _ & H2);
    [apply initial_heap_rep|done|lia|lia|lia|vm_compute; discriminate|].
  exists h1, h2. split; [exact H1|exact H2].
Defined.

Lemma malloc_huge_request_succeeds_witness :
  exists h', malloc (cpu := LittleEndian) 1 0xFAFFFFF0 (initial_heap ∅) = Done (0x5000010, h') /\
    current_heap_address h' = 0.
Proof.
  destruct (malloc_huge_request_succeeds (cpu := LittleEndian) 1 0xFAFFFFF0 (initial_heap ∅)
    (mk_spec [] [] HEAP_START)) as (h' & H1 & H2 & _);
    [apply initial_heap_rep|done|lia|lia|lia|vm_compute; discriminate|].
  exists h'. split; [exact H1|exact H2].
Defined.
