(* ===== verification/Bus.v ===== *)
(** * Device registers: memory-mapped input and output

    Devices are not part of the program, so their behaviour is a parameter: a
    [Bus] says what a volatile access of 1, 2, 4 or 8 bytes at a physical
    address returns and how it changes the devices.  kernel/mmio.c is the eight
    accessors.  Driver code is written against the class; [traced] records the
    accesses of any bus, and [plain_register] is the documented behaviour of a
    read/write control register.  RAM on the bus ([mem_bus]) is the instance the
    memory-space accessors of kernel/pci are proved against. *)

From S2P Require Import Prelude Memory.

(** ** Definitions *)

Class Bus (D : Type) := {
  bus_read : nat -> Z -> D -> Z * D;
  bus_write : nat -> Z -> Z -> D -> D;
}.

Section Mmio.
Context {D : Type} `{Bus D}.

Definition read8 (address : Z) (d : D) : Z * D :=
  let '(v, d') := bus_read 1 (u32 address) d in (u8 v, d').
Definition read16 (address : Z) (d : D) : Z * D :=
  let '(v, d') := bus_read 2 (u32 address) d in (u16 v, d').
Definition read32 (address : Z) (d : D) : Z * D :=
  let '(v, d') := bus_read 4 (u32 address) d in (u32 v, d').
Definition read64 (address : Z) (d : D) : Z * D :=
  let '(v, d') := bus_read 8 (u32 address) d in (u64 v, d').

Definition write8 (address value : Z) (d : D) : D :=
  bus_write 1 (u32 address) (u8 value) d.
Definition write16 (address value : Z) (d : D) : D :=
  bus_write 2 (u32 address) (u16 value) d.
Definition write32 (address value : Z) (d : D) : D :=
  bus_write 4 (u32 address) (u32 value) d.
Definition write64 (address value : Z) (d : D) : D :=
  bus_write 8 (u32 address) (u64 value) d.

(** [*reg |= mask] and [*reg &= mask] on a volatile register. *)
Definition or8 (address mask : Z) (d : D) : D :=
  let '(v, d') := read8 address d in write8 address (Z.lor v mask) d'.
Definition and8 (address mask : Z) (d : D) : D :=
  let '(v, d') := read8 address d in write8 address (Z.land v mask) d'.
Definition or32 (address mask : Z) (d : D) : D :=
  let '(v, d') := read32 address d in write32 address (Z.lor v mask) d'.
Definition and32 (address mask : Z) (d : D) : D :=
  let '(v, d') := read32 address d in write32 address (Z.land v mask) d'.

(** A byte register that reads back what was last written to it and keeps its
    value while other addresses are accessed. *)
Definition plain_register (address : Z) (value : D -> Z) : Prop :=
  (forall d, bus_read 1 address d = (value d, d)) /\
  (forall v d, value (bus_write 1 address v d) = v) /\
  (forall n a v d, a <> address -> value (bus_write n a v d) = value d).

End Mmio.

(** ** Traces *)

Inductive bus_event :=
| EvRead (n : nat) (address value : Z)
| EvWrite (n : nat) (address value : Z).

#[export] Instance bus_event_eq_dec : EqDecision bus_event.
Proof. solve_decision. Defined.

Definition ev_address (ev : bus_event) : Z :=
  match ev with EvRead _ a _ | EvWrite _ a _ => a end.

Definition ev_width (ev : bus_event) : nat :=
  match ev with EvRead n _ _ | EvWrite n _ _ => n end.

Definition ev_writes (log : list bus_event) : list (Z * Z) :=
  omap (fun ev => match ev with EvWrite _ a v => Some (a, v) | _ => None end) log.

(** A bus together with the accesses made so far, oldest first. *)
Record traced (D : Type) := mk_traced { tr_dev : D; tr_log : list bus_event }.
Arguments mk_traced {D}.
Arguments tr_dev {D}.
Arguments tr_log {D}.

#[export] Instance traced_bus {D} `{Bus D} : Bus (traced D) := {|
  bus_read n a d :=
    let '(v, d') := bus_read n a (tr_dev d) in
    (v, mk_traced d' (tr_log d ++ [EvRead n a v]));
  bus_write n a v d :=
    mk_traced (bus_write n a v (tr_dev d)) (tr_log d ++ [EvWrite n a v]);
|}.

(** RAM behind the bus, little-endian as PCI memory space is. *)
#[export] Instance mem_bus : Bus mem := {|
  bus_read n a m := (load LittleEndian n m a, m);
  bus_write n a v m := store LittleEndian n m a v;
|}.

(** A file of registers, addressed by their first byte and of any width. *)
Record regfile := mk_regfile { regs : gmap Z Z }.

#[export] Instance regfile_bus : Bus regfile := {|
  bus_read n a d := (default 0 (regs d !! a), d);
  bus_write n a v d := mk_regfile (<[a := v]> (regs d));
|}.

Definition regfile_value (a : Z) (d : regfile) : Z := default 0 (regs d !! a).

Lemma regfile_plain a : plain_register a (regfile_value a).
Proof.
  split_and!; [done| |]; unfold regfile_value; simpl; intros.
  - by rewrite lookup_insert_eq.
  - by rewrite lookup_insert_ne by done.
Qed.

(** ** Round trips on RAM behind the bus *)

Lemma mem_read_write n a v (m : mem) :
  (bus_read n a (bus_write n a v m)).1 = v `mod` 256 ^ Z.of_nat n.
Proof. apply load_store_same. Qed.

Lemma write32_mem a v (m : mem) :
  is_u32 a -> write32 a v m = write_bytes m a (le_bytes 4 (u32 v)).
Proof. intros Ha. unfold write32. by rewrite (u32_id a Ha). Qed.

Lemma read32_mem a (m : mem) :
  is_u32 a -> read32 a m = (le_val (read_bytes m a 4), m).
Proof.
  intros Ha. unfold read32. rewrite (u32_id a Ha). simpl. f_equal. apply u32_id.
  pose proof (load_range LittleEndian 4 m a). unfold load, dec in *. unfold is_u32. simpl in *. lia.
Qed.

(** ** Plain registers *)

Section PlainRegister.
Context {D : Type} `{Bus D} (a : Z) (value : D -> Z).
Hypothesis Hplain : plain_register a value.
Hypothesis Ha : is_u32 a.

Lemma plain_or8 mask d :
  value (or8 a mask d) = u8 (Z.lor (u8 (value d)) mask).
Proof.
  destruct Hplain as (Hr & Hw & _). unfold or8, read8, write8.
  rewrite (u32_id a Ha), Hr. simpl. by rewrite Hw.
Qed.

Lemma plain_and8 mask d :
  value (and8 a mask d) = u8 (Z.land (u8 (value d)) mask).
Proof.
  destruct Hplain as (Hr & Hw & _). unfold and8, read8, write8.
  rewrite (u32_id a Ha), Hr. simpl. by rewrite Hw.
Qed.

Lemma plain_write8_other b v d :
  u32 b <> a -> value (write8 b v d) = value d.
Proof. destruct Hplain as (_ & _ & Ho). intros. by apply Ho. Qed.

Lemma plain_write32_other b v d :
  u32 b <> a -> value (write32 b v d) = value d.
Proof. destruct Hplain as (_ & _ & Ho). intros. by apply Ho. Qed.

End PlainRegister.
