(* ===== verification/Clock.v ===== *)
(** * The clock: kernel/time.c and kernel/drivers/timer.c

    The millisecond counter driven by timer 3, its conversions, the shared
    string buffer of [clock_time_to_str], and the register programming that
    starts and stops the two timers of the VersatilePB board. *)

From stdpp Require Import strings.
From S2P Require Import Prelude Memory Bus.

(** ** Definitions *)

(** The characters of a string literal, without the terminating NUL. *)
Definition cstr (s : string) : list Z :=
  (fun c => Z.of_N (Ascii.N_of_ascii c)) <$> String.list_ascii_of_string s.

Definition TIMER1_BASE : Z := 0x101E2000.
Definition TIMER1_LOAD : Z := TIMER1_BASE + 0x0.
Definition TIMER1_CTRL : Z := TIMER1_BASE + 0x08.
Definition TIMER1_INTCLR : Z := TIMER1_BASE + 0x0C.
Definition TIMER3_BASE : Z := 0x101E3000.
Definition TIMER3_LOAD : Z := TIMER3_BASE + 0x0.
Definition TIMER3_CTRL : Z := TIMER3_BASE + 0x08.
Definition TIMER3_INTCLR : Z := TIMER3_BASE + 0x0C.

Definition TIMER_MILLIS_INTERVAL : Z := 0x3e8.

Section Timers.
Context {D : Type} `{Bus D}.

Definition clock_start (period : Z) (d : D) : D :=
  let d := and8 TIMER3_CTRL (Z.lnot (Z.shiftl 1 7)) d in
  let d := or8 TIMER3_CTRL (Z.shiftl 1 6) d in
  let d := write8 TIMER3_INTCLR 0x1 d in
  let d := or8 TIMER3_CTRL (Z.shiftl 1 5) d in
  let d := or8 TIMER3_CTRL (Z.shiftl 1 1) d in
  let d := and8 TIMER3_CTRL (Z.lnot (Z.shiftl 1 0)) d in
  let d := write32 TIMER3_LOAD period d in
  or8 TIMER3_CTRL (Z.shiftl 1 7) d.

Definition clock_stop (d : D) : D :=
  let d := and8 TIMER3_CTRL (Z.lnot (Z.shiftl 1 7)) d in
  write8 TIMER3_INTCLR 0x1 d.

Definition time_init (d : D) : D :=
  clock_start TIMER_MILLIS_INTERVAL (clock_stop d).

Definition timer_start (period : Z) (d : D) : D :=
  let d := and8 TIMER1_CTRL (Z.lnot (Z.shiftl 1 7)) d in
  let d := or8 TIMER1_CTRL (Z.shiftl 1 6) d in
  let d := write8 TIMER1_INTCLR 0x1 d in
  let d := or8 TIMER1_CTRL (Z.shiftl 1 5) d in
  let d := or8 TIMER1_CTRL (Z.shiftl 1 1) d in
  let d := and8 TIMER1_CTRL (Z.lnot (Z.shiftl 1 0)) d in
  let d := write32 TIMER1_LOAD period d in
  or8 TIMER1_CTRL (Z.shiftl 1 7) d.

Definition timer_stop (d : D) : D :=
  let d := and8 TIMER1_CTRL (Z.lnot (Z.shiftl 1 7)) d in
  write8 TIMER1_INTCLR 0x1 d.

(** [clock++] on an [unsigned long long], then the interrupt is acknowledged. *)
Definition irq_handler_clock (st : Z * D) : Z * D :=
  (u64 (st.1 + 1), write8 TIMER3_INTCLR 1 st.2).

End Timers.

Definition clock_millis (clock : Z) : Z := clock.
Definition clock_seconds (clock : Z) : Z := clock / 1000.
Definition clock_minutes (clock : Z) : Z := clock / (1000 * 60).
Definition clock_hours (clock : Z) : Z := clock / (1000 * 60 * 60).

Definition INTTOCHAR (val : Z) : Z := u64 (val + 48).

(** The string literal [clock_time_to_str] writes into; every call returns a
    pointer to this one object, so it is state. *)
Definition time_format : list Z := cstr "mm:ss:lll" ++ [0].

Definition clock_time_to_str (time : Z) (format : list Z) : list Z :=
  let mils := time in
  let secs := mils / 1000 in
  let mins := mils / 60000 in
  let format := <[0%nat := u8 (INTTOCHAR ((mins / 10) `mod` 10))]> format in
  let format := <[1%nat := u8 (INTTOCHAR (mins `mod` 10))]> format in
  let format := <[3%nat := u8 (INTTOCHAR ((secs / 10) `mod` 10))]> format in
  let format := <[4%nat := u8 (INTTOCHAR (secs `mod` 10))]> format in
  let format := <[6%nat := u8 (INTTOCHAR ((mils / 100) `mod` 10))]> format in
  let format := <[7%nat := u8 (INTTOCHAR ((mils / 10) `mod` 10))]> format in
  <[8%nat := u8 (INTTOCHAR (mils `mod` 10))]> format.

Definition clock_formatted_msms (clock : Z) (format : list Z) : list Z :=
  clock_time_to_str (clock_millis clock) format.

(** ** Reference functions *)

(** The decimal digits of [v] with a fixed width, most significant first. *)
Fixpoint decimal (width : nat) (v : Z) : list Z :=
  match width with
  | O => []
  | S w => decimal w (v / 10) ++ [48 + v `mod` 10]
  end.

(** The value of the two digits at positions [i] and [i+1]. *)
Definition two_digits (s : list Z) (i : nat) : Z :=
  10 * (s !!! i - 48) + (s !!! S i - 48).

(** The shape the buffer keeps: ten bytes with the colons and the NUL in place. *)
Definition time_buffer_ok (format : list Z) : Prop :=
  length format = 10%nat /\ format !! 2%nat = Some 58 /\
  format !! 5%nat = Some 58 /\ format !! 9%nat = Some 0.

(** ** Proofs *)

Lemma digit_char v : 0 <= v -> u8 (INTTOCHAR (v `mod` 10)) = 48 + v `mod` 10.
Proof. intros. unfold INTTOCHAR. word_lia. Qed.

Lemma time_buffer_shape format :
  time_buffer_ok format ->
  exists a b c d e f g, format = [a; b; 58; c; d; 58; e; f; g; 0].
Proof.
  intros (Hlen & H2 & H5 & H9).
  do 10 (destruct format as [|? format]; [discriminate Hlen|]).
  destruct format; [|discriminate Hlen]. simpl in *. simplify_eq. by repeat eexists.
Qed.

(** [clock_time_to_str] writes the decimal digits of (minutes mod 100),
    (seconds since start mod 100) and (milliseconds mod 1000) around the
    colons, whatever an earlier call left in the shared buffer. *)
Theorem clock_time_to_str_digits time format :
  0 <= time -> time_buffer_ok format ->
  clock_time_to_str time format =
    decimal 2 (time / 60000) ++ [58] ++ decimal 2 (time / 1000) ++ [58] ++
    decimal 3 time ++ [0].
Proof.
  intros Ht Hf. destruct (time_buffer_shape _ Hf) as (?&?&?&?&?&?&?&->).
  unfold clock_time_to_str. cbn [decimal insert list_insert app].
  rewrite !digit_char by (word_lia).
  rewrite !Z.div_div by lia. done.
Qed.

(** The seconds field is the number of seconds since start modulo 100, not
    the second of the minute that the format mm:ss:lll announces: from 60 s to
    100 s after start it shows 60..99 where the second of the minute is 0..39. *)
Theorem clock_seconds_field time format :
  0 <= time -> time_buffer_ok format ->
  let s := clock_time_to_str time format in
  two_digits s 3 = clock_seconds time `mod` 100 /\
  (60000 <= time < 100000 -> two_digits s 3 = clock_seconds time `mod` 60 + 60).
Proof.
  intros Ht Hf s. assert (two_digits s 3 = clock_seconds time `mod` 100) as E.
  { unfold s. destruct (time_buffer_shape _ Hf) as (?&?&?&?&?&?&?&->).
    unfold clock_time_to_str, two_digits, clock_seconds.
    cbn [insert list_insert lookup_total list_lookup_total].
    rewrite !digit_char by word_lia. word_lia. }
  rewrite E. split; [done|]. unfold clock_seconds. word_lia.
Qed.

(** [n] clock interrupts in a row. *)
Lemma clock_ticks {D} `{Bus D} (n : nat) c (d : D) :
  0 <= c -> c + Z.of_nat n < 18446744073709551616 ->
  (Nat.iter n irq_handler_clock (c, d)).1 = c + Z.of_nat n.
Proof.
  intros Hc. induction n as [|n IH]; intros Hn; simpl.
  - lia.
  - rewrite IH by lia. word_lia.
Qed.

(** ** Timer programming *)

(** The control byte both start sequences leave behind. *)
Definition timer_running (v : Z) : Z := Z.lor (Z.land v 0x1C) 0xE2.

Definition timer_program (v : Z) : Z :=
  let v := u8 (Z.land (u8 v) (Z.lnot (Z.shiftl 1 7))) in
  let v := u8 (Z.lor (u8 v) (Z.shiftl 1 6)) in
  let v := u8 (Z.lor (u8 v) (Z.shiftl 1 5)) in
  let v := u8 (Z.lor (u8 v) (Z.shiftl 1 1)) in
  let v := u8 (Z.land (u8 v) (Z.lnot (Z.shiftl 1 0))) in
  u8 (Z.lor (u8 v) (Z.shiftl 1 7)).

Lemma timer_program_eq v : is_u8 v -> timer_program v = timer_running v.
Proof.
  intros Hv. apply Z.eqb_eq.
  by apply (u8_forall (fun v => timer_program v =? timer_running v)).
Qed.

Ltac timer_solve Hp :=
  unfold timer_start, clock_start; cbv zeta;
  repeat first
    [ rewrite (plain_or8 _ _ Hp) by (vm_compute; done)
    | rewrite (plain_and8 _ _ Hp) by (vm_compute; done)
    | rewrite (plain_write8_other _ _ Hp) by (vm_compute; done)
    | rewrite (plain_write32_other _ _ Hp) by (vm_compute; done) ].

(** If the control registers are plain read/write registers, [timer_start]
    and [clock_start] leave them with the timer enabled, periodic, 32 bits wide,
    wrapping and raising interrupts, and keep the prescaler bits. *)
Theorem timers_started {D} `{Bus D} (ctrl1 ctrl3 : D -> Z) period d :
  plain_register TIMER1_CTRL ctrl1 -> plain_register TIMER3_CTRL ctrl3 ->
  is_u8 (ctrl1 d) -> is_u8 (ctrl3 d) ->
  ctrl1 (timer_start period d) = Z.lor (Z.land (ctrl1 d) 0x1C) 0xE2 /\
  ctrl3 (clock_start period d) = Z.lor (Z.land (ctrl3 d) 0x1C) 0xE2.
Proof.
  intros Hp1 Hp3 H1 H3. split.
  - etrans; [|exact (timer_program_eq _ H1)]. by timer_solve Hp1.
  - etrans; [|exact (timer_program_eq _ H3)]. by timer_solve Hp3.
Qed.

(** ** Witnesses *)

Lemma time_format_ok : time_buffer_ok time_format.
Proof. by vm_compute. Qed.

Lemma clock_time_to_str_digits_witness :
  clock_time_to_str 754321 time_format = cstr "12:54:321" ++ [0].
Proof.
  rewrite (clock_time_to_str_digits 754321 time_format);
    [vm_compute; reflexivity|lia|apply time_format_ok].
Defined.

Lemma clock_seconds_field_witness :
  two_digits (clock_time_to_str 75000 time_format) 3 = 75.
Proof.
  destruct (clock_seconds_field 75000 time_format) as [E _];
    [lia|apply time_format_ok|]. rewrite E. vm_compute. reflexivity.
Defined.

Lemma timers_started_witness :
  regfile_value TIMER1_CTRL (timer_start 0x2000 (mk_regfile ∅)) = 0xE2.
Proof.
  destruct (timers_started (regfile_value TIMER1_CTRL) (regfile_value TIMER3_CTRL) 0x2000
    (mk_regfile ∅)) as [E _];
    [apply regfile_plain|apply regfile_plain|vm_compute; done|vm_compute; done|].
  rewrite E. vm_compute. reflexivity.
Defined.
