(* ===== verification/Ev3.v ===== *)
(** * The second board: the EV3 branches of timer.c, interrupt.c, scheduler.c

    The library models the VersatilePB.  This file has what the same functions
    do when they are compiled for the EV3: its own timer, its interrupt
    controller, and the vector table at the upper end of the address space. *)

From S2P Require Import Prelude StateMonad Memory Bus.

(** ** Definitions *)

Definition ev3_IRQ_STACK_ADDRESS : Z := 0xC5000000.
Definition ev3_TIMER_LOAD_VALUE : Z := 0x10000.
Definition ev3_IVT_OFFSET : Z := 0xFFFF0000.

Definition TIMER0_BASE : Z := 0x01C20000.
Definition TIMER0_INTCTLSTAT_ASM : Z := 0x01C20044.
Definition TIMER0_PRD34 : Z := TIMER0_BASE + 0x1C.
Definition TIMER0_TCR : Z := TIMER0_BASE + 0x20.
Definition TIMER0_TGCR : Z := TIMER0_BASE + 0x24.
Definition TIMER0_INTCTLSTAT : Z := TIMER0_BASE + 0x44.

Definition ENAMODE34 : Z := Z.shiftl 3 22.
Definition ENAMODE34_CONTIN : Z := Z.shiftl 2 22.
Definition PSC34 : Z := Z.shiftl 15 8.
Definition PSC34_VALUE : Z := Z.shiftl 15 8.
Definition TIMMODE : Z := Z.shiftl 3 2.
Definition TIMMODE_UNCHAINED : Z := Z.shiftl 1 2.
Definition TIM34RS_REMOVE : Z := Z.shiftl 1 1.

Definition CLEARTIMER34_ASM : Z := 0x30000.
Definition PRDINTSTAT34 : Z := Z.shiftl 1 17.
Definition PRDINTEN34 : Z := Z.shiftl 1 16.

Definition AINTC_BASE : Z := 0xFFFEE000.
Definition AINTC_SECR1_ASM : Z := 0xFFFEE280.
Definition AINTC_GER : Z := AINTC_BASE + 0x0010.
Definition AINTC_SECR1 : Z := AINTC_BASE + 0x0280.
Definition AINTC_ESR1 : Z := AINTC_BASE + 0x0300.
Definition AINTC_CMR5 : Z := AINTC_BASE + 0x0414.
Definition AINTC_HIER : Z := AINTC_BASE + 0x1500.

Definition GER_ENABLE : Z := 1.
Definition T64P0_TINT34 : Z := Z.shiftl 1 22.
Definition T64P0_TINT34_ASM : Z := 0x400000.
Definition HIER_IRQ : Z := Z.shiftl 1 1.

Section Ev3.
Context {D : Type} `{Bus D}.

Definition ev3_timer_start (period : Z) (d : D) : D :=
  let d := and32 TIMER0_TCR (Z.lnot ENAMODE34) d in
  let d := and32 TIMER0_TGCR (Z.lnot TIM34RS_REMOVE) d in
  let d := and32 TIMER0_TGCR (Z.lnot TIMMODE) d in
  let d := or32 TIMER0_TGCR TIMMODE_UNCHAINED d in
  let d := or32 TIMER0_TGCR TIM34RS_REMOVE d in
  let d := write32 TIMER0_PRD34 period d in
  let d := and32 TIMER0_TGCR (Z.lnot PSC34) d in
  let d := or32 TIMER0_TGCR PSC34_VALUE d in
  let d := or32 TIMER0_INTCTLSTAT PRDINTSTAT34 d in
  let d := or32 TIMER0_INTCTLSTAT PRDINTEN34 d in
  or32 TIMER0_TCR ENAMODE34_CONTIN d.

Definition ev3_timer_stop (d : D) : D :=
  let d := and32 TIMER0_TCR (Z.lnot ENAMODE34) d in
  or32 TIMER0_INTCTLSTAT PRDINTSTAT34 d.

Definition ev3_init_timer_interrupt (d : D) : D :=
  let d := or32 AINTC_ESR1 T64P0_TINT34 d in
  or32 AINTC_CMR5 (Z.shiftl 2 (2 * 8)) d.

(** [init_interrupt_controller] up to the call of [init_pci_interrupt], whose
    registers the EV3 does not have. *)
Definition ev3_init_interrupt_controller (d : D) : D :=
  let d := write32 AINTC_SECR1 0xFFFFFFFF d in
  let d := write32 AINTC_GER GER_ENABLE d in
  let d := or32 AINTC_HIER HIER_IRQ d in
  ev3_init_timer_interrupt d.

(** The acknowledgement at the end of [irq_handler_timer]. *)
Definition ev3_acknowledge_timer (d : D) : D :=
  let d := write32 TIMER0_INTCTLSTAT_ASM CLEARTIMER34_ASM d in
  write32 AINTC_SECR1_ASM T64P0_TINT34_ASM d.

(** ** Correctness *)

(** A 32-bit register that keeps what is written to it. *)
Definition plain_word (address : Z) (value : D -> Z) : Prop :=
  (forall d, bus_read 4 address d = (value d, d)) /\
  (forall v d, value (bus_write 4 address v d) = v) /\
  (forall n a v d, a <> address -> value (bus_write n a v d) = value d) /\
  (forall n a d, value (bus_read n a d).2 = value d).

Section Word.
Context (address : Z) (value : D -> Z).
Hypothesis Hp : plain_word address value.
Hypothesis Ha : is_u32 address.

Lemma word_write v d : value (write32 address v d) = u32 v.
Proof. unfold write32. rewrite u32_id by done. apply Hp. Qed.

Lemma word_write_other a v d : u32 a <> address -> value (write32 a v d) = value d.
Proof. intros. unfold write32. by apply Hp. Qed.

Lemma word_or m d : value (or32 address m d) = u32 (Z.lor (u32 (value d)) m).
Proof.
  unfold or32, read32. rewrite (u32_id address) by done. destruct Hp as (Hr & _). rewrite Hr. apply word_write.
Qed.

Lemma word_and m d : value (and32 address m d) = u32 (Z.land (u32 (value d)) m).
Proof.
  unfold and32, read32. rewrite (u32_id address) by done. destruct Hp as (Hr & _). rewrite Hr. apply word_write.
Qed.

Lemma word_or_other a m d : u32 a <> address -> value (or32 a m d) = value d.
Proof.
  intros Hne. unfold or32, read32. destruct Hp as (_ & _ & _ & Hrd). specialize (Hrd 4%nat (u32 a) d).
  destruct (bus_read 4 (u32 a) d) as [v d']. by rewrite word_write_other.
Qed.

Lemma word_and_other a m d : u32 a <> address -> value (and32 a m d) = value d.
Proof.
  intros Hne. unfold and32, read32. destruct Hp as (_ & _ & _ & Hrd). specialize (Hrd 4%nat (u32 a) d).
  destruct (bus_read 4 (u32 a) d) as [v d']. by rewrite word_write_other.
Qed.

End Word.

Ltac word_solve Hp :=
  repeat first
    [ rewrite (word_or _ _ Hp) by done | rewrite (word_and _ _ Hp) by done
    | rewrite (word_write _ _ Hp) by done
    | rewrite (word_or_other _ _ Hp) by done | rewrite (word_and_other _ _ Hp) by done
    | rewrite (word_write_other _ _ Hp) by done ].

(** The bits of a word after a sequence of masks. *)
Lemma u32_testbit v i : 0 <= i < 32 -> Z.testbit (u32 v) i = Z.testbit v i.
Proof. intros Hi. unfold u32. change 4294967296 with (2 ^ 32). apply Z.mod_pow2_bits_low; lia. Qed.

(** [timer_start] on the EV3: the period is loaded, the timer runs continuously
    as an unchained 32-bit timer with the prescaler at 15, out of reset, and the
    other bits of its control registers are kept; [timer_stop] clears the enable
    bits and keeps the others. *)
Theorem ev3_timer_correct (tcr tgcr prd : D -> Z) period d :
  plain_word TIMER0_TCR tcr -> plain_word TIMER0_TGCR tgcr -> plain_word TIMER0_PRD34 prd -> is_u32 period ->
  prd (ev3_timer_start period d) = period /\
  (forall i, 0 <= i < 32 ->
     Z.testbit (tcr (ev3_timer_start period d)) i =
       (if i =? 22 then false else if i =? 23 then true else Z.testbit (tcr d) i) /\
     Z.testbit (tgcr (ev3_timer_start period d)) i =
       (if (i =? 1) || (i =? 2) || ((8 <=? i) && (i <? 12)) then true
        else if i =? 3 then false else Z.testbit (tgcr d) i) /\
     Z.testbit (tcr (ev3_timer_stop d)) i =
       (if (i =? 22) || (i =? 23) then false else Z.testbit (tcr d) i)).
Proof.
  intros Ht Hg Hp Hper. unfold ev3_timer_start, ev3_timer_stop. cbv zeta. split.
  - word_solve Hp. by apply u32_id.
  - intros i Hi. word_solve Ht. word_solve Hg.
    repeat first [rewrite u32_testbit by done | rewrite Z.lor_spec | rewrite Z.land_spec].
    rewrite <- (Z2Nat.id i) by lia. assert (Z.to_nat i < 32)%nat as Hn by lia. clear Hi. revert Hn.
    generalize (Z.to_nat i). clear i. intros n Hn.
    do 32 (destruct n as [|n]; [cbn; destruct (Z.testbit (tcr d) _), (Z.testbit (tgcr d) _); done|]).
    lia.
Qed.

End Ev3.

(** ** Witness *)

Lemma regfile_plain_word a : plain_word a (regfile_value a).
Proof.
  split_and!; [done| | |done]; unfold regfile_value; cbn; intros.
  - by rewrite lookup_insert_eq.
  - by rewrite lookup_insert_ne.
Qed.

Lemma ev3_timer_correct_witness :
  regfile_value TIMER0_PRD34 (ev3_timer_start ev3_TIMER_LOAD_VALUE (mk_regfile ∅)) = 0x10000.
Proof.
  destruct (ev3_timer_correct (regfile_value TIMER0_TCR) (regfile_value TIMER0_TGCR) (regfile_value TIMER0_PRD34)
    ev3_TIMER_LOAD_VALUE (mk_regfile ∅)) as [E _];
    [apply regfile_plain_word..|done|exact E].
Defined.
