(* ===== verification/Scheduler.v ===== *)
(** * The scheduler: kernel/scheduler.c and kernel/utilities.c

    The task table, the ring of ready tasks, task creation and the round-robin
    switch.  A [task_t *] is [Some i] for [&tasks[i]] and [None] for NULL.  The
    ring is an instance of [Fifo]; its capacity is 15, one less than the 16
    tasks [add_task] accepts. *)

From S2P Require Import Prelude RingBuffer.

(** ** Definitions *)

Definition EPERMISSION : Z := 1.
Definition ETOOMANYTASKS : Z := 2.

Definition CPSR_MODE_SVC : Z := 0x13.
Definition CPSR_MODE_USER : Z := 0x10.
Definition MAX_TASK_NUMBER : Z := 16.

Definition STACK_SIZE : Z := 0x10000.
Definition IRQ_STACK_ADDRESS : Z := 0x4000000.
Definition SVC_STACK_ADDRESS : Z := IRQ_STACK_ADDRESS - STACK_SIZE.
Definition TASK_STACK_BASE_ADDRESS : Z := SVC_STACK_ADDRESS - STACK_SIZE.

Record task_t := mk_task {
  reg : list Z;
  sp : Z;
  lr : Z;
  pc : Z;
  cpsr : Z;
}.

#[export] Instance task_t_eq_dec : EqDecision task_t.
Proof. solve_decision. Defined.

(** A zero-initialised task structure. *)
Definition task_zero : task_t := mk_task (replicate 13 0) 0 0 0 0.

#[export] Instance task_t_inhabited : Inhabited task_t := populate task_zero.

Record sched := mk_sched {
  task_count : Z;
  buffer_start : Z;
  buffer_end : Z;
  isRunning : Z;
  tasks : list task_t;
  ring_buffer : list (option nat);
  current_task : option nat;
  sched_errno : Z;
}.

Definition sched_boot : sched :=
  mk_sched 0 0 0 0 (replicate 16 task_zero) (replicate 16 None) None 0.

(** [cpsr & 0x1f], and the test on it. *)
Definition get_operating_mode (current_pcsr : Z) : Z := Z.land current_pcsr 0x1f.
Definition is_privileged (current_pcsr : Z) : bool :=
  negb (get_operating_mode current_pcsr =? 0x10).

Definition with_ring (s : sched) (buf : list (option nat)) (st en : Z) : sched :=
  mk_sched (task_count s) st en (isRunning s) (tasks s) buf (current_task s) (sched_errno s).
Definition with_current (s : sched) (c : option nat) : sched :=
  mk_sched (task_count s) (buffer_start s) (buffer_end s) (isRunning s) (tasks s)
    (ring_buffer s) c (sched_errno s).
Definition with_errno (s : sched) (e : Z) : sched :=
  mk_sched (task_count s) (buffer_start s) (buffer_end s) (isRunning s) (tasks s)
    (ring_buffer s) (current_task s) e.
Definition with_tasks (s : sched) (n : Z) (ts : list task_t) : sched :=
  mk_sched n (buffer_start s) (buffer_end s) (isRunning s) ts
    (ring_buffer s) (current_task s) (sched_errno s).
Definition with_running (s : sched) (r : Z) : sched :=
  mk_sched (task_count s) (buffer_start s) (buffer_end s) r (tasks s)
    (ring_buffer s) (current_task s) (sched_errno s).

Definition ring_buffer_insert (task : option nat) (s : sched) : sched :=
  let new_end := Z.rem (buffer_end s + 1) MAX_TASK_NUMBER in
  if negb (new_end =? buffer_start s)
  then with_ring s (<[Z.to_nat (buffer_end s) := task]> (ring_buffer s)) (buffer_start s) new_end
  else s.

Definition ring_buffer_remove (s : sched) : option nat * sched :=
  if buffer_start s =? buffer_end s then (None, s)
  else
    let task := ring_buffer s !!! Z.to_nat (buffer_start s) in
    (task, with_ring s (ring_buffer s) (Z.rem (buffer_start s + 1) MAX_TASK_NUMBER) (buffer_end s)).

(** [for (i = 0; i < 13; i++) task->reg[i] = i;] on a 13-register array, then
    the other fields. *)
Definition init_task (entrypoint stackbase : Z) : task_t :=
  mk_task (zseq 13) stackbase 0 entrypoint CPSR_MODE_USER.

Definition task_stackbase (n : Z) : Z := u32 (TASK_STACK_BASE_ADDRESS - STACK_SIZE * n).

Definition add_task (current_pcsr entrypoint : Z) (s : sched) : Z * sched :=
  if negb (is_privileged current_pcsr) then (-1, with_errno s EPERMISSION)
  else if MAX_TASK_NUMBER <=? task_count s then (-1, with_errno s ETOOMANYTASKS)
  else
    let i := Z.to_nat (task_count s) in
    let stackbase := task_stackbase (task_count s) in
    let s1 := with_tasks s (task_count s)
                (<[i := init_task (u32 entrypoint) stackbase]> (tasks s)) in
    let s2 := ring_buffer_insert (Some i) s1 in
    (0, with_tasks s2 (task_count s2 + 1) (tasks s2)).

Definition schedule (s : sched) : sched :=
  let s1 := ring_buffer_insert (current_task s) s in
  let '(task, s2) := ring_buffer_remove s1 in
  with_current s2 task.

(** The scheduler's part of [start_scheduler] when it is not yet running. *)
Definition start_scheduler_tasks (s : sched) : sched :=
  let '(task, s1) := ring_buffer_remove s in
  with_running (with_current s1 task) 1.

(** ** The ring of ready tasks *)

Definition sched_ring_ok (s : sched) : Prop :=
  ring_ok 16 (ring_buffer s) (buffer_start s) (buffer_end s).

Definition ready (s : sched) : list (option nat) :=
  ring_contents 16 (ring_buffer s) (buffer_start s) (buffer_end s).

Lemma insert_room task s :
  sched_ring_ok s -> (length (ready s) < 15)%nat ->
  ring_buffer_insert task s =
    with_ring s (<[Z.to_nat (buffer_end s) := task]> (ring_buffer s)) (buffer_start s)
      (ring_next 16 (buffer_end s)) /\
  ring_next 16 (buffer_end s) <> buffer_start s.
Proof.
  intros (Hlen & Hs & He) Hroom. unfold ready in Hroom. rewrite length_ring_contents in Hroom.
  assert (ring_next 16 (buffer_end s) <> buffer_start s) as Hne
    by (rewrite (ring_count_full 16) by done; lia).
  split; [|done]. unfold ring_buffer_insert, MAX_TASK_NUMBER.
  rewrite Z_rem_mod_nonneg by lia. fold (ring_next 16 (buffer_end s)).
  by rewrite (proj2 (Z.eqb_neq _ _) Hne).
Qed.

Lemma insert_full task s :
  sched_ring_ok s -> (15 <= length (ready s))%nat -> ring_buffer_insert task s = s.
Proof.
  intros (Hlen & Hs & He) Hfull. unfold ready in Hfull. rewrite length_ring_contents in Hfull.
  pose proof (ring_count_bound 16 (buffer_start s) (buffer_end s)).
  assert (ring_next 16 (buffer_end s) = buffer_start s) as E
    by (rewrite (ring_count_full 16) by done; lia).
  unfold ring_buffer_insert, MAX_TASK_NUMBER. rewrite Z_rem_mod_nonneg by lia.
  fold (ring_next 16 (buffer_end s)). by rewrite (proj2 (Z.eqb_eq _ _) E).
Qed.

Lemma insert_ok task s : sched_ring_ok s -> sched_ring_ok (ring_buffer_insert task s).
Proof.
  intros Hok. destruct (decide (length (ready s) < 15)%nat) as [Hr|Hr].
  - destruct (insert_room task s Hok Hr) as [-> _]. destruct Hok as (Hlen & Hs & He).
    split_and!; simpl; [by rewrite length_insert|lia..| |];
      pose proof (ring_next_range 16 (buffer_end s)); lia.
  - by rewrite insert_full by (done || lia).
Qed.

Lemma ready_insert_room task s :
  sched_ring_ok s -> (length (ready s) < 15)%nat ->
  ready (ring_buffer_insert task s) = ready s ++ [task].
Proof.
  intros Hok Hr. destruct (insert_room task s Hok Hr) as [-> Hne].
  unfold ready. simpl. by apply ring_contents_insert.
Qed.

Lemma remove_empty s : sched_ring_ok s -> ready s = [] -> ring_buffer_remove s = (None, s).
Proof.
  intros (Hlen & Hs & He) Hr. apply ring_contents_nil_inv in Hr; [|done..].
  unfold ring_buffer_remove. by rewrite Hr, Z.eqb_refl.
Qed.

Lemma remove_cons s x q :
  sched_ring_ok s -> ready s = x :: q ->
  ring_buffer_remove s =
    (x, with_ring s (ring_buffer s) (ring_next 16 (buffer_start s)) (buffer_end s)) /\
  ready (ring_buffer_remove s).2 = q.
Proof.
  intros (Hlen & Hs & He) Hr.
  assert (buffer_start s <> buffer_end s) as Hne.
  { intros E. unfold ready in Hr. rewrite E, ring_contents_nil in Hr by done. done. }
  unfold ready in Hr. rewrite ring_contents_remove in Hr by done. simplify_eq.
  unfold ring_buffer_remove, MAX_TASK_NUMBER. rewrite (proj2 (Z.eqb_neq _ _) Hne).
  rewrite Z_rem_mod_nonneg by lia. done.
Qed.

Lemma remove_ok s : sched_ring_ok s -> sched_ring_ok (ring_buffer_remove s).2.
Proof.
  intros Hok. destruct (ready s) as [|x q] eqn:E.
  - by rewrite remove_empty.
  - destruct (remove_cons s x q Hok E) as [-> _]. destruct Hok as (Hlen & Hs & He).
    split_and!; simpl; [done| | |lia..];
      pose proof (ring_next_range 16 (buffer_start s)); lia.
Qed.

(** The ready ring is a bounded queue of 15 elements; [ring_buffer_remove]
    answers NULL on an empty ring. *)
Definition ready_pop (s : sched) : option (option nat) * sched :=
  (if buffer_start s =? buffer_end s then None else Some (ring_buffer_remove s).1,
   (ring_buffer_remove s).2).

#[export, refine] Instance sched_fifo : Fifo sched (option nat) := {|
  fq_ok := sched_ring_ok;
  fq_elem _ := True;
  fq_cap := 15;
  fq_view := ready;
  fq_push := ring_buffer_insert;
  fq_pop := ready_pop;
|}.
Proof.
  - intros. by apply insert_ok.
  - apply remove_ok.
  - intros. by apply ready_insert_room.
  - intros. by rewrite insert_full.
  - intros s Hok. unfold ready_pop. destruct (ready s) as [|x q] eqn:E.
    + rewrite remove_empty by done. simpl. rewrite E.
      destruct Hok as (_ & Hs & He). unfold ready in E. apply ring_contents_nil_inv in E; [|done..].
      by rewrite E, Z.eqb_refl.
    + destruct (remove_cons s x q Hok E) as [Hr Hv]. simpl. rewrite Hv.
      destruct (Z.eqb_spec (buffer_start s) (buffer_end s)) as [Ese|_].
      * destruct Hok as (_ & Hs & He). unfold ready in E.
        rewrite Ese, ring_contents_nil in E by done. done.
      * by rewrite Hr.
Defined.

(** ** Switching tasks *)

Lemma schedule_ok s : sched_ring_ok s -> sched_ring_ok (schedule s).
Proof.
  intros Hok. unfold schedule.
  pose proof (remove_ok _ (insert_ok (current_task s) s Hok)) as H.
  by destruct (ring_buffer_remove _).
Qed.

(** With room in the ring, the running task goes to the back of the queue and
    the front task runs. *)
Lemma schedule_rotates s :
  sched_ring_ok s -> (length (ready s) < 15)%nat ->
  Some (current_task (schedule s)) = head (ready s ++ [current_task s]) /\
  ready (schedule s) = tail (ready s ++ [current_task s]).
Proof.
  intros Hok Hroom. unfold schedule.
  pose proof (ready_insert_room (current_task s) s Hok Hroom) as Hv.
  pose proof (insert_ok (current_task s) s Hok) as Hok1.
  destruct (ready s ++ [current_task s]) as [|x q] eqn:E; [by destruct (ready s)|].
  destruct (remove_cons _ x q Hok1 Hv) as [Hr Hq].
  destruct (ring_buffer_remove _) as [t s2]. simpl in *. by simplify_eq.
Qed.

Lemma schedule_full s x q :
  sched_ring_ok s -> ready s = x :: q -> length (ready s) = 15%nat ->
  current_task (schedule s) = x /\ ready (schedule s) = q.
Proof.
  intros Hok E Hfull. unfold schedule. rewrite insert_full by (done || lia).
  destruct (remove_cons s x q Hok E) as [Hr Hq].
  destruct (ring_buffer_remove s) as [t s2]. simpl in *. by simplify_eq.
Qed.

(** The run queue: the running task, then the ready ones in order. *)
Definition run_queue (s : sched) : list (option nat) := current_task s :: ready s.

Lemma run_queue_schedule s :
  sched_ring_ok s -> (length (ready s) < 15)%nat ->
  run_queue (schedule s) = tail (run_queue s) ++ [current_task s].
Proof.
  intros Hok Hroom. destruct (schedule_rotates s Hok Hroom) as [Hc Hq].
  unfold run_queue. rewrite Hq. simpl. destruct (ready s); simpl in *; congruence.
Qed.

Lemma run_queue_iter s k :
  sched_ring_ok s -> (length (ready s) < 15)%nat -> (k <= length (run_queue s))%nat ->
  sched_ring_ok (Nat.iter k schedule s) /\
  run_queue (Nat.iter k schedule s) = drop k (run_queue s) ++ take k (run_queue s).
Proof.
  intros Hok Hroom. induction k as [|k IH]; intros Hk.
  - by rewrite drop_0, take_0, app_nil_r.
  - destruct IH as [Hok' Hq]; [lia|]. simpl.
    assert (length (run_queue (Nat.iter k schedule s)) = length (run_queue s)) as Hlen
      by (rewrite Hq, length_app, length_drop, length_take; lia).
    split; [by apply schedule_ok|]. rewrite run_queue_schedule; [|done|simpl in Hlen; lia].
    set (s' := Nat.iter k schedule s) in *.
    destruct (run_queue s !! k) as [x|] eqn:Ex; [|apply lookup_ge_None_1 in Ex; lia].
    rewrite (drop_S _ _ _ Ex) in Hq. simpl in Hq.
    assert (current_task s' = x /\ ready s' = drop (S k) (run_queue s) ++ take k (run_queue s))
      as [-> Hr] by (unfold run_queue in Hq at 1; by simplify_eq).
    unfold run_queue at 1. simpl tail. rewrite Hr, <- app_assoc. f_equal.
    change (current_task s :: take k (ready s)) with (take (S k) (run_queue s)).
    by rewrite (take_S_r _ _ x Ex).
Qed.

(** C19: Round robin: with fewer than 15 ready tasks beside the running one, [k] timer interrupts later the task that was [k]-th in the run queue
    is running, and after one full round the run queue is as it was; so every
    task runs exactly once per round and none starves. *)
Theorem schedule_round_robin s k :
  sched_ring_ok s -> (length (ready s) < 15)%nat ->
  ((k < length (run_queue s))%nat ->
    Some (current_task (Nat.iter k schedule s)) = run_queue s !! k) /\
  run_queue (Nat.iter (length (run_queue s)) schedule s) = run_queue s.
Proof.
  intros Hok Hroom. split.
  - intros Hk. destruct (run_queue_iter s k) as [_ Hq]; [done|done|lia|].
    assert (head (run_queue (Nat.iter k schedule s)) = run_queue s !! k) as <-; [|done].
    rewrite Hq. destruct (run_queue s !! k) as [x|] eqn:Ex; [|apply lookup_ge_None_1 in Ex; lia].
    by rewrite (drop_S _ _ _ Ex).
  - destruct (run_queue_iter s (length (run_queue s))) as [_ ->]; [done..|].
    by rewrite drop_ge, firstn_all by done.
Qed.

(** ** Creating tasks *)

Lemma add_task_spec current_pcsr entrypoint s :
  sched_ring_ok s -> length (tasks s) = 16%nat -> 0 <= task_count s ->
  (Z.land current_pcsr 0x1f = 0x10 ->
    add_task current_pcsr entrypoint s = (-1, with_errno s EPERMISSION)) /\
  (Z.land current_pcsr 0x1f <> 0x10 -> 16 <= task_count s ->
    add_task current_pcsr entrypoint s = (-1, with_errno s ETOOMANYTASKS)) /\
  (Z.land current_pcsr 0x1f <> 0x10 -> task_count s < 16 ->
    exists s', add_task current_pcsr entrypoint s = (0, s') /\
      let i := Z.to_nat (task_count s) in
      task_count s' = task_count s + 1 /\
      tasks s' !! i = Some (mk_task (zseq 13) (0x3FE0000 - 0x10000 * task_count s) 0
                              (u32 entrypoint) 0x10) /\
      (forall j, j <> i -> tasks s' !! j = tasks s !! j) /\
      current_task s' = current_task s /\ isRunning s' = isRunning s /\
      ready s' = ready s ++ (if decide (length (ready s) < 15)%nat then [Some i] else [])).
Proof.
  intros Hok Hlen Hcount. unfold add_task, is_privileged, get_operating_mode, MAX_TASK_NUMBER.
  destruct (Z.eqb_spec (Z.land current_pcsr 0x1f) 0x10) as [Hm|Hm]; simpl; [by split_and!|].
  destruct (Z.leb_spec 16 (task_count s)); [split_and!; [done|done|lia]|].
  split; [done|split; [lia|]]. intros _ _. eexists. split; [done|].
  set (i := Z.to_nat (task_count s)). set (s1 := with_tasks s (task_count s) _).
  assert (sched_ring_ok s1) as Hok1 by done. assert (ready s1 = ready s) as Hr1 by done.
  assert (task_count (ring_buffer_insert (Some i) s1) = task_count s /\
    tasks (ring_buffer_insert (Some i) s1) = tasks s1 /\
    current_task (ring_buffer_insert (Some i) s1) = current_task s /\
    isRunning (ring_buffer_insert (Some i) s1) = isRunning s) as (Ec & Et & Ecur & Er)
    by (unfold ring_buffer_insert; by destruct (negb _)).
  simpl. rewrite Ec, Et. split; [done|split; [|split; [|split; [done|split; [done|]]]]].
  - simpl. rewrite list_lookup_insert_eq by (unfold i; lia). unfold init_task. do 2 f_equal.
    unfold task_stackbase, TASK_STACK_BASE_ADDRESS, SVC_STACK_ADDRESS, IRQ_STACK_ADDRESS, STACK_SIZE.
    word_lia.
  - intros j Hj. simpl. by rewrite list_lookup_insert_ne.
  - change (ready (with_tasks ?a ?b ?c)) with (ready a). rewrite <- Hr1. case_decide as Hroom.
    + by apply ready_insert_room.
    + rewrite insert_full, app_nil_r by (done || lia). done.
Qed.

(** Every branch of [add_task]: without privilege it fails with EPERMISSION,
    with 16 tasks it fails with ETOOMANYTASKS, and neither touches the tasks or
    the ring; otherwise it returns 0, fills the next task structure (user mode,
    its own stack, the entry point as program counter), and appends it to the
    ready tasks if the ring has room. *)
Theorem add_task_branches current_pcsr entrypoint s :
  sched_ring_ok s -> length (tasks s) = 16%nat -> 0 <= task_count s ->
  (Z.land current_pcsr 0x1f = 0x10 ->
    add_task current_pcsr entrypoint s = (-1, with_errno s EPERMISSION)) /\
  (Z.land current_pcsr 0x1f <> 0x10 -> 16 <= task_count s ->
    add_task current_pcsr entrypoint s = (-1, with_errno s ETOOMANYTASKS)) /\
  (Z.land current_pcsr 0x1f <> 0x10 -> task_count s < 16 ->
    exists s', add_task current_pcsr entrypoint s = (0, s') /\
      let i := Z.to_nat (task_count s) in
      task_count s' = task_count s + 1 /\
      tasks s' !! i = Some (mk_task (zseq 13) (0x3FE0000 - 0x10000 * task_count s) 0
                              (u32 entrypoint) 0x10) /\
      (forall j, j <> i -> tasks s' !! j = tasks s !! j) /\
      current_task s' = current_task s /\ isRunning s' = isRunning s /\
      ready s' = ready s ++ (if decide (length (ready s) < 15)%nat then [Some i] else [])).
Proof.
  apply add_task_spec.
Qed.

(** ** Reachable scheduler states *)

(** What happens to the scheduler: tasks are created, [start_scheduler] picks
    the first one once there is one, timer interrupts switch. *)
Inductive sched_step : sched -> sched -> Prop :=
| step_add current_pcsr entrypoint s :
    sched_step s (add_task current_pcsr entrypoint s).2
| step_start s :
    isRunning s = 0 -> ready s <> [] -> sched_step s (start_scheduler_tasks s)
| step_tick s :
    isRunning s <> 0 -> sched_step s (schedule s).

(** The tasks the scheduler still knows. *)
Definition live (s : sched) : list (option nat) :=
  (if isRunning s =? 0 then [] else [current_task s]) ++ ready s.

Definition created (s : sched) : list (option nat) :=
  Some <$> seq 0 (Z.to_nat (task_count s)).

Definition sched_inv (s : sched) : Prop :=
  sched_ring_ok s /\ length (tasks s) = 16%nat /\ 0 <= task_count s <= 16 /\
  live s ⊆+ created s /\ (task_count s <= 15 -> live s ≡ₚ created s).

Lemma created_NoDup s : NoDup (created s).
Proof. apply NoDup_fmap_2; [apply _|apply NoDup_seq]. Qed.

Lemma length_created s : length (created s) = Z.to_nat (task_count s).
Proof. unfold created. by rewrite length_fmap, length_seq. Qed.

Lemma boot_inv : sched_inv sched_boot.
Proof. split_and!; by vm_compute. Qed.

Lemma live_length s : sched_inv s -> task_count s <= 15 -> length (live s) = Z.to_nat (task_count s).
Proof.
  intros (_ & _ & _ & _ & Hp) Hc. rewrite (Hp Hc). apply length_created.
Qed.

Lemma ready_le_live s : (length (ready s) <= length (live s))%nat.
Proof. unfold live. rewrite length_app. lia. Qed.

Lemma created_snoc s s' :
  0 <= task_count s -> task_count s' = task_count s + 1 ->
  created s' = created s ++ [Some (Z.to_nat (task_count s))].
Proof.
  intros Hc E. unfold created. rewrite E, Z.add_1_r, Z2Nat.inj_succ by done.
  by rewrite seq_S, fmap_app.
Qed.

Lemma add_task_ring_ok current_pcsr entrypoint s :
  sched_ring_ok s -> sched_ring_ok (add_task current_pcsr entrypoint s).2.
Proof.
  intros Hok. unfold add_task. destruct (negb _); [done|]. destruct (_ <=? _); [done|].
  simpl. by apply (insert_ok (Some _) (with_tasks s _ _)).
Qed.

Lemma add_task_tasks current_pcsr entrypoint s :
  length (tasks (add_task current_pcsr entrypoint s).2) = length (tasks s).
Proof.
  unfold add_task. destruct (negb _); [done|]. destruct (_ <=? _); [done|].
  unfold ring_buffer_insert. destruct (negb _); simpl; by rewrite length_insert.
Qed.

Lemma add_task_inv current_pcsr entrypoint s :
  sched_inv s -> sched_inv (add_task current_pcsr entrypoint s).2.
Proof.
  intros Hinv. pose proof Hinv as (Hok & Hlen & Hc & Hsub & Hperm).
  destruct (add_task_spec current_pcsr entrypoint s Hok Hlen ltac:(lia)) as (Hb1 & Hb2 & Hb3).
  pose proof (add_task_ring_ok current_pcsr entrypoint s Hok) as Hok'.
  pose proof (add_task_tasks current_pcsr entrypoint s) as Hlen'.
  destruct (decide (Z.land current_pcsr 0x1f = 0x10)) as [Hm|Hm]; [by rewrite Hb1|].
  destruct (decide (16 <= task_count s)); [by rewrite Hb2|].
  destruct Hb3 as (s' & E & Hc' & _ & _ & Hcur & Hrun & Hready); [done|lia|].
  rewrite E in *. simpl in *.
  pose proof (created_snoc s s' ltac:(lia) Hc') as Ecr.
  assert (live s' = live s ++
    (if decide (length (ready s) < 15)%nat then [Some (Z.to_nat (task_count s))] else [])) as El.
  { unfold live. rewrite Hrun, Hcur, Hready. by rewrite app_assoc. }
  split; [done|split; [lia|split; [lia|]]]. rewrite Ecr, El. split.
  - case_decide; [by apply submseteq_app|]. rewrite app_nil_r.
    etrans; [exact Hsub|]. by apply submseteq_inserts_r.
  - intros Hc15. rewrite decide_True; [by rewrite Hperm by lia|].
    pose proof (live_length s Hinv ltac:(lia)). pose proof (ready_le_live s). lia.
Qed.

Lemma schedule_fields s :
  isRunning (schedule s) = isRunning s /\ task_count (schedule s) = task_count s /\
  tasks (schedule s) = tasks s.
Proof.
  unfold schedule, ring_buffer_insert, ring_buffer_remove.
  destruct (negb _); destruct (_ =? _); done.
Qed.

Lemma created_ext s s' : task_count s' = task_count s -> created s' = created s.
Proof. intros E. unfold created. by rewrite E. Qed.

Lemma tick_inv s : sched_inv s -> isRunning s <> 0 -> sched_inv (schedule s).
Proof.
  intros Hinv Hrun. pose proof Hinv as (Hok & Hlen & Hc & Hsub & Hperm).
  destruct (schedule_fields s) as (Er & Ec & Et).
  unfold sched_inv. rewrite Ec, Et, (created_ext _ _ Ec).
  assert (live s = run_queue s) as El
    by (unfold live; by rewrite (proj2 (Z.eqb_neq _ _) Hrun)).
  assert (live (schedule s) = run_queue (schedule s)) as El'
    by (unfold live; by rewrite Er, (proj2 (Z.eqb_neq _ _) Hrun)).
  split; [by apply schedule_ok|split; [done|split; [done|]]]. rewrite El'.
  destruct (decide (length (ready s) < 15)%nat) as [Hroom|Hfull].
  - assert (run_queue (schedule s) ≡ₚ live s) as Hp.
    { rewrite run_queue_schedule, El by done. unfold run_queue. simpl.
      by rewrite Permutation_app_comm. }
    rewrite Hp. by split.
  - pose proof Hok as (Hb & Hs & He).
    assert (length (ready s) = 15%nat) as Hl.
    { unfold ready in *. rewrite length_ring_contents in *.
      pose proof (ring_count_bound 16 (buffer_start s) (buffer_end s)). lia. }
    destruct (ready s) as [|x q] eqn:Eq; [done|].
    destruct (schedule_full s x q Hok Eq) as [Hx Hq]; [by rewrite Eq|].
    assert (run_queue (schedule s) = ready s) as Erq by (unfold run_queue; congruence).
    split.
    + rewrite Erq. etrans; [|exact Hsub]. rewrite El. unfold run_queue. by apply submseteq_cons.
    + intros Hc15. pose proof (live_length s Hinv Hc15) as Hll.
      rewrite El in Hll. unfold run_queue in Hll. simpl in Hll. rewrite Eq in Hll. lia.
Qed.

Lemma start_inv s :
  sched_inv s -> isRunning s = 0 -> ready s <> [] -> sched_inv (start_scheduler_tasks s).
Proof.
  intros (Hok & Hlen & Hc & Hsub & Hperm) Hrun Hne.
  destruct (ready s) as [|x q] eqn:Eq; [done|].
  destruct (remove_cons s x q Hok Eq) as [Hr Hq].
  pose proof (remove_ok s Hok) as Hok'.
  unfold start_scheduler_tasks. rewrite Hr in *. simpl in *.
  set (s1 := with_ring _ _ _ _) in *.
  assert (live (with_running (with_current s1 x) 1) = live s) as El.
  { unfold live. rewrite Hrun. simpl. rewrite Eq, <- Hq. done. }
  split; [done|]. rewrite El. split; [done|split; [done|by split]].
Qed.

Lemma reachable_inv s : rtc sched_step sched_boot s -> sched_inv s.
Proof.
  intros Hr. cut (forall s0, sched_inv s0 -> rtc sched_step s0 s -> sched_inv s).
  { intros Hcut. eapply Hcut; [apply boot_inv|done]. }
  clear Hr. intros s0 H0 Hr. induction Hr as [|s1 s2 s3 Hstep _ IH]; [done|]. apply IH.
  destruct Hstep; [by apply add_task_inv|by apply start_inv|by apply tick_inv].
Qed.

(** C20: In every reachable state no task is queued twice or invented: the
    running and ready tasks are distinct created tasks; and as long as at most
    15 tasks were created, none is ever lost: every created task is running or
    ready. *)
Theorem scheduler_loses_no_task s :
  rtc sched_step sched_boot s ->
  NoDup (live s) /\ (forall t, t ∈ live s -> t ∈ created s) /\
  (task_count s <= 15 -> live s ≡ₚ created s).
Proof.
  intros Hr. destruct (reachable_inv s Hr) as (_ & _ & _ & Hsub & Hperm). split_and!.
  - eapply submseteq_NoDup; [exact Hsub|]. apply created_NoDup.
  - intros t Ht. by eapply elem_of_submseteq.
  - exact Hperm.
Qed.

(** The 16th task created before the scheduler starts is lost: [add_task]
    reports success and counts it, but it is neither running nor ready. *)
Theorem sixteenth_task_lost current_pcsr entrypoint s :
  rtc sched_step sched_boot s -> isRunning s = 0 -> task_count s = 15 ->
  is_privileged current_pcsr = true ->
  let '(r, s') := add_task current_pcsr entrypoint s in
  r = 0 /\ task_count s' = 16 /\ Some 15%nat ∈ created s' /\ Some 15%nat ∉ live s'.
Proof.
  intros Hr Hrun Hc Hpriv. pose proof (reachable_inv s Hr) as Hinv.
  pose proof Hinv as (Hok & Hlen & _ & Hsub & _).
  pose proof (live_length s Hinv ltac:(lia)) as Hll. rewrite Hc in Hll.
  destruct (add_task_spec current_pcsr entrypoint s Hok Hlen ltac:(lia)) as (_ & _ & Hb).
  destruct Hb as (s' & -> & Hc' & _ & _ & Hcur & Hrun' & Hready).
  { unfold is_privileged, get_operating_mode in Hpriv. intros E. rewrite E in Hpriv. done. }
  { lia. }
  assert (live s' = ready s) as El.
  { unfold live in *. rewrite Hrun', Hrun in *. simpl in *. rewrite Hready, decide_False by lia.
    by rewrite app_nil_r. }
  split_and!; [done|lia| |].
  - unfold created. rewrite Hc', Hc. by apply list_elem_of_fmap_2, elem_of_seq; lia.
  - rewrite El. intros Hin.
    assert (Some 15%nat ∈ created s) as Hin'.
    { eapply elem_of_submseteq; [|exact Hsub]. unfold live. set_solver. }
    unfold created in Hin'. rewrite Hc in Hin'.
    apply list_elem_of_fmap in Hin' as (? & ? & ?%elem_of_seq). simplify_eq. lia.
Qed.

(** The stacks [add_task] hands out grow downwards from [stackbase], are
    64 KiB each, do not overlap one another, and lie below the supervisor and
    interrupt stacks and above address 0x3ED0000. *)
Theorem task_stacks_disjoint i j :
  0 <= i < j -> j < MAX_TASK_NUMBER ->
  task_stackbase j <= task_stackbase i - STACK_SIZE /\
  0x3ED0000 <= task_stackbase j - STACK_SIZE /\
  task_stackbase i <= SVC_STACK_ADDRESS - STACK_SIZE /\
  SVC_STACK_ADDRESS <= IRQ_STACK_ADDRESS - STACK_SIZE.
Proof.
  unfold task_stackbase, MAX_TASK_NUMBER, TASK_STACK_BASE_ADDRESS, SVC_STACK_ADDRESS,
    IRQ_STACK_ADDRESS, STACK_SIZE. intros. word_lia.
Qed.

(** When the scheduler is running and the ready ring holds 15 tasks (16
    tasks were created), the next timer interrupt loses the running task: it was
    created, and afterwards it is neither running nor ready, because
    [ring_buffer_insert] drops it without a word. *)
Theorem schedule_drops_current s :
  rtc sched_step sched_boot s -> isRunning s <> 0 -> length (ready s) = 15%nat ->
  current_task s ∈ created s /\ current_task s ∉ live (schedule s).
Proof.
  intros Hr Hrun Hlen. destruct (reachable_inv s Hr) as (Hok & _ & _ & Hsub & _).
  assert (live s = current_task s :: ready s) as El
    by (unfold live; by rewrite (proj2 (Z.eqb_neq _ _) Hrun)).
  assert (NoDup (live s)) as Hnd
    by (eapply submseteq_NoDup; [exact Hsub|apply created_NoDup]).
  split.
  - eapply elem_of_submseteq; [|exact Hsub]. rewrite El. left.
  - destruct (schedule_fields s) as (Er & _). unfold live at 1. rewrite Er.
    rewrite (proj2 (Z.eqb_neq _ _) Hrun). simpl.
    destruct (ready s) as [|x q] eqn:Eq; [done|].
    destruct (schedule_full s x q Hok Eq) as [Hx Hq]; [by rewrite Eq|].
    rewrite Hx, Hq. rewrite El in Hnd. by apply NoDup_cons in Hnd as [? _].
Qed.

(** ** Witnesses *)

(** [n] tasks created in supervisor mode after boot. *)
Definition boot_with (n : nat) : sched :=
  Nat.iter n (fun s => (add_task CPSR_MODE_SVC 0x8000 s).2) sched_boot.

Lemma boot_with_reachable n : rtc sched_step sched_boot (boot_with n).
Proof.
  induction n as [|n IH]; [done|]. eapply rtc_r; [exact IH|]. apply step_add.
Qed.

Lemma started_reachable n :
  ready (boot_with n) <> [] -> isRunning (boot_with n) = 0 ->
  rtc sched_step sched_boot (start_scheduler_tasks (boot_with n)).
Proof. intros. eapply rtc_r; [apply boot_with_reachable|]. by apply step_start. Qed.

Lemma schedule_round_robin_witness :
  Some (current_task (Nat.iter 2 schedule (start_scheduler_tasks (boot_with 3)))) = Some (Some 2%nat).
Proof.
  destruct (schedule_round_robin (start_scheduler_tasks (boot_with 3)) 2) as [H _];
    [split_and!; vm_compute; congruence|vm_compute; lia|].
  specialize (H ltac:(vm_compute; lia)).
  assert (run_queue (start_scheduler_tasks (boot_with 3)) !! 2%nat = Some (Some 2%nat)) as E
    by (vm_compute; reflexivity).
  rewrite E in H. exact H.
Defined.

Lemma add_task_branches_witness :
  add_task CPSR_MODE_USER 0x8000 sched_boot = (-1, with_errno sched_boot EPERMISSION).
Proof.
  destruct (add_task_branches CPSR_MODE_USER 0x8000 sched_boot) as [H _];
    [split_and!; vm_compute; congruence|reflexivity|vm_compute; congruence|].
  apply H. reflexivity.
Defined.

Lemma scheduler_loses_no_task_witness :
  live (schedule (start_scheduler_tasks (boot_with 15))) ≡ₚ
    created (schedule (start_scheduler_tasks (boot_with 15))).
Proof.
  destruct (scheduler_loses_no_task (schedule (start_scheduler_tasks (boot_with 15)))) as (_ & _ & H).
  - eapply rtc_r; [apply (started_reachable 15); vm_compute; congruence|].
    apply step_tick. vm_compute. congruence.
  - apply H. vm_compute. congruence.
Defined.

Lemma sixteenth_task_lost_witness :
  (add_task CPSR_MODE_SVC 0x8000 (boot_with 15)).1 = 0 /\
  Some 15%nat ∉ live (add_task CPSR_MODE_SVC 0x8000 (boot_with 15)).2.
Proof.
  pose proof (sixteenth_task_lost CPSR_MODE_SVC 0x8000 (boot_with 15)
    (boot_with_reachable 15) ltac:(vm_compute; reflexivity) ltac:(vm_compute; reflexivity)
    ltac:(vm_compute; reflexivity)) as H.
  destruct (add_task CPSR_MODE_SVC 0x8000 (boot_with 15)) as [r s'].
  destruct H as (Hr & _ & _ & Hn). split; [exact Hr|exact Hn].
Defined.

Lemma task_stacks_disjoint_witness :
  task_stackbase 15 <= task_stackbase 0 - STACK_SIZE.
Proof.
  destruct (task_stacks_disjoint 0 15) as (H & _); [lia|vm_compute; reflexivity|exact H].
Defined.

(** Fifteen tasks running, then one more created. *)
Definition sixteen_running : sched :=
  (add_task CPSR_MODE_SVC 0x8000 (start_scheduler_tasks (boot_with 15))).2.

Lemma schedule_drops_current_witness :
  Some 0%nat ∉ live (schedule sixteen_running).
Proof.
  destruct (schedule_drops_current sixteen_running) as [_ H].
  - eapply rtc_r; [apply (started_reachable 15); vm_compute; congruence|]. apply step_add.
  - vm_compute. congruence.
  - vm_compute. reflexivity.
  - exact H.
Defined.
