(* ===== verification/PacketQueue.v ===== *)
(** * The receive queue of kernel/network/network_task.c

    The ring of 128 packet slots between the network card's interrupt handler
    ([insert_packet]) and the network task ([remove_packet]).  A
    [raw_packet_t *] is the index of a slot: the packet handed to the network
    task stays in the ring's memory while it is processed. *)

From S2P Require Import Prelude RingBuffer.

(** ** Definitions *)

Definition MAX_PACKET_SIZE : Z := 8192.
Definition MAX_PACKET_COUNT : Z := 128.

Record raw_packet := mk_packet {
  length_ : Z;           (* uint16_t length *)
  data : list Z;         (* uint8_t data[MAX_PACKET_SIZE] *)
}.

#[export] Instance raw_packet_eq_dec : EqDecision raw_packet.
Proof. solve_decision. Defined.

Definition packet_zero : raw_packet := mk_packet 0 (replicate (Z.to_nat MAX_PACKET_SIZE) 0).

#[export] Instance raw_packet_inhabited : Inhabited raw_packet := populate packet_zero.

Record pqueue := mk_pqueue {
  recv_queue_start : Z;
  recv_queue_end : Z;
  recv_packet_queue : list raw_packet;
}.

Definition pqueue_boot : pqueue := mk_pqueue 0 0 (replicate 128 packet_zero).

Definition new_packet_available (q : pqueue) : bool :=
  negb (recv_queue_start q =? recv_queue_end q).

(** The next packet's slot, or [None] for the null pointer. *)
Definition remove_packet (q : pqueue) : option nat * pqueue :=
  if recv_queue_start q =? recv_queue_end q then (None, q)
  else
    (Some (Z.to_nat (recv_queue_start q)),
     mk_pqueue (Z.rem (recv_queue_start q + 1) MAX_PACKET_COUNT) (recv_queue_end q)
       (recv_packet_queue q)).

(** [memcpy(&slot.data, data, len)] copies over the front of the slot's array;
    past its [MAX_PACKET_SIZE] bytes it would leave the object. *)
Definition fill_packet (bytes : list Z) (slot : raw_packet) : outcome raw_packet :=
  if (length bytes <=? length (data slot))%nat
  then Done (mk_packet (u16 (Z.of_nat (length bytes)))
               (bytes ++ drop (length bytes) (data slot)))
  else Undefined.

(** The test of [insert_packet]. *)
Definition queue_full (q : pqueue) : bool :=
  Z.rem (recv_queue_end q + 1) MAX_PACKET_COUNT =? recv_queue_start q.

(** [insert_packet(data, len)] for the [len] bytes [bytes] at [data], on the
    queue; E1000.v adds the warning it logs when the ring is full. *)
Definition insert_packet (bytes : list Z) (q : pqueue) : outcome pqueue :=
  let new_end := Z.rem (recv_queue_end q + 1) MAX_PACKET_COUNT in
  if negb (queue_full q)
  then
    let i := Z.to_nat (recv_queue_end q) in
    slot ← fill_packet bytes (recv_packet_queue q !!! i);
    Done (mk_pqueue (recv_queue_start q) new_end (<[i := slot]> (recv_packet_queue q)))
  else Done q.

(** [remove_packet] may be interrupted by the card between its test of the two
    indices and its update of [recv_queue_start]: the two halves on their own. *)
Definition remove_packet_read (q : pqueue) : option nat :=
  if recv_queue_start q =? recv_queue_end q then None
  else Some (Z.to_nat (recv_queue_start q)).
Definition remove_packet_advance (q : pqueue) : pqueue :=
  mk_pqueue (Z.rem (recv_queue_start q + 1) MAX_PACKET_COUNT) (recv_queue_end q)
    (recv_packet_queue q).

(** The bytes of the packet in a slot. *)
Definition packet_bytes (p : raw_packet) : list Z := take (Z.to_nat (length_ p)) (data p).

(** ** The queue as a list of packets *)

Definition pqueue_ok (q : pqueue) : Prop :=
  ring_ok 128 (recv_packet_queue q) (recv_queue_start q) (recv_queue_end q) /\
  Forall (fun p => Z.of_nat (length (data p)) = MAX_PACKET_SIZE) (recv_packet_queue q).

Definition packets (q : pqueue) : list (list Z) :=
  packet_bytes <$> ring_contents 128 (recv_packet_queue q) (recv_queue_start q) (recv_queue_end q).

Definition packet_fits (bytes : list Z) : Prop := Z.of_nat (length bytes) <= MAX_PACKET_SIZE.

Definition push_packet (bytes : list Z) (q : pqueue) : pqueue :=
  match insert_packet bytes q with Done q' => q' | _ => q end.

Definition pop_packet (q : pqueue) : option (list Z) * pqueue :=
  let '(r, q') := remove_packet q in
  ((fun i => packet_bytes (recv_packet_queue q' !!! i)) <$> r, q').

(** ** Lemmas *)

Lemma pqueue_boot_ok : pqueue_ok pqueue_boot.
Proof.
  unfold pqueue_ok, pqueue_boot, ring_ok. cbn [recv_queue_start recv_queue_end recv_packet_queue].
  rewrite length_replicate. split; [lia|].
  apply Forall_replicate. cbn [packet_zero data]. by rewrite length_replicate.
Qed.

Lemma packet_zero_data : Z.of_nat (length (data packet_zero)) = MAX_PACKET_SIZE.
Proof. unfold packet_zero. cbn [data]. by rewrite length_replicate. Qed.

Lemma pqueue_slot_length q i : pqueue_ok q -> Z.of_nat (length (data (recv_packet_queue q !!! i))) = MAX_PACKET_SIZE.
Proof.
  intros [_ Hd]. destruct (decide (i < length (recv_packet_queue q))%nat) as [Hi|Hi].
  - apply lookup_lt_is_Some_2 in Hi as [p Hp]. rewrite (list_lookup_total_correct _ _ _ Hp).
    by eapply (Forall_lookup_1 _ _ _ _ Hd).
  - rewrite list_lookup_total_alt, lookup_ge_None_2 by lia. apply packet_zero_data.
Qed.

Lemma fill_packet_bytes bytes slot p :
  Z.of_nat (length (data slot)) = MAX_PACKET_SIZE -> fill_packet bytes slot = Done p ->
  packet_bytes p = bytes /\ Z.of_nat (length (data p)) = MAX_PACKET_SIZE.
Proof.
  intros Hl. unfold fill_packet. destruct (Nat.leb_spec (length bytes) (length (data slot))); [|done].
  intros; simplify_eq. unfold packet_bytes. simpl. rewrite u16_id by (unfold is_u16, MAX_PACKET_SIZE in *; lia).
  rewrite Nat2Z.id, take_app_length, length_app, length_drop. split; [done|lia].
Qed.

Lemma insert_packet_room bytes q :
  pqueue_ok q -> packet_fits bytes -> (length (packets q) < 127)%nat ->
  exists slot q', insert_packet bytes q = Done q' /\
    q' = mk_pqueue (recv_queue_start q) (ring_next 128 (recv_queue_end q))
           (<[Z.to_nat (recv_queue_end q) := slot]> (recv_packet_queue q)) /\
    packet_bytes slot = bytes /\ pqueue_ok q' /\ packets q' = packets q ++ [bytes].
Proof.
  intros Hok Hfit Hroom. pose proof Hok as [(Hlen & Hs & He) Hd].
  unfold packets in Hroom. rewrite length_fmap, length_ring_contents in Hroom.
  assert (ring_next 128 (recv_queue_end q) <> recv_queue_start q) as Hne
    by (rewrite (ring_count_full 128) by done; lia).
  unfold insert_packet, queue_full, MAX_PACKET_COUNT. rewrite Z_rem_mod_nonneg by lia.
  fold (ring_next 128 (recv_queue_end q)). rewrite (proj2 (Z.eqb_neq _ _) Hne). simpl.
  set (i := Z.to_nat (recv_queue_end q)).
  pose proof (pqueue_slot_length q i Hok) as Hslot.
  destruct (fill_packet bytes (recv_packet_queue q !!! i)) as [slot| |] eqn:E;
    [|unfold fill_packet in E; destruct (Nat.leb_spec (length bytes) (length (data (recv_packet_queue q !!! i))));
      [done|unfold packet_fits in Hfit; lia]..].
  destruct (fill_packet_bytes _ _ _ Hslot E) as [Hb Hl].
  exists slot. eexists. split; [done|]. split; [done|]. split; [done|]. split.
  - split; [|by apply Forall_insert]. split_and!; simpl; [by rewrite length_insert|lia..| |];
      pose proof (ring_next_range 128 (recv_queue_end q)); lia.
  - unfold packets. simpl. unfold i. rewrite ring_contents_insert by done.
    by rewrite fmap_app, <- Hb.
Qed.

Lemma queue_full_spec q : pqueue_ok q -> queue_full q = bool_decide (127 <= length (packets q))%nat.
Proof.
  intros [(Hlen & Hs & He) _]. unfold queue_full, MAX_PACKET_COUNT, packets. rewrite Z_rem_mod_nonneg by lia.
  fold (ring_next 128 (recv_queue_end q)). rewrite length_fmap, length_ring_contents.
  pose proof (ring_count_full 128 (recv_queue_start q) (recv_queue_end q) Hs He) as Hf.
  pose proof (ring_count_bound 128 (recv_queue_start q) (recv_queue_end q)).
  destruct (Z.eqb_spec (ring_next 128 (recv_queue_end q)) (recv_queue_start q));
    case_bool_decide; try done; exfalso; lia.
Qed.

Lemma insert_packet_full bytes q :
  pqueue_ok q -> (127 <= length (packets q))%nat -> insert_packet bytes q = Done q.
Proof. intros Hok Hfull. unfold insert_packet. by rewrite queue_full_spec, bool_decide_true. Qed.

Lemma remove_packet_spec q :
  pqueue_ok q ->
  match packets q with
  | [] => remove_packet q = (None, q)
  | x :: l => exists q', remove_packet q = (Some (Z.to_nat (recv_queue_start q)), q') /\
      packet_bytes (recv_packet_queue q !!! Z.to_nat (recv_queue_start q)) = x /\
      recv_packet_queue q' = recv_packet_queue q /\
      recv_queue_start q' = ring_next 128 (recv_queue_start q) /\
      recv_queue_end q' = recv_queue_end q /\
      pqueue_ok q' /\ packets q' = l
  end.
Proof.
  intros [(Hlen & Hs & He) Hd]. unfold packets, remove_packet, MAX_PACKET_COUNT.
  destruct (Z.eqb_spec (recv_queue_start q) (recv_queue_end q)) as [E|Hne].
  - by rewrite E, ring_contents_nil.
  - rewrite ring_contents_remove by done. rewrite fmap_cons, Z_rem_mod_nonneg by lia.
    pose proof (ring_next_range 128 (recv_queue_start q) ltac:(lia)).
    eexists. split; [done|]. split_and!; try done; unfold ring_next in *; simpl; lia.
Qed.

Lemma packets_length_le q : pqueue_ok q -> (length (packets q) <= 127)%nat.
Proof.
  intros [(Hlen & Hs & He) _]. unfold packets. rewrite length_fmap, length_ring_contents.
  pose proof (ring_count_bound 128 (recv_queue_start q) (recv_queue_end q)). lia.
Qed.

(** The receive queue is a bounded queue of 127 packets of at most 8192 bytes. *)
#[export, refine] Instance pqueue_fifo : Fifo pqueue (list Z) := {|
  fq_ok := pqueue_ok;
  fq_elem := packet_fits;
  fq_cap := 127;
  fq_view := packets;
  fq_push := push_packet;
  fq_pop := pop_packet;
|}.
Proof.
  - intros x q Hok Hx. unfold push_packet.
    destruct (decide (length (packets q) < 127)%nat) as [Hr|Hr].
    + by destruct (insert_packet_room x q Hok Hx Hr) as (? & ? & -> & _ & _ & ? & _).
    + by rewrite insert_packet_full by (done || lia).
  - intros q Hok. unfold pop_packet. pose proof (remove_packet_spec q Hok) as H.
    destruct (packets q); [by rewrite H|]. by destruct H as (? & -> & _ & _ & _ & _ & ? & _).
  - intros x q Hok Hx Hr. unfold push_packet.
    by destruct (insert_packet_room x q Hok Hx Hr) as (? & ? & -> & _ & _ & _ & ?).
  - intros x q Hok Hr. unfold push_packet. by rewrite insert_packet_full.
  - intros q Hok. unfold pop_packet. pose proof (remove_packet_spec q Hok) as H.
    destruct (packets q) eqn:E; [rewrite H; simpl; by rewrite E|].
    destruct H as (q' & -> & Hb & Hq & _ & _ & _ & Hl). simpl. by rewrite Hq, Hb, Hl.
Defined.

(** ** Packets under interrupts *)

(** A burst of receive interrupts. *)
Definition push_packets (l : list (list Z)) (q : pqueue) : pqueue :=
  foldl (fun q bytes => push_packet bytes q) q l.

Lemma push_packet_start bytes q :
  recv_queue_start (push_packet bytes q) = recv_queue_start q.
Proof.
  unfold push_packet, insert_packet. case_match; [|done..].
  destruct (negb _); [|by simplify_eq]. by destruct (fill_packet _ _); simplify_eq/=.
Qed.

(** The interrupt never writes the slot in front of [recv_queue_start], where
    the packet under processing is. *)
Lemma push_packet_slot bytes q i :
  0 <= recv_queue_end q < 128 -> ring_next 128 i = recv_queue_start q -> 0 <= i < 128 ->
  recv_packet_queue (push_packet bytes q) !! Z.to_nat i = recv_packet_queue q !! Z.to_nat i.
Proof.
  intros He Hi Hi'. unfold push_packet, insert_packet, queue_full.
  unfold MAX_PACKET_COUNT. rewrite Z_rem_mod_nonneg by lia.
  fold (ring_next 128 (recv_queue_end q)).
  destruct (Z.eqb_spec (ring_next 128 (recv_queue_end q)) (recv_queue_start q)) as [|Hne]; [done|].
  simpl. destruct (fill_packet _ _); [|done..]. simpl. apply list_lookup_insert_ne.
  rewrite <- Hi, !ring_next_cases in Hne by done. intros Heq.
  apply Hne. by replace (recv_queue_end q) with i by lia.
Qed.

Lemma push_packet_ok bytes q : pqueue_ok q -> packet_fits bytes -> pqueue_ok (push_packet bytes q).
Proof. exact (fq_push_ok (Fifo := pqueue_fifo) bytes q). Qed.

Lemma push_packets_ok l q :
  pqueue_ok q -> Forall packet_fits l ->
  pqueue_ok (push_packets l q) /\ recv_queue_start (push_packets l q) = recv_queue_start q /\
  exists l', packets (push_packets l q) = packets q ++ l'.
Proof.
  revert q. induction l as [|x l IH]; intros q Hq Hl; simpl.
  - split_and!; [done|done|]. exists []. by rewrite app_nil_r.
  - apply Forall_cons in Hl as [Hx Hl]. destruct (IH (push_packet x q)) as (H1 & H2 & l' & H3);
      [by apply push_packet_ok|done|].
    split_and!; [done|by rewrite H2, push_packet_start|]. rewrite H3.
    destruct (decide (length (packets q) < 127)%nat) as [Hr|Hr].
    + exists (x :: l').
      assert (packets (push_packet x q) = packets q ++ [x]) as ->
        by exact (fq_push_room (Fifo := pqueue_fifo) x q Hq Hx Hr).
      by rewrite <- app_assoc.
    + exists l'.
      assert (packets (push_packet x q) = packets q) as ->; [|done].
      apply (fq_push_full (Fifo := pqueue_fifo) x q Hq). simpl; lia.
Qed.

Lemma push_packets_slot l q i :
  pqueue_ok q -> Forall packet_fits l -> ring_next 128 i = recv_queue_start q -> 0 <= i < 128 ->
  recv_packet_queue (push_packets l q) !! Z.to_nat i = recv_packet_queue q !! Z.to_nat i.
Proof.
  revert q. induction l as [|x l IH]; intros q Hq Hl Hi Hi'; simpl; [done|].
  apply Forall_cons in Hl as [Hx Hl].
  rewrite IH; [|by apply push_packet_ok|done|by rewrite push_packet_start|done].
  apply push_packet_slot; [by destruct Hq as [(_ & _ & ?) _]|done|done].
Qed.

(** ** Properties *)

(** C25: Whatever the interleaving of receive interrupts and removals, the
    packets come out in the order in which they were accepted, byte for byte;
    only packets arriving while 127 are queued are dropped. *)
Theorem packet_queue_order ops out acc q :
  Forall op_ok ops -> fifo_run ops pqueue_boot = (out, acc, q) ->
  pqueue_ok q /\ out ++ packets q = acc.
Proof.
  intros Hops Hrun.
  destruct (fifo_run_order (H := pqueue_fifo) ops pqueue_boot out acc q pqueue_boot_ok Hops Hrun) as [Hq Ho].
  split; [done|]. exact Ho.
Qed.

(** The three branches of [insert_packet]: a full ring is left alone, a
    packet of at most 8192 bytes is appended, and a longer one overruns the
    slot's array (there is no length check). *)
Theorem insert_packet_branches bytes q :
  pqueue_ok q ->
  ((127 <= length (packets q))%nat -> insert_packet bytes q = Done q) /\
  ((length (packets q) < 127)%nat -> Z.of_nat (length bytes) <= 8192 ->
    exists q', insert_packet bytes q = Done q' /\ packets q' = packets q ++ [bytes]) /\
  ((length (packets q) < 127)%nat -> 8192 < Z.of_nat (length bytes) ->
    insert_packet bytes q = Undefined).
Proof.
  intros Hok. split_and!.
  - by apply insert_packet_full.
  - intros Hr Hf. destruct (insert_packet_room bytes q Hok Hf Hr) as (? & q' & ? & _ & _ & _ & ?).
    by exists q'.
  - intros Hr Hf. destruct Hok as [(Hlen & Hs & He) Hd] eqn:EH.
    unfold packets in Hr. rewrite length_fmap, length_ring_contents in Hr.
    assert (ring_next 128 (recv_queue_end q) <> recv_queue_start q) as Hne
      by (rewrite (ring_count_full 128) by done; lia).
    unfold insert_packet, queue_full, MAX_PACKET_COUNT. rewrite Z_rem_mod_nonneg by lia.
    fold (ring_next 128 (recv_queue_end q)). rewrite (proj2 (Z.eqb_neq _ _) Hne). simpl.
    pose proof (pqueue_slot_length q (Z.to_nat (recv_queue_end q)) Hok) as Hl.
    unfold fill_packet, MAX_PACKET_SIZE in *.
    destruct (Nat.leb_spec (length bytes)
      (length (data (recv_packet_queue q !!! Z.to_nat (recv_queue_end q))))); [lia|done].
Qed.

(** C33: The packet handed to the network task stays intact while it is being
    processed: however many packets arrive before the next [remove_packet], the
    slot it lies in is not written. *)
Theorem packet_in_flight_stable q i q' l :
  pqueue_ok q -> Forall packet_fits l -> remove_packet q = (Some i, q') ->
  recv_packet_queue (push_packets l q') !! i = recv_packet_queue q !! i /\
  head (packets q) = packet_bytes <$> recv_packet_queue q !! i.
Proof.
  intros Hok Hl Hrem. pose proof (remove_packet_spec q Hok) as H.
  pose proof Hok as [(Hlen & Hs & He) _].
  destruct (packets q) as [|x l0]; [by rewrite H in Hrem|].
  destruct H as (q1 & Hr & Hb & Hq & Hst & Hen & Hok1 & _). rewrite Hrem in Hr. simplify_eq.
  rewrite push_packets_slot by (done || lia). rewrite Hq. split; [done|].
  destruct (lookup_lt_is_Some_2 (recv_packet_queue q) (Z.to_nat (recv_queue_start q))) as [p Hp]; [lia|].
  by rewrite (list_lookup_total_correct _ _ _ Hp), Hp.
Qed.

(** [remove_packet] may be interrupted after it has seen a packet and
    before it advances the start index: whatever arrives in between, finishing
    the call has the effect of a removal made after the interrupts, and it
    returns the packet that was first in the queue when the call began. *)
Theorem remove_packet_interruptible q i l :
  pqueue_ok q -> Forall packet_fits l -> remove_packet_read q = Some i ->
  remove_packet (push_packets l q) = (Some i, remove_packet_advance (push_packets l q)) /\
  Some (packet_bytes (recv_packet_queue (push_packets l q) !!! i)) = head (packets q).
Proof.
  intros Hok Hl Hread. destruct (push_packets_ok l q Hok Hl) as (Hok' & Hst & l' & Hv).
  pose proof (remove_packet_spec q Hok) as H. pose proof (remove_packet_spec _ Hok') as H'.
  unfold remove_packet_read in Hread.
  destruct (packets q) as [|x k] eqn:E.
  - unfold remove_packet in H. by destruct (_ =? _).
  - rewrite Hv in H'. simpl in H'. destruct H' as (q2 & Hr & Hb & Hq & Hs2 & He2 & _).
    destruct (_ =? _); [done|]. simplify_eq. rewrite <- Hst. split.
    + rewrite Hr. unfold remove_packet in Hr. destruct (_ =? _); [done|]. by simplify_eq.
    + done.
Qed.

(** ** Witnesses *)

Lemma packet_queue_order_witness :
  exists q, fifo_run [Push [1; 2]; Push [3]; Pop; Push [4; 5; 6]; Pop] pqueue_boot =
    ([[1; 2]; [3]], [[1; 2]; [3]; [4; 5; 6]], q) /\
  [[1; 2]; [3]] ++ packets q = [[1; 2]; [3]; [4; 5; 6]].
Proof.
  set (ops := [Push [1; 2]; Push [3]; Pop; Push [4; 5; 6]; Pop]).
  destruct (fifo_run ops pqueue_boot) as [[out acc] q] eqn:E.
  assert (Forall op_ok ops) as Hops
    by (repeat constructor; unfold op_ok, fq_elem, pqueue_fifo, packet_fits, MAX_PACKET_SIZE; simpl; lia).
  destruct (packet_queue_order ops out acc q Hops E) as [_ Hv].
  assert (out = [[1; 2]; [3]] /\ acc = [[1; 2]; [3]; [4; 5; 6]]) as [-> ->].
  { replace out with (fifo_run ops pqueue_boot).1.1 by (by rewrite E).
    replace acc with (fifo_run ops pqueue_boot).1.2 by (by rewrite E). vm_compute. done. }
  by exists q.
Defined.

Lemma insert_packet_branches_witness :
  insert_packet (replicate (Z.to_nat 8193) 7) pqueue_boot = Undefined.
Proof.
  destruct (insert_packet_branches (replicate (Z.to_nat 8193) 7) pqueue_boot pqueue_boot_ok) as (_ & _ & H).
  apply H; [vm_compute; lia|vm_compute; done].
Defined.

Lemma packet_in_flight_stable_witness :
  recv_packet_queue (push_packets [[9]; [8; 7]] (remove_packet (push_packet [1; 2] pqueue_boot)).2) !! 0%nat
  = recv_packet_queue (push_packet [1; 2] pqueue_boot) !! 0%nat.
Proof.
  set (q := push_packet [1; 2] pqueue_boot).
  assert (pqueue_ok q) as Hq
    by (apply push_packet_ok; [apply pqueue_boot_ok|vm_compute; done]).
  assert ((remove_packet q).1 = Some 0%nat) as Hr by (vm_compute; reflexivity).
  destruct (packet_in_flight_stable q 0%nat (remove_packet q).2 [[9]; [8; 7]]) as [H _];
    [done|repeat constructor; vm_compute; done|rewrite <- Hr; apply surjective_pairing|]. exact H.
Defined.

Lemma remove_packet_interruptible_witness :
  (remove_packet (push_packets [[9]; [8; 7]] (push_packet [1; 2] pqueue_boot))).1 = Some 0%nat.
Proof.
  set (q := push_packet [1; 2] pqueue_boot).
  assert (pqueue_ok q) as Hq
    by (apply push_packet_ok; [apply pqueue_boot_ok|vm_compute; done]).
  destruct (remove_packet_interruptible q 0%nat [[9]; [8; 7]]) as [H _];
    [done|repeat constructor; vm_compute; done|vm_compute; done|]. by rewrite H.
Defined.
