(* ===== verification/NetworkIo.v ===== *)
(** * Byte order: kernel/network/network_io.c

    The conversions between host and network order.  The code asks a board
    register which byte order the processor runs in; [board_agrees] is the
    board manual's promise that the answer is the processor's byte order. *)

From S2P Require Import Prelude Memory Bus Heap.

(** ** Definitions *)

Definition SYS_CFGDATA2 : Z := 0x1000002C.

(** The value of the board's read-only configuration register. *)
Class Board := sys_cfgdata2 : Z.

Section NetworkIo.
Context {board : Board}.

Definition is_big_endian : bool :=
  negb (Z.land (u32 sys_cfgdata2) (Z.shiftl 1 1) =? 0).

Definition htonl (hostlong : Z) : Z := if is_big_endian then hostlong else bswap 4 hostlong.
Definition htons (hostshort : Z) : Z := if is_big_endian then hostshort else bswap 2 hostshort.
Definition ntohl (netlong : Z) : Z := if is_big_endian then netlong else bswap 4 netlong.
Definition ntohs (netshort : Z) : Z := if is_big_endian then netshort else bswap 2 netshort.

(** [for (i = 0; i < 6; i++) new.address[5 - i] = mac.address[i];] *)
Definition reverse_mac (new mac : list Z) : list Z :=
  foldl (fun new i => <[Z.to_nat (5 - i) := mac !!! Z.to_nat i]> new) new (zseq 6).

(** [new] starts uninitialised; all six bytes are written. *)
Definition hton_mac (mac : list Z) : list Z :=
  if is_big_endian then mac else reverse_mac (replicate 6 0) mac.
Definition ntoh_mac (mac : list Z) : list Z :=
  if is_big_endian then mac else reverse_mac (replicate 6 0) mac.

(** The register tells the processor's byte order. *)
Definition board_agrees {cpu : Cpu} : Prop :=
  is_big_endian = match cpu_endian with BigEndian => true | LittleEndian => false end.

(** The six address bytes of a [mac_address_t]. *)
Definition mac_wf (mac : list Z) : Prop := length mac = 6%nat /\ Forall is_u8 mac.

(** ** Lemmas *)

Lemma reverse_mac_rev new mac :
  length new = 6%nat -> length mac = 6%nat -> reverse_mac new mac = rev mac.
Proof.
  intros Hn Hm.
  do 6 (destruct new as [|? new]; [discriminate Hn|]). destruct new; [|discriminate Hn].
  do 6 (destruct mac as [|? mac]; [discriminate Hm|]). destruct mac; [|discriminate Hm].
  reflexivity.
Qed.

Lemma ntoh_mac_eq mac : length mac = 6%nat -> ntoh_mac mac = if is_big_endian then mac else rev mac.
Proof. intros. unfold ntoh_mac. by rewrite reverse_mac_rev. Qed.

Lemma hton_mac_eq mac : length mac = 6%nat -> hton_mac mac = if is_big_endian then mac else rev mac.
Proof. intros. unfold hton_mac. by rewrite reverse_mac_rev. Qed.

Lemma length_ntoh_mac mac : length mac = 6%nat -> length (ntoh_mac mac) = 6%nat.
Proof. intros. rewrite ntoh_mac_eq by done. case_match; rewrite ?length_rev; done. Qed.

Lemma ntoh_mac_wf mac : mac_wf mac -> mac_wf (ntoh_mac mac).
Proof.
  intros [Hl Hb]. split; [by apply length_ntoh_mac|].
  rewrite ntoh_mac_eq by done. case_match; [done|by apply Forall_rev].
Qed.

Lemma hton_ntoh_mac mac : length mac = 6%nat -> hton_mac (ntoh_mac mac) = mac.
Proof.
  intros. rewrite hton_mac_eq by (by apply length_ntoh_mac). rewrite ntoh_mac_eq by done.
  case_match; [done|]. apply rev_involutive.
Qed.

Lemma ntohs_range x : is_u16 x -> is_u16 (ntohs x).
Proof.
  intros. unfold ntohs. case_match; [done|]. pose proof (bswap_range 2 x). unfold is_u16. lia.
Qed.

Lemma ntohl_range x : is_u32 x -> is_u32 (ntohl x).
Proof.
  intros. unfold ntohl. case_match; [done|]. pose proof (bswap_range 4 x). unfold is_u32. lia.
Qed.

Lemma htons_range x : is_u16 x -> is_u16 (htons x).
Proof. apply ntohs_range. Qed.

Lemma htonl_range x : is_u32 x -> is_u32 (htonl x).
Proof. apply ntohl_range. Qed.

(** The swap an agreeing board performs, seen on bytes: a value loaded by the
    processor and converted is the big-endian value of the bytes. *)
Lemma net_dec {cpu : Cpu} bs :
  board_agrees -> Forall is_u8 bs ->
  (if is_big_endian then dec cpu_endian bs else bswap (length bs) (dec cpu_endian bs)) =
  dec BigEndian bs.
Proof.
  intros Hagree Hbs. rewrite Hagree. destruct (cpu_endian) eqn:E; [|done].
  by rewrite bswap_dec.
Qed.

Lemma net_enc {cpu : Cpu} n x :
  board_agrees -> 0 <= x < 256 ^ Z.of_nat n ->
  enc cpu_endian n (if is_big_endian then x else bswap n x) = enc BigEndian n x.
Proof.
  intros Hagree Hx. rewrite Hagree. destruct (cpu_endian) eqn:E; [|done]. simpl.
  unfold bswap. pose proof (le_bytes_le_val (rev (le_bytes n x))) as H.
  rewrite length_rev, length_le_bytes in H. apply H, Forall_rev, le_bytes_u8.
Qed.

Lemma ntohs_load {cpu : Cpu} m a :
  board_agrees -> ntohs (load cpu_endian 2 m a) = dec BigEndian (read_bytes m a 2).
Proof. intros H. by apply (net_dec (read_bytes m a 2) H), read_bytes_u8. Qed.

Lemma ntohl_load {cpu : Cpu} m a :
  board_agrees -> ntohl (load cpu_endian 4 m a) = dec BigEndian (read_bytes m a 4).
Proof. intros H. by apply (net_dec (read_bytes m a 4) H), read_bytes_u8. Qed.

Lemma store_htons {cpu : Cpu} m a x :
  board_agrees -> is_u16 x ->
  store cpu_endian 2 m a (htons x) = write_bytes m a (enc BigEndian 2 x).
Proof. intros H Hx. unfold store, htons. rewrite (net_enc 2); [done|done|]. unfold is_u16 in Hx. lia. Qed.

Lemma store_htonl {cpu : Cpu} m a x :
  board_agrees -> is_u32 x ->
  store cpu_endian 4 m a (htonl x) = write_bytes m a (enc BigEndian 4 x).
Proof. intros H Hx. unfold store, htonl. rewrite (net_enc 4); [done|done|]. unfold is_u32 in Hx. lia. Qed.

Lemma read_write_enc m a e n v : read_bytes (write_bytes m a (enc e n v)) a n = enc e n v.
Proof.
  pose proof (read_write_bytes m a (enc e n v) (enc_u8 e n v)) as E. by rewrite length_enc in E.
Qed.

(** ** Properties *)

(** C35: Converting to network order and back is the identity, on 16- and
    32-bit values and on MAC addresses, whatever the board's register says. *)
Theorem network_order_roundtrip s l mac :
  is_u16 s -> is_u32 l -> length mac = 6%nat ->
  ntohs (htons s) = s /\ htons (ntohs s) = s /\ ntohl (htonl l) = l /\ htonl (ntohl l) = l /\
  ntoh_mac (hton_mac mac) = mac /\ hton_mac (ntoh_mac mac) = mac.
Proof.
  intros Hs Hl Hm. unfold is_u16, is_u32 in *. unfold ntohs, htons, ntohl, htonl.
  split_and!; try (case_match; [done|apply bswap_involutive; lia]).
  - change (hton_mac (ntoh_mac mac) = mac). by apply hton_ntoh_mac.
  - by apply hton_ntoh_mac.
Qed.

(** On a board whose register tells the truth, what the kernel stores
    after [htons]/[htonl] lies in memory most significant byte first, and what
    it loads and passes through [ntohs]/[ntohl] is the big-endian value of the
    bytes, on a processor of either byte order. *)
Theorem network_order_on_the_wire {cpu : Cpu} m a s l :
  board_agrees -> is_u16 s -> is_u32 l ->
  read_bytes (store cpu_endian 2 m a (htons s)) a 2 = [s / 256; s `mod` 256] /\
  read_bytes (store cpu_endian 4 m a (htonl l)) a 4 =
    [l / 16777216; (l / 65536) `mod` 256; (l / 256) `mod` 256; l `mod` 256] /\
  ntohs (load cpu_endian 2 m a) = 256 * get8 m a + get8 m (a + 1) /\
  ntohl (load cpu_endian 4 m a) =
    16777216 * get8 m a + 65536 * get8 m (a + 1) + 256 * get8 m (a + 2) + get8 m (a + 3).
Proof.
  intros Hag Hs Hl. split_and!.
  - rewrite store_htons by done. rewrite read_write_enc.
    cbn [enc le_bytes rev app]. unfold is_u16, u8 in *. repeat f_equal; word_lia.
  - rewrite store_htonl by done. rewrite read_write_enc.
    cbn [enc le_bytes rev app]. unfold is_u32, u8 in *. rewrite !Z.div_div by lia.
    repeat f_equal; word_lia.
  - rewrite ntohs_load by done. cbn [dec read_bytes rev app le_val]. lia.
  - rewrite ntohl_load by done. cbn [dec read_bytes rev app le_val].
    replace (a + 1 + 1) with (a + 2) by lia. replace (a + 2 + 1) with (a + 3) by lia. lia.
Qed.

End NetworkIo.

(** ** Witnesses *)

Lemma network_order_roundtrip_witness :
  @ntohl 0 (@htonl 0 0x01020304) = 0x01020304 /\ @htonl 0 0x01020304 = 0x04030201.
Proof.
  destruct (network_order_roundtrip (board := 0) 0x0102 0x01020304 [1; 2; 3; 4; 5; 6])
    as (_ & _ & H & _); [vm_compute; done..|]. split; [exact H|vm_compute; reflexivity].
Defined.

Lemma network_order_on_the_wire_witness :
  read_bytes (store LittleEndian 4 ∅ 100 (@htonl 0 0xC0A80001)) 100 4 = [0xC0; 0xA8; 0; 1].
Proof.
  destruct (network_order_on_the_wire (board := 0) (cpu := LittleEndian) ∅ 100 0 0xC0A80001)
    as (_ & H & _); [vm_compute; done..|]. etrans; [exact H|]. vm_compute. reflexivity.
Defined.
