(* ===== verification/Stdio.v ===== *)
(** * Formatted output: libc/stdio

    [putchar] on the UART of the VersatilePB board, [puts], and [vprintf] with
    its nine conversions, each with the digit buffer it works in.  The
    specification is relational: [formats fmt args text] says which text a
    format denotes, and [numeral] which digits denote a number.  A [va_list] is
    the list of the values passed; fetching one of another type is undefined.

    [vprintf] calls [printf] for a NULL string and for an unknown conversion, so
    it takes the depth of this recursion as fuel; a depth of 2 is enough. *)

From stdpp Require Import strings.
From S2P Require Import Prelude StateMonad Memory Bus Clock.

(** ** Definitions *)

Definition EOF : Z := -1.
Definition UART_THR : Z := 0x101f1000.

(** The value of an argument: an [int], a [long long], or a string as the bytes
    before its NUL ([None] for a NULL pointer). *)
Inductive va_value :=
| VInt (z : Z)
| VLong (z : Z)
| VStr (s : option (list Z)).

(** How a piece of [vprintf] ends: it goes on with [chars_written], or returns
    it. *)
Inductive flow :=
| Next (chars_written : Z)
| Return (chars_written : Z).

Section Stdio.
Context {D : Type} `{Bus D}.

Abbreviation IO := (ST D).

(** [*UART_THR = c] through a [volatile char *]. *)
Definition uart_store (c : Z) : IO unit := modify (write8 UART_THR c).

Definition putchar (c : Z) : IO Z :=
  (if c =? 10 then uart_store 13 else mret ()) ;;
  uart_store c ;;
  mret c.

(** The loop of [puts]: [true] after the NUL, [false] on an error. *)
Fixpoint puts_loop (s : list Z) : IO bool :=
  match s with
  | [] => mret true
  | c :: s' =>
      if c =? 0 then mret true
      else
        res ← putchar c;
        if res =? EOF then mret false else puts_loop s'
  end.

Definition puts (s : list Z) : IO Z :=
  ok ← puts_loop s;
  if negb ok then mret EOF
  else
    res ← putchar 10;
    if res =? EOF then mret EOF else mret 0.

(** [if (putchar(c) == EOF) return chars_written; ++chars_written;] *)
Definition put_counted (c chars_written : Z) : IO flow :=
  res ← putchar c;
  if res =? EOF then mret (Return chars_written)
  else mret (Next (u32 (chars_written + 1))).

Definition and_then (m : IO flow) (k : Z -> IO flow) : IO flow :=
  f ← m;
  match f with
  | Next n => k n
  | Return n => mret (Return n)
  end.

(** The loop over the characters of a [%s] argument. *)
Fixpoint put_string (x : list Z) (chars_written : Z) : IO flow :=
  match x with
  | [] => mret (Next chars_written)
  | c :: x' =>
      if c =? 0 then mret (Next chars_written)
      else and_then (put_counted c chars_written) (put_string x')
  end.

(** [while (x) { tmp[i] = x % base; x /= base; ++i; }] where [room] elements of
    [tmp] are left; a store behind the end is undefined. *)
Fixpoint fill_digits (room : nat) (base x : Z) (tmp : list Z) (i : nat) : outcome (list Z * nat) :=
  if x =? 0 then Done (tmp, i)
  else match room with
  | O => Undefined
  | S room' => fill_digits room' base (Z.quot x base) (<[i := u8 (Z.rem x base)]> tmp) (S i)
  end.

(** [tmp[i] + '0'], and the choice between a decimal digit and a letter. *)
Definition decimal_char (v : Z) : Z := v + 48.
Definition hex_char (letter : Z) (v : Z) : Z := if 9 <? v then v + letter - 10 else v + 48.

(** [for ( ; i >= 0; --i)] over the buffer, here with [i + 1]. *)
Fixpoint put_digits (chr : Z -> Z) (tmp : list Z) (n : nat) (chars_written : Z) : IO flow :=
  match n with
  | O => mret (Next chars_written)
  | S i => and_then (put_counted (chr (tmp !!! i)) chars_written) (put_digits chr tmp i)
  end.

(** The common part of the conversions: fill [tmp[cap]], step back unless no
    digit was stored, print the sign and the digits. *)
Definition put_number (chr : Z -> Z) (base : Z) (cap : nat) (sign : bool) (x chars_written : Z) : IO flow :=
  fun d =>
  match fill_digits cap base x (replicate cap 0) 0 with
  | Done (tmp, i) =>
      let i := if negb (i =? 0)%nat then (i - 1)%nat else i in
      (if sign
       then
         res ← putchar 45;
         if res =? EOF then mret (Return chars_written)
         else put_digits chr tmp (S i) chars_written
       else put_digits chr tmp (S i) chars_written) d
  | Undefined => Undefined
  | NoFuel => NoFuel
  end.

(** [chars_written += sign; if (sign) x *= -1;] on a signed type whose least
    value is [min]: negating that value overflows. *)
Definition put_signed (chr : Z -> Z) (base : Z) (cap : nat) (min x chars_written : Z) : IO flow :=
  let sign := x <? 0 in
  let chars_written := u32 (chars_written + (if sign then 1 else 0)) in
  if sign
  then if x =? min then undefined else put_number chr base cap true (-x) chars_written
  else put_number chr base cap false x chars_written.

Definition INT_MIN : Z := -2147483648.
Definition LLONG_MIN : Z := -9223372036854775808.

(** [va_arg] of each type. *)
Definition with_int (args : list va_value) (k : Z -> IO flow) : IO (flow * list va_value) :=
  match args with
  | VInt z :: args' => f ← k z; mret (f, args')
  | _ => undefined
  end.
Definition with_long (args : list va_value) (k : Z -> IO flow) : IO (flow * list va_value) :=
  match args with
  | VLong z :: args' => f ← k z; mret (f, args')
  | _ => undefined
  end.
Definition with_str (args : list va_value) (k : option (list Z) -> IO flow) : IO (flow * list va_value) :=
  match args with
  | VStr s :: args' => f ← k s; mret (f, args')
  | _ => undefined
  end.

Definition conv_c (n : Z) (x : Z) : IO flow := put_counted (i32 x) n.
Definition conv_i (n : Z) (x : Z) : IO flow := put_signed decimal_char 10 10 INT_MIN (i32 x) n.
Definition conv_l (n : Z) (x : Z) : IO flow := put_number decimal_char 10 20 false (u64 x) n.
Definition conv_L (n : Z) (x : Z) : IO flow := put_signed decimal_char 10 20 LLONG_MIN (i64 x) n.
Definition conv_x (n : Z) (x : Z) : IO flow := put_number (hex_char 97) 16 10 false (u32 x) n.
Definition conv_X (n : Z) (x : Z) : IO flow := put_signed (hex_char 65) 16 10 INT_MIN (i32 x) n.
Definition conv_y (n : Z) (x : Z) : IO flow := put_number (hex_char 97) 16 20 false (u64 x) n.
Definition conv_Y (n : Z) (x : Z) : IO flow := put_signed (hex_char 65) 16 20 LLONG_MIN (i64 x) n.

(** [va_list] is passed by value to the recursive [printf]. *)
Definition printf_fun : Type := list Z -> list va_value -> IO Z.

Definition conv_s (printf : printf_fun) (n : Z) (x : option (list Z)) : IO flow :=
  match x with
  | None =>
      res ← printf (cstr "(null)") [];
      if res =? EOF then mret (Return n) else mret (Next (u32 (n + res)))
  | Some s => put_string s n
  end.

Definition unimplemented_format : list Z :=
  [10] ++ cstr "printf: unimplemented conversion character '%c'" ++ [10].

Definition conv_unknown (printf : printf_fun) (c n : Z) : IO flow :=
  _ ← printf unimplemented_format [VInt c];
  mret (Return n).

(** The [switch] on the conversion character. *)
Definition convert (printf : printf_fun) (c : Z) (args : list va_value) (n : Z) : IO (flow * list va_value) :=
  if c =? 37 then f ← put_counted 37 n; mret (f, args)
  else if c =? 99 then with_int args (conv_c n)
  else if c =? 115 then with_str args (conv_s printf n)
  else if c =? 105 then with_int args (conv_i n)
  else if c =? 108 then with_long args (conv_l n)
  else if c =? 76 then with_long args (conv_L n)
  else if c =? 120 then with_int args (conv_x n)
  else if c =? 88 then with_int args (conv_X n)
  else if c =? 121 then with_long args (conv_y n)
  else if c =? 89 then with_long args (conv_Y n)
  else f ← conv_unknown printf c n; mret (f, args).

(** The body of [vprintf] behind [chars_written] characters; the format ends
    with a NUL. *)
Fixpoint vprintf_loop (printf : printf_fun) (format : list Z) (args : list va_value) (n : Z) : IO Z :=
  match format with
  | [] => mret (i32 n)
  | c :: format' =>
      if c =? 0 then mret (i32 n)
      else if c =? 37 then
        match format' with
        | [] => _ ← conv_unknown printf 0 n; mret (i32 n)
        | c' :: format'' =>
            r ← convert printf c' args n;
            match r with
            | (Next n', args') => vprintf_loop printf format'' args' n'
            | (Return n', _) => mret (i32 n')
            end
        end
      else
        f ← put_counted c n;
        match f with
        | Next n' => vprintf_loop printf format' args n'
        | Return n' => mret (i32 n')
        end
  end.

Fixpoint vprintf (depth : nat) (format : list Z) (args : list va_value) : IO Z :=
  match depth with
  | O => no_fuel
  | S depth' => vprintf_loop (vprintf depth') format args 0
  end.

Definition printf : list Z -> list va_value -> IO Z := vprintf 2.

End Stdio.

(** ** Specification *)

(** The bytes the UART sends for a text. *)
Definition crlf (text : list Z) : list Z :=
  text ≫= (fun c => if c =? 10 then [13; 10] else [c]).

Definition emit {D} `{Bus D} (text : list Z) (d : D) : D :=
  foldl (fun d b => write8 UART_THR b d) d (crlf text).

(** [numeral base x ds]: [ds] are the digits of [x], most significant first,
    without leading zeros. *)
Inductive numeral (base : Z) : Z -> list Z -> Prop :=
| numeral_digit v : 0 <= v < base -> numeral base v [v]
| numeral_snoc x ds v :
    0 < x -> numeral base x ds -> 0 <= v < base -> numeral base (x * base + v) (ds ++ [v]).

Definition number_text (base : Z) (chr : Z -> Z) (z : Z) (text : list Z) : Prop :=
  exists ds, numeral base (Z.abs z) ds /\ text = (if z <? 0 then [45] else []) ++ (chr <$> ds).

(** The base, the digits and the value of a number conversion; none for the
    least value of a signed type. *)
Definition number_conversion (c : Z) (a : va_value) : option (Z * (Z -> Z) * Z) :=
  match a with
  | VInt z =>
      if c =? 105 then if i32 z =? INT_MIN then None else Some (10, decimal_char, i32 z)
      else if c =? 120 then Some (16, hex_char 97, u32 z)
      else if c =? 88 then if i32 z =? INT_MIN then None else Some (16, hex_char 65, i32 z)
      else None
  | VLong z =>
      if c =? 108 then Some (10, decimal_char, u64 z)
      else if c =? 76 then if i64 z =? LLONG_MIN then None else Some (10, decimal_char, i64 z)
      else if c =? 121 then Some (16, hex_char 97, u64 z)
      else if c =? 89 then if i64 z =? LLONG_MIN then None else Some (16, hex_char 65, i64 z)
      else None
  | VStr _ => None
  end.

Definition plain_text (s : list Z) : Prop := Forall (fun c => 0 < c < 256) s.

(** [formats fmt args text args']: the format denotes [text] and leaves the
    arguments [args']. *)
Inductive formats : list Z -> list va_value -> list Z -> list va_value -> Prop :=
| formats_end args : formats [] args [] args
| formats_char c fmt args text args' :
    0 < c < 256 -> c <> 37 -> formats fmt args text args' -> formats (c :: fmt) args (c :: text) args'
| formats_percent fmt args text args' :
    formats fmt args text args' -> formats (37 :: 37 :: fmt) args (37 :: text) args'
| formats_c z fmt args text args' :
    0 <= z < 256 -> formats fmt args text args' -> formats (37 :: 99 :: fmt) (VInt z :: args) (z :: text) args'
| formats_s s fmt args text args' :
    plain_text s -> formats fmt args text args' ->
    formats (37 :: 115 :: fmt) (VStr (Some s) :: args) (s ++ text) args'
| formats_null fmt args text args' :
    formats fmt args text args' ->
    formats (37 :: 115 :: fmt) (VStr None :: args) (cstr "(null)" ++ text) args'
| formats_number c a base chr z ds fmt args text args' :
    number_conversion c a = Some (base, chr, z) -> number_text base chr z ds ->
    formats fmt args text args' -> formats (37 :: c :: fmt) (a :: args) (ds ++ text) args'.

(** ** Numerals *)

Lemma numeral_nonneg base x ds : numeral base x ds -> 0 <= x.
Proof. induction 1; nia. Qed.

Lemma numeral_digits base x ds : numeral base x ds -> Forall (fun v => 0 <= v < base) ds.
Proof. induction 1; [by constructor|]. apply Forall_app. split; [done|by constructor]. Qed.

Lemma numeral_ne base x ds : numeral base x ds -> ds <> [].
Proof. destruct 1 as [|x ds v]; [done|]. by destruct ds. Qed.

Lemma numeral_zero base ds : 0 < base -> numeral base 0 ds -> ds = [0].
Proof.
  intros Hb Hn. inversion Hn as [v Hv E|x ds' v Hx Hn' Hv E]; subst; [done|].
  pose proof (numeral_nonneg _ _ _ Hn'). nia.
Qed.

Lemma numeral_length base x ds : 1 < base -> 0 < x -> numeral base x ds -> base ^ (Z.of_nat (length ds) - 1) <= x.
Proof.
  intros Hb Hx Hn. induction Hn as [v Hv|x ds v Hx' Hn IH Hv]; [simpl; lia|].
  rewrite length_app. cbn [length].
  replace (Z.of_nat (length ds + 1) - 1) with (Z.succ (Z.of_nat (length ds) - 1)) by lia.
  destruct ds as [|d ds]; [by apply numeral_ne in Hn|].
  rewrite Z.pow_succ_r by (cbn [length]; lia). specialize (IH Hx'). nia.
Qed.

(** Every number has a numeral, which reads back as the number. *)
Lemma numeral_exists base x : 1 < base -> 0 <= x -> exists ds, numeral base x ds.
Proof.
  intros Hb. induction (Z.lt_wf 0 x) as [x _ IH]. intros Hx.
  destruct (decide (x < base)) as [Hlt|Hge]; [by exists [x]; constructor|].
  pose proof (Z.div_mod x base ltac:(lia)) as E. pose proof (Z.mod_pos_bound x base ltac:(lia)).
  assert (0 < x / base < x) as Hd.
  { split; [apply Z.div_str_pos; lia|apply Z.div_lt; lia]. }
  destruct (IH (x / base) ltac:(lia) ltac:(lia)) as [ds Hds].
  exists (ds ++ [x `mod` base]). rewrite E at 1. rewrite (Z.mul_comm base).
  constructor; [lia|done|lia].
Qed.

Definition numeral_value (base : Z) (ds : list Z) : Z := foldl (fun v c => v * base + c) 0 ds.

Lemma numeral_value_eq base x ds : numeral base x ds -> numeral_value base ds = x.
Proof.
  induction 1 as [v Hv|x ds v Hx Hn IH Hv]; [unfold numeral_value; simpl; lia|].
  unfold numeral_value in *. by rewrite foldl_app, IH.
Qed.

(** A number below [base ^ n] prints with at most [n] digits and a sign. *)
Lemma number_text_length base chr z t (n : nat) :
  1 < base -> Z.abs z < base ^ Z.of_nat n -> number_text base chr z t -> (0 < n)%nat -> (length t <= S n)%nat.
Proof.
  intros Hb Hz (ds & Hds & ->) Hn. rewrite length_app, length_fmap.
  assert (length ds <= n)%nat; [|case_match; simpl; lia].
  destruct (decide (z = 0)) as [->|Hz0]; [apply numeral_zero in Hds; [by subst ds; simpl; lia|lia]|].
  pose proof (numeral_length base (Z.abs z) ds Hb ltac:(lia) Hds).
  assert (Z.of_nat (length ds) - 1 < Z.of_nat n) by (apply (Z.pow_lt_mono_r_iff base); lia). lia.
Qed.

(** Closed decidable facts. *)
Ltac literal := apply (bool_decide_unpack _); vm_compute; exact I.

(** Text without a conversion. *)
Definition literal_text (s : list Z) : Prop := Forall (fun c => 0 < c < 256 /\ c <> 37) s.

Lemma formats_literal s fmt args text args' :
  literal_text s ->
  formats fmt args text args' -> formats (s ++ fmt) args (s ++ text) args'.
Proof. intros Hs Hf. induction Hs as [|c s [Hc H37] _ IH]; [done|]. by apply formats_char. Qed.

(** ** The digit buffer *)

Lemma fill_digits_numeral base x ds room tmp i :
  1 < base <= 256 -> numeral base x ds -> 0 < x ->
  (length ds <= room)%nat -> (i + length ds <= length tmp)%nat ->
  fill_digits room base x tmp i =
    Done (take i tmp ++ reverse ds ++ drop (i + length ds) tmp, (i + length ds)%nat).
Proof.
  intros Hb Hn. revert room tmp i.
  assert (forall y v room tmp i, 0 < y * base + v -> 0 <= y -> 0 <= v < base ->
    fill_digits (S room) base (y * base + v) tmp i = fill_digits room base y (<[i := v]> tmp) (S i)) as Hstep.
  { intros y v room tmp i Hp Hy Hv. cbn [fill_digits].
    rewrite (proj2 (Z.eqb_neq _ 0)) by lia.
    rewrite Z.quot_div_nonneg, Z.rem_mod_nonneg by lia.
    rewrite Z.div_add_l, (Z.div_small v), Z.add_0_r by lia.
    rewrite Z.add_comm, Z.mod_add, Z.mod_small by lia. by rewrite u8_id by (unfold is_u8; lia). }
  assert (forall v (tmp : list Z) i k, (i + S k <= length tmp)%nat ->
    take (S i) (<[i := v]> tmp) = take i tmp ++ [v] /\
    drop (S i + k) (<[i := v]> tmp) = drop (i + S k) tmp) as Hins.
  { intros v tmp i k Hl. rewrite drop_insert_lt by lia. replace (S i + k)%nat with (i + S k)%nat by lia.
    split; [|done]. rewrite (take_S_r _ _ v) by (apply list_lookup_insert_eq; lia).
    by rewrite take_insert_ge by lia. }
  induction Hn as [v Hv|x ds v Hx Hn IH Hv]; intros room tmp i Hpos Hroom Hlen;
    rewrite ?length_app in *; cbn [length] in *; (destruct room as [|room]; [lia|]).
  - rewrite <- (Z.add_0_l v) at 1. rewrite <- (Z.mul_0_l base) at 1. rewrite Hstep by lia.
    destruct (Hins v tmp i 0%nat ltac:(lia)) as [Et Ed]. rewrite Nat.add_0_r in Ed.
    destruct room; cbn [fill_digits]; rewrite Z.eqb_refl; f_equal; f_equal; try lia;
      rewrite <- (take_drop (S i) (<[i := v]> tmp)), Et, Ed, <- app_assoc; done.
  - rewrite Hstep by lia. rewrite IH by (rewrite ?length_insert; lia).
    destruct (Hins v tmp i (length ds) ltac:(lia)) as [-> ->].
    rewrite reverse_snoc, <- app_assoc. f_equal. f_equal; [|lia].
    by replace (i + S (length ds))%nat with (i + (length ds + 1))%nat by lia.
Qed.

(** ** Output *)

Section Output.
Context {D : Type} `{Bus D}.

Lemma emit_nil (d : D) : emit [] d = d.
Proof. done. Qed.

Lemma emit_app t1 t2 (d : D) : emit (t1 ++ t2) d = emit t2 (emit t1 d).
Proof. unfold emit, crlf. by rewrite bind_app, foldl_app. Qed.

Lemma putchar_eq c (d : D) : putchar c d = Done (c, emit [c] d).
Proof.
  unfold putchar, uart_store, emit, crlf. rewrite bind_cons. cbn [list_bind mbind]. rewrite app_nil_r. st_unfold.
  destruct (Z.eqb_spec c 10) as [->|]; done.
Qed.

(** A piece of [vprintf] entered with [n] characters prints a text and goes on. *)
Definition prints (m : ST D flow) (n : Z) (text : list Z) : Prop :=
  forall d, m d = Done (Next (u32 (n + Z.of_nat (length text))), emit text d).

Lemma u32_count_app n (t1 t2 : list Z) :
  u32 (u32 (n + Z.of_nat (length t1)) + Z.of_nat (length t2)) = u32 (n + Z.of_nat (length (t1 ++ t2))).
Proof. rewrite length_app. word_lia. Qed.

Lemma prints_nil n : is_u32 n -> prints (mret (Next n)) n [].
Proof. intros Hn d. cbn [length Z.of_nat]. by rewrite Z.add_0_r, u32_id. Qed.

Lemma prints_put c n : c <> EOF -> prints (put_counted c n) n [c].
Proof.
  intros Hc d. unfold put_counted. rewrite (bind_done _ _ _ _ _ (putchar_eq c d)).
  by rewrite (proj2 (Z.eqb_neq _ _) Hc).
Qed.

Lemma and_then_prints m k n t1 t2 :
  prints m n t1 -> prints (k (u32 (n + Z.of_nat (length t1)))) (u32 (n + Z.of_nat (length t1))) t2 ->
  prints (and_then m k) n (t1 ++ t2).
Proof.
  intros Hm Hk d. unfold and_then. rewrite (bind_done _ _ _ _ _ (Hm d)), (Hk (emit t1 d)).
  by rewrite u32_count_app, emit_app.
Qed.

Lemma put_string_prints s n : plain_text s -> is_u32 n -> prints (put_string s n) n s.
Proof.
  intros Hs. revert n. induction Hs as [|c s Hc Hs IH]; intros n Hn; [by apply prints_nil|].
  cbn [put_string]. rewrite (proj2 (Z.eqb_neq c 0)) by lia.
  apply (and_then_prints _ _ n [c]); [apply prints_put; unfold EOF; lia|]. apply IH, u32_range.
Qed.

Lemma put_digits_prints chr ds tmp n :
  Forall (fun v => chr v <> EOF) ds -> is_u32 n ->
  prints (put_digits chr (reverse ds ++ tmp) (length ds) n) n (chr <$> ds).
Proof.
  intros Hds. revert n tmp. induction ds as [|v ds IH]; intros n tmp Hn; [by apply prints_nil|].
  inversion Hds as [|? ? Hv Hds']; subst. cbn [length put_digits].
  rewrite reverse_cons, <- app_assoc. cbn [app].
  rewrite list_lookup_total_middle by (by rewrite length_reverse).
  apply (and_then_prints _ _ n [chr v]); [by apply prints_put|]. apply IH; [done|apply u32_range].
Qed.

(** [put_number] prints the numeral behind a possible sign, which its caller
    has counted. *)
Lemma put_number_eq chr base cap (sign : bool) x ds n (d : D) :
  1 < base <= 256 -> 0 <= x < base ^ Z.of_nat cap -> numeral base x ds ->
  (forall v, 0 <= v < base -> chr v <> EOF) -> (0 < cap)%nat -> is_u32 n ->
  put_number chr base cap sign x n d =
    Done (Next (u32 (n + Z.of_nat (length ds))), emit ((if sign then [45] else []) ++ (chr <$> ds)) d).
Proof.
  intros Hb Hx Hn Hchr Hcap Hn32.
  assert (Forall (fun v => chr v <> EOF) ds) as Hds.
  { eapply Forall_impl; [by apply (numeral_digits base x)|]. simpl. auto. }
  assert (exists tmp i, fill_digits cap base x (replicate cap 0) 0 = Done (tmp, i) /\
    exists rest, tmp = reverse ds ++ rest /\
    S (if negb (i =? 0)%nat then (i - 1)%nat else i) = length ds) as (tmp & i & Hfill & rest & -> & Hi).
  { destruct (decide (x = 0)) as [->|Hx0].
    - apply numeral_zero in Hn; [|lia]. subst ds. exists (replicate cap 0), 0%nat.
      destruct cap as [|cap]; [lia|]. split; [done|]. exists (replicate cap 0). by split.
    - pose proof (numeral_length base x ds ltac:(lia) ltac:(lia) Hn) as Hl.
      assert (Z.of_nat (length ds) - 1 < Z.of_nat cap) as Hlen
        by (apply (Z.pow_lt_mono_r_iff base); lia).
      do 2 eexists. split.
      { apply (fill_digits_numeral base x ds); rewrite ?length_replicate; [done|done|lia|lia|simpl; lia]. }
      eexists. split; [reflexivity|]. destruct ds; [by apply numeral_ne in Hn|]. simpl. lia. }
  pose proof (put_digits_prints chr ds rest n Hds Hn32) as Hp.
  unfold put_number. rewrite Hfill. cbv zeta. rewrite Hi. destruct sign.
  - rewrite (bind_done _ _ _ _ _ (putchar_eq 45 d)). cbn [Z.eqb EOF]. rewrite (Hp _), length_fmap.
    by rewrite emit_app.
  - rewrite (Hp d), length_fmap. done.
Qed.

Lemma put_unsigned_prints chr base cap z ds n :
  1 < base <= 256 -> 0 <= z < base ^ Z.of_nat cap -> (forall v, 0 <= v < base -> chr v <> EOF) ->
  (0 < cap)%nat -> number_text base chr z ds -> is_u32 n ->
  prints (put_number chr base cap false z n) n ds.
Proof.
  intros Hb Hz Hchr Hcap (l & Hl & ->) Hn d. rewrite Z.abs_eq in Hl by lia.
  rewrite (proj2 (Z.ltb_ge z 0)) by lia.
  rewrite (put_number_eq _ _ _ _ _ l) by done. cbn [app]. by rewrite length_fmap.
Qed.

Lemma put_signed_prints chr base cap least z ds n :
  1 < base <= 256 -> Z.abs z < base ^ Z.of_nat cap -> (forall v, 0 <= v < base -> chr v <> EOF) ->
  (0 < cap)%nat -> z <> least -> number_text base chr z ds -> is_u32 n ->
  prints (put_signed chr base cap least z n) n ds.
Proof.
  intros Hb Hz Hchr Hcap Hmin (l & Hl & ->) Hn d. unfold put_signed.
  rewrite (proj2 (Z.eqb_neq _ _) Hmin). destruct (Z.ltb_spec z 0) as [Hneg|Hpos].
  - rewrite Z.abs_neq in * by lia.
    rewrite (put_number_eq _ _ _ _ _ l) by (done || lia || apply u32_range).
    rewrite length_app, length_fmap. do 3 f_equal. cbn [length]. word_lia.
  - rewrite Z.abs_eq in * by lia. rewrite Z.add_0_r, u32_id by done.
    rewrite (put_number_eq _ _ _ _ _ l) by (done || lia). cbn [app]. by rewrite length_fmap.
Qed.

Lemma decimal_char_ok v : 0 <= v < 10 -> decimal_char v <> EOF.
Proof. unfold decimal_char, EOF. lia. Qed.

Lemma hex_char_ok letter v : 10 <= letter -> 0 <= v < 16 -> hex_char letter v <> EOF.
Proof. unfold hex_char, EOF. intros. case_match; lia. Qed.

(** Every number conversion prints the text of its value. *)
Lemma convert_number pf c a args base chr z ds n (d : D) :
  number_conversion c a = Some (base, chr, z) -> number_text base chr z ds -> is_u32 n ->
  convert pf c (a :: args) n d = Done ((Next (u32 (n + Z.of_nat (length ds))), args), emit ds d).
Proof.
  intros Hc Ht Hn.
  assert (forall m : ST D flow, prints m n ds -> (f ← m; mret (f, args)) d =
    Done ((Next (u32 (n + Z.of_nat (length ds))), args), emit ds d)) as Hret.
  { intros m Hm. by rewrite (bind_done _ _ _ _ _ (Hm d)). }
  pose proof decimal_char_ok. pose proof (hex_char_ok 97). pose proof (hex_char_ok 65).
  destruct a as [v|v|s]; [| |done]; unfold number_conversion in Hc;
    repeat match type of Hc with
    | (if ?b =? ?k then _ else _) = _ => destruct (Z.eqb_spec b k); [try subst c|]
    end; simplify_eq; unfold convert; cbn [Z.eqb Pos.eqb]; apply Hret;
    unfold conv_i, conv_l, conv_L, conv_x, conv_X, conv_y, conv_Y;
    (apply put_signed_prints || apply put_unsigned_prints); auto with lia;
    cbn [Z.of_nat Pos.of_succ_nat Pos.succ]; word_lia.
Qed.

End Output.

(** ** [vprintf] implements its specification *)

Section Vprintf.
Context {D : Type} `{Bus D}.
Variable pf : printf_fun (D := D).
Hypothesis Hnull : forall d, pf (cstr "(null)") [] d = Done (6, emit (cstr "(null)") d).

(** One step of the loop for a character and for a conversion. *)
Lemma vprintf_loop_char c fmt args n (d : D) :
  0 < c < 256 -> c <> 37 ->
  vprintf_loop pf (c :: fmt) args n d = vprintf_loop pf fmt args (u32 (n + 1)) (emit [c] d).
Proof.
  intros Hc H37. cbn [vprintf_loop].
  rewrite (proj2 (Z.eqb_neq c 0)), (proj2 (Z.eqb_neq c 37)) by lia.
  by rewrite (bind_done _ _ _ _ _ (prints_put c n ltac:(unfold EOF; lia) d)).
Qed.

Lemma vprintf_loop_convert c fmt args args' n n' (d d' : D) :
  convert pf c args n d = Done ((Next n', args'), d') ->
  vprintf_loop pf (37 :: c :: fmt) args n d = vprintf_loop pf fmt args' n' d'.
Proof. intros Hc. cbn [vprintf_loop Z.eqb Pos.eqb]. by rewrite (bind_done _ _ _ _ _ Hc). Qed.

Lemma vprintf_loop_formats fmt args text args' rest n (d : D) :
  formats fmt args text args' -> is_u32 n ->
  vprintf_loop pf (fmt ++ rest) args n d =
    vprintf_loop pf rest args' (u32 (n + Z.of_nat (length text))) (emit text d).
Proof.
  intros Hf. revert n d. induction Hf; intros n d Hn.
  - cbn [length Z.of_nat app]. by rewrite Z.add_0_r, u32_id.
  - cbn [app]. rewrite vprintf_loop_char, IHHf by (done || apply u32_range).
    rewrite (u32_count_app n [c]). by rewrite <- (emit_app [c]).
  - cbn [app]. erewrite vprintf_loop_convert; [rewrite IHHf by apply u32_range|].
    + rewrite (u32_count_app n [37]). by rewrite <- (emit_app [37]).
    + unfold convert. cbn [Z.eqb Pos.eqb].
      by rewrite (bind_done _ _ _ _ _ (prints_put 37 n ltac:(done) d)).
  - cbn [app]. erewrite vprintf_loop_convert; [rewrite IHHf by apply u32_range|].
    + rewrite (u32_count_app n [z]). by rewrite <- (emit_app [z]).
    + unfold convert, with_int, conv_c. cbn [Z.eqb Pos.eqb]. rewrite i32_id by (unfold is_i32; lia).
      by rewrite (bind_done _ _ _ _ _ (prints_put z n ltac:(unfold EOF; lia) d)).
  - cbn [app]. erewrite vprintf_loop_convert; [rewrite IHHf by apply u32_range|].
    + by rewrite u32_count_app, emit_app.
    + unfold convert, with_str, conv_s. cbn [Z.eqb Pos.eqb].
      by rewrite (bind_done _ _ _ _ _ (put_string_prints s n ltac:(done) Hn d)).
  - cbn [app]. erewrite vprintf_loop_convert; [rewrite IHHf by apply u32_range|].
    + by rewrite (u32_count_app n (cstr "(null)")), emit_app.
    + unfold convert, with_str, conv_s. cbn [Z.eqb Pos.eqb]. st_unfold. by rewrite Hnull.
  - cbn [app]. erewrite vprintf_loop_convert; [rewrite IHHf by apply u32_range|].
    + by rewrite u32_count_app, emit_app.
    + by eapply convert_number.
Qed.

End Vprintf.

(** A text without conversions, for which [printf] need not call itself. *)
Lemma vprintf_loop_literal {D} `{Bus D} pf s rest args n (d : D) :
  plain_text s -> ~ 37 ∈ s -> is_u32 n ->
  vprintf_loop pf (s ++ rest) args n d =
    vprintf_loop pf rest args (u32 (n + Z.of_nat (length s))) (emit s d).
Proof.
  intros Hs. revert n d. induction Hs as [|c s Hc Hs IH]; intros n d H37 Hn.
  - cbn [length Z.of_nat app]. by rewrite Z.add_0_r, u32_id.
  - rewrite not_elem_of_cons in H37. destruct H37 as [H37 Hrest].
    cbn [app]. rewrite vprintf_loop_char, IH by (done || apply u32_range).
    rewrite (u32_count_app n [c]). by rewrite <- (emit_app [c]).
Qed.

Lemma cstr_plain s : bool_decide (plain_text (cstr s) /\ ~ 37 ∈ cstr s) = true ->
  plain_text (cstr s) /\ ~ 37 ∈ cstr s.
Proof. apply bool_decide_eq_true. Qed.

Lemma vprintf_literal {D} `{Bus D} depth s (d : D) :
  plain_text s -> ~ 37 ∈ s -> Z.of_nat (length s) < 2147483648 ->
  vprintf (S depth) s [] d = Done (Z.of_nat (length s), emit s d).
Proof.
  intros Hs H37 Hl. cbn [vprintf]. rewrite <- (app_nil_r s) at 1.
  rewrite vprintf_loop_literal by (done || (unfold is_u32; lia)).
  simpl. unfold mret, st_ret. by rewrite Z.add_0_l, u32_id, i32_id by word_lia.
Qed.

Lemma vprintf_null {D} `{Bus D} depth (d : D) :
  vprintf (S depth) (cstr "(null)") [] d = Done (6, emit (cstr "(null)") d).
Proof.
  destruct (cstr_plain "(null)" ltac:(by vm_compute)) as [Hp H37].
  by rewrite vprintf_literal.
Qed.

Lemma vprintf_spec {D} `{Bus D} depth fmt args text args' (d : D) :
  formats fmt args text args' -> Z.of_nat (length text) < 2147483648 ->
  vprintf (S (S depth)) fmt args d = Done (Z.of_nat (length text), emit text d).
Proof.
  intros Hf Hl. change (vprintf_loop (vprintf (S depth)) fmt args 0 d = Done (Z.of_nat (length text), emit text d)).
  rewrite <- (app_nil_r fmt).
  rewrite (vprintf_loop_formats _ (vprintf_null depth) _ _ _ _ [] 0 d Hf) by (unfold is_u32; lia).
  simpl. unfold mret, st_ret. by rewrite Z.add_0_l, u32_id, i32_id by word_lia.
Qed.

(** The specification denotes one text. *)
Lemma numeral_unique base x ds ds' : 0 < base -> numeral base x ds -> numeral base x ds' -> ds = ds'.
Proof.
  intros Hb Hn. revert ds'. induction Hn as [v Hv|x ds v Hx Hn IH Hv]; intros ds' Hn'.
  - inversion Hn' as [w Hw|y l w Hy Hl Hw]; subst; [done|]. nia.
  - inversion Hn' as [w Hw|y l w Hy Hl Hw E]; subst; [nia|].
    assert (y = x) as -> by nia. assert (w = v) as -> by nia. by rewrite (IH l Hl).
Qed.

Lemma number_text_unique base chr z t t' : 0 < base -> number_text base chr z t -> number_text base chr z t' -> t = t'.
Proof. intros Hb (ds & Hds & ->) (ds' & Hds' & ->). by rewrite (numeral_unique base _ ds ds' Hb Hds Hds'). Qed.

Lemma number_conversion_facts c a base chr z : number_conversion c a = Some (base, chr, z) ->
  0 < base /\ c <> 37 /\ c <> 99 /\ c <> 115.
Proof.
  destruct a; intros Hc; unfold number_conversion in Hc; [| |done];
    repeat match type of Hc with
    | (if ?b =? ?k then _ else _) = _ => destruct (Z.eqb_spec b k)
    end; inversion Hc; lia.
Qed.

Lemma formats_unique fmt args text args' text2 args2 :
  formats fmt args text args' -> formats fmt args text2 args2 -> text2 = text /\ args2 = args'.
Proof.
  intros Hf. revert text2 args2. induction Hf; intros text2 args2 Hf2; inversion Hf2; subst; try done;
    repeat match goal with Hc : number_conversion _ _ = Some _ |- _ =>
      pose proof (number_conversion_facts _ _ _ _ _ Hc) as (? & ? & ? & ?); revert Hc end; intros; try done;
    try (match goal with IH : forall t a, formats _ _ t a -> _, Hx : formats _ _ _ _ |- _ =>
           by destruct (IH _ _ Hx) as [-> ->] end).
  simplify_eq. destruct (IHHf text0 args2) as [-> ->]; [done|]. split; [|done]. f_equal. by eapply number_text_unique.
Qed.

(** C21: [vprintf] implements its specification: for a format that denotes a
    text with its arguments, exactly that text is sent to the UART, each
    newline as a carriage return and a newline, and its length is returned; the
    format denotes no other text. A recursion of depth 2 is enough. *)
Theorem vprintf_formats {D} `{Bus D} depth fmt args text args' (d : D) :
  formats fmt args text args' -> Z.of_nat (length text) < 2147483648 ->
  vprintf (S (S depth)) fmt args d = Done (Z.of_nat (length text), emit text d) /\
  (forall text2 args2, formats fmt args text2 args2 -> text2 = text).
Proof.
  intros Hf Hl. split; [by apply (vprintf_spec depth _ _ _ args')|].
  intros text2 args2 H2. by apply (formats_unique _ _ _ _ _ _ Hf H2).
Qed.

(** The text of a decimal number, read back. *)
Definition read_decimal (text : list Z) : Z :=
  match text with
  | [] => 0
  | c :: rest =>
      if c =? 45 then - numeral_value 10 ((fun c => c - 48) <$> rest)
      else numeral_value 10 ((fun c => c - 48) <$> text)
  end.

Definition hex_value (letter c : Z) : Z := if c <? 58 then c - 48 else c - letter + 10.

Lemma number_text_exists base chr z : 1 < base -> exists t, number_text base chr z t.
Proof.
  intros Hb. destruct (numeral_exists base (Z.abs z)) as [ds Hds]; [done|lia|].
  by exists ((if z <? 0 then [45] else []) ++ (chr <$> ds)), ds.
Qed.

Lemma map_inverse (f g : Z -> Z) base ds :
  Forall (fun v => 0 <= v < base) ds -> (forall v, 0 <= v < base -> g (f v) = v) -> g <$> (f <$> ds) = ds.
Proof.
  intros Hds Hg. rewrite <- list_fmap_compose. rewrite <- (list_fmap_id ds) at 2.
  apply list_fmap_ext. intros i v Hv. apply Hg. by apply (Forall_lookup_1 _ _ _ _ Hds Hv).
Qed.

Lemma read_decimal_text z t : number_text 10 decimal_char z t -> read_decimal t = z.
Proof.
  intros (ds & Hds & ->). pose proof (numeral_digits _ _ _ Hds) as Hd.
  pose proof (map_inverse decimal_char (fun c => c - 48) 10 ds Hd ltac:(unfold decimal_char; lia)) as Hm.
  pose proof (numeral_value_eq _ _ _ Hds) as Hv. unfold read_decimal.
  destruct (Z.ltb_spec z 0).
  - cbn [app]. rewrite Z.eqb_refl, Hm, Hv. lia.
  - cbn [app]. destruct ds as [|d ds]; [by apply numeral_ne in Hds|].
    inversion Hd as [|? ? Hd0 _]; subst. cbn [fmap list_fmap] in *.
    rewrite (proj2 (Z.eqb_neq (decimal_char d) 45)) by (unfold decimal_char; lia).
    change (list_fmap _ _ ?f ?l) with (f <$> l) in *. rewrite Hm, Hv. lia.
Qed.

(** C36: Number conversions round-trip: what [%i], [%l] and [%x] print reads back
    as the argument, for every [int] but the least one, every [unsigned long
    long] and every [unsigned int]; the digit buffers are never overrun. *)
Theorem printf_number_roundtrip {D} `{Bus D} (d : D) :
  (forall z, is_i32 z -> z <> INT_MIN -> exists t, read_decimal t = z /\
     printf (cstr "%i") [VInt z] d = Done (Z.of_nat (length t), emit t d)) /\
  (forall z, is_u64 z -> exists t, read_decimal t = z /\
     printf (cstr "%l") [VLong z] d = Done (Z.of_nat (length t), emit t d)) /\
  (forall z, is_u32 z -> exists t, numeral_value 16 (hex_value 97 <$> t) = z /\
     printf (cstr "%x") [VInt z] d = Done (Z.of_nat (length t), emit t d)).
Proof.
  assert (forall c a base chr z t, number_conversion c a = Some (base, chr, z) ->
    number_text base chr z t -> 1 < base -> Z.abs z < base ^ 20 ->
    printf (cstr "%" ++ [c]) [a] d = Done (Z.of_nat (length t), emit t d)) as Hp.
  { intros c a base chr z t Hc Ht Hb Hz.
    assert (Z.of_nat (length t) < 2147483648) as Hl
      by (pose proof (number_text_length base chr z t 20 Hb Hz Ht); lia).
    rewrite <- (app_nil_r t) in Hl |- *. apply (vprintf_spec 0 _ [a] (t ++ []) []); [|done].
    apply (formats_number c a base chr z t [] [] [] []); [done..|constructor]. }
  split_and!; intros z Hz.
  - intros Hmin. destruct (number_text_exists 10 decimal_char z ltac:(lia)) as [t Ht].
    exists t. split; [by apply read_decimal_text|]. apply (Hp 105 (VInt z) 10 decimal_char z t); [|done|lia|].
    + cbn [number_conversion Z.eqb Pos.eqb]. rewrite i32_id by done. by rewrite (proj2 (Z.eqb_neq _ _) Hmin).
    + unfold is_i32 in Hz. lia.
  - destruct (number_text_exists 10 decimal_char z ltac:(lia)) as [t Ht].
    exists t. split; [by apply read_decimal_text|]. apply (Hp 108 (VLong z) 10 decimal_char z t); [|done|lia|].
    + cbn [number_conversion Z.eqb Pos.eqb]. by rewrite u64_id.
    + unfold is_u64 in Hz. lia.
  - destruct (number_text_exists 16 (hex_char 97) z ltac:(lia)) as [t Ht].
    exists t. split.
    + destruct Ht as (ds & Hds & ->). rewrite (proj2 (Z.ltb_ge z 0)) by (unfold is_u32 in Hz; lia).
      cbn [app]. rewrite (map_inverse (hex_char 97) (hex_value 97) 16).
      * rewrite (numeral_value_eq _ _ _ Hds). unfold is_u32 in Hz. lia.
      * by eapply numeral_digits.
      * intros v Hv. unfold hex_char, hex_value. case_bools.
    + apply (Hp 120 (VInt z) 16 (hex_char 97) z t); [|done|lia|unfold is_u32 in Hz; lia].
      cbn [number_conversion Z.eqb Pos.eqb]. by rewrite u32_id.
Qed.

(** The least value of a signed type is not printed: [%i], [%X], [%L] and
    [%Y] negate it, which is undefined behaviour, wherever the conversion stands
    in the format. *)
Theorem printf_least_undefined {D} `{Bus D} depth pre args text args' c rest (d : D) :
  formats pre args text (c :: args') ->
  (c = VInt INT_MIN ->
     vprintf (S (S depth)) (pre ++ cstr "%i" ++ rest) args d = Undefined /\
     vprintf (S (S depth)) (pre ++ cstr "%X" ++ rest) args d = Undefined) /\
  (c = VLong LLONG_MIN ->
     vprintf (S (S depth)) (pre ++ cstr "%L" ++ rest) args d = Undefined /\
     vprintf (S (S depth)) (pre ++ cstr "%Y" ++ rest) args d = Undefined).
Proof.
  intros Hf.
  assert (forall fmt, vprintf (S (S depth)) (pre ++ fmt) args d =
    vprintf_loop (vprintf (S depth)) fmt (c :: args') (u32 (0 + Z.of_nat (length text))) (emit text d)) as E.
  { intros fmt. change (vprintf_loop (vprintf (S depth)) (pre ++ fmt) args 0 d = vprintf_loop (vprintf (S depth)) fmt (c :: args')
      (u32 (0 + Z.of_nat (length text))) (emit text d)).
    apply (vprintf_loop_formats _ (vprintf_null depth)); [done|unfold is_u32; lia]. }
  split; intros ->; split; rewrite E; reflexivity.
Qed.

(** So it is for an unsigned number with these bits, behind a text. *)
Lemma printf_sign_bit {D} `{Bus D} pre rest z args (d : D) :
  literal_text pre -> i32 z = INT_MIN -> printf (pre ++ 37 :: 105 :: rest) (VInt z :: args) d = Undefined.
Proof.
  intros Hpre Hz. assert (formats pre (VInt z :: args) pre (VInt z :: args)) as Hf
    by (rewrite <- (app_nil_r pre); apply formats_literal; [done|constructor]).
  change (vprintf_loop (vprintf 1) (pre ++ 37 :: 105 :: rest) (VInt z :: args) 0 d = Undefined).
  rewrite (vprintf_loop_formats _ (vprintf_null 0) _ _ _ _ _ 0 d Hf) by (unfold is_u32; lia).
  cbn [vprintf_loop Z.eqb Pos.eqb]. unfold mbind, st_bind, convert. cbn [Z.eqb Pos.eqb]. unfold conv_i. cbn -[Z.add]. rewrite Hz. reflexivity.
Qed.

Definition conversion_characters : list Z := cstr "%csilLxXyY".

(** An unknown conversion ends the output: the text before it is printed,
    then a message with the character on a line of its own, nothing of the rest,
    and the count without the message is returned. *)
Theorem printf_unknown_conversion {D} `{Bus D} depth pre args text args' c rest (d : D) :
  formats pre args text args' -> Z.of_nat (length text) < 2147483648 ->
  0 < c < 256 -> ~ c ∈ conversion_characters ->
  vprintf (S (S depth)) (pre ++ [37; c] ++ rest) args d =
    Done (Z.of_nat (length text),
          emit (text ++ [10] ++ cstr "printf: unimplemented conversion character '" ++ [c] ++ cstr "'" ++ [10]) d).
Proof.
  intros Hf Hl Hc Hunk.
  change (vprintf_loop (vprintf (S depth)) (pre ++ [37; c] ++ rest) args 0 d =
    Done (Z.of_nat (length text),
          emit (text ++ [10] ++ cstr "printf: unimplemented conversion character '" ++ [c] ++ cstr "'" ++ [10]) d)).
  rewrite (vprintf_loop_formats _ (vprintf_null depth) _ _ _ _ _ 0 d Hf) by (unfold is_u32; lia).
  cbn [app vprintf_loop Z.eqb Pos.eqb]. set (n := u32 (0 + Z.of_nat (length text))).
  set (msg := _ :: _). rewrite emit_app. set (d1 := emit text d).
  assert (vprintf (S depth) unimplemented_format [VInt c] d1 = Done (Z.of_nat (length msg), emit msg d1)) as Hmsg.
  { set (p1 := [10] ++ cstr "printf: unimplemented conversion character '"). set (p2 := cstr "'" ++ [10]).
    change (vprintf_loop (vprintf depth) (p1 ++ 37 :: 99 :: p2) [VInt c] 0 d1 = Done (Z.of_nat (length msg), emit msg d1)).
    assert (plain_text p1 /\ ~ 37 ∈ p1 /\ plain_text p2 /\ ~ 37 ∈ p2) as (H1 & H2 & H3 & H4)
      by (apply (bool_decide_unpack _); by vm_compute).
    rewrite vprintf_loop_literal by (done || (unfold is_u32; lia)).
    erewrite vprintf_loop_convert.
    2:{ unfold convert, with_int, conv_c. cbn [Z.eqb Pos.eqb]. rewrite i32_id by (unfold is_i32; lia).
        by rewrite (bind_done _ _ _ _ _ (prints_put c _ ltac:(unfold EOF; lia) _)). }
    rewrite <- (app_nil_r p2), vprintf_loop_literal by (done || apply u32_range).
    change msg with (p1 ++ [c] ++ p2). rewrite !emit_app. reflexivity. }
  assert (convert (vprintf (S depth)) c args' n d1 = Done ((Return n, args'), emit msg d1)) as ->%(bind_done _ _ _ _ _).
  - unfold convert. unfold conversion_characters in Hunk.
    repeat match goal with
    | |- context [c =? ?k] => destruct (Z.eqb_spec c k) as [->|_]; [exfalso; apply Hunk; by apply (bool_decide_unpack _); vm_compute|]
    end.
    unfold conv_unknown. st_unfold. by rewrite Hmsg.
  - unfold n. simpl. unfold mret, st_ret. by rewrite Z.add_0_l, u32_id, i32_id by word_lia.
Qed.

Lemma puts_loop_eq {D} `{Bus D} s (d : D) : plain_text s -> puts_loop s d = Done (true, emit s d).
Proof.
  intros Hs. revert d. induction Hs as [|c s Hc Hs IH]; intros d; [done|].
  cbn [puts_loop]. rewrite (proj2 (Z.eqb_neq c 0)) by lia.
  rewrite (bind_done _ _ _ _ _ (putchar_eq c d)), (proj2 (Z.eqb_neq c EOF)) by (unfold EOF; lia).
  by rewrite IH, <- (emit_app [c]).
Qed.

(** [puts] sends the string and a newline to the UART, each newline as a
    carriage return and a newline, and returns 0. *)
Lemma puts_spec {D} `{Bus D} s (d : D) :
  plain_text s -> puts s d = Done (0, emit (s ++ [10]) d).
Proof.
  intros Hs. unfold puts. rewrite (bind_done _ _ _ _ _ (puts_loop_eq s d Hs)). cbn [negb].
  by rewrite (bind_done _ _ _ _ _ (putchar_eq 10 (emit s d))), emit_app.
Qed.

(** ** Witnesses *)

(** A UART that keeps the bytes it sent. *)
Record uart := mk_uart { uart_sent : list Z }.

#[export] Instance uart_bus : Bus uart := {|
  bus_read n a d := (0, d);
  bus_write n a v d := if a =? UART_THR then mk_uart (uart_sent d ++ [v]) else d;
|}.

Definition quiet_uart : uart := mk_uart [].

Lemma example_formats :
  formats (cstr "n=%i, %s" ++ [10]) [VInt (-42); VStr None] (cstr "n=-42, (null)" ++ [10]) [].
Proof.
  change (cstr "n=%i, %s" ++ [10]) with (110 :: 61 :: 37 :: 105 :: 44 :: 32 :: 37 :: 115 :: [10]).
  change (cstr "n=-42, (null)" ++ [10]) with (110 :: 61 :: cstr "-42" ++ 44 :: 32 :: cstr "(null)" ++ [10]).
  do 2 (apply formats_char; [lia|lia|]).
  apply (formats_number 105 (VInt (-42)) 10 decimal_char (-42)); [vm_compute; reflexivity| |].
  - exists [4; 2]. split; [|vm_compute; reflexivity]. apply (numeral_snoc 10 4 [4] 2); [lia| |lia].
    constructor. lia.
  - do 2 (apply formats_char; [lia|lia|]). apply formats_null. apply formats_char; [lia|lia|]. constructor.
Qed.

Lemma vprintf_formats_witness :
  exists d, vprintf 2 (cstr "n=%i, %s" ++ [10]) [VInt (-42); VStr None] quiet_uart = Done (14, d) /\
    uart_sent d = cstr "n=-42, (null)" ++ [13; 10].
Proof.
  exists (emit (cstr "n=-42, (null)" ++ [10]) quiet_uart). split; [|vm_compute; reflexivity].
  destruct (vprintf_formats 0 _ _ _ _ quiet_uart example_formats) as [H _]; [vm_compute; done|exact H].
Defined.

Lemma printf_number_roundtrip_witness :
  exists t, read_decimal t = -2147483647 /\
    printf (cstr "%i") [VInt (-2147483647)] quiet_uart = Done (Z.of_nat (length t), emit t quiet_uart).
Proof.
  destruct (printf_number_roundtrip quiet_uart) as [H _]. apply H; [unfold is_i32; lia|done].
Defined.

Lemma printf_least_undefined_witness :
  printf (cstr "%i") [VInt INT_MIN] quiet_uart = Undefined.
Proof.
  destruct (printf_least_undefined 0 [] [VInt INT_MIN] [] [] (VInt INT_MIN) [] quiet_uart) as [H _];
    [constructor|]. apply (H eq_refl).
Defined.

Lemma printf_unknown_conversion_witness :
  exists d, printf (cstr "a%db") [] quiet_uart = Done (1, d) /\
    uart_sent d = cstr "a" ++ [13; 10] ++ cstr "printf: unimplemented conversion character 'd'" ++ [13; 10].
Proof.
  eexists. split.
  - apply (printf_unknown_conversion 0 (cstr "a") [] (cstr "a") [] 100 (cstr "b") quiet_uart);
      [|vm_compute; done|lia|by apply (bool_decide_unpack _); vm_compute].
    change (cstr "a") with [97]. apply formats_char; [lia|lia|constructor].
  - vm_compute. reflexivity.
Defined.
