(* ===== verification/Logger.v ===== *)
(** * The log: kernel/logger/logger.c

    A log line is the severity in its colour, the time, the file, the message
    and a newline.  The time is formatted into the one string buffer of
    [clock_time_to_str], which is part of the state. *)

From stdpp Require Import strings.
From S2P Require Import Prelude StateMonad Memory Bus Clock Stdio.

(** ** Definitions *)

Definition log_severities : list (list Z) :=
  [cstr "DEBUG"; cstr "INFO"; cstr "WARN"; cstr "ERROR"; cstr "FATAL"].

Definition ESC : Z := 0x1b.

Definition log_colors : list (list Z) :=
  [ESC :: cstr "[37m"; ESC :: cstr "[34m"; ESC :: cstr "[33m"; ESC :: cstr "[91m"; ESC :: cstr "[31m"].

(** The bytes of a string object before its NUL. *)
Fixpoint c_string (buf : list Z) : list Z :=
  match buf with
  | [] => []
  | c :: buf' => if c =? 0 then [] else c :: c_string buf'
  end.

Record log_state (D : Type) := mk_log {
  lg_dev : D;
  lg_clock : Z;
  lg_format : list Z;
}.
Arguments mk_log {D}.
Arguments lg_dev {D}.
Arguments lg_clock {D}.
Arguments lg_format {D}.

Section Logger.
Context {D : Type} `{Bus D}.

Definition log_io {A} (m : ST D A) : ST (log_state D) A :=
  zoom lg_dev (fun d s => mk_log d (lg_clock s) (lg_format s)) m.

Definition log_time : ST (log_state D) (list Z) := fun s =>
  let buf := clock_formatted_msms (lg_clock s) (lg_format s) in
  Done (c_string buf, mk_log (lg_dev s) (lg_clock s) buf).

(** An index outside the two tables is undefined. *)
Definition table_entry (table : list (list Z)) (i : Z) : ST (log_state D) (list Z) :=
  match table !! Z.to_nat i with Some s => mret s | None => undefined end.

Definition header_short : list Z := cstr "%s[%s]  [%s]" ++ ESC :: cstr "[0m [%s]: ".
Definition header_long : list Z := cstr "%s[%s] [%s]" ++ ESC :: cstr "[0m [%s]: ".

Definition general_log (severity : Z) (file format : list Z) (args : list va_value) : ST (log_state D) unit :=
  time ← log_time;
  color ← table_entry log_colors severity;
  name ← table_entry log_severities severity;
  let header := [VStr (Some color); VStr (Some name); VStr (Some time); VStr (Some file)] in
  (if (severity =? 1) || (severity =? 2)
   then _ ← log_io (printf header_short header); mret ()
   else _ ← log_io (printf header_long header); mret ()) ;;
  _ ← log_io (printf format args);
  _ ← log_io (putchar 10);
  mret ().

(** A log line as the other components print it: the device after
    [general_log(severity, file, message)] at time [now].  The time buffer is
    left out of their state: every call overwrites what it reads of it
    ([log_line_buffer] below).  [file] is [__FILE__], the path from the top
    directory, where the Makefile compiles. *)
Definition log_line (now severity : Z) (file message : list Z) (d : D) : D :=
  match general_log severity file message [] (mk_log d now time_format) with
  | Done (_, s) => lg_dev s
  | _ => d
  end.

End Logger.

(** What the components log: a severity of the table and texts of moderate
    length without conversions. *)
Definition printable_log (severity : Z) (file message : list Z) : Prop :=
  0 <= severity < 5 /\ plain_text file /\ literal_text message /\
  (length file <= 100)%nat /\ (length message <= 100)%nat.

#[export] Instance printable_log_dec severity file message : Decision (printable_log severity file message) := _.

Definition SEVERITY_DEBUG : Z := 0.
Definition SEVERITY_WARN : Z := 2.
Definition SEVERITY_ERROR : Z := 3.

(** ** Correctness *)

(** The header of a line, with the severity in a field of fixed width. *)
Definition log_header (severity : Z) (time file : list Z) : list Z :=
  log_colors !!! Z.to_nat severity ++ cstr "[" ++ log_severities !!! Z.to_nat severity ++ cstr "]" ++
  replicate (6 - length (log_severities !!! Z.to_nat severity)) 32 ++
  cstr "[" ++ time ++ cstr "]" ++ ESC :: cstr "[0m [" ++ file ++ cstr "]: ".

Lemma c_string_plain buf : Forall is_u8 buf -> plain_text (c_string buf).
Proof.
  induction 1 as [|c buf Hc _ IH]; simpl; [constructor|].
  destruct (Z.eqb_spec c 0); constructor; [|done]. unfold is_u8 in Hc. lia.
Qed.

(** Both header formats, with [gap] between the brackets. *)
Lemma header_formats gap color name time file :
  Forall (fun c => 0 < c < 256 /\ c <> 37) gap ->
  plain_text color -> plain_text name -> plain_text time -> plain_text file ->
  formats (cstr "%s[%s]" ++ gap ++ cstr "[%s]" ++ ESC :: cstr "[0m [%s]: ")
    [VStr (Some color); VStr (Some name); VStr (Some time); VStr (Some file)]
    (color ++ cstr "[" ++ name ++ cstr "]" ++ gap ++ cstr "[" ++ time ++ cstr "]" ++
       ESC :: cstr "[0m [" ++ file ++ cstr "]: ") [].
Proof.
  intros Hg Hc Hn Ht Hf. change (cstr "%s[%s]") with (37 :: 115 :: cstr "[" ++ 37 :: 115 :: cstr "]").
  change (cstr "[%s]") with (cstr "[" ++ 37 :: 115 :: cstr "]").
  change (cstr "[0m [%s]: ") with (cstr "[0m [" ++ 37 :: 115 :: cstr "]: ").
  rewrite <- !app_assoc. cbn [app]. rewrite <- !app_assoc. cbn [app].
  apply formats_s; [done|]. apply formats_literal; [literal|]. apply formats_s; [done|].
  apply formats_literal; [literal|]. apply formats_literal; [done|].
  apply formats_literal; [literal|]. apply formats_s; [done|].
  apply formats_literal; [literal|]. apply (formats_literal [ESC]); [literal|].
  apply formats_literal; [literal|]. apply formats_s; [done|].
  rewrite <- (app_nil_r (cstr "]: ")). apply formats_literal; [literal|]. constructor.
Qed.

Lemma clock_time_to_str_u8 t buf : Forall is_u8 buf -> Forall is_u8 (clock_time_to_str t buf).
Proof. intros Hb. unfold clock_time_to_str. repeat (apply Forall_insert; [|apply u8_range]). done. Qed.

Lemma c_string_length buf : (length (c_string buf) <= length buf)%nat.
Proof. induction buf as [|c buf IH]; simpl; [lia|]. case_match; simpl; lia. Qed.

Section Correct.
Context {D : Type} `{Bus D}.

Lemma log_io_done {A} (m : ST D A) (s : log_state D) a d :
  m (lg_dev s) = Done (a, d) -> log_io m s = Done (a, mk_log d (lg_clock s) (lg_format s)).
Proof. unfold log_io, zoom. by intros ->. Qed.

Lemma severity_cases severity : 0 <= severity < 5 ->
  severity = 0 \/ severity = 1 \/ severity = 2 \/ severity = 3 \/ severity = 4.
Proof. lia. Qed.

(** The header [printf] of [general_log]. *)
Lemma log_header_printf severity time file (d : D) :
  0 <= severity < 5 -> plain_text time -> plain_text file ->
  Z.of_nat (length time) + Z.of_nat (length file) < 2147480000 ->
  exists n, printf (if (severity =? 1) || (severity =? 2) then header_short else header_long)
    [VStr (Some (log_colors !!! Z.to_nat severity)); VStr (Some (log_severities !!! Z.to_nat severity));
     VStr (Some time); VStr (Some file)] d = Done (n, emit (log_header severity time file) d).
Proof.
  intros Hsev Ht Hf Hl. eexists. apply (vprintf_spec 0 _ _ _ []).
  - apply severity_cases in Hsev as [->|[->|[->|[->| ->]]]];
      (apply (header_formats [32]) || apply (header_formats [32; 32])); try literal; done.
  - unfold log_header. rewrite !length_app. cbn [length]. rewrite !length_app.
    apply severity_cases in Hsev as [->|[->|[->|[->| ->]]]]; simpl; lia.
Qed.

(** A log line is the severity in its colour, the time of the call, the
    file, the message and a newline, with the message column at the same place
    for every severity; a severity beyond the table is undefined. *)
Theorem general_log_line severity file format args text args' (s : log_state D) :
  plain_text file -> Forall is_u8 (lg_format s) -> formats format args text args' ->
  Z.of_nat (length (lg_format s)) + Z.of_nat (length file) < 2147480000 ->
  Z.of_nat (length text) < 2147483648 ->
  let buf := clock_formatted_msms (lg_clock s) (lg_format s) in
  (0 <= severity < 5 ->
     general_log severity file format args s =
       Done (tt, mk_log (emit (log_header severity (c_string buf) file ++ text ++ [10]) (lg_dev s))
                   (lg_clock s) buf) /\
     length (log_header severity (c_string buf) file) = length (log_header 0 (c_string buf) file)) /\
  (5 <= severity -> general_log severity file format args s = Undefined).
Proof.
  intros Hfile Hbuf Hf Hl Ht buf.
  assert (Forall is_u8 buf) as Hb by (by apply clock_time_to_str_u8).
  pose proof (c_string_plain buf Hb) as Hp. pose proof (c_string_length buf) as Hcl.
  assert (length buf = length (lg_format s)) as Hbl.
  { unfold buf, clock_formatted_msms, clock_time_to_str. by rewrite !length_insert. }
  unfold general_log.
  rewrite (bind_done _ _ s (c_string buf) (mk_log (lg_dev s) (lg_clock s) buf)) by done.
  set (s1 := mk_log (lg_dev s) (lg_clock s) buf). split.
  - intros Hsev. split.
    + destruct (log_header_printf severity (c_string buf) file (lg_dev s) Hsev Hp Hfile ltac:(lia)) as [n Hn].
      assert (exists c v, log_colors !! Z.to_nat severity = Some c /\ log_severities !! Z.to_nat severity = Some v)
        as (color & name & Hc & Hv)
        by (apply severity_cases in Hsev as [->|[->|[->|[->| ->]]]]; by do 2 eexists).
      rewrite (list_lookup_total_correct _ _ _ Hc), (list_lookup_total_correct _ _ _ Hv) in Hn.
      unfold table_entry. rewrite Hc, Hv.
      rewrite (bind_done _ _ s1 color s1), (bind_done _ _ s1 name s1) by done.
      set (d1 := emit (log_header severity (c_string buf) file) (lg_dev s)) in *.
      rewrite (bind_done _ _ s1 tt (mk_log d1 (lg_clock s) buf)).
      2:{ case_match; rewrite (bind_done _ _ _ _ _ (log_io_done _ s1 _ _ Hn)); done. }
      erewrite bind_done; [|apply log_io_done, (vprintf_spec 0 _ _ _ _ d1 Hf Ht)].
      erewrite bind_done; [|apply log_io_done, putchar_eq].
      unfold d1. cbn [lg_dev lg_clock lg_format]. rewrite <- !emit_app. done.
    + unfold log_header. rewrite !length_app. cbn [length]. rewrite !length_app.
      apply severity_cases in Hsev as [->|[->|[->|[->| ->]]]]; simpl; lia.
  - intros Hsev. unfold table_entry. rewrite (lookup_ge_None_2 log_colors) by (cbn [log_colors length]; lia). done.
Qed.

(** What [log_line] prints. *)
Definition log_text (now severity : Z) (file message : list Z) : list Z :=
  log_header severity (c_string (clock_formatted_msms now time_format)) file ++ message ++ [10].

Lemma log_line_run now severity file message buf (d : D) :
  printable_log severity file message -> Forall is_u8 buf -> (length buf <= 100)%nat ->
  let buf' := clock_formatted_msms now buf in
  general_log severity file message [] (mk_log d now buf) =
    Done (tt, mk_log (emit (log_header severity (c_string buf') file ++ message ++ [10]) d) now buf').
Proof.
  intros (Hsev & Hfile & Hmsg & Hl1 & Hl2) Hb Hlb.
  destruct (general_log_line severity file message [] message [] (mk_log d now buf)) as [Hlog _];
    [done|done| |cbn; lia|lia|by apply Hlog].
  rewrite <- (app_nil_r message). apply formats_literal; [done|constructor].
Qed.

Lemma log_line_eq now severity file message (d : D) :
  printable_log severity file message ->
  log_line now severity file message d = emit (log_text now severity file message) d.
Proof.
  intros. unfold log_line. rewrite log_line_run; [done|done| |by vm_compute; lia].
  apply (bool_decide_unpack _). vm_compute. exact I.
Qed.

(** Whatever an earlier call left in the time buffer, the line is the same. *)
Lemma log_line_buffer now severity file message buf (d : D) :
  0 <= now -> printable_log severity file message -> time_buffer_ok buf -> Forall is_u8 buf ->
  exists buf', general_log severity file message [] (mk_log d now buf) =
    Done (tt, mk_log (log_line now severity file message d) now buf') /\ time_buffer_ok buf'.
Proof.
  intros Hnow Hlog Hbuf Hb.
  rewrite log_line_run by (done || (destruct Hbuf; lia)). rewrite log_line_eq by done.
  unfold log_text, clock_formatted_msms, clock_millis.
  rewrite !clock_time_to_str_digits by (done || apply time_format_ok). eexists. split; [done|]. by repeat split.
Qed.

End Correct.

(** ** Witness *)

Lemma general_log_line_witness :
  exists s, general_log 2 (cstr "pci.c") (cstr "no device") [] (mk_log quiet_uart 61500 time_format) = Done (tt, s) /\
    uart_sent (lg_dev s) = ESC :: cstr "[33m[WARN]  [01:61:500]" ++ ESC :: cstr "[0m [pci.c]: no device" ++ [13; 10].
Proof.
  destruct (general_log_line 2 (cstr "pci.c") (cstr "no device") [] (cstr "no device") []
    (mk_log quiet_uart 61500 time_format)) as [H _];
    [literal|literal| |vm_compute; done|vm_compute; done|].
  { rewrite <- (app_nil_r (cstr "no device")). apply formats_literal; [literal|constructor]. }
  destruct (H ltac:(lia)) as [Hr _]. eexists. split; [exact Hr|]. vm_compute. reflexivity.
Defined.
