(* ===== verification/PciMmio.v ===== *)
(** * PCI memory-space accesses: kernel/pci/pci_mmio.c

    The board's PCI window is only accessed in aligned 32-bit words, so the
    writers of other widths and alignments read, merge and write back one to
    three words.  On RAM behind the bus they are proved to write exactly the
    bytes of the value. *)

From S2P Require Import Prelude Memory Bus.

(** ** Definitions *)

Section PciMmio.
Context {D : Type} `{Bus D}.

Definition pci_read32 (address : Z) (d : D) : Z * D := read32 address d.
Definition pci_read64 (address : Z) (d : D) : Z * D := read64 address d.
Definition pci_read8 (address : Z) (d : D) : Z * D :=
  let '(v, d) := pci_read32 address d in (u8 v, d).
Definition pci_read16 (address : Z) (d : D) : Z * D :=
  let '(v, d) := pci_read32 address d in (u16 v, d).

Definition write_word (address value : Z) (d : D) : D := write32 address value d.

(** Shifts of [uint32_t] values. *)
Definition shl32 (x k : Z) : Z := u32 (Z.shiftl x k).
Definition shr32 (x k : Z) : Z := Z.shiftr x k.

Definition pci_write8 (address value : Z) (d : D) : D :=
  let offset := address `mod` 4 in
  let '(word_read, d) := pci_read32 (u32 (address - offset)) d in
  let word_write := shl32 (u8 value) (offset * 8) in
  let mask := u32 (Z.lnot (shl32 0xFF (offset * 8))) in
  let word := Z.lor (Z.land word_read mask) word_write in
  write_word (u32 (address - offset)) word d.

Definition pci_write16 (address value : Z) (d : D) : D :=
  let value := u16 value in
  let offset := address `mod` 4 in
  if negb (offset =? 3) then
    let '(word_read, d) := pci_read32 (u32 (address - offset)) d in
    let word_write := shl32 value (offset * 8) in
    let mask := u32 (Z.lnot (shl32 0xFFFF (offset * 8))) in
    let word := Z.lor (Z.land word_read mask) word_write in
    write_word (u32 (address - offset)) word d
  else
    let '(lower_word_read, d) := pci_read32 (u32 (address - 3)) d in
    let lower_word_write := shl32 value 24 in
    let lower_word := Z.lor (shr32 (shl32 lower_word_read 8) 8) lower_word_write in
    let d := write_word (u32 (address - 3)) lower_word d in
    let '(upper_word_read, d) := pci_read32 (u32 (address + 1)) d in
    let upper_word_write := shr32 value 8 in
    let upper_word := Z.lor (shl32 (shr32 upper_word_read 8) 8) upper_word_write in
    write_word (u32 (address + 1)) upper_word d.

Definition pci_write32 (address value : Z) (d : D) : D :=
  let value := u32 value in
  let lower_offset := address `mod` 4 in
  if negb (lower_offset =? 0) then
    let upper_offset := 4 - lower_offset in
    let '(lower_word_read, d) := pci_read32 (u32 (address - lower_offset)) d in
    let lower_word_write := shl32 value (lower_offset * 8) in
    let lower_word :=
      Z.lor (shr32 (shl32 lower_word_read (upper_offset * 8)) (upper_offset * 8))
        lower_word_write in
    let d := write_word (u32 (address - lower_offset)) lower_word d in
    let '(upper_word_read, d) := pci_read32 (u32 (address + upper_offset)) d in
    let upper_word_write := shr32 value (upper_offset * 8) in
    let upper_word :=
      Z.lor (shl32 (shr32 upper_word_read (lower_offset * 8)) (lower_offset * 8))
        upper_word_write in
    write_word (u32 (address + upper_offset)) upper_word d
  else write_word address value d.

Definition pci_write64 (address value : Z) (d : D) : D :=
  let value := u64 value in
  let lower_offset := address `mod` 4 in
  if negb (lower_offset =? 0) then
    let upper_offset := 4 - lower_offset in
    let '(lower_word_read, d) := pci_read32 (u32 (address - lower_offset)) d in
    let lower_word_write := u32 (u64 (Z.shiftl value (lower_offset * 8))) in
    let lower_word :=
      Z.lor (shr32 (shl32 lower_word_read (upper_offset * 8)) (upper_offset * 8))
        lower_word_write in
    let d := write_word (u32 (address - lower_offset)) lower_word d in
    let middle_word_write := u32 (Z.shiftr value (upper_offset * 8)) in
    let d := write_word (u32 (address + upper_offset)) middle_word_write d in
    let '(upper_word_read, d) := pci_read32 (u32 (address + 4 + upper_offset)) d in
    let upper_word_write := u32 (Z.shiftr value ((upper_offset + 4) * 8)) in
    let upper_word :=
      Z.lor (shl32 (shr32 upper_word_read (lower_offset * 8)) (lower_offset * 8))
        upper_word_write in
    write_word (u32 (address + 4 + upper_offset)) upper_word d
  else
    let d := write_word address (u32 value) d in
    write_word (u32 (address + 4)) (u32 (Z.shiftr value 32)) d.

End PciMmio.

(** ** The bytes of a word *)

(** Byte [i] of an integer, counted from the least significant one. *)
Definition byte (i x : Z) : Z := Z.land (Z.shiftr x (8 * i)) 255.

Lemma byte_testbit i x n :
  0 <= i -> 0 <= n -> Z.testbit (byte i x) n = Z.testbit x (8 * i + n) && (n <? 8).
Proof.
  intros Hi Hn. unfold byte. rewrite Z.land_spec, Z.shiftr_spec by lia.
  change 255 with (Z.ones 8). rewrite Z.testbit_ones_nonneg by lia. do 2 f_equal. lia.
Qed.

Ltac byte_bits :=
  apply Z.bits_inj'; intros n Hn;
  repeat first [rewrite Z.lor_spec | rewrite Z.land_spec | rewrite byte_testbit by lia].

Lemma byte_lor i x y : 0 <= i -> byte i (Z.lor x y) = Z.lor (byte i x) (byte i y).
Proof. intros. byte_bits. by rewrite andb_orb_distrib_l. Qed.

Lemma byte_land i x y : 0 <= i -> byte i (Z.land x y) = Z.land (byte i x) (byte i y).
Proof.
  intros. byte_bits.
  by destruct (Z.testbit x _), (Z.testbit y _), (n <? 8).
Qed.

Lemma byte_shiftl i s x :
  0 <= i -> 0 <= s -> s `mod` 8 = 0 ->
  byte i (Z.shiftl x s) = if i <? s / 8 then 0 else byte (i - s / 8) x.
Proof.
  intros. assert (exists k, s = 8 * k) as [k ->] by (exists (s / 8); word_lia).
  rewrite (Z.mul_comm 8 k), Z.div_mul by lia. byte_bits.
  rewrite Z.shiftl_spec by lia. destruct (Z.ltb_spec i k).
  - destruct (Z.ltb_spec n 8); [|by rewrite andb_false_r, Z.bits_0].
    rewrite Z.testbit_neg_r, Z.bits_0 by lia. done.
  - rewrite byte_testbit by lia. do 2 f_equal. lia.
Qed.

Lemma byte_shiftr i s x :
  0 <= i -> 0 <= s -> s `mod` 8 = 0 -> byte i (Z.shiftr x s) = byte (i + s / 8) x.
Proof.
  intros. assert (exists k, s = 8 * k) as [k ->] by (exists (s / 8); word_lia).
  rewrite (Z.mul_comm 8 k), Z.div_mul by lia. byte_bits.
  rewrite Z.shiftr_spec by lia. do 2 f_equal. lia.
Qed.

Lemma byte_u32 i x : 0 <= i -> byte i (u32 x) = if i <? 4 then byte i x else 0.
Proof.
  intros. unfold u32. change 4294967296 with (2 ^ 32). byte_bits.
  destruct (Z.ltb_spec n 8); [|rewrite andb_false_r; case_match;
    by rewrite ?Z.bits_0, ?byte_testbit, ?(proj2 (Z.ltb_ge _ _)), ?andb_false_r by lia].
  destruct (Z.ltb_spec i 4).
  - rewrite Z.mod_pow2_bits_low, byte_testbit by lia.
    by rewrite (proj2 (Z.ltb_lt _ _)) by lia.
  - by rewrite Z.mod_pow2_bits_high, Z.bits_0 by lia.
Qed.

Lemma byte_u64 i x : 0 <= i -> byte i (u64 x) = if i <? 8 then byte i x else 0.
Proof.
  intros. unfold u64. change 18446744073709551616 with (2 ^ 64). byte_bits.
  destruct (Z.ltb_spec n 8); [|rewrite andb_false_r; case_match;
    by rewrite ?Z.bits_0, ?byte_testbit, ?(proj2 (Z.ltb_ge _ _)), ?andb_false_r by lia].
  destruct (Z.ltb_spec i 8).
  - rewrite Z.mod_pow2_bits_low, byte_testbit by lia.
    by rewrite (proj2 (Z.ltb_lt _ _)) by lia.
  - by rewrite Z.mod_pow2_bits_high, Z.bits_0 by lia.
Qed.

Lemma byte_eq i x : 0 <= i -> byte i x = (x / 256 ^ i) `mod` 256.
Proof.
  intros. unfold byte. change 255 with (Z.ones 8).
  rewrite Z.land_ones, Z.shiftr_div_pow2, Z.pow_mul_r by lia. done.
Qed.

Lemma lookup_le_bytes n x i :
  (i < n)%nat -> le_bytes n x !!! i = byte (Z.of_nat i) x.
Proof.
  rewrite byte_eq by lia. revert x i. induction n as [|n IH]; intros x [|i] Hi; [lia|lia| |].
  - change (u8 x = (x / 1) `mod` 256). by rewrite Z.div_1_r.
  - change (le_bytes n (x / 256) !!! i = (x / 256 ^ Z.of_nat (S i)) `mod` 256).
    rewrite IH, Nat2Z.inj_succ, Z.pow_succ_r, Z.div_div by lia. done.
Qed.

Lemma byte_range i x : 0 <= i -> is_u8 (byte i x).
Proof. intros. rewrite byte_eq by lia. unfold is_u8. pose proof (Z.mod_pos_bound (x / 256 ^ i) 256). lia. Qed.

(** ** Words in memory *)

Definition within (c n j : Z) : bool := (c <=? j) && (j <? c + n).

Lemma get8_le_bytes m A c n v j :
  get8 (write_bytes m (A + c) (le_bytes n v)) (A + j) =
  if within c (Z.of_nat n) j then byte (j - c) v else get8 m (A + j).
Proof.
  rewrite get8_write_bytes, length_le_bytes. unfold within.
  destruct (Z.leb_spec c j); destruct (Z.ltb_spec j (c + Z.of_nat n)); simpl;
    case_decide; try lia; try done.
  rewrite lookup_le_bytes by lia.
  replace (Z.of_nat (Z.to_nat (A + j - (A + c)))) with (j - c) by lia.
  apply u8_id, byte_range. lia.
Qed.

Lemma byte_load32 m a i : 0 <= i < 4 -> byte i (load LittleEndian 4 m a) = get8 m (a + i).
Proof.
  intros Hi. pose proof (lookup_le_bytes 4 (load LittleEndian 4 m a) (Z.to_nat i)) as H.
  rewrite Z2Nat.id in H by lia. rewrite <- H by lia. unfold load, dec.
  pose proof (le_bytes_le_val (read_bytes m a 4) (read_bytes_u8 m a 4)) as E.
  rewrite length_read_bytes in E. rewrite E.
  apply list_lookup_total_correct. rewrite lookup_read_bytes by lia. do 2 f_equal. lia.
Qed.

Lemma write_word_mem a v (m : mem) :
  is_u32 a -> is_u32 v -> write_word a v m = write_bytes m a (le_bytes 4 v).
Proof. intros Ha Hv. unfold write_word. rewrite write32_mem by done. by rewrite u32_id. Qed.

Lemma pci_read32_mem a (m : mem) : is_u32 a -> pci_read32 a m = (load LittleEndian 4 m a, m).
Proof. intros. unfold pci_read32. by rewrite read32_mem. Qed.

Lemma lor_u32 x y : is_u32 x -> is_u32 y -> is_u32 (Z.lor x y).
Proof.
  intros Hx Hy. unfold is_u32 in *. split; [apply Z.lor_nonneg; lia|].
  destruct (decide (Z.lor x y = 0)) as [->|Hne]; [lia|].
  assert (0 <= Z.lor x y) by (apply Z.lor_nonneg; lia).
  apply (Z.log2_lt_pow2 _ 32); [lia|]. rewrite Z.log2_lor by lia.
  assert (forall z, 0 <= z < 4294967296 -> Z.log2 z < 32) as Hlog.
  { intros z Hz. destruct (decide (z = 0)) as [->|]; [done|]. apply Z.log2_lt_pow2; lia. }
  pose proof (Hlog x Hx). pose proof (Hlog y Hy). lia.
Qed.

Lemma land_u32 x y : is_u32 x -> 0 <= y -> is_u32 (Z.land x y).
Proof.
  intros Hx Hy. unfold is_u32 in *. split; [apply Z.land_nonneg; lia|].
  destruct (decide (Z.land x y = 0)) as [->|Hne]; [lia|].
  assert (0 <= Z.land x y) by (apply Z.land_nonneg; lia).
  apply (Z.log2_lt_pow2 _ 32); [lia|].
  pose proof (Z.log2_land x y ltac:(lia) ltac:(lia)).
  assert (x <> 0) by (intros ->; rewrite Z.land_0_l in Hne; done).
  assert (Z.log2 x < 32) by (apply Z.log2_lt_pow2; lia). lia.
Qed.

Lemma shiftr_u32 x k : is_u32 x -> 0 <= k -> is_u32 (Z.shiftr x k).
Proof.
  intros Hx Hk. unfold is_u32 in *. rewrite Z.shiftr_div_pow2 by lia.
  assert (0 < 2 ^ k) by (apply Z.pow_pos_nonneg; lia).
  split; [apply Z.div_pos; lia|]. apply Z.div_lt_upper_bound; nia.
Qed.

Lemma load32_is_u32 e m a : is_u32 (load e 4 m a).
Proof. pose proof (load_range e 4 m a). unfold is_u32. lia. Qed.

Lemma u16_is_u32 x : is_u32 (u16 x).
Proof. word_lia. Qed.

Lemma u8_is_u32 x : is_u32 (u8 x).
Proof. word_lia. Qed.

Ltac u32_solve :=
  unfold shl32, shr32;
  repeat first
    [ apply lor_u32 | apply land_u32 | apply shiftr_u32 | apply load32_is_u32
    | apply u32_range | apply u16_is_u32 | apply u8_is_u32 | lia ].

(** Evaluate the byte of a merged word at a concrete position. *)
Ltac byte_eval :=
  unfold shl32, shr32;
  repeat first
    [ rewrite byte_lor by lia | rewrite byte_land by lia
    | rewrite byte_u32 by lia | rewrite byte_u64 by lia
    | rewrite byte_shiftl by (reflexivity || lia) | rewrite byte_shiftr by (reflexivity || lia)
    | rewrite byte_load32 by lia ].

Lemma byte_u8 i x : 0 <= i -> byte i (u8 x) = if i <? 1 then byte i x else 0.
Proof.
  intros. rewrite !byte_eq by lia. unfold u8. destruct (Z.ltb_spec i 1).
  - replace i with 0 by lia. rewrite Z.pow_0_r. word_lia.
  - rewrite Z.div_small; [done|]. pose proof (Z.pow_le_mono_r 256 1 i). word_lia.
Qed.

Lemma byte_u16 i x : 0 <= i -> byte i (u16 x) = if i <? 2 then byte i x else 0.
Proof.
  intros. rewrite !byte_eq by lia. unfold u16. destruct (Z.ltb_spec i 2).
  - assert (i = 0 \/ i = 1) as [-> | ->] by lia; rewrite ?Z.pow_0_r, ?Z.pow_1_r; word_lia.
  - rewrite Z.div_small; [done|]. pose proof (Z.pow_le_mono_r 256 2 i). word_lia.
Qed.

Lemma byte_id x : is_u8 x -> Z.land x 255 = x.
Proof. intros. change 255 with (Z.ones 8). rewrite Z.land_ones by lia. by apply u8_id. Qed.

(** The aligned word around an address. *)
Lemma word_split a : 0 <= a < 0xFFFFFFF0 ->
  exists A k, a = A + k /\ A `mod` 4 = 0 /\ 0 <= A < 0xFFFFFFF0 /\
    (k = 0 \/ k = 1 \/ k = 2 \/ k = 3) /\ a `mod` 4 = k.
Proof.
  intros. exists (a - a `mod` 4), (a `mod` 4). word_lia.
Qed.

(** Put the addresses of the accesses into the form [A + c]. *)
Ltac norm_addresses A :=
  repeat match goal with
  | |- context [u32 ?e] =>
      match e with
      | context [A] =>
          let f := eval pattern A in e in
          match f with
          | ?g _ =>
              let c := eval vm_compute in (g 0) in
              replace (u32 e) with (A + c) by (rewrite u32_id; unfold is_u32; lia)
          end
      end
  end.

(** Run the accesses on RAM. *)
Ltac run_words :=
  repeat first
    [ rewrite pci_read32_mem by (unfold is_u32; lia)
    | rewrite write_word_mem by first [unfold is_u32; lia | u32_solve] ].

Lemma small_cases (P : Z -> Prop) :
  P 0 -> P 1 -> P 2 -> P 3 -> P 4 -> P 5 -> P 6 -> P 7 -> P 8 -> P 9 -> P 10 -> P 11 ->
  (forall j, j < 0 \/ 12 <= j -> P j) -> forall j, P j.
Proof.
  intros ???????????? Hout j. destruct (decide (j < 0 \/ 12 <= j)) as [|Hn]; [by apply Hout|].
  assert (j = 0 \/ j = 1 \/ j = 2 \/ j = 3 \/ j = 4 \/ j = 5 \/ j = 6 \/ j = 7 \/ j = 8 \/
    j = 9 \/ j = 10 \/ j = 11) as Hj by lia.
  by repeat (destruct Hj as [-> | Hj]; [done|]); subst.
Qed.

Lemma within_outside c n j : 0 <= c -> c + n <= 12 -> j < 0 \/ 12 <= j -> within c n j = false.
Proof.
  intros ? ? Hj. unfold within.
  destruct (Z.leb_spec c j), (Z.ltb_spec j (c + n)); simpl; try done; lia.
Qed.

(** Evaluate the closed arithmetic left in a byte position. *)
Ltac is_literal c :=
  lazymatch c with Z0 => idtac | Zpos _ => idtac | Zneg _ => idtac end.

Ltac eval_closed e :=
  let c := eval vm_compute in e in is_literal c; change e with c.

Ltac eval_positions :=
  repeat match goal with
  | |- context [?x - ?y] => is_literal x; is_literal y; eval_closed (x - y)
  | |- context [?x + ?y] => is_literal x; is_literal y; eval_closed (x + y)
  | |- context [?x * ?y] => is_literal x; is_literal y; eval_closed (x * y)
  | |- context [?x / ?y] => is_literal x; is_literal y; eval_closed (x / y)
  | |- context [?x <? ?y] =>
      is_literal x; is_literal y;
      let b := eval vm_compute in (x <? y) in change (x <? y) with b; cbv iota
  | |- context [byte ?i (Z.lnot ?w)] => is_literal i; eval_closed (byte i (Z.lnot w))
  end.

Ltac eval_within :=
  repeat match goal with
  | |- context [within ?c ?n ?j] =>
      is_literal c; is_literal j;
      let b := eval vm_compute in (within c n j) in
      change (within c n j) with b; cbv iota
  end.

(** Byte by byte, both sides read the same. *)
Ltac compare_bytes A :=
  let x := fresh "x" in let j := fresh "j" in
  intros x; replace x with (A + (x - A)) by lia;
  generalize (x - A); intros j; rewrite !get8_le_bytes; revert j;
  apply small_cases;
  [ .. | intros j Hj; rewrite !within_outside by lia; reflexivity ];
  eval_within.

Ltac bytes_close :=
  eval_positions;
  repeat (progress byte_eval; eval_positions);
  repeat (first [rewrite byte_u8 by lia | rewrite byte_u16 by lia]; eval_positions);
  rewrite ?Z.lor_0_r, ?Z.lor_0_l, ?Z.land_0_r, ?Z.land_0_l;
  rewrite <- ?Z.add_assoc; eval_positions;
  rewrite ?get8_le_bytes; eval_within;
  rewrite ?Z.add_0_r;
  rewrite ?byte_id by apply get8_range;
  rewrite ?Z.lor_0_r, ?Z.lor_0_l; try reflexivity.

(** Split on the position of the address in its word and run the writer. *)
Ltac pci_writer a f :=
  let Ha := fresh in let A := fresh "A" in let k := fresh "k" in
  let HA := fresh in let HA' := fresh in let Hk := fresh in let Hm := fresh in
  intros Ha; destruct (word_split a Ha) as (A & k & -> & HA & HA' & Hk & Hm);
  unfold f; rewrite Hm; clear Hm Ha;
  destruct Hk as [-> | [-> | [-> | ->]]]; eval_positions; 
  repeat match goal with |- context [?x =? ?y] => is_literal x; is_literal y;
    let b := eval vm_compute in (x =? y) in change (x =? y) with b end;
  cbv beta iota zeta delta [negb]; eval_positions;
  norm_addresses A; run_words; compare_bytes A; bytes_close.

Lemma pci_write8_mem a v (m : mem) :
  0 <= a < 0xFFFFFFF0 -> pci_write8 a v m ≡ write_bytes m a (le_bytes 1 v).
Proof. pci_writer a @pci_write8. Qed.

Lemma pci_write16_mem a v (m : mem) :
  0 <= a < 0xFFFFFFF0 -> pci_write16 a v m ≡ write_bytes m a (le_bytes 2 v).
Proof. pci_writer a @pci_write16.  Qed.

Lemma pci_write32_mem a v (m : mem) :
  0 <= a < 0xFFFFFFF0 -> pci_write32 a v m ≡ write_bytes m a (le_bytes 4 v).
Proof. pci_writer a @pci_write32. Qed.

Lemma pci_write64_mem a v (m : mem) :
  0 <= a < 0xFFFFFFF0 -> pci_write64 a v m ≡ write_bytes m a (le_bytes 8 v).
Proof. pci_writer a @pci_write64. Qed.

(** ** Aligned accesses *)

Definition aligned_word (ev : bus_event) : Prop :=
  ev_width ev = 4%nat /\ ev_address ev `mod` 4 = 0.

Section Aligned.
Context {D : Type} `{Bus D}.

Definition log_aligned (d : traced D) : Prop := Forall aligned_word (tr_log d).

Lemma aligned_read a (d : traced D) :
  a `mod` 4 = 0 -> log_aligned d -> log_aligned (pci_read32 a d).2.
Proof.
  intros Ha Hd. unfold pci_read32, read32. simpl.
  destruct (bus_read 4 (u32 a) (tr_dev d)) as [v d'] eqn:E. simpl.
  apply Forall_app. split; [done|]. repeat constructor. simpl. word_lia.
Qed.

Lemma aligned_write a v (d : traced D) :
  a `mod` 4 = 0 -> log_aligned d -> log_aligned (write_word a v d).
Proof.
  intros Ha Hd. unfold write_word, write32, log_aligned. simpl.
  apply Forall_app. split; [done|]. repeat constructor. simpl. word_lia.
Qed.

Lemma aligned_bind a (f : Z -> traced D -> traced D) (d : traced D) :
  a `mod` 4 = 0 -> log_aligned d ->
  (forall w d', log_aligned d' -> log_aligned (f w d')) ->
  log_aligned (let '(w, d') := pci_read32 a d in f w d').
Proof.
  intros Ha Hd Hf. pose proof (aligned_read a d Ha Hd) as Hr.
  destruct (pci_read32 a d). by apply Hf.
Qed.

End Aligned.

Ltac aligned_solve :=
  repeat first
    [ apply aligned_bind; [| |intros] | apply aligned_write | assumption | case_match ];
  try match goal with
  | |- _ `mod` 4 = 0 =>
      repeat match goal with H : negb _ = _ |- _ => clear H end; word_lia
  end.

(** ** Properties *)

(** C34: At any alignment, [pci_write8/16/32/64] write the 1, 2, 4 or 8 bytes of
    the value, least significant first, and change no other byte, although
    they can only write whole aligned words. *)
Theorem pci_writes_bytes a v (m : mem) :
  0 <= a < 0xFFFFFFF0 ->
  pci_write8 a v m ≡ write_bytes m a (le_bytes 1 v) /\
  pci_write16 a v m ≡ write_bytes m a (le_bytes 2 v) /\
  pci_write32 a v m ≡ write_bytes m a (le_bytes 4 v) /\
  pci_write64 a v m ≡ write_bytes m a (le_bytes 8 v).
Proof.
  intros Ha. split_and!;
    auto using pci_write8_mem, pci_write16_mem, pci_write32_mem, pci_write64_mem.
Qed.

(** On any bus, every access the four PCI writers make is a 32-bit access
    at a multiple of four, the only kind the PCI window supports. *)
Theorem pci_writes_aligned {D} `{Bus D} a v (d : traced D) :
  0 <= a < 0xFFFFFFF0 -> log_aligned d ->
  log_aligned (pci_write8 a v d) /\ log_aligned (pci_write16 a v d) /\
  log_aligned (pci_write32 a v d) /\ log_aligned (pci_write64 a v d).
Proof.
  intros Ha Hd. destruct (word_split a Ha) as (A & k & -> & HA & HA' & Hk & Hm).
  unfold pci_write8, pci_write16, pci_write32, pci_write64. rewrite Hm.
  destruct Hk as [-> | [-> | [-> | ->]]]; split_and!; cbn [negb Z.eqb Pos.eqb]; aligned_solve.
Qed.

(** ** Witnesses *)

Lemma pci_writes_bytes_witness :
  pci_write32 0x50000006 0x11223344 (∅ : mem) ≡ write_bytes ∅ 0x50000006 [0x44; 0x33; 0x22; 0x11].
Proof.
  destruct (pci_writes_bytes 0x50000006 0x11223344 ∅) as (_ & _ & H & _); [lia|]. exact H.
Defined.

Lemma pci_writes_aligned_witness :
  log_aligned (pci_write64 0x50000003 0x1122334455667788 (mk_traced (∅ : mem) [])).
Proof.
  destruct (pci_writes_aligned 0x50000003 0x1122334455667788 (mk_traced (∅ : mem) []))
    as (_ & _ & _ & H); [lia|constructor|]. exact H.
Defined.
