(* ===== verification/Pci.v ===== *)
(** * PCI configuration: kernel/pci/pci.c

    Discovery of the PCI core and of the devices in the 21 slots, the device
    table, base address registers and bus mastering.  Configuration space is
    on the [Bus]; the theorems about it assume what the PCI specification says
    of the registers they involve. *)

From stdpp Require Import strings.
From S2P Require Import Prelude Memory Bus Clock Stdio Logger.

(** ** Definitions *)

Definition PCI_SELF_CONFIG : Z := 0x41000000.
Definition PCI_CONFIG : Z := 0x42000000.
Definition PCI_DEVICE_BIT_OFFSET : Z := 11.
Definition PCI_VENDOR_ID : Z := 0x00.
Definition PCI_DEVICE_ID : Z := 0x02.
Definition PCI_COMMAND : Z := 0x04.
Definition PCI_COMMAND_IO : Z := 0x1.
Definition PCI_COMMAND_MEMORY : Z := 0x2.
Definition PCI_COMMAND_MASTER : Z := 0x4.
Definition PCI_COMMAND_INVALIDATE : Z := 0x10.
Definition PCI_CLASS_REVISION : Z := 0x08.
Definition PCI_BASE_ADDRESS_0 : Z := 0x10.
Definition PCI_BAR (x : Z) : Z := PCI_BASE_ADDRESS_0 + x * 4.
Definition PCI_IMAP0 : Z := 0x10001000.
Definition PCI_IMAP1 : Z := 0x10001004.
Definition PCI_IMAP2 : Z := 0x10001008.
Definition PCI_SELFID : Z := 0x1000100C.
Definition MAX_PCI_DEVICES : Z := 21.
Definition VP_PCI_DEV_ID : Z := 0x030010ee.
Definition VP_PCI_CLASS_ID : Z := 0x0b400000.
Definition PCI_INVALID_VENDOR : Z := 0xFFFF.

Record pci_device := mk_pci_device {
  config_base : Z;
  mem_base : Z;
  io_base : Z;
  pci_slot_id : Z;
  vendor_id : Z;
  device_id : Z;
}.

#[export] Instance pci_device_eq_dec : EqDecision pci_device.
Proof. solve_decision. Defined.

Definition pci_device_zero : pci_device := mk_pci_device 0 0 0 0 0 0.

#[export] Instance pci_device_inhabited : Inhabited pci_device := populate pci_device_zero.

(** [pci_devices[MAX_PCI_DEVICES]], zero-initialised. *)
Definition pci_devices_boot : list pci_device := replicate 21 pci_device_zero.

(** The slots the two probing loops visit: [for (i = 11; i < 32; ++i)]. *)
Definition pci_slots : list Z := (fun i => i + 11) <$> zseq 21.

(** [slot << PCI_DEVICE_BIT_OFFSET]. *)
Definition slot_offset (i : Z) : Z := Z.shiftl i PCI_DEVICE_BIT_OFFSET.

Section Pci.
Context {D : Type} `{Bus D}.

Definition pci_enable_bus_mastering (address : Z) (d : D) : D :=
  let '(val, d) := read16 (u32 (address + PCI_COMMAND)) d in
  let val := Z.lor val (Z.lor (Z.lor PCI_COMMAND_MASTER PCI_COMMAND_IO) PCI_COMMAND_MEMORY) in
  write16 (u32 (address + PCI_COMMAND)) val d.

Definition get_bar_type (base number : Z) (d : D) : Z * D :=
  let '(v, d) := read32 (u32 (base + PCI_BAR number)) d in (Z.land v 1, d).

Definition get_bar_size (base number : Z) (d : D) : Z * D :=
  let bar_addr := u32 (base + PCI_BAR number) in
  let '(before, d) := read32 bar_addr d in
  let d := write32 bar_addr 0xFFFFFFFF d in
  let '(encoded_size, d) := read32 bar_addr d in
  let d := write32 bar_addr before d in
  let bit_mask := if negb (Z.land before 1 =? 0) then 0xFFFFFFFC else 0xFFFFFFF0 in
  let decoded_size := u32 (u32 (Z.lnot (Z.land encoded_size bit_mask)) + 1) in
  (decoded_size, d).

Definition pci_alloc_memory (device : pci_device) (bar : Z) (d : D) : Z * D :=
  let '(type, d) := get_bar_type (config_base device) bar d in
  let address := if negb (type =? 0) then 0x43000000 else 0x50000000 in
  (address, write32 (u32 (config_base device + PCI_BAR bar)) address d).

(** One iteration of [enumerate_pci_devices]; a device found keeps its
    [mem_base] and [io_base]. *)
Definition probe_slot (st : list pci_device * D) (i : Z) : list pci_device * D :=
  let '(table, d) := st in
  let device_addr := u32 (PCI_CONFIG + slot_offset i) in
  let '(vendor, d) := read16 (u32 (device_addr + PCI_VENDOR_ID)) d in
  let '(device, d) := read16 (u32 (device_addr + PCI_DEVICE_ID)) d in
  if vendor =? PCI_INVALID_VENDOR then (table, d)
  else
    let k := Z.to_nat (i - 11) in
    let old := table !!! k in
    (<[k := mk_pci_device device_addr (mem_base old) (io_base old) (u8 i) vendor device]> table, d).

Definition enumerate_pci_devices (table : list pci_device) (d : D) : list pci_device * D :=
  foldl probe_slot (table, d) pci_slots.

(** The probing loop of [configure_board]: the second register is only read
    when the first one matches. *)
Fixpoint find_core (slots : list Z) (d : D) : Z * D :=
  match slots with
  | [] => (0, d)
  | i :: rest =>
      let '(id, d) := read32 (u32 (PCI_SELF_CONFIG + slot_offset i + PCI_VENDOR_ID)) d in
      if id =? VP_PCI_DEV_ID then
        let '(cls, d) := read32 (u32 (PCI_SELF_CONFIG + slot_offset i + PCI_CLASS_REVISION)) d in
        if cls =? VP_PCI_CLASS_ID then (u8 i, d) else find_core rest d
      else find_core rest d
  end.

(** [now] is the clock, for the log. *)
Definition configure_board (now : Z) (d : D) : Z * D :=
  let d := write32 PCI_IMAP0 (Z.shiftr 0x44000000 28) d in
  let d := write32 PCI_IMAP1 (Z.shiftr 0x50000000 28) d in
  let d := write32 PCI_IMAP2 (Z.shiftr 0x60000000 28) d in
  let '(slot, d) := find_core pci_slots d in
  if slot =? 0
  then (-1, log_line now SEVERITY_ERROR (cstr "kernel/pci/pci.c") (cstr "Cannot find PCI core!") d)
  else
    let pci_config_base := u32 (PCI_CONFIG + slot_offset slot) in
    let d := write32 PCI_SELFID slot d in
    let '(val, d) := read32 (u32 (pci_config_base + PCI_COMMAND)) d in
    let val := Z.lor val
      (Z.lor (Z.lor PCI_COMMAND_MEMORY PCI_COMMAND_MASTER) PCI_COMMAND_INVALIDATE) in
    (0, write32 (u32 (pci_config_base + PCI_COMMAND)) val d).

Definition pci_init (now : Z) (table : list pci_device) (d : D) : list pci_device * D :=
  let '(_, d) := configure_board now d in
  enumerate_pci_devices table d.

End Pci.

(** The index of the first matching entry, [None] for NULL. *)
Definition pci_get_device (vendor device : Z) (table : list pci_device) : option nat :=
  fst <$> list_find (fun e => vendor_id e = vendor /\ device_id e = device) table.

(** ** Base address registers *)

(** What the PCI specification says of a base address register of [2 ^ k]
    bytes: the low [k] bits are hardwired to the type bits [lo], the others
    read back as written. *)
Definition bar_register {D} `{Bus D} (a k lo : Z) (value : D -> Z) : Prop :=
  (forall d, bus_read 4 a d = (value d, d)) /\
  (forall v d, value (bus_write 4 a v d) = Z.lor (Z.shiftl (Z.shiftr v k) k) lo) /\
  0 <= lo < 2 ^ k.

(** A bus with one such register. *)
Record bar_bus := mk_bar_bus { bar_value : Z }.

Definition bar_bus_of (k lo : Z) : Bus bar_bus := {|
  bus_read n a d := (bar_value d, d);
  bus_write n a v d := mk_bar_bus (Z.lor (Z.shiftl (Z.shiftr v k) k) lo);
|}.

(** A value a base address register can hold. *)
Definition bar_holds (k lo v : Z) : Prop :=
  is_u32 v /\ Z.lor (Z.shiftl (Z.shiftr v k) k) lo = v.

Lemma low_bits_testbit lo k n : 0 <= lo < 2 ^ k -> k <= n -> Z.testbit lo n = false.
Proof.
  intros Hlo Hn. destruct (decide (lo = 0)) as [->|]; [apply Z.bits_0|].
  assert (0 <= k) by (destruct (decide (0 <= k)); [done|rewrite Z.pow_neg_r in Hlo by lia; lia]).
  apply Z.bits_above_log2; [lia|]. assert (Z.log2 lo < k) by (apply Z.log2_lt_pow2; lia). lia.
Qed.

(** The size encoded in the register after writing all ones. *)
Lemma bar_size_decode k lo :
  4 <= k < 32 -> 0 <= lo < 16 ->
  let mask := if negb (Z.land lo 1 =? 0) then 0xFFFFFFFC else 0xFFFFFFF0 in
  Z.land lo mask = 0 ->
  u32 (u32 (Z.lnot (Z.land (Z.lor (Z.shiftl (Z.shiftr 0xFFFFFFFF k) k) lo) mask)) + 1) = 2 ^ k.
Proof.
  intros Hk Hlo mask Hmask. rewrite Z.land_lor_distr_l, Hmask, Z.lor_0_r.
  assert (k ∈ (fun i => i + 4) <$> zseq 28) as Hin.
  { apply list_elem_of_fmap. exists (k - 4). split; [lia|]. apply elem_of_zseq. lia. }
  assert (mask = 0xFFFFFFFC \/ mask = 0xFFFFFFF0) as Hm by (unfold mask; case_match; auto).
  assert (forall M, M = 0xFFFFFFFC \/ M = 0xFFFFFFF0 ->
    forallb (fun k => u32 (u32 (Z.lnot (Z.land (Z.shiftl (Z.shiftr 0xFFFFFFFF k) k) M)) + 1) =? 2 ^ k)
      ((fun i => i + 4) <$> zseq 28) = true) as Hall by (intros M [-> | ->]; vm_compute; done).
  specialize (Hall mask Hm). rewrite forallb_forall in Hall.
  apply Z.eqb_eq, Hall, list_elem_of_In, Hin.
Qed.

(** On a base address register that decodes [2 ^ k] bytes, [get_bar_size]
    returns [2 ^ k] and leaves the register holding what it held before. *)
Theorem get_bar_size_correct {D} `{Bus D} base number k lo (value : D -> Z) d :
  bar_register (u32 (base + PCI_BAR number)) k lo value ->
  4 <= k < 32 -> lo = 1 \/ lo = 0 \/ lo = 8 -> bar_holds k lo (value d) ->
  (get_bar_size base number d).1 = 2 ^ k /\
  value (get_bar_size base number d).2 = value d.
Proof.
  intros (Hr & Hw & Hlo) Hk Hlo' [Hv Hh].
  unfold get_bar_size, read32, write32. rewrite (u32_id (u32 _)) by apply u32_range.
  rewrite Hr. cbv beta iota zeta. rewrite Hr. cbn [fst snd].
  rewrite !(u32_id (value d)) by done. rewrite !Hw, Hh. split; [|done].
  assert (Z.land (value d) 1 = Z.land lo 1) as ->.
  { rewrite <- Hh, Z.land_lor_distr_l. replace (Z.land (Z.shiftl _ _) 1) with 0; [done|].
    symmetry. apply Z.bits_inj'. intros n Hn. rewrite Z.land_spec, Z.bits_0, Z.shiftl_spec by lia.
    destruct (decide (n = 0)) as [->|]; [rewrite Z.testbit_neg_r by lia; done|].
    change 1 with (Z.ones 1). rewrite Z.ones_spec_high by lia. apply andb_false_r. }
  change (u32 4294967295) with 4294967295.
  rewrite (u32_id (Z.lor (Z.shiftl (Z.shiftr 4294967295 k) k) lo)).
  - apply bar_size_decode; [done|destruct Hlo' as [-> | [-> | ->]]; lia|].
    by destruct Hlo' as [-> | [-> | ->]].
  - assert (k ∈ (fun i => i + 4) <$> zseq 28) as Hin.
    { apply list_elem_of_fmap. exists (k - 4). split; [lia|]. apply elem_of_zseq. lia. }
    assert (forall l, l = 1 \/ l = 0 \/ l = 8 -> forallb (fun k =>
      bool_decide (is_u32 (Z.lor (Z.shiftl (Z.shiftr 0xFFFFFFFF k) k) l)))
      ((fun i => i + 4) <$> zseq 28) = true) as Hall by (intros l [-> | [-> | ->]]; vm_compute; done).
    specialize (Hall lo Hlo'). rewrite forallb_forall in Hall.
    eapply bool_decide_eq_true, Hall, list_elem_of_In, Hin.
Qed.

(** ** Probing *)

Lemma list_find_pci_slots (P : Z -> Prop) `{!forall x, Decision (P x)} i x :
  list_find P pci_slots = Some (i, x) -> 11 <= x < 32 /\ P x.
Proof.
  intros (Hx & HP & _)%list_find_Some. split; [|done].
  apply list_elem_of_lookup_2, list_elem_of_fmap in Hx as (y & -> & Hy%elem_of_zseq). lia.
Qed.

Section Probe.
Context {D : Type} `{Bus D} (cfg : nat -> Z -> Z).

(** Reading the configuration registers involved has no side effect, and what
    they hold does not change while the kernel probes. *)
Hypothesis Hcfg : forall n a d, bus_read n a d = (cfg n a, d).

Definition slot_vendor (i : Z) : Z := u16 (cfg 2%nat (PCI_CONFIG + slot_offset i + PCI_VENDOR_ID)).
Definition slot_device (i : Z) : Z := u16 (cfg 2%nat (PCI_CONFIG + slot_offset i + PCI_DEVICE_ID)).

Definition is_core (i : Z) : Prop :=
  u32 (cfg 4%nat (PCI_SELF_CONFIG + slot_offset i + PCI_VENDOR_ID)) = VP_PCI_DEV_ID /\
  u32 (cfg 4%nat (PCI_SELF_CONFIG + slot_offset i + PCI_CLASS_REVISION)) = VP_PCI_CLASS_ID.

#[local] Instance is_core_dec i : Decision (is_core i) := _.

(** The table entry after probing slot [i]. *)
Definition slot_entry (i : Z) (old : pci_device) : pci_device :=
  if slot_vendor i =? PCI_INVALID_VENDOR then old
  else mk_pci_device (PCI_CONFIG + slot_offset i) (mem_base old) (io_base old) i
         (slot_vendor i) (slot_device i).

Lemma slot_offset_range i : 11 <= i < 32 -> 22528 <= slot_offset i < 65536.
Proof.
  intros. unfold slot_offset, PCI_DEVICE_BIT_OFFSET. rewrite Z.shiftl_mul_pow2 by lia. lia.
Qed.

Lemma probe_slot_eq table d i :
  11 <= i < 32 -> length table = 21%nat ->
  probe_slot (table, d) i = (alter (slot_entry i) (Z.to_nat (i - 11)) table, d).
Proof.
  intros Hi Hlen. pose proof (slot_offset_range i Hi).
  unfold probe_slot, read16, slot_entry, slot_vendor, slot_device.
  assert (u32 (PCI_CONFIG + slot_offset i) = PCI_CONFIG + slot_offset i) as ->
    by (apply u32_id; unfold is_u32, PCI_CONFIG; lia).
  rewrite !(u32_id (PCI_CONFIG + slot_offset i + PCI_VENDOR_ID)),
    !(u32_id (PCI_CONFIG + slot_offset i + PCI_DEVICE_ID))
    by (unfold is_u32, PCI_CONFIG, PCI_VENDOR_ID, PCI_DEVICE_ID; lia).
  rewrite Hcfg. cbv beta iota zeta. rewrite Hcfg. cbv beta iota zeta. destruct (u16 (cfg 2%nat (PCI_CONFIG + slot_offset i + PCI_VENDOR_ID)) =? PCI_INVALID_VENDOR) eqn:E.
  - f_equal. symmetry. apply list_eq. intros k.
    destruct (decide (k = Z.to_nat (i - 11))) as [->|].
    + rewrite list_lookup_alter_eq. by destruct (table !! _).
    + by rewrite list_lookup_alter_ne.
  - f_equal. apply list_eq. intros k. destruct (decide (k = Z.to_nat (i - 11))) as [->|].
    + rewrite list_lookup_alter_eq, list_lookup_insert_eq by lia.
      destruct (table !! Z.to_nat (i - 11)) as [old|] eqn:Eo;
        [|apply lookup_ge_None_1 in Eo; lia].
      rewrite (list_lookup_total_correct _ _ _ Eo). simpl. f_equal. f_equal. word_lia.
    + rewrite list_lookup_alter_ne, list_lookup_insert_ne by done; done.
Qed.

Lemma probe_slots_lookup l table d k :
  NoDup l -> (forall i, i ∈ l -> 11 <= i < 32) -> length table = 21%nat ->
  (foldl probe_slot (table, d) l).2 = d /\
  (foldl probe_slot (table, d) l).1 !! k =
    (if decide (Z.of_nat k + 11 ∈ l) then slot_entry (Z.of_nat k + 11) else id) <$> table !! k.
Proof.
  revert table. induction l as [|i l IH]; intros table Hnd Hl Hlen; cbn [foldl].
  - split; [done|]. rewrite decide_False by apply not_elem_of_nil. by rewrite option_fmap_id.
  - apply NoDup_cons in Hnd as [Hi Hnd]. rewrite probe_slot_eq by (done || apply Hl; by left).
    destruct (IH (alter (slot_entry i) (Z.to_nat (i - 11)) table)) as [-> ->];
      [done|intros; apply Hl; by right|by rewrite length_alter|]. split; [done|].
    pose proof (Hl i ltac:(left)) as Hir.
    destruct (decide (k = Z.to_nat (i - 11))) as [->|Hne].
    + rewrite list_lookup_alter_eq. replace (Z.of_nat (Z.to_nat (i - 11)) + 11) with i by lia.
      rewrite decide_False, decide_True by (done || by left). by destruct (table !! _).
    + rewrite list_lookup_alter_ne by done.
      destruct (decide (Z.of_nat k + 11 ∈ l)) as [Hin|Hnin].
      * rewrite decide_True by (by right). done.
      * rewrite decide_False; [done|]. intros [Heq|Hin]%elem_of_cons; [lia|done].
Qed.

Lemma elem_of_pci_slots i : i ∈ pci_slots <-> 11 <= i < 32.
Proof.
  unfold pci_slots. rewrite list_elem_of_fmap. setoid_rewrite elem_of_zseq. split.
  - intros (y & -> & ?). lia.
  - intros. exists (i - 11). lia.
Qed.

Lemma enumerate_lookup d k :
  (k < 21)%nat ->
  (enumerate_pci_devices pci_devices_boot d).1 !! k =
    Some (slot_entry (Z.of_nat k + 11) pci_device_zero).
Proof.
  intros Hk. unfold enumerate_pci_devices.
  destruct (probe_slots_lookup pci_slots pci_devices_boot d k) as [_ ->].
  - by apply (bool_decide_unpack _); vm_compute.
  - intros i. apply elem_of_pci_slots.
  - done.
  - rewrite decide_True by (apply elem_of_pci_slots; lia).
    unfold pci_devices_boot. by rewrite lookup_replicate_2 by lia.
Qed.

Lemma length_probe_slots l st : length (foldl probe_slot st l).1 = length st.1.
Proof.
  revert st. induction l as [|i l IH]; intros [t d]; simpl; [done|]. rewrite IH.
  unfold read16. destruct (bus_read 2 _ d) as [v d1]. destruct (bus_read 2 _ d1) as [w d2].
  case_match; simpl; by rewrite ?length_insert.
Qed.

(** After enumeration from the zeroed table, [pci_get_device] returns the
    first slot that answers with the given ids and its entry holds the slot's
    configuration address and number; it returns NULL exactly when no slot
    answers so. *)
Theorem pci_get_device_finds d v dv :
  v <> PCI_INVALID_VENDOR -> (v <> 0 \/ dv <> 0) ->
  let table := (enumerate_pci_devices pci_devices_boot d).1 in
  let answers k := slot_vendor (Z.of_nat k + 11) = v /\ slot_device (Z.of_nat k + 11) = dv in
  match pci_get_device v dv table with
  | Some k => (k < 21)%nat /\ answers k /\ (forall j, (j < k)%nat -> ~ answers j) /\
      table !! k = Some (mk_pci_device (0x42000000 + 2048 * (Z.of_nat k + 11)) 0 0
                           (Z.of_nat k + 11) v dv)
  | None => forall k, (k < 21)%nat -> ~ answers k
  end.
Proof.
  intros Hv Hz table answers. unfold pci_get_device.
  assert (length table = 21%nat) as Hlen by apply length_probe_slots.
  assert (forall k, (k < 21)%nat ->
    table !! k = Some (slot_entry (Z.of_nat k + 11) pci_device_zero)) as Hl
    by (intros; by apply enumerate_lookup).
  clearbody table.
  assert (forall k, (k < 21)%nat ->
    (vendor_id (slot_entry (Z.of_nat k + 11) pci_device_zero) = v /\
     device_id (slot_entry (Z.of_nat k + 11) pci_device_zero) = dv) <-> answers k) as Hiff.
  { intros k Hk. unfold slot_entry, answers. destruct (Z.eqb_spec (slot_vendor (Z.of_nat k + 11))
      PCI_INVALID_VENDOR); simpl; split; intuition congruence. }
  destruct (list_find _ table) as [[k x]|] eqn:E; simpl.
  - apply list_find_Some in E as (Hx & [Hxv Hxd] & Hfirst).
    assert (k < 21)%nat as Hk by (apply lookup_lt_Some in Hx; lia).
    rewrite (Hl k Hk) in Hx. simplify_eq.
    split_and!; [done|by apply Hiff| |].
    + intros j Hj Hans. apply (Hfirst j _ (Hl j ltac:(lia)) Hj), Hiff; [lia|done].
    + rewrite (Hl k Hk). f_equal. unfold slot_entry in *.
      destruct (Z.eqb_spec (slot_vendor (Z.of_nat k + 11)) PCI_INVALID_VENDOR); simpl in *;
        [lia|]. f_equal. unfold slot_offset, PCI_CONFIG, PCI_DEVICE_BIT_OFFSET.
      rewrite Z.shiftl_mul_pow2 by lia. lia.
  - apply list_find_None in E. intros k Hk Hans. rewrite Forall_lookup in E.
    apply (E k _ (Hl k Hk)), Hiff; done.
Qed.

Lemma find_core_eq l d :
  (forall i, i ∈ l -> 11 <= i < 32) ->
  find_core l d = (match list_find is_core l with Some (_, i) => i | None => 0 end, d).
Proof.
  induction l as [|i l IH]; intros Hl; simpl; [done|].
  pose proof (Hl i ltac:(left)) as Hi. pose proof (slot_offset_range i Hi).
  unfold read32.
  rewrite !(u32_id (PCI_SELF_CONFIG + slot_offset i + PCI_VENDOR_ID)),
    !(u32_id (PCI_SELF_CONFIG + slot_offset i + PCI_CLASS_REVISION))
    by (unfold is_u32, PCI_SELF_CONFIG, PCI_VENDOR_ID, PCI_CLASS_REVISION; lia).
  rewrite Hcfg. assert (find_core l d = (match list_find is_core l with Some (_, i) => i | None => 0 end, d))
    as IH' by (apply IH; intros; apply Hl; by right).
  destruct (decide (is_core i)) as [[H1 H2]|Hn].
  - rewrite H1, Z.eqb_refl, Hcfg, H2, Z.eqb_refl. by rewrite u8_id by (unfold is_u8; lia).
  - assert (match prod_map S id <$> list_find is_core l with Some (_, i0) => i0 | None => 0 end
      = match list_find is_core l with Some (_, i) => i | None => 0 end) as ->
      by (by destruct (list_find is_core l) as [[]|]).
    rewrite Hcfg. destruct (Z.eqb_spec (u32 (cfg 4%nat (PCI_SELF_CONFIG + slot_offset i + PCI_VENDOR_ID))) VP_PCI_DEV_ID);
      [|done].
    destruct (Z.eqb_spec (u32 (cfg 4%nat (PCI_SELF_CONFIG + slot_offset i + PCI_CLASS_REVISION))) VP_PCI_CLASS_ID);
      [|done]. by destruct Hn.
Qed.

(** [configure_board] programs the three translation windows; if a slot
    answers with the ids of the board's PCI core, it writes the number of the
    first such slot to the self-id register, sets the memory, master and
    invalidate bits of the core's command register and returns 0, otherwise it
    programs nothing else, logs the error and returns -1. *)
Theorem configure_board_branches now d :
  let d3 := write32 0x10001008 6 (write32 0x10001004 5 (write32 0x10001000 4 d)) in
  configure_board now d =
  match list_find is_core pci_slots with
  | Some (_, i) =>
      let command := 0x42000004 + 2048 * i in
      (0, write32 command (Z.lor (u32 (cfg 4%nat command)) 0x16) (write32 0x1000100C i d3))
  | None => (-1, emit (log_text now 3 (cstr "kernel/pci/pci.c") (cstr "Cannot find PCI core!")) d3)
  end.
Proof.
  intros d3. unfold configure_board.
  rewrite find_core_eq by (intros i; apply elem_of_pci_slots).
  destruct (list_find is_core pci_slots) as [[k i]|] eqn:E.
  2:{ by rewrite log_line_eq by literal. }
  apply list_find_pci_slots in E as [Hi _].
  rewrite (proj2 (Z.eqb_neq i 0)) by lia.
  pose proof (slot_offset_range i Hi).
  assert (u32 (u32 (PCI_CONFIG + slot_offset i) + PCI_COMMAND) = 0x42000004 + 2048 * i) as ->.
  { unfold slot_offset, PCI_DEVICE_BIT_OFFSET, PCI_CONFIG, PCI_COMMAND in *.
    rewrite Z.shiftl_mul_pow2 in * by lia. word_lia. }
  unfold read32. rewrite Hcfg, (u32_id (0x42000004 + 2048 * i)) by (unfold is_u32; lia). done.
Qed.

End Probe.

(** ** Witnesses *)

Lemma get_bar_size_correct_witness :
  (@get_bar_size _ (bar_bus_of 17 0) 0x42006800 0 (mk_bar_bus 0x50000000)).1 = 0x20000.
Proof.
  destruct (@get_bar_size_correct _ (bar_bus_of 17 0) 0x42006800 0 17 0 bar_value
    (mk_bar_bus 0x50000000)) as [H _];
    [split_and!; try done; vm_compute; done|lia|auto|by vm_compute|]. exact H.
Defined.

(** A configuration space with the board's core in slot 11 and a network card
    in slot 13. *)
Definition example_cfg (n : nat) (a : Z) : Z :=
  if (n =? 2)%nat then
    (if a =? 0x42006800 then 0x8086 else if a =? 0x42006802 then 0x100E else 0xFFFF)
  else if a =? 0x41005800 then 0x030010ee
  else if a =? 0x41005808 then 0x0b400000 else 0.

Definition example_bus : Bus (list (Z * Z)) := {|
  bus_read n a d := (example_cfg n a, d);
  bus_write n a v d := d ++ [(a, v)];
|}.

Lemma pci_get_device_finds_witness :
  pci_get_device 0x8086 0x100E (@enumerate_pci_devices _ example_bus pci_devices_boot []).1 = Some 2%nat.
Proof.
  pose proof (@pci_get_device_finds _ example_bus example_cfg (fun n a d => eq_refl)
    [] 0x8086 0x100E ltac:(done) ltac:(by left)) as H. cbv zeta in H.
  assert (exists r, pci_get_device 0x8086 0x100E
    (@enumerate_pci_devices _ example_bus pci_devices_boot []).1 = r /\ r = Some 2%nat) as (r & Hr & Hr2)
    by (eexists; split; [reflexivity|vm_compute; reflexivity]).
  rewrite Hr in H |- *. subst r. destruct H as (_ & _ & _ & _). reflexivity.
Defined.

Lemma configure_board_branches_witness :
  @configure_board _ example_bus 0 [] =
  (0, [(0x10001000, 4); (0x10001004, 5); (0x10001008, 6); (0x1000100C, 11); (0x42005804, 0x16)]).
Proof.
  rewrite (@configure_board_branches _ example_bus example_cfg (fun n a d => eq_refl) 0 []).
  vm_compute. reflexivity.
Defined.
