(* ===== verification/E1000.v ===== *)
(** * The network card driver: kernel/network/e1000.c

    The driver's structure ([e1000_device]: the two descriptor rings, the
    register window, the cursors), its initialisation, transmission and the
    receive interrupt.  Registers are reached through the PCI word accessors on
    the [Bus].  The card itself is the parameter [card_step]: what it does to
    the descriptors and to RAM between two reads of a descriptor's status. *)

From stdpp Require Import strings.
From S2P Require Import Prelude StateMonad Memory RingBuffer Heap Bus Clock Stdio Logger PciMmio Pci PacketQueue NetworkIo.

(** ** Definitions *)

Definition INTEL_VEND : Z := 0x8086.
Definition E1000_DEV : Z := 0x100E.

Definition REG_CTRL : Z := 0x0000.
Definition REG_EEPROM : Z := 0x0014.
Definition REG_INT_CAUSE : Z := 0x00C0.
Definition REG_IMASK : Z := 0x00D0.
Definition REG_RCTRL : Z := 0x0100.
Definition REG_RXDESCLO : Z := 0x2800.
Definition REG_RXDESCHI : Z := 0x2804.
Definition REG_RXDESCLEN : Z := 0x2808.
Definition REG_RXDESCHEAD : Z := 0x2810.
Definition REG_RXDESCTAIL : Z := 0x2818.
Definition REG_TCTRL : Z := 0x0400.
Definition REG_TXDESCLO : Z := 0x3800.
Definition REG_TXDESCHI : Z := 0x3804.
Definition REG_TXDESCLEN : Z := 0x3808.
Definition REG_TXDESCHEAD : Z := 0x3810.
Definition REG_TXDESCTAIL : Z := 0x3818.
Definition REG_TIPG : Z := 0x0410.
Definition ECTRL_SLU : Z := 0x40.

Definition RCTL_EN : Z := Z.shiftl 1 1.
Definition RCTL_SBP : Z := Z.shiftl 1 2.
Definition RCTL_UPE : Z := Z.shiftl 1 3.
Definition RCTL_MPE : Z := Z.shiftl 1 4.
Definition RCTL_LBM_NONE : Z := Z.shiftl 0 6.
Definition RTCL_RDMTS_HALF : Z := Z.shiftl 0 8.
Definition RCTL_BAM : Z := Z.shiftl 1 15.
Definition RCTL_SECRC : Z := Z.shiftl 1 26.
Definition RCTL_BSIZE_8192 : Z := Z.lor (Z.shiftl 2 16) (Z.shiftl 1 25).
Definition CMD_EOP : Z := Z.shiftl 1 0.
Definition CMD_IFCS : Z := Z.shiftl 1 1.
Definition CMD_RS : Z := Z.shiftl 1 3.
Definition TCTL_EN : Z := Z.shiftl 1 1.
Definition TCTL_PSP : Z := Z.shiftl 1 3.
Definition LSC : Z := Z.shiftl 1 2.
Definition RXDMT0 : Z := Z.shiftl 1 4.
Definition RXT0 : Z := Z.shiftl 1 7.
Definition MAC_OFFSET : Z := 0x5400.
Definition E1000_NUM_RX_DESC : Z := 32.
Definition E1000_NUM_TX_DESC : Z := 8.

Record e1000_rx_desc := mk_rx_desc {
  rx_addr : Z;       (* uint64_t *)
  rx_length : Z;     (* uint16_t *)
  rx_checksum : Z;   (* uint16_t *)
  rx_status : Z;     (* uint8_t *)
  rx_errors : Z;     (* uint8_t *)
  rx_special : Z;    (* uint16_t *)
}.

Record e1000_tx_desc := mk_tx_desc {
  tx_addr : Z;       (* uint64_t *)
  tx_length : Z;     (* uint16_t *)
  tx_cso : Z;        (* uint8_t *)
  tx_cmd : Z;        (* uint8_t *)
  tx_status : Z;     (* uint8_t *)
  tx_css : Z;        (* uint8_t *)
  tx_special : Z;    (* uint16_t *)
}.

#[export] Instance rx_desc_inhabited : Inhabited e1000_rx_desc := populate (mk_rx_desc 0 0 0 0 0 0).
#[export] Instance tx_desc_inhabited : Inhabited e1000_tx_desc := populate (mk_tx_desc 0 0 0 0 0 0 0).

(** Both descriptors are packed structures of 16 bytes; the driver structure is
    664 bytes. *)
Definition sizeof_rx_desc : Z := 8 + 2 + 2 + 1 + 1 + 2.
Definition sizeof_tx_desc : Z := 8 + 2 + 1 + 1 + 1 + 1 + 2.
Definition sizeof_e1000_device : Z := 664.

Record e1000_device := mk_e1000 {
  rx_descs : list e1000_rx_desc;
  tx_descs : list e1000_tx_desc;
  e_io_base : Z;
  e_mem_base : Z;
  eeprom_exists : bool;
  e_mac : list Z;
  rx_cur : Z;
  tx_cur : Z;
  e_pci_device : option nat;   (* index into pci_devices, None for NULL *)
}.

Definition with_rx_descs (l : list e1000_rx_desc) (e : e1000_device) : e1000_device :=
  mk_e1000 l (tx_descs e) (e_io_base e) (e_mem_base e) (eeprom_exists e) (e_mac e)
    (rx_cur e) (tx_cur e) (e_pci_device e).
Definition with_tx_descs (l : list e1000_tx_desc) (e : e1000_device) : e1000_device :=
  mk_e1000 (rx_descs e) l (e_io_base e) (e_mem_base e) (eeprom_exists e) (e_mac e)
    (rx_cur e) (tx_cur e) (e_pci_device e).
Definition with_bases (io mm : Z) (e : e1000_device) : e1000_device :=
  mk_e1000 (rx_descs e) (tx_descs e) io mm (eeprom_exists e) (e_mac e)
    (rx_cur e) (tx_cur e) (e_pci_device e).
Definition with_eeprom (b : bool) (e : e1000_device) : e1000_device :=
  mk_e1000 (rx_descs e) (tx_descs e) (e_io_base e) (e_mem_base e) b (e_mac e)
    (rx_cur e) (tx_cur e) (e_pci_device e).
Definition with_mac (m : list Z) (e : e1000_device) : e1000_device :=
  mk_e1000 (rx_descs e) (tx_descs e) (e_io_base e) (e_mem_base e) (eeprom_exists e) m
    (rx_cur e) (tx_cur e) (e_pci_device e).
Definition with_cursors (rx tx : Z) (e : e1000_device) : e1000_device :=
  mk_e1000 (rx_descs e) (tx_descs e) (e_io_base e) (e_mem_base e) (eeprom_exists e) (e_mac e)
    rx tx (e_pci_device e).
Definition with_pci_device (p : option nat) (e : e1000_device) : e1000_device :=
  mk_e1000 (rx_descs e) (tx_descs e) (e_io_base e) (e_mem_base e) (eeprom_exists e) (e_mac e)
    (rx_cur e) (tx_cur e) p.

(** What the driver works on: the devices, RAM and heap, the structure behind
    the static pointer [e1000] ([None] while it is NULL) with its address, and
    the receive queue. *)
Record nic_state (D : Type) := mk_nic {
  n_dev : D;
  n_heap : heap;
  n_e1000 : option (Z * e1000_device);
  n_queue : pqueue;
}.
Arguments mk_nic {D}.
Arguments n_dev {D}.
Arguments n_heap {D}.
Arguments n_e1000 {D}.
Arguments n_queue {D}.

Definition set_n_dev {D} (d : D) (s : nic_state D) : nic_state D :=
  mk_nic d (n_heap s) (n_e1000 s) (n_queue s).
Definition set_n_heap {D} (h : heap) (s : nic_state D) : nic_state D :=
  mk_nic (n_dev s) h (n_e1000 s) (n_queue s).
Definition set_n_e1000 {D} (e : option (Z * e1000_device)) (s : nic_state D) : nic_state D :=
  mk_nic (n_dev s) (n_heap s) e (n_queue s).
Definition set_n_queue {D} (q : pqueue) (s : nic_state D) : nic_state D :=
  mk_nic (n_dev s) (n_heap s) (n_e1000 s) q.

(** What the card does by itself, with the driver's structure at the given
    address: it may change its own state, RAM and the descriptors.  The driver's
    other fields are not reachable for it. *)
Class Card (D : Type) := card_step :
  Z -> D * mem * list e1000_rx_desc * list e1000_tx_desc ->
  D * mem * list e1000_rx_desc * list e1000_tx_desc.

Section E1000.
Context {D : Type} `{Bus D} {card : Card D} {cpu : Cpu} {board : Board}.

Abbreviation NM := (ST (nic_state D)).

(** [e1000->...]: a NULL dereference is undefined. *)
Definition e1000 : NM e1000_device := fun s =>
  match n_e1000 s with
  | Some (_, e) => Done (e, s)
  | None => Undefined
  end.

Definition e1000_address : NM Z := fun s =>
  match n_e1000 s with
  | Some (a, _) => Done (a, s)
  | None => Undefined
  end.

Definition update (f : e1000_device -> e1000_device) : NM unit := fun s =>
  match n_e1000 s with
  | Some (a, e) => Done (tt, set_n_e1000 (Some (a, f e)) s)
  | None => Undefined
  end.

Definition update_rx (i : Z) (f : e1000_rx_desc -> e1000_rx_desc) : NM unit :=
  update (fun e => with_rx_descs (alter f (Z.to_nat i) (rx_descs e)) e).
Definition update_tx (i : Z) (f : e1000_tx_desc -> e1000_tx_desc) : NM unit :=
  update (fun e => with_tx_descs (alter f (Z.to_nat i) (tx_descs e)) e).

(** An access outside a descriptor ring is undefined. *)
Definition rx_desc (i : Z) : NM e1000_rx_desc :=
  e ← e1000;
  match rx_descs e !! Z.to_nat i with Some d => mret d | None => undefined end.
Definition tx_desc (i : Z) : NM e1000_tx_desc :=
  e ← e1000;
  match tx_descs e !! Z.to_nat i with Some d => mret d | None => undefined end.

(** The card acts. *)
Definition acts (s : nic_state D) : nic_state D :=
  match n_e1000 s with
  | Some (a, e) =>
      let '(d, m, rx, tx) := card_step a (n_dev s, ram (n_heap s), rx_descs e, tx_descs e) in
      mk_nic d (set_ram m (n_heap s)) (Some (a, with_rx_descs rx (with_tx_descs tx e))) (n_queue s)
  | None => s
  end.

Definition card_acts : NM unit := modify acts.

Definition on_bus {A} (f : D -> A * D) : NM A := lift n_dev set_n_dev f.
Definition bus_do (f : D -> D) : NM unit := on_bus (fun d => (tt, f d)).

Definition write_command (address value : Z) : NM unit :=
  e ← e1000;
  bus_do (pci_write32 (u32 (e_mem_base e + u16 address)) value).

Definition read_command (address : Z) : NM Z :=
  e ← e1000;
  on_bus (pci_read32 (u32 (e_mem_base e + u32 address))).

(** [for (i = 0; i < 1000 && !e1000->eeprom_exists; i++)]. *)
Fixpoint detect_eeprom_loop (n : nat) : NM unit :=
  match n with
  | O => mret ()
  | S n' =>
      e ← e1000;
      if eeprom_exists e then mret ()
      else
        val ← read_command REG_EEPROM;
        update (with_eeprom (negb (Z.land val 0x10 =? 0))) ;;
        detect_eeprom_loop n'
  end.

Definition detect_eeprom : NM unit :=
  write_command REG_EEPROM 0x1 ;;
  detect_eeprom_loop 1000.

(** [memcpy(&mac_network, &mac_data, 6)] takes the first six bytes of the
    64-bit value as the processor stores it. *)
Definition read_e1000_hardware_address : NM unit :=
  e ← e1000;
  let mem_base_mac := u32 (e_mem_base e + MAC_OFFSET) in
  mac_data ← on_bus (pci_read64 mem_base_mac);
  if negb (u64 (Z.shiftl mac_data 16) =? 0)
  then
    let mac_network := take 6 (enc cpu_endian 8 mac_data) in
    update (with_mac (ntoh_mac mac_network))
  else mret ().

Definition e1000_get_mac : NM (list Z) := e ← e1000; mret (e_mac e).

Definition heap_malloc (fuel : nat) (size : Z) : NM Z := zoom n_heap set_n_heap (malloc fuel size).

Definition init_receive_descriptor (fuel : nat) (i : Z) : NM unit :=
  addr ← heap_malloc fuel (MAX_PACKET_SIZE + sizeof_rx_desc);
  update_rx i (fun d => mk_rx_desc (u32 addr) (rx_length d) (rx_checksum d) (rx_status d)
                          (rx_errors d) (rx_special d)) ;;
  update_rx i (fun d => mk_rx_desc (rx_addr d) (rx_length d) (rx_checksum d) 0
                          (rx_errors d) (rx_special d)).

Definition init_receive_descriptors (fuel : nat) : NM unit :=
  for_each (zseq 32) (init_receive_descriptor fuel) ;;
  a ← e1000_address;
  write_command REG_RXDESCLO (u32 a) ;;
  write_command REG_RXDESCHI 0 ;;
  write_command REG_RXDESCLEN (E1000_NUM_RX_DESC * sizeof_rx_desc) ;;
  write_command REG_RXDESCHEAD 0 ;;
  write_command REG_RXDESCTAIL (E1000_NUM_RX_DESC - 1) ;;
  update (fun e => with_cursors 0 (tx_cur e) e) ;;
  write_command REG_RCTRL
    (foldr Z.lor 0 [RCTL_EN; RCTL_SBP; RCTL_UPE; RCTL_MPE; RCTL_LBM_NONE; RTCL_RDMTS_HALF;
                    RCTL_BAM; RCTL_SECRC; RCTL_BSIZE_8192]).

Definition init_transmit_descriptors : NM unit :=
  a ← e1000_address;
  write_command REG_TXDESCLO (u32 (a + E1000_NUM_RX_DESC * sizeof_rx_desc)) ;;
  write_command REG_TXDESCHI 0 ;;
  write_command REG_TXDESCLEN (E1000_NUM_TX_DESC * sizeof_tx_desc) ;;
  write_command REG_TXDESCHEAD 0 ;;
  write_command REG_TXDESCTAIL 0 ;;
  update (fun e => with_cursors (rx_cur e) 0 e) ;;
  v ← read_command REG_TCTRL;
  write_command REG_TCTRL (Z.lor (Z.lor v TCTL_EN) TCTL_PSP) ;;
  write_command REG_TIPG 0x0060200A.

Definition enable_interrupt : NM unit := write_command REG_IMASK 0x1F2D4.

Definition start_link : NM unit :=
  flags ← read_command REG_CTRL;
  write_command REG_CTRL (Z.lor flags ECTRL_SLU).

Definition start_e1000 (fuel : nat) : NM unit :=
  detect_eeprom ;;
  read_e1000_hardware_address ;;
  start_link ;;
  enable_interrupt ;;
  init_receive_descriptors fuel ;;
  init_transmit_descriptors.

Definition e1000_is_available : NM bool :=
  e ← e1000; mret (bool_decide (e_pci_device e <> None)).

(** [while (!(curr->status));]: the card acts before every read. *)
Fixpoint wait_sent (fuel : nat) (i : Z) : NM unit :=
  match fuel with
  | O => no_fuel
  | S fuel' =>
      card_acts ;;
      curr ← tx_desc i;
      if tx_status curr =? 0 then wait_sent fuel' i else mret ()
  end.

(** [e1000_send_packet] up to its wait: the descriptor is filled and handed to
    the card.  The result is its slot; without a card there is none. *)
Definition e1000_start_frame (p_data p_len : Z) : NM (option Z) :=
  available ← e1000_is_available;
  if negb available then mret None
  else
    e ← e1000;
    let i := tx_cur e in
    _ ← tx_desc i;
    update_tx i (fun d => mk_tx_desc (u32 p_data) (u16 p_len) (tx_cso d)
                            (Z.lor (Z.lor CMD_EOP CMD_IFCS) CMD_RS) 0 (tx_css d) (tx_special d)) ;;
    update (fun e => with_cursors (rx_cur e) (Z.rem (tx_cur e + 1) E1000_NUM_TX_DESC) e) ;;
    e ← e1000;
    write_command REG_TXDESCTAIL (tx_cur e) ;;
    mret (Some i).

Definition e1000_send_packet (fuel : nat) (p_data p_len : Z) : NM Z :=
  slot ← e1000_start_frame p_data p_len;
  match slot with
  | None => mret (u32 (-1))
  | Some i => wait_sent fuel i ;; mret 0
  end.

(** [LOG_WARN] and [LOG_ERROR]. *)
Definition nic_log (now severity : Z) (file message : list Z) : NM unit :=
  bus_do (log_line now severity file message).

(** [insert_packet(buf, len)] with the bytes the card left in the buffer.  From
    here on [now] is the clock, which stands still while the handler runs. *)
Definition queue_insert (now buf len : Z) : NM unit := fun s =>
  match insert_packet (read_bytes (ram (n_heap s)) buf (Z.to_nat len)) (n_queue s) with
  | Done q =>
      (if queue_full (n_queue s)
       then nic_log now SEVERITY_WARN (cstr "kernel/network/network_task.c") (cstr "Packet Queue full!")
       else mret ()) (set_n_queue q s)
  | Undefined => Undefined
  | NoFuel => NoFuel
  end.

Fixpoint receive_loop (now : Z) (fuel : nat) : NM unit :=
  match fuel with
  | O => no_fuel
  | S fuel' =>
      card_acts ;;
      e ← e1000;
      d ← rx_desc (rx_cur e);
      if Z.land (rx_status d) 0x1 =? 0 then mret ()
      else
        let buf := u32 (rx_addr d) in
        let len := rx_length d in
        queue_insert now buf len ;;
        update_rx (rx_cur e) (fun d => mk_rx_desc (rx_addr d) (rx_length d) (rx_checksum d) 0
                                         (rx_errors d) (rx_special d)) ;;
        let old_cur := rx_cur e in
        update (fun e => with_cursors (Z.rem (rx_cur e + 1) E1000_NUM_RX_DESC) (tx_cur e) e) ;;
        write_command REG_RXDESCTAIL old_cur ;;
        receive_loop now fuel'
  end.

Definition receive_packet (now : Z) (fuel : nat) : NM unit :=
  available ← e1000_is_available;
  if negb available then mret () else receive_loop now fuel.

Definition e1000_irq_handler (now : Z) (fuel : nat) : NM unit :=
  write_command REG_IMASK 0x1 ;;
  cause ← read_command REG_INT_CAUSE;
  (if negb (Z.land cause LSC =? 0) then start_link else mret ()) ;;
  (if negb (Z.land cause RXT0 =? 0) then receive_packet now fuel else mret ()).

Definition e1000_file : list Z := cstr "kernel/network/e1000.c".

(** [malloc] does not clear the structure: [garbage] is what its memory held. *)
Definition e1000_init (now : Z) (fuel : nat) (garbage : e1000_device) (table : list pci_device) : NM unit :=
  a ← heap_malloc fuel sizeof_e1000_device;
  if a =? NULL
  then
    modify (set_n_e1000 None) ;;
    nic_log now SEVERITY_ERROR e1000_file (cstr "No memory for e1000 struct left!")
  else
    modify (set_n_e1000 (Some (a, garbage))) ;;
    update (with_pci_device (pci_get_device INTEL_VEND E1000_DEV table)) ;;
    match pci_get_device INTEL_VEND E1000_DEV table with
    | None => nic_log now SEVERITY_ERROR e1000_file (cstr "Network card not found!")
    | Some k =>
        let dev := table !!! k in
        mm ← on_bus (pci_alloc_memory dev 0);
        update (fun e => with_bases (e_io_base e) mm e) ;;
        io ← on_bus (pci_alloc_memory dev 1);
        update (fun e => with_bases io (e_mem_base e) e) ;;
        bus_do (pci_enable_bus_mastering (config_base dev)) ;;
        start_e1000 fuel
    end.

(** ** Transmission *)

(** The status byte of a transmit descriptor. *)
Definition tx_status_at (i : Z) (s : nic_state D) : option Z :=
  '(_, e) ← n_e1000 s; tx_status <$> tx_descs e !! Z.to_nat i.

(** The state in which the driver starts to wait: the descriptor filled in, the
    cursor advanced and the tail register written. *)
Definition doorbell (a : Z) (e : e1000_device) (p_data p_len : Z) (s : nic_state D) : nic_state D :=
  let i := Z.to_nat (tx_cur e) in
  let tx := (tx_cur e + 1) `mod` 8 in
  let fill d := mk_tx_desc (u32 p_data) (u16 p_len) (tx_cso d) 0x0B 0 (tx_css d) (tx_special d) in
  let e' := with_cursors (rx_cur e) tx (with_tx_descs (alter fill i (tx_descs e)) e) in
  mk_nic (pci_write32 (u32 (e_mem_base e + 0x3818)) tx (n_dev s)) (n_heap s) (Some (a, e')) (n_queue s).

Lemma wait_sent_returns fuel i k s :
  (forall j, (j < k)%nat -> tx_status_at i (Nat.iter (S j) acts s) = Some 0) ->
  (exists v, tx_status_at i (Nat.iter (S k) acts s) = Some v /\ v <> 0) ->
  (k < fuel)%nat ->
  wait_sent fuel i s = Done (tt, Nat.iter (S k) acts s).
Proof.
  revert k s. induction fuel as [|fuel IH]; intros k s Hzero (v & Hv & Hnz) Hk; [lia|].
  cbn [wait_sent]. rewrite (bind_done _ _ s tt (acts s)) by done.
  assert (forall w, tx_status_at i (acts s) = Some w ->
    exists d, tx_desc i (acts s) = Done (d, acts s) /\ tx_status d = w) as Hread.
  { intros w Hw. unfold tx_status_at, tx_desc, e1000 in *. st_step.
    destruct (n_e1000 (acts s)) as [[a e]|]; [|done]. simpl in Hw.
    destruct (tx_descs e !! Z.to_nat i) as [d|] eqn:Ed; [|done]. simplify_eq/=.
    exists d. done. }
  destruct k as [|k].
  - destruct (Hread v Hv) as (d & Hd & Hds). rewrite (bind_done _ _ _ d _ Hd), Hds.
    by rewrite (proj2 (Z.eqb_neq v 0) Hnz).
  - destruct (Hread 0 (Hzero 0%nat ltac:(lia))) as (d & Hd & Hds).
    rewrite (bind_done _ _ _ d _ Hd), Hds, Z.eqb_refl.
    rewrite (IH k (acts s)); [by rewrite <- Nat.iter_succ_r| |rewrite <- Nat.iter_succ_r; eauto|lia].
    intros j Hj. rewrite <- Nat.iter_succ_r. apply Hzero. lia.
Qed.

Lemma wait_sent_spins fuel i s :
  (forall j, tx_status_at i (Nat.iter (S j) acts s) = Some 0) -> wait_sent fuel i s = NoFuel.
Proof.
  revert s. induction fuel as [|fuel IH]; intros s Hz; [done|].
  cbn [wait_sent]. rewrite (bind_done _ _ s tt (acts s)) by done.
  assert (exists d, tx_desc i (acts s) = Done (d, acts s) /\ tx_status d = 0) as (d & Hd & Hds).
  { pose proof (Hz 0%nat) as Hw. unfold tx_status_at, tx_desc, e1000 in *. st_step.
    simpl in Hw. destruct (n_e1000 (acts s)) as [[a e]|]; [|done]. simpl in Hw.
    destruct (tx_descs e !! Z.to_nat i) as [d|] eqn:Ed; [|done]. simplify_eq/=.
    exists d. done. }
  rewrite (bind_done _ _ _ d _ Hd), Hds, Z.eqb_refl. apply IH.
  intros j. rewrite <- Nat.iter_succ_r. apply Hz.
Qed.

Lemma e1000_start_frame_eq p_data p_len s a e :
  n_e1000 s = Some (a, e) -> is_Some (e_pci_device e) ->
  length (tx_descs e) = 8%nat -> 0 <= tx_cur e < 8 ->
  e1000_start_frame p_data p_len s = Done (Some (tx_cur e), doorbell a e p_data p_len s).
Proof.
  intros He [k Hk] Hlen Hcur. unfold e1000_start_frame, e1000_is_available, e1000, tx_desc,
    update_tx, update, write_command, e1000, bus_do, on_bus. st_step.
  rewrite !He. cbn beta iota. rewrite Hk. simpl. rewrite !He.
  destruct (lookup_lt_is_Some_2 (tx_descs e) (Z.to_nat (tx_cur e))) as [d Hd]; [lia|].
  rewrite Hd, He. simpl. unfold doorbell. unfold E1000_NUM_TX_DESC.
  rewrite Z_rem_mod_nonneg by lia. done.
Qed.

Lemma e1000_send_packet_eq fuel p_data p_len s a e :
  n_e1000 s = Some (a, e) -> is_Some (e_pci_device e) ->
  length (tx_descs e) = 8%nat -> 0 <= tx_cur e < 8 ->
  e1000_send_packet fuel p_data p_len s =
    (wait_sent fuel (tx_cur e) ;; mret 0) (doorbell a e p_data p_len s).
Proof.
  intros. unfold e1000_send_packet. by rewrite (bind_done _ _ _ _ _ (e1000_start_frame_eq _ _ _ _ _ ltac:(done) ltac:(done) ltac:(done) ltac:(done))).
Qed.

(** ** Reception *)

Definition clear_status (d : e1000_rx_desc) : e1000_rx_desc :=
  mk_rx_desc (rx_addr d) (rx_length d) (rx_checksum d) 0 (rx_errors d) (rx_special d).

(** The card has filled the descriptor in slot [i]. *)
Definition rx_done (l : list e1000_rx_desc) (i : Z) : Prop :=
  Z.land (rx_status (l !!! Z.to_nat i)) 1 <> 0.

(** The packet a filled descriptor describes. *)
Definition rx_packet (m : mem) (l : list e1000_rx_desc) (i : Z) : list Z :=
  let d := l !!! Z.to_nat i in
  read_bytes m (u32 (rx_addr d)) (Z.to_nat (rx_length d)).

(** The devices after [insert_packet]: a packet dropped is logged. *)
Definition after_insert (now : Z) (q : pqueue) (d : D) : D :=
  if queue_full q
  then log_line now SEVERITY_WARN (cstr "kernel/network/network_task.c") (cstr "Packet Queue full!") d
  else d.

(** One iteration of the receive loop on slot [i]. *)
Definition rx_consume (now : Z) (s : nic_state D) (a : Z) (e : e1000_device) : nic_state D :=
  let i := rx_cur e in
  mk_nic (pci_write32 (u32 (e_mem_base e + 0x2818)) i (after_insert now (n_queue s) (n_dev s))) (n_heap s)
    (Some (a, with_cursors (ring_next 32 i) (tx_cur e)
                (with_rx_descs (alter clear_status (Z.to_nat i) (rx_descs e)) e)))
    (push_packet (rx_packet (ram (n_heap s)) (rx_descs e) i) (n_queue s)).

Lemma insert_packet_done bytes q :
  pqueue_ok q -> packet_fits bytes -> insert_packet bytes q = Done (push_packet bytes q).
Proof.
  intros Hok Hf. unfold push_packet.
  destruct (decide (length (packets q) < 127)%nat) as [Hr|Hr].
  - by destruct (insert_packet_room bytes q Hok Hf Hr) as (? & ? & -> & _).
  - by rewrite insert_packet_full by (done || lia).
Qed.

Lemma queue_insert_done now buf len s :
  pqueue_ok (n_queue s) -> packet_fits (read_bytes (ram (n_heap s)) buf (Z.to_nat len)) ->
  queue_insert now buf len s =
    Done (tt, mk_nic (after_insert now (n_queue s) (n_dev s)) (n_heap s) (n_e1000 s)
                (push_packet (read_bytes (ram (n_heap s)) buf (Z.to_nat len)) (n_queue s))).
Proof.
  intros Hq Hf. unfold queue_insert, after_insert. rewrite insert_packet_done by done.
  by destruct s, (queue_full _).
Qed.

Section Quiet.
(** While the handler runs the card leaves descriptors and RAM alone. *)
Hypothesis Hquiet : forall a x, card_step a x = x.

Lemma quiet_acts s : acts s = s.
Proof.
  unfold acts. destruct s as [d h [[a e]|] q]; [|done]. simpl. rewrite Hquiet.
  by destruct h, e.
Qed.

Lemma receive_loop_step now fuel s a e :
  n_e1000 s = Some (a, e) -> length (rx_descs e) = 32%nat -> 0 <= rx_cur e < 32 ->
  pqueue_ok (n_queue s) ->
  (rx_done (rx_descs e) (rx_cur e) -> packet_fits (rx_packet (ram (n_heap s)) (rx_descs e) (rx_cur e))) ->
  receive_loop now (S fuel) s =
    if decide (rx_done (rx_descs e) (rx_cur e)) then receive_loop now fuel (rx_consume now s a e)
    else Done (tt, s).
Proof.
  intros He Hlen Hcur Hq Hfit. cbn [receive_loop].
  rewrite (bind_done _ _ s tt s) by (unfold card_acts, modify; by rewrite quiet_acts).
  unfold e1000, rx_desc, update_rx, update, write_command, e1000, bus_do, on_bus.
  st_step. rewrite He. cbn beta iota. rewrite ?He. cbn beta iota.
  destruct (lookup_lt_is_Some_2 (rx_descs e) (Z.to_nat (rx_cur e))) as [d Hd]; [lia|].
  unfold rx_done, rx_packet in *. rewrite (list_lookup_total_correct _ _ _ Hd) in *.
  rewrite Hd. case_decide as Hdone.
  - specialize (Hfit Hdone).
    rewrite (proj2 (Z.eqb_neq _ _) Hdone), queue_insert_done by done. simpl. rewrite !He. simpl.
    unfold rx_consume, E1000_NUM_RX_DESC, ring_next, rx_packet.
    rewrite Z_rem_mod_nonneg by lia. by rewrite (list_lookup_total_correct _ _ _ Hd).
  - by rewrite Hdone.
Qed.

(** The state after the packets of [k] filled slots were consumed. *)
Fixpoint rx_consume_n (now : Z) (k : nat) (s : nic_state D) : nic_state D :=
  match k with
  | O => s
  | S k' =>
      match n_e1000 s with
      | Some (a, e) => rx_consume_n now k' (rx_consume now s a e)
      | None => s
      end
  end.

(** The card fills no more than the buffer it was told of. *)
Definition rx_length_ok (d : e1000_rx_desc) : Prop :=
  Z.land (rx_status d) 1 <> 0 -> 0 <= rx_length d <= 8192.

Definition rx_ok (e : e1000_device) : Prop :=
  length (rx_descs e) = 32%nat /\ 0 <= rx_cur e < 32 /\ Forall rx_length_ok (rx_descs e).

Lemma rx_packet_fits m e i :
  rx_ok e -> 0 <= i < 32 -> rx_done (rx_descs e) i -> packet_fits (rx_packet m (rx_descs e) i).
Proof.
  intros (Hlen & _ & Hl) Hi Hd. unfold packet_fits, rx_packet, rx_done in *. rewrite length_read_bytes.
  destruct (lookup_lt_is_Some_2 (rx_descs e) (Z.to_nat i)) as [d Hd']; [lia|].
  rewrite (list_lookup_total_correct _ _ _ Hd') in *.
  pose proof (Forall_lookup_1 _ _ _ _ Hl Hd' Hd). unfold MAX_PACKET_SIZE. simpl in *. lia.
Qed.

Lemma rx_consume_ok e :
  rx_ok e ->
  rx_ok (with_cursors (ring_next 32 (rx_cur e)) (tx_cur e)
           (with_rx_descs (alter clear_status (Z.to_nat (rx_cur e)) (rx_descs e)) e)).
Proof.
  intros (Hlen & Hcur & Hl). split_and!; simpl.
  - by rewrite length_alter.
  - apply ring_next_range. lia.
  - pose proof (ring_next_range 32 (rx_cur e)). lia.
  - apply Forall_alter; [done|]. intros d _ Hd Hs. by destruct (Hs eq_refl).
Qed.

(** Slot [j] after [k] slots from [c] on were cleared. *)
Lemma clear_lookup l i j :
  alter clear_status i l !!! j =
  if decide (i = j /\ (i < length l)%nat) then clear_status (l !!! j) else l !!! j.
Proof.
  rewrite !list_lookup_total_alt. destruct (decide (i = j)) as [<-|Hne].
  - rewrite list_lookup_alter_eq. destruct (decide (i < length l)%nat) as [Hi|Hi].
    + rewrite decide_True by done. destruct (lookup_lt_is_Some_2 l i Hi) as [d ->]. done.
    + rewrite decide_False by tauto. rewrite lookup_ge_None_2 by lia. done.
  - rewrite decide_False by tauto. by rewrite list_lookup_alter_ne.
Qed.

Lemma receive_loop_drains now k fuel s a e :
  n_e1000 s = Some (a, e) -> rx_ok e -> pqueue_ok (n_queue s) ->
  (k <= 32)%nat -> (k < fuel)%nat ->
  (forall j, (j < k)%nat -> rx_done (rx_descs e) ((rx_cur e + Z.of_nat j) `mod` 32)) ->
  ((k < 32)%nat -> ~ rx_done (rx_descs e) ((rx_cur e + Z.of_nat k) `mod` 32)) ->
  receive_loop now fuel s = Done (tt, rx_consume_n now k s).
Proof.
  revert fuel s e. induction k as [|k IH]; intros [|fuel] s e He Hok Hq Hk Hfuel Hdone Hstop; try lia;
    pose proof Hok as (Hlen & Hcur & _);
    rewrite (receive_loop_step now fuel s a e) by (done || by (intros; apply rx_packet_fits)).
  - rewrite decide_False; [done|]. specialize (Hstop ltac:(lia)).
    by rewrite Z.add_0_r, Z.mod_small in Hstop by lia.
  - rewrite decide_True
      by (specialize (Hdone 0%nat ltac:(lia)); by rewrite Z.add_0_r, Z.mod_small in Hdone by lia).
    cbn [rx_consume_n]. rewrite He.
    eapply IH; [done|by apply rx_consume_ok| |lia|lia| |].
    + simpl. apply push_packet_ok; [done|]. apply rx_packet_fits; [done|done|].
      specialize (Hdone 0%nat ltac:(lia)). by rewrite Z.add_0_r, Z.mod_small in Hdone by lia.
    + intros j Hj. simpl. unfold ring_next. rewrite Z.add_mod_idemp_l by lia.
      specialize (Hdone (S j) ltac:(lia)). unfold rx_done in *. rewrite clear_lookup.
      replace (rx_cur e + 1 + Z.of_nat j) with (rx_cur e + Z.of_nat (S j)) by lia.
      rewrite decide_False; [done|]. intros [E _].
      assert (rx_cur e = (rx_cur e + Z.of_nat (S j)) `mod` 32) by word_lia. word_lia.
    + intros Hk'. simpl. unfold ring_next. rewrite Z.add_mod_idemp_l by lia.
      replace (rx_cur e + 1 + Z.of_nat k) with (rx_cur e + Z.of_nat (S k)) by lia.
      unfold rx_done. rewrite clear_lookup. case_decide as Hd; [by intros []|].
      apply Hstop. destruct (decide (S k = 32)%nat) as [E|]; [|lia]. exfalso. apply Hd.
      rewrite Hlen. split; [f_equal|]; word_lia.
Qed.

(** The queue and the devices after one more slot: the packet is queued or
    dropped, and the slot given back to the card. *)
Definition drain (now base : Z) (st : pqueue * D) (x : Z * list Z) : pqueue * D :=
  (push_packet x.2 st.1, pci_write32 (u32 (base + 0x2818)) x.1 (after_insert now st.1 st.2)).

(** What [k] iterations amount to. *)
Lemma rx_consume_n_eq now k s a e :
  n_e1000 s = Some (a, e) -> rx_ok e -> (k <= 32)%nat ->
  let slots := ring_slots 32 (rx_cur e) k in
  let s' := rx_consume_n now k s in
  n_heap s' = n_heap s /\
  (n_queue s', n_dev s') = foldl (drain now (e_mem_base e)) (n_queue s, n_dev s)
    ((fun i => (i, rx_packet (ram (n_heap s)) (rx_descs e) i)) <$> slots) /\
  exists e', n_e1000 s' = Some (a, e') /\ rx_ok e' /\
    rx_cur e' = (rx_cur e + Z.of_nat k) `mod` 32 /\
    forall j, 0 <= j < 32 -> rx_descs e' !!! Z.to_nat j =
      if decide (j ∈ slots) then clear_status (rx_descs e !!! Z.to_nat j) else rx_descs e !!! Z.to_nat j.
Proof.
  revert s e. induction k as [|k IH]; intros s e He Hok Hk slots s'.
  - split_and!; try done. exists e. split_and!; [done|done| |].
    + destruct Hok as (_ & ? & _). by rewrite Z.add_0_r, Z.mod_small.
    + intros j Hj. rewrite decide_False; [done|]. apply not_elem_of_nil.
  - unfold s', slots. cbn [rx_consume_n ring_slots]. rewrite He.
    destruct (IH (rx_consume now s a e) _ eq_refl (rx_consume_ok e Hok) ltac:(lia))
      as (Hh & Hq & e' & He' & Hok' & Hc & Hl).
    pose proof Hok as (Hlen & Hcur & _).
    assert (forall j, j ∈ ring_slots 32 (ring_next 32 (rx_cur e)) k -> j <> rx_cur e) as Hne.
    { intros j Hj ->. apply elem_of_ring_slots in Hj as (i & Hi & E);
        [|apply ring_next_range; lia]. unfold ring_next in E. word_lia. }
    split_and!.
    + by rewrite Hh.
    + rewrite Hq. simpl. f_equal. apply list_fmap_ext. intros i j Hj%list_elem_of_lookup_2.
      unfold rx_packet. simpl. rewrite clear_lookup, decide_False; [done|].
      intros [E _]. apply elem_of_ring_slots in Hj as Hj'; [|apply ring_next_range; lia].
      destruct Hj' as (i' & Hi' & E'). apply (Hne j Hj). word_lia.
    + exists e'. split_and!; [done|done| |].
      * rewrite Hc. simpl. unfold ring_next. rewrite Z.add_mod_idemp_l by lia. f_equal. lia.
      * intros j Hj. rewrite Hl by done. simpl. rewrite clear_lookup.
        destruct (decide (j = rx_cur e)) as [->|Hjc].
        -- rewrite (decide_True (P := _ /\ _)) by (split; [done|lia]).
           rewrite (decide_True (P := _ ∈ _ :: _)) by left. by case_decide.
        -- rewrite (decide_False (P := _ /\ _)) by (intros [E _]; apply Hjc; lia).
           destruct (decide (j ∈ ring_slots 32 (ring_next 32 (rx_cur e)) k)) as [Hin|Hnin].
           ++ by rewrite decide_True by (by right).
           ++ rewrite decide_False; [done|]. by intros [?|?]%elem_of_cons.
Qed.

End Quiet.

(** ** The receive buffers *)

Lemma alter_alter {A} (f g : A -> A) i (l : list A) :
  alter f i (alter g i l) = alter (fun x => f (g x)) i l.
Proof.
  apply list_eq. intros j. destruct (decide (i = j)) as [<-|Hne].
  - rewrite !list_lookup_alter_eq. by destruct (l !! i).
  - by rewrite !list_lookup_alter_ne.
Qed.

(** Set the address of a descriptor and clear its status. *)
Definition arm_desc (addr : Z) (d : e1000_rx_desc) : e1000_rx_desc :=
  mk_rx_desc addr (rx_length d) (rx_checksum d) 0 (rx_errors d) (rx_special d).

Lemma init_receive_descriptor_eq fuel i s a e addr h' :
  n_e1000 s = Some (a, e) ->
  malloc fuel 8208 (n_heap s) = Done (addr, h') -> is_u32 addr ->
  init_receive_descriptor fuel i s =
  Done (tt, mk_nic (n_dev s) h'
    (Some (a, with_rx_descs (alter (arm_desc addr) (Z.to_nat i) (rx_descs e)) e)) (n_queue s)).
Proof.
  intros He Hm Ha. unfold init_receive_descriptor, heap_malloc, update_rx, update. st_step.
  change (MAX_PACKET_SIZE + sizeof_rx_desc) with 8208. rewrite Hm. simpl. rewrite He. simpl.
  unfold with_rx_descs, set_n_e1000, set_n_heap. simpl. rewrite (u32_id addr) by done.
  by rewrite alter_alter.
Qed.

(** The loop over the first [n] descriptors. *)
Lemma init_receive_loop n fuel s a e sp :
  n_e1000 s = Some (a, e) -> length (rx_descs e) = 32%nat -> (n <= 32)%nat ->
  heap_rep (n_heap s) sp -> (length (s_free sp) < fuel)%nat ->
  s_brk sp + Z.of_nat n * gross 8208 <= HEAP_START + HEAP_SIZE ->
  exists s' e' sp' blocks,
    for_each (zseq n) (init_receive_descriptor fuel) s = Done (tt, s') /\
    n_e1000 s' = Some (a, with_rx_descs (rx_descs e') e) /\ length (rx_descs e') = 32%nat /\
    n_dev s' = n_dev s /\ n_queue s' = n_queue s /\
    heap_rep (n_heap s') sp' /\ s_used sp' = reverse blocks ++ s_used sp /\ length blocks = n /\
    s_brk sp' <= s_brk sp + Z.of_nat n * gross 8208 /\
    (length (s_free sp') <= length (s_free sp))%nat /\
    Forall (fun x => 8208 + 16 <= x.2) blocks /\
    (forall i, (i < n)%nat -> exists x, blocks !! i = Some x /\
       rx_addr (rx_descs e' !!! i) = x.1 + 16 /\ rx_status (rx_descs e' !!! i) = 0).
Proof.
  intros He Hlen Hn Hrep Hfuel Hroom. induction n as [|n IH].
  - exists s, e, sp, []. split_and!; try done; try lia. by destruct e.
  - assert (0 < gross 8208) as Hg by done.
    destruct IH as (s1 & e1 & sp1 & bl & Hrun & He1 & Hlen1 & Hd1 & Hq1 & Hrep1 & Hu1 & Hbl & Hbrk1 & Hf1 & Hsz1 & Hdesc1);
      [lia|lia|].
    unfold zseq. rewrite seq_S, fmap_app, for_each_app. simpl.
    rewrite (bind_done _ _ _ tt s1 Hrun).
    destruct (malloc_room fuel 8208 (n_heap s1) sp1) as (x & h' & sp' & Hm & Hrep' & Hu' & Hsz & Hx32 & Hbrk' & Hf' & _);
      [done|lia|lia|lia|].
    rewrite (bind_done _ _ _ tt _ (init_receive_descriptor_eq fuel _ s1 a _ _ h' He1 Hm Hx32)).
    eexists _, (with_rx_descs (alter (arm_desc (x.1 + 16)) n (rx_descs e1)) e), sp', (bl ++ [x]).
    split; [reflexivity|]. simpl. rewrite Nat2Z.id.
    split_and!; try done; try lia.
    + by rewrite length_alter.
    + by rewrite Hu', Hu1, reverse_snoc.
    + rewrite length_app. simpl. lia.
    + apply Forall_app. split; [done|]. by repeat constructor.
    + intros i Hi. destruct (decide (i = n)) as [->|Hne].
      * exists x. rewrite lookup_app_r, Hbl, Nat.sub_diag by lia.
        destruct (lookup_lt_is_Some_2 (rx_descs e1) n) as [d Hd]; [lia|].
        rewrite (list_lookup_total_correct _ n (arm_desc (x.1 + 16) d)); [done|].
        by rewrite list_lookup_alter_eq, Hd.
      * destruct (Hdesc1 i ltac:(lia)) as (y & Hy & Hya & Hys). exists y.
        rewrite lookup_app_l by (apply lookup_lt_Some in Hy; lia).
        rewrite !list_lookup_total_alt, list_lookup_alter_ne by done.
        rewrite !list_lookup_total_alt in Hya, Hys. done.
Qed.

(** Register writes keep everything but the devices. *)
Lemma write_command_eq reg v s a e :
  n_e1000 s = Some (a, e) ->
  write_command reg v s =
  Done (tt, set_n_dev (pci_write32 (u32 (e_mem_base e + u16 reg)) v (n_dev s)) s).
Proof. intros He. unfold write_command, e1000, bus_do, on_bus. st_step. by rewrite He. Qed.

(** A sequence of register writes. *)
Definition program_registers (base : Z) (l : list (Z * Z)) (d : D) : D :=
  foldl (fun d rv => pci_write32 (u32 (base + rv.1)) rv.2 d) d l.

(** The receive side after initialisation: every descriptor has a block of its
    own. *)
Lemma init_receive_descriptors_spec fuel s a e sp :
  n_e1000 s = Some (a, e) -> length (rx_descs e) = 32%nat ->
  heap_rep (n_heap s) sp -> (length (s_free sp) < fuel)%nat ->
  s_brk sp + 32 * gross 8208 <= HEAP_START + HEAP_SIZE ->
  exists s' rx sp' bl, init_receive_descriptors fuel s = Done (tt, s') /\
    n_e1000 s' = Some (a, with_cursors 0 (tx_cur e) (with_rx_descs rx e)) /\ length rx = 32%nat /\
    n_queue s' = n_queue s /\ heap_rep (n_heap s') sp' /\ s_used sp' = reverse bl ++ s_used sp /\
    (length (s_free sp') <= length (s_free sp))%nat /\ Forall (fun x => 8208 + 16 <= x.2) bl /\
    n_dev s' = program_registers (e_mem_base e)
      [(0x2800, u32 a); (0x2804, 0); (0x2808, 512); (0x2810, 0); (0x2818, 31); (0x100, 0x602801E)]
      (n_dev s) /\
    (forall i, (i < 32)%nat -> exists x, bl !! i = Some x /\
       rx_addr (rx !!! i) = x.1 + 16 /\ rx_status (rx !!! i) = 0) /\
    s_brk sp' <= s_brk sp + 32 * gross 8208.
Proof.
  intros He Hlen Hrep Hfuel Hroom.
  destruct (init_receive_loop 32 fuel s a e sp) as (s1 & e1 & sp1 & bl & Hrun & He1 & Hlen1 & Hd1
    & Hq1 & Hrep1 & Hu1 & Hbl & Hbrk1 & Hf1 & Hsz & Hdesc); [done..|lia|].
  eexists _, (rx_descs e1), sp1, bl. split.
  { unfold init_receive_descriptors. rewrite (bind_done _ _ _ tt s1 Hrun).
    rewrite (bind_done _ _ s1 a s1) by (unfold e1000_address; by rewrite He1).
    do 5 (erewrite bind_done by (eapply write_command_eq; done)).
    erewrite bind_done by (unfold update; simpl; rewrite He1; done).
    erewrite write_command_eq by done. reflexivity. }
  split_and!; try done. cbn. by rewrite Hd1.
Qed.

(** ** Initialisation always returns *)

(** The driver's structure is allocated and the heap is consistent, with
    [fuel] for its free list. *)
Definition driver_ok (fuel : nat) (s : nic_state D) : Prop :=
  is_Some (n_e1000 s) /\ exists sp, heap_rep (n_heap s) sp /\ (length (s_free sp) < fuel)%nat.

Section Returns.
Variable fuel : nat.
Abbreviation ok := (driver_ok fuel).

Lemma e1000_returns : returns ok e1000.
Proof. intros s [[[a e] He] Hh]. exists e, s. unfold e1000. rewrite He. split; [done|]. by split; [eauto|]. Qed.

Lemma e1000_address_returns : returns ok e1000_address.
Proof. intros s [[[a e] He] Hh]. exists a, s. unfold e1000_address. rewrite He. split; [done|]. by split; [eauto|]. Qed.

Lemma update_returns f : returns ok (update f).
Proof.
  intros s [[[a e] He] Hh]. eexists tt, _. unfold update. rewrite He. split; [done|]. by split; [eexists|].
Qed.

Lemma on_bus_returns {A} (f : D -> A * D) : returns ok (on_bus f).
Proof.
  intros s [He Hh]. unfold on_bus, lift. destruct (f (n_dev s)) as [v d]. eexists v, _.
  split; [done|]. by split.
Qed.

Lemma heap_malloc_returns size : 0 <= size < 2147483648 -> returns ok (heap_malloc fuel size).
Proof.
  intros Hsize s [He (sp & Hrep & Hf)]. unfold heap_malloc, zoom.
  destruct (malloc_spec fuel size (n_heap s) sp Hrep Hsize Hf) as (h' & -> & Hrep' & _).
  eexists _, _. split; [done|]. split; [done|]. eexists. split; [exact Hrep'|].
  pose proof (spec_malloc_free size sp). lia.
Qed.

Hint Resolve e1000_returns e1000_address_returns update_returns on_bus_returns heap_malloc_returns : returns.

Lemma write_command_returns reg v : returns ok (write_command reg v).
Proof. unfold write_command, bus_do. solve_returns. Qed.

Lemma read_command_returns reg : returns ok (read_command reg).
Proof. unfold read_command. solve_returns. Qed.

Hint Resolve write_command_returns read_command_returns : returns.

Lemma detect_eeprom_loop_returns n : returns ok (detect_eeprom_loop n).
Proof. induction n as [|n IH]; cbn [detect_eeprom_loop]; solve_returns. Qed.

Hint Resolve detect_eeprom_loop_returns : returns.

Lemma start_e1000_returns : returns ok (start_e1000 fuel).
Proof.
  unfold start_e1000, detect_eeprom, read_e1000_hardware_address, start_link, enable_interrupt,
    init_receive_descriptors, init_transmit_descriptors, init_receive_descriptor, update_rx, bus_do.
  solve_returns. apply heap_malloc_returns. by vm_compute.
Qed.

Hint Resolve start_e1000_returns : returns.

Lemma returns_run (m : NM unit) s :
  returns ok m -> ok s -> exists s' sp', m s = Done (tt, s') /\ heap_rep (n_heap s') sp'.
Proof. intros Hm Hs. destruct (Hm s Hs) as ([] & s' & Hs' & _ & sp & Hsp & _). by exists s', sp. Qed.

(** Whatever the card answers, the PCI table holds and [malloc] leaves in
    the structure, [e1000_init] returns with a consistent heap. *)
Lemma e1000_init_returns now garbage table (s : nic_state D) sp :
  heap_rep (n_heap s) sp -> (length (s_free sp) < fuel)%nat ->
  exists s' sp', e1000_init now fuel garbage table s = Done (tt, s') /\ heap_rep (n_heap s') sp'.
Proof.
  intros Hrep Hf. unfold e1000_init.
  destruct (malloc_spec fuel sizeof_e1000_device (n_heap s) sp) as (h & Hm & Hrep' & _); [done|by vm_compute|done|].
  erewrite bind_done by (unfold heap_malloc, zoom; rewrite Hm; done).
  pose proof (spec_malloc_free sizeof_e1000_device sp) as Hfree.
  destruct (_ =? NULL); [by eexists _, _|].
  erewrite bind_done by done. apply returns_run.
  - apply returns_bind; [auto with returns|]. intros _. unfold nic_log, bus_do. case_match; solve_returns.
  - split; [by eexists|]. eexists. split; [exact Hrep'|]. lia.
Qed.

End Returns.

(** ** Properties *)

(** C16: [e1000_send_packet] fills the descriptor at the transmit cursor with
    the packet's address and length, advances the cursor around the ring of
    eight, writes the new cursor to the tail register, and returns 0 as soon as
    the card has reported a status for that descriptor, whatever else the card
    does meanwhile; a card that never reports one keeps it waiting for ever. *)
Theorem e1000_send_packet_correct fuel p_data p_len s a e k d :
  n_e1000 s = Some (a, e) -> is_Some (e_pci_device e) ->
  length (tx_descs e) = 8%nat -> 0 <= tx_cur e < 8 ->
  tx_descs e !! Z.to_nat (tx_cur e) = Some d ->
  let s1 := doorbell a e p_data p_len s in
  (exists e1, n_e1000 s1 = Some (a, e1) /\ tx_cur e1 = (tx_cur e + 1) `mod` 8 /\
     tx_descs e1 !! Z.to_nat (tx_cur e) =
       Some (mk_tx_desc (u32 p_data) (u16 p_len) (tx_cso d) 0x0B 0 (tx_css d) (tx_special d)) /\
     n_dev s1 = program_registers (e_mem_base e) [(0x3818, tx_cur e1)] (n_dev s)) /\
  ((forall j, (j < k)%nat -> tx_status_at (tx_cur e) (Nat.iter (S j) acts s1) = Some 0) ->
   (exists v, tx_status_at (tx_cur e) (Nat.iter (S k) acts s1) = Some v /\ v <> 0) ->
   (k < fuel)%nat ->
   e1000_send_packet fuel p_data p_len s = Done (0, Nat.iter (S k) acts s1)) /\
  ((forall j, tx_status_at (tx_cur e) (Nat.iter (S j) acts s1) = Some 0) ->
   e1000_send_packet fuel p_data p_len s = NoFuel).
Proof.
  intros He Hav Hlen Hcur Hd s1. split_and!.
  - eexists. split; [done|]. simpl. split_and!; [done| |done].
    by rewrite list_lookup_alter_eq, Hd.
  - intros Hz Hv Hk. rewrite (e1000_send_packet_eq _ _ _ _ a e) by done.
    by rewrite (bind_done _ _ _ tt _ (wait_sent_returns fuel _ k s1 Hz Hv Hk)).
  - intros Hz. rewrite (e1000_send_packet_eq _ _ _ _ a e) by done.
    unfold mbind, st_bind. fold s1. by rewrite wait_sent_spins.
Qed.

Lemma drain_queue now base l q (d : D) :
  (foldl (drain now base) (q, d) l).1 = push_packets l.*2 q.
Proof. revert q d. induction l as [|x l IH]; intros q d; [done|]. cbn [foldl]. unfold drain at 2. by rewrite IH. Qed.

(** With room for all packets nothing is logged. *)
Lemma drain_room now base l q (d : D) :
  pqueue_ok q -> Forall packet_fits l.*2 -> (length (packets q) + length l <= 127)%nat ->
  (foldl (drain now base) (q, d) l).2 = program_registers base ((fun x => (0x2818, x.1)) <$> l) d.
Proof.
  revert q d. induction l as [|[i x] l IH]; intros q d Hq Hl Hroom; [done|].
  apply Forall_cons in Hl as [Hx Hl]. cbn [length] in Hroom. cbn [foldl fmap list_fmap fst]. unfold drain at 2.
  unfold after_insert. cbn [fst snd]. rewrite queue_full_spec, bool_decide_false by (done || lia).
  destruct (insert_packet_room x q Hq Hx ltac:(lia)) as (? & q' & Hi & _ & _ & Hq' & Hp).
  assert (push_packet x q = q') as -> by (unfold push_packet; by rewrite Hi).
  rewrite IH by (done || (rewrite Hp, length_app; cbn [length]; lia)). done.
Qed.

(** C18: The receive interrupt on a quiet card: with the [k] descriptors from
    the receive cursor on filled and the next one not, [receive_packet] ends,
    hands exactly their packets to the receive queue in ring order, clears
    their status and no other, gives each slot back through the tail register
    and leaves the cursor behind them. Every packet the queue has no room for is
    logged, and nothing is when there is room for all. *)
Theorem receive_packet_drains now k fuel s a e :
  (forall a x, card_step a x = x) ->
  n_e1000 s = Some (a, e) -> is_Some (e_pci_device e) -> rx_ok e -> pqueue_ok (n_queue s) ->
  (k <= 32)%nat -> (k < fuel)%nat ->
  (forall j, (j < k)%nat -> rx_done (rx_descs e) ((rx_cur e + Z.of_nat j) `mod` 32)) ->
  ((k < 32)%nat -> ~ rx_done (rx_descs e) ((rx_cur e + Z.of_nat k) `mod` 32)) ->
  let slots := ring_slots 32 (rx_cur e) k in
  let received := rx_packet (ram (n_heap s)) (rx_descs e) <$> slots in
  exists s' e', receive_packet now fuel s = Done (tt, s') /\
    n_queue s' = push_packets received (n_queue s) /\
    n_dev s' = (foldl (drain now (e_mem_base e)) (n_queue s, n_dev s) (zip slots received)).2 /\
    ((length (packets (n_queue s)) + k <= 127)%nat ->
       n_dev s' = program_registers (e_mem_base e) ((fun i => (0x2818, i)) <$> slots) (n_dev s)) /\
    n_heap s' = n_heap s /\ n_e1000 s' = Some (a, e') /\
    rx_cur e' = (rx_cur e + Z.of_nat k) `mod` 32 /\
    forall j, 0 <= j < 32 -> rx_descs e' !!! Z.to_nat j =
      if decide (j ∈ slots) then clear_status (rx_descs e !!! Z.to_nat j) else rx_descs e !!! Z.to_nat j.
Proof.
  intros Hquiet He [p Hp] Hok Hq Hk Hfuel Hdone Hstop slots received.
  destruct (rx_consume_n_eq now k s a e He Hok Hk) as (Hh & Hqd & e' & He' & _ & Hc & Hl).
  fold slots in Hqd. set (f := rx_packet (ram (n_heap s)) (rx_descs e)) in *.
  assert (zip slots received = (fun i => (i, f i)) <$> slots) as Hzip
    by (unfold received; clear; induction slots as [|i l IH]; [done|]; cbn; by rewrite <- IH).
  rewrite <- Hzip in Hqd.
  assert ((zip slots received).*2 = received) as Hsnd
    by (apply snd_zip; unfold received; by rewrite length_fmap).
  assert (length slots = k) as Hlen by apply length_ring_slots.
  exists (rx_consume_n now k s), e'. split_and!; try done.
  - unfold receive_packet, e1000_is_available, e1000. st_step. rewrite He. simpl.
    rewrite Hp. simpl. by apply (receive_loop_drains Hquiet now k fuel s a e).
  - apply (f_equal fst) in Hqd. cbn [fst] in Hqd. by rewrite Hqd, drain_queue, Hsnd.
  - by apply (f_equal snd) in Hqd.
  - intros Hroom. apply (f_equal snd) in Hqd. cbn [snd] in Hqd. rewrite Hqd, drain_room; [|done| |].
    + f_equal. rewrite Hzip, <- list_fmap_compose. done.
    + rewrite Hsnd. apply Forall_fmap, Forall_forall. intros i Hi.
      apply elem_of_ring_slots in Hi as (j & Hj & ->); [|apply Hok].
      rewrite <- (Z2Nat.id j) by lia.
      apply rx_packet_fits; [done|word_lia|apply Hdone; lia].
    + rewrite length_zip, Hlen. unfold received. rewrite length_fmap. lia.
Qed.

(** Given room for them, [init_receive_descriptors] arms all 32 receive
    descriptors with 16-byte aligned buffers of 8208 bytes that overlap neither
    each other nor any block allocated before, and programs the ring's base,
    length, head, tail and the receive control register. *)
Theorem init_receive_descriptors_correct fuel s a e sp :
  n_e1000 s = Some (a, e) -> length (rx_descs e) = 32%nat ->
  heap_rep (n_heap s) sp -> (length (s_free sp) < fuel)%nat ->
  s_brk sp + 32 * gross 8208 <= HEAP_START + HEAP_SIZE ->
  exists s' e' sp', init_receive_descriptors fuel s = Done (tt, s') /\
    n_e1000 s' = Some (a, e') /\ rx_cur e' = 0 /\ heap_rep (n_heap s') sp' /\
    n_dev s' = program_registers (e_mem_base e)
      [(0x2800, u32 a); (0x2804, 0); (0x2808, 512); (0x2810, 0); (0x2818, 31); (0x100, 0x602801E)]
      (n_dev s) /\
    (forall i, (i < 32)%nat -> let x := rx_addr (rx_descs e' !!! i) in
       rx_status (rx_descs e' !!! i) = 0 /\ x `mod` 16 = 0 /\
       HEAP_START <= x /\ x + 8208 <= HEAP_START + HEAP_SIZE /\
       (forall y, y ∈ s_used sp -> separate x 8208 y.1 y.2) /\
       (forall j, (j < 32)%nat -> i <> j -> separate x 8208 (rx_addr (rx_descs e' !!! j)) 8208)).
Proof.
  intros He Hlen Hrep Hfuel Hroom.
  destruct (init_receive_descriptors_spec fuel s a e sp) as (s1 & rx & sp1 & bl & Hrun & He1 & Hlen1
    & _ & Hrep1 & Hu1 & _ & Hsz & Hd1 & Hdesc & _); [done..|].
  eexists s1, _, sp1. do 5 (split; [done|]).
  destruct Hrep1 as ((Hok & _ & Hbnd) & _). pose proof Hok as (Hnd & _ & _).
  assert (forall x, x ∈ bl -> x ∈ s_free sp1 ++ s_used sp1) as Hin
    by (intros x Hx; rewrite Hu1, !elem_of_app, elem_of_reverse; auto).
  intros i Hi. simpl. destruct (Hdesc i Hi) as (x & Hx & Hxa & Hxs). rewrite Hxa, Hxs.
  pose proof (list_elem_of_lookup_2 _ _ _ Hx) as Hxin.
  destruct (blocks_ok_wf _ _ _ Hok (Hin x Hxin)) as (?&?&?&?&?).
  pose proof (Forall_lookup_1 _ _ _ _ Hsz Hx) as Hxsz. simpl in Hxsz.
  rewrite Hu1 in Hnd. apply NoDup_app in Hnd as (_ & _ & Hnd).
  apply NoDup_app in Hnd as (Hnd1 & Hnd2 & _). rewrite reverse_Permutation in Hnd1.
  split_and!; [done|word_lia|lia|lia| |].
  + intros y Hy. assert (x <> y) as Hxy
      by (intros ->; apply (Hnd2 y); [by apply elem_of_reverse|done]).
    assert (y ∈ s_free sp1 ++ s_used sp1) as Hyin by (rewrite Hu1, !elem_of_app; auto).
    pose proof (blocks_ok_sep _ _ _ _ Hok (Hin x Hxin) Hyin Hxy).
    unfold separate in *. lia.
  + intros j Hj Hij. destruct (Hdesc j Hj) as (y & Hy & Hya & _). rewrite Hya.
    pose proof (list_elem_of_lookup_2 _ _ _ Hy) as Hyin.
    assert (x <> y) as Hxy by (intros ->; apply Hij; by eapply NoDup_lookup).
    pose proof (blocks_ok_sep _ _ _ _ Hok (Hin x Hxin) (Hin y Hyin) Hxy).
    pose proof (Forall_lookup_1 _ _ _ _ Hsz Hy). unfold separate in *. simpl in *. lia.
Qed.

(** The loop of [detect_eeprom] runs only while [eeprom_exists] is false,
    but [malloc] does not clear the structure the flag lies in: if its memory
    held a nonzero byte there, the flag stays set whatever the card answers. *)
Theorem detect_eeprom_trusts_garbage s a e :
  n_e1000 s = Some (a, e) -> eeprom_exists e = true ->
  exists s', detect_eeprom s = Done (tt, s') /\ n_e1000 s' = Some (a, e) /\
    n_dev s' = program_registers (e_mem_base e) [(REG_EEPROM, 1)] (n_dev s).
Proof.
  intros He Hb. eexists. unfold detect_eeprom.
  rewrite (bind_done _ _ _ _ _ (write_command_eq _ _ _ _ _ He)).
  cbn [detect_eeprom_loop]. unfold e1000. st_step. simpl. rewrite He, Hb. done.
Qed.

End E1000.

(** ** Witnesses *)

Definition quiet_card : Card regfile := fun _ x => x.

(** A card that reports every descriptor it is given as sent at once. *)
Definition prompt_card : Card regfile := fun _ '(d, m, rx, tx) =>
  (d, m, rx, (fun t => mk_tx_desc (tx_addr t) (tx_length t) (tx_cso t) (tx_cmd t) 1
                         (tx_css t) (tx_special t)) <$> tx).

Definition example_e1000 : e1000_device :=
  mk_e1000 (replicate 32 (mk_rx_desc 0x5001000 3 0 0 0 0)) (replicate 8 (mk_tx_desc 0 0 0 0 0 0 0))
    0x43000000 0x50000000 true [0x52; 0x54; 0; 0x12; 0x34; 0x56] 31 7 (Some 2%nat).

Definition example_nic (e : e1000_device) : nic_state regfile :=
  mk_nic (mk_regfile ∅) (initial_heap (write_bytes ∅ 0x5001000 [10; 20; 30]))
    (Some (0x5000010, e)) pqueue_boot.

Lemma e1000_send_packet_correct_witness :
  exists s', e1000_send_packet (card := prompt_card) 1 0x5002000 60 (example_nic example_e1000) = Done (0, s').
Proof.
  destruct (e1000_send_packet_correct (card := prompt_card) 1 0x5002000 60 (example_nic example_e1000)
    0x5000010 example_e1000 0 (mk_tx_desc 0 0 0 0 0 0 0)) as (_ & H & _);
    [done|by exists 2%nat|done|simpl; lia|done|].
  eexists. apply H; [intros; lia| |lia].
  exists 1. split; [vm_compute; reflexivity|lia].
Defined.

(** Slots 31 and 0 are filled. *)
Definition example_received : e1000_device :=
  let filled := mk_rx_desc 0x5001000 3 0 1 0 0 in
  with_rx_descs (<[31%nat := filled]> (<[0%nat := filled]> (rx_descs example_e1000))) example_e1000.

Lemma receive_packet_drains_witness :
  exists s', receive_packet (card := quiet_card) 0 3 (example_nic example_received) = Done (tt, s') /\
    packets (n_queue s') = [[10; 20; 30]; [10; 20; 30]].
Proof.
  destruct (receive_packet_drains (card := quiet_card) 0 2 3 (example_nic example_received)
    0x5000010 example_received) as (s' & e' & Hr & Hq & _).
  - done.
  - done.
  - by exists 2%nat.
  - split_and!; [done|simpl; lia|simpl; lia|]. apply (bool_decide_unpack _). vm_compute. done.
  - apply pqueue_boot_ok.
  - lia.
  - lia.
  - intros [|[|j]] Hj; [| |lia]; apply (bool_decide_unpack _); vm_compute; done.
  - intros _. unfold rx_done. vm_compute. intros Hn. by apply Hn.
  - exists s'. split; [exact Hr|]. rewrite Hq. vm_compute. reflexivity.
Defined.

Lemma init_receive_descriptors_correct_witness :
  exists s' e', init_receive_descriptors (cpu := LittleEndian) 1 (example_nic example_e1000) = Done (tt, s') /\
    n_e1000 s' = Some (0x5000010, e') /\ rx_addr (rx_descs e' !!! 5%nat) `mod` 16 = 0.
Proof.
  destruct (init_receive_descriptors_correct (cpu := LittleEndian) 1 (example_nic example_e1000)
    0x5000010 example_e1000 (mk_spec [] [] HEAP_START)) as (s' & e' & _ & Hr & He & _ & _ & _ & Hall);
    [done|done|apply initial_heap_rep|simpl; lia|vm_compute; done|].
  exists s', e'. destruct (Hall 5%nat ltac:(lia)) as (_ & Hm & _). by repeat split.
Defined.

Lemma detect_eeprom_trusts_garbage_witness :
  exists s', detect_eeprom (example_nic example_e1000) = Done (tt, s') /\
    n_e1000 s' = Some (0x5000010, example_e1000).
Proof.
  destruct (detect_eeprom_trusts_garbage (example_nic example_e1000) 0x5000010 example_e1000)
    as (s' & Hr & He & _); [done|done|]. by exists s'.
Defined.
