(* ===== verification/Ethernet.v ===== *)
(** * Ethernet: kernel/network/ethernet.c

    [ethernet_send] builds the frame in a heap block, hands it to the network
    card and frees the block.  What it needs of the card is the interface
    [Nic] with its promises [NicLaws]; the driver of E1000.v implements it. *)

From stdpp Require Import strings.
From S2P Require Import Prelude StateMonad Memory Heap Bus Clock Stdio Logger NetworkIo.

(** ** The network card as its clients see it *)

Class Nic (S : Type) := {
  nic_heap : S -> heap;
  nic_set_heap : heap -> S -> S;
  nic_get_mac : ST S (list Z);          (* e1000_get_mac *)
  nic_send_packet : Z -> Z -> ST S Z;   (* e1000_send_packet *)
  nic_log : Z -> Z -> list Z -> list Z -> S -> S;   (* LOG_ERROR, at a time *)
}.

(** [nic_sent] lists the packets the card has put on the wire so far;
    [nic_dma] are the bytes of RAM the card may write by itself at any time, the
    buffers of received packets. *)
Class NicLaws (S : Type) `{Nic S} := {
  nic_ready : S -> Prop;
  nic_mac : S -> list Z;
  nic_sent : S -> list (list Z);
  nic_dma : S -> Z -> Prop;
  nic_get_set h s : nic_heap (nic_set_heap h s) = h;
  nic_set_set h h' s : nic_set_heap h (nic_set_heap h' s) = nic_set_heap h s;
  nic_set_ready h s : nic_ready s -> nic_ready (nic_set_heap h s);
  nic_set_mac h s : nic_mac (nic_set_heap h s) = nic_mac s;
  nic_set_sent h s : nic_sent (nic_set_heap h s) = nic_sent s;
  nic_set_dma h s a : nic_dma (nic_set_heap h s) a <-> nic_dma s a;
  nic_mac_wf s : nic_ready s -> mac_wf (nic_mac s);
  nic_get_mac_ok s : nic_ready s -> nic_get_mac s = Done (nic_mac s, s);
  nic_send_ok p len s : nic_ready s -> is_u32 p -> is_u16 len ->
    (forall a, p <= a < p + len -> ~ nic_dma s a) ->
    exists r s' m', nic_send_packet p len s = Done (r, s') /\ nic_ready s' /\
      nic_heap s' = set_ram m' (nic_heap s) /\
      (forall a, ~ nic_dma s a -> get8 m' a = get8 (ram (nic_heap s)) a) /\
      nic_mac s' = nic_mac s /\ (forall a, nic_dma s' a <-> nic_dma s a) /\
      nic_sent s' = nic_sent s ++ [read_bytes (ram (nic_heap s)) p (Z.to_nat len)];
  nic_log_ok now severity file message s : nic_ready s -> printable_log severity file message ->
    let s' := nic_log now severity file message s in
    nic_ready s' /\ nic_heap s' = nic_heap s /\ nic_mac s' = nic_mac s /\ nic_sent s' = nic_sent s /\
    (forall a, nic_dma s' a <-> nic_dma s a);
}.

(** ** Definitions *)

Definition ETH_MAC_ADDRESS_LENGTH : Z := 6.
Definition MINIMUM_PAYLOAD_LENGTH : Z := 46.
Definition NULL_MAC : list Z := [0x00; 0x00; 0x00; 0x00; 0x00; 0x00].
Definition BROADCAST_MAC : list Z := [0xff; 0xff; 0xff; 0xff; 0xff; 0xff].
Definition TYPE_ARP : Z := 0x0806.
Definition TYPE_IPv4 : Z := 0x0800.
Definition TYPE_IPv6 : Z := 0x86dd.

(** [ethernet_frame_t] is packed: two MAC addresses, a two-byte type and the
    payload. *)
Definition off_dest_mac : Z := 0.
Definition off_src_mac : Z := 6.
Definition off_ether_type : Z := 12.
Definition sizeof_ethernet_frame : Z := 14.

Section Ethernet.
Context {S : Type} `{Nic S} {cpu : Cpu} {board : Board}.

(** Stores and string routines on RAM. *)
Definition on_ram (f : mem -> mem) : ST S unit :=
  modify (fun s => nic_set_heap (set_ram (f (ram (nic_heap s))) (nic_heap s)) s).

Definition kmalloc (fuel : nat) (size : Z) : ST S Z :=
  zoom nic_heap nic_set_heap (malloc fuel size).
Definition kfree (ptr : Z) : ST S unit :=
  modify (fun s => nic_set_heap (free ptr (nic_heap s)) s).

Definition ethernet_padding (len_payload : Z) : Z :=
  u8 (if len_payload <? MINIMUM_PAYLOAD_LENGTH then MINIMUM_PAYLOAD_LENGTH - len_payload else 0).

Definition ethernet_send (fuel : nat) (dest_mac : list Z) (eth_type payload len_payload : Z) : ST S unit :=
  let len_padding := ethernet_padding len_payload in
  let len := u32 (len_padding + len_payload) in
  eth_frame ← kmalloc fuel (u32 (sizeof_ethernet_frame + len));
  on_ram (fun m => write_bytes m (eth_frame + off_dest_mac) (hton_mac dest_mac)) ;;
  mac ← nic_get_mac;
  on_ram (fun m => write_bytes m (eth_frame + off_src_mac) (hton_mac mac)) ;;
  on_ram (fun m => store cpu_endian 2 m (eth_frame + off_ether_type) (htons eth_type)) ;;
  on_ram (fun m => memcpy m (eth_frame + sizeof_ethernet_frame) payload len) ;;
  (if negb (len_padding =? 0)
   then on_ram (fun m => memset m (eth_frame + sizeof_ethernet_frame + len_payload) 0 len_padding)
   else mret ()) ;;
  _ ← nic_send_packet eth_frame (u16 (sizeof_ethernet_frame + len));
  kfree eth_frame.

End Ethernet.

Definition INTTOHEXCHAR (val : Z) : Z := if 9 <? val then val + 97 - 10 else val + 48.

(** The string literal [mac_to_str] writes into, without its NUL. *)
Definition mac_to_str_loop (mac : list Z) (tmp : list Z) : list Z :=
  foldl (fun tmp i =>
    let b := mac !!! Z.to_nat i in
    let tmp := <[Z.to_nat (3 * i) := u8 (INTTOHEXCHAR (Z.shiftr b 4))]> tmp in
    <[Z.to_nat (3 * i + 1) := u8 (INTTOHEXCHAR (Z.land b 0x0F))]> tmp) tmp (zseq 6).

Definition mac_to_str {board : Board} (mac : list Z) (tmp : list Z) : list Z :=
  mac_to_str_loop (hton_mac mac) tmp.

(** [for (i = 0; i < 6; i++) if (mac1[i] != mac2[i]) return 0;] *)
Fixpoint mac_address_equal_loop (mac1 mac2 : list Z) (idx : list Z) : bool :=
  match idx with
  | [] => true
  | i :: rest =>
      if negb (mac1 !!! Z.to_nat i =? mac2 !!! Z.to_nat i) then false
      else mac_address_equal_loop mac1 mac2 rest
  end.

Definition mac_address_equal (mac1 mac2 : list Z) : bool :=
  mac_address_equal_loop mac1 mac2 (zseq 6).

(** ** Lemmas *)

Lemma mac_address_equal_spec mac1 mac2 :
  length mac1 = 6%nat -> length mac2 = 6%nat -> mac_address_equal mac1 mac2 = true <-> mac1 = mac2.
Proof.
  intros H1 H2.
  do 6 (destruct mac1 as [|? mac1]; [discriminate H1|]). destruct mac1; [|discriminate H1].
  do 6 (destruct mac2 as [|? mac2]; [discriminate H2|]). destruct mac2; [|discriminate H2].
  match goal with |- mac_address_equal [?a1; ?a2; ?a3; ?a4; ?a5; ?a6]
                       [?b1; ?b2; ?b3; ?b4; ?b5; ?b6] = true <-> _ =>
    change (mac_address_equal _ _) with
      (if negb (a1 =? b1) then false else if negb (a2 =? b2) then false else
       if negb (a3 =? b3) then false else if negb (a4 =? b4) then false else
       if negb (a5 =? b5) then false else if negb (a6 =? b6) then false else true)
  end.
  repeat (match goal with |- context [?a =? ?b] => destruct (Z.eqb_spec a b) end; cbn;
    [|split; [done|congruence]]).
  subst. done.
Qed.

(** Writing to a live block's payload does not disturb the heap. *)
Lemma rep_set_ram {cpu : Cpu} h s m' :
  heap_rep h s ->
  (forall y a, y ∈ s_free s ++ s_used s -> y.1 <= a < y.1 + 8 -> get8 m' a = get8 (ram h) a) ->
  heap_rep (set_ram m' h) s.
Proof.
  intros (Hspec & Hcur & Hch & Hused) Hf. split; [done|]. split; [done|].
  assert (forall y d, y ∈ s_free s ++ s_used s -> d = 0 \/ d = 4 ->
    load32 (set_ram m' h) (y.1 + d) = load32 h (y.1 + d)) as Hl.
  { intros y d Hy Hd. unfold load32. simpl. apply load_ext.
    intros a Ha. apply (Hf y); [done|lia]. }
  split.
  - eapply chain_frame; [|exact Hch]. intros y Hy. split; [|apply Hl; [set_solver|lia]].
    rewrite <- (Z.add_0_r y.1) at 1 2. apply Hl; [set_solver|lia].
  - eapply used_frame; [|exact Hused]. intros y Hy. apply Hl; [set_solver|lia].
Qed.

(** The part of a copy whose source the copy does not overwrite. *)
Lemma memcpy_loop_prefix k m0 m dest src i n :
  separate dest (i + Z.of_nat n) src (Z.of_nat k) -> 0 <= i -> i + Z.of_nat n >= Z.of_nat k ->
  (forall x, src <= x < src + Z.of_nat k -> get8 m x = get8 m0 x) ->
  (forall x, 0 <= x < Z.min i (Z.of_nat k) -> get8 m (dest + x) = get8 m0 (src + x)) ->
  forall x, 0 <= x < Z.of_nat k -> get8 (memcpy_loop m dest src i n) (dest + x) = get8 m0 (src + x).
Proof.
  revert m i. induction n as [|n IH]; intros m i Hsep Hi Hn Hsrc Hdone x Hx; simpl.
  - apply Hdone. lia.
  - unfold separate in Hsep. apply IH; try lia.
    + unfold separate. lia.
    + intros y Hy. rewrite get8_put8, decide_False by lia. by apply Hsrc.
    + intros y Hy. rewrite get8_put8. case_decide as Hd; [|apply Hdone; lia].
      assert (y = i) as -> by lia. rewrite u8_id by apply get8_range. apply Hsrc. lia.
Qed.

Lemma memcpy_loop_outside m dest src i n x :
  ~ (dest + i <= x < dest + i + Z.of_nat n) -> get8 (memcpy_loop m dest src i n) x = get8 m x.
Proof.
  revert m i. induction n as [|n IH]; intros m i Hx; simpl; [done|].
  rewrite IH by lia. rewrite get8_put8, decide_False by lia. done.
Qed.

Lemma memcpy_prefix m dest src n k :
  separate dest n src (Z.of_nat k) -> 0 <= n -> Z.of_nat k <= n ->
  read_bytes (memcpy m dest src n) dest k = read_bytes m src k.
Proof.
  intros Hsep Hn Hk. apply list_eq. intros j.
  destruct (decide (j < k)%nat) as [Hj|Hj].
  - rewrite !lookup_read_bytes by done. f_equal. unfold memcpy.
    apply (memcpy_loop_prefix k); try done; try lia.
    by rewrite Z2Nat.id, Z.add_0_l by lia.
  - by rewrite !lookup_ge_None_2 by (rewrite length_read_bytes; lia).
Qed.

Lemma memcpy_same_outside m dest src n : 0 <= n -> same_outside m (memcpy m dest src n) dest n.
Proof. intros Hn x Hx. apply memcpy_loop_outside. lia. Qed.

Lemma same_outside_trans m1 m2 m3 a n : same_outside m1 m2 a n -> same_outside m2 m3 a n -> same_outside m1 m3 a n.
Proof. intros H1 H2 x Hx. rewrite H2, H1; done. Qed.

Lemma same_outside_weaken m m' a n a' n' :
  same_outside m m' a' n' -> a <= a' -> a' + n' <= a + n -> same_outside m m' a n.
Proof. intros Hs ? ? x Hx. apply Hs. lia. Qed.

(** ** The frame *)

Section Frame.
Context {cpu : Cpu} {board : Board}.

(** RAM after the frame was built at [f]. *)
Definition frame_ram (m : mem) (f : Z) (dest mac : list Z) (eth_type payload len_payload pad : Z) : mem :=
  let len := pad + len_payload in
  let m := write_bytes m (f + off_dest_mac) (hton_mac dest) in
  let m := write_bytes m (f + off_src_mac) (hton_mac mac) in
  let m := store cpu_endian 2 m (f + off_ether_type) (htons eth_type) in
  let m := memcpy m (f + sizeof_ethernet_frame) payload len in
  if negb (pad =? 0) then memset m (f + sizeof_ethernet_frame + len_payload) 0 pad else m.

(** The bytes of the frame on the wire. *)
Definition frame_bytes (dest mac : list Z) (eth_type : Z) (payload : list Z) (pad : Z) : list Z :=
  hton_mac dest ++ hton_mac mac ++ enc BigEndian 2 eth_type ++ payload ++ replicate (Z.to_nat pad) 0.

Lemma hton_mac_wf mac : mac_wf mac -> mac_wf (hton_mac mac).
Proof. apply ntoh_mac_wf. Qed.

Lemma frame_bytes_length dest mac eth_type payload pad :
  mac_wf dest -> mac_wf mac ->
  length (frame_bytes dest mac eth_type payload pad) = (14 + length payload + Z.to_nat pad)%nat.
Proof.
  intros [Hd _]%hton_mac_wf [Hm _]%hton_mac_wf. unfold frame_bytes.
  rewrite !length_app, length_enc, length_replicate, Hd, Hm. lia.
Qed.

(** Reading back what was written, through writes behind it. *)
Lemma read_bytes_same_outside m m' a n b k :
  same_outside m m' a n -> separate a n b (Z.of_nat k) -> read_bytes m' b k = read_bytes m b k.
Proof. intros Hs Hsep. apply read_bytes_ext. intros x Hx. apply Hs. unfold separate in Hsep. lia. Qed.

Lemma write_mac_same_outside m a mac : mac_wf mac -> same_outside m (write_bytes m a (hton_mac mac)) a 6.
Proof.
  intros Hm. pose proof (write_bytes_same_outside m a (hton_mac mac)) as H.
  destruct (hton_mac_wf mac Hm) as [Hl _]. by rewrite Hl in H.
Qed.

Lemma read_write_mac m a mac : mac_wf mac -> read_bytes (write_bytes m a (hton_mac mac)) a 6 = hton_mac mac.
Proof.
  intros Hm. destruct (hton_mac_wf mac Hm) as [Hl Hb].
  pose proof (read_write_bytes m a (hton_mac mac) Hb) as H. by rewrite Hl in H.
Qed.

Lemma memset_same_outside m a c n : 0 <= n -> same_outside m (memset m a c n) a n.
Proof.
  intros Hn. rewrite memset_eq. pose proof (write_bytes_same_outside m a (replicate (Z.to_nat n) (u8 c))) as H.
  by rewrite length_replicate, Z2Nat.id in H by lia.
Qed.

Lemma read_memset_zero m a n : read_bytes (memset m a 0 (Z.of_nat n)) a n = replicate n 0.
Proof.
  rewrite memset_eq, Nat2Z.id. pose proof (read_write_bytes m a (replicate n (u8 0))) as H.
  rewrite length_replicate in H. apply H. apply Forall_replicate. done.
Qed.

Section Build.
Variables (m : mem) (f : Z) (dest mac : list Z) (eth_type payload len_payload pad : Z).
Hypothesis Hdest : mac_wf dest.
Hypothesis Hmac : mac_wf mac.
Hypothesis Hlen : 0 <= len_payload.
Hypothesis Hpad : 0 <= pad.

Lemma frame_ram_outside :
  same_outside m (frame_ram m f dest mac eth_type payload len_payload pad) f (14 + (pad + len_payload)).
Proof.
  unfold frame_ram, off_dest_mac, off_src_mac, off_ether_type, sizeof_ethernet_frame.
  set (m1 := write_bytes m (f + 0) (hton_mac dest)).
  set (m2 := write_bytes m1 (f + 6) (hton_mac mac)).
  set (m3 := store cpu_endian 2 m2 (f + 12) (htons eth_type)).
  set (m4 := memcpy m3 (f + 14) payload (pad + len_payload)).
  apply (same_outside_trans _ m4); [apply (same_outside_trans _ m3);
    [apply (same_outside_trans _ m2); [apply (same_outside_trans _ m1)|]|]|].
  - apply (same_outside_weaken _ _ _ _ (f + 0) 6); [by apply write_mac_same_outside|lia..].
  - apply (same_outside_weaken _ _ _ _ (f + 6) 6); [by apply write_mac_same_outside|lia..].
  - apply (same_outside_weaken _ _ _ _ (f + 12) 2); [apply store_same_outside|lia..].
  - apply (same_outside_weaken _ _ _ _ (f + 14) (pad + len_payload)); [apply memcpy_same_outside; lia|lia..].
  - apply (same_outside_weaken _ _ _ _ (f + 14 + len_payload) pad); [|lia..].
    case_match; [apply memset_same_outside; lia|by intros ??].
Qed.

Hypothesis Hagree : board_agrees.
Hypothesis Htype : is_u16 eth_type.
Hypothesis Hsep : separate f (14 + (pad + len_payload)) payload len_payload.

(** Reads before the writes that do not reach the range read. *)
Ltac skip_writes :=
  repeat match goal with
  | H : same_outside _ ?m _ _ |- context [read_bytes ?m _ _] =>
      rewrite (read_bytes_same_outside _ _ _ _ _ _ H) by (unfold separate; lia)
  end.

Lemma frame_ram_bytes :
  read_bytes (frame_ram m f dest mac eth_type payload len_payload pad) f
    (Z.to_nat (14 + (pad + len_payload))) =
  frame_bytes dest mac eth_type (read_bytes m payload (Z.to_nat len_payload)) pad.
Proof.
  replace (Z.to_nat (14 + (pad + len_payload)))
    with (6 + (6 + (2 + (Z.to_nat len_payload + Z.to_nat pad))))%nat by lia.
  rewrite !read_bytes_app. unfold frame_bytes.
  unfold frame_ram, off_dest_mac, off_src_mac, off_ether_type, sizeof_ethernet_frame in *.
  set (m1 := write_bytes m (f + 0) (hton_mac dest)).
  set (m2 := write_bytes m1 (f + 6) (hton_mac mac)).
  set (m3 := store cpu_endian 2 m2 (f + 12) (htons eth_type)).
  set (m4 := memcpy m3 (f + 14) payload (pad + len_payload)).
  set (m5 := if negb (pad =? 0) then memset m4 (f + 14 + len_payload) 0 pad else m4).
  assert (same_outside m m1 f 6) as H1
    by (unfold m1; rewrite Z.add_0_r; by apply write_mac_same_outside).
  assert (same_outside m1 m2 (f + 6) 6) as H2 by (by apply write_mac_same_outside).
  assert (same_outside m2 m3 (f + 12) 2) as H3 by apply store_same_outside.
  assert (same_outside m3 m4 (f + 14) (pad + len_payload)) as H4 by (apply memcpy_same_outside; lia).
  assert (same_outside m4 m5 (f + 14 + len_payload) pad) as H5
    by (unfold m5; case_match; [apply memset_same_outside; lia|by intros ??]).
  unfold separate in Hsep.
  assert (read_bytes m5 (f + Z.of_nat 6 + Z.of_nat 6 + Z.of_nat 2) (Z.to_nat len_payload) =
    read_bytes m payload (Z.to_nat len_payload)) as Hp.
  { replace (f + Z.of_nat 6 + Z.of_nat 6 + Z.of_nat 2) with (f + 14) by lia.
    skip_writes. unfold m4. rewrite memcpy_prefix by (unfold separate; lia). by skip_writes. }
  rewrite Hp. f_equal; [|f_equal; [|f_equal; [|f_equal]]].
  - skip_writes. unfold m1. rewrite Z.add_0_r. by apply read_write_mac.
  - skip_writes. by apply read_write_mac.
  - skip_writes. unfold m3. replace (f + Z.of_nat 6 + Z.of_nat 6) with (f + 12) by lia.
    rewrite store_htons by done. apply read_write_enc.
  - unfold m5. destruct (Z.eqb_spec pad 0) as [->|Hne]; [done|]. simpl.
    replace (f + Z.of_nat 6 + Z.of_nat 6 + Z.of_nat 2 + Z.of_nat (Z.to_nat len_payload))
      with (f + 14 + len_payload) by lia.
    pose proof (read_memset_zero m4 (f + 14 + len_payload) (Z.to_nat pad)) as Hz.
    by rewrite Z2Nat.id in Hz by lia.
Qed.

End Build.

End Frame.

(** ** Sending *)

Section Send.
Context {S : Type} `{NicLaws S} {cpu : Cpu} {board : Board}.

Lemma on_ram_eq f (s : S) :
  on_ram f s = Done (tt, nic_set_heap (set_ram (f (ram (nic_heap s))) (nic_heap s)) s).
Proof. done. Qed.

Lemma ethernet_padding_eq len : 0 <= len ->
  ethernet_padding len = Z.max 0 (46 - len).
Proof.
  intros. unfold ethernet_padding, MINIMUM_PAYLOAD_LENGTH. case_bool.
  - rewrite Z.max_r by lia. apply u8_id. unfold is_u8. lia.
  - rewrite Z.max_l by lia. done.
Qed.

(** The length handed to the card is no longer than the frame. *)
Lemma u16_le x : 0 <= x -> 0 <= u16 x <= x.
Proof. intros Hx. unfold u16. word_lia. Qed.

Lemma read_bytes_prefix m a n k : (k <= n)%nat -> read_bytes m a k = take k (read_bytes m a n).
Proof.
  intros Hk. replace n with (k + (n - k))%nat by lia. rewrite read_bytes_app.
  by rewrite take_app_length' by (by rewrite length_read_bytes).
Qed.

(** What [ethernet_send] does, given the block [malloc] returned. *)
Lemma ethernet_send_eq fuel dest eth_type payload len (s : S) f h1 :
  nic_ready s -> 0 <= len -> 14 + (Z.max 0 (46 - len) + len) < 4294967296 ->
  malloc fuel (14 + (Z.max 0 (46 - len) + len)) (nic_heap s) = Done (f, h1) -> is_u32 f ->
  (forall a, f <= a < f + (14 + (Z.max 0 (46 - len) + len)) -> ~ nic_dma s a) ->
  let pad := Z.max 0 (46 - len) in
  let h2 := set_ram (frame_ram (ram h1) f dest (nic_mac s) eth_type payload len pad) h1 in
  exists s' m', ethernet_send fuel dest eth_type payload len s = Done (tt, s') /\
    nic_ready s' /\ nic_mac s' = nic_mac s /\ nic_heap s' = free f (set_ram m' h2) /\
    (forall a, ~ nic_dma s a -> get8 m' a = get8 (ram h2) a) /\
    (forall a, nic_dma s' a <-> nic_dma s a) /\
    nic_sent s' = nic_sent s ++ [read_bytes (ram h2) f (Z.to_nat (u16 (14 + (pad + len))))].
Proof.
  intros Hr Hlen Hshort Hm Hf Hdma pad h2. unfold ethernet_send. rewrite ethernet_padding_eq by done.
  fold pad. fold pad in Hm, Hshort, Hdma. unfold sizeof_ethernet_frame.
  rewrite (u32_id (pad + len)), (u32_id (14 + _)) by (unfold is_u32, pad; lia).
  rewrite (bind_done _ _ s f (nic_set_heap h1 s)) by (unfold kmalloc, zoom; by rewrite Hm).
  rewrite (bind_done _ _ _ _ _ (on_ram_eq _ _)).
  rewrite nic_set_set, nic_get_set.
  erewrite bind_done by (apply nic_get_mac_ok; apply nic_set_ready; exact Hr).
  rewrite nic_set_mac.
  rewrite (bind_done _ _ _ _ _ (on_ram_eq _ _)), nic_set_set, nic_get_set.
  rewrite (bind_done _ _ _ _ _ (on_ram_eq _ _)), nic_set_set, nic_get_set.
  rewrite (bind_done _ _ _ _ _ (on_ram_eq _ _)), nic_set_set, nic_get_set.
  rewrite (bind_done _ _ _ tt (nic_set_heap h2 s)).
  2:{ unfold h2, frame_ram, sizeof_ethernet_frame. destruct (negb (pad =? 0)).
      - by rewrite on_ram_eq, nic_set_set, nic_get_set.
      - done. }
  destruct (nic_send_ok f (u16 (14 + (pad + len))) (nic_set_heap h2 s)) as (r & s' & m' & Hs & Hr' & Hh & Hm' & Hmac & Hd & Hsent);
    [by apply nic_set_ready|done|apply u16_range| |].
  { intros a Ha. rewrite nic_set_dma. apply Hdma. pose proof (u16_le (14 + (pad + len)) ltac:(lia)). lia. }
  rewrite (bind_done _ _ _ _ _ Hs). rewrite nic_get_set in Hh, Hsent, Hm'.
  rewrite nic_set_mac in Hmac. rewrite nic_set_sent in Hsent. setoid_rewrite nic_set_dma in Hd.
  setoid_rewrite nic_set_dma in Hm'.
  eexists _, m'. split; [reflexivity|]. rewrite nic_set_mac, nic_set_sent, nic_get_set, Hh.
  setoid_rewrite nic_set_dma. split_and!; try done. by apply nic_set_ready.
Qed.

Lemma enc_big_2 x : is_u16 x -> enc BigEndian 2 x = [x / 256; x `mod` 256].
Proof. intros Hx. cbn [enc le_bytes rev app]. unfold is_u16, u8 in *. repeat f_equal; word_lia. Qed.

(** The card writes inside live blocks only. *)
Definition dma_ok (sp : spec_heap) (s : S) : Prop :=
  forall a, nic_dma s a -> exists x, x ∈ s_used sp /\ x.1 + 16 <= a < x.1 + x.2.

(** A block that is not live, and the headers of all blocks, are out of the
    card's reach. *)
Lemma dma_outside sp sp' (s : S) x a :
  dma_ok sp s -> blocks_ok (s_brk sp') (s_free sp' ++ s_used sp') ->
  s_used sp ⊆ s_used sp' -> x ∈ s_free sp' ++ s_used sp' ->
  x.1 <= a < x.1 + x.2 -> x ∉ s_used sp \/ a < x.1 + 16 -> ~ nic_dma s a.
Proof.
  intros Hd Hok Hsub Hx Ha Hout (y & Hy & Hya)%Hd.
  destruct (decide (x = y)) as [<-|Hne]; [destruct Hout; [done|lia]|].
  pose proof (blocks_ok_sep _ _ x y Hok Hx ltac:(set_solver) Hne) as Hs. unfold separate in Hs. lia.
Qed.

(** The block [malloc] has just handed out is no block the caller owned, and
    none of the caller's bytes lies in it. *)
Lemma fresh_block sp sp' x :
  blocks_ok (s_brk sp') (s_free sp' ++ s_used sp') -> s_used sp' = x :: s_used sp ->
  x ∉ s_used sp /\ forall a, user_byte sp a -> ~ (x.1 <= a < x.1 + x.2).
Proof.
  intros Hok Hu. assert (x ∈ s_free sp' ++ s_used sp') as Hx by (rewrite Hu; set_solver).
  destruct (blocks_ok_wf _ _ _ Hok Hx) as (? & ? & ? & ? & ?).
  assert (x ∉ s_used sp) as Hnew.
  { destruct Hok as (Hnd & _). rewrite Hu in Hnd.
    apply NoDup_app in Hnd as (_ & _ & Hnd). by apply NoDup_cons in Hnd as [? _]. }
  split; [done|]. intros a [(y & Hy & Ha)|Ha]; [|lia].
  assert (x <> y) as Hdiff by (by intros ->).
  pose proof (blocks_ok_sep _ _ x y Hok Hx ltac:(rewrite Hu; set_solver) Hdiff) as Hsep.
  unfold separate in Hsep. lia.
Qed.

(** A transmission.  The card is told the length as 16 bits, so of a longer frame it
    gets a prefix. *)
Lemma ethernet_send_any fuel dest eth_type payload len (s : S) sp :
  board_agrees -> nic_ready s -> heap_rep (nic_heap s) sp -> (length (s_free sp) < fuel)%nat ->
  mac_wf dest -> is_u16 eth_type -> 0 < len ->
  s_brk sp + gross (14 + Z.max 46 len) <= HEAP_START + HEAP_SIZE ->
  (forall a, payload <= a < payload + len -> user_byte sp a) -> dma_ok sp s ->
  exists s' sp', ethernet_send fuel dest eth_type payload len s = Done (tt, s') /\
    nic_sent s' = nic_sent s ++
      [take (Z.to_nat (u16 (14 + Z.max 46 len)))
         (frame_bytes dest (nic_mac s) eth_type (read_bytes (ram (nic_heap s)) payload (Z.to_nat len))
            (Z.max 0 (46 - len)))] /\
    nic_ready s' /\ nic_mac s' = nic_mac s /\
    heap_rep (nic_heap s') sp' /\ s_used sp' = s_used sp /\
    s_brk sp' <= s_brk sp + gross (14 + Z.max 46 len) /\
    (length (s_free sp') <= length (s_free sp) + 1)%nat /\
    (forall a, nic_dma s' a <-> nic_dma s a) /\
    (forall a, user_byte sp a -> ~ nic_dma s a -> get8 (ram (nic_heap s')) a = get8 (ram (nic_heap s)) a) /\
    has_room (14 + Z.max 46 len) sp' /\
    (has_room (14 + Z.max 46 len) sp -> s_brk sp' = s_brk sp /\ length (s_free sp') = length (s_free sp)).
Proof.
  intros Hag Hr Hrep Hfuel Hdest Htype Hlen Hroom Hpay Hdma.
  set (pad := Z.max 0 (46 - len)). set (size := 14 + (pad + len)).
  replace (14 + Z.max 46 len) with size in * by lia.
  destruct (gross_bounds size) as (Hgross & _ & _); [unfold size, pad; lia|].
  assert (size < 0x2000000) as Hsize32.
  { pose proof Hrep as ((_ & _ & Hb0) & _). unfold HEAP_START, HEAP_SIZE in *. lia. }
  destruct (malloc_room fuel size (nic_heap s) sp) as (x & h1 & sp1 & Hm & Hrep1 & Hu1 & Hsz & Hx32 & Hbrk1 & Hfree1 & Huser1 & Hfit1 & Hsame1);
    [done|lia|done|done|].
  pose proof Hrep1 as (Hspec1 & _). pose proof Hspec1 as (Hok1 & _ & Hb1).
  assert (x ∈ s_free sp1 ++ s_used sp1) as Hx by (rewrite Hu1; set_solver).
  destruct (blocks_ok_wf _ _ _ Hok1 Hx) as (? & ? & ? & Hstart & ?).
  destruct (fresh_block sp sp1 x Hok1 Hu1) as [Hnew Hout].
  assert (forall y a, y ∈ s_free sp1 ++ s_used sp1 -> y.1 <= a < y.1 + 16 -> ~ nic_dma s a) as Hhdr.
  { intros y a Hy Ha. destruct (blocks_ok_wf _ _ _ Hok1 Hy) as (? & ? & ? & ? & ?).
    apply (dma_outside sp sp1 s y a Hdma Hok1 ltac:(rewrite Hu1; set_solver) Hy ltac:(lia)). right. lia. }
  destruct (ethernet_send_eq fuel dest eth_type payload len s (x.1 + 16) h1)
    as (s' & m' & Hs & Hr' & Hmac & Hh & Hm' & Hd' & Hsent); [done|lia|fold pad; fold size; lia|exact Hm|done| |].
  { intros a Ha. apply (dma_outside sp sp1 s x a Hdma Hok1 ltac:(rewrite Hu1; set_solver) Hx); [lia|by left]. }
  fold pad in Hh, Hsent, Hm'. fold size in Hsent.
  assert (separate (x.1 + 16) size payload len) as Hsep.
  { unfold separate. pose proof (Hout payload (Hpay payload ltac:(lia))).
    destruct (decide (payload <= x.1 + 16 < payload + len)) as [Hi|]; [|lia].
    pose proof (Hout _ (Hpay _ Hi)). lia. }
  pose proof (frame_ram_outside (ram h1) (x.1 + 16) dest (nic_mac s) eth_type payload len pad
    Hdest (nic_mac_wf s Hr) ltac:(lia) ltac:(lia)) as Hfout. fold size in Hfout.
  set (h2 := set_ram (frame_ram (ram h1) (x.1 + 16) dest (nic_mac s) eth_type payload len pad) h1) in *.
  assert (heap_rep h2 sp1) as Hrep2.
  { apply rep_set_ram; [done|]. intros y a Hy Ha. apply Hfout.
    destruct (decide (x = y)) as [<-|Hne]; [lia|].
    destruct (blocks_ok_wf _ _ _ Hok1 Hy) as (? & ? & ? & ? & ?).
    pose proof (blocks_ok_sep _ _ x y Hok1 Hx Hy Hne) as Hs2. unfold separate in Hs2. lia. }
  assert (heap_rep (set_ram m' h2) sp1) as Hrep2'.
  { apply rep_set_ram; [done|]. intros y a Hy Ha. apply Hm', (Hhdr y a Hy). lia. }
  pose proof (free_spec (set_ram m' h2) sp1 [] x (s_used sp) Hrep2' Hu1) as Hrep3.
  exists s'. eexists. split; [exact Hs|]. split_and!; [|done|done|rewrite Hh; exact Hrep3|done| | |done| | |].
  - rewrite Hsent. do 2 f_equal.
    rewrite (read_bytes_prefix _ _ (Z.to_nat size)) by (pose proof (u16_le size ltac:(lia)); lia). f_equal.
    unfold h2, set_ram. cbn [ram].
    etrans; [apply frame_ram_bytes; try done; try lia; by apply nic_mac_wf|].
    unfold frame_bytes. do 4 f_equal. apply read_bytes_ext. intros a Ha. apply Huser1, Hpay. lia.
  - exact Hbrk1.
  - simpl. lia.
  - intros a Ha Hnd. rewrite Hh. rewrite (free_user (set_ram m' h2) sp1 x a); [|done|rewrite Hu1; set_solver|].
    + cbn [ram set_ram]. rewrite Hm' by done. unfold h2. simpl. rewrite Hfout; [by apply Huser1|]. pose proof (Hout a Ha). lia.
    + destruct Ha as [(y & Hy & Ha)|Ha]; [|by right]. left. exists y. rewrite Hu1. split; [set_solver|done].
  - exists x. split; [by left|done].
  - intros [? ?]%Hsame1. split; simpl; lia.
Qed.

(** A frame that is not too long goes out whole. *)
Lemma ethernet_send_spec fuel dest eth_type payload len (s : S) sp :
  board_agrees -> nic_ready s -> heap_rep (nic_heap s) sp -> (length (s_free sp) < fuel)%nat ->
  mac_wf dest -> is_u16 eth_type -> 0 < len -> len < 65522 ->
  s_brk sp + gross (14 + Z.max 46 len) <= HEAP_START + HEAP_SIZE ->
  (forall a, payload <= a < payload + len -> user_byte sp a) -> dma_ok sp s ->
  exists s' sp', ethernet_send fuel dest eth_type payload len s = Done (tt, s') /\
    nic_sent s' = nic_sent s ++
      [frame_bytes dest (nic_mac s) eth_type (read_bytes (ram (nic_heap s)) payload (Z.to_nat len))
         (Z.max 0 (46 - len))] /\
    nic_ready s' /\ nic_mac s' = nic_mac s /\
    heap_rep (nic_heap s') sp' /\ s_used sp' = s_used sp /\
    s_brk sp' <= s_brk sp + gross (14 + Z.max 46 len) /\
    (length (s_free sp') <= length (s_free sp) + 1)%nat /\
    (forall a, nic_dma s' a <-> nic_dma s a) /\
    (forall a, user_byte sp a -> ~ nic_dma s a -> get8 (ram (nic_heap s')) a = get8 (ram (nic_heap s)) a) /\
    has_room (14 + Z.max 46 len) sp' /\
    (has_room (14 + Z.max 46 len) sp -> s_brk sp' = s_brk sp /\ length (s_free sp') = length (s_free sp)).
Proof.
  intros Hag Hr Hrep Hfuel Hdest Htype Hlen Hlen' Hroom Hpay Hdma.
  destruct (ethernet_send_any fuel dest eth_type payload len s sp) as (s' & sp' & Hs & Hsent & Hrest); [done..|].
  exists s', sp'. split; [done|]. split; [|done]. rewrite Hsent, take_ge; [done|].
  rewrite (frame_bytes_length dest (nic_mac s)) by (done || by apply nic_mac_wf).
  rewrite length_read_bytes, u16_id by (unfold is_u16; lia). lia.
Qed.

(** C23: Given room in the heap and a payload of at least one byte, [ethernet_send]
    hands exactly one frame to the card: destination, source and type in network
    order, the payload, and zero bytes up to the minimal length of 60, even though
    the copy runs past a short payload; the frame's block is freed again and no
    byte of any other live block changes, the buffers the card receives into
    excepted.  A payload of up to 65521 bytes is sent whole; of a longer one only a
    prefix of the frame, since [e1000_send_packet] takes its length as 16 bits. *)
Theorem ethernet_send_frame fuel dest eth_type payload len (s : S) sp :
  board_agrees -> nic_ready s -> heap_rep (nic_heap s) sp -> (length (s_free sp) < fuel)%nat ->
  mac_wf dest -> is_u16 eth_type -> 0 < len ->
  s_brk sp + gross (14 + Z.max 46 len) <= HEAP_START + HEAP_SIZE ->
  (forall a, payload <= a < payload + len -> user_byte sp a) -> dma_ok sp s ->
  let frame := hton_mac dest ++ hton_mac (nic_mac s) ++ [eth_type / 256; eth_type `mod` 256] ++
       read_bytes (ram (nic_heap s)) payload (Z.to_nat len) ++
       replicate (Z.to_nat (Z.max 0 (46 - len))) 0 in
  exists s' sp' sent, ethernet_send fuel dest eth_type payload len s = Done (tt, s') /\
    nic_sent s' = nic_sent s ++ [sent] /\
    (len < 65522 -> sent = frame) /\
    (65522 <= len -> sent = take (Z.to_nat (u16 (14 + len))) frame /\ (length sent < length frame)%nat) /\
    heap_rep (nic_heap s') sp' /\ s_used sp' = s_used sp /\
    (forall a, user_byte sp a -> ~ nic_dma s a -> get8 (ram (nic_heap s')) a = get8 (ram (nic_heap s)) a).
Proof.
  intros Hag Hr Hrep Hfuel Hdest Htype Hlen Hroom Hpay Hdma frame.
  destruct (ethernet_send_any fuel dest eth_type payload len s sp)
    as (s' & sp' & Hs & Hsent & _ & _ & ? & ? & _ & _ & _ & ? & _); [done..|].
  unfold frame_bytes in Hsent. rewrite enc_big_2 in Hsent by done. fold frame in Hsent.
  assert (length frame = Z.to_nat (14 + Z.max 46 len)) as Hframe.
  { unfold frame. rewrite <- enc_big_2 by done.
    pose proof (frame_bytes_length dest (nic_mac s) eth_type (read_bytes (ram (nic_heap s)) payload (Z.to_nat len))
      (Z.max 0 (46 - len)) Hdest (nic_mac_wf s Hr)) as E. rewrite length_read_bytes in E. etrans; [exact E|lia]. }
  eexists s', sp', _. split; [done|]. split; [exact Hsent|]. split_and!; try done.
  - intros Hle. apply take_ge. rewrite Hframe, u16_id by (unfold is_u16; lia). done.
  - intros Hge. rewrite Z.max_r by lia. split; [done|]. rewrite length_take, Hframe, Z.max_r by lia.
    assert (u16 (14 + len) < 14 + len) by (unfold u16; word_lia). unfold u16 in *. word_lia.
Qed.

(** When the heap is exhausted [ethernet_send] does not notice: it builds
    the frame at address 0, over the exception vectors, and [free] of the NULL
    pointer makes 0xFFFFFFF0 the first free block of the heap. *)
Theorem ethernet_send_out_of_memory fuel dest eth_type payload len (s : S) sp :
  nic_ready s -> heap_rep (nic_heap s) sp -> (length (s_free sp) < fuel)%nat ->
  mac_wf dest -> is_u16 eth_type -> 0 <= len -> len < 65522 ->
  (spec_malloc (14 + Z.max 46 len) sp).1 = NULL -> dma_ok sp s ->
  exists s', ethernet_send fuel dest eth_type payload len s = Done (tt, s') /\
    nic_ready s' /\ free_head (nic_heap s') = 0xFFFFFFF0 /\
    (forall i b, hton_mac dest !! i = Some b -> get8 (ram (nic_heap s')) (Z.of_nat i) = b).
Proof.
  intros Hr Hrep Hfuel Hdest Htype Hlen Hlen' Hnull Hdma.
  set (pad := Z.max 0 (46 - len)).
  replace (14 + Z.max 46 len) with (14 + (pad + len)) in Hnull by lia.
  destruct (malloc_spec fuel (14 + (pad + len)) (nic_heap s) sp) as (h1 & Hm & _);
    [done|unfold pad; lia|done|]. rewrite Hnull in Hm.
  assert (forall a, a < HEAP_START -> ~ nic_dma s a) as Hlow.
  { intros a Ha (x & Hx & Hxa)%Hdma. destruct Hrep as ((Hok & _) & _).
    destruct (blocks_ok_wf _ _ x Hok ltac:(set_solver)) as (? & ? & ? & ? & ?). lia. }
  destruct (ethernet_send_eq fuel dest eth_type payload len s NULL h1)
    as (s' & m' & Hs & Hr' & _ & Hh & Hm' & _ & _); [done|lia|unfold pad; lia|exact Hm|done| |].
  { intros a Ha. apply Hlow. unfold NULL, HEAP_START in *. lia. }
  exists s'. split; [exact Hs|]. split; [done|]. rewrite Hh. fold pad. unfold free.
  assert (u32 (NULL - overhead) = 0xFFFFFFF0) as -> by (vm_compute; reflexivity).
  cbn [free_head set_free_head set_ram]. split; [reflexivity|].
  intros i b Hi. cbn [ram set_free_head].
  destruct (hton_mac_wf dest Hdest) as [Hl Hb].
  pose proof (lookup_lt_Some _ _ _ Hi) as Hi6. rewrite Hl in Hi6.
  unfold store32. cbn [ram set_ram].
  rewrite (store_same_outside _ 4 _ _ _ (Z.of_nat i)) by lia.
  rewrite Hm' by (apply Hlow; unfold HEAP_START; lia). cbn [ram set_ram]. fold pad.
  unfold frame_ram, off_dest_mac, off_src_mac, off_ether_type, sizeof_ethernet_frame, NULL.
  set (m1 := write_bytes (ram h1) (0 + 0) (hton_mac dest)).
  assert (get8 m1 (Z.of_nat i) = b) as H1.
  { unfold m1. rewrite get8_write_bytes, decide_True by lia.
    replace (Z.to_nat (Z.of_nat i - (0 + 0))) with i by lia.
    rewrite (list_lookup_total_correct _ _ _ Hi). apply u8_id. by eapply Forall_lookup_1. }
  rewrite <- H1. clearbody m1.
  assert (forall n1 n2 a n, same_outside n1 n2 a n -> 6 <= a -> get8 n2 (Z.of_nat i) = get8 n1 (Z.of_nat i))
    as Hskip by (intros n1 n2 a n Hso Ha; apply Hso; lia).
  case_match.
  - etrans; [eapply Hskip; [apply memset_same_outside; unfold pad; lia|lia]|].
    etrans; [eapply Hskip; [apply memcpy_same_outside; unfold pad; lia|lia]|].
    etrans; [eapply Hskip; [apply store_same_outside|lia]|].
    eapply Hskip; [apply write_mac_same_outside; by apply nic_mac_wf|lia].
  - etrans; [eapply Hskip; [apply memcpy_same_outside; unfold pad; lia|lia]|].
    etrans; [eapply Hskip; [apply store_same_outside|lia]|].
    eapply Hskip; [apply write_mac_same_outside; by apply nic_mac_wf|lia].
Qed.

End Send.

(** ** MAC addresses as text *)

Definition hex_digit (v : Z) : Z := nth (Z.to_nat v) (cstr "0123456789abcdef") 0.

Lemma hex_digit_high m : is_u8 m -> u8 (INTTOHEXCHAR (Z.shiftr m 4)) = hex_digit (m / 16).
Proof.
  intros Hm. apply Z.eqb_eq.
  apply (u8_forall (fun m => u8 (INTTOHEXCHAR (Z.shiftr m 4)) =? hex_digit (m / 16))); [|done].
  vm_compute. reflexivity.
Qed.

Lemma hex_digit_low m : is_u8 m -> u8 (INTTOHEXCHAR (Z.land m 0x0F)) = hex_digit (m `mod` 16).
Proof.
  intros Hm. apply Z.eqb_eq.
  apply (u8_forall (fun m => u8 (INTTOHEXCHAR (Z.land m 0x0F)) =? hex_digit (m `mod` 16))); [|done].
  vm_compute. reflexivity.
Qed.

(** [mac_to_str] writes the twelve hexadecimal digits of the address as it
    is on the wire, two for each byte between the colons, whatever an earlier
    call left in the shared buffer. *)
Theorem mac_to_str_digits {board : Board} mac a b c d e f g h i j k l :
  mac_wf mac ->
  mac_to_str mac [a; b; 58; c; d; 58; e; f; 58; g; h; 58; i; j; 58; k; l; 0] =
  match hton_mac mac with
  | [m0; m1; m2; m3; m4; m5] =>
      let hex m := [hex_digit (m / 16); hex_digit (m `mod` 16)] in
      hex m0 ++ [58] ++ hex m1 ++ [58] ++ hex m2 ++ [58] ++ hex m3 ++ [58] ++ hex m4 ++ [58] ++
      hex m5 ++ [0]
  | _ => []
  end.
Proof.
  intros Hm. destruct (hton_mac_wf mac Hm) as [Hl Hb]. unfold mac_to_str.
  destruct (hton_mac mac) as [|m0 [|m1 [|m2 [|m3 [|m4 [|m5 [|]]]]]]]; try discriminate Hl.
  rewrite !Forall_cons in Hb. destruct Hb as (H0 & H1 & H2 & H3 & H4 & H5 & _). cbv zeta.
  rewrite <- !hex_digit_high, <- !hex_digit_low by done. reflexivity.
Qed.

(** ** A card that records what it is given *)

Record wire := mk_wire { w_heap : heap; w_mac : list Z; w_sent : list (list Z) }.

#[export] Instance wire_nic : Nic wire := {|
  nic_heap := w_heap;
  nic_set_heap h w := mk_wire h (w_mac w) (w_sent w);
  nic_get_mac w := Done (w_mac w, w);
  nic_send_packet p len w :=
    Done (0, mk_wire (w_heap w) (w_mac w)
               (w_sent w ++ [read_bytes (ram (w_heap w)) p (Z.to_nat len)]));
  nic_log _ _ _ _ w := w;
|}.

#[export, refine] Instance wire_laws : NicLaws wire := {|
  nic_ready w := mac_wf (w_mac w);
  nic_mac := w_mac;
  nic_sent := w_sent;
  nic_dma _ _ := False;
|}.
Proof.
  all: try done. intros p len w Hw _ _ _. eexists _, _, (ram (w_heap w)). split; [done|].
  split; [done|]. split; [by destruct w as [[] ? ?]|]. by split_and!.
Defined.

(** ** Witnesses *)

(** A wire with the bytes "ping" on a stack below the heap, and one whose heap
    is used up. *)
Definition example_wire : wire :=
  mk_wire (initial_heap (write_bytes ∅ 0x3FE0000 [112; 105; 110; 103])) [0x56; 0x34; 0x12; 0; 0x54; 0x52] [].

Definition full_wire : wire :=
  mk_wire (mk_heap ∅ 0x6000000 NULL 0) [0x56; 0x34; 0x12; 0; 0x54; 0x52] [].

Lemma mac_wf_dec mac : bool_decide (mac_wf mac) = true -> mac_wf mac.
Proof. apply bool_decide_eq_true. Qed.

Lemma ethernet_send_frame_witness :
  exists s', ethernet_send (cpu := LittleEndian) (board := 0) 1 BROADCAST_MAC TYPE_IPv4 0x3FE0000 4 example_wire
    = Done (tt, s') /\
    w_sent s' = [[255; 255; 255; 255; 255; 255; 0x52; 0x54; 0; 0x12; 0x34; 0x56; 8; 0; 112; 105; 110; 103]
                 ++ replicate 42 0].
Proof.
  destruct (ethernet_send_frame (cpu := LittleEndian) (board := 0) 1 BROADCAST_MAC TYPE_IPv4 0x3FE0000 4
    example_wire (mk_spec [] [] HEAP_START)) as (s' & sp' & sent & Hs & Hsent & Hwhole & _);
    [vm_compute; done|by apply mac_wf_dec; vm_compute|apply initial_heap_rep|simpl; lia
    |by apply mac_wf_dec; vm_compute|vm_compute; done|lia|vm_compute; done
    |intros a Ha; right; unfold HEAP_START; lia|by intros ? []|].
  exists s'. split; [exact Hs|]. etrans; [exact Hsent|]. rewrite Hwhole by lia. vm_compute. reflexivity.
Defined.

Lemma ethernet_send_out_of_memory_witness :
  exists s', ethernet_send (cpu := LittleEndian) (board := 0) 1 BROADCAST_MAC TYPE_ARP 0x3FE0000 28 full_wire
    = Done (tt, s') /\ free_head (w_heap s') = 0xFFFFFFF0.
Proof.
  destruct (ethernet_send_out_of_memory (cpu := LittleEndian) (board := 0) 1 BROADCAST_MAC TYPE_ARP 0x3FE0000 28
    full_wire (mk_spec [] [] 0x6000000)) as (s' & Hs & _ & Hf & _);
    [by apply mac_wf_dec; vm_compute| |simpl; lia|by apply mac_wf_dec; vm_compute|vm_compute; done
    |lia|lia|vm_compute; done|by intros ? []|].
  - split; [|done]. split; [|done]. split; [constructor|].
    split; [intros x Hx|intros x y Hx]; by apply not_elem_of_nil in Hx.
  - exists s'. split; [exact Hs|exact Hf].
Defined.

Lemma mac_to_str_digits_witness :
  mac_to_str (board := 0) [0x56; 0x34; 0x12; 0; 0x54; 0x52] (cstr "00:11:22:33:44:55" ++ [0]) =
  cstr "52:54:00:12:34:56" ++ [0].
Proof.
  etrans; [apply (mac_to_str_digits (board := 0) [0x56; 0x34; 0x12; 0; 0x54; 0x52]);
    by apply mac_wf_dec; vm_compute|]. vm_compute. reflexivity.
Defined.
