(* ===== verification/Routing.v ===== *)
(** * The ARP table: kernel/network/routing.c

    Ten entries of IP address, MAC address and last-use time in seconds; an
    entry whose time is 0 counts as free.  The clock does not advance during
    one call ([now] is [clock_seconds()]). *)

From S2P Require Import Prelude Memory Heap NetworkIo Ethernet.

(** ** Definitions *)

Definition MAX_ARP_TABLE_ENTRIES : Z := 10.
Definition MAX_ARP_TABLE_AGE : Z := 300.

Record arp_entry := mk_arp_entry {
  ip : Z;            (* uint32_t *)
  mac : list Z;      (* mac_address_t *)
  entry_time : Z;    (* clock_t, unsigned long long *)
}.

#[export] Instance arp_entry_eq_dec : EqDecision arp_entry.
Proof. solve_decision. Defined.

Definition ARP_NULL_ENTRY : arp_entry := mk_arp_entry 0 NULL_MAC 0.

#[export] Instance arp_entry_inhabited : Inhabited arp_entry := populate ARP_NULL_ENTRY.

(** The static pointer [arp_table]: [None] while it is NULL. *)
Abbreviation arp_table := (option (list arp_entry)).

(** [-1] as a [uint32_t] position. *)
Definition NOT_FOUND : Z := u32 (-1).

Definition entry_expired (now : Z) (entry : arp_entry) : bool :=
  negb (entry_time entry =? 0) && (MAX_ARP_TABLE_AGE <? u64 (now - entry_time entry)).

Definition find_step (addr now : Z) (st : Z * list arp_entry) (i : Z) : Z * list arp_entry :=
  let '(res, table) := st in
  let entry := table !!! Z.to_nat i in
  if entry_expired now entry
  then (res, <[Z.to_nat i := ARP_NULL_ENTRY]> table)
  else if ip entry =? addr
  then (i, <[Z.to_nat i := mk_arp_entry (ip entry) (mac entry) now]> table)
  else (res, table).

Definition arp_table_find (addr now : Z) (t : arp_table) : Z * arp_table :=
  match t with
  | None => (NOT_FOUND, None)
  | Some table =>
      let '(res, table) := foldl (find_step addr now) (NOT_FOUND, table) (zseq 10) in
      (res, Some table)
  end.

Definition arp_table_lookup (addr now : Z) (t : arp_table) : list Z * arp_table :=
  match t with
  | None => (NULL_MAC, None)
  | Some _ =>
      let '(position, t) := arp_table_find addr now t in
      if negb (position =? NOT_FOUND)
      then (mac (default [] t !!! Z.to_nat position), t)
      else (NULL_MAC, t)
  end.

(** The slot search of [arp_table_add_entry]; the loop breaks at a free slot. *)
Fixpoint add_slot (table : list arp_entry) (slot : Z) (idx : list Z) : Z :=
  match idx with
  | [] => slot
  | i :: rest =>
      if entry_time (table !!! Z.to_nat i) =? 0 then i
      else if entry_time (table !!! Z.to_nat i) <? entry_time (table !!! Z.to_nat slot)
      then add_slot table i rest
      else add_slot table slot rest
  end.

Definition arp_table_add_entry (m : list Z) (addr now : Z) (t : arp_table) : arp_table :=
  match t with
  | None => None
  | Some table =>
      let slot := add_slot table 0 (zseq 10) in
      Some (<[Z.to_nat slot := mk_arp_entry addr m now]> table)
  end.

Definition arp_table_update (m : list Z) (addr now : Z) (t : arp_table) : bool * arp_table :=
  match t with
  | None => (false, None)
  | Some _ =>
      let '(position, t) := arp_table_find addr now t in
      if negb (position =? NOT_FOUND)
      then (true,
            alter (fun e => mk_arp_entry (ip e) m (entry_time e)) (Z.to_nat position) <$> t)
      else (false, t)
  end.

(** [sizeof(arp_table_entry_t)]: 4 + 6 bytes, padded to 16, and the time. *)
Definition sizeof_arp_entry : Z := 24.

Definition null_table : list arp_entry := replicate 10 ARP_NULL_ENTRY.

Definition routing_init {cpu : Cpu} (fuel : nat) (t : arp_table) (h : heap) : outcome (arp_table * heap) :=
  match t with
  | None =>
      '(p, h) ← malloc fuel (MAX_ARP_TABLE_ENTRIES * sizeof_arp_entry) h;
      Done (if p =? NULL then (None, h) else (Some null_table, h))
  | Some _ => Done (t, h)
  end.

(** ** What a table says *)

(** The entry after a search for [addr]. *)
Definition find_entry (addr now : Z) (e : arp_entry) : arp_entry :=
  if entry_expired now e then ARP_NULL_ENTRY
  else if ip e =? addr then mk_arp_entry (ip e) (mac e) now else e.

Definition entry_matches (addr now : Z) (e : arp_entry) : Prop :=
  entry_expired now e = false /\ ip e = addr.

#[export] Instance entry_matches_dec addr now e : Decision (entry_matches addr now e) := _.

(** An entry in use. *)
Definition live_entry (e : arp_entry) : Prop := entry_time e <> 0.

(** Ten entries, no two live ones for the same address, none from the future,
    and the address 0 only in free ones. *)
Definition table_ok (now : Z) (table : list arp_entry) : Prop :=
  length table = 10%nat /\
  (forall i e, table !! i = Some e -> 0 <= entry_time e <= now /\ (live_entry e -> ip e <> 0) /\
     (entry_time e = 0 -> ip e = 0)) /\
  (forall i j e e', table !! i = Some e -> table !! j = Some e' ->
     live_entry e -> live_entry e' -> ip e = ip e' -> i = j).

(** The MAC address the table holds for [addr] at time [now]. *)
Definition resolves (now : Z) (table : list arp_entry) (addr : Z) (m : list Z) : Prop :=
  exists i e, table !! i = Some e /\ entry_matches addr now e /\ mac e = m.

(** ** Searching *)

Lemma length_find_steps addr now l st : length (foldl (find_step addr now) st l).2 = length st.2.
Proof.
  revert st. induction l as [|i l IH]; intros [r t]; cbn [foldl]; [done|].
  rewrite IH. unfold find_step. repeat case_match; simpl; by rewrite ?length_insert.
Qed.

(** The index [res] of the last match among the first [n] entries. *)
Definition last_match (addr now : Z) (table : list arp_entry) (n : nat) (res : Z) : Prop :=
  (res = NOT_FOUND /\ forall i e, (i < n)%nat -> table !! i = Some e -> ~ entry_matches addr now e) \/
  exists k e, res = Z.of_nat k /\ (k < n)%nat /\ table !! k = Some e /\ entry_matches addr now e /\
    forall i e', (k < i < n)%nat -> table !! i = Some e' -> ~ entry_matches addr now e'.

Lemma last_match_S addr now table n res e :
  table !! n = Some e -> last_match addr now table n res ->
  last_match addr now table (S n) (if decide (entry_matches addr now e) then Z.of_nat n else res).
Proof.
  intros He Hres. case_decide as Hm.
  - right. exists n, e. split_and!; try done; [lia|]. intros; lia.
  - destruct Hres as [[-> Hno]|(k & ek & -> & Hk & Hek & Hmk & Hlast)].
    + left. split; [done|]. intros i e' Hi He'. destruct (decide (i = n)) as [->|].
      * congruence.
      * by apply (Hno i e'); [lia|done].
    + right. exists k, ek. split_and!; try done; [lia|]. intros i e' Hi He'.
      destruct (decide (i = n)) as [->|]; [congruence|]. by apply (Hlast i e'); [lia|done].
Qed.

Lemma find_step_at addr now res t n e :
  t !! n = Some e ->
  find_step addr now (res, t) (Z.of_nat n) =
  (if decide (entry_matches addr now e) then Z.of_nat n else res, <[n := find_entry addr now e]> t).
Proof.
  intros He. unfold find_step, find_entry. rewrite Nat2Z.id, (list_lookup_total_correct _ _ _ He).
  case_decide as Hm.
  - destruct Hm as [Hx Hip]. rewrite Hx, Hip, Z.eqb_refl. done.
  - destruct (entry_expired now e) eqn:Hx; [done|].
    destruct (Z.eqb_spec (ip e) addr) as [Hip|_]; [by destruct Hm|]. by rewrite list_insert_id.
Qed.

(** The loop over the first [n] positions: they are rewritten, the others are
    not, and the result is the last match among them. *)
Lemma find_steps addr now table n :
  length table = 10%nat -> (n <= 10)%nat ->
  let '(res, table') := foldl (find_step addr now) (NOT_FOUND, table) (zseq n) in
  (forall i, table' !! i = (if decide (i < n)%nat then find_entry addr now else id) <$> table !! i) /\
  last_match addr now table n res.
Proof.
  intros Hlen. induction n as [|n IH]; intros Hn.
  - change (zseq 0) with (@nil Z). cbn [foldl]. split.
    + intros i. rewrite decide_False by lia. by rewrite option_fmap_id.
    + left. split; [done|]. intros; lia.
  - unfold zseq. rewrite seq_S, fmap_app, foldl_app. cbn [fmap list_fmap foldl Nat.add]. fold (zseq n).
    specialize (IH ltac:(lia)).
    destruct (foldl (find_step addr now) (NOT_FOUND, table) (zseq n)) as [res t1] eqn:E.
    destruct IH as [Ht Hres].
    destruct (lookup_lt_is_Some_2 table n) as [e He]; [lia|].
    assert (t1 !! n = Some e) as He1 by (rewrite Ht, decide_False by lia; by rewrite He).
    rewrite (find_step_at _ _ _ _ _ _ He1). split; [|by apply last_match_S].
    intros i. destruct (decide (i = n)) as [->|Hne].
    + rewrite list_lookup_insert_eq by (by eapply lookup_lt_Some).
      by rewrite decide_True, He by lia.
    + rewrite list_lookup_insert_ne by done. rewrite Ht.
      destruct (decide (i < n)%nat); [rewrite !decide_True by lia|rewrite !decide_False by lia]; done.
Qed.

Lemma arp_table_find_spec addr now table :
  length table = 10%nat ->
  let '(res, t') := arp_table_find addr now (Some table) in
  t' = Some (find_entry addr now <$> table) /\
  ((res = NOT_FOUND /\ forall i e, table !! i = Some e -> ~ entry_matches addr now e) \/
   exists k e, res = Z.of_nat k /\ table !! k = Some e /\ entry_matches addr now e /\
     forall i e', (k < i)%nat -> table !! i = Some e' -> ~ entry_matches addr now e').
Proof.
  intros Hlen. pose proof (find_steps addr now table 10 Hlen ltac:(lia)) as H. unfold arp_table_find.
  destruct (foldl _ _ _) as [res t1] eqn:E. destruct H as [Ht Hres]. split.
  - f_equal. apply list_eq. intros i. rewrite Ht, list_lookup_fmap.
    destruct (table !! i) as [e|] eqn:He; [|done]. apply lookup_lt_Some in He.
    by rewrite decide_True by lia.
  - destruct Hres as [[-> Hno]|(k & e & -> & Hk & He & Hm & Hlast)].
    + left. split; [done|]. intros i e He. apply (Hno i e); [|done].
      apply lookup_lt_Some in He. lia.
    + right. exists k, e. split_and!; try done. intros i e' Hi He'. apply (Hlast i e'); [|done].
      apply lookup_lt_Some in He'. lia.
Qed.

Lemma of_nat_not_found k : (k < 10)%nat -> (Z.of_nat k =? NOT_FOUND) = false.
Proof. intros. apply Z.eqb_neq. unfold NOT_FOUND. change (u32 (-1)) with 4294967295. lia. Qed.

Lemma table_ok_length now table : table_ok now table -> length table = 10%nat.
Proof. by intros (? & _). Qed.

Lemma table_ok_later now now' table : table_ok now table -> now <= now' -> table_ok now' table.
Proof.
  intros (Hlen & He & Hu) Hle. split; [done|]. split; [|done].
  intros i e Hi. destruct (He i e Hi) as (? & ? & ?). split_and!; [lia|lia|done|done].
Qed.

Lemma null_entry_free : entry_time ARP_NULL_ENTRY = 0 /\ ip ARP_NULL_ENTRY = 0.
Proof. done. Qed.

Lemma matches_live now table i e addr :
  table_ok now table -> table !! i = Some e -> addr <> 0 -> entry_matches addr now e -> live_entry e.
Proof.
  intros (_ & He & _) Hi Haddr [_ Hip] Ht. destruct (He i e Hi) as (_ & _ & H0). by rewrite H0 in Hip.
Qed.

Lemma table_matches_unique now table i j e e' addr :
  table_ok now table -> addr <> 0 -> table !! i = Some e -> table !! j = Some e' ->
  entry_matches addr now e -> entry_matches addr now e' -> i = j.
Proof.
  intros Hok Haddr Hi Hj Hm Hm'. pose proof Hok as (_ & _ & Hu).
  apply (Hu i j e e'); try done.
  - by eapply matches_live.
  - by eapply matches_live.
  - destruct Hm as [_ ->], Hm' as [_ ->]. done.
Qed.

(** What a search leaves of an entry. *)
Lemma find_entry_cases addr now e :
  find_entry addr now e = ARP_NULL_ENTRY \/
  (ip (find_entry addr now e) = ip e /\ mac (find_entry addr now e) = mac e /\
   ((entry_matches addr now e /\ entry_time (find_entry addr now e) = now) \/
    find_entry addr now e = e)).
Proof.
  unfold find_entry, entry_matches. destruct (entry_expired now e); [by left|]. right.
  destruct (Z.eqb_spec (ip e) addr); simpl; auto 10.
Qed.

Lemma find_table_ok addr now table :
  addr <> 0 -> table_ok now table -> 0 < now -> table_ok now (find_entry addr now <$> table).
Proof.
  intros Haddr Hok Hnow. pose proof Hok as (Hlen & He & Hu). split; [by rewrite length_fmap|]. split.
  - intros i e' Hi. rewrite list_lookup_fmap in Hi.
    destruct (table !! i) as [e|] eqn:Hi0; [|done]. simplify_eq/=.
    destruct (He i e Hi0) as (Ht & Hip & H0).
    destruct (find_entry_cases addr now e) as [->|(-> & _ & [[Hm ->]| ->])].
    + simpl. unfold live_entry. simpl. lia.
    + split_and!; [lia|lia| |lia]. intros _. destruct Hm as [_ ->]. done.
    + done.
  - intros i j e1 e2 Hi Hj Hl1 Hl2 Hips. rewrite list_lookup_fmap in Hi, Hj.
    destruct (table !! i) as [e|] eqn:Hi0, (table !! j) as [e'|] eqn:Hj0; try done. simplify_eq/=.
    apply (Hu i j e e' Hi0 Hj0).
    + destruct (find_entry_cases addr now e) as [E|(_ & _ & [[Hm _]|E])].
      * unfold live_entry in Hl1. by rewrite E in Hl1.
      * exact (matches_live now table i e addr Hok Hi0 Haddr Hm).
      * by rewrite E in Hl1.
    + destruct (find_entry_cases addr now e') as [E|(_ & _ & [[Hm _]|E])].
      * unfold live_entry in Hl2. by rewrite E in Hl2.
      * exact (matches_live now table j e' addr Hok Hj0 Haddr Hm).
      * by rewrite E in Hl2.
    + destruct (find_entry_cases addr now e) as [E|(<- & _)];
        [unfold live_entry in Hl1; by rewrite E in Hl1|].
      destruct (find_entry_cases addr now e') as [E|(<- & _)];
        [unfold live_entry in Hl2; by rewrite E in Hl2|]. done.
Qed.

Lemma entry_fresh now e : entry_time e = now -> entry_expired now e = false.
Proof.
  intros <-. unfold entry_expired. rewrite Z.sub_diag. by rewrite andb_false_r.
Qed.

(** A search neither loses nor invents a resolution. *)
Lemma find_resolves addr addr' now table m :
  addr' <> 0 -> table_ok now table -> 0 < now ->
  resolves now (find_entry addr now <$> table) addr' m <-> resolves now table addr' m.
Proof.
  intros Haddr' Hok Hnow. unfold resolves. split.
  - intros (i & e' & Hi & [Hx Hip] & Hm). rewrite list_lookup_fmap in Hi.
    destruct (table !! i) as [e|] eqn:Hi0; [|done]. simplify_eq/=.
    unfold find_entry in *. destruct (entry_expired now e) eqn:Hexp; [done|].
    exists i, e. split; [done|]. split; [split; [done|]|]; by destruct (ip e =? addr).
  - intros (i & e & Hi & [Hx Hip] & Hm).
    exists i, (find_entry addr now e). rewrite list_lookup_fmap, Hi. split; [done|].
    unfold find_entry. rewrite Hx. destruct (ip e =? addr); [|done].
    split; [|done]. split; [by apply entry_fresh|done].
Qed.

(** ** Adding *)

Lemma add_slot_loop table slot n k :
  length table = 10%nat -> (slot < 10)%nat -> (n + k = 10)%nat ->
  (forall j, (j < n)%nat -> entry_time (table !!! j) <> 0) ->
  (forall j, (j < n)%nat -> entry_time (table !!! slot) <= entry_time (table !!! j)) ->
  exists r, add_slot table (Z.of_nat slot) (Z.of_nat <$> seq n k) = Z.of_nat r /\ (r < 10)%nat /\
    ((entry_time (table !!! r) = 0 /\ forall j, (j < r)%nat -> entry_time (table !!! j) <> 0) \/
     (forall j, (j < 10)%nat ->
        entry_time (table !!! j) <> 0 /\ entry_time (table !!! r) <= entry_time (table !!! j))).
Proof.
  intros Hlen. revert slot n. induction k as [|k IH]; intros slot n Hslot Hn Hnz Hmin.
  - exists slot. simpl. split_and!; [done|done|]. right. intros j Hj. split; [apply Hnz|apply Hmin]; lia.
  - cbn [seq fmap list_fmap add_slot]. rewrite !Nat2Z.id.
    destruct (Z.eqb_spec (entry_time (table !!! n)) 0) as [E|Hne].
    + exists n. split_and!; [done|lia|]. left. by split.
    + assert (forall j, (j < S n)%nat -> entry_time (table !!! j) <> 0) as Hnz'.
      { intros j Hj. destruct (decide (j = n)) as [->|]; [done|apply Hnz; lia]. }
      destruct (Z.ltb_spec (entry_time (table !!! n)) (entry_time (table !!! slot))).
      * apply (IH n (S n)); [lia|lia|done|]. intros j Hj.
        destruct (decide (j = n)) as [->|]; [lia|]. specialize (Hmin j ltac:(lia)). lia.
      * apply (IH slot (S n)); [lia|lia|done|]. intros j Hj.
        destruct (decide (j = n)) as [->|]; [lia|]. apply Hmin. lia.
Qed.

Lemma add_slot_spec table :
  length table = 10%nat ->
  exists r, add_slot table 0 (zseq 10) = Z.of_nat r /\ (r < 10)%nat /\
    ((entry_time (table !!! r) = 0 /\ forall j, (j < r)%nat -> entry_time (table !!! j) <> 0) \/
     (forall j, (j < 10)%nat ->
        entry_time (table !!! j) <> 0 /\ entry_time (table !!! r) <= entry_time (table !!! j))).
Proof. intros Hlen. apply (add_slot_loop table 0 0 10 Hlen); intros; lia. Qed.

(** ** Properties *)

(** What a search does to an entry, case by case. *)
Lemma find_entry_effect addr now table i e :
  table_ok now table -> addr <> 0 -> now < 9223372036854775808 -> table !! i = Some e ->
  find_entry addr now e =
    if decide (live_entry e /\ 300 < now - entry_time e) then ARP_NULL_ENTRY
    else if decide (ip e = addr) then mk_arp_entry addr (mac e) now else e.
Proof.
  intros (_ & He & _) Haddr Hbig Hi. destruct (He i e Hi) as (Ht & _). unfold find_entry, entry_expired, MAX_ARP_TABLE_AGE.
  rewrite u64_id by (unfold is_u64; lia). unfold live_entry. destruct (Z.eqb_spec (entry_time e) 0) as [Hz|Hz]; cbn [negb andb].
  - rewrite decide_False by tauto. destruct (Z.eqb_spec (ip e) addr) as [->|?]; [by rewrite decide_True|by rewrite decide_False].
  - destruct (Z.ltb_spec 300 (now - entry_time e)); [by rewrite decide_True|]. rewrite decide_False by lia.
    destruct (Z.eqb_spec (ip e) addr) as [->|?]; [by rewrite decide_True|by rewrite decide_False].
Qed.

(** C29: In a well-formed table and after the first second of the clock,
    [arp_table_lookup] of an address other than 0 returns the MAC address the table
    resolves it to, or the null MAC if it resolves it to none; the search frees the
    entries unused for more than 300 seconds, stamps the one it found with the
    current time, leaves every other entry as it was, and keeps the table
    well-formed and all its resolutions. *)
Theorem arp_table_lookup_correct addr now table :
  table_ok now table -> addr <> 0 -> 0 < now -> now < 9223372036854775808 ->
  let '(m, t') := arp_table_lookup addr now (Some table) in
  (forall m', resolves now table addr m' -> m = m') /\
  ((forall m', ~ resolves now table addr m') -> m = NULL_MAC) /\
  exists table', t' = Some table' /\ table_ok now table' /\
    (forall a m', a <> 0 -> resolves now table' a m' <-> resolves now table a m') /\
    (forall i e, table !! i = Some e ->
       (live_entry e -> 300 < now - entry_time e -> table' !! i = Some ARP_NULL_ENTRY) /\
       (ip e = addr -> now - entry_time e <= 300 -> table' !! i = Some (mk_arp_entry addr (mac e) now)) /\
       (ip e <> addr -> ~ live_entry e \/ now - entry_time e <= 300 -> table' !! i = Some e)).
Proof.
  intros Hok Haddr Hnow Hbig. unfold arp_table_lookup.
  pose proof (arp_table_find_spec addr now table (table_ok_length _ _ Hok)) as H.
  destruct (arp_table_find addr now (Some table)) as [res t'] eqn:E. destruct H as [-> Hres].
  set (table' := find_entry addr now <$> table).
  assert (table_ok now table' /\ (forall a m', a <> 0 -> resolves now table' a m' <-> resolves now table a m') /\
    (forall i e, table !! i = Some e ->
       (live_entry e -> 300 < now - entry_time e -> table' !! i = Some ARP_NULL_ENTRY) /\
       (ip e = addr -> now - entry_time e <= 300 -> table' !! i = Some (mk_arp_entry addr (mac e) now)) /\
       (ip e <> addr -> ~ live_entry e \/ now - entry_time e <= 300 -> table' !! i = Some e))) as Htab.
  { split; [by apply find_table_ok|]. split; [intros; by apply find_resolves|].
    intros i e Hi. unfold table'. rewrite list_lookup_fmap, Hi. cbn [fmap option_fmap option_map].
    rewrite (find_entry_effect addr now table i e) by done.
    split_and!; intros; f_equal; repeat case_decide; (done || lia || tauto || by destruct_or?; lia || tauto). }
  destruct Hres as [[-> Hno]|(k & e & -> & He & Hm & _)].
  - rewrite Z.eqb_refl. simpl. split_and!; [|done|by exists table'].
    intros m' (i & e & Hi & Hm & _). by destruct (Hno i e Hi).
  - rewrite of_nat_not_found by (apply lookup_lt_Some in He; rewrite (table_ok_length _ _ Hok) in He; done).
    simpl. rewrite Nat2Z.id.
    assert (mac (table' !!! k) = mac e) as ->.
    { rewrite (list_lookup_total_correct _ _ (find_entry addr now e)) by (by unfold table'; rewrite list_lookup_fmap, He).
      unfold find_entry. destruct Hm as [-> _]. by case_match. }
    split_and!; [| |by exists table'].
    + intros m' (i & e' & Hi & Hm' & <-).
      assert (i = k) as -> by (by eapply (table_matches_unique now table)). congruence.
    + intros Hno. destruct (Hno (mac e)). by exists k, e.
Qed.

(** [arp_table_update] reports whether the table resolves the address and, if
    so, makes it resolve to the new MAC address; the table stays well-formed and
    no other address is affected. *)
Lemma arp_table_update_spec m addr now table :
  table_ok now table -> addr <> 0 -> 0 < now ->
  exists b table', arp_table_update m addr now (Some table) = (b, Some table') /\
    (b = true <-> exists m', resolves now table addr m') /\ table_ok now table' /\
    (b = true -> resolves now table' addr m) /\
    (b = false -> table' = find_entry addr now <$> table /\
       forall i e, table' !! i = Some e -> live_entry e -> ip e <> addr) /\
    (forall a m', a <> 0 -> a <> addr -> resolves now table' a m' <-> resolves now table a m').
Proof.
  intros Hok Haddr Hnow. unfold arp_table_update.
  pose proof (arp_table_find_spec addr now table (table_ok_length _ _ Hok)) as H.
  destruct (arp_table_find addr now (Some table)) as [res t'] eqn:E. destruct H as [-> Hres].
  pose proof (find_table_ok addr now table Haddr Hok Hnow) as Hok1.
  set (t1 := find_entry addr now <$> table) in *.
  destruct Hres as [[-> Hno]|(k & e & -> & He & Hm & _)].
  - rewrite Z.eqb_refl. exists false, t1. split; [done|]. split; [|split; [done|split; [done|split]]].
    + split; [done|]. intros (m' & i & e & Hi & Hm & _). by destruct (Hno i e Hi).
    + intros _. split; [done|]. intros i e' Hi Hl Hip. unfold t1 in Hi. rewrite list_lookup_fmap in Hi.
      destruct (table !! i) as [e|] eqn:He; [|done]. injection Hi as <-.
      apply (Hno i e He). unfold find_entry, entry_matches in *.
      destruct (entry_expired now e); [by destruct Hl|]. split; [done|].
      by destruct (Z.eqb_spec (ip e) addr).
    + intros. by apply find_resolves.
  - rewrite of_nat_not_found by (apply lookup_lt_Some in He; rewrite (table_ok_length _ _ Hok) in He; done).
    simpl. rewrite Nat2Z.id. set (f := fun e => mk_arp_entry (ip e) m (entry_time e)).
    assert (t1 !! k = Some (find_entry addr now e)) as Hk1 by (unfold t1; by rewrite list_lookup_fmap, He).
    assert (ip (find_entry addr now e) = addr /\ entry_time (find_entry addr now e) = now) as [Hkip Hkt].
    { unfold find_entry. destruct Hm as [-> Hip]. rewrite Hip, Z.eqb_refl. done. }
    assert (forall i, alter f k t1 !! i = if decide (k = i) then f <$> t1 !! k else t1 !! i) as Hal
      by (intros i; apply list_lookup_alter).
    exists true, (alter f k t1). split; [done|]. split; [|split; [|split; [|split; [done|]]]].
    + split; [|done]. intros _. exists (mac e), k, e. by split.
    + destruct Hok1 as (Hlen & Hen & Hu). split; [by rewrite length_alter|]. split.
      * intros i e' Hi. rewrite Hal in Hi. destruct (decide (k = i)) as [Hki|Hki]; [|by apply (Hen i)].
        subst i. rewrite Hk1 in Hi. injection Hi as <-.
        exact (Hen k (find_entry addr now e) Hk1).
      * intros i j e1 e2 Hi Hj. rewrite Hal in Hi, Hj.
        assert (exists e1', t1 !! i = Some e1' /\ ip e1' = ip e1 /\ entry_time e1' = entry_time e1) as (e1' & H1 & <- & Ht1)
          by (destruct (decide (k = i)); [subst i; rewrite Hk1 in Hi; injection Hi as <-; eauto|eauto]).
        assert (exists e2', t1 !! j = Some e2' /\ ip e2' = ip e2 /\ entry_time e2' = entry_time e2) as (e2' & H2 & <- & Ht2)
          by (destruct (decide (k = j)); [subst j; rewrite Hk1 in Hj; injection Hj as <-; eauto|eauto]).
        unfold live_entry in *. rewrite <- Ht1, <- Ht2. by apply (Hu i j).
    + intros _. exists k, (f (find_entry addr now e)). rewrite Hal, decide_True, Hk1 by done.
      split; [done|]. split; [|done]. split; [by apply entry_fresh|done].
    + intros a m' Ha Hne. rewrite <- (find_resolves addr a now table m' Ha Hok Hnow). fold t1.
      unfold resolves. split; intros (i & e' & Hi & [Hx Hip] & Hmm).
      * rewrite Hal in Hi. destruct (decide (k = i)) as [Hki|Hki]; [|by exists i, e'].
        subst i. rewrite Hk1 in Hi. injection Hi as <-. simpl in Hip. congruence.
      * exists i, e'. rewrite Hal, decide_False; [done|]. intros ->. rewrite Hk1 in Hi.
        by simplify_eq.
Qed.

(** The slot [arp_table_add_entry] takes: the first free one, or else one of the
    least recently used. *)
Lemma add_entry_slot m addr now table :
  length table = 10%nat ->
  exists r old, table !! r = Some old /\
    arp_table_add_entry m addr now (Some table) = Some (<[r := mk_arp_entry addr m now]> table) /\
    ((entry_time old = 0 /\ forall i e, (i < r)%nat -> table !! i = Some e -> live_entry e) \/
     (forall i e, table !! i = Some e -> live_entry e /\ entry_time old <= entry_time e)).
Proof.
  intros Hlen. destruct (add_slot_spec table Hlen) as (r & Hr & Hr10 & Hcase).
  destruct (lookup_lt_is_Some_2 table r) as [old Hold]; [lia|].
  assert (forall i e, table !! i = Some e -> table !!! i = e) as Htot
    by (intros; by apply list_lookup_total_correct).
  exists r, old. split; [done|]. split; [unfold arp_table_add_entry; by rewrite Hr, Nat2Z.id|].
  rewrite (Htot _ _ Hold) in Hcase. destruct Hcase as [[Hz Hf]|Hall].
  - left. split; [done|]. intros i e Hi Hie. specialize (Hf i Hi). by rewrite (Htot _ _ Hie) in Hf.
  - right. intros i e Hie. pose proof (lookup_lt_Some _ _ _ Hie).
    specialize (Hall i ltac:(lia)). by rewrite (Htot _ _ Hie) in Hall.
Qed.

Lemma add_entry_first m addr now table r old :
  length table = 10%nat -> table !! r = Some old -> entry_time old = 0 ->
  (forall i e, (i < r)%nat -> table !! i = Some e -> live_entry e) ->
  arp_table_add_entry m addr now (Some table) = Some (<[r := mk_arp_entry addr m now]> table).
Proof.
  intros Hlen Hold Hz Hf. destruct (add_entry_slot m addr now table Hlen) as (r' & old' & Hold' & Hadd & Hcase).
  rewrite Hadd. assert (r' = r) as ->; [|done].
  destruct Hcase as [[Hz' Hf']|Hall]; [|by destruct (Hall r old Hold)].
  destruct (lt_eq_lt_dec r r') as [[Hlt|Heq]|Hlt]; [by destruct (Hf' r old Hlt Hold)|done|by destruct (Hf r' old' Hlt Hold')].
Qed.

(** The other addresses. *)
Lemma replaced_resolves m addr now table r old a m' :
  table !! r = Some old -> a <> addr -> a <> ip old ->
  resolves now (<[r := mk_arp_entry addr m now]> table) a m' <-> resolves now table a m'.
Proof.
  intros Hold Hne Hold'. pose proof (lookup_lt_Some _ _ _ Hold). unfold resolves.
  split; intros (i & e & Hi & [Hx Hip] & Hmm); exists i, e; destruct (decide (r = i)) as [<-|].
  - rewrite list_lookup_insert_eq in Hi by done. injection Hi as <-. simpl in Hip. congruence.
  - by rewrite list_lookup_insert_ne in Hi.
  - rewrite Hold in Hi. by injection Hi as ->.
  - by rewrite list_lookup_insert_ne.
Qed.

Lemma inserted_table_ok m addr now table r old :
  table_ok now table -> addr <> 0 -> 0 < now ->
  (forall i e, table !! i = Some e -> live_entry e -> ip e <> addr) -> table !! r = Some old ->
  table_ok now (<[r := mk_arp_entry addr m now]> table).
Proof.
  intros (Hlen & He & Hu) Haddr Hnow Hnew Hold. pose proof (lookup_lt_Some _ _ _ Hold).
  assert (forall i, <[r := mk_arp_entry addr m now]> table !! i =
    if decide (r = i) then Some (mk_arp_entry addr m now) else table !! i) as Hins.
  { intros i. destruct (decide (r = i)) as [<-|]; [apply list_lookup_insert_eq; lia|by apply list_lookup_insert_ne]. }
  split; [by rewrite length_insert|]. split.
  - intros i e Hi. rewrite Hins in Hi. destruct (decide (r = i)); [|by apply (He i)].
    injection Hi as <-. simpl. split_and!; [lia|lia|done|lia].
  - intros i j e e' Hi Hj Hl Hl' Hip. rewrite Hins in Hi, Hj.
    clear Hins. destruct (decide (r = i)), (decide (r = j)); simplify_eq/=; [done| | |].
    + by destruct (Hnew j e' Hj Hl').
    + by destruct (Hnew i e Hi Hl).
    + by apply (Hu i j e e').
Qed.

(** [arp_table_add_entry] of an address the table does not hold makes the
    table resolve it, in the first free slot if there is one and otherwise in
    place of a least recently used entry; the table stays well-formed and every
    other address keeps its resolution unless it was the one replaced. *)
Lemma arp_table_add_entry_spec m addr now table :
  table_ok now table -> addr <> 0 -> 0 < now ->
  (forall i e, table !! i = Some e -> live_entry e -> ip e <> addr) ->
  exists r old, table !! r = Some old /\
    arp_table_add_entry m addr now (Some table) = Some (<[r := mk_arp_entry addr m now]> table) /\
    ((~ live_entry old /\ forall i e, (i < r)%nat -> table !! i = Some e -> live_entry e) \/
     (forall i e, table !! i = Some e -> live_entry e /\ entry_time old <= entry_time e)) /\
    table_ok now (<[r := mk_arp_entry addr m now]> table) /\
    resolves now (<[r := mk_arp_entry addr m now]> table) addr m /\
    (forall a m', a <> 0 -> a <> addr -> a <> ip old ->
       resolves now (<[r := mk_arp_entry addr m now]> table) a m' <-> resolves now table a m').
Proof.
  intros Hok Haddr Hnow Hnew.
  destruct (add_entry_slot m addr now table (table_ok_length _ _ Hok)) as (r & old & Hold & Hadd & Hcase).
  exists r, old. split; [done|]. split; [done|]. split; [|split; [|split]].
  - destruct Hcase as [[Hz Hf]|Hall]; [left; split; [unfold live_entry; lia|done]|by right].
  - by apply (inserted_table_ok m addr now table r old).
  - exists r, (mk_arp_entry addr m now). split; [apply list_lookup_insert_eq; by eapply lookup_lt_Some|].
    split; [|done]. split; [by apply entry_fresh|done].
  - intros a m' _ Hne Hne'. by apply (replaced_resolves m addr now table r old).
Qed.

(** C30: [arp_table_add_entry] writes the new entry into the first slot whose time
    is 0 and, only when the times of all ten are not 0, into one of the least
    recently used; the table then resolves the address to the new MAC address, and
    every other address as before, that of the slot's old entry excepted.  After
    the first second of the clock a well-formed table that did not hold the address
    (other than 0) stays well-formed; during the first second the new entry's own
    time is 0, so that its slot counts as free again. *)
Theorem arp_table_add_entry_correct m addr now table :
  length table = 10%nat -> 0 <= now ->
  exists r old, table !! r = Some old /\
    let table' := <[r := mk_arp_entry addr m now]> table in
    arp_table_add_entry m addr now (Some table) = Some table' /\
    ((entry_time old = 0 /\ forall i e, (i < r)%nat -> table !! i = Some e -> live_entry e) \/
     (forall i e, table !! i = Some e -> live_entry e /\ entry_time old <= entry_time e)) /\
    resolves now table' addr m /\
    (forall a m', a <> addr -> a <> ip old -> resolves now table' a m' <-> resolves now table a m') /\
    (0 < now -> addr <> 0 -> table_ok now table ->
     (forall i e, table !! i = Some e -> live_entry e -> ip e <> addr) -> table_ok now table') /\
    (now = 0 -> forall m2 addr2 now2, entry_time old = 0 ->
       arp_table_add_entry m2 addr2 now2 (Some table') = Some (<[r := mk_arp_entry addr2 m2 now2]> table)).
Proof.
  intros Hlen Hnow. destruct (add_entry_slot m addr now table Hlen) as (r & old & Hold & Hadd & Hcase).
  exists r, old. split; [done|]. cbv zeta. split; [done|]. split; [|split; [|split; [|split]]].
  - by destruct Hcase as [[Hz Hf]|Hall]; [left|right].
  - exists r, (mk_arp_entry addr m now). split; [apply list_lookup_insert_eq; by eapply lookup_lt_Some|].
    split; [|done]. split; [by apply entry_fresh|done].
  - intros a m' Ha Ho. by apply (replaced_resolves m addr now table r old).
  - intros Hpos Haddr Hok Hnew. by apply (inserted_table_ok m addr now table r old).
  - intros -> m2 addr2 now2 Hz. destruct Hcase as [[_ Hf]|Hall]; [|by destruct (Hall r old Hold)].
    rewrite (add_entry_first m2 addr2 now2 _ r (mk_arp_entry addr m 0)); [by rewrite list_insert_insert_eq| | | |].
    + by rewrite length_insert.
    + apply list_lookup_insert_eq. by eapply lookup_lt_Some.
    + done.
    + intros i e Hi He. rewrite list_lookup_insert_ne in He by lia. by apply (Hf i).
Qed.

(** An update for the address 0.0.0.0, which the sender of an ARP probe
    carries, matches every free entry: the call reports success and stamps all
    of them as just used, so that the next new address replaces a genuine
    entry although slots were free. *)
Theorem arp_probe_fills_table m m' addr now now' table :
  table_ok now table -> 0 < now ->
  (exists i e, table !! i = Some e /\ ~ live_entry e) ->
  (forall i e, table !! i = Some e -> entry_expired now e = false) ->
  (exists i e, table !! i = Some e /\ live_entry e /\ entry_time e < now) ->
  exists table', arp_table_update m 0 now (Some table) = (true, Some table') /\
    (forall i e, table' !! i = Some e -> live_entry e) /\
    exists r old, table !! r = Some old /\ live_entry old /\ ip old <> 0 /\
      arp_table_add_entry m' addr now' (Some table') = Some (<[r := mk_arp_entry addr m' now']> table').
Proof.
  intros Hok Hnow (i0 & e0 & Hi0 & Hf0) Hexp (i1 & e1 & Hi1 & Hl1 & Ht1).
  pose proof Hok as (Hlen & He & Hu). unfold arp_table_update.
  pose proof (arp_table_find_spec 0 now table Hlen) as H.
  destruct (arp_table_find 0 now (Some table)) as [res t'] eqn:E. clear E. destruct H as [-> Hres].
  destruct Hres as [[-> Hno]|(k & ek & -> & Hk & _ & _)].
  { exfalso. apply (Hno i0 e0 Hi0). split; [by apply (Hexp i0)|].
    destruct (He i0 e0 Hi0) as (_ & _ & H0). apply H0. unfold live_entry in Hf0. lia. }
  rewrite of_nat_not_found by (apply lookup_lt_Some in Hk; lia).
  cbn [negb fmap option_fmap option_map]. rewrite Nat2Z.id.
  set (t1 := alter _ k (find_entry 0 now <$> table)).
  assert (forall i e, table !! i = Some e -> exists e', t1 !! i = Some e' /\
    entry_time e' = if decide (live_entry e) then entry_time e else now) as Ht.
  { intros i e Hi. destruct (He i e Hi) as (_ & Hnz & Hz).
    assert (entry_time (find_entry 0 now e) = if decide (live_entry e) then entry_time e else now) as Hte.
    { unfold find_entry. rewrite (Hexp i e Hi). unfold live_entry in *. case_decide as Hd.
      - rewrite (proj2 (Z.eqb_neq _ _) (Hnz Hd)). done.
      - assert (entry_time e = 0) as Hd0 by lia. by rewrite (Hz Hd0). }
    unfold t1. destruct (decide (k = i)) as [<-|Hne].
    - rewrite list_lookup_alter_eq, list_lookup_fmap, Hi. eexists. split; [done|]. done.
    - rewrite list_lookup_alter_ne, list_lookup_fmap, Hi by done. eexists. split; [done|]. done. }
  assert (length t1 = 10%nat) as Hlen1 by (unfold t1; by rewrite length_alter, length_fmap).
  clearbody t1.
  assert (forall i e, t1 !! i = Some e -> live_entry e) as Hlive.
  { intros i e' Hi. pose proof (lookup_lt_Some _ _ _ Hi).
    destruct (lookup_lt_is_Some_2 table i) as [e Hie]; [lia|].
    destruct (Ht i e Hie) as (e2 & He2 & Hte). rewrite Hi in He2. simplify_eq.
    unfold live_entry in *. rewrite Hte. case_decide; [done|lia]. }
  exists t1. split; [done|]. split; [done|].
  destruct (add_slot_spec t1 Hlen1) as (r & Hr & Hr10 & Hcase).
  destruct (lookup_lt_is_Some_2 table r) as [old Hold]; [lia|].
  destruct (Ht r old Hold) as (er & Her & Hter).
  rewrite (list_lookup_total_correct _ _ _ Her) in Hcase.
  assert (live_entry old) as Hlold.
  { destruct Hcase as [[Hz _]|Hall]; [by destruct (Hlive r er Her)|].
    destruct (Ht i1 e1 Hi1) as (e2 & He2 & Hte2). rewrite decide_True in Hte2 by done.
    pose proof (lookup_lt_Some _ _ _ Hi1).
    destruct (Hall i1 ltac:(lia)) as [_ Hle]. rewrite (list_lookup_total_correct _ _ _ He2) in Hle.
    destruct (decide (live_entry old)); [done|]. lia. }
  exists r, old. split; [done|]. split; [done|]. split; [by destruct (He r old Hold) as (_ & ? & _); auto|].
  unfold arp_table_add_entry. by rewrite Hr, Nat2Z.id.
Qed.

(** In the first second after start [clock_seconds()] is 0, which marks a
    free entry: each address added then replaces the one added before it,
    although the other nine slots are free. *)
Theorem arp_entry_of_second_zero_lost m1 a1 m2 a2 :
  arp_table_add_entry m2 a2 0 (arp_table_add_entry m1 a1 0 (Some null_table)) =
  Some (<[0%nat := mk_arp_entry a2 m2 0]> null_table).
Proof. reflexivity. Qed.

(** ** Witnesses *)

Definition mac_a : list Z := [1; 2; 3; 4; 5; 6].
Definition mac_b : list Z := [6; 5; 4; 3; 2; 1].

(** A table that learned 10.0.2.2 at second 7. *)
Definition example_table : list arp_entry :=
  <[0%nat := mk_arp_entry 0x0A000202 mac_a 7]> null_table.

Definition table_okb (now : Z) (table : list arp_entry) : bool :=
  (length table =? 10)%nat &&
  forallb (fun e => (0 <=? entry_time e) && (entry_time e <=? now) &&
    (if entry_time e =? 0 then ip e =? 0 else negb (ip e =? 0))) table &&
  forallb (fun i => forallb (fun j =>
    bool_decide (i = j) || negb (ip (table !!! i) =? ip (table !!! j)) ||
    (entry_time (table !!! i) =? 0) || (entry_time (table !!! j) =? 0)) (seq 0 10)) (seq 0 10).

Lemma table_okb_ok now table : table_okb now table = true -> table_ok now table.
Proof.
  unfold table_okb. rewrite !andb_true_iff, Nat.eqb_eq, !forallb_forall. intros [[Hlen He] Hu].
  split; [done|]. split.
  - intros i e Hi%list_elem_of_lookup_2. specialize (He e). rewrite <- list_elem_of_In in He.
    specialize (He Hi). rewrite !andb_true_iff, !Z.leb_le in He. destruct He as [[? ?] Hz].
    unfold live_entry. destruct (Z.eqb_spec (entry_time e) 0) as [E|E]; split_and!; try lia.
  - intros i j e e' Hi Hj Hl Hl' Hip.
    pose proof (lookup_lt_Some _ _ _ Hi). pose proof (lookup_lt_Some _ _ _ Hj).
    specialize (Hu i). rewrite in_seq, forallb_forall in Hu. specialize (Hu ltac:(lia) j).
    rewrite in_seq in Hu. specialize (Hu ltac:(lia)).
    rewrite (list_lookup_total_correct _ _ _ Hi), (list_lookup_total_correct _ _ _ Hj) in Hu.
    unfold live_entry in *. rewrite !orb_true_iff, bool_decide_eq_true, negb_true_iff, Z.eqb_neq, !Z.eqb_eq in Hu.
    tauto.
Qed.

Lemma example_table_ok : table_ok 100 example_table.
Proof. apply table_okb_ok. vm_compute. reflexivity. Qed.

Lemma arp_table_lookup_correct_witness :
  (arp_table_lookup 0x0A000202 100 (Some example_table)).1 = mac_a.
Proof.
  pose proof (arp_table_lookup_correct 0x0A000202 100 example_table
    example_table_ok ltac:(lia) ltac:(lia) ltac:(lia)) as H.
  destruct (arp_table_lookup 0x0A000202 100 (Some example_table)) as [m t'].
  destruct H as (H & _). apply H. exists 0%nat, (mk_arp_entry 0x0A000202 mac_a 7).
  split; [reflexivity|]. split; [vm_compute; by split|reflexivity].
Defined.

Lemma arp_table_add_entry_correct_witness :
  exists t', arp_table_add_entry mac_b 0x0A000203 100 (Some example_table) = Some t' /\
    resolves 100 t' 0x0A000203 mac_b /\ table_ok 100 t'.
Proof.
  destruct (arp_table_add_entry_correct mac_b 0x0A000203 100 example_table)
    as (r & old & _ & E & _ & Hr & _ & Hok & _); [reflexivity|lia|].
  eexists. split; [exact E|]. split; [exact Hr|]. apply Hok; [lia|lia|exact example_table_ok|].
  intros i e Hi%list_elem_of_lookup_2 Hl.
  assert (Forall (fun e => ip e <> 0x0A000203) example_table) as HF
    by (apply (bool_decide_unpack _); vm_compute; done).
  rewrite Forall_forall in HF. by apply HF.
Defined.

Lemma arp_probe_fills_table_witness :
  exists table', arp_table_update mac_b 0 100 (Some example_table) = (true, Some table') /\
    arp_table_add_entry mac_b 0x0A000203 101 (Some table') =
      Some (<[0%nat := mk_arp_entry 0x0A000203 mac_b 101]> table').
Proof.
  destruct (arp_probe_fills_table mac_b mac_b 0x0A000203 100 101 example_table) as (t' & E & _ & r & old & Hr & Hl & _ & Ha).
  - exact example_table_ok.
  - lia.
  - exists 1%nat, ARP_NULL_ENTRY. split; [reflexivity|]. unfold live_entry. simpl. lia.
  - intros i e Hi%list_elem_of_lookup_2.
    assert (Forall (fun e => entry_expired 100 e = false) example_table) as HF
      by (apply (bool_decide_unpack _); vm_compute; done).
    rewrite Forall_forall in HF. by apply HF.
  - exists 0%nat, (mk_arp_entry 0x0A000202 mac_a 7). split; [reflexivity|]. unfold live_entry. simpl. lia.
  - exists t'. split; [exact E|]. destruct r as [|r]; [exact Ha|]. exfalso.
    simpl in Hr. assert (old ∈ replicate 9 ARP_NULL_ENTRY) as Hin by by eapply list_elem_of_lookup_2.
    apply elem_of_replicate in Hin as [-> _]. by apply Hl.
Defined.
