(* ===== verification/Arp.v ===== *)
(** * ARP: kernel/network/arp.c

    Decoding of received ARP frames, learning, replies and requests, on top of
    Ethernet.v and Routing.v.  [netstack] is the state the network code above
    the driver works on.  A received frame is the bytes of its packet slot; the
    frame to be sent is a local variable at [arp_stack] on the task's stack. *)

From S2P Require Import Prelude StateMonad Memory Heap Clock NetworkIo Ethernet Routing.

(** ** Definitions *)

Definition ARP_REQUEST : Z := 0x0001.
Definition ARP_REPLY : Z := 0x0002.
Definition HTYPE_ETHERNET : Z := 1.
Definition IPV4_ADDR_LEN : Z := 4.
Definition OWN_IPV4_ADDR : Z := 0x0A00020A.

(** [arp_frame_t], its fields as they are in memory, that is, already
    converted to network order. *)
Record arp_frame := mk_arp_frame {
  hardware_type : Z;
  protocol_type : Z;
  hardware_addr_len : Z;
  protocol_addr_len : Z;
  opcode : Z;
  src_hardware_addr : list Z;
  src_ip_address : Z;
  dest_hardware_addr : list Z;
  dest_ip_address : Z;
}.

Definition sizeof_arp_frame : Z := 28.

(** The network stack above the driver: the card, the ARP table, the clock. *)
Record netstack (S : Type) := mk_net {
  ns_nic : S;
  ns_table : arp_table;
  ns_clock : Z;
}.
Arguments mk_net {S}.
Arguments ns_nic {S}.
Arguments ns_table {S}.
Arguments ns_clock {S}.

Definition set_ns_nic {S} (n : S) (s : netstack S) : netstack S := mk_net n (ns_table s) (ns_clock s).
Definition set_ns_table {S} (t : arp_table) (s : netstack S) : netstack S := mk_net (ns_nic s) t (ns_clock s).

(** [n] bytes of a structure, and the integer the processor loads from them. *)
Definition field_bytes (n off : nat) (bytes : list Z) : list Z := take n (drop off bytes).
Definition field {cpu : Cpu} (n off : nat) (bytes : list Z) : Z := dec cpu_endian (field_bytes n off bytes).

(** The view of bytes as an [arp_frame_t], which is packed, and back. *)
Definition arp_frame_at {cpu : Cpu} (bytes : list Z) : arp_frame :=
  mk_arp_frame (field 2 0 bytes) (field 2 2 bytes) (field 1 4 bytes) (field 1 5 bytes)
    (field 2 6 bytes) (field_bytes 6 8 bytes) (field 4 14 bytes) (field_bytes 6 18 bytes)
    (field 4 24 bytes).

Definition arp_frame_image {cpu : Cpu} (f : arp_frame) : list Z :=
  enc cpu_endian 2 (hardware_type f) ++ enc cpu_endian 2 (protocol_type f) ++
  [hardware_addr_len f; protocol_addr_len f] ++ enc cpu_endian 2 (opcode f) ++
  src_hardware_addr f ++ enc cpu_endian 4 (src_ip_address f) ++
  dest_hardware_addr f ++ enc cpu_endian 4 (dest_ip_address f).

Section Arp.
Context {S : Type} `{Nic S} {cpu : Cpu} {board : Board} (arp_stack : Z).

Abbreviation NS := (ST (netstack S)).

Definition on_nic {A} (m : ST S A) : NS A := zoom ns_nic set_ns_nic m.
Definition clock_seconds_now : NS Z := gets (fun s => clock_seconds (ns_clock s)).

Definition arp_build_frame (op : Z) (dest_hw : list Z) (dest_ip : Z) : NS arp_frame :=
  m ← on_nic nic_get_mac;
  mret (mk_arp_frame (htons HTYPE_ETHERNET) (htons TYPE_IPv4) ETH_MAC_ADDRESS_LENGTH IPV4_ADDR_LEN
          (htons op) (hton_mac m) (htonl OWN_IPV4_ADDR) (hton_mac dest_hw) (htonl dest_ip)).

(** [ethernet_send(dest, TYPE_ARP, &arp_frame, sizeof(arp_frame_t))]. *)
Definition arp_transmit (fuel : nat) (dest : list Z) (f : arp_frame) : NS unit :=
  on_nic (on_ram (fun m => write_bytes m arp_stack (arp_frame_image f)) ;;
          ethernet_send fuel dest TYPE_ARP arp_stack sizeof_arp_frame).

Definition arp_handle_request (fuel : nat) (frame : arp_frame) : NS unit :=
  f ← arp_build_frame ARP_REPLY (ntoh_mac (src_hardware_addr frame)) (ntohl (src_ip_address frame));
  arp_transmit fuel (ntoh_mac (src_hardware_addr frame)) f.

Definition table_update (m : list Z) (addr : Z) : NS bool :=
  now ← clock_seconds_now;
  lift ns_table set_ns_table (arp_table_update m addr now).
Definition table_add_entry (m : list Z) (addr : Z) : NS unit :=
  now ← clock_seconds_now;
  lift ns_table set_ns_table (fun t => (tt, arp_table_add_entry m addr now t)).

Definition arp_receive (fuel : nat) (frame : list Z) : NS unit :=
  let arp_frame := arp_frame_at (drop 14 frame) in
  if negb (ntohs (hardware_type arp_frame) =? HTYPE_ETHERNET)
     || negb (hardware_addr_len arp_frame =? ETH_MAC_ADDRESS_LENGTH)
  then mret ()
  else if negb (ntohs (protocol_type arp_frame) =? TYPE_IPv4)
     || negb (protocol_addr_len arp_frame =? IPV4_ADDR_LEN)
  then mret ()
  else
    merge_flag ← table_update (ntoh_mac (src_hardware_addr arp_frame)) (ntohl (src_ip_address arp_frame));
    if ntohl (dest_ip_address arp_frame) =? OWN_IPV4_ADDR
    then
      (if negb merge_flag
       then table_add_entry (ntoh_mac (src_hardware_addr arp_frame)) (ntohl (src_ip_address arp_frame))
       else mret ()) ;;
      (if ntohs (opcode arp_frame) =? ARP_REQUEST
       then arp_handle_request fuel arp_frame
       else mret ())
    else mret ().

Definition arp_send_request (fuel : nat) (addr : Z) : NS unit :=
  f ← arp_build_frame ARP_REQUEST NULL_MAC addr;
  arp_transmit fuel BROADCAST_MAC f.

(** [arp_table_get_mac] of routing.c, which asks the network for an address
    the table does not hold. *)
Definition arp_table_get_mac (fuel : nat) (addr : Z) : NS (list Z) :=
  t ← gets ns_table;
  match t with
  | None => mret NULL_MAC
  | Some _ =>
      now ← clock_seconds_now;
      m ← lift ns_table set_ns_table (arp_table_lookup addr now);
      if mac_address_equal NULL_MAC m
      then arp_send_request fuel addr ;; mret NULL_MAC
      else mret m
  end.

End Arp.

(** The dispatch of kernel/network/pdu_handler.c: only ARP is handled. *)
Definition start_pdu_encapsulation {S} `{Nic S} {cpu : Cpu} {board : Board}
    (arp_stack : Z) (fuel : nat) (frame : list Z) : ST (netstack S) unit :=
  let ether_type := ntohs (field 2 12 frame) in
  if ether_type =? TYPE_ARP then arp_receive arp_stack fuel frame else mret ().

(** ** The fields of a frame on the wire *)

(** Big-endian integer at an offset of the Ethernet frame. *)
Definition wire_field (n off : nat) (frame : list Z) : Z := dec BigEndian (field_bytes n off frame).

Definition arp_sha (frame : list Z) : list Z := field_bytes 6 22 frame.
Definition arp_spa (frame : list Z) : Z := wire_field 4 28 frame.
Definition arp_tpa (frame : list Z) : Z := wire_field 4 38 frame.
Definition arp_op (frame : list Z) : Z := wire_field 2 20 frame.

(** Ethernet and IPv4 with address lengths 6 and 4. *)
Definition arp_supported (frame : list Z) : Prop :=
  wire_field 2 14 frame = 1 /\ wire_field 2 16 frame = 0x0800 /\
  wire_field 1 18 frame = 6 /\ wire_field 1 19 frame = 4.

#[export] Instance arp_supported_dec frame : Decision (arp_supported frame) := _.

(** An ARP packet as bytes on the wire: source and destination MAC addresses
    and IPv4 addresses, padded to the minimal frame. *)
Definition arp_wire (dst src : list Z) (op : Z) (src_ip : Z) (tha : list Z) (tpa : Z) : list Z :=
  dst ++ src ++ [0x08; 0x06] ++
  [0; 1; 0x08; 0x00; 6; 4] ++ enc BigEndian 2 op ++ src ++ enc BigEndian 4 src_ip ++ tha ++
  enc BigEndian 4 tpa ++ replicate 18 0.

Lemma field_bytes_u8 n off bytes : Forall is_u8 bytes -> Forall is_u8 (field_bytes n off bytes).
Proof. intros. unfold field_bytes. by apply Forall_take, Forall_drop. Qed.

(** A field within the packet does not depend on what follows it in the slot. *)
Lemma wire_field_take n off k frame : (off + n <= k)%nat -> wire_field n off (take k frame) = wire_field n off frame.
Proof.
  intros Hk. unfold wire_field, field_bytes. f_equal. rewrite skipn_firstn_comm, take_take. f_equal. lia.
Qed.

Lemma field_bytes_take n off k frame : (off + n <= k)%nat -> field_bytes n off (take k frame) = field_bytes n off frame.
Proof. intros Hk. unfold field_bytes. rewrite skipn_firstn_comm, take_take. f_equal. lia. Qed.

Lemma field_bytes_drop n off k bytes : field_bytes n off (drop k bytes) = field_bytes n (k + off) bytes.
Proof. unfold field_bytes. by rewrite drop_drop. Qed.

Lemma length_field_bytes n off bytes :
  (off + n <= length bytes)%nat -> length (field_bytes n off bytes) = n.
Proof. intros. unfold field_bytes. rewrite length_take, length_drop. lia. Qed.

Section Fields.
Context {cpu : Cpu} {board : Board}.
Hypothesis Hagree : board_agrees.

Lemma ntohs_field off bytes :
  Forall is_u8 bytes -> (off + 2 <= length bytes)%nat ->
  ntohs (field 2 off bytes) = wire_field 2 off bytes.
Proof.
  intros Hb Hl. pose proof (net_dec (field_bytes 2 off bytes) Hagree (field_bytes_u8 _ _ _ Hb)) as E.
  by rewrite length_field_bytes in E.
Qed.

Lemma ntohl_field off bytes :
  Forall is_u8 bytes -> (off + 4 <= length bytes)%nat ->
  ntohl (field 4 off bytes) = wire_field 4 off bytes.
Proof.
  intros Hb Hl. pose proof (net_dec (field_bytes 4 off bytes) Hagree (field_bytes_u8 _ _ _ Hb)) as E.
  by rewrite length_field_bytes in E.
Qed.

Lemma field_1 off bytes :
  (off + 1 <= length bytes)%nat -> field 1 off bytes = wire_field 1 off bytes.
Proof.
  intros Hl. unfold field, wire_field, dec.
  pose proof (length_field_bytes 1 off bytes Hl) as H1.
  destruct (field_bytes 1 off bytes) as [|b [|]]; try discriminate H1. by destruct cpu_endian.
Qed.

Lemma wire_field_range n off bytes :
  Forall is_u8 bytes -> (off + n <= length bytes)%nat -> 0 <= wire_field n off bytes < 256 ^ Z.of_nat n.
Proof.
  intros Hb Hl. pose proof (dec_range BigEndian (field_bytes n off bytes) (field_bytes_u8 _ _ _ Hb)) as E.
  by rewrite length_field_bytes in E.
Qed.

Lemma enc_htons x : is_u16 x -> enc cpu_endian 2 (htons x) = enc BigEndian 2 x.
Proof. intros Hx. apply (net_enc 2); [done|]. unfold is_u16 in Hx. simpl. lia. Qed.

Lemma enc_htonl x : is_u32 x -> enc cpu_endian 4 (htonl x) = enc BigEndian 4 x.
Proof. intros Hx. apply (net_enc 4); [done|]. unfold is_u32 in Hx. simpl. lia. Qed.

(** The frame [arp_build_frame] makes, as bytes. *)
Definition built_frame (own : list Z) (op : Z) (dest_hw : list Z) (dest_ip : Z) : arp_frame :=
  mk_arp_frame (htons HTYPE_ETHERNET) (htons TYPE_IPv4) ETH_MAC_ADDRESS_LENGTH IPV4_ADDR_LEN
    (htons op) (hton_mac own) (htonl OWN_IPV4_ADDR) (hton_mac dest_hw) (htonl dest_ip).

Lemma built_frame_image own op dest_hw dest_ip :
  is_u16 op -> is_u32 dest_ip ->
  arp_frame_image (built_frame own op dest_hw dest_ip) =
  [0; 1; 0x08; 0x00; 6; 4] ++ enc BigEndian 2 op ++ hton_mac own ++ enc BigEndian 4 OWN_IPV4_ADDR ++
  hton_mac dest_hw ++ enc BigEndian 4 dest_ip.
Proof.
  intros Hop Hip. unfold arp_frame_image, built_frame. cbn [hardware_type protocol_type
    hardware_addr_len protocol_addr_len opcode src_hardware_addr src_ip_address
    dest_hardware_addr dest_ip_address].
  rewrite !enc_htons by (done || (unfold is_u16, HTYPE_ETHERNET, TYPE_IPv4; lia)).
  rewrite !enc_htonl by (done || (unfold is_u32, OWN_IPV4_ADDR; lia)). done.
Qed.

Lemma built_frame_u8 own op dest_hw dest_ip :
  mac_wf own -> mac_wf dest_hw -> is_u16 op -> is_u32 dest_ip ->
  Forall is_u8 (arp_frame_image (built_frame own op dest_hw dest_ip)) /\
  length (arp_frame_image (built_frame own op dest_hw dest_ip)) = 28%nat.
Proof.
  intros Ho Hd Hop Hip. destruct (hton_mac_wf own Ho) as [Hlo Hbo].
  destruct (hton_mac_wf dest_hw Hd) as [Hld Hbd].
  rewrite built_frame_image by done. split.
  - rewrite !Forall_app. split_and!; try done; try apply enc_u8.
    by apply (bool_decide_unpack _); vm_compute.
  - rewrite !length_app, !length_enc, Hlo, Hld. done.
Qed.

End Fields.

(** ** Sending ARP packets *)

Section ArpSend.
Context {S : Type} `{NicLaws S} {cpu : Cpu} {board : Board} (arp_stack : Z).
Hypothesis Hagree : board_agrees.
Hypothesis Hstack : arp_stack + 28 <= HEAP_START.

(** The network stack can send: the card is ready and writes into live blocks
    only, and the heap is consistent with room for one minimal frame. *)
Definition can_send (fuel : nat) (sp : spec_heap) (s : S) : Prop :=
  nic_ready s /\ heap_rep (nic_heap s) sp /\ (length (s_free sp) < fuel)%nat /\
  s_brk sp + gross 60 <= HEAP_START + HEAP_SIZE /\ dma_ok sp s.

(** The heap after a block of [size] bytes was allocated and freed again: the
    block is free, and if there was one before, nothing was used up. *)
Definition served (size : Z) (sp sp' : spec_heap) : Prop :=
  has_room size sp' /\ s_brk sp' <= s_brk sp + gross size /\
  (length (s_free sp') <= length (s_free sp) + 1)%nat /\
  (has_room size sp -> s_brk sp' = s_brk sp /\ length (s_free sp') = length (s_free sp)).

Lemma arp_transmit_spec fuel dest f sp (s : netstack S) :
  can_send fuel sp (ns_nic s) -> mac_wf dest ->
  Forall is_u8 (arp_frame_image f) -> length (arp_frame_image f) = 28%nat ->
  exists n', arp_transmit arp_stack fuel dest f s = Done (tt, set_ns_nic n' s) /\
    nic_ready n' /\ nic_mac n' = nic_mac (ns_nic s) /\
    nic_sent n' = nic_sent (ns_nic s) ++
      [frame_bytes dest (nic_mac (ns_nic s)) TYPE_ARP (arp_frame_image f) 18] /\
    exists sp', heap_rep (nic_heap n') sp' /\ s_used sp' = s_used sp /\ dma_ok sp' n' /\ served 60 sp sp'.
Proof.
  intros (Hr & Hrep & Hfuel & Hroom & Hdma) Hdest Hb Hl. unfold arp_transmit, on_nic, zoom.
  rewrite (bind_done _ _ _ _ _ (on_ram_eq _ _)).
  set (h := nic_heap (ns_nic s)) in *.
  set (m := write_bytes (ram h) arp_stack (arp_frame_image f)).
  set (n1 := nic_set_heap (set_ram m h) (ns_nic s)).
  assert (heap_rep (nic_heap n1) sp) as Hrep1.
  { unfold n1. rewrite nic_get_set. apply rep_set_ram; [done|]. intros y a Hy Ha.
    destruct Hrep as ((Hok & _) & _). destruct (blocks_ok_wf _ _ _ Hok Hy) as (?&?&?&?&?).
    apply write_bytes_outside. rewrite Hl. lia. }
  destruct (ethernet_send_spec fuel dest TYPE_ARP arp_stack sizeof_arp_frame n1 sp)
    as (n' & sp' & Hs & Hsent & Hr' & Hmac & Hrep' & Hu' & Hbrk' & Hlen' & Hd' & _ & Hroom' & Hsame);
    [done|by apply nic_set_ready|done|done|done|done|done|done| | | |].
  - exact Hroom.
  - intros a Ha. right. unfold sizeof_arp_frame in Ha. lia.
  - intros a Ha%nic_set_dma. by apply Hdma.
  - rewrite Hs. exists n'. split; [done|]. split; [done|].
    unfold n1 in Hmac, Hsent. rewrite nic_set_mac in Hmac, Hsent. rewrite nic_set_sent in Hsent.
    split; [done|].
    split; [|exists sp'; split_and!; [done|done| |by split_and!];
      intros a Ha; rewrite Hu'; by apply Hdma, (nic_set_dma (set_ram m h)), Hd']. rewrite Hsent. do 2 f_equal.
    rewrite nic_get_set. unfold frame_bytes, set_ram. cbn [ram].
    assert (read_bytes m arp_stack (Z.to_nat sizeof_arp_frame) = arp_frame_image f) as ->; [|done].
    change (Z.to_nat sizeof_arp_frame) with 28%nat. rewrite <- Hl. by apply read_write_bytes.
Qed.

Lemma arp_build_frame_eq op dest_hw dest_ip (s : netstack S) :
  nic_ready (ns_nic s) ->
  arp_build_frame op dest_hw dest_ip s =
  Done (built_frame (nic_mac (ns_nic s)) op dest_hw dest_ip, s).
Proof.
  intros Hr. unfold arp_build_frame. rewrite (bind_done _ _ _ (nic_mac (ns_nic s)) s); [done|].
  unfold on_nic, zoom. rewrite nic_get_mac_ok by done. by destruct s.
Qed.

(** A complete ARP packet goes out. *)
Lemma arp_send_spec fuel dest op dest_hw dest_ip sp (s : netstack S) :
  can_send fuel sp (ns_nic s) -> mac_wf dest -> mac_wf dest_hw -> is_u16 op -> is_u32 dest_ip ->
  exists n', (f ← arp_build_frame op dest_hw dest_ip; arp_transmit arp_stack fuel dest f) s =
      Done (tt, set_ns_nic n' s) /\
    nic_ready n' /\ nic_mac n' = nic_mac (ns_nic s) /\
    nic_sent n' = nic_sent (ns_nic s) ++
      [arp_wire (hton_mac dest) (hton_mac (nic_mac (ns_nic s))) op OWN_IPV4_ADDR (hton_mac dest_hw) dest_ip] /\
    exists sp', heap_rep (nic_heap n') sp' /\ s_used sp' = s_used sp /\ dma_ok sp' n' /\ served 60 sp sp'.
Proof.
  intros Hcan Hd Hdh Hop Hip. pose proof Hcan as (Hr & _).
  rewrite (bind_done _ _ _ _ _ (arp_build_frame_eq op dest_hw dest_ip s Hr)).
  destruct (built_frame_u8 Hagree (nic_mac (ns_nic s)) op dest_hw dest_ip) as [Hb Hl];
    [by apply nic_mac_wf|done..|].
  destruct (arp_transmit_spec fuel dest (built_frame (nic_mac (ns_nic s)) op dest_hw dest_ip) sp s)
    as (n' & Hs & Hr' & Hm & Hsent & Hrep); [done..|].
  exists n'. split_and!; try done. rewrite Hsent. do 2 f_equal.
  unfold frame_bytes, arp_wire. rewrite built_frame_image by done.
  rewrite <- !app_assoc. do 2 f_equal.
Qed.

(** [arp_send_request] broadcasts one ARP request for the address, with the
    kernel's own MAC and IPv4 address as the sender, padded to 60 bytes. *)
Theorem arp_send_request_correct fuel addr sp (s : netstack S) :
  can_send fuel sp (ns_nic s) -> is_u32 addr ->
  exists n', arp_send_request arp_stack fuel addr s = Done (tt, set_ns_nic n' s) /\
    nic_sent n' = nic_sent (ns_nic s) ++
      [replicate 6 0xFF ++ hton_mac (nic_mac (ns_nic s)) ++ [0x08; 0x06] ++
       [0; 1; 0x08; 0x00; 6; 4; 0; 1] ++ hton_mac (nic_mac (ns_nic s)) ++ [10; 0; 2; 10] ++
       replicate 6 0 ++ enc BigEndian 4 addr ++ replicate 18 0].
Proof.
  intros Hcan Hip. unfold arp_send_request.
  destruct (arp_send_spec fuel BROADCAST_MAC ARP_REQUEST NULL_MAC addr sp s) as (n' & Hs & _ & _ & Hsent & _);
    [done|by apply mac_wf_dec; vm_compute..|done|done|].
  exists n'. split; [done|]. rewrite Hsent. unfold arp_wire.
  assert (hton_mac BROADCAST_MAC = replicate 6 255) as ->
    by (rewrite hton_mac_eq by done; by case_match).
  assert (hton_mac NULL_MAC = replicate 6 0) as ->
    by (rewrite hton_mac_eq by done; by case_match).
  reflexivity.
Qed.

(** ** Receiving ARP packets *)

(** The decision [arp_receive] takes, on the wire fields. *)
Lemma arp_receive_fields fuel frame (s : netstack S) :
  Forall is_u8 frame -> (42 <= length frame)%nat ->
  arp_receive arp_stack fuel frame s =
  (if decide (arp_supported frame) then
     merge_flag ← table_update (ntoh_mac (arp_sha frame)) (arp_spa frame);
     if arp_tpa frame =? OWN_IPV4_ADDR
     then
       (if negb merge_flag then table_add_entry (ntoh_mac (arp_sha frame)) (arp_spa frame) else mret ()) ;;
       (if arp_op frame =? ARP_REQUEST
        then f ← arp_build_frame ARP_REPLY (ntoh_mac (arp_sha frame)) (arp_spa frame);
             arp_transmit arp_stack fuel (ntoh_mac (arp_sha frame)) f
        else mret ())
     else mret ()
   else mret ()) s.
Proof.
  intros Hb Hl. unfold arp_receive, arp_handle_request, arp_frame_at.
  cbn [hardware_type protocol_type hardware_addr_len protocol_addr_len opcode
    src_hardware_addr src_ip_address dest_hardware_addr dest_ip_address].
  assert (Forall is_u8 (drop 14 frame)) as Hb' by (by apply Forall_drop).
  assert (28 <= length (drop 14 frame))%nat as Hl' by (rewrite length_drop; lia).
  rewrite !(ntohs_field Hagree), !(ntohl_field Hagree), !field_1 by (done || lia).
  unfold wire_field, arp_supported, arp_sha, arp_spa, arp_tpa, arp_op. rewrite !field_bytes_drop.
  cbn [Nat.add]. fold (wire_field 2 14 frame) (wire_field 2 16 frame) (wire_field 1 18 frame) (wire_field 1 19 frame).
  unfold HTYPE_ETHERNET, ETH_MAC_ADDRESS_LENGTH, TYPE_IPv4, IPV4_ADDR_LEN.
  destruct (Z.eqb_spec (wire_field 2 14 frame) 1), (Z.eqb_spec (wire_field 1 18 frame) 6); cbn [negb orb];
    try (rewrite decide_False by tauto; done).
  destruct (Z.eqb_spec (wire_field 2 16 frame) 2048), (Z.eqb_spec (wire_field 1 19 frame) 4); cbn [negb orb];
    try (rewrite decide_False by tauto; done).
  by rewrite decide_True by tauto.
Qed.

(** What becomes of a table in use: the sender is learned if the table resolved it
    or the frame asks for our address, and not otherwise; no other address is
    affected, but for one that gives up its entry to a new sender when all ten
    entries are in use. *)
Definition arp_learned (now : Z) (frame : list Z) (table table' : list arp_entry) : Prop :=
  let sender := arp_spa frame in
  let known := exists m, resolves now table sender m in
  table_ok now table' /\
  (arp_tpa frame = OWN_IPV4_ADDR \/ known -> resolves now table' sender (ntoh_mac (arp_sha frame))) /\
  (arp_tpa frame <> OWN_IPV4_ADDR -> ~ known -> forall m, ~ resolves now table' sender m) /\
  (forall a m, a <> 0 -> a <> sender -> resolves now table' a m -> resolves now table a m) /\
  (forall a m, a <> 0 -> a <> sender -> resolves now table a m ->
     resolves now table' a m \/
     arp_tpa frame = OWN_IPV4_ADDR /\ ~ known /\
       forall i e, (find_entry sender now <$> table) !! i = Some e -> live_entry e).

(** What is sent. *)
Definition arp_replied (frame : list Z) (s s' : netstack S) : Prop :=
  ns_clock s' = ns_clock s /\
  nic_sent (ns_nic s') = nic_sent (ns_nic s) ++
    (if decide (arp_tpa frame = OWN_IPV4_ADDR /\ arp_op frame = 1)
     then [arp_wire (arp_sha frame) (hton_mac (nic_mac (ns_nic s))) 2 OWN_IPV4_ADDR (arp_sha frame) (arp_spa frame)]
     else []).

(** The learning step of [arp_receive]. *)
Lemma table_update_eq m a (s : netstack S) table now b t :
  ns_table s = Some table -> now = ns_clock s / 1000 ->
  arp_table_update m a now (Some table) = (b, t) ->
  table_update m a s = Done (b, set_ns_table t s).
Proof.
  intros Ht Hn Hu. unfold table_update, clock_seconds_now, gets, lift, clock_seconds. st_step.
  by rewrite <- Hn, Ht, Hu.
Qed.

Lemma table_add_entry_eq m a (s : netstack S) table now :
  ns_table s = Some table -> now = ns_clock s / 1000 ->
  table_add_entry m a s = Done (tt, set_ns_table (arp_table_add_entry m a now (Some table)) s).
Proof.
  intros Ht Hn. unfold table_add_entry, clock_seconds_now, gets, lift, clock_seconds. st_step.
  by rewrite <- Hn, Ht.
Qed.

(** The table after a frame from [a] at [m], which asks for our address if [ours]. *)
Definition learn_table (ours : bool) (m : list Z) (a now : Z) (t : arp_table) : arp_table :=
  let '(b, t1) := arp_table_update m a now t in if ours && negb b then arp_table_add_entry m a now t1 else t1.

Lemma learn_table_learns frame now table :
  table_ok now table -> 0 < now -> arp_spa frame <> 0 ->
  exists table', learn_table (arp_tpa frame =? OWN_IPV4_ADDR) (ntoh_mac (arp_sha frame)) (arp_spa frame) now (Some table) =
    Some table' /\ arp_learned now frame table table'.
Proof.
  intros Hok Hpos Ha. set (m := ntoh_mac (arp_sha frame)). set (a := arp_spa frame) in *. unfold learn_table.
  destruct (arp_table_update_spec m a now table Hok Ha Hpos) as (b & t1 & -> & Hb & Hok1 & Hres1 & Hnew & Hkeep).
  assert (forall a' m', a' <> 0 -> a' <> a -> resolves now t1 a' m' -> resolves now table a' m') as Hback
    by (intros; by apply Hkeep).
  assert (forall a' m', a' <> 0 -> a' <> a -> resolves now table a' m' -> resolves now t1 a' m') as Hforth
    by (intros; by apply Hkeep).
  destruct b; [rewrite andb_false_r|rewrite andb_true_r]; unfold arp_learned; fold a; fold m.
  - exists t1. split; [done|]. pose proof (proj1 Hb eq_refl) as Hknown. split; [done|]. split; [by intros _; apply Hres1|].
    split; [done|]. split; [done|]. intros a' m' H0' Hne Hr. left. by apply Hforth.
  - destruct (Hnew eq_refl) as [Ht1 Hfree].
    assert (~ exists m', resolves now table a m') as Hunknown by (intros Hk; by apply Hb in Hk).
    destruct (Z.eqb_spec (arp_tpa frame) OWN_IPV4_ADDR) as [Hours|Hours].
    + destruct (arp_table_add_entry_spec m a now t1 Hok1 Ha Hpos Hfree)
        as (r & old & Hold & Hadd & Hcase & Hok2 & Hres2 & Hother).
      eexists. split; [exact Hadd|]. split; [done|]. split; [done|]. split; [done|].
      assert (ip (mk_arp_entry a m now) = a) as Hipn by done.
      split; intros a' m' H0' Hne Hr.
      * apply Hback; [done..|]. destruct (decide (a' = ip old)) as [->|]; [|by apply Hother].
        destruct Hr as (i & e & Hi & [Hx Hip] & Hm). exists i, e. split; [|by split].
        destruct (decide (r = i)) as [<-|]; [|by rewrite list_lookup_insert_ne in Hi].
        rewrite list_lookup_insert_eq in Hi by (by eapply lookup_lt_Some). injection Hi as <-. congruence.
      * apply Hforth in Hr; [|done..]. destruct (decide (a' = ip old)) as [->|]; [|left; by apply Hother].
        destruct Hcase as [[Hdead _]|Hall]; [|right; split; [done|]; split; [done|]; rewrite <- Ht1; intros i e Hi; by apply (Hall i)].
        exfalso. destruct Hok1 as (_ & He & _). destruct (He r old Hold) as (_ & _ & Hz). apply H0', Hz.
        unfold live_entry in Hdead. lia.
    + exists t1. split; [done|]. split; [done|]. split; [by intros [?|?]|].
      split; [|split; [done|]; intros a' m' H0' Hne Hr; left; by apply Hforth].
      intros _ _ m' (i & e & Hi & Hmatch & _). apply (Hfree i e Hi); [|apply Hmatch].
      by eapply (matches_live now t1 i e a).
Qed.

(** The two steps of [arp_receive] that learn. *)
Lemma table_steps m a ours now t b t1 (s : netstack S) :
  ns_table s = t -> now = clock_seconds (ns_clock s) -> arp_table_update m a now t = (b, t1) ->
  table_update m a s = Done (b, set_ns_table t1 s) /\
  (ours = true -> (if negb b then table_add_entry m a else mret ()) (set_ns_table t1 s) =
     Done (tt, set_ns_table (learn_table true m a now t) s)) /\
  (ours = false -> learn_table false m a now t = t1).
Proof.
  intros Ht Hn Hu. split_and!.
  - unfold table_update, clock_seconds_now, gets, lift. st_step. by rewrite <- Hn, Ht, Hu.
  - intros _. unfold learn_table. rewrite Hu. cbn [andb]. destruct b; cbn [negb]; [done|].
    unfold table_add_entry, clock_seconds_now, gets, lift. st_step. cbn [ns_clock set_ns_table ns_table]. by rewrite <- Hn.
  - intros _. unfold learn_table. by rewrite Hu.
Qed.

Lemma arp_receive_spec fuel frame sp now (s : netstack S) :
  Forall is_u8 frame -> (42 <= length frame)%nat -> can_send fuel sp (ns_nic s) ->
  now = clock_seconds (ns_clock s) -> arp_supported frame ->
  exists s', arp_receive arp_stack fuel frame s = Done (tt, s') /\ arp_replied frame s s' /\
    ns_table s' =
      learn_table (arp_tpa frame =? OWN_IPV4_ADDR) (ntoh_mac (arp_sha frame)) (arp_spa frame) now (ns_table s).
Proof.
  intros Hb Hl Hcan Hnow Hsup. rewrite arp_receive_fields, decide_True by done.
  set (m := ntoh_mac (arp_sha frame)). set (a := arp_spa frame) in *.
  assert (mac_wf (arp_sha frame)) as Hsha
    by (split; [unfold arp_sha; by rewrite length_field_bytes by lia|by apply field_bytes_u8]).
  destruct (arp_table_update m a now (ns_table s)) as [b t1] eqn:Hu. unfold arp_replied. fold a.
  destruct (table_steps m a (arp_tpa frame =? OWN_IPV4_ADDR) now _ b t1 s eq_refl Hnow Hu) as (Hupd & Hours & Hother).
  rewrite (bind_done _ _ _ _ _ Hupd).
  destruct (Z.eqb_spec (arp_tpa frame) OWN_IPV4_ADDR) as [Htpa|Htpa].
  2:{ eexists. split; [done|]. rewrite decide_False by tauto. rewrite app_nil_r. split; [done|]. by rewrite Hother. }
  rewrite (bind_done _ _ _ _ _ (Hours eq_refl)). set (s2 := set_ns_table _ s).
  unfold ARP_REQUEST. destruct (Z.eqb_spec (arp_op frame) 1) as [Hop|Hop].
  - assert (is_u32 a) as Ha32
      by (pose proof (wire_field_range 4 28 frame Hb ltac:(lia)); unfold a, arp_spa, is_u32; lia).
    destruct (arp_send_spec fuel m ARP_REPLY m a sp s2) as (n' & Hs & _ & _ & Hsent & _);
      [done|by apply ntoh_mac_wf|by apply ntoh_mac_wf|done|done|].
    eexists. split; [exact Hs|]. rewrite decide_True by done. split; [|done]. split; [done|].
    cbn [ns_nic set_ns_nic]. rewrite Hsent. unfold m. destruct Hsha as [Hlsha _]. by rewrite !hton_ntoh_mac by done.
  - exists s2. split; [done|]. rewrite decide_False by tauto. by rewrite app_nil_r.
Qed.


End ArpSend.

(** ** Witnesses *)

(** A request for 10.0.2.10 from 10.0.2.2 as it arrives. *)
Definition example_request : list Z :=
  arp_wire [0xFF; 0xFF; 0xFF; 0xFF; 0xFF; 0xFF] [0x52; 0x55; 10; 0; 2; 2] 1 0x0A000202
    [0; 0; 0; 0; 0; 0] OWN_IPV4_ADDR.

Definition example_net : netstack wire := mk_net example_wire (Some null_table) 8500.

Lemma null_table_ok now : 0 <= now -> table_ok now null_table.
Proof.
  intros Hnow. split; [done|]. split.
  - intros i e [-> _]%lookup_replicate. unfold live_entry. simpl. lia.
  - intros i j e e' [-> _]%lookup_replicate _ Hl. by destruct Hl.
Qed.

Lemma example_can_send fuel : (0 < fuel)%nat ->
  can_send (cpu := LittleEndian) fuel (mk_spec [] [] HEAP_START) example_wire.
Proof.
  intros Hf. split; [by apply mac_wf_dec; vm_compute|]. split; [apply initial_heap_rep|].
  split; [exact Hf|]. vm_compute. done.
Qed.

Lemma arp_send_request_correct_witness :
  exists n', arp_send_request (cpu := LittleEndian) (board := 0) 0x3FD0000 1 0x0A000203 example_net =
    Done (tt, set_ns_nic n' example_net) /\ length (w_sent n') = 1%nat.
Proof.
  destruct (arp_send_request_correct (cpu := LittleEndian) (board := 0) 0x3FD0000
    eq_refl ltac:(done) 1 0x0A000203 (mk_spec [] [] HEAP_START) example_net) as (n' & Hs & Hsent);
    [apply example_can_send; lia|done|].
  exists n'. split; [exact Hs|]. change (w_sent n') with (nic_sent n'). rewrite Hsent. reflexivity.
Defined.

