(* ===== verification/Ipv4.v ===== *)
(** * IPv4 and the network task: kernel/network/ipv4.c, network_task.c, pdu_handler.c

    [ipv4_send] polls the ARP table until the address is resolved or five
    seconds have passed.  What happens while it polls (clock ticks, packets the
    network task handles) is the parameter [env_step]. *)

From stdpp Require Import strings.
From S2P Require Import Prelude StateMonad Memory Bus Heap Clock Stdio NetworkIo PacketQueue Ethernet Routing Arp.

(** ** Definitions *)

Definition WAIT_ON_ARP_TIMEOUT : Z := 5.

(** The rest of the system between two iterations of a waiting loop. *)
Class Env (S : Type) := env_step : netstack S -> netstack S.

Section Ipv4.
Context {S : Type} `{Nic S} {env : Env S} {cpu : Cpu} {board : Board} (arp_stack : Z).

Definition arp_table_lookup_now (addr : Z) : ST (netstack S) (list Z) :=
  now ← clock_seconds_now;
  lift ns_table set_ns_table (arp_table_lookup addr now).

(** The polling loop: the MAC address, or [None] after the timeout. *)
Fixpoint ipv4_wait (fuel : nat) (addr start : Z) (dest_mac : list Z) : ST (netstack S) (option (list Z)) :=
  match fuel with
  | O => no_fuel
  | Datatypes.S fuel' =>
      if mac_address_equal dest_mac NULL_MAC
      then
        modify env_step ;;
        dest_mac ← arp_table_lookup_now addr;
        now ← clock_seconds_now;
        if WAIT_ON_ARP_TIMEOUT <? u64 (now - start) then mret None
        else ipv4_wait fuel' addr start dest_mac
      else mret (Some dest_mac)
  end.

Definition ipv4_send (fuel mfuel : nat) (addr payload len : Z) : ST (netstack S) Z :=
  dest_mac ← arp_table_get_mac arp_stack mfuel addr;
  start ← clock_seconds_now;
  r ← ipv4_wait fuel addr start dest_mac;
  match r with
  | None => mret (u32 (-1))
  | Some dest_mac =>
      on_nic (ethernet_send mfuel dest_mac TYPE_IPv4 payload len) ;;
      mret 0
  end.

(** One iteration of [network_task_recv]: the queue is shared with the card's
    interrupt handler. *)
Definition network_task_iteration (fuel : nat) : ST (pqueue * netstack S) unit := fun '(q, s) =>
  if new_packet_available q then
    let '(packet, q) := remove_packet q in
    match packet with
    | None => Undefined
    | Some i =>
        match start_pdu_encapsulation arp_stack fuel (data (recv_packet_queue q !!! i)) s with
        | Done (_, s) => Done (tt, (q, s))
        | Undefined => Undefined
        | NoFuel => NoFuel
        end
    end
  else Done (tt, (q, s)).

End Ipv4.

(** The bytes of the argument as the processor stores it, last byte first. *)
Definition ipv4_octets {cpu : Cpu} (addr : Z) : list Z := rev (enc cpu_endian 4 addr).

Definition ipv4_print {D} `{Bus D} {cpu : Cpu} (addr : Z) : ST D unit :=
  _ ← printf (cstr "%i.%i.%i.%i") (VInt <$> ipv4_octets addr);
  mret ().

(** ** The polling loop *)

Section Polling.
Context {S : Type} `{NicLaws S} {env : Env S} {cpu : Cpu} {board : Board} (arp_stack : Z).

(** The state after one unsuccessful iteration. *)
Definition poll (addr : Z) (s : netstack S) : netstack S :=
  set_ns_table (arp_table_lookup addr (clock_seconds (ns_clock (env_step s))) (ns_table (env_step s))).2
    (env_step s).

Definition polled_mac (addr : Z) (s : netstack S) : list Z :=
  (arp_table_lookup addr (clock_seconds (ns_clock (env_step s))) (ns_table (env_step s))).1.

Lemma lookup_now_eq addr (s : netstack S) :
  arp_table_lookup_now addr s =
  Done ((arp_table_lookup addr (clock_seconds (ns_clock s)) (ns_table s)).1,
        set_ns_table (arp_table_lookup addr (clock_seconds (ns_clock s)) (ns_table s)).2 s).
Proof.
  unfold arp_table_lookup_now, clock_seconds_now, gets, lift. st_step.
  by destruct (arp_table_lookup addr _ _).
Qed.

Lemma ipv4_wait_step fuel addr start (s : netstack S) :
  ipv4_wait (Datatypes.S fuel) addr start NULL_MAC s =
  if WAIT_ON_ARP_TIMEOUT <? u64 (clock_seconds (ns_clock (poll addr s)) - start)
  then Done (None, poll addr s)
  else ipv4_wait fuel addr start (polled_mac addr s) (poll addr s).
Proof.
  cbn [ipv4_wait].
  assert (mac_address_equal NULL_MAC NULL_MAC = true) as -> by by vm_compute.
  rewrite (bind_done _ _ s tt (env_step s)) by done.
  rewrite (bind_done _ _ _ _ _ (lookup_now_eq addr (env_step s))). fold (polled_mac addr s) (poll addr s).
  rewrite (bind_done _ _ _ (clock_seconds (ns_clock (poll addr s))) (poll addr s)) by done.
  by case_match.
Qed.

(** What a poll finds is a MAC address of six bytes. *)
Definition table_macs_wf (t : arp_table) : Prop :=
  match t with
  | None => True
  | Some table => length table = 10%nat /\ Forall (fun e => mac_wf (mac e)) table
  end.

Lemma null_mac_wf : mac_wf NULL_MAC.
Proof. by apply mac_wf_dec; vm_compute. Qed.

Lemma arp_table_lookup_wf addr now t :
  table_macs_wf t ->
  mac_wf (arp_table_lookup addr now t).1 /\ table_macs_wf (arp_table_lookup addr now t).2.
Proof.
  destruct t as [table|]; [|by split; [apply null_mac_wf|]]. intros [Hlen Hmacs].
  unfold arp_table_lookup. pose proof (arp_table_find_spec addr now table Hlen) as Hf.
  destruct (arp_table_find addr now (Some table)) as [res t']. destruct Hf as [-> _].
  assert (Forall (fun e => mac_wf (mac e)) (find_entry addr now <$> table)) as Hm.
  { apply Forall_fmap. eapply Forall_impl; [exact Hmacs|]. intros e He. simpl.
    destruct (find_entry_cases addr now e) as [->|(_ & -> & _)]; [apply null_mac_wf|done]. }
  assert (table_macs_wf (Some (find_entry addr now <$> table))) as Ht
    by (split; [by rewrite length_fmap|done]).
  destruct (negb (res =? NOT_FOUND)); [|by split; [apply null_mac_wf|]]. split; [|done].
  cbn [default fst]. destruct ((find_entry addr now <$> table) !! Z.to_nat res) as [e|] eqn:E.
  - rewrite (list_lookup_total_correct _ _ _ E). by eapply (Forall_lookup_1 _ _ _ _ Hm).
  - rewrite list_lookup_total_alt. simpl. rewrite E. apply null_mac_wf.
Qed.

(** The request for an address the table in use does not resolve. *)
Definition request_sent (addr : Z) (s : netstack S) : list (list Z) :=
  if bool_decide (is_Some (ns_table s)) &&
     bool_decide ((arp_table_lookup addr (clock_seconds (ns_clock s)) (ns_table s)).1 = NULL_MAC)
  then [arp_wire (hton_mac BROADCAST_MAC) (hton_mac (nic_mac (ns_nic s))) ARP_REQUEST OWN_IPV4_ADDR (hton_mac NULL_MAC) addr]
  else [].

(** The first lookup, with the request it may send, returns. *)
Lemma arp_table_get_mac_returns mfuel addr sp (s : netstack S) :
  board_agrees -> arp_stack + 28 <= HEAP_START ->
  can_send mfuel sp (ns_nic s) -> table_macs_wf (ns_table s) -> is_u32 addr ->
  let dest := (arp_table_lookup addr (clock_seconds (ns_clock s)) (ns_table s)).1 in
  exists s0, arp_table_get_mac arp_stack mfuel addr s = Done (dest, s0) /\ mac_wf dest /\
    ns_clock s0 = ns_clock s /\ nic_sent (ns_nic s0) = nic_sent (ns_nic s) ++ request_sent addr s.
Proof.
  intros Hag Hst Hcan Ht Ha. unfold arp_table_get_mac, gets, clock_seconds_now, gets, lift, request_sent. cbv zeta.
  pose proof (arp_table_lookup_wf addr (clock_seconds (ns_clock s)) (ns_table s) Ht) as [Hm _].
  destruct (ns_table s) as [table|] eqn:Et; st_step; rewrite ?Et.
  2:{ exists s. split; [done|]. split; [done|]. split; [done|]. by rewrite app_nil_r. }
  destruct (arp_table_lookup addr _ _) as [m t']. cbn [fst] in *. rewrite (bool_decide_eq_true_2 (is_Some _)) by done. cbn [andb].
  pose proof (mac_address_equal_spec NULL_MAC m eq_refl (proj1 Hm)) as Heq.
  destruct (mac_address_equal NULL_MAC m).
  2:{ eexists. split; [done|]. split; [done|]. split; [done|]. rewrite bool_decide_eq_false_2, app_nil_r; [done|].
      intros ->. discriminate (proj2 Heq eq_refl). }
  pose proof (proj1 Heq eq_refl) as <-. rewrite bool_decide_eq_true_2 by done.
  destruct (arp_send_spec arp_stack Hag Hst mfuel BROADCAST_MAC ARP_REQUEST NULL_MAC addr sp (set_ns_table t' s))
    as (n' & Hs & _ & _ & Hsent & _); [done|by apply mac_wf_dec; vm_compute..|done|done|].
  unfold arp_send_request. unfold mbind, st_bind in Hs |- *. rewrite Hs.
  eexists. split; [done|]. split; [done|]. split; [done|]. exact Hsent.
Qed.

(** The invariant the environment keeps while the kernel waits. *)
Variable Inv : netstack S -> Prop.
Hypothesis Hinv_table : forall s, Inv s -> table_macs_wf (ns_table s).
Hypothesis Hinv_env : forall s, Inv s -> Inv (env_step s).
Hypothesis Hinv_lookup : forall addr s, Inv s ->
  Inv (set_ns_table (arp_table_lookup addr (clock_seconds (ns_clock s)) (ns_table s)).2 s).

(** Up to some far point in time, a second passes at the latest every [N]
    iterations; the clock neither runs backwards nor over. *)
Variable N : nat.
Hypothesis Hclock_mono : forall addr s, Inv s -> ns_clock s <= ns_clock (poll addr s).
Hypothesis Hclock_tick : forall addr s, Inv s -> ns_clock s < 4611686018427387904 ->
  ns_clock s + 1000 <= ns_clock (Nat.iter N (poll addr) s).
Hypothesis Hclock_range : forall s, Inv s -> 0 <= ns_clock s < 9223372036854775808.

Lemma Hinv_poll addr s : Inv s -> Inv (poll addr s).
Proof. intros Hs. unfold poll. by apply Hinv_lookup, Hinv_env. Qed.

Lemma polls_inv addr n s : Inv s -> Inv (Nat.iter n (poll addr) s).
Proof. intros Hs. induction n as [|n IH]; [done|]. by apply Hinv_poll. Qed.

Lemma polls_mono addr n s : Inv s -> ns_clock s <= ns_clock (Nat.iter n (poll addr) s).
Proof.
  intros Hs. induction n as [|n IH]; [cbn; lia|].
  pose proof (Hclock_mono addr _ (polls_inv addr n s Hs)). rewrite Nat.iter_succ. lia.
Qed.

Lemma polls_clock addr k s :
  Inv s -> ns_clock s + Z.of_nat k * 1000 <= 4611686018427387904 ->
  ns_clock s + Z.of_nat k * 1000 <= ns_clock (Nat.iter (k * N) (poll addr) s).
Proof.
  intros Hs. induction k as [|k IH]; intros Hk; [cbn; lia|].
  specialize (IH ltac:(lia)). change (Datatypes.S k * N)%nat with (N + k * N)%nat. rewrite Nat.iter_add.
  pose proof (polls_inv addr (k * N) s Hs) as Hs'.
  destruct (decide (ns_clock (Nat.iter (k * N) (poll addr) s) < 4611686018427387904)).
  - pose proof (Hclock_tick addr _ Hs'). lia.
  - pose proof (polls_mono addr N _ Hs'). lia.
Qed.

Lemma mac_not_null m : mac_wf m -> mac_address_equal m NULL_MAC = false <-> m <> NULL_MAC.
Proof.
  intros [Hl _]. rewrite <- (mac_address_equal_spec m NULL_MAC Hl eq_refl). by destruct (mac_address_equal _ _).
Qed.

(** The loop ends at the latest at the [m]-th poll when the timeout has passed
    by then. *)
Lemma ipv4_wait_returns m fuel addr start s :
  Inv s -> 0 <= start <= clock_seconds (ns_clock s) -> (m < fuel)%nat -> (0 < m)%nat ->
  5 < clock_seconds (ns_clock (Nat.iter m (poll addr) s)) - start ->
  exists r k, ipv4_wait fuel addr start NULL_MAC s = Done (r, Nat.iter (Datatypes.S k) (poll addr) s) /\
    (forall j, (j < k)%nat -> polled_mac addr (Nat.iter j (poll addr) s) = NULL_MAC) /\
    match r with
    | None => 5 < clock_seconds (ns_clock (Nat.iter (Datatypes.S k) (poll addr) s)) - start
    | Some mac => mac_wf mac /\ mac <> NULL_MAC /\ mac = polled_mac addr (Nat.iter k (poll addr) s) /\
        clock_seconds (ns_clock (Nat.iter (Datatypes.S k) (poll addr) s)) - start <= 5
    end.
Proof.
  revert fuel s. induction m as [|m IH]; intros [|fuel] s Hs Hstart Hfuel Hm Hlate; try lia.
  rewrite ipv4_wait_step.
  assert (clock_seconds (ns_clock s) <= clock_seconds (ns_clock (poll addr s))) as Hmono
    by (unfold clock_seconds; apply Z.div_le_mono; [lia|by apply Hclock_mono]).
  assert (clock_seconds (ns_clock (poll addr s)) < 9223372036854775808) as Hbig.
  { pose proof (Hclock_range _ (Hinv_poll addr s Hs)). unfold clock_seconds. word_lia. }
  rewrite u64_id by (unfold is_u64; lia). unfold WAIT_ON_ARP_TIMEOUT.
  destruct (Z.ltb_spec 5 (clock_seconds (ns_clock (poll addr s)) - start)) as [Hto|Hto].
  - exists None, 0%nat. split; [done|]. split; [intros; lia|exact Hto].
  - assert (mac_wf (polled_mac addr s)) as Hwf.
    { apply arp_table_lookup_wf. by apply Hinv_table, Hinv_env. }
    destruct (mac_address_equal (polled_mac addr s) NULL_MAC) eqn:Enull.
    + apply mac_address_equal_spec in Enull; [|apply Hwf|done]. rewrite Enull.
      destruct m as [|m]; [cbn [Nat.iter nat_rect] in Hlate; lia|].
      destruct (IH fuel (poll addr s)) as (r & k & Hrun & Hnull & Hr); [by apply Hinv_poll|lia|lia|lia| |].
      { by rewrite <- Nat.iter_succ_r. }
      exists r, (Datatypes.S k). rewrite Hrun, <- Nat.iter_succ_r. split; [done|]. split.
      { intros [|j] Hj; [done|]. rewrite Nat.iter_succ_r. apply Hnull. lia. }
      destruct r; [|by rewrite <- Nat.iter_succ_r in Hr].
      destruct Hr as (? & ? & Hp & Ht). rewrite <- Nat.iter_succ_r in Hp, Ht. by split_and!.
    + exists (Some (polled_mac addr s)), 0%nat. destruct fuel as [|fuel]; [lia|].
      cbn [ipv4_wait]. rewrite Enull. split; [done|]. split; [intros; lia|].
      split_and!; [done|by apply mac_not_null|done|exact Hto].
Qed.

(** Sending succeeds in every state of the invariant. *)
Variables (mfuel : nat) (payload len : Z).
Hypothesis Hagree : board_agrees.
Hypothesis Hpayload : 0 < len /\ len < 65522 /\ payload + len <= HEAP_START.
Hypothesis Hinv_send : forall s, Inv s -> nic_ready (ns_nic s) /\ exists sp,
  heap_rep (nic_heap (ns_nic s)) sp /\ (length (s_free sp) < mfuel)%nat /\
  s_brk sp + gross (14 + Z.max 46 len) <= HEAP_START + HEAP_SIZE /\ dma_ok sp (ns_nic s).

Lemma ipv4_transmit dest s :
  Inv s -> mac_wf dest ->
  exists n', on_nic (ethernet_send mfuel dest TYPE_IPv4 payload len) s = Done (tt, set_ns_nic n' s) /\
    nic_sent n' = nic_sent (ns_nic s) ++
      [frame_bytes dest (nic_mac (ns_nic s)) TYPE_IPv4
         (read_bytes (ram (nic_heap (ns_nic s))) payload (Z.to_nat len)) (Z.max 0 (46 - len))].
Proof.
  intros Hs Hd. destruct (Hinv_send s Hs) as (Hr & sp & Hrep & Hf & Hroom & Hdma).
  destruct (ethernet_send_spec mfuel dest TYPE_IPv4 payload len (ns_nic s) sp) as (n' & sp' & Hrun & Hsent & _);
    [done..|lia|lia|done| |done|].
  - intros a Ha. right. lia.
  - exists n'. unfold on_nic, zoom. by rewrite Hrun.
Qed.

(** C24: [ipv4_send] of a payload of 1 to 65521 bytes that lies below the heap
    always returns, whatever happens between its polls, as long as the clock advances and a frame can be sent.  First
    it looks the address up, and asks the network for it if the table in use does
    not resolve it.  Either the result is 0 and one frame with the payload was sent:
    to the MAC address that lookup found, or, if it found none, to the one the first
    poll that found any returned, not more than five seconds later.  Or the result
    is -1: the lookup and all polls but possibly the last found none, more than five
    seconds have passed, and nothing but the request was sent by it. *)
Theorem ipv4_send_correct fuel addr sp s :
  arp_stack + 28 <= HEAP_START ->
  can_send mfuel sp (ns_nic s) -> table_macs_wf (ns_table s) -> is_u32 addr ->
  (forall dest s0, arp_table_get_mac arp_stack mfuel addr s = Done (dest, s0) -> Inv s0) ->
  (6 * N < fuel)%nat -> (0 < N)%nat -> ns_clock s + 6000 <= 4611686018427387904 ->
  let dest0 := (arp_table_lookup addr (clock_seconds (ns_clock s)) (ns_table s)).1 in
  exists s0 r s', arp_table_get_mac arp_stack mfuel addr s = Done (dest0, s0) /\
    nic_sent (ns_nic s0) = nic_sent (ns_nic s) ++ request_sent addr s /\
    ipv4_send arp_stack fuel mfuel addr payload len s = Done (r, s') /\
    ((r = 0 /\ exists s1 mac, mac <> NULL_MAC /\
        (s1 = s0 /\ mac = dest0 \/
         dest0 = NULL_MAC /\ exists k, s1 = Nat.iter (Datatypes.S k) (poll addr) s0 /\
           (forall j, (j < k)%nat -> polled_mac addr (Nat.iter j (poll addr) s0) = NULL_MAC) /\
           mac = polled_mac addr (Nat.iter k (poll addr) s0) /\
           clock_seconds (ns_clock s1) - clock_seconds (ns_clock s) <= 5) /\
        nic_sent (ns_nic s') = nic_sent (ns_nic s1) ++
          [frame_bytes mac (nic_mac (ns_nic s1)) TYPE_IPv4
             (read_bytes (ram (nic_heap (ns_nic s1))) payload (Z.to_nat len)) (Z.max 0 (46 - len))]) \/
     (r = 0xFFFFFFFF /\ dest0 = NULL_MAC /\ 5 < clock_seconds (ns_clock s') - clock_seconds (ns_clock s) /\
        exists k, s' = Nat.iter (Datatypes.S k) (poll addr) s0 /\
          forall j, (j < k)%nat -> polled_mac addr (Nat.iter j (poll addr) s0) = NULL_MAC)).
Proof.
  intros Hst Hcan Htab Haddr Hinv0 Hfuel HN Hclk dest0.
  destruct (arp_table_get_mac_returns mfuel addr sp s Hagree Hst Hcan Htab Haddr) as (s0 & Hget & Hd0 & Hc & Hreq).
  fold dest0 in Hget, Hd0. rewrite <- Hc in Hclk |- *. pose proof (Hinv0 _ _ Hget) as Hs0.
  exists s0. unfold ipv4_send. rewrite (bind_done _ _ _ _ _ Hget).
  rewrite (bind_done _ _ _ (clock_seconds (ns_clock s0)) s0) by done.
  pose proof (Hclock_range _ Hs0) as Hc0.
  assert (0 <= clock_seconds (ns_clock s0)) as Hsec0 by (unfold clock_seconds; word_lia).
  destruct (mac_address_equal dest0 NULL_MAC) eqn:E0.
  - apply mac_address_equal_spec in E0; [|apply Hd0|done]. rewrite E0 in Hget |- *.
    destruct (ipv4_wait_returns (6 * N) fuel addr (clock_seconds (ns_clock s0)) s0)
      as (r & k & Hrun & Hnull & Hr); [done|lia|done|lia| |].
    { pose proof (polls_clock addr 6 s0 Hs0 ltac:(lia)). unfold clock_seconds. word_lia. }
    rewrite (bind_done _ _ _ _ _ Hrun). set (s1 := Nat.iter (Datatypes.S k) (poll addr) s0) in *.
    destruct r as [mac|].
    + destruct Hr as (Hm & Hnn & Hp & Hto).
      destruct (ipv4_transmit mac s1 (polls_inv addr _ s0 Hs0) Hm) as (n' & Hsend & Hsent).
      rewrite (bind_done _ _ _ _ _ Hsend). exists 0, (set_ns_nic n' s1). split_and!; [done..|]. left.
      split; [done|]. exists s1, mac. split_and!; try done. right. split; [done|].
      exists k. split; [reflexivity|]. split; [exact Hnull|]. split; [exact Hp|]. exact Hto.
    + exists 0xFFFFFFFF, s1. split_and!; [done..|]. right. split_and!; [done|done|done|]. by exists k.
  - destruct fuel as [|fuel]; [lia|]. cbn [ipv4_wait]. rewrite E0.
    rewrite (bind_done _ _ _ (Some dest0) s0) by done.
    destruct (ipv4_transmit dest0 s0 Hs0 Hd0) as (n' & Hsend & Hsent).
    rewrite (bind_done _ _ _ _ _ Hsend). exists 0, (set_ns_nic n' s0). split_and!; [done..|]. left.
    split; [done|]. exists s0, dest0. split_and!; try done; [by apply mac_not_null|by left].
Qed.

End Polling.

Lemma start_pdu_encapsulation_eq {S} `{Nic S} {cpu : Cpu} {board : Board} arp_stack fuel frame (s : netstack S) :
  board_agrees -> Forall is_u8 frame -> (14 <= length frame)%nat ->
  start_pdu_encapsulation arp_stack fuel frame s =
  if wire_field 2 12 frame =? 0x0806 then arp_receive arp_stack fuel frame s else Done (tt, s).
Proof.
  intros Hag Hb Hl. unfold start_pdu_encapsulation.
  rewrite (ntohs_field Hag) by (done || lia). unfold TYPE_ARP. by case_match.
Qed.

(** What an iteration does with the first queued packet. *)
Lemma network_task_takes {S} `{Nic S} {cpu : Cpu} {board : Board} arp_stack fuel q x l (s : netstack S) :
  pqueue_ok q -> packets q = x :: l ->
  exists i q', remove_packet q = (Some i, q') /\ packets q' = l /\ pqueue_ok q' /\
    packet_bytes (recv_packet_queue q !!! i) = x /\ (14 <= length (data (recv_packet_queue q !!! i)))%nat /\
    recv_packet_queue q' = recv_packet_queue q /\
    forall s', start_pdu_encapsulation arp_stack fuel (data (recv_packet_queue q !!! i)) s = Done (tt, s') ->
      network_task_iteration arp_stack fuel (q, s) = Done (tt, (q', s')).
Proof.
  intros Hq E. pose proof (remove_packet_spec q Hq) as Hrem. unfold network_task_iteration, new_packet_available.
  rewrite E in Hrem. destruct Hrem as (q' & Hr & Hx & Hqq & _ & _ & Hq' & Hl).
  unfold remove_packet in *. destruct (recv_queue_start q =? recv_queue_end q); [done|]. cbn [negb].
  injection Hr as <-. cbn [recv_packet_queue] in *.
  eexists _, _. split; [reflexivity|]. split_and!; [exact Hl|exact Hq'|exact Hx| |done|].
  - pose proof (pqueue_slot_length q (Z.to_nat (recv_queue_start q)) Hq) as Hlen. unfold MAX_PACKET_SIZE in Hlen. lia.
  - intros s' Hs'. by rewrite Hs'.
Qed.

(** One iteration of the network task takes the first queued packet, if
    there is one, and dispatches its bytes; a packet whose EtherType is not ARP
    is dropped without any effect on the network stack. *)
Theorem network_task_iteration_correct {S} `{NicLaws S} {cpu : Cpu} {board : Board}
    arp_stack fuel q (s : netstack S) :
  board_agrees -> pqueue_ok q ->
  (packets q = [] -> network_task_iteration arp_stack fuel (q, s) = Done (tt, (q, s))) /\
  (forall x l, packets q = x :: l -> exists i q', remove_packet q = (Some i, q') /\ packets q' = l /\
     packet_bytes (recv_packet_queue q !!! i) = x /\
     let frame := data (recv_packet_queue q !!! i) in
     (Forall is_u8 frame -> wire_field 2 12 frame <> 0x0806 ->
        network_task_iteration arp_stack fuel (q, s) = Done (tt, (q', s))) /\
     (Forall is_u8 frame -> wire_field 2 12 frame = 0x0806 -> forall s',
        arp_receive arp_stack fuel frame s = Done (tt, s') ->
        network_task_iteration arp_stack fuel (q, s) = Done (tt, (q', s')))).
Proof.
  intros Hag Hq. split.
  - intros E. pose proof (remove_packet_spec q Hq) as Hrem. rewrite E in Hrem.
    unfold network_task_iteration, new_packet_available, remove_packet in *.
    by destruct (recv_queue_start q =? recv_queue_end q).
  - intros x l E.
    destruct (network_task_takes arp_stack fuel q x l s Hq E) as (i & q' & Hr & Hl & _ & Hx & Hlen & _ & Hrun).
    exists i, q'. do 3 (split; [done|]). intros frame. subst frame. split; intros Hb Ht; [|intros s' Hs'];
      apply Hrun; rewrite start_pdu_encapsulation_eq by (try done; lia).
    + by rewrite (proj2 (Z.eqb_neq _ _) Ht).
    + by rewrite Ht, Hs'.
Qed.

(** ** Printing *)

(** The dotted decimal notation of an address. *)
Definition dotted (a b c e : Z) (text : list Z) : Prop :=
  exists ta tb tc te, number_text 10 decimal_char a ta /\ number_text 10 decimal_char b tb /\
    number_text 10 decimal_char c tc /\ number_text 10 decimal_char e te /\
    text = ta ++ cstr "." ++ tb ++ cstr "." ++ tc ++ cstr "." ++ te.

Lemma number_text_u8 a t : is_u8 a -> number_text 10 decimal_char a t -> (length t <= 4)%nat.
Proof.
  intros Ha Ht. unfold is_u8 in Ha.
  pose proof (number_text_length 10 decimal_char a t 3 ltac:(lia) ltac:(lia) Ht). lia.
Qed.

Lemma dotted_printf {D} `{Bus D} a b c e (d : D) :
  is_u8 a -> is_u8 b -> is_u8 c -> is_u8 e ->
  exists n text, dotted a b c e text /\
    printf (cstr "%i.%i.%i.%i") [VInt a; VInt b; VInt c; VInt e] d = Done (n, emit text d).
Proof.
  intros Ha Hb Hc He.
  destruct (number_text_exists 10 decimal_char a ltac:(lia)) as [ta Hta].
  destruct (number_text_exists 10 decimal_char b ltac:(lia)) as [tb Htb].
  destruct (number_text_exists 10 decimal_char c ltac:(lia)) as [tc Htc].
  destruct (number_text_exists 10 decimal_char e ltac:(lia)) as [te Hte].
  assert (forall v, is_u8 v -> number_conversion 105 (VInt v) = Some (10, decimal_char, v)) as Hconv.
  { intros v Hv. unfold is_u8 in Hv. cbn [number_conversion Z.eqb Pos.eqb].
    rewrite i32_id by (unfold is_i32; lia). by rewrite (proj2 (Z.eqb_neq v INT_MIN)) by (unfold INT_MIN; lia). }
  pose proof (number_text_u8 a ta Ha Hta). pose proof (number_text_u8 b tb Hb Htb).
  pose proof (number_text_u8 c tc Hc Htc). pose proof (number_text_u8 e te He Hte).
  eexists. exists (ta ++ cstr "." ++ tb ++ cstr "." ++ tc ++ cstr "." ++ te ++ []). split.
  { exists ta, tb, tc, te. by rewrite app_nil_r. }
  apply (vprintf_spec 0 _ _ _ []).
  - change (cstr "%i.%i.%i.%i") with (37 :: 105 :: 46 :: 37 :: 105 :: 46 :: 37 :: 105 :: 46 :: 37 :: [105]).
    change (cstr ".") with [46]. cbn [app].
    apply (formats_number 105 (VInt a) 10 decimal_char a ta); [by apply Hconv|done|]. apply formats_char; [lia|lia|].
    apply (formats_number 105 (VInt b) 10 decimal_char b tb); [by apply Hconv|done|]. apply formats_char; [lia|lia|].
    apply (formats_number 105 (VInt c) 10 decimal_char c tc); [by apply Hconv|done|]. apply formats_char; [lia|lia|].
    apply (formats_number 105 (VInt e) 10 decimal_char e te); [by apply Hconv|done|]. constructor.
  - change (cstr ".") with [46]. rewrite !length_app. cbn [length]. lia.
Qed.

(** [ipv4_print] prints an address in dotted decimal notation on a
    little-endian processor; on a big-endian one the same code prints the octets
    in reverse order. *)
Theorem ipv4_print_dotted {D} `{Bus D} {cpu : Cpu} addr (d : D) :
  is_u32 addr ->
  let o i := addr / 256 ^ i mod 256 in
  exists text, ipv4_print addr d = Done (tt, emit text d) /\
    match cpu_endian with
    | LittleEndian => dotted (o 3) (o 2) (o 1) (o 0) text
    | BigEndian => dotted (o 0) (o 1) (o 2) (o 3) text
    end.
Proof.
  intros Ha o. unfold ipv4_print, ipv4_octets.
  assert (le_bytes 4 addr = [o 0; o 1; o 2; o 3]) as E.
  { unfold o, le_bytes, u8. rewrite !Z.div_div by lia. by rewrite Z.div_1_r. }
  assert (forall i, is_u8 (o i)) as Ho by (intros i; apply u8_range).
  destruct cpu_endian; unfold enc; rewrite E; cbn [rev app fmap list_fmap].
  - destruct (dotted_printf (o 3) (o 2) (o 1) (o 0) d) as (n & text & Ht & Hp); [done..|].
    exists text. split; [by rewrite (bind_done _ _ _ _ _ Hp)|done].
  - destruct (dotted_printf (o 0) (o 1) (o 2) (o 3) d) as (n & text & Ht & Hp); [done..|].
    exists text. split; [by rewrite (bind_done _ _ _ _ _ Hp)|done].
Qed.

(** ** Witnesses *)

(** A quiet environment: a second passes between two polls. *)
#[local] Instance quiet_env : Env wire := fun s =>
  mk_net (ns_nic s) (ns_table s) (if ns_clock s <? 4611686018427387904 then ns_clock s + 1000 else ns_clock s).

Definition quiet (s : netstack wire) : Prop :=
  ns_nic s = example_wire /\ table_macs_wf (ns_table s) /\ 0 <= ns_clock s < 9223372036854775808.

Definition known_net : netstack wire := mk_net example_wire (Some example_table) 8500.

(** The lookup refreshes the entry of second 7. *)
Definition refreshed_net : netstack wire :=
  mk_net example_wire (Some (<[0%nat := mk_arp_entry 0x0A000202 mac_a 8]> null_table)) 8500.

Lemma quiet_lookup addr s : quiet s ->
  quiet (set_ns_table (arp_table_lookup addr (clock_seconds (ns_clock s)) (ns_table s)).2 s).
Proof. intros (Hn & Ht & Hc). split; [done|]. split; [by apply arp_table_lookup_wf|done]. Qed.

Lemma quiet_env_ok s : quiet s -> quiet (quiet_env s).
Proof. intros (Hn & Ht & Hc). split; [done|]. split; [done|]. cbn. case_match; lia. Qed.

Lemma quiet_mono addr s : ns_clock s <= ns_clock (poll (env := quiet_env) addr s).
Proof. cbn. unfold env_step, quiet_env. cbn. case_match; lia. Qed.

Lemma quiet_tick addr s : ns_clock s < 4611686018427387904 ->
  ns_clock s + 1000 <= ns_clock (Nat.iter 1 (poll (env := quiet_env) addr) s).
Proof. intros Hlt. cbn. unfold env_step, quiet_env. cbn. rewrite (proj2 (Z.ltb_lt _ _) Hlt). lia. Qed.

Lemma refreshed_net_quiet : quiet refreshed_net.
Proof. split; [done|]. split; [split; [done|by apply (bool_decide_unpack _); vm_compute]|cbn; lia]. Qed.

Lemma quiet_can_send s : quiet s -> nic_ready (ns_nic s) /\ exists sp,
  heap_rep (cpu := LittleEndian) (nic_heap (ns_nic s)) sp /\ (length (s_free sp) < 1)%nat /\
  s_brk sp + gross (14 + Z.max 46 4) <= HEAP_START + HEAP_SIZE /\ dma_ok sp (ns_nic s).
Proof.
  intros (-> & _). split; [by apply mac_wf_dec; vm_compute|]. exists (mk_spec [] [] HEAP_START).
  split; [apply initial_heap_rep|]. split; [simpl; lia|]. split; [vm_compute; done|]. by intros ? [].
Qed.

Lemma ipv4_send_correct_witness :
  exists r s', ipv4_send (env := quiet_env) (cpu := LittleEndian) (board := 0) 0x3FD0000 7 1
    0x0A000202 0x3FE0000 4 known_net = Done (r, s').
Proof.
  destruct (ipv4_send_correct (env := quiet_env) (cpu := LittleEndian) (board := 0) 0x3FD0000 quiet
    ltac:(intros s Hs; apply Hs) quiet_env_ok quiet_lookup 1 (fun addr s _ => quiet_mono addr s)
    (fun addr s _ => quiet_tick addr s) ltac:(intros s Hs; apply Hs) 1 0x3FE0000 4 eq_refl
    ltac:(unfold HEAP_START; lia) quiet_can_send 7 0x0A000202 (mk_spec [] [] HEAP_START) known_net)
    as (s0 & r & s' & _ & _ & Hs & _);
    [done|by apply example_can_send; lia|split; [done|by apply (bool_decide_unpack _); vm_compute]|done| |lia|lia|cbn; lia|].
  { intros dest s0 Hg. assert (s0 = refreshed_net) as ->; [|apply refreshed_net_quiet].
    vm_compute in Hg. by injection Hg as _ <-. }
  by exists r, s'.
Defined.

Definition example_ipv4_frame : list Z := replicate 12 1 ++ [8; 0] ++ replicate 46 2.

Lemma network_task_iteration_correct_witness :
  exists q', network_task_iteration (cpu := LittleEndian) (board := 0) 0x3FD0000 1
      (push_packet example_ipv4_frame pqueue_boot, known_net) = Done (tt, (q', known_net)) /\ packets q' = [].
Proof.
  set (q := push_packet example_ipv4_frame pqueue_boot).
  assert (pqueue_ok q) as Hq by (apply push_packet_ok; [apply pqueue_boot_ok|vm_compute; done]).
  destruct (network_task_iteration_correct (cpu := LittleEndian) (board := 0) 0x3FD0000 1 q known_net
    eq_refl Hq) as [_ H].
  destruct (H example_ipv4_frame []) as (i & q' & Hr & Hp & _ & Hd & _); [vm_compute; reflexivity|].
  exists q'. split; [|exact Hp].
  assert (i = 0%nat) as -> by (apply (f_equal fst) in Hr; vm_compute in Hr; by injection Hr).
  apply Hd; [by apply (bool_decide_unpack _); vm_compute|vm_compute; done].
Defined.

Lemma ipv4_print_dotted_witness :
  exists text, ipv4_print (cpu := LittleEndian) OWN_IPV4_ADDR quiet_uart = Done (tt, emit text quiet_uart) /\
    dotted 10 0 2 10 text.
Proof.
  destruct (ipv4_print_dotted (cpu := LittleEndian) OWN_IPV4_ADDR quiet_uart) as (text & Hp & Hd); [done|].
  exists text. by split.
Defined.
