(* ===== verification/TablePrint.v ===== *)
(** * Printing the ARP table: arp_table_print of kernel/network/routing.c

    A header and one line for each entry: the time of the entry, its MAC address
    and its IPv4 address. *)

From stdpp Require Import strings.
From S2P Require Import Prelude StateMonad Memory Bus Heap Clock Stdio Logger NetworkIo PacketQueue Ethernet Routing Arp Ipv4.

(** ** Definitions *)

Section TablePrint.
Context {D : Type} `{Bus D} {cpu : Cpu} {board : Board}.

(** One line; [tmp] is the buffer of [mac_to_str]. *)
Definition print_entry (entry : arp_entry) (tmp : list Z) : ST D (list Z) :=
  let tmp := mac_to_str (mac entry) tmp in
  _ ← printf (cstr " %i" ++ [9] ++ cstr "| %s | ")
        [VInt (u32 (entry_time entry)); VStr (Some (c_string tmp))];
  ipv4_print (ip entry) ;;
  _ ← printf [10] [];
  mret tmp.

Fixpoint print_entries (table : list arp_entry) (tmp : list Z) : ST D (list Z) :=
  match table with
  | [] => mret tmp
  | entry :: rest => tmp ← print_entry entry tmp; print_entries rest tmp
  end.

(** Without a table the first entry would be read at address 0. *)
Definition arp_table_print (now : Z) (t : arp_table) (tmp : list Z) : ST D (list Z) :=
  modify (log_line now SEVERITY_DEBUG (cstr "kernel/network/routing.c") (cstr "Arp Table:")) ;;
  _ ← printf (cstr " Time   |       MAC         |     IP" ++ [10]) [];
  _ ← printf (cstr "--------+-------------------+------------------" ++ [10]) [];
  match t with
  | None => undefined
  | Some table => print_entries table tmp
  end.

(** ** Specification *)

(** The address as [mac_to_str] writes it. *)
Definition mac_text (m : list Z) : list Z :=
  match hton_mac m with
  | [m0; m1; m2; m3; m4; m5] =>
      let hex m := [hex_digit (m / 16); hex_digit (m `mod` 16)] in
      hex m0 ++ [58] ++ hex m1 ++ [58] ++ hex m2 ++ [58] ++ hex m3 ++ [58] ++ hex m4 ++ [58] ++ hex m5
  | _ => []
  end.

(** The buffer keeps its colons and its NUL. *)
Definition mac_buffer_ok (tmp : list Z) : Prop :=
  exists a b c d e f g h i j k l, tmp = [a; b; 58; c; d; 58; e; f; 58; g; h; 58; i; j; 58; k; l; 0].

(** The line of an entry. *)
Definition entry_line (e : arp_entry) (text : list Z) : Prop :=
  let o i := ip e / 256 ^ i mod 256 in
  exists time address, number_text 10 decimal_char (i32 (u32 (entry_time e))) time /\
    match cpu_endian with
    | LittleEndian => dotted (o 3) (o 2) (o 1) (o 0) address
    | BigEndian => dotted (o 0) (o 1) (o 2) (o 3) address
    end /\
    text = [32] ++ time ++ [9] ++ cstr "| " ++ mac_text (mac e) ++ cstr " | " ++ address ++ [10].

Definition entry_printable (e : arp_entry) : Prop :=
  mac_wf (mac e) /\ is_u32 (ip e) /\ u32 (entry_time e) <> 0x80000000.

Lemma hex_digit_char v : 0 <= v < 16 -> 0 < hex_digit v < 256.
Proof.
  intros Hv. unfold hex_digit. assert (Forall (fun c => 0 < c < 256) (cstr "0123456789abcdef")) as Hall by literal.
  rewrite Forall_forall in Hall. apply Hall, list_elem_of_In, nth_In.
  assert (length (cstr "0123456789abcdef") = 16%nat) as -> by done. lia.
Qed.

(** The MAC address in the buffer. *)
Lemma mac_to_str_text m tmp :
  mac_wf m -> mac_buffer_ok tmp ->
  mac_to_str m tmp = mac_text m ++ [0] /\ mac_buffer_ok (mac_to_str m tmp) /\
  plain_text (mac_text m) /\ length (mac_text m) = 17%nat.
Proof.
  intros Hm (a&b&c&d&e&f&g&h&i&j&k&l&->). rewrite mac_to_str_digits by done. unfold mac_text.
  destruct (hton_mac_wf m Hm) as [Hl Hb].
  destruct (hton_mac m) as [|m0 [|m1 [|m2 [|m3 [|m4 [|m5 [|]]]]]]]; try discriminate Hl. cbv zeta.
  split; [done|]. split; [by do 12 eexists|]. split; [|done].
  rewrite !Forall_cons in Hb. unfold is_u8 in Hb. destruct Hb as (H0 & H1 & H2 & H3 & H4 & H5 & _).
  unfold plain_text. cbn [app]. repeat (constructor; [first [lia|apply hex_digit_char; word_lia]|]). constructor.
Qed.

Lemma c_string_terminated s rest : plain_text s -> c_string (s ++ 0 :: rest) = s.
Proof.
  induction 1 as [|c s Hc _ IH]; [done|]. cbn [app c_string].
  rewrite (proj2 (Z.eqb_neq c 0)) by lia. by rewrite IH.
Qed.

Lemma print_entry_spec e tmp (d : D) :
  entry_printable e -> mac_buffer_ok tmp ->
  exists text tmp', print_entry e tmp d = Done (tmp', emit text d) /\ entry_line e text /\ mac_buffer_ok tmp'.
Proof.
  intros (Hm & Hip & Htime) Hbuf. destruct (mac_to_str_text (mac e) tmp Hm Hbuf) as (Es & Hbuf' & Hplain & Hlen).
  assert (is_u32 (u32 (entry_time e))) as Hu by apply u32_range.
  destruct (number_text_exists 10 decimal_char (i32 (u32 (entry_time e))) ltac:(lia)) as [t Ht].
  pose proof (number_text_length 10 decimal_char (i32 (u32 (entry_time e))) t 10 ltac:(lia) ltac:(word_lia) Ht).
  destruct (ipv4_print_dotted (ip e) (emit ([32] ++ t ++ [9] ++ cstr "| " ++ mac_text (mac e) ++ cstr " | " ++ []) d) Hip)
    as (address & Hp & Haddr).
  do 2 eexists. split; [|split; [|exact Hbuf']].
  - unfold print_entry. rewrite Es, c_string_terminated by done. erewrite bind_done.
    2:{ apply (vprintf_spec 0 _ _ ([32] ++ t ++ [9] ++ cstr "| " ++ mac_text (mac e) ++ cstr " | " ++ []) []).
        - change (cstr " %i" ++ [9] ++ cstr "| %s | ") with ([32] ++ 37 :: 105 :: [9; 124; 32] ++ 37 :: 115 :: cstr " | ").
          apply formats_literal; [literal|].
          apply (formats_number 105 (VInt (u32 (entry_time e))) 10 decimal_char (i32 (u32 (entry_time e))) t); [|done|].
          + cbn [number_conversion Z.eqb Pos.eqb]. rewrite (proj2 (Z.eqb_neq _ _)); [done|].
            unfold INT_MIN, is_u32, i32 in *. word_lia.
          + apply (formats_literal [9; 124; 32]); [literal|]. apply formats_s; [done|].
            rewrite <- (app_nil_r (cstr " | ")) at 1. apply formats_literal; [literal|constructor].
        - rewrite !length_app, Hlen. assert (length (cstr "| ") = 2%nat) as -> by done.
          assert (length (cstr " | ") = 3%nat) as -> by done. cbn [length]. lia. }
    rewrite (bind_done _ _ _ _ _ Hp).
    erewrite bind_done.
    2:{ apply (vprintf_spec 0 _ _ [10] []); [apply formats_char; [lia|lia|constructor]|cbn; lia]. }
    rewrite <- !emit_app. reflexivity.
  - exists t, address. split; [done|]. split; [exact Haddr|]. rewrite app_nil_r. by rewrite <- !app_assoc.
Qed.

Lemma print_entries_spec table tmp (d : D) :
  Forall entry_printable table -> mac_buffer_ok tmp ->
  exists lines tmp', print_entries table tmp d = Done (tmp', emit (concat lines) d) /\
    Forall2 entry_line table lines /\ mac_buffer_ok tmp'.
Proof.
  intros Ht. revert tmp d. induction Ht as [|e table He _ IH]; intros tmp d Hbuf.
  - exists [], tmp. cbn [concat]. by rewrite emit_nil.
  - destruct (print_entry_spec e tmp d He Hbuf) as (text & tmp1 & H1 & Hline & Hbuf1).
    destruct (IH tmp1 (emit text d) Hbuf1) as (lines & tmp2 & H2 & Hlines & Hbuf2).
    exists (text :: lines), tmp2. split; [|by split; [constructor|]].
    cbn [print_entries concat]. by rewrite (bind_done _ _ _ _ _ H1), H2, emit_app.
Qed.

Definition table_header (now : Z) : list Z :=
  log_text now SEVERITY_DEBUG (cstr "kernel/network/routing.c") (cstr "Arp Table:") ++
  cstr " Time   |       MAC         |     IP" ++ [10] ++
  cstr "--------+-------------------+------------------" ++ [10].

(** [arp_table_print] prints a log line, the header and one line for each entry of the
    table, in order, with the entry's time, its MAC address in hexadecimal and
    its IPv4 address in the dotted notation of [ipv4_print]; it prints nothing
    else, however often it is called, and without a table it is undefined. *)
Theorem arp_table_print_correct now t tmp (d : D) :
  mac_buffer_ok tmp ->
  (t = None -> arp_table_print now t tmp d = Undefined) /\
  (forall table, t = Some table -> Forall entry_printable table ->
     exists lines tmp', arp_table_print now t tmp d = Done (tmp', emit (table_header now ++ concat lines) d) /\
       Forall2 entry_line table lines /\ mac_buffer_ok tmp').
Proof.
  intros Hbuf.
  assert (forall s (d : D), Forall (fun c => 0 < c < 256 /\ c <> 37) s -> Z.of_nat (length s) < 1000 ->
    printf s [] d = Done (Z.of_nat (length s), emit s d)) as Hlit.
  { intros s d0 Hs Hl. apply (vprintf_spec 0 _ _ _ []); [|lia]. rewrite <- (app_nil_r s).
    apply formats_literal; [done|constructor]. }
  assert (forall k, (modify (log_line now SEVERITY_DEBUG (cstr "kernel/network/routing.c") (cstr "Arp Table:")) ;;
     _ ← printf (cstr " Time   |       MAC         |     IP" ++ [10]) [];
     _ ← printf (cstr "--------+-------------------+------------------" ++ [10]) []; k) d =
     (k : ST D (list Z)) (emit (table_header now) d)) as Hhead.
  { intros k. erewrite bind_done by done. rewrite log_line_eq by literal. do 2 (erewrite bind_done by (apply Hlit; [literal|by vm_compute])).
    unfold table_header. by rewrite !emit_app. }
  unfold arp_table_print. rewrite Hhead. split; [by intros ->|]. intros table -> Ht.
  destruct (print_entries_spec table tmp (emit (table_header now) d) Ht Hbuf) as (lines & tmp' & Hp & Hl & Hb).
  exists lines, tmp'. by rewrite Hp, <- emit_app.
Qed.

End TablePrint.

(** ** Witness *)

Definition mac_buffer : list Z := cstr "00:11:22:33:44:55" ++ [0].

Lemma arp_table_print_correct_witness :
  exists lines tmp', arp_table_print (cpu := LittleEndian) (board := 0) 8500 (Some null_table) mac_buffer quiet_uart =
    Done (tmp', emit (table_header 8500 ++ concat lines) quiet_uart) /\ length lines = 10%nat.
Proof.
  destruct (arp_table_print_correct (cpu := LittleEndian) (board := 0) 8500 (Some null_table) mac_buffer quiet_uart)
    as [_ H]; [by do 12 eexists|].
  destruct (H null_table eq_refl) as (lines & tmp' & Hp & Hl & _).
  - apply Forall_replicate. split; [by apply mac_wf_dec; vm_compute|]. split; [done|]. vm_compute. congruence.
  - exists lines, tmp'. split; [exact Hp|]. symmetry. exact (Forall2_length _ _ _ Hl).
Defined.
