(* ===== verification/NetworkTask.v ===== *)
(** * The network task: network_task_recv of kernel/network/network_task.c

    The task as a whole: it allocates the ARP table and works through the
    receive queue for ever.  Whatever bytes arrive, every packet is taken from
    the queue, and the frames sent are the answers to the requests among them;
    the heap is not used up. *)

From stdpp Require Import strings.
From S2P Require Import Prelude StateMonad Memory Heap Clock Stdio Logger NetworkIo PacketQueue Ethernet Routing Arp Ipv4.

(** ** Definitions *)

Section NetworkTask.
Context {S : Type} `{Nic S} {cpu : Cpu} {board : Board} (arp_stack : Z).

(** [routing_init], which logs when there is no memory for the table. *)
Definition routing_init_call (fuel : nat) : ST (netstack S) unit := fun s =>
  match routing_init fuel (ns_table s) (nic_heap (ns_nic s)) with
  | Done (t, h) =>
      let n := nic_set_heap h (ns_nic s) in
      let n := match t with
               | None => nic_log (ns_clock s) SEVERITY_ERROR (cstr "kernel/network/routing.c")
                           (cstr "Allocating memory for arp table failed!") n
               | Some _ => n
               end in
      Done (tt, set_ns_table t (set_ns_nic n s))
  | Undefined => Undefined
  | NoFuel => NoFuel
  end.

(** [n] iterations of the endless loop. *)
Fixpoint network_task_loop (n fuel : nat) : ST (pqueue * netstack S) unit :=
  match n with
  | O => mret ()
  | Datatypes.S n' => network_task_iteration arp_stack fuel ;; network_task_loop n' fuel
  end.

Definition network_task_recv (n fuel : nat) : ST (pqueue * netstack S) unit :=
  zoom snd (fun s x => (x.1, s)) (routing_init_call fuel) ;;
  network_task_loop n fuel.

End NetworkTask.

(** ** Specification *)

(** What the kernel with MAC address [own], in wire order, answers to a frame. *)
Definition arp_answer (own x : list Z) : list (list Z) :=
  if decide (wire_field 2 12 x = 0x0806 /\ arp_supported x /\ arp_tpa x = OWN_IPV4_ADDR /\ arp_op x = 1)
  then [arp_wire (arp_sha x) own 2 OWN_IPV4_ADDR (arp_sha x) (arp_spa x)]
  else [].

(** The answer depends on the first 42 bytes only. *)
Lemma arp_answer_take own k x : (42 <= k)%nat -> arp_answer own (take k x) = arp_answer own x.
Proof.
  intros Hk.
  assert (wire_field 2 12 (take k x) = wire_field 2 12 x /\ arp_tpa (take k x) = arp_tpa x /\
    arp_op (take k x) = arp_op x /\ arp_spa (take k x) = arp_spa x /\ arp_sha (take k x) = arp_sha x)
    as (E1 & E2 & E3 & E4 & E5).
  { unfold arp_tpa, arp_op, arp_sha, arp_spa. split_and!; (by apply wire_field_take; lia) || (apply field_bytes_take; lia). }
  assert (arp_supported (take k x) <-> arp_supported x) as E6.
  { unfold arp_supported. by rewrite !wire_field_take by lia. }
  unfold arp_answer. rewrite E4, E5. destruct (decide _) as [Hy|Hn]; [rewrite decide_True|rewrite decide_False]; try done;
    rewrite E1, E2, E3, E6 in *; done.
Qed.

Section Correct.
Context {S : Type} `{NicLaws S} {cpu : Cpu} {board : Board} (arp_stack : Z) (fuel : nat).
Hypothesis Hagree : board_agrees.
Hypothesis Hstack : arp_stack + 28 <= HEAP_START.

(** One reply can be sent after another: there is a free block for the frame,
    or room to make one. *)
Definition keeps_sending (sp : spec_heap) (s : S) : Prop :=
  can_send fuel sp s /\
  (has_room 60 sp \/
   (length (s_free sp) + 1 < fuel)%nat /\ s_brk sp + 2 * gross 60 <= HEAP_START + HEAP_SIZE).

Lemma keeps_sending_served sp sp' (s n' : S) :
  keeps_sending sp s -> nic_ready n' -> heap_rep (nic_heap n') sp' -> dma_ok sp' n' -> served 60 sp sp' ->
  keeps_sending sp' n'.
Proof.
  intros ((_ & _ & Hf & Hroom & _) & Hcase) Hr Hrep Hdma (Hfit & Hbrk & Hlen & Hsame).
  split; [|by left]. split; [done|]. split; [done|].
  destruct Hcase as [[Hb Hl]%Hsame|[Hl Hb]]; (split; [lia|split; [lia|done]]).
Qed.

Lemma table_update_done m a (s : netstack S) :
  exists b s', table_update m a s = Done (b, s') /\ ns_nic s' = ns_nic s.
Proof.
  unfold table_update, clock_seconds_now, gets, lift. st_step.
  destruct (arp_table_update _ _ _ _) as [b t]. by exists b, (set_ns_table t s).
Qed.

Lemma table_add_entry_done m a (s : netstack S) :
  exists s', table_add_entry m a s = Done (tt, s') /\ ns_nic s' = ns_nic s.
Proof. unfold table_add_entry, clock_seconds_now, gets, lift. st_step. by eexists. Qed.

(** The state after a frame was handled. *)
Definition answered (own : list Z) (frames : list (list Z)) (s s' : netstack S) : Prop :=
  hton_mac (nic_mac (ns_nic s)) = own /\ nic_mac (ns_nic s') = nic_mac (ns_nic s) /\
  nic_sent (ns_nic s') = nic_sent (ns_nic s) ++ frames /\ exists sp, keeps_sending sp (ns_nic s').

Lemma arp_receive_answers frame sp (s : netstack S) :
  Forall is_u8 frame -> (42 <= length frame)%nat -> wire_field 2 12 frame = 0x0806 ->
  keeps_sending sp (ns_nic s) ->
  exists s', arp_receive arp_stack fuel frame s = Done (tt, s') /\
    answered (hton_mac (nic_mac (ns_nic s))) (arp_answer (hton_mac (nic_mac (ns_nic s))) frame) s s'.
Proof.
  intros Hb Hl Htype Hcan. rewrite (arp_receive_fields arp_stack Hagree) by done. unfold arp_answer.
  destruct (decide (arp_supported frame)) as [Hsup|Hsup].
  2:{ exists s. split; [done|]. rewrite decide_False by tauto. split_and!; [done|done|by rewrite app_nil_r|by exists sp]. }
  destruct (table_update_done (ntoh_mac (arp_sha frame)) (arp_spa frame) s) as (b & s1 & Hu & Hn1).
  rewrite (bind_done _ _ _ _ _ Hu).
  destruct (Z.eqb_spec (arp_tpa frame) OWN_IPV4_ADDR) as [Htpa|Htpa].
  2:{ exists s1. split; [done|]. rewrite decide_False by tauto. unfold answered. rewrite Hn1.
      split_and!; [done|done|by rewrite app_nil_r|by exists sp]. }
  assert (exists s2, (if negb b then table_add_entry (ntoh_mac (arp_sha frame)) (arp_spa frame) else mret ()) s1 =
    Done (tt, s2) /\ ns_nic s2 = ns_nic s) as (s2 & Ha & Hn2).
  { destruct (negb b); [|by exists s1].
    destruct (table_add_entry_done (ntoh_mac (arp_sha frame)) (arp_spa frame) s1) as (s2 & Ha & Hn2).
    exists s2. by rewrite Hn2. }
  rewrite (bind_done _ _ _ _ _ Ha). unfold ARP_REQUEST.
  destruct (Z.eqb_spec (arp_op frame) 1) as [Hop|Hop].
  2:{ exists s2. split; [done|]. rewrite decide_False by tauto. unfold answered. rewrite Hn2.
      split_and!; [done|done|by rewrite app_nil_r|by exists sp]. }
  assert (mac_wf (arp_sha frame)) as Hsha
    by (split; [unfold arp_sha; by rewrite length_field_bytes by lia|by apply field_bytes_u8]).
  assert (is_u32 (arp_spa frame)) as Hspa
    by (pose proof (wire_field_range 4 28 frame Hb ltac:(lia)); unfold arp_spa, is_u32; lia).
  destruct (arp_send_spec arp_stack Hagree Hstack fuel (ntoh_mac (arp_sha frame)) ARP_REPLY
    (ntoh_mac (arp_sha frame)) (arp_spa frame) sp s2) as (n' & Hs & Hr & Hm & Hsent & sp' & Hrep & _ & Hdma & Hserved);
    [rewrite Hn2; apply Hcan|by apply ntoh_mac_wf|by apply ntoh_mac_wf|done|done|].
  eexists. split; [exact Hs|]. rewrite decide_True by done. unfold answered. cbn [ns_nic set_ns_nic].
  rewrite Hn2 in *. split_and!; [done|done| |].
  - rewrite Hsent. destruct Hsha as [Hlsha _]. by rewrite !hton_ntoh_mac by done.
  - exists sp'. by eapply keeps_sending_served.
Qed.

Lemma answered_refl sp s : keeps_sending sp (ns_nic s) -> answered (hton_mac (nic_mac (ns_nic s))) [] s s.
Proof. intros Hs. split_and!; [done|done|by rewrite app_nil_r|by exists sp]. Qed.

Lemma answered_trans own l1 l2 s1 s2 s3 :
  answered own l1 s1 s2 -> answered own l2 s2 s3 -> answered own (l1 ++ l2) s1 s3.
Proof.
  intros (Ho & Hm1 & Hs1 & _) (_ & Hm2 & Hs2 & Hk). split_and!; [done|congruence| |done].
  by rewrite Hs2, Hs1, app_assoc.
Qed.

(** The slots hold bytes. *)
Definition slots_u8 (q : pqueue) : Prop := Forall (fun p => Forall is_u8 (data p)) (recv_packet_queue q).

Lemma slot_u8 q i : slots_u8 q -> Forall is_u8 (data (recv_packet_queue q !!! i)).
Proof.
  intros Hq. destruct (recv_packet_queue q !! i) as [p|] eqn:Ep.
  - rewrite (list_lookup_total_correct _ _ _ Ep). by apply (Forall_lookup_1 _ _ _ _ Hq Ep).
  - rewrite list_lookup_total_alt, Ep. by apply Forall_replicate.
Qed.

(** The dispatch of one packet. *)
Lemma pdu_answers frame sp (s : netstack S) :
  Forall is_u8 frame -> (42 <= length frame)%nat -> keeps_sending sp (ns_nic s) ->
  exists s', start_pdu_encapsulation arp_stack fuel frame s = Done (tt, s') /\
    answered (hton_mac (nic_mac (ns_nic s))) (arp_answer (hton_mac (nic_mac (ns_nic s))) frame) s s'.
Proof.
  intros Hb Hl Hs. rewrite start_pdu_encapsulation_eq by (done || lia).
  destruct (Z.eqb_spec (wire_field 2 12 frame) 0x0806) as [Ht|Ht].
  - destruct (arp_receive_answers frame sp s) as (s' & Hs' & Ha); [done..|]. by exists s'.
  - exists s. split; [done|]. unfold arp_answer. rewrite decide_False by tauto. by eapply answered_refl.
Qed.

(** The bytes of the slot of the first packet. *)
Lemma first_frame q i x :
  pqueue_ok q -> slots_u8 q -> packet_bytes (recv_packet_queue q !!! i) = x ->
  let frame := data (recv_packet_queue q !!! i) in
  Forall is_u8 frame /\ (42 <= length frame)%nat /\ take (length x) frame = x.
Proof.
  intros Hq Hb <-. cbv zeta. pose proof (pqueue_slot_length q i Hq) as Hlen. unfold MAX_PACKET_SIZE in Hlen.
  split; [by apply slot_u8|]. split; [lia|]. unfold packet_bytes. set (k := Z.to_nat _). rewrite length_take.
  destruct (decide (k <= length (data (recv_packet_queue q !!! i)))%nat); [by rewrite Nat.min_l|].
  rewrite Nat.min_r, firstn_all, take_ge by lia. done.
Qed.

(** One iteration on a queue with a packet. *)
Lemma iteration_answers q x l sp (s : netstack S) :
  pqueue_ok q -> slots_u8 q -> packets q = x :: l -> keeps_sending sp (ns_nic s) ->
  exists q' s' frame, network_task_iteration arp_stack fuel (q, s) = Done (tt, (q', s')) /\
    pqueue_ok q' /\ slots_u8 q' /\ packets q' = l /\ take (length x) frame = x /\
    answered (hton_mac (nic_mac (ns_nic s))) (arp_answer (hton_mac (nic_mac (ns_nic s))) frame) s s'.
Proof.
  intros Hq Hb E Hs.
  destruct (network_task_takes arp_stack fuel q x l s Hq E) as (i & q' & Hr & Hl & Hq' & Hx & _ & Hqq & Hrun).
  destruct (first_frame q i x Hq Hb Hx) as (Hfb & Hlen & Htake).
  destruct (pdu_answers (data (recv_packet_queue q !!! i)) sp s) as (s' & Hs' & Ha); [done..|].
  exists q', s', (data (recv_packet_queue q !!! i)). unfold slots_u8 in *. rewrite Hqq. by split_and!; [apply Hrun|..].
Qed.

Lemma loop_answers n q sp (s : netstack S) :
  pqueue_ok q -> slots_u8 q -> keeps_sending sp (ns_nic s) -> (length (packets q) <= n)%nat ->
  exists q' s' frames, network_task_loop arp_stack n fuel (q, s) = Done (tt, (q', s')) /\
    pqueue_ok q' /\ packets q' = [] /\
    Forall2 (fun x frame => take (length x) frame = x) (packets q) frames /\
    answered (hton_mac (nic_mac (ns_nic s))) (frames ≫= arp_answer (hton_mac (nic_mac (ns_nic s)))) s s'.
Proof.
  revert q sp s. induction n as [|n IH]; intros q sp s Hq Hb Hs Hn; cbn [network_task_loop].
  - destruct (packets q) as [|x l] eqn:E; [|cbn in Hn; lia]. exists q, s, []. split_and!; try done.
    by eapply answered_refl.
  - destruct (packets q) as [|x l] eqn:E.
    + assert (network_task_iteration arp_stack fuel (q, s) = Done (tt, (q, s))) as Hit.
      { pose proof (remove_packet_spec q Hq) as Hrem. rewrite E in Hrem.
        unfold network_task_iteration, new_packet_available, remove_packet in *.
        by destruct (recv_queue_start q =? recv_queue_end q). }
      rewrite (bind_done _ _ _ _ _ Hit).
      destruct (IH q sp s) as (q' & s' & frames & Hrun & Hq' & Hp & Hf & Ha); [done..|rewrite E; cbn; lia|].
      rewrite E in Hf. by exists q', s', frames.
    + destruct (iteration_answers q x l sp s Hq Hb E Hs) as (q1 & s1 & frame & Hit & Hq1 & Hb1 & Hl1 & Hx & Ha1).
      rewrite (bind_done _ _ _ _ _ Hit). pose proof Ha1 as (_ & Hm1 & _ & sp1 & Hs1).
      destruct (IH q1 sp1 s1) as (q' & s' & frames & Hrun & Hq' & Hp & Hf & Ha); [done..|rewrite Hl1; cbn in Hn; lia|].
      exists q', s', (frame :: frames). rewrite Hm1 in Ha. split_and!; try done.
      * constructor; [done|]. by rewrite <- Hl1.
      * rewrite bind_cons. by eapply answered_trans.
Qed.

(** The allocation of the ARP table. *)
Lemma routing_init_keeps sp (s : netstack S) :
  nic_ready (ns_nic s) -> heap_rep (nic_heap (ns_nic s)) sp -> (length (s_free sp) + 1 < fuel)%nat ->
  s_brk sp + gross (MAX_ARP_TABLE_ENTRIES * sizeof_arp_entry) + 2 * gross 60 <= HEAP_START + HEAP_SIZE ->
  dma_ok sp (ns_nic s) ->
  exists s', routing_init_call fuel s = Done (tt, s') /\
    answered (hton_mac (nic_mac (ns_nic s))) [] s s'.
Proof.
  intros Hr Hrep Hf Hroom Hdma. assert (0 <= gross 60) as Hg by (by vm_compute).
  assert (0 <= gross (MAX_ARP_TABLE_ENTRIES * sizeof_arp_entry)) as Hg2 by (by vm_compute).
  unfold routing_init_call, routing_init. destruct (ns_table s) as [t|] eqn:Et.
  - eexists. split; [done|]. unfold answered. cbn [ns_nic set_ns_nic set_ns_table].
    rewrite nic_set_mac, nic_set_sent, app_nil_r. split_and!; try done. exists sp. split; [|right; split; lia].
    split; [by apply nic_set_ready|]. rewrite nic_get_set. split_and!; [done|lia|lia|].
    intros a Ha%nic_set_dma. by apply Hdma.
  - destruct (malloc_room fuel (MAX_ARP_TABLE_ENTRIES * sizeof_arp_entry) (nic_heap (ns_nic s)) sp)
      as (x & h & sp' & Hm & Hrep' & Hu & _ & _ & Hbrk & Hlen & _); [done|by vm_compute|lia|lia|].
    rewrite Hm. cbn [mbind outcome_bind].
    assert (forall t, answered (hton_mac (nic_mac (ns_nic s))) [] s
      (set_ns_table t (set_ns_nic (nic_set_heap h (ns_nic s)) s))) as Hans.
    { intros t. unfold answered. cbn [ns_nic set_ns_nic set_ns_table].
      rewrite nic_set_mac, nic_set_sent, app_nil_r. split_and!; try done. exists sp'. split; [|right; split; lia].
      split; [by apply nic_set_ready|]. rewrite nic_get_set. split_and!; [done|lia|lia|].
      intros a Ha%nic_set_dma. destruct (Hdma a Ha) as (y & Hy & Hin). exists y. rewrite Hu. split; [by right|done]. }
    assert (x.1 + 16 <> NULL) as Hnn.
    { destruct Hrep' as ((Hok & _) & _). destruct (blocks_ok_wf _ _ x Hok ltac:(rewrite Hu; set_solver)) as (? & ? & ? & ? & ?).
      unfold NULL, HEAP_START in *. lia. }
    rewrite (proj2 (Z.eqb_neq _ _) Hnn). eexists. split; [reflexivity|apply Hans].
Qed.

End Correct.

(** The packets hold whole ARP frames: what follows them in their slots does not
    matter. *)
Lemma answers_of_packets own xs frames :
  Forall2 (fun x frame => take (length x) frame = x) xs frames -> Forall (fun x => (42 <= length x)%nat) xs ->
  (frames ≫= arp_answer own) = (xs ≫= arp_answer own).
Proof.
  induction 1 as [|x frame xs frames Hx _ IH]; intros Hl; [done|].
  apply Forall_cons in Hl as [Hlx Hl]. rewrite !bind_cons, IH by done. f_equal.
  by rewrite <- (arp_answer_take own (length x)), Hx.
Qed.

(** C5: The network task works off its queue: after at most as many iterations as
    there are packets the queue is empty, whatever bytes they contain; when they
    are at least 42 bytes long, the frames sent are exactly the replies to the
    ARP requests for our address among them, in order, and the task can go on
    sending: no reply uses up heap. *)
Theorem network_task_answers {S} `{NicLaws S} {cpu : Cpu} {board : Board} arp_stack fuel n q sp (s : netstack S) :
  board_agrees -> arp_stack + 28 <= HEAP_START ->
  nic_ready (ns_nic s) -> heap_rep (nic_heap (ns_nic s)) sp -> (length (s_free sp) + 1 < fuel)%nat ->
  s_brk sp + gross (MAX_ARP_TABLE_ENTRIES * sizeof_arp_entry) + 2 * gross 60 <= HEAP_START + HEAP_SIZE ->
  dma_ok sp (ns_nic s) -> pqueue_ok q -> slots_u8 q -> (length (packets q) <= n)%nat ->
  exists q' s', network_task_recv arp_stack n fuel (q, s) = Done (tt, (q', s')) /\
    pqueue_ok q' /\ packets q' = [] /\ nic_ready (ns_nic s') /\
    (exists sp', keeps_sending fuel sp' (ns_nic s')) /\
    (Forall (fun x => (42 <= length x)%nat) (packets q) ->
     nic_sent (ns_nic s') =
       nic_sent (ns_nic s) ++ (packets q ≫= arp_answer (hton_mac (nic_mac (ns_nic s))))).
Proof.
  intros Hag Hst Hr Hrep Hf Hroom Hdma Hq Hb Hn.
  destruct (routing_init_keeps arp_stack fuel Hag Hst sp s) as (s1 & Hinit & Ha1); [done..|].
  pose proof Ha1 as (_ & Hm1 & _ & sp1 & Hs1).
  destruct (loop_answers arp_stack fuel Hag Hst n q sp1 s1) as (q' & s' & frames & Hrun & Hq' & Hp & Hfr & Ha); [done..|].
  rewrite Hm1 in Ha. destruct (answered_trans _ _ _ _ _ _ _ Ha1 Ha) as (_ & _ & Hsent & sp' & Hs').
  exists q', s'. unfold network_task_recv.
  rewrite (bind_done _ _ (q, s) tt (q, s1)) by (unfold zoom; cbn [snd]; by rewrite Hinit).
  split_and!; try done; [apply Hs'|by exists sp'|]. intros Hl. rewrite Hsent. cbn [app].
  by rewrite (answers_of_packets _ _ _ Hfr).
Qed.

(** ** Witness *)

(** A request, a frame of another kind and the request again. *)
Definition example_queue : pqueue :=
  push_packet example_request (push_packet example_ipv4_frame (push_packet example_request pqueue_boot)).

Lemma network_task_answers_witness :
  exists q' s', network_task_recv (cpu := LittleEndian) (board := 0) 0x3FD0000 3 2
      (example_queue, mk_net example_wire None 0) = Done (tt, (q', s')) /\
    packets q' = [] /\
    nic_sent (ns_nic s') = nic_sent example_wire ++
      (packets example_queue ≫= arp_answer (hton_mac (board := 0) (nic_mac example_wire))) /\
    length (nic_sent (ns_nic s')) = 2%nat.
Proof.
  assert (packets example_queue = [example_request; example_ipv4_frame; example_request]) as Ep
    by (vm_compute; reflexivity).
  destruct (network_task_answers (cpu := LittleEndian) (board := 0) 0x3FD0000 2 3 example_queue
    (mk_spec [] [] HEAP_START) (mk_net example_wire None 0)) as (q' & s' & Hrun & _ & Hp & _ & _ & Hsent).
  - vm_compute. done.
  - unfold HEAP_START. lia.
  - by apply mac_wf_dec; vm_compute.
  - apply initial_heap_rep.
  - cbn. lia.
  - vm_compute. done.
  - by intros ? [].
  - do 3 (apply push_packet_ok; [|by vm_compute]). apply pqueue_boot_ok.
  - apply (bool_decide_unpack _). vm_compute. done.
  - rewrite Ep. cbn. lia.
  - assert (Forall (fun x => (42 <= length x)%nat) (packets example_queue)) as Hl
      by (rewrite Ep; apply (bool_decide_unpack _); vm_compute; done).
    specialize (Hsent Hl). exists q', s'. split; [exact Hrun|]. split; [exact Hp|]. split; [exact Hsent|].
    rewrite Hsent. vm_compute. reflexivity.
Defined.
