(* ===== verification/Within.v ===== *)
(** * What the network stack does, from what its card does

    The functions of the network stack change the state below them through the
    operations of the card only.  So whatever relation these operations keep, the
    functions keep. *)

From S2P Require Import Prelude StateMonad Memory Heap Clock Stdio Logger NetworkIo PacketQueue Ethernet Routing Arp Ipv4 NetworkTask.

(** [R] relates the states before and after; a frame can be sent in the states
    [P], and [Q] holds before and after it. *)
Class NicWithin (S : Type) `{Nic S} (R : relation S) (P Q : S -> Prop) := {
  within_preorder :: PreOrder R;
  within_sane s : P s -> Q s;
  within_heap h s : Q s -> R s (nic_set_heap h s) /\ Q (nic_set_heap h s);
  within_heap_ready h s : P s -> P (nic_set_heap h s);
  within_log now severity file message s : Q s -> printable_log severity file message ->
    R s (nic_log now severity file message s) /\ Q (nic_log now severity file message s);
  within_mac s m s' : P s -> nic_get_mac s = Done (m, s') -> R s s' /\ P s';
  within_send p len s r s' : P s -> nic_send_packet p len s = Done (r, s') -> R s s' /\ Q s';
}.

Section Within.
Context {S : Type} {nic : Nic S} {R : relation S} {P Q : S -> Prop} {within : NicWithin S R P Q}.
Context {cpu : Cpu} {board : Board} (arp_stack : Z).

(** [m] keeps [R], from the states [I] to states [J]. *)
Definition does_steps {A} (I J : S -> Prop) (m : ST S A) : Prop :=
  forall s a s', I s -> m s = Done (a, s') -> R s s' /\ J s'.

Lemma does_bind {A B} (I J K : S -> Prop) (m : ST S A) (f : A -> ST S B) :
  does_steps I J m -> (forall a, does_steps J K (f a)) -> does_steps I K (m ≫= f).
Proof.
  intros Hm Hf s b s2 Hs (a & s1 & H1 & H2)%bind_done_inv. destruct (Hm s a s1 Hs H1) as [Hr Hs1].
  destruct (Hf a s1 b s2 Hs1 H2) as [Hr2 Hs2]. split; [by etrans|done].
Qed.

Lemma does_ret {A} (I : S -> Prop) (a : A) : does_steps I I (mret a).
Proof. intros s b s' Hs E. by injection E as _ <-. Qed.

(** *** Ethernet *)

Lemma send_does p len : does_steps P Q (nic_send_packet p len).
Proof. intros s r s' Hs E. by eapply within_send. Qed.

Lemma get_mac_does : does_steps P P nic_get_mac.
Proof. intros s m s' Hs E. by eapply within_mac. Qed.

Lemma heap_does h s : P s -> R s (nic_set_heap h s) /\ P (nic_set_heap h s).
Proof.
  intros Hs. destruct (within_heap h s (within_sane s Hs)) as [Hr _]. split; [done|by apply (within_heap_ready h s)].
Qed.

Lemma kmalloc_does n size : does_steps P P (kmalloc n size).
Proof.
  intros s p s' Hs E. unfold kmalloc, zoom in E. destruct (malloc n size _) as [[q h]| |]; [|done..].
  injection E as _ <-. by apply heap_does.
Qed.

Lemma on_ram_does f : does_steps P P (on_ram f).
Proof.
  intros s [] s' Hs E. injection E as <-. by apply heap_does.
Qed.

Lemma kfree_does p : does_steps Q Q (kfree p).
Proof. intros s [] s' Hs E. injection E as <-. apply (within_heap _ s Hs). Qed.

#[local] Hint Resolve does_ret send_does get_mac_does kmalloc_does on_ram_does kfree_does : core.

Lemma ethernet_send_does n dest type payload len : does_steps P Q (ethernet_send n dest type payload len).
Proof.
  unfold ethernet_send. cbv zeta. do 7 (eapply (does_bind _ P); [try case_match; auto|intros ?]).
  eapply does_bind; [apply send_does|intros ?; apply kfree_does].
Qed.

(** *** ARP *)

Definition does_net {A} (I J : S -> Prop) (m : ST (netstack S) A) : Prop :=
  forall s a s', I (ns_nic s) -> m s = Done (a, s') -> R (ns_nic s) (ns_nic s') /\ J (ns_nic s').

Lemma net_bind {A B} (I J K : S -> Prop) (m : ST (netstack S) A) (f : A -> ST _ B) :
  does_net I J m -> (forall a, does_net J K (f a)) -> does_net I K (m ≫= f).
Proof.
  intros Hm Hf s b s2 Hs (a & s1 & H1 & H2)%bind_done_inv. destruct (Hm s a s1 Hs H1) as [Hr Hs1].
  destruct (Hf a s1 b s2 Hs1 H2) as [Hr2 Hs2]. split; [by etrans|done].
Qed.

Lemma net_ret {A} (I : S -> Prop) (a : A) : does_net I I (mret a).
Proof. intros s b s' Hs E. by injection E as _ <-. Qed.

Lemma net_done {A} (a : A) : does_net P Q (mret a).
Proof. intros s b s' Hs E. injection E as _ <-. split; [done|by apply within_sane]. Qed.

Lemma net_on_nic {A} I J (m : ST S A) : does_steps I J m -> does_net I J (on_nic m).
Proof.
  intros Hm s a s' Hs E. unfold on_nic, zoom in E. destruct (m (ns_nic s)) as [[b n]| |] eqn:En; [|done..].
  injection E as _ <-. by apply (Hm _ b).
Qed.

(** Operations on the table alone. *)
Lemma net_table {A} (I : S -> Prop) (f : Z -> arp_table -> A * arp_table) :
  does_net I I (now ← clock_seconds_now; lift ns_table set_ns_table (f now)).
Proof.
  intros s a s' Hs E. unfold clock_seconds_now, gets, lift in E. st_step.
  destruct (f _ _) as [b t]. by injection E as _ <-.
Qed.

Lemma arp_transmit_does n dest f : does_net P Q (arp_transmit arp_stack n dest f).
Proof. apply net_on_nic. eapply does_bind; [apply on_ram_does|intros ?; apply ethernet_send_does]. Qed.

Lemma arp_handle_request_does n frame : does_net P Q (arp_handle_request arp_stack n frame).
Proof.
  eapply (net_bind _ P); [|intros ?; apply arp_transmit_does].
  eapply net_bind; [apply net_on_nic, get_mac_does|intros ?; apply net_ret].
Qed.

Lemma arp_receive_does n frame : does_net P Q (arp_receive arp_stack n frame).
Proof.
  unfold arp_receive. cbv zeta. repeat (case_match; [apply net_done|]).
  eapply (net_bind _ P).
  { apply (net_table P (arp_table_update (ntoh_mac _) (ntohl _))). }
  intros b. case_match; [|apply net_done].
  eapply (net_bind _ P).
  - case_match; [|apply net_ret].
    apply (net_table P (fun now t => (tt, arp_table_add_entry _ _ now t))).
  - intros ?. case_match; [apply arp_handle_request_does|apply net_done].
Qed.

(** ** The packets of the network task, and its start *)

Lemma pdu_does n frame : does_net P Q (start_pdu_encapsulation arp_stack n frame).
Proof. unfold start_pdu_encapsulation. cbv zeta. case_match; [apply arp_receive_does|apply net_done]. Qed.

Lemma routing_init_does n : does_net Q Q (routing_init_call n).
Proof.
  intros s a s' Hs E. unfold routing_init_call in E.
  destruct (routing_init n (ns_table s) _) as [[t h]| |]; [|done..]. injection E as _ <-.
  destruct (within_heap h (ns_nic s) Hs) as [Hr Hq]. cbn [ns_nic set_ns_nic set_ns_table].
  destruct t; [done|].
  match goal with |- _ _ (nic_log ?t ?sv ?f ?m ?x) /\ _ => destruct (within_log t sv f m x Hq) as [Hr2 Hq2]; [by literal|] end.
  split; [by etrans|done].
Qed.

End Within.
