(* ===== verification/Driver.v ===== *)
(** * The driver as the network card of the stack

    Ethernet, ARP and IPv4 are proved against the interface [Nic].  Here the
    driver of E1000.v implements it, for every card that keeps the contract
    [E1000Card]: what the manual of the 82540EM promises of the transmit ring
    and of the receive buffers, once the registers of the card hold the places and
    lengths of the rings and switch both directions on ([programmed]).  The composition then answers an ARP request
    from the receive queue with a frame on the card's wire. *)

From S2P Require Import Prelude StateMonad Memory Heap Bus RingBuffer PacketQueue NetworkIo.
From S2P Require Import Clock Stdio Logger PciMmio Pci E1000 Ethernet Routing Arp Ipv4.

(** ** The card's contract *)

(** What was written last to the registers that tell the card where its rings
    are, and that switch its two sides on. *)
Record card_setup := mk_setup {
  c_rctrl : Z;
  c_rx_lo : Z;
  c_rx_hi : Z;
  c_rx_len : Z;
  c_rx_head : Z;
  c_rx_tail : Z;
  c_tctrl : Z;
  c_tx_lo : Z;
  c_tx_hi : Z;
  c_tx_len : Z;
}.

(** The transmit side of the card: where its registers are mapped, its head and
    tail registers, the frames it has put on the wire, and how it is set up. *)
Record tx_view := mk_view {
  v_base : Z;
  v_head : Z;
  v_tail : Z;
  v_wire : list (list Z);
  v_setup : card_setup;
}.

(** The card has been told of the rings of the driver's structure at [a], the
    receive descriptors at its start and the transmit descriptors behind them, of
    receive buffers of 8192 bytes, and to receive and to send. *)
Definition receive_programmed (a : Z) (c : card_setup) : Prop :=
  Z.land (c_rctrl c) RCTL_EN = RCTL_EN /\ Z.land (c_rctrl c) (Z.lor (Z.shiftl 3 16) (Z.shiftl 1 25)) = RCTL_BSIZE_8192 /\
  c_rx_lo c = a /\ c_rx_hi c = 0 /\ c_rx_len c = E1000_NUM_RX_DESC * 16 /\
  0 <= c_rx_head c < E1000_NUM_RX_DESC /\ 0 <= c_rx_tail c < E1000_NUM_RX_DESC.

Definition transmit_programmed (a : Z) (c : card_setup) : Prop :=
  Z.land (c_tctrl c) TCTL_EN = TCTL_EN /\
  c_tx_lo c = a + E1000_NUM_RX_DESC * 16 /\ c_tx_hi c = 0 /\ c_tx_len c = E1000_NUM_TX_DESC * 16.

Definition programmed (a : Z) (c : card_setup) : Prop :=
  a mod 16 = 0 /\ receive_programmed a c /\ transmit_programmed a c.

(** A write of [v] to the register [r]. *)
Definition setup_written (r v : Z) (c : card_setup) : card_setup :=
  let w reg old := if r =? reg then v else old in
  mk_setup (w REG_RCTRL (c_rctrl c))
    (w REG_RXDESCLO (c_rx_lo c)) (w REG_RXDESCHI (c_rx_hi c)) (w REG_RXDESCLEN (c_rx_len c))
    (w REG_RXDESCHEAD (c_rx_head c)) (w REG_RXDESCTAIL (c_rx_tail c))
    (w REG_TCTRL (c_tctrl c))
    (w REG_TXDESCLO (c_tx_lo c)) (w REG_TXDESCHI (c_tx_hi c)) (w REG_TXDESCLEN (c_tx_len c)).

(** The registers of both rings. *)
Definition ring_registers : list Z :=
  [REG_RCTRL; REG_RXDESCLO; REG_RXDESCHI; REG_RXDESCLEN; REG_RXDESCHEAD; REG_RXDESCTAIL;
   REG_TCTRL; REG_TXDESCLO; REG_TXDESCHI; REG_TXDESCLEN; REG_TXDESCHEAD; REG_TXDESCTAIL].

(** The bytes the receive descriptors let the card write: buffers of 8192
    bytes. *)
Definition rx_buffer (rx : list e1000_rx_desc) (a : Z) : Prop :=
  exists x, x ∈ rx /\ rx_addr x <= a < rx_addr x + 8192.

(** A whole frame, with the status to be reported. *)
Definition whole_frame (x : e1000_tx_desc) : Prop := tx_cmd x = 0x0B.

Definition report_done (x : e1000_tx_desc) : e1000_tx_desc :=
  mk_tx_desc (tx_addr x) (tx_length x) (tx_cso x) (tx_cmd x) (Z.lor (tx_status x) 1) (tx_css x) (tx_special x).

(** One action of the card on the transmit ring: nothing to do, not yet, or one
    descriptor sent. *)
Inductive transmits (m : mem) (v : tx_view) (busy : nat) (tx : list e1000_tx_desc) :
    tx_view -> nat -> list e1000_tx_desc -> Prop :=
| tx_idle busy' : v_head v = v_tail v -> transmits m v busy tx v busy' tx
| tx_waits busy' : v_head v <> v_tail v -> (busy' < busy)%nat -> transmits m v busy tx v busy' tx
| tx_sends busy' x : v_head v <> v_tail v -> tx !! Z.to_nat (v_head v) = Some x ->
    transmits m v busy tx
      (mk_view (v_base v) ((v_head v + 1) mod 8) (v_tail v)
         (v_wire v ++ [read_bytes m (tx_addr x) (Z.to_nat (tx_length x))]) (v_setup v))
      busy' (<[Z.to_nat (v_head v) := report_done x]> tx).

(** What a descriptor ring handed to the card must look like. *)
Definition ring_valid (v : tx_view) (tx : list e1000_tx_desc) : Prop :=
  v_head v = v_tail v \/ exists x, tx !! Z.to_nat (v_head v) = Some x /\ whole_frame x.

(** The filled receive descriptors. *)
Definition rx_filled (rx : list e1000_rx_desc) : nat :=
  length (filter (fun x => Z.testbit (rx_status x) 0 = true) rx).

(** A device access that does not configure the PCI bus. *)
Definition not_config (a : Z) : Prop := ~ (0x41000000 <= a < 0x43000000).

(** The view after a register write: head, tail and set-up change, and only
    through their registers. *)
Definition register_written (w : tx_view) (r v : Z) : tx_view :=
  mk_view (v_base w) (if r =? REG_TXDESCHEAD then v else v_head w)
    (if r =? REG_TXDESCTAIL then v else v_tail w) (v_wire w) (setup_written r v (v_setup w)).

Definition written (w : tx_view) (a v : Z) : tx_view := register_written w (a - v_base w) v.

Lemma setup_written_other r v c : r ∉ ring_registers -> setup_written r v c = c.
Proof.
  intros Hr. destruct c. unfold setup_written. cbn.
  f_equal; (case_bool; [subst r; exfalso; apply Hr; by apply (bool_decide_unpack _)|done]).
Qed.

Lemma register_written_other w r v : r ∉ ring_registers -> register_written w r v = w.
Proof.
  intros Hr. unfold register_written. rewrite setup_written_other by done. destruct w. cbn.
  f_equal; (case_bool; [subst r; exfalso; apply Hr; by apply (bool_decide_unpack _)|done]).
Qed.

(** Memory below the card's registers is not theirs. *)
Lemma written_below w a v : a < v_base w -> written w a v = w.
Proof.
  intros Ha. apply register_written_other.
  enough (Forall (fun r => 0 <= r) ring_registers) as Hall by (intros Hin; pose proof (proj1 (Forall_forall _ _) Hall _ Hin); cbn in *; lia).
  apply (bool_decide_unpack _). by vm_compute.
Qed.

(** The tail registers are moved while the card runs. *)
Lemma setup_tx_tail v c : setup_written REG_TXDESCTAIL v c = c.
Proof. by destruct c. Qed.

Lemma setup_rx_tail a v c :
  0 <= v < E1000_NUM_RX_DESC -> programmed a c -> programmed a (setup_written REG_RXDESCTAIL v c).
Proof. intros Hv. unfold programmed, receive_programmed, transmit_programmed, setup_written. cbn. tauto. Qed.

(** Nothing is promised of a card that has not been told of the driver's rings, or
    whose transmit ring is malformed.  [cd_busy] bounds the actions until the card takes up the next descriptor;
    [cd_pending] is the number of frames it still has to deliver, which are
    finitely many.  The reset bit of the control register reads as 0; nothing is
    promised when it is written as 1. *)
Class E1000Card (D : Type) `{Bus D} {card : Card D} := {
  cd_view : D -> tx_view;
  cd_busy : D -> nat;
  cd_delay : nat;
  cd_pending : D -> nat;
  cd_busy_bound d : (cd_busy d <= cd_delay)%nat;
  cd_step a d m rx tx d' m' rx' tx' :
    card_step a (d, m, rx, tx) = (d', m', rx', tx') -> programmed a (v_setup (cd_view d)) -> ring_valid (cd_view d) tx ->
    rx_addr <$> rx' = rx_addr <$> rx /\
    (forall a, ~ rx_buffer rx a -> get8 m' a = get8 m a) /\
    (Forall rx_length_ok rx -> Forall rx_length_ok rx') /\
    (rx_filled rx' + cd_pending d' <= rx_filled rx + cd_pending d)%nat /\
    transmits m (cd_view d) (cd_busy d) tx (cd_view d') (cd_busy d') tx';
  cd_read n a d : let r := bus_read n a d in
    cd_view r.2 = cd_view d /\ (cd_pending r.2 <= cd_pending d)%nat /\
    (a = v_base (cd_view d) -> Z.testbit r.1 26 = false);
  cd_write n a v d : not_config a -> (a = v_base (cd_view d) -> Z.testbit v 26 = false) ->
    cd_view (bus_write n a v d) = written (cd_view d) a v /\
    (cd_pending (bus_write n a v d) <= cd_pending d)%nat;
}.

Section Driver.
Context {D : Type} `{E1000Card D} {cpu : Cpu} {board : Board}.

(** Where the driver believes the card's registers are, and they are there. *)
Definition window_ok (base : Z) (d : D) : Prop :=
  base mod 4 = 0 /\ 0x43000000 <= base /\ base + 0x20000 <= 4294967296 /\ v_base (cd_view d) = base.

(** The driver, with its structure at [a], has found the card and told it of its
    rings. *)
Definition card_up (a : Z) (e : e1000_device) (d : D) : Prop :=
  is_Some (e_pci_device e) /\ programmed a (v_setup (cd_view d)).

(** The driver has set the card up, and the transmit ring is empty. *)
Definition driver_ready (s : nic_state D) : Prop :=
  exists a e, n_e1000 s = Some (a, e) /\ card_up a e (n_dev s) /\
    length (tx_descs e) = 8%nat /\ 0 <= tx_cur e < 8 /\ mac_wf (e_mac e) /\
    window_ok (e_mem_base e) (n_dev s) /\
    v_head (cd_view (n_dev s)) = tx_cur e /\ v_tail (cd_view (n_dev s)) = tx_cur e.

Definition driver_dma (s : nic_state D) (a : Z) : Prop :=
  match n_e1000 s with Some (_, e) => rx_buffer (rx_descs e) a | None => False end.

Definition driver_mac (s : nic_state D) : list Z :=
  match n_e1000 s with Some (_, e) => e_mac e | None => NULL_MAC end.

Definition driver_sent (s : nic_state D) : list (list Z) := v_wire (cd_view (n_dev s)).

Lemma rx_buffer_same rx rx' a : rx_addr <$> rx' = rx_addr <$> rx -> rx_buffer rx' a <-> rx_buffer rx a.
Proof.
  assert (forall l l', rx_addr <$> l' = rx_addr <$> l -> rx_buffer l' a -> rx_buffer l a) as Hone.
  { intros l l' E (x & Hx & Ha).
    assert (rx_addr x ∈ rx_addr <$> l) as (y & Hy & Hin)%list_elem_of_fmap
      by (rewrite <- E; by apply list_elem_of_fmap_2).
    exists y. split; [done|]. lia. }
  intros E. split; by apply Hone.
Qed.

(** *** One action of the card *)

(** What the card leaves alone: the queue, the heap's pointers, RAM outside the
    receive buffers, and the buffers' places. *)
Definition card_frame (s s' : nic_state D) : Prop :=
  n_queue s' = n_queue s /\
  (exists m, n_heap s' = set_ram m (n_heap s) /\
     forall a, ~ driver_dma s a -> get8 m a = get8 (ram (n_heap s)) a) /\
  (forall a, driver_dma s' a <-> driver_dma s a).

Lemma card_frame_trans s1 s2 s3 : card_frame s1 s2 -> card_frame s2 s3 -> card_frame s1 s3.
Proof.
  intros (Q1 & (m1 & H1 & M1) & D1) (Q2 & (m2 & H2 & M2) & D2). split; [congruence|].
  split; [|intros a; by rewrite D2].
  exists m2. split; [by rewrite H2, H1|]. intros a Ha. rewrite M2 by (by rewrite D1).
  rewrite H1. by apply M1.
Qed.

(** The driver's structure with other descriptor rings. *)
Definition with_rings (rx : list e1000_rx_desc) (tx : list e1000_tx_desc) (e : e1000_device) : e1000_device :=
  with_rx_descs rx (with_tx_descs tx e).

Lemma acts_frame s a e :
  n_e1000 s = Some (a, e) -> programmed a (v_setup (cd_view (n_dev s))) ->
  ring_valid (cd_view (n_dev s)) (tx_descs e) ->
  card_frame s (acts s) /\ exists rx' tx', n_e1000 (acts s) = Some (a, with_rings rx' tx' e) /\
    (Forall rx_length_ok (rx_descs e) -> Forall rx_length_ok rx') /\ length rx' = length (rx_descs e) /\
    (rx_filled rx' + cd_pending (n_dev (acts s)) <= rx_filled (rx_descs e) + cd_pending (n_dev s))%nat /\
    transmits (ram (n_heap s)) (cd_view (n_dev s)) (cd_busy (n_dev s)) (tx_descs e)
      (cd_view (n_dev (acts s))) (cd_busy (n_dev (acts s))) tx'.
Proof.
  intros He Hset Hv. unfold acts. rewrite He.
  destruct (card_step _ _) as [[[d' m'] rx'] tx'] eqn:Es.
  destruct (cd_step _ _ _ _ _ _ _ _ _ Es Hset Hv) as (Haddr & Hm & Hl & Hp & Ht). cbn.
  split.
  - split; [done|]. unfold driver_dma. rewrite He. cbn. split; [|intros x; by apply rx_buffer_same].
    exists m'. split; [done|]. exact Hm.
  - exists rx', tx'. split_and!; try done. rewrite <- (length_fmap rx_addr rx'), Haddr. apply length_fmap.
Qed.

(** What a transmission leaves of the receive side: the descriptors' number, the
    cursor, and no more packets to come than before. *)
Definition rx_side_kept (s s' : nic_state D) : Prop :=
  forall a e, n_e1000 s = Some (a, e) -> exists e', n_e1000 s' = Some (a, e') /\
    length (rx_descs e') = length (rx_descs e) /\ rx_cur e' = rx_cur e /\
    (Forall rx_length_ok (rx_descs e) -> Forall rx_length_ok (rx_descs e')) /\
    (rx_filled (rx_descs e') + cd_pending (n_dev s') <= rx_filled (rx_descs e) + cd_pending (n_dev s))%nat.

(** *** Transmission *)

(** Waiting for the descriptor at the head ends when the card has sent it. *)
Lemma wait_sent_transmits fuel s a e x v :
  cd_view (n_dev s) = v -> n_e1000 s = Some (a, e) -> programmed a (v_setup v) -> tx_descs e !! Z.to_nat (v_head v) = Some x ->
  whole_frame x -> tx_status x = 0 -> v_head v <> v_tail v -> (cd_busy (n_dev s) < fuel)%nat ->
  (forall b, tx_addr x <= b < tx_addr x + tx_length x -> ~ driver_dma s b) ->
  exists s', wait_sent fuel (v_head v) s = Done (tt, s') /\ card_frame s s' /\
    cd_view (n_dev s') = mk_view (v_base v) ((v_head v + 1) mod 8) (v_tail v)
      (v_wire v ++ [read_bytes (ram (n_heap s)) (tx_addr x) (Z.to_nat (tx_length x))]) (v_setup v) /\
    exists rx tx, n_e1000 s' = Some (a, with_rings rx tx e) /\ length tx = length (tx_descs e) /\
      length rx = length (rx_descs e) /\ (Forall rx_length_ok (rx_descs e) -> Forall rx_length_ok rx) /\
      (rx_filled rx + cd_pending (n_dev s') <= rx_filled (rx_descs e) + cd_pending (n_dev s))%nat.
Proof.
  revert s e. induction fuel as [|fuel IH]; intros s e Hv He Hset Hx Hw Hs0 Hne Hfuel Hdma; [lia|].
  destruct (acts_frame s a e He) as (Hf & rx' & tx' & He' & Hl & Hlen & Hload & Ht); [by rewrite Hv|rewrite Hv; right; by exists x|].
  cbn [wait_sent]. rewrite (bind_done _ _ s tt (acts s)) by done.
  unfold tx_desc, e1000. st_step. rewrite He'. cbn [tx_descs with_rings with_rx_descs with_tx_descs].
  rewrite Hv in Ht. remember (cd_view (n_dev (acts s))) as v' eqn:Hv'.
  remember (cd_busy (n_dev (acts s))) as b' eqn:Hb'. destruct Ht as [busy' Heq|busy' _ Hlt|busy' y _ Hy]; [by destruct (Hne Heq)| |].
  - rewrite Hx, Hs0. cbn [Z.eqb].
    destruct (IH (acts s) (with_rings rx' (tx_descs e) e)) as (s' & Hrun & Hf' & Hview & rx & tx & Hes & Htx & Hrx & Hrl & Hload');
      [by symmetry|exact He'|done..| | |].
    { lia. }
    { intros b Hb. destruct Hf as (_ & _ & Hdd). rewrite Hdd. by apply Hdma. }
    exists s'. split; [exact Hrun|]. split; [by eapply card_frame_trans|]. split.
    + rewrite Hview. do 3 f_equal. apply read_bytes_ext. intros b Hb.
      destruct Hf as (_ & (m & -> & Hm) & _). cbn [ram set_ram]. apply Hm, Hdma. lia.
    + exists rx, tx. cbn [rx_descs with_rings with_rx_descs with_tx_descs] in *.
      split_and!; [exact Hes|done|by rewrite Hrx|by eauto|lia].
  - rewrite Hx in Hy. injection Hy as <-.
    rewrite list_lookup_insert_eq by (by eapply lookup_lt_Some).
    cbn [tx_status report_done]. rewrite Hs0. cbn.
    exists (acts s). split; [done|]. split; [done|]. split; [by rewrite <- Hv'|].
    exists rx', (<[Z.to_nat (v_head v) := report_done x]> (tx_descs e)).
    split_and!; [exact He'|apply length_insert|done|done|exact Hload].
Qed.

(** *** Register accesses *)

Lemma register_write base r v (d : D) :
  window_ok base d -> 0 <= r < 0x20000 -> r mod 4 = 0 -> is_u32 v -> (r = 0 -> Z.testbit v 26 = false) ->
  let d' := pci_write32 (u32 (base + r)) v d in
  cd_view d' = register_written (cd_view d) r v /\
  (cd_pending d' <= cd_pending d)%nat.
Proof.
  intros (Hm & Hlo & Hhi & Hbase) Hr Hr4 Hv Hrst. cbv zeta. rewrite (u32_id (base + r)) by (unfold is_u32; lia).
  unfold pci_write32, write_word, write32.
  assert ((base + r) mod 4 = 0) as -> by word_lia. cbn [negb Z.eqb].
  rewrite (u32_id (base + r)), !(u32_id v) by (unfold is_u32 in *; lia).
  destruct (cd_write 4 (base + r) v d) as [-> Hp]; [unfold not_config; lia|rewrite Hbase; intros; apply Hrst; lia|].
  split; [|done]. unfold written. rewrite Hbase. by replace (base + r - base) with r by lia.
Qed.

Lemma tail_write (base v : Z) (d : D) :
  window_ok base d -> 0 <= v < 8 ->
  cd_view (pci_write32 (u32 (base + 0x3818)) v d) =
    mk_view base (v_head (cd_view d)) v (v_wire (cd_view d)) (v_setup (cd_view d)).
Proof.
  intros Hw Hv. destruct (register_write base 0x3818 v d) as [-> _]; [done|lia|done|unfold is_u32; lia|lia|].
  destruct Hw as (_ & _ & _ & <-). unfold register_written. by rewrite (setup_tx_tail v (v_setup (cd_view d))).
Qed.

(** [e1000_send_packet] on a ready driver: the frame is on the wire when it
    returns. *)
Lemma driver_sends fuel p len (s : nic_state D) :
  (cd_delay < fuel)%nat -> driver_ready s -> is_u32 p -> is_u16 len ->
  (forall a, p <= a < p + len -> ~ driver_dma s a) ->
  exists s', e1000_send_packet fuel p len s = Done (0, s') /\ driver_ready s' /\ card_frame s s' /\
    driver_mac s' = driver_mac s /\
    driver_sent s' = driver_sent s ++ [read_bytes (ram (n_heap s)) p (Z.to_nat len)] /\
    rx_side_kept s s'.
Proof.
  intros Hfuel (a & e & He & [Hpci Hset] & Hlen & Hcur & Hmac & Hwin & Hvh & Hvt) Hp Hl Hdma.
  rewrite (e1000_send_packet_eq _ _ _ _ a e) by done.
  destruct (lookup_lt_is_Some_2 (tx_descs e) (Z.to_nat (tx_cur e))) as [d Hd]; [lia|].
  set (s1 := doorbell a e p len s).
  set (x := mk_tx_desc (u32 p) (u16 len) (tx_cso d) 0x0B 0 (tx_css d) (tx_special d)).
  assert (cd_view (n_dev s1) = mk_view (e_mem_base e) (tx_cur e) ((tx_cur e + 1) mod 8) (driver_sent s)
    (v_setup (cd_view (n_dev s)))) as Hv1.
  { unfold s1, doorbell. cbn [n_dev]. rewrite tail_write, Hvh by (done || word_lia). done. }
  destruct (wait_sent_transmits fuel s1 a (with_cursors (rx_cur e) ((tx_cur e + 1) mod 8)
      (with_tx_descs (alter (fun d => mk_tx_desc (u32 p) (u16 len) (tx_cso d) 0x0B 0 (tx_css d) (tx_special d))
         (Z.to_nat (tx_cur e)) (tx_descs e)) e)) x _ Hv1)
    as (s' & Hrun & Hf & Hview & rx & tx & Hes & Htx & Hrx & Hrl & Hload); try done.
  - cbn. by rewrite list_lookup_alter_eq, Hd.
  - cbn. word_lia.
  - pose proof (cd_busy_bound (n_dev s1)). lia.
  - unfold x. cbn [tx_addr tx_length]. rewrite u32_id, u16_id by done. unfold driver_dma in *.
    rewrite He in Hdma. exact Hdma.
  - cbn in Hrun, Hview. rewrite (bind_done _ _ _ _ _ Hrun).
    exists s'. split; [done|]. split_and!.
    + eexists a, _. split; [exact Hes|]. unfold card_up. rewrite Hview. cbn. split_and!; try done; try word_lia.
      * rewrite Htx. cbn. by rewrite length_alter.
      * destruct Hwin as (? & ? & ? & _). split_and!; [done..|by rewrite Hview].
    + unfold card_frame, driver_dma in *. rewrite He. exact Hf.
    + unfold driver_mac. by rewrite Hes, He.
    + unfold driver_sent at 1. rewrite Hview. cbn. rewrite u32_id, u16_id by done. done.
    + intros a1 e1 He1. rewrite He in He1. injection He1 as <- <-. eexists. split; [exact Hes|].
      split; [exact Hrx|]. split; [done|]. split; [exact Hrl|]. etrans; [exact Hload|].
      unfold s1, doorbell. cbn [n_dev rx_descs with_cursors with_tx_descs].
      destruct (register_write (e_mem_base e) 0x3818 ((tx_cur e + 1) mod 8) (n_dev s)) as [_ Hp'];
        [done|lia|done|unfold is_u32; word_lia|lia|]. lia.
Qed.

(** *** The UART *)

(** Output does not reach the card. *)
Lemma emit_view text (d : D) :
  0x43000000 <= v_base (cd_view d) ->
  cd_view (emit text d) = cd_view d /\ (cd_pending (emit text d) <= cd_pending d)%nat.
Proof.
  unfold emit. generalize (crlf text). clear text. intros l. revert d.
  induction l as [|c l IH]; intros d Hb; cbn [foldl]; [done|].
  destruct (cd_write 1 (u32 UART_THR) (u8 c) d) as [Hview Hp].
  { unfold not_config. by vm_compute; intros []. }
  { intros E. exfalso. revert E. change (u32 UART_THR) with 0x101f1000. lia. }
  assert (cd_view (bus_write 1 (u32 UART_THR) (u8 c) d) = cd_view d) as Hsame
    by (rewrite Hview; apply written_below; change (u32 UART_THR) with 0x101f1000; lia).
  destruct (IH (bus_write 1 (u32 UART_THR) (u8 c) d)) as [Hv' Hp']; [by rewrite Hsame|].
  change (write8 UART_THR c d) with (bus_write 1 (u32 UART_THR) (u8 c) d). split; [congruence|lia].
Qed.

Lemma driver_ready_emit text s : driver_ready s -> driver_ready (set_n_dev (emit text (n_dev s)) s).
Proof.
  intros (a & e & He & Hp & Hl & Hc & Hm & Hw & Hh & Ht). pose proof Hw as (? & ? & ? & Hb).
  destruct (emit_view text (n_dev s)) as [Hv _]; [lia|].
  exists a, e. cbn [n_e1000 n_dev set_n_dev]. unfold window_ok, card_up in *. rewrite Hv. split_and!; done || apply Hp || lia.
Qed.

(** *** The interface *)

(** The driver as the card of the stack; [fuel] bounds its waiting loop. *)
Section Instance_.
Variable fuel : nat.
Hypothesis Hfuel : (cd_delay < fuel)%nat.

#[local] Instance driver_nic : Nic (nic_state D) := {|
  nic_heap := n_heap;
  nic_set_heap := set_n_heap;
  nic_get_mac := e1000_get_mac;
  nic_send_packet := e1000_send_packet fuel;
  nic_log now severity file message s := set_n_dev (log_line now severity file message (n_dev s)) s;
|}.

#[local, refine] Instance driver_nic_laws : NicLaws (nic_state D) := {|
  nic_ready := driver_ready;
  nic_mac := driver_mac;
  nic_sent := driver_sent;
  nic_dma := driver_dma;
|}.
Proof.
  all: try done.
  - intros s (a & e & He & _ & _ & _ & Hm & _). unfold driver_mac. by rewrite He.
  - intros s (a & e & He & _). unfold nic_get_mac, driver_nic, e1000_get_mac, driver_mac, e1000.
    st_step. by rewrite He.
  - intros p len s Hr Hp Hl Hd.
    destruct (driver_sends fuel p len s Hfuel Hr Hp Hl Hd) as (s' & Hs & Hr' & (_ & (m & Hh & Hm) & Hdma) & Hmac & Hsent & _).
    exists 0, s', m. by split_and!.
  - intros now severity file message s Hr Hlog. cbn [nic_log driver_nic]. rewrite log_line_eq by done.
    split; [by apply driver_ready_emit|]. split; [done|]. split; [done|]. split; [|done].
    destruct Hr as (a & e & _ & _ & _ & _ & _ & (_ & Hb & _ & Hbase) & _).
    unfold nic_sent, driver_sent. cbn [n_dev set_n_dev].
    destruct (emit_view (log_text now severity file message) (n_dev s)) as [-> _]; [lia|done].
Defined.

(** The network task's loop body on the driver's own queue. *)
Definition network_task_step (arp_stack : Z) (mfuel : nat) : ST (netstack (nic_state D)) unit := fun s =>
  match network_task_iteration arp_stack mfuel (n_queue (ns_nic s), s) with
  | Done (u, (q, s')) => Done (u, set_ns_nic (set_n_queue q (ns_nic s')) s')
  | Undefined => Undefined
  | NoFuel => NoFuel
  end.

(** A request for our address in the packet [x]. *)
Definition arp_request_for_us (x : list Z) : Prop :=
  (42 <= length x)%nat /\ wire_field 2 12 x = 0x0806 /\ arp_supported x /\
  arp_tpa x = OWN_IPV4_ADDR /\ arp_op x = 1 /\ arp_spa x <> 0.

(** An ARP request for our address at the head of the receive queue is
    answered on the wire: one iteration of the network task takes it from the
    queue, learns the sender, and when it returns the card has sent exactly one
    more frame, the reply to the sender. The queue's other packets wait. *)
Theorem arp_request_answered arp_stack mfuel x l sp now table (s : netstack (nic_state D)) :
  board_agrees -> arp_stack + 28 <= HEAP_START ->
  can_send mfuel sp (ns_nic s) -> pqueue_ok (n_queue (ns_nic s)) ->
  Forall (fun p => Forall is_u8 (data p)) (recv_packet_queue (n_queue (ns_nic s))) ->
  packets (n_queue (ns_nic s)) = x :: l -> arp_request_for_us x ->
  ns_table s = Some table -> now = ns_clock s / 1000 -> 0 < now -> table_ok now table ->
  exists s', network_task_step arp_stack mfuel s = Done (tt, s') /\
    packets (n_queue (ns_nic s')) = l /\
    driver_sent (ns_nic s') = driver_sent (ns_nic s) ++
      [arp_wire (arp_sha x) (hton_mac (driver_mac (ns_nic s))) 2 OWN_IPV4_ADDR (arp_sha x) (arp_spa x)] /\
    exists table', ns_table s' = Some table' /\ resolves now table' (arp_spa x) (ntoh_mac (arp_sha x)).
Proof.
  intros Hag Hst Hcan Hq Hbytes E (Hl & Htype & Hsup & Htpa & Hop & Hspa) Htab Hnow Hpos Hok.
  destruct (network_task_takes arp_stack mfuel _ x l s Hq E) as (i & q' & _ & Hl' & _ & Hx & Hlen & _ & Hrun).
  set (frame := data (recv_packet_queue (n_queue (ns_nic s)) !!! i)) in *.
  unfold packet_bytes in Hx. fold frame in Hx. set (k := Z.to_nat _) in Hx.
  assert (42 <= k)%nat as Hk by (subst x; rewrite length_take in Hl; lia).
  assert (42 <= length frame)%nat as Hlf by (subst x; rewrite length_take in Hl; lia).
  assert (Forall is_u8 frame) as Hb.
  { unfold frame. destruct (recv_packet_queue (n_queue (ns_nic s)) !! i) as [p|] eqn:Ep.
    - rewrite (list_lookup_total_correct _ _ _ Ep). by apply (Forall_lookup_1 _ _ _ _ Hbytes Ep).
    - rewrite list_lookup_total_alt, Ep. apply Forall_replicate. done. }
  unfold arp_supported, arp_tpa, arp_op, arp_spa, arp_sha in Hsup, Htpa, Hop, Hspa.
  rewrite <- Hx in Htype, Hsup, Htpa, Hop, Hspa.
  rewrite wire_field_take in Htype, Htpa, Hop, Hspa by lia.
  repeat rewrite wire_field_take in Hsup by lia.
  destruct (arp_receive_spec arp_stack Hag Hst mfuel frame sp now s)
    as (s' & Hs & [_ Hsent] & Ht'); [done..|exact Hnow|exact Hsup|].
  destruct (learn_table_learns frame now table) as (table' & Hlearn & _ & Hres & _); [done..|exact Hspa|].
  eexists. split.
  { unfold network_task_step. rewrite (Hrun s'); [reflexivity|].
    rewrite start_pdu_encapsulation_eq by (try done; lia). by rewrite Htype. }
  cbn [ns_nic set_ns_nic n_queue set_n_queue ns_table].
  assert (arp_spa x = arp_spa frame /\ arp_sha x = arp_sha frame) as [-> ->].
  { unfold arp_spa, arp_sha. rewrite <- Hx, wire_field_take, field_bytes_take by lia. done. }
  split; [done|]. split.
  - rewrite decide_True in Hsent by exact (conj Htpa Hop). exact Hsent.
  - exists table'. split; [by rewrite Ht', Htab|]. apply Hres. left. exact Htpa.
Qed.

End Instance_.

End Driver.

(** ** A card *)

(** A card that sends one descriptor for each of its actions and puts arriving
    frames into the free buffers in ring order.  Its other registers answer what
    they are set to; the reset bit reads as 0. *)
Record sim := mk_sim {
  sim_view : tx_view;
  sim_arrivals : list (list Z);
  sim_cursor : nat;
  sim_answers : Z -> Z;
}.

#[export] Instance sim_bus : Bus sim := {|
  bus_read n a d := (if a =? v_base (sim_view d) then 0 else sim_answers d a, d);
  bus_write n a v d := mk_sim (written (sim_view d) a v) (sim_arrivals d) (sim_cursor d) (sim_answers d);
|}.

Definition sim_transmit (m : mem) (tx : list e1000_tx_desc) (v : tx_view) : tx_view * list e1000_tx_desc :=
  if v_head v =? v_tail v then (v, tx)
  else match tx !! Z.to_nat (v_head v) with
       | Some x =>
           (mk_view (v_base v) ((v_head v + 1) mod 8) (v_tail v)
              (v_wire v ++ [read_bytes m (tx_addr x) (Z.to_nat (tx_length x))]) (v_setup v),
            <[Z.to_nat (v_head v) := report_done x]> tx)
       | None => (v, tx)
       end.

Definition filled_with (f : list Z) (x : e1000_rx_desc) : e1000_rx_desc :=
  mk_rx_desc (rx_addr x) (Z.of_nat (length f)) (rx_checksum x) 1 (rx_errors x) (rx_special x).

Definition sim_receive (m : mem) (rx : list e1000_rx_desc) (c : nat) (l : list (list Z)) :
    mem * list e1000_rx_desc * nat * list (list Z) :=
  match l with
  | [] => (m, rx, c, l)
  | f :: l' =>
      if 8192 <? Z.of_nat (length f) then (m, rx, c, l')
      else match rx !! c with
           | Some x =>
               if Z.testbit (rx_status x) 0 then (m, rx, c, l)
               else (write_bytes m (rx_addr x) f, <[c := filled_with f x]> rx, ((c + 1) mod 32)%nat, l')
           | None => (m, rx, c, l')
           end
  end.

#[export] Instance sim_card : Card sim := fun _ '(d, m, rx, tx) =>
  let '(v, tx') := sim_transmit m tx (sim_view d) in
  let '(m', rx', c, l) := sim_receive m rx (sim_cursor d) (sim_arrivals d) in
  (mk_sim v l c (sim_answers d), m', rx', tx').

Lemma sim_transmits m tx v :
  ring_valid v tx -> transmits m v 0 tx (sim_transmit m tx v).1 0 (sim_transmit m tx v).2.
Proof.
  intros Hv. unfold sim_transmit. destruct (Z.eqb_spec (v_head v) (v_tail v)) as [E|Hne]; [by constructor|].
  destruct Hv as [|(x & Hx & _)]; [done|]. rewrite Hx. cbn. by constructor.
Qed.

Lemma sim_receives m rx c l :
  let '(m', rx', _, l') := sim_receive m rx c l in
  rx_addr <$> rx' = rx_addr <$> rx /\ (forall a, ~ rx_buffer rx a -> get8 m' a = get8 m a) /\
  (Forall rx_length_ok rx -> Forall rx_length_ok rx') /\
  (rx_filled rx' + length l' <= rx_filled rx + length l)%nat.
Proof.
  unfold sim_receive. destruct l as [|f l]; [done|].
  destruct (Z.ltb_spec 8192 (Z.of_nat (length f))) as [Hlt|Hle]; [cbn [length]; split_and!; try done; lia|].
  destruct (rx !! c) as [x|] eqn:Ex; [|cbn [length]; split_and!; try done; lia].
  destruct (Z.testbit (rx_status x) 0) eqn:Es; [done|]. split_and!.
  - rewrite list_fmap_insert. apply list_insert_id. by rewrite list_lookup_fmap, Ex.
  - intros a Ha. apply write_bytes_outside. intros Hin. apply Ha. exists x.
    split; [by eapply list_elem_of_lookup_2|lia].
  - intros Hall. apply Forall_insert; [done|]. intros _. cbn. lia.
  - unfold rx_filled. clear Hle. revert c Ex. induction rx as [|y rx IH]; intros [|c] Ex; try done.
    + injection Ex as ->. change (<[0%nat:=_]> (x :: rx)) with (filled_with f x :: rx).
      rewrite !filter_cons, (decide_False (P := Z.testbit (rx_status x) 0 = true)) by (by rewrite Es).
      case_decide; cbn [length]; lia.
    + change (<[S c:=_]> (y :: rx)) with (y :: <[c:=filled_with f x]> rx). specialize (IH c Ex).
      rewrite !filter_cons. case_decide; cbn [length] in *; lia.
Qed.

#[export, refine] Instance sim_e1000 : E1000Card sim := {|
  cd_view := sim_view;
  cd_busy _ := 0%nat;
  cd_delay := 0%nat;
  cd_pending d := length (sim_arrivals d);
|}.
Proof.
  - done.
  - intros a d m rx tx d' m' rx' tx' Es _ Hv. unfold card_step, sim_card in Es.
    pose proof (sim_transmits m tx (sim_view d) Hv) as Ht.
    pose proof (sim_receives m rx (sim_cursor d) (sim_arrivals d)) as Hr.
    destruct (sim_transmit m tx (sim_view d)) as [v tx1].
    destruct (sim_receive m rx (sim_cursor d) (sim_arrivals d)) as [[[m1 rx1] c] l].
    injection Es as <- <- <- <-. destruct Hr as (? & ? & ? & ?). by split_and!.
  - intros n a d. cbn. split_and!; [done|done|]. intros ->. by rewrite Z.eqb_refl.
  - intros n a v d _ _. cbn. split; [done|lia].
Defined.

(** ** Witness *)

(** The card with its registers at 0x50000000, nothing sent, and the frames that
    will arrive: after power-on, and told of a driver's rings. *)
Definition blank_setup : card_setup := mk_setup 0 0 0 0 0 0 0 0 0 0.

Definition blank_sim (arrivals : list (list Z)) (answers : Z -> Z) : sim :=
  mk_sim (mk_view 0x50000000 3 3 [] blank_setup) arrivals 0 answers.

Definition sim_setup : card_setup :=
  mk_setup (Z.lor RCTL_EN RCTL_BSIZE_8192) 0x4000000 0 512 0 31 TCTL_EN 0x4000200 0 128.

Definition example_sim (arrivals : list (list Z)) (answers : Z -> Z) : sim :=
  mk_sim (mk_view 0x50000000 3 3 [] sim_setup) arrivals 0 answers.

Lemma sim_setup_programmed : programmed 0x4000000 sim_setup.
Proof. unfold programmed, receive_programmed, transmit_programmed. by vm_compute. Qed.

Definition sim_driver : e1000_device :=
  mk_e1000 (replicate 32 (mk_rx_desc 0x5000010 0 0 0 0 0)) (replicate 8 (mk_tx_desc 0 0 0 0 0 0 0))
    0x43000000 0x50000000 true [0x56; 0x34; 0x12; 0; 0x54; 0x52] 0 3 (Some 2%nat).

(** One live block holds the receive buffers. *)
Definition buffer_heap : heap :=
  match malloc (cpu := LittleEndian) 1 8192 (initial_heap ∅) with Done (_, h) => h | _ => initial_heap ∅ end.

Definition sim_nic (q : pqueue) : nic_state sim :=
  mk_nic (example_sim [] (fun _ => 0)) buffer_heap (Some (0x4000000, sim_driver)) q.

Lemma buffer_heap_rep :
  heap_rep (cpu := LittleEndian) buffer_heap (mk_spec [] [(HEAP_START, 8208)] (HEAP_START + 8208)).
Proof.
  destruct (malloc_spec (cpu := LittleEndian) 1 8192 (initial_heap ∅) (mk_spec [] [] HEAP_START))
    as (h' & Hm & Hrep & _); [apply initial_heap_rep|lia|simpl; lia|].
  unfold buffer_heap. rewrite Hm. exact Hrep.
Qed.

Lemma sim_ready q : driver_ready (sim_nic q).
Proof.
  exists 0x4000000, sim_driver. split; [done|]. split; [split; [by eexists|apply sim_setup_programmed]|].
  split; [done|]. split; [cbn; lia|].
  split; [by apply mac_wf_dec; vm_compute|]. split; [|done].
  split_and!; [done|cbn; lia|cbn; lia|done].
Qed.

Lemma sim_dma q a : driver_dma (sim_nic q) a -> HEAP_START + 16 <= a < HEAP_START + 8208.
Proof. intros (x & Hx & Ha). apply elem_of_replicate in Hx as [-> _]. cbn in Ha. unfold HEAP_START. lia. Qed.

Lemma arp_request_answered_witness :
  exists s', network_task_step (cpu := LittleEndian) (board := 0) 1 0x3FD0000 1
      (mk_net (sim_nic (push_packet example_request pqueue_boot)) (Some null_table) 8500) = Done (tt, s') /\
    v_wire (sim_view (n_dev (ns_nic s'))) =
      [arp_wire [0x52; 0x55; 10; 0; 2; 2] [0x52; 0x54; 0; 0x12; 0x34; 0x56] 2 OWN_IPV4_ADDR
         [0x52; 0x55; 10; 0; 2; 2] 0x0A000202].
Proof.
  assert (cd_delay (D := sim) < 1)%nat as Hdelay by apply Nat.lt_0_succ.
  destruct (arp_request_answered (D := sim) (cpu := LittleEndian) (board := 0) 1 Hdelay 0x3FD0000 1
    example_request [] (mk_spec [] [(HEAP_START, 8208)] (HEAP_START + 8208)) 8 null_table
    (mk_net (sim_nic (push_packet example_request pqueue_boot)) (Some null_table) 8500))
    as (s' & Hs & _ & Hsent & _).
  - vm_compute. done.
  - unfold HEAP_START. lia.
  - split; [apply sim_ready|]. split; [apply buffer_heap_rep|]. split; [cbn; lia|].
    split; [vm_compute; done|]. intros a Ha. exists (HEAP_START, 8208). split; [by left|]. exact (sim_dma (push_packet example_request pqueue_boot) a Ha).
  - apply push_packet_ok; [apply pqueue_boot_ok|vm_compute; done].
  - apply (bool_decide_unpack _). vm_compute. done.
  - vm_compute. reflexivity.
  - split_and!; [vm_compute; lia|done|split_and!; done|done|done|vm_compute; done].
  - done.
  - done.
  - lia.
  - apply null_table_ok. lia.
  - exists s'. split; [exact Hs|]. etrans; [exact Hsent|]. vm_compute. reflexivity.
Defined.
