(* ===== verification/Reception.v ===== *)
(** * Interrupts of the network card, for any card that keeps its contract

    The receive interrupt reads descriptors the card goes on changing.  Under
    the contract of Driver.v the handler returns, whatever the card does
    meanwhile, because the traffic is finite; it keeps the driver's invariant
    [nic_inv], only appends packets to the queue, and leaves the heap and RAM
    outside the card's buffers alone. *)

From S2P Require Import Prelude StateMonad Memory Heap Bus RingBuffer PacketQueue NetworkIo.
From S2P Require Import Clock Stdio Logger PciMmio Pci E1000 Ethernet Driver.

(** ** The invariant *)

(** At most one frame is with the card, and it is a whole one. *)
Definition ring_wf (v : tx_view) (tx : list e1000_tx_desc) : Prop :=
  0 <= v_head v < 8 /\ 0 <= v_tail v < 8 /\
  (v_head v = v_tail v \/
   (v_head v + 1) mod 8 = v_tail v /\ exists x, tx !! Z.to_nat (v_head v) = Some x /\ whole_frame x).

Lemma ring_wf_valid v tx : ring_wf v tx -> ring_valid v tx.
Proof. intros (_ & _ & [E|(_ & x & Hx)]); [by left|right; by exists x]. Qed.

Lemma transmits_wf m v busy tx v' busy' tx' :
  transmits m v busy tx v' busy' tx' -> ring_wf v tx ->
  ring_wf v' tx' /\ v_base v' = v_base v /\ v_setup v' = v_setup v.
Proof.
  intros [? _|? _ _|? x Hne Hx] (Hh & Ht & Hr); [done..|].
  destruct Hr as [|[Hn _]]; [done|]. split; [|done]. split; [cbn; word_lia|]. split; [done|]. by left.
Qed.

Section Reception.
Context {D : Type} `{E1000Card D} {cpu : Cpu} {board : Board}.

Definition nic_inv (s : nic_state D) : Prop :=
  pqueue_ok (n_queue s) /\
  exists a e, n_e1000 s = Some (a, e) /\ card_up a e (n_dev s) /\ rx_ok e /\
    window_ok (e_mem_base e) (n_dev s) /\ ring_wf (cd_view (n_dev s)) (tx_descs e).

(** The packets the handler may still find. *)
Definition nic_load (s : nic_state D) : nat :=
  match n_e1000 s with Some (_, e) => rx_filled (rx_descs e) | None => 0 end + cd_pending (n_dev s).

(** What the handler may have done since [s0]. *)
Definition handling (s0 s : nic_state D) : Prop :=
  nic_inv s /\ (nic_load s <= nic_load s0)%nat /\ 
  (exists l, Forall (fun x => packet_fits x /\ Forall is_u8 x) l /\ n_queue s = push_packets l (n_queue s0)) /\
  (exists m, n_heap s = set_ram m (n_heap s0) /\
     forall a, ~ driver_dma s0 a -> get8 m a = get8 (ram (n_heap s0)) a) /\
  (forall a, driver_dma s a <-> driver_dma s0 a).

Lemma set_ram_same h : set_ram (ram h) h = h.
Proof. by destruct h. Qed.

Lemma handling_refl s : nic_inv s -> handling s s.
Proof.
  intros Hs. split; [done|]. split; [done|]. split; [by exists []|]. split; [|done].
  exists (ram (n_heap s)). by rewrite set_ram_same.
Qed.

Lemma push_packets_app l1 l2 q : push_packets (l1 ++ l2) q = push_packets l2 (push_packets l1 q).
Proof. unfold push_packets. apply foldl_app. Qed.

Lemma handling_trans s0 s1 s2 : handling s0 s1 -> handling s1 s2 -> handling s0 s2.
Proof.
  intros (_ & L1 & (l1 & F1 & Q1) & (m1 & H1 & M1) & D1) (I2 & L2 & (l2 & F2 & Q2) & (m2 & H2 & M2) & D2).
  split; [done|]. split; [lia|]. split; [|split].
  - exists (l1 ++ l2). split; [by apply Forall_app|]. by rewrite push_packets_app, Q2, Q1.
  - exists m2. split; [by rewrite H2, H1|]. intros a Ha. rewrite M2 by (by rewrite D1). rewrite H1. by apply M1.
  - intros a. by rewrite D2.
Qed.

(** A step that keeps queue and heap. *)
Lemma handling_quiet s s' :
  nic_inv s' -> (nic_load s' <= nic_load s)%nat -> n_queue s' = n_queue s -> n_heap s' = n_heap s ->
  (forall a, driver_dma s' a <-> driver_dma s a) -> handling s s'.
Proof.
  intros Hi Hl Hq Hh Hd. split; [done|]. split; [done|]. split; [by exists []|]. split; [|done].
  exists (ram (n_heap s)). by rewrite Hh, set_ram_same.
Qed.

(** The transmit side stays idle, and nothing is sent. *)
Definition idle_kept (s0 s : nic_state D) : Prop :=
  driver_ready s0 -> driver_ready s /\ driver_sent s = driver_sent s0 /\ driver_mac s = driver_mac s0.

(** A frame handed to the card with the descriptor in slot [i]: behind it the
    ring is empty. *)
Definition frame_in_ring (i : Z) (mac : list Z) (s : nic_state D) (x : e1000_tx_desc) : Prop :=
  exists a e, n_e1000 s = Some (a, e) /\ card_up a e (n_dev s) /\ length (tx_descs e) = 8%nat /\
    tx_cur e = (i + 1) mod 8 /\ mac_wf mac /\ e_mac e = mac /\ window_ok (e_mem_base e) (n_dev s) /\
    v_tail (cd_view (n_dev s)) = (i + 1) mod 8 /\ tx_descs e !! Z.to_nat i = Some x.

(** The bytes [frame] are on their way, after the frames [w] ... *)
Definition flying (i : Z) (mac : list Z) (w : list (list Z)) (frame : list Z) (s : nic_state D) : Prop :=
  exists x, frame_in_ring i mac s x /\ v_head (cd_view (n_dev s)) = i /\ v_wire (cd_view (n_dev s)) = w /\
    whole_frame x /\ tx_status x = 0 /\
    read_bytes (ram (n_heap s)) (tx_addr x) (Z.to_nat (tx_length x)) = frame /\
    forall b, tx_addr x <= b < tx_addr x + tx_length x -> ~ driver_dma s b.

(** ... or on the wire, and the descriptor says so. *)
Definition landed (i : Z) (mac : list Z) (w : list (list Z)) (frame : list Z) (s : nic_state D) : Prop :=
  exists x, frame_in_ring i mac s x /\ v_head (cd_view (n_dev s)) = (i + 1) mod 8 /\
    v_wire (cd_view (n_dev s)) = w ++ [frame] /\ tx_status x <> 0.

Definition frame_sending (i : Z) (mac : list Z) (w : list (list Z)) (frame : list Z) (s : nic_state D) : Prop :=
  flying i mac w frame s \/ landed i mac w frame s.

Lemma flying_not_landed i mac w frame s : flying i mac w frame s -> landed i mac w frame s -> False.
Proof.
  intros (x & (a & e & He & _ & _ & _ & _ & _ & _ & _ & Hx) & _ & _ & _ & Hz & _).
  intros (y & (a' & e' & He' & _ & _ & _ & _ & _ & _ & _ & Hy) & _ & _ & Hnz). congruence.
Qed.

(** The frame is out: the driver can send the next one. *)
Lemma landed_ready i mac w frame s :
  0 <= i < 8 -> landed i mac w frame s ->
  driver_ready s /\ driver_sent s = w ++ [frame] /\ driver_mac s = mac.
Proof.
  intros Hi (x & (a & e & He & Hp & Hl & Hc & Hm & Hmac & Hw & Ht & _) & Hh & Hwire & _).
  unfold driver_sent, driver_mac. rewrite He. split; [|done].
  exists a, e. rewrite Hmac, Hc. split_and!; try done; word_lia.
Qed.

(** A frame being sent stays so, or arrives. *)
Definition flight_kept (s0 s : nic_state D) : Prop :=
  forall i mac w frame, 0 <= i < 8 -> frame_sending i mac w frame s0 -> frame_sending i mac w frame s.

(** What the handler may have done. *)
Definition serving (s0 s : nic_state D) : Prop := handling s0 s /\ idle_kept s0 s /\ flight_kept s0 s.

Lemma serving_refl s : nic_inv s -> serving s s.
Proof. intros Hs. split; [by apply handling_refl|]. split; [by intros ?|by intros ????]. Qed.

Lemma serving_trans s0 s1 s2 : serving s0 s1 -> serving s1 s2 -> serving s0 s2.
Proof.
  intros (H1 & K1 & F1) (H2 & K2 & F2). split; [by eapply handling_trans|]. split.
  - intros Hr. destruct (K1 Hr) as (R1 & S1 & M1). destruct (K2 R1) as (R2 & S2 & M2). split; [done|]. split; congruence.
  - intros i mac w frame Hi Hs. by apply F2, F1.
Qed.

(** The card's view of the transmit ring stays, and the card set up. *)
Definition same_ring (a : Z) (v v' : tx_view) : Prop :=
  v_base v' = v_base v /\ v_head v' = v_head v /\ v_tail v' = v_tail v /\ v_wire v' = v_wire v /\
  (programmed a (v_setup v) -> programmed a (v_setup v')).

Lemma same_ring_eq a v v' : v' = v -> same_ring a v v'.
Proof. by intros ->. Qed.

(** The transmit ring, its cursor and the card's view of it stay. *)
Lemma idle_kept_view s s' a e e' :
  n_e1000 s = Some (a, e) -> n_e1000 s' = Some (a, e') -> e_pci_device e' = e_pci_device e ->
  length (tx_descs e') = length (tx_descs e) -> tx_cur e' = tx_cur e -> e_mac e' = e_mac e ->
  e_mem_base e' = e_mem_base e -> same_ring a (cd_view (n_dev s)) (cd_view (n_dev s')) -> idle_kept s s'.
Proof.
  intros He He' Hp Hl Hc Hm Hb (Hvb & Hvh & Hvt & Hvw & Hvs) (a0 & e0 & He0 & [Hpci Hset] & Hr).
  rewrite He in He0. injection He0 as <- <-.
  unfold driver_sent, driver_mac. rewrite He, He', Hvw. split; [|done].
  exists a, e'. unfold window_ok, card_up in *. rewrite Hp, Hl, Hc, Hm, Hb, Hvb, Hvh, Hvt.
  split; [done|]. split; [auto|exact Hr].
Qed.

(** RAM changes in the receive buffers only. *)
Definition dma_kept (s s' : nic_state D) : Prop :=
  (forall b, driver_dma s' b <-> driver_dma s b) /\
  forall b, ~ driver_dma s b -> get8 (ram (n_heap s')) b = get8 (ram (n_heap s)) b.

Lemma frame_in_ring_view s s' a e e' :
  n_e1000 s = Some (a, e) -> n_e1000 s' = Some (a, e') -> e_pci_device e' = e_pci_device e ->
  length (tx_descs e') = length (tx_descs e) -> tx_cur e' = tx_cur e -> e_mac e' = e_mac e ->
  e_mem_base e' = e_mem_base e ->
  v_base (cd_view (n_dev s')) = v_base (cd_view (n_dev s)) -> v_tail (cd_view (n_dev s')) = v_tail (cd_view (n_dev s)) ->
  programmed a (v_setup (cd_view (n_dev s'))) ->
  forall i mac x y, frame_in_ring i mac s x -> tx_descs e' !! Z.to_nat i = Some y -> frame_in_ring i mac s' y.
Proof.
  intros He He' Hp Hl Hc Hm Hb Hvb Hvt Hset i mac x y (a0 & e0 & He0 & Hrest) Hy. rewrite He in He0. injection He0 as <- <-.
  destruct Hrest as ([? _] & ? & ? & ? & ? & (? & ? & ? & ?) & ? & _).
  exists a, e'. unfold window_ok, card_up in *. rewrite Hp, Hl, Hc, Hm, Hb, Hvb, Hvt. by split_and!.
Qed.

Lemma flying_bytes s s' x l :
  dma_kept s s' -> (forall b, tx_addr x <= b < tx_addr x + tx_length x -> ~ driver_dma s b) ->
  read_bytes (ram (n_heap s)) (tx_addr x) (Z.to_nat (tx_length x)) = l ->
  read_bytes (ram (n_heap s')) (tx_addr x) (Z.to_nat (tx_length x)) = l /\
  forall b, tx_addr x <= b < tx_addr x + tx_length x -> ~ driver_dma s' b.
Proof.
  intros [Hd Hm] Hx <-. split; [|intros b Hb; rewrite Hd; by apply Hx].
  apply read_bytes_ext. intros b Hb. apply Hm, Hx. lia.
Qed.

Lemma flight_kept_view s s' a e e' :
  n_e1000 s = Some (a, e) -> n_e1000 s' = Some (a, e') -> e_pci_device e' = e_pci_device e ->
  tx_descs e' = tx_descs e -> tx_cur e' = tx_cur e -> e_mac e' = e_mac e ->
  e_mem_base e' = e_mem_base e -> same_ring a (cd_view (n_dev s)) (cd_view (n_dev s')) -> dma_kept s s' ->
  flight_kept s s'.
Proof.
  intros He He' Hp Hl Hc Hm Hb (Hvb & Hvh & Hvt & Hvw & Hvs) Hdma i mac w frame Hi.
  assert (forall x, frame_in_ring i mac s x -> frame_in_ring i mac s' x) as Hg.
  { intros x Hx. pose proof Hx as (a0 & e0 & He0 & [_ Hset] & _ & _ & _ & _ & _ & _ & Hxi).
    rewrite He in He0. injection He0 as <- <-.
    apply (frame_in_ring_view s s' a e e') with (x := x); rewrite ?Hl; auto. }
  intros [(x & Hx & Hh & Hw & Hwf & Hs & Hr & Hd)|(x & Hx & Hh & Hw & Hs)].
  - left. exists x. rewrite Hvh, Hvw. destruct (flying_bytes s s' x frame Hdma Hd Hr) as [Hr' Hd'].
    split; [by apply Hg|]. by split_and!.
  - right. exists x. rewrite Hvh, Hvw. split; [by apply Hg|]. by split_and!.
Qed.

(** Both at once. *)
Lemma tx_kept_view s s' a e e' :
  n_e1000 s = Some (a, e) -> n_e1000 s' = Some (a, e') -> e_pci_device e' = e_pci_device e ->
  tx_descs e' = tx_descs e -> tx_cur e' = tx_cur e -> e_mac e' = e_mac e ->
  e_mem_base e' = e_mem_base e -> same_ring a (cd_view (n_dev s)) (cd_view (n_dev s')) -> dma_kept s s' ->
  idle_kept s s' /\ flight_kept s s'.
Proof.
  intros. split; [by apply (idle_kept_view s s' a e e'); try done; congruence|by apply (flight_kept_view s s' a e e')].
Qed.

(** The devices change behind the card's back. *)
Lemma device_serving d s :
  nic_inv s -> cd_view d = cd_view (n_dev s) -> (cd_pending d <= cd_pending (n_dev s))%nat ->
  serving s (set_n_dev d s).
Proof.
  intros (Hq & a & e & He & Hpci & Hrx & Hw & Hr) Hv Hp. split; [|by apply (tx_kept_view _ _ a e e); auto using same_ring_eq].
  apply handling_quiet; try done.
  - split; [done|]. exists a, e. cbn [n_e1000 n_dev set_n_dev]. unfold window_ok, card_up. by rewrite Hv.
  - unfold nic_load. cbn [n_e1000 n_dev set_n_dev]. lia.
Qed.

(** ** The operations of the handler *)

(** An action of the card on a frame that is being sent. *)
Lemma acts_flying s i mac w frame :
  0 <= i < 8 -> flying i mac w frame s ->
  landed i mac w frame (acts s) \/
  flying i mac w frame (acts s) /\ (cd_busy (n_dev (acts s)) < cd_busy (n_dev s))%nat.
Proof.
  intros Hi (x & Hx & Hh & Hw & Hwf & Hs & Hr & Hd).
  pose proof Hx as (a & e & He & [_ Hset] & Hlen & _ & _ & _ & _ & Ht & Hxi).
  destruct (acts_frame s a e He) as ((_ & (m & Hheap & Hm) & Hdd) & rx & tx & He' & _ & _ & _ & Htr);
    [done|right; exists x; by rewrite Hh|].
  assert (forall y, v_base (cd_view (n_dev (acts s))) = v_base (cd_view (n_dev s)) ->
    v_tail (cd_view (n_dev (acts s))) = v_tail (cd_view (n_dev s)) ->
    v_setup (cd_view (n_dev (acts s))) = v_setup (cd_view (n_dev s)) -> length tx = length (tx_descs e) ->
    tx !! Z.to_nat i = Some y -> frame_in_ring i mac (acts s) y) as Hg.
  { intros y Hvb Hvt Hvs Hl Hy. by eapply (frame_in_ring_view s _ a e (with_rings rx tx e)); rewrite ?Hvs. }
  assert (dma_kept s (acts s)) as Hdma by (split; [done|]; intros b Hb; rewrite Hheap; by apply Hm).
  remember (cd_view (n_dev (acts s))) as v' eqn:Ev. remember (cd_busy (n_dev (acts s))) as b' eqn:Eb.
  destruct Htr as [busy' Heq|busy' _ Hlt|busy' y _ Hy].
  - rewrite Hh, Ht in Heq. word_lia.
  - right. split; [|done]. exists x. rewrite <- Ev. destruct (flying_bytes s (acts s) x frame Hdma Hd Hr) as [Hr' Hd'].
    split; [by apply Hg|]. by split_and!.
  - left. rewrite Hh in Hy, Ev, Hg. rewrite Hxi in Hy. injection Hy as <-. exists (report_done x). rewrite <- Ev.
    split; [apply Hg; [done..|apply length_insert|apply list_lookup_insert_eq; by eapply lookup_lt_Some]|].
    cbn. rewrite Hw, Hr, Hs. by split_and!.
Qed.

Lemma acts_landed s i mac w frame : landed i mac w frame s -> landed i mac w frame (acts s).
Proof.
  intros (x & Hx & Hh & Hw & Hs). pose proof Hx as (a & e & He & [_ Hset] & _ & _ & _ & _ & _ & Ht & Hxi).
  destruct (acts_frame s a e He) as (_ & rx & tx & He' & _ & _ & _ & Htr); [done|left; congruence|].
  assert (cd_view (n_dev (acts s)) = cd_view (n_dev s) /\ tx = tx_descs e) as [Hv ->]
    by (inversion Htr as [? E Ev|? Hne _ Ev|? ? Hne _ Ev]; [done|congruence..]).
  exists x. rewrite Hv. split; [|by split_and!].
  by eapply (frame_in_ring_view s _ a e (with_rings rx (tx_descs e) e)); rewrite ?Hv.
Qed.

Lemma acts_serving s : nic_inv s -> serving s (acts s).
Proof.
  intros (Hq & a & e & He & [Hpci Hset] & (Hlen & Hcur & Hl) & Hw & Hr).
  destruct (acts_frame s a e He Hset (ring_wf_valid _ _ Hr)) as ((Hqq & Hh & Hd) & rx & tx & He' & Hl' & Hlen' & Hload & Ht).
  destruct (transmits_wf _ _ _ _ _ _ _ Ht Hr) as (Hr' & Hbase & Hsetup).
  split; [split; [|split; [|split; [by exists []|by split]]]|split].
  - split; [by rewrite Hqq|]. eexists a, _. split; [exact He'|]. split; [unfold card_up; by rewrite Hsetup|]. split.
    + split; [cbn; by rewrite Hlen', Hlen|]. split; [done|by apply Hl'].
    + split; [|exact Hr']. destruct Hw as (? & ? & ? & Hb). split_and!; [done..|]. by rewrite Hbase.
  - unfold nic_load. rewrite He', He. exact Hload.
  - intros Hready. pose proof Hready as (a0 & e0 & He0 & _ & _ & _ & _ & _ & Hvh & Hvt).
    rewrite He in He0. injection He0 as <- <-. revert Hready.
    assert (cd_view (n_dev (acts s)) = cd_view (n_dev s) /\ length tx = length (tx_descs e)) as [Hv Hlt]
      by (inversion Ht as [? E Ev|? _ _ Ev|? ? Hne _ Ev]; [done..|congruence]).
    by apply (idle_kept_view _ _ a e (with_rings rx tx e)); auto using same_ring_eq.
  - intros i mac w frame Hi [Hf|Hf]; [|right; by apply acts_landed].
    destruct (acts_flying s i mac w frame Hi Hf) as [|[? _]]; [by right|by left].
Qed.

Lemma write_command_serving reg v s :
  nic_inv s -> 0 <= reg < 0x10000 -> reg mod 4 = 0 -> is_u32 v -> (reg = 0 -> Z.testbit v 26 = false) ->
  reg ∉ ring_registers ->
  exists s', write_command reg v s = Done (tt, s') /\ serving s s' /\ n_e1000 s' = n_e1000 s.
Proof.
  intros Hi Hreg Hm Hv Hrst Hother. pose proof Hi as (Hq & a & e & He & Hpci & Hrx & Hw & Hr).
  rewrite (write_command_eq _ _ _ _ _ He). eexists. split; [done|]. split; [|done].
  rewrite (u16_id reg) by (unfold is_u16; lia).
  destruct (register_write (e_mem_base e) reg v (n_dev s)) as [Hview Hp]; [done|lia|done..|].
  apply device_serving; [done| |done]. by rewrite Hview, register_written_other.
Qed.

Lemma read_command_serving reg s :
  nic_inv s -> 0 <= reg < 0x10000 ->
  exists v s', read_command reg s = Done (v, s') /\ serving s s' /\ n_e1000 s' = n_e1000 s /\ is_u32 v /\
    (reg = 0 -> Z.testbit v 26 = false).
Proof.
  intros Hi Hreg. pose proof Hi as (Hq & a & e & He & Hpci & Hrx & Hw & Hr).
  unfold read_command, e1000, on_bus, lift. st_step. rewrite He. unfold pci_read32, read32.
  destruct Hw as (Hm & Hlo & Hhi & Hb).
  rewrite (u32_id reg), !(u32_id (e_mem_base e + reg)) by (unfold is_u32; lia).
  pose proof (cd_read 4 (e_mem_base e + reg) (n_dev s)) as (Hview & Hp & Hrst).
  destruct (bus_read 4 (e_mem_base e + reg) (n_dev s)) as [v d]. cbn in Hview, Hp, Hrst.
  eexists _, _. split; [done|]. split; [by apply device_serving|]. split; [done|]. split; [apply u32_range|].
  intros ->. rewrite Hb in Hrst. unfold u32. change 4294967296 with (2 ^ 32).
  rewrite Z.mod_pow2_bits_low by lia. apply Hrst. lia.
Qed.

(** ** Devices other than the card *)

Lemma bus_read_serving n a s : nic_inv s -> serving s (set_n_dev (bus_read n a (n_dev s)).2 s).
Proof. intros Hs. pose proof (cd_read n a (n_dev s)) as (Hview & Hp & _). by apply device_serving. Qed.

Lemma bus_write_serving n a v s :
  nic_inv s -> a < 0x41000000 -> serving s (set_n_dev (bus_write n a v (n_dev s)) s).
Proof.
  intros Hs Ha. pose proof Hs as (_ & p & e & _ & _ & _ & (_ & Hlo & Hhi & Hb) & _).
  destruct (cd_write n a v (n_dev s)) as [Hview Hp]; [unfold not_config; lia|intros E; lia|].
  apply device_serving; [done| |done]. rewrite Hview. apply written_below. lia.
Qed.

Lemma emit_serving text s : nic_inv s -> serving s (set_n_dev (emit text (n_dev s)) s).
Proof.
  intros Hs. pose proof Hs as (_ & p & e & _ & _ & _ & (_ & Hlo & _ & Hb) & _).
  destruct (emit_view text (n_dev s)) as [Hv Hp]; [lia|]. by apply device_serving.
Qed.

(** A log line goes to the UART. *)
Lemma after_insert_serving now s :
  nic_inv s -> serving s (set_n_dev (after_insert now (n_queue s) (n_dev s)) s).
Proof.
  intros Hs. unfold after_insert. destruct (queue_full _).
  - rewrite log_line_eq by literal. by apply emit_serving.
  - destruct s. by apply serving_refl.
Qed.

Lemma bit0_land v : Z.land v 1 = if Z.testbit v 0 then 1 else 0.
Proof.
  change (Z.land v 1) with (Z.land v (Z.ones 1)). rewrite Z.land_ones by lia. change (2 ^ 1) with 2.
  rewrite Zmod_odd, Z.bit0_odd. done.
Qed.

(** Clearing a filled descriptor empties it. *)
Lemma clear_filled i l x :
  l !! i = Some x -> Z.testbit (rx_status x) 0 = true ->
  S (rx_filled (alter clear_status i l)) = rx_filled l.
Proof.
  unfold rx_filled. revert i. induction l as [|y l IH]; intros [|i] Hx Hf; try done.
  - injection Hx as ->. change (alter clear_status 0%nat (x :: l)) with (clear_status x :: l).
    by rewrite !filter_cons, decide_False, decide_True by done.
  - change (alter clear_status (S i) (y :: l)) with (y :: alter clear_status i l).
    rewrite !filter_cons. case_decide; cbn [length]; rewrite <- (IH i Hx Hf); done.
Qed.

(** ... and leaves its buffer where it is. *)
Lemma rx_buffer_clear i l b : rx_buffer (alter clear_status i l) b <-> rx_buffer l b.
Proof.
  apply rx_buffer_same. apply list_eq. intros j. rewrite !list_lookup_fmap. destruct (decide (i = j)) as [<-|Hne].
  - rewrite list_lookup_alter_eq. by destruct (l !! i).
  - by rewrite list_lookup_alter_ne.
Qed.

(** One packet is taken from a filled descriptor. *)
Lemma rx_consume_serving now s a e x :
  nic_inv s -> n_e1000 s = Some (a, e) -> rx_descs e !! Z.to_nat (rx_cur e) = Some x ->
  Z.testbit (rx_status x) 0 = true ->
  serving s (rx_consume now s a e) /\ (nic_load (rx_consume now s a e) < nic_load s)%nat.
Proof.
  intros Hi0 He Hx Hf. destruct (after_insert_serving now s Hi0) as [(Hi & Hl1 & _) [Hidle Hflight]].
  set (d1 := after_insert now (n_queue s) (n_dev s)) in *.
  pose proof Hi as (Hq & a' & e' & He' & Hpci & Hrx & Hw & Hr). cbn [n_e1000 n_dev n_queue set_n_dev] in *.
  rewrite He in He'. injection He' as <- <-. pose proof Hrx as (Hlen & Hcur & Hl).
  destruct (register_write (e_mem_base e) 0x2818 (rx_cur e) d1) as [Hview Hp];
    [done|lia|done|unfold is_u32; lia|lia|].
  assert (packet_fits (rx_packet (ram (n_heap s)) (rx_descs e) (rx_cur e))) as Hfit.
  { apply rx_packet_fits; [done|done|]. unfold rx_done. by rewrite (list_lookup_total_correct _ _ _ Hx), bit0_land, Hf. }
  assert (nic_load (rx_consume now s a e) < nic_load s)%nat as Hload.
  { revert Hl1. unfold nic_load, rx_consume. fold d1. cbn [n_e1000 n_dev set_n_dev]. rewrite He. cbn [n_e1000 n_dev rx_descs with_cursors with_rx_descs].
    pose proof (clear_filled (Z.to_nat (rx_cur e)) (rx_descs e) x Hx Hf). lia. }
  split; [|done]. split; [split; [|split; [lia|split; [|split]]]|].
  - unfold rx_consume. fold d1. split; [by apply push_packet_ok|]. eexists a, _. cbn [n_dev n_e1000 set_n_dev]. split; [done|].
    unfold card_up, window_ok. rewrite Hview. destruct Hpci as [Hpci Hset]. split; [split; [done|]|].
    { apply setup_rx_tail; [unfold E1000_NUM_RX_DESC; lia|done]. }
    split; [by apply rx_consume_ok|]. split; [exact Hw|exact Hr].
  - exists [rx_packet (ram (n_heap s)) (rx_descs e) (rx_cur e)]. split; [|done].
    repeat constructor; [done|apply read_bytes_u8].
  - exists (ram (n_heap s)). cbn. by rewrite set_ram_same.
  - intros b. unfold driver_dma, rx_consume. rewrite He. cbn. apply rx_buffer_clear.
  - assert (forall b, driver_dma (rx_consume now s a e) b <-> driver_dma (set_n_dev d1 s) b) as Hdma.
    { intros b. unfold driver_dma, rx_consume. cbn [n_e1000 set_n_dev]. rewrite He. cbn. by apply rx_buffer_clear. }
    destruct (tx_kept_view (set_n_dev d1 s) (rx_consume now s a e) a e _ He eq_refl) as [Hidle2 Hflight2]; try done.
    { unfold rx_consume. fold d1. cbn [n_dev set_n_dev]. rewrite Hview. split_and!; try done.
      apply setup_rx_tail. unfold E1000_NUM_RX_DESC. lia. }
    split.
    + intros Hready. destruct (Hidle Hready) as (Hready1 & <- & <-). by apply Hidle2.
    + intros i mac w frame Hii Hs. by apply Hflight2, Hflight.
Qed.

(** ** The receive loop and the handler *)

Lemma receive_loop_serving now fuel s :
  nic_inv s -> (nic_load s < fuel)%nat -> exists s', receive_loop now fuel s = Done (tt, s') /\ serving s s'.
Proof.
  revert s. induction fuel as [|fuel IH]; intros s Hi Hload; [lia|].
  pose proof (acts_serving s Hi) as Hact. pose proof Hact as ((Hi1 & Hl1 & _) & _).
  pose proof Hi1 as (Hq & a & e & He & Hpci & Hrx & Hw & Hr).
  pose proof Hrx as (Hlen & Hcur & _).
  destruct (lookup_lt_is_Some_2 (rx_descs e) (Z.to_nat (rx_cur e))) as [d Hd]; [lia|].
  cbn [receive_loop]. rewrite (bind_done _ _ s tt (acts s)) by done.
  rewrite (bind_done _ _ _ e (acts s)) by (unfold e1000; by rewrite He).
  rewrite (bind_done _ _ _ d (acts s)) by (unfold rx_desc, e1000; st_step; by rewrite He, Hd).
  destruct (Z.eqb_spec (Z.land (rx_status d) 1) 0) as [Hz|Hnz]; [by exists (acts s)|].
  assert (Z.testbit (rx_status d) 0 = true) as Hf by (rewrite bit0_land in Hnz; by destruct (Z.testbit _ _)).
  destruct (rx_consume_serving now (acts s) a e d Hi1 He Hd Hf) as [Hc Hlt].
  destruct (IH (rx_consume now (acts s) a e)) as (s' & Hrun & Hh); [apply Hc|lia|].
  exists s'. split; [|by eapply serving_trans, serving_trans].
  rewrite <- Hrun. unfold update_rx, update, write_command, e1000, bus_do, on_bus. st_step.
  assert (rx_packet (ram (n_heap (acts s))) (rx_descs e) (rx_cur e) =
    read_bytes (ram (n_heap (acts s))) (u32 (rx_addr d)) (Z.to_nat (rx_length d))) as Hpk
    by (unfold rx_packet; by rewrite (list_lookup_total_correct _ _ _ Hd)).
  rewrite queue_insert_done, <- Hpk
    by (rewrite <- ?Hpk; done || by apply rx_packet_fits; [..|unfold rx_done; rewrite (list_lookup_total_correct _ _ _ Hd)]). cbn. rewrite He. cbn.
  unfold rx_consume, ring_next, E1000_NUM_RX_DESC. rewrite Z_rem_mod_nonneg by lia. done.
Qed.

(** The whole handler. *)
Lemma e1000_irq_handler_serving now fuel s :
  nic_inv s -> (nic_load s < fuel)%nat -> exists s', e1000_irq_handler now fuel s = Done (tt, s') /\ serving s s'.
Proof.
  intros Hi Hload. unfold e1000_irq_handler.
  destruct (write_command_serving REG_IMASK 1 s Hi) as (s1 & H1 & Hh1 & _); [done..|by apply (bool_decide_unpack _)|].
  rewrite (bind_done _ _ _ _ _ H1).
  destruct (read_command_serving REG_INT_CAUSE s1) as (cause & s2 & H2 & Hh2 & _); [apply Hh1|done|].
  rewrite (bind_done _ _ _ _ _ H2). pose proof (serving_trans _ _ _ Hh1 Hh2) as Hh.
  assert (exists s3, (if negb (Z.land cause LSC =? 0) then start_link else mret ()) s2 = Done (tt, s3) /\ serving s s3)
    as (s3 & H3 & Hh3).
  { destruct (negb _); [|by exists s2]. unfold start_link.
    destruct (read_command_serving REG_CTRL s2) as (flags & s4 & H4 & Hh4 & _ & Hu & Hrst); [apply Hh2|done|].
    rewrite (bind_done _ _ _ _ _ H4).
    destruct (write_command_serving REG_CTRL (Z.lor flags ECTRL_SLU) s4) as (s5 & H5 & Hh5 & _);
      [apply Hh4|done|done| | |by apply (bool_decide_unpack _)|].
    { by apply lor_u32. }
    { intros _. rewrite Z.lor_spec, Hrst by done. by vm_compute. }
    exists s5. split; [exact H5|]. eapply serving_trans, serving_trans; done. }
  rewrite (bind_done _ _ _ _ _ H3).
  destruct (negb (Z.land cause RXT0 =? 0)); [|by exists s3].
  pose proof Hh3 as (((_ & a & e & He & [[p Hp] _] & _) & Hl3 & _) & _).
  destruct (receive_loop_serving now fuel s3) as (s4 & H4 & Hh4); [apply Hh3|lia|].
  exists s4. split; [|by eapply serving_trans].
  unfold receive_packet, e1000_is_available, e1000. st_step. rewrite He. cbn. rewrite Hp. cbn. exact H4.
Qed.

(** C9: Whatever the card does while its interrupt is handled, the handler
    returns: there is no access outside a ring, no packet overruns its slot, and
    the receive loop ends because the traffic is finite; it only appends packets
    to the queue, changes nothing in RAM but the card's own buffers, and leaves
    the driver ready for the next interrupt. *)
Theorem card_interrupt_safe now fuel (s : nic_state D) :
  nic_inv s -> (nic_load s < fuel)%nat ->
  exists s' l, e1000_irq_handler now fuel s = Done (tt, s') /\ nic_inv s' /\ (nic_load s' <= nic_load s)%nat /\
    Forall packet_fits l /\ n_queue s' = push_packets l (n_queue s) /\
    current_heap_address (n_heap s') = current_heap_address (n_heap s) /\
    free_head (n_heap s') = free_head (n_heap s) /\
    forall a, ~ driver_dma s a -> get8 (ram (n_heap s')) a = get8 (ram (n_heap s)) a.
Proof.
  intros Hi Hload. destruct (e1000_irq_handler_serving now fuel s Hi Hload)
    as (s' & Hs & (Hi' & Hl & (l & Hf & Hq) & (m & Hh & Hm) & _) & _).
  exists s', l. rewrite Hh. split_and!; try done. by eapply Forall_impl; [exact Hf|intros ? [? _]].
Qed.

End Reception.

(** ** Witness *)

(** The receive interrupt is pending and two frames arrive while it is served. *)
Definition busy_nic : nic_state sim :=
  mk_nic (example_sim [[1; 2; 3]; [4; 5]] (fun _ => RXT0)) buffer_heap (Some (0x4000000, sim_driver)) pqueue_boot.

Lemma card_interrupt_safe_witness :
  exists s' l, e1000_irq_handler 0 3 busy_nic = Done (tt, s') /\
    n_queue s' = push_packets l pqueue_boot.
Proof.
  destruct (card_interrupt_safe (D := sim) 0 3 busy_nic)
    as (s' & l & Hs & _ & _ & _ & Hq & _).
  - split; [apply pqueue_boot_ok|]. exists 0x4000000, sim_driver. split; [done|].
    split; [split; [by eexists|apply sim_setup_programmed]|]. split_and!.
    + split; [done|]. split; [cbn; lia|]. by apply Forall_replicate.
    + split; [done|]. split; [cbn; lia|]. split; [cbn; lia|done].
    + split; [cbn; lia|]. split; [cbn; lia|]. by left.
  - vm_compute. lia.
  - exists s', l. split; [exact Hs|exact Hq].
Defined.

(** The two frames are in the queue afterwards. *)
Example busy_nic_delivers :
  match e1000_irq_handler 0 3 busy_nic with
  | Done (_, s') => packets (n_queue s')
  | _ => []
  end = [[1; 2; 3]; [4; 5]].
Proof. vm_compute. reflexivity. Qed.
