(* ===== verification/CardInit.v ===== *)
(** * Bringing the network card up

    [start_e1000] establishes what the other files assume of a running driver:
    for any card that keeps the contract, whatever it answers while it is probed
    and whatever [malloc] left in the driver's structure, the registers that set
    the rings up hold what the contract asks for ([programmed]), and the driver is
    ready to send ([driver_ready]) and to serve interrupts ([nic_inv]) when it
    returns. *)

From S2P Require Import Prelude StateMonad Memory Heap Bus RingBuffer PacketQueue NetworkIo.
From S2P Require Import Clock PciMmio Pci E1000 Ethernet Driver Reception.

Section CardInit.
Context {D : Type} `{E1000Card D} {cpu : Cpu} {board : Board}.

(** ** Register programming *)

(** The register writes of the set-up code: no reset. *)
Definition setup_write (rv : Z * Z) : Prop :=
  0 <= rv.1 < 0x10000 /\ rv.1 mod 4 = 0 /\ is_u32 rv.2 /\ (rv.1 = 0 -> Z.testbit rv.2 26 = false).

Definition written_all (w : tx_view) (l : list (Z * Z)) : tx_view :=
  foldl (fun w rv => register_written w rv.1 rv.2) w l.

Lemma program_registers_view base l (d : D) :
  window_ok base d -> Forall setup_write l ->
  cd_view (program_registers base l d) = written_all (cd_view d) l /\
  window_ok base (program_registers base l d) /\
  (cd_pending (program_registers base l d) <= cd_pending d)%nat.
Proof.
  intros Hw Hl. revert d Hw. induction Hl as [|[r v] l (Hr & Hm & Hv & Hrst) _ IH]; intros d Hw; [done|].
  destruct (register_write base r v d) as [Hview Hp]; [done|cbn in *; lia|done..|].
  cbn [fst snd] in Hview, Hp. unfold program_registers. cbn [foldl fst snd].
  fold (program_registers base l (pci_write32 (u32 (base + r)) v d)).
  assert (window_ok base (pci_write32 (u32 (base + r)) v d)) as Hw'
    by (destruct Hw as (? & ? & ? & ?); split_and!; [done..|by rewrite Hview]).
  destruct (IH _ Hw') as (IHv & IHw & IHp). split_and!; [|done|lia].
  by rewrite IHv, Hview.
Qed.

(** ** Probing: the card's answers decide on the EEPROM flag and the MAC address
    only *)

Definition probing (a : Z) (e0 : e1000_device) (s0 s : nic_state D) : Prop :=
  (exists b m, n_e1000 s = Some (a, with_eeprom b (with_mac m e0)) /\ mac_wf m) /\
  n_heap s = n_heap s0 /\ n_queue s = n_queue s0 /\ window_ok (e_mem_base e0) (n_dev s) /\
  v_wire (cd_view (n_dev s)) = v_wire (cd_view (n_dev s0)) /\
  (cd_pending (n_dev s) <= cd_pending (n_dev s0))%nat.

Section Probing.
Context (a : Z) (e0 : e1000_device) (s0 : nic_state D).
Abbreviation P := (probing a e0 s0).

Lemma write_probing reg v : setup_write (reg, v) -> returns P (write_command reg v).
Proof.
  intros Hrv s ((b & m & He & Hm) & Hh & Hq & Hw & Hwire & Hp). rewrite (write_command_eq _ _ _ _ _ He).
  eexists tt, _. split; [done|].
  destruct (program_registers_view (e_mem_base e0) [(reg, v)] (n_dev s)) as (Hview & Hw' & Hp');
    [done|by constructor|]. cbn in Hview, Hw', Hp'.
  destruct Hrv as (Hr & _). cbn in Hr. rewrite (u16_id reg) by (unfold is_u16; lia).
  split; [by exists b, m|]. cbn [n_heap n_queue n_dev set_n_dev e_mem_base with_eeprom with_mac].
  split_and!; try done; [|lia]. by rewrite Hview.
Qed.

Lemma read_probing {A} (f : D -> A * D) (Q : A -> Prop) s :
  (forall d, cd_view (f d).2 = cd_view d /\ (cd_pending (f d).2 <= cd_pending d)%nat) ->
  (forall d, window_ok (e_mem_base e0) d -> Q (f d).1) ->
  P s -> exists v s', on_bus f s = Done (v, s') /\ P s' /\ Q v.
Proof.
  intros Hf HQ (He & Hh & Hq & Hw & Hwire & Hp). unfold on_bus, lift.
  pose proof (Hf (n_dev s)) as [Hview Hpend]. pose proof (HQ (n_dev s) Hw) as Hv.
  destruct (f (n_dev s)) as [v d]. cbn in Hview, Hpend, Hv. exists v, (set_n_dev d s). split; [done|].
  split; [|done]. split; [done|]. cbn [n_heap n_queue n_dev set_n_dev]. unfold window_ok in *. rewrite Hview.
  split_and!; try apply Hw; try done. lia.
Qed.

Lemma read_view n b (d : D) : 
  cd_view (bus_read n b d).2 = cd_view d /\ (cd_pending (bus_read n b d).2 <= cd_pending d)%nat.
Proof. pose proof (cd_read n b d) as (? & ? & _). done. Qed.

Lemma read_command_probing reg s :
  P s -> 0 <= reg < 0x10000 ->
  exists v s', read_command reg s = Done (v, s') /\ P s' /\ (is_u32 v /\ (reg = 0 -> Z.testbit v 26 = false)).
Proof.
  intros Hs Hreg. pose proof Hs as ((b & m & He & _) & _). unfold read_command.
  rewrite (bind_done _ _ _ _ s (eq_refl : e1000 s = _)) || unfold e1000 at 1. st_unfold. rewrite He.
  apply (read_probing (pci_read32 (u32 (e_mem_base e0 + u32 reg)))
    (fun v => is_u32 v /\ (reg = 0 -> Z.testbit v 26 = false))); [| |done].
  - intros d. unfold pci_read32, read32. pose proof (read_view 4 (u32 (u32 (e_mem_base e0 + u32 reg))) d) as Hv.
    by destruct (bus_read _ _ _).
  - intros d (Hm & Hlo & Hhi & Hb). unfold pci_read32, read32.
    rewrite (u32_id reg), !(u32_id (e_mem_base e0 + reg)) by (unfold is_u32; lia).
    pose proof (cd_read 4 (e_mem_base e0 + reg) d) as (_ & _ & Hrst).
    destruct (bus_read _ _ _) as [v d']. cbn [fst] in *. split; [apply u32_range|]. intros ->.
    unfold u32. change 4294967296 with (2 ^ 32). rewrite Z.mod_pow2_bits_low by lia. apply Hrst. lia.
Qed.

Lemma read_returns_probing reg : 0 <= reg < 0x10000 -> returns P (read_command reg).
Proof.
  intros Hr s Hs. destruct (read_command_probing reg s Hs Hr) as (v & s' & Hrun & Hs' & _). by exists v, s'.
Qed.

Lemma e1000_probing : returns P e1000.
Proof. intros s Hs. pose proof Hs as ((b & m & He & _) & _). unfold e1000. rewrite He. by eexists _, _. Qed.

Lemma eeprom_probing b : returns P (update (with_eeprom b)).
Proof.
  intros s ((b0 & m & He & Hm) & Hrest). unfold update. rewrite He. eexists _, _. split; [done|].
  split; [|exact Hrest]. by exists b, m.
Qed.

Lemma mac_probing m : mac_wf m -> returns P (update (with_mac m)).
Proof.
  intros Hm s ((b & m0 & He & _) & Hrest). unfold update. rewrite He. eexists _, _. split; [done|].
  split; [|exact Hrest]. by exists b, m.
Qed.

Hint Resolve e1000_probing eeprom_probing : returns.
Hint Extern 1 (returns _ (read_command _)) => apply read_returns_probing; done : returns.

Lemma detect_eeprom_loop_probing n : returns P (detect_eeprom_loop n).
Proof.
  induction n as [|n IH]; cbn [detect_eeprom_loop]; solve_returns.
Qed.

Lemma read_mac_probing : returns P read_e1000_hardware_address.
Proof.
  unfold read_e1000_hardware_address. apply returns_bind; [auto with returns|]. intros e. cbv zeta.
  apply returns_bind.
  - intros s Hs. destruct (read_probing (pci_read64 (u32 (e_mem_base e + MAC_OFFSET))) (fun _ => True) s)
      as (v & s' & Hrun & Hs' & _); [|done|done|by exists v, s'].
    intros d. unfold pci_read64, read64. pose proof (read_view 8 (u32 (u32 (e_mem_base e + MAC_OFFSET))) d).
    by destruct (bus_read _ _ _).
  - intros v. apply returns_if; [|apply returns_ret]. apply mac_probing, ntoh_mac_wf. split.
    + rewrite length_take, length_enc. done.
    + apply Forall_take, enc_u8.
Qed.

Lemma start_link_probing : returns P start_link.
Proof.
  intros s Hs. unfold start_link.
  destruct (read_command_probing REG_CTRL s Hs) as (flags & s1 & H1 & Hs1 & Hu & Hrst); [done|].
  rewrite (bind_done _ _ _ _ _ H1). apply write_probing; [|done].
  split_and!; [done|done|done|by apply lor_u32|]. intros _. cbn [snd]. rewrite Z.lor_spec, Hrst by done. by vm_compute.
Qed.

(** The first four steps of [start_e1000]. *)
Lemma probe_returns :
  returns P (detect_eeprom ;; read_e1000_hardware_address ;; start_link ;; enable_interrupt).
Proof.
  unfold detect_eeprom, enable_interrupt.
  repeat (apply returns_bind; [|intros _]);
    auto using detect_eeprom_loop_probing, read_mac_probing, start_link_probing, write_probing.
  all: apply write_probing; by vm_compute.
Qed.

End Probing.

(** ** The rings *)

(** The flag that was set is set. *)
Lemma lor_land_flag v : Z.land (Z.lor (Z.lor v TCTL_EN) TCTL_PSP) TCTL_EN = TCTL_EN.
Proof.
  apply Z.bits_inj'. intros n Hn. rewrite Z.land_spec, !Z.lor_spec.
  by destruct (Z.testbit TCTL_EN n), (Z.testbit v n), (Z.testbit TCTL_PSP n).
Qed.

Lemma init_transmit_descriptors_spec s a e :
  n_e1000 s = Some (a, e) -> window_ok (e_mem_base e) (n_dev s) ->
  0 <= a -> a + 512 < 4294967296 -> a mod 16 = 0 -> receive_programmed a (v_setup (cd_view (n_dev s))) ->
  exists s' setup, init_transmit_descriptors s = Done (tt, s') /\
    n_e1000 s' = Some (a, with_cursors (rx_cur e) 0 e) /\ n_heap s' = n_heap s /\ n_queue s' = n_queue s /\
    cd_view (n_dev s') = mk_view (e_mem_base e) 0 0 (v_wire (cd_view (n_dev s))) setup /\ programmed a setup /\
    (cd_pending (n_dev s') <= cd_pending (n_dev s))%nat.
Proof.
  intros He Hw Ha0 Ha Ha16 Hrx. set (base := e_mem_base e) in *.
  set (l1 := [(0x3800, u32 (a + 512)); (0x3804, 0); (0x3808, 128); (0x3810, 0); (0x3818, 0)]).
  set (d1 := program_registers base l1 (n_dev s)).
  destruct (program_registers_view base l1 (n_dev s)) as (Hv1 & Hw1 & Hp1); [done|
    repeat (constructor; [split_and!; (done || apply u32_range)|]); constructor|].
  fold d1 in Hv1, Hw1, Hp1.
  destruct (bus_read 4 (base + REG_TCTRL) d1) as [v d2] eqn:Hrd.
  pose proof (cd_read 4 (base + REG_TCTRL) d1) as (Hv2 & Hp2 & _). rewrite Hrd in Hv2, Hp2. cbn [snd] in Hv2, Hp2.
  assert (window_ok base d2) as Hw2 by (unfold window_ok in *; by rewrite Hv2).
  set (l2 := [(0x400, Z.lor (Z.lor (u32 v) TCTL_EN) TCTL_PSP); (0x410, 0x0060200A)]).
  destruct (program_registers_view base l2 d2) as (Hv3 & _ & Hp3); [done|
    repeat (constructor; [split_and!; (done || (do 2 (apply lor_u32; [|done])); apply u32_range)|]); constructor|].
  eexists _, (v_setup (cd_view (program_registers base l2 d2))). split.
  - unfold init_transmit_descriptors. rewrite (bind_done _ _ s a s) by (unfold e1000_address; by rewrite He).
    do 5 (erewrite bind_done by (eapply write_command_eq; done)).
    erewrite bind_done by (unfold update; cbn [n_e1000 set_n_dev]; rewrite He; done).
    erewrite bind_done.
    2:{ unfold read_command, e1000, on_bus, lift. st_unfold. cbn [n_e1000 n_dev set_n_dev set_n_e1000].
        cbn [e_mem_base with_cursors]. fold base. unfold pci_read32, read32.
        destruct Hw as (_ & ? & ? & _).
        rewrite (u32_id REG_TCTRL), !(u32_id (base + REG_TCTRL)) by (unfold is_u32, REG_TCTRL; lia).
        change (bus_read 4 (base + REG_TCTRL) _) with (bus_read 4 (base + REG_TCTRL) d1). rewrite Hrd. reflexivity. }
    do 1 (erewrite bind_done by (eapply write_command_eq; done)).
    eapply write_command_eq; done.
  - cbn [n_e1000 n_heap n_queue n_dev set_n_dev set_n_e1000].
    split_and!; try done.
    + rewrite Hv2, Hv1 in Hv3. etrans; [exact Hv3|]. rewrite Hv3. by destruct Hw as (_ & _ & _ & <-).
    + rewrite Hv3, Hv2, Hv1. split; [done|]. split; [exact Hrx|]. split.
      * apply (lor_land_flag (u32 v)).
      * split; [|done]. cbn. rewrite u32_id by (unfold is_u32; lia). done.
    + etrans; [exact Hp3|]. lia.
Qed.

(** ** The whole set-up *)

Lemma rx_filled_zero rx :
  length rx = 32%nat -> (forall i, (i < 32)%nat -> rx_status (rx !!! i) = 0) ->
  rx_filled rx = 0%nat /\ Forall rx_length_ok rx.
Proof.
  intros Hlen Hs. assert (Forall (fun x => rx_status x = 0) rx) as Hz.
  { apply Forall_lookup. intros i x Hx. pose proof (lookup_lt_Some _ _ _ Hx).
    rewrite <- (Hs i) by lia. by rewrite (list_lookup_total_correct _ _ _ Hx). }
  split.
  - unfold rx_filled. clear - Hz. induction Hz as [|x l Hx _ IH]; [done|].
    by rewrite filter_cons, decide_False by (by rewrite Hx).
  - eapply Forall_impl; [exact Hz|]. intros x E Hx. cbn in E. by rewrite E in Hx.
Qed.

Lemma start_e1000_spec fuel s a e sp :
  n_e1000 s = Some (a, e) -> 0 <= a -> a + 512 < 4294967296 -> a mod 16 = 0 -> is_Some (e_pci_device e) ->
  length (rx_descs e) = 32%nat -> length (tx_descs e) = 8%nat -> mac_wf (e_mac e) ->
  window_ok (e_mem_base e) (n_dev s) -> pqueue_ok (n_queue s) ->
  heap_rep (n_heap s) sp -> (length (s_free sp) < fuel)%nat ->
  s_brk sp + 32 * gross 8208 <= HEAP_START + HEAP_SIZE ->
  exists s' sp', start_e1000 fuel s = Done (tt, s') /\ driver_ready s' /\ nic_inv s' /\
    (nic_load s' <= cd_pending (n_dev s))%nat /\ driver_sent s' = driver_sent s /\
    n_queue s' = n_queue s /\ heap_rep (n_heap s') sp' /\ (length (s_free sp') < fuel)%nat /\
    s_brk sp' <= s_brk sp + 32 * gross 8208 /\ (length (s_free sp') <= length (s_free sp))%nat /\
    forall b, driver_dma s' b -> exists x, x ∈ s_used sp' /\ x.1 + 16 <= b < x.1 + x.2.
Proof.
  intros He Ha0 Ha Ha16 Hpci Hrx Htx Hmac Hw Hq Hrep Hfuel Hroom.
  destruct (probe_returns a e s s) as ([] & s1 & Hrun1 & (b & m & He1 & Hm) & Hh1 & Hq1 & Hw1 & Hwire1 & Hp1).
  { split; [|done]. exists (eeprom_exists e), (e_mac e). by destruct e. }
  destruct (init_receive_descriptors_spec fuel s1 a _ sp He1)
    as (s2 & rx & sp2 & bl & Hrun2 & He2 & Hlen2 & Hq2 & Hrep2 & Hu2 & Hf2 & Hsz & Hd2 & Hdesc & Hbrk2);
    [done|by rewrite Hh1|done|done|].
  destruct (program_registers_view (e_mem_base e)
    [(0x2800, u32 a); (0x2804, 0); (0x2808, 512); (0x2810, 0); (0x2818, 31); (0x100, 0x602801E)] (n_dev s1))
    as (Hv2 & Hw2 & Hp2); [done|repeat (constructor; [split_and!; (done || apply u32_range)|]); constructor|].
  cbn [e_mem_base with_eeprom with_mac] in Hd2. rewrite <- Hd2 in Hv2, Hw2, Hp2.
  destruct (init_transmit_descriptors_spec s2 a _ He2) as (s3 & setup & Hrun3 & He3 & Hh3 & Hq3 & Hv3 & Hset & Hp3);
    [exact Hw2|done..| |].
  { rewrite Hv2. unfold receive_programmed. cbn. rewrite u32_id by (unfold is_u32; lia). by vm_compute. }
  destruct (rx_filled_zero rx Hlen2) as [Hfz Hlz].
  { intros i Hi. by destruct (Hdesc i Hi) as (x & _ & _ & ?). }
  assert (window_ok (e_mem_base e) (n_dev s3)) as Hw3.
  { destruct Hw as (? & ? & ? & _). split_and!; [done..|]. by rewrite Hv3. }
  exists s3, sp2. split.
  { unfold start_e1000. revert Hrun1. unfold mbind, st_bind.
    destruct (detect_eeprom s) as [[[] sa]| |]; [|done..].
    destruct (read_e1000_hardware_address sa) as [[[] sb]| |]; [|done..].
    destruct (start_link sb) as [[[] sc]| |]; [|done..]. intros ->. by rewrite Hrun2. }
  split_and!.
  - eexists a, _. split; [exact He3|]. unfold card_up. cbn. rewrite Hv3. by split_and!.
  - split; [by rewrite Hq3, Hq2, Hq1|]. eexists a, _. split; [exact He3|]. unfold card_up. cbn. rewrite Hv3. split; [done|].
    split; [by split_and!|]. split; [done|]. split; [done|]. split; [done|]. by left.
  - unfold nic_load. rewrite He3. cbn [rx_descs with_cursors with_rx_descs]. rewrite Hfz. cbn. lia.
  - unfold driver_sent. rewrite Hv3. cbn. rewrite Hv2. exact Hwire1.
  - by rewrite Hq3, Hq2, Hq1.
  - by rewrite Hh3.
  - lia.
  - lia.
  - lia.
  - unfold driver_dma. rewrite He3. cbn. intros c (x & (i & Hi)%list_elem_of_lookup_1 & Hc).
    pose proof (lookup_lt_Some _ _ _ Hi). destruct (Hdesc i ltac:(lia)) as (y & Hy & Hya & _).
    rewrite (list_lookup_total_correct _ _ _ Hi) in Hya. pose proof (list_elem_of_lookup_2 _ _ _ Hy) as Hyin.
    exists y. split; [rewrite Hu2, elem_of_app, elem_of_reverse; by left|].
    pose proof (Forall_lookup_1 _ _ _ _ Hsz Hy). cbn in *. lia.
Qed.

(** *** With the bus and the allocation *)

(** The card is in the table, and its registers appear where the driver puts
    them. *)
Definition card_answers (table : list pci_device) (d : D) : Prop :=
  match pci_get_device INTEL_VEND E1000_DEV table with
  | None => False
  | Some k =>
      let dev := table !!! k in
      let '(mm, d) := pci_alloc_memory dev 0 d in
      let '(_, d) := pci_alloc_memory dev 1 d in
      v_base (cd_view (pci_enable_bus_mastering (config_base dev) d)) = mm
  end.

(** The structure as the C type has it; [malloc] decides on the values. *)
Definition structure_wf (e : e1000_device) : Prop :=
  length (rx_descs e) = 32%nat /\ length (tx_descs e) = 8%nat /\ mac_wf (e_mac e).

(** The allocation of the structure succeeds when there is room. *)
Lemma structure_allocated sp :
  spec_ok sp -> s_brk sp + gross sizeof_e1000_device <= HEAP_START + HEAP_SIZE ->
  let a := (spec_malloc sizeof_e1000_device sp).1 in
  a <> NULL /\ 0 <= a /\ a + 512 < 4294967296 /\ a mod 16 = 0 /\
  s_brk (spec_malloc sizeof_e1000_device sp).2 <= s_brk sp + gross sizeof_e1000_device.
Proof.
  intros Hok Hroom. pose proof (rep_nonnull sp Hok) as Hnn. destruct Hok as (Hb & H16 & Hbnd).
  assert (0 <= gross sizeof_e1000_device) as Hg by (by vm_compute).
  unfold spec_malloc. destruct (first_fit _ _) as [[[pre x] post]|] eqn:Hff.
  - apply first_fit_split in Hff as (E & _). cbn [fst snd s_brk].
    destruct (blocks_ok_wf _ _ x Hb) as (?&?&?&?&?); [rewrite E; set_solver|].
    unfold NULL, HEAP_START, HEAP_SIZE in *. split_and!; word_lia.
  - destruct Hbnd as [Hbrk Hbnd].
    rewrite (proj2 (Z.ltb_ge _ _)) by done. cbn [fst snd s_brk]. unfold NULL, HEAP_START, HEAP_SIZE in *. split_and!; word_lia.
Qed.

Lemma e1000_init_spec now fuel garbage table s sp :
  card_answers table (n_dev s) -> structure_wf garbage -> pqueue_ok (n_queue s) ->
  heap_rep (n_heap s) sp -> (length (s_free sp) < fuel)%nat ->
  s_brk sp + gross sizeof_e1000_device + 32 * gross 8208 <= HEAP_START + HEAP_SIZE ->
  exists s' sp', e1000_init now fuel garbage table s = Done (tt, s') /\ driver_ready s' /\ nic_inv s' /\
    n_queue s' = n_queue s /\ heap_rep (n_heap s') sp' /\ (length (s_free sp') < fuel)%nat /\
    (forall b, driver_dma s' b -> exists x, x ∈ s_used sp' /\ x.1 + 16 <= b < x.1 + x.2) /\
    s_brk sp' <= s_brk sp + gross sizeof_e1000_device + 32 * gross 8208 /\
    (length (s_free sp') <= length (s_free sp))%nat.
Proof.
  intros Hcard (Hrx & Htx & Hmac) Hq Hrep Hfuel Hroom. unfold card_answers in Hcard.
  destruct (malloc_spec fuel sizeof_e1000_device (n_heap s) sp) as (h & Hm & Hrep1 & _); [done|by vm_compute|done|].
  pose proof (spec_malloc_free sizeof_e1000_device sp) as Hfree.
  assert (0 <= gross 8208) as Hg by (by vm_compute).
  destruct (structure_allocated sp) as (Hnn & Ha0 & Ha & Ha16 & Hbrk); [apply Hrep|lia|].
  unfold e1000_init. erewrite bind_done by (unfold heap_malloc, zoom; rewrite Hm; done).
  rewrite (proj2 (Z.eqb_neq _ _) Hnn). erewrite bind_done by done.
  erewrite bind_done by (unfold update; cbn [n_e1000 set_n_e1000]; done).
  destruct (pci_get_device INTEL_VEND E1000_DEV table) as [k|] eqn:Ek; [|done].
  cbv zeta. set (dev := table !!! k) in *. cbn [n_dev set_n_heap set_n_e1000].
  destruct (pci_alloc_memory dev 0 (n_dev s)) as [mm d1] eqn:E1.
  destruct (pci_alloc_memory dev 1 d1) as [io d2] eqn:E2.
  erewrite bind_done by (unfold on_bus, lift; cbn [n_dev set_n_heap set_n_e1000]; rewrite E1; done).
  erewrite bind_done by done.
  erewrite bind_done by (unfold on_bus, lift; cbn [n_dev set_n_dev set_n_e1000]; rewrite E2; done).
  do 2 (erewrite bind_done by done).
  match goal with |- context [start_e1000 fuel ?s0] => set (s1 := s0) end.
  destruct (start_e1000_spec fuel s1 (spec_malloc sizeof_e1000_device sp).1
      (with_bases io mm (with_bases (e_io_base (with_pci_device (Some k) garbage)) mm (with_pci_device (Some k) garbage)))
      (spec_malloc sizeof_e1000_device sp).2)
    as (s' & sp' & Hs & Hr & Hi & Hl & _ & Hq' & Hrep' & Hf' & Hb' & Hf2 & Hd); [done|done|done|done|by eexists|done|done|done| |done|done|lia|lia|].
  - assert (mm = 0x43000000 \/ mm = 0x50000000) as Hmm.
    { unfold pci_alloc_memory in E1. destruct (get_bar_type _ _ _). injection E1 as <- _. destruct (negb _); lia. }
    split; [by destruct Hmm as [-> | ->]|]. split; [cbn; lia|]. split; [cbn; lia|exact Hcard].
  - exists s', sp'. split; [exact Hs|]. split_and!; try done; lia.
Qed.

(** C10: When the heap has room for the driver's structure and its 32 receive
    buffers, [e1000_init] returns for any card that is on the bus and keeps its
    contract, whatever the card answers while it is probed and whatever [malloc]
    left in the driver's structure.  The driver is up then: the card's registers
    hold the places and lengths of both descriptor rings and switch sending and
    receiving on ([programmed], before which the contract promises nothing), so the
    driver can send and can serve interrupts; the transmit ring is empty, the queue
    is as it was, and the card writes into live blocks of the heap only. *)
Theorem e1000_init_ready now fuel garbage table s sp :
  card_answers table (n_dev s) -> structure_wf garbage -> pqueue_ok (n_queue s) ->
  heap_rep (n_heap s) sp -> (length (s_free sp) < fuel)%nat ->
  s_brk sp + gross sizeof_e1000_device + 32 * gross 8208 <= HEAP_START + HEAP_SIZE ->
  exists s' sp', e1000_init now fuel garbage table s = Done (tt, s') /\ driver_ready s' /\ nic_inv s' /\
    n_queue s' = n_queue s /\ heap_rep (n_heap s') sp' /\ (length (s_free sp') < fuel)%nat /\
    forall b, driver_dma s' b -> exists x, x ∈ s_used sp' /\ x.1 + 16 <= b < x.1 + x.2.
Proof.
  intros. destruct (e1000_init_spec now fuel garbage table s sp) as (s' & sp' & ? & ? & ? & ? & ? & ? & ? & _); [done..|].
  by exists s', sp'.
Qed.

End CardInit.

(** ** Witness *)

(** A structure as [malloc] may leave it. *)
Definition fresh_driver : e1000_device :=
  mk_e1000 (replicate 32 (mk_rx_desc 7 7 7 7 7 7)) (replicate 8 (mk_tx_desc 9 9 9 9 9 9 9))
    0 0 false NULL_MAC 0 0 None.

(** The card is in the table at slot 11, and memory accesses reach its registers
    at 0x50000000. *)
Definition card_table : list pci_device :=
  [mk_pci_device (PCI_CONFIG + 0x5800) 0 0 0 INTEL_VEND E1000_DEV].

Definition fresh_nic : nic_state sim :=
  mk_nic (blank_sim [[1; 2; 3]] (fun _ => 0)) (initial_heap ∅) None pqueue_boot.

Lemma e1000_init_ready_witness :
  exists s', e1000_init (cpu := LittleEndian) (board := 0) 0 1 fresh_driver card_table fresh_nic = Done (tt, s') /\
    driver_ready s' /\ nic_inv s'.
Proof.
  destruct (e1000_init_ready (D := sim) (cpu := LittleEndian) (board := 0) 0 1 fresh_driver card_table fresh_nic
    (mk_spec [] [] HEAP_START)) as (s' & sp' & Hs & Hr & Hi & _).
  - vm_compute. reflexivity.
  - split; [done|]. split; [done|]. by apply mac_wf_dec; vm_compute.
  - apply pqueue_boot_ok.
  - apply initial_heap_rep.
  - cbn. lia.
  - vm_compute. done.
  - exists s'. split; [exact Hs|]. split; [exact Hr|exact Hi].
Defined.
