(* ===== verification/Interrupt.v ===== *)
(** * Interrupts and the context switch: kernel/interrupt.c, interrupt_handler.S

    The state of the whole kernel, the vector table, the set-up of the interrupt
    controllers and of the interrupt mode, the dispatch of an interrupt to the
    network card, the scheduler and the clock, and the assembly around it that
    saves and loads the registers of a task.

    [k_context] is what an interrupt saves: r0 to r12, the user-mode sp and lr,
    and the pc and cpsr of the interrupted code. *)

From S2P Require Import Prelude StateMonad Memory Bus RingBuffer Heap Clock Scheduler.
From S2P Require Import NetworkIo PacketQueue Pci E1000 Ethernet Routing.

(** ** Definitions *)

Definition IVT_OFFSET : Z := 0x0.

Definition PIC_BASE : Z := 0x10140000.
Definition PIC_IRQ_STATUS : Z := PIC_BASE + 0x00.
Definition PIC_INT_ENABLE : Z := PIC_BASE + 0x10.
Definition SIC_BASE : Z := 0x10003000.
Definition SIC_ENABLE : Z := SIC_BASE + 0x08.
Definition SIC_PIC_EN_SET : Z := SIC_BASE + 0x20.

Definition TIMER1_INTBIT : Z := Z.shiftl 1 4.
Definition TIMER3_INTBIT : Z := Z.shiftl 1 5.
Definition PCI0_INTBIT : Z := Z.shiftl 1 27.
Definition PCI1_INTBIT : Z := Z.shiftl 1 28.
Definition PCI2_INTBIT : Z := Z.shiftl 1 29.
Definition PCI3_INTBIT : Z := Z.shiftl 1 30.
Definition PCI_INTBITS : Z := Z.lor (Z.lor (Z.lor PCI0_INTBIT PCI1_INTBIT) PCI2_INTBIT) PCI3_INTBIT.

Definition TIMER_LOAD_VALUE : Z := 0x2000.

(** [syscall_handler] and [irq_handler] are addresses the linker chooses. *)
Definition ivt (syscall_handler irq_handler : Z) : list (Z * Z) :=
  [(0x00, 0);
   (0x04, 0xe59ff014); (0x08, 0xe59ff014); (0x0c, 0xe59ff014); (0x10, 0xe59ff014);
   (0x14, 0xe59ff014); (0x18, 0xe59ff014); (0x1c, 0xe59ff014);
   (0x20, 0); (0x24, syscall_handler); (0x28, 0); (0x2c, 0); (0x30, 0);
   (0x34, irq_handler); (0x38, 0)].

Definition setup_ivt {cpu : Cpu} (syscall_handler irq_handler : Z) (m : mem) : mem :=
  foldl (fun m '(offset, word) => store cpu_endian 4 m (IVT_OFFSET + offset) word) m
    (ivt syscall_handler irq_handler).

Section Controllers.
Context {D : Type} `{Bus D}.

Definition init_timer_interrupt (d : D) : D :=
  let d := or32 PIC_INT_ENABLE TIMER1_INTBIT d in
  or32 PIC_INT_ENABLE TIMER3_INTBIT d.

Definition init_pci_interrupt (d : D) : D :=
  let d := or32 PIC_INT_ENABLE PCI_INTBITS d in
  let d := or32 SIC_ENABLE PCI_INTBITS d in
  or32 SIC_PIC_EN_SET PCI_INTBITS d.

Definition init_interrupt_controller (d : D) : D :=
  let d := or32 PIC_INT_ENABLE 2 d in
  let d := init_timer_interrupt d in
  init_pci_interrupt d.

End Controllers.

(** The whole kernel: the driver with devices, RAM, heap and receive queue; the
    scheduler; the clock; the registers; the stack pointer of interrupt mode; the
    ARP table. *)
Record kernel (D : Type) := mk_kernel {
  k_nic : nic_state D;
  k_sched : sched;
  k_clock : Z;
  k_context : task_t;
  k_irq_sp : Z;
  k_table : arp_table;
}.
Arguments mk_kernel {D}.
Arguments k_nic {D}.
Arguments k_sched {D}.
Arguments k_clock {D}.
Arguments k_context {D}.
Arguments k_irq_sp {D}.
Arguments k_table {D}.

Section Kernel.
Context {D : Type} `{Bus D} {card : Card D} {cpu : Cpu} {board : Board}.

Abbreviation K := (ST (kernel D)).

Definition set_k_nic (n : nic_state D) (k : kernel D) : kernel D :=
  mk_kernel n (k_sched k) (k_clock k) (k_context k) (k_irq_sp k) (k_table k).
Definition set_k_sched (s : sched) (k : kernel D) : kernel D :=
  mk_kernel (k_nic k) s (k_clock k) (k_context k) (k_irq_sp k) (k_table k).
Definition set_k_clock (c : Z) (k : kernel D) : kernel D :=
  mk_kernel (k_nic k) (k_sched k) c (k_context k) (k_irq_sp k) (k_table k).
Definition set_k_context (t : task_t) (k : kernel D) : kernel D :=
  mk_kernel (k_nic k) (k_sched k) (k_clock k) t (k_irq_sp k) (k_table k).
Definition set_k_irq_sp (p : Z) (k : kernel D) : kernel D :=
  mk_kernel (k_nic k) (k_sched k) (k_clock k) (k_context k) p (k_table k).
Definition set_k_table (t : arp_table) (k : kernel D) : kernel D :=
  mk_kernel (k_nic k) (k_sched k) (k_clock k) (k_context k) (k_irq_sp k) t.

Definition on_nic_state {A} (m : ST (nic_state D) A) : K A := zoom k_nic set_k_nic m.
Definition on_device (f : D -> D) : K unit := on_nic_state (bus_do f).

(** [schedule], then a word store to the timer's clear register. *)
Definition irq_handler_timer : K unit :=
  modify (fun k => set_k_sched (schedule (k_sched k)) k) ;;
  on_device (write32 TIMER1_INTCLR 1).

Definition clock_interrupt : K unit := fun k =>
  let '(c, d) := irq_handler_clock (k_clock k, n_dev (k_nic k)) in
  Done (tt, set_k_clock c (set_k_nic (set_n_dev d (k_nic k)) k)).

Definition handle_interrupt (fuel : nat) : K unit :=
  status ← on_nic_state (on_bus (read32 PIC_IRQ_STATUS));
  (if negb (Z.land status PCI3_INTBIT =? 0)
   then now ← gets k_clock; on_nic_state (e1000_irq_handler now fuel)
   else mret ()) ;;
  (if negb (Z.land status TIMER1_INTBIT =? 0) then irq_handler_timer else mret ()) ;;
  (if negb (Z.land status TIMER3_INTBIT =? 0) then clock_interrupt else mret ()).

(** The registers go to the structure of the current task; with no current task
    they would go to address 0. *)
Definition save_current_task_state : K unit := fun k =>
  match current_task (k_sched k) with
  | Some i =>
      let s := k_sched k in
      Done (tt, set_k_sched (with_tasks s (task_count s) (<[i := k_context k]> (tasks s))) k)
  | None => Undefined
  end.

Definition load_current_task_state : K unit := fun k =>
  match current_task (k_sched k) with
  | Some i =>
      match tasks (k_sched k) !! i with
      | Some t => Done (tt, set_k_context t k)
      | None => Undefined
      end
  | None => Undefined
  end.

Definition irq_handler (fuel : nat) : K unit :=
  save_current_task_state ;;
  handle_interrupt fuel ;;
  load_current_task_state.

(** [msr cpsr, r0] and [mov sp, ...] in the mode the processor is in; the
    banked stack pointers of the other modes are not part of the state, nor are
    the scratch registers of the inline assembly. *)
Definition set_cpsr (v : Z) (k : kernel D) : kernel D :=
  let t := k_context k in set_k_context (mk_task (reg t) (sp t) (lr t) (pc t) v) k.

Definition set_sp (v : Z) (k : kernel D) : kernel D :=
  let t := k_context k in
  let mode := Z.land (cpsr t) 0x1f in
  if mode =? 0x12 then set_k_irq_sp v k
  else if (mode =? 0x10) || (mode =? 0x1f)
  then set_k_context (mk_task (reg t) v (lr t) (pc t) (cpsr t)) k
  else k.

Definition setup_irq_stack (k : kernel D) : kernel D :=
  let r0 := cpsr (k_context k) in
  let r0 := Z.lor (Z.land r0 (Z.lnot 0x1f)) 0x12 in
  let k := set_cpsr r0 k in
  let k := set_sp IRQ_STACK_ADDRESS k in
  let r0 := Z.lor (Z.land r0 (Z.lnot 0x1f)) 0x13 in
  set_cpsr r0 k.

Definition enable_irq (k : kernel D) : kernel D :=
  set_cpsr (Z.land (cpsr (k_context k)) (Z.lnot 0x80)) k.

Definition init_interrupt_handling (syscall_handler irq_handler_address : Z) : K unit :=
  on_nic_state (modify (fun s =>
    set_n_heap (set_ram (setup_ivt syscall_handler irq_handler_address (ram (n_heap s))) (n_heap s)) s)) ;;
  modify setup_irq_stack ;;
  on_device init_interrupt_controller ;;
  modify enable_irq.

(** [start_scheduler] up to the point where interrupts are enabled. *)
Definition prepare_scheduler (syscall_handler irq_handler_address : Z) : K unit :=
  modify (fun k => set_k_sched (start_scheduler_tasks (k_sched k)) k) ;;
  on_device timer_stop ;;
  init_interrupt_handling syscall_handler irq_handler_address.

Definition start_scheduler (syscall_handler irq_handler_address : Z) : K unit :=
  running ← gets (fun k => isRunning (k_sched k));
  if running =? 0
  then
    prepare_scheduler syscall_handler irq_handler_address ;;
    on_device (timer_start TIMER_LOAD_VALUE) ;;
    load_current_task_state
  else mret ().

End Kernel.

(** ** The vector table *)

(** The address an instruction at [a] loads the pc from, if it is an
    [ldr pc, [pc, #imm]]; the pc reads as [a + 8]. *)
Definition arm_ldr_pc (a instruction : Z) : option Z :=
  if Z.land instruction 0xfffff000 =? 0xe59ff000
  then Some (u32 (a + 8 + Z.land instruction 0xfff)) else None.

(** Where the processor continues after the exception with vector [v]. *)
Definition vector_target {cpu : Cpu} (m : mem) (v : Z) : option Z :=
  a ← arm_ldr_pc v (load cpu_endian 4 m v); Some (load cpu_endian 4 m a).

Section Vectors.
Context {cpu : Cpu}.

Abbreviation stores := (foldl (fun m '(offset, word) => store cpu_endian 4 m (IVT_OFFSET + offset) word)).

Lemma load_stores_other l m a :
  Forall (fun p => separate p.1 4 a 4) l -> load cpu_endian 4 (stores m l) a = load cpu_endian 4 m a.
Proof.
  intros Hl. revert m. induction Hl as [|[o w] l Ho _ IH]; intros m; [done|]. simpl.
  rewrite IH. by apply load_store_separate.
Qed.

Lemma ivt_offset sh ih i o w : ivt sh ih !! i = Some (o, w) -> o = 4 * Z.of_nat i.
Proof. intros Hi. do 15 (destruct i as [|i]; [by injection Hi as <- _|]). done. Qed.

Lemma ivt_load sh ih m i o w :
  ivt sh ih !! i = Some (o, w) -> load cpu_endian 4 (setup_ivt sh ih m) o = u32 w.
Proof.
  intros Hi. pose proof (ivt_offset _ _ _ _ _ Hi) as Ho. unfold setup_ivt.
  rewrite <- (take_drop_middle _ _ _ Hi), foldl_app. cbn [foldl].
  rewrite load_stores_other; [apply load_store_same|].
  apply Forall_forall. intros [o' w'] (j & Hj)%list_elem_of_lookup_1. rewrite lookup_drop in Hj.
  apply ivt_offset in Hj. right. simpl. lia.
Qed.

Lemma setup_ivt_outside sh ih m x : ~ (0 <= x < 0x3c) -> get8 (setup_ivt sh ih m) x = get8 m x.
Proof.
  intros Hx. unfold setup_ivt.
  assert (Forall (fun p => 0 <= p.1 /\ p.1 + 4 <= 0x3c) (ivt sh ih)) as Hl
    by (repeat (constructor; [simpl; lia|]); constructor).
  revert m. induction Hl as [|[o w] l Ho _ IH]; intros m; [done|]. simpl. rewrite IH.
  simpl in Ho. unfold IVT_OFFSET. apply (store_same_outside cpu_endian 4 m (0 + o) w). lia.
Qed.

(** The vector table dispatches: the instruction at each vector decodes as a
    load of the pc from the word 28 bytes further on, which holds the syscall
    handler for a software interrupt, the interrupt handler for an IRQ, and 0,
    the reset vector, for every other exception; the rest of RAM is untouched. *)
Theorem ivt_dispatch syscall_handler irq_handler m :
  is_u32 syscall_handler -> is_u32 irq_handler ->
  let m' := setup_ivt syscall_handler irq_handler m in
  vector_target m' 0x08 = Some syscall_handler /\
  vector_target m' 0x18 = Some irq_handler /\
  (forall v, v ∈ [0x04; 0x0c; 0x10; 0x14; 0x1c] -> vector_target m' v = Some 0) /\
  (forall x, ~ (0 <= x < 0x3c) -> get8 m' x = get8 m x).
Proof.
  intros Hs Hi m'.
  assert (forall i v w, ivt syscall_handler irq_handler !! i = Some (v, 0xe59ff014) ->
    ivt syscall_handler irq_handler !! (i + 7)%nat = Some (v + 0x1c, w) -> is_u32 w ->
    is_u32 (v + 0x1c) -> vector_target m' v = Some w) as Hv.
  { intros i v w Hi1 Hi2 Hw Hv. unfold vector_target, m'. rewrite (ivt_load _ _ _ _ _ _ Hi1).
    assert (arm_ldr_pc v (u32 0xe59ff014) = Some (v + 0x1c)) as ->.
    { unfold arm_ldr_pc. change (u32 0xe59ff014) with 0xe59ff014.
      change (Z.land 0xe59ff014 0xfffff000 =? 0xe59ff000) with true. change (Z.land 0xe59ff014 0xfff) with 20.
      cbn [negb]. f_equal. rewrite u32_id; unfold is_u32 in *; lia. }
    change (Some (load cpu_endian 4 (setup_ivt syscall_handler irq_handler m) (v + 28)) = Some w).
    f_equal. by rewrite (ivt_load _ _ _ _ _ _ Hi2), u32_id. }
  split_and!.
  - by apply (Hv 2%nat).
  - by apply (Hv 6%nat).
  - intros v Hv'. rewrite !elem_of_cons in Hv'.
    destruct Hv' as [->|[->|[->|[->|[->|[]%elem_of_nil]]]]].
    + by apply (Hv 1%nat).
    + by apply (Hv 3%nat).
    + by apply (Hv 4%nat).
    + by apply (Hv 5%nat).
    + by apply (Hv 7%nat).
  - intros x. apply setup_ivt_outside.
Qed.

End Vectors.

(** ** Dispatch *)

Section Dispatch.
Context {D : Type} `{Bus D} {card : Card D} {cpu : Cpu} {board : Board}.

(** The effect of a timer and of a clock interrupt. *)
Definition after_timer (k : kernel D) : kernel D :=
  set_k_nic (set_n_dev (write32 TIMER1_INTCLR 1 (n_dev (k_nic k))) (k_nic k))
    (set_k_sched (schedule (k_sched k)) k).
Definition after_clock (k : kernel D) : kernel D :=
  set_k_clock (u64 (k_clock k + 1))
    (set_k_nic (set_n_dev (write8 TIMER3_INTCLR 1 (n_dev (k_nic k))) (k_nic k)) k).

Lemma handle_interrupt_eq fuel (k : kernel D) :
  let '(status, d) := read32 PIC_IRQ_STATUS (n_dev (k_nic k)) in
  let k1 := set_k_nic (set_n_dev d (k_nic k)) k in
  let tail (k : kernel D) :=
    let k := if negb (Z.land status TIMER1_INTBIT =? 0) then after_timer k else k in
    if negb (Z.land status TIMER3_INTBIT =? 0) then after_clock k else k in
  handle_interrupt fuel k =
    if negb (Z.land status PCI3_INTBIT =? 0)
    then
      match e1000_irq_handler (k_clock k) fuel (k_nic k1) with
      | Done (_, n) => Done (tt, tail (set_k_nic n k1))
      | Undefined => Undefined
      | NoFuel => NoFuel
      end
    else Done (tt, tail k1).
Proof.
  destruct (read32 PIC_IRQ_STATUS (n_dev (k_nic k))) as [status d] eqn:Er. cbv zeta.
  unfold handle_interrupt.
  rewrite (bind_done _ _ k status (set_k_nic (set_n_dev d (k_nic k)) k))
    by (unfold on_nic_state, zoom, on_bus, lift; by rewrite Er).
  destruct (negb (Z.land status PCI3_INTBIT =? 0)).
  - st_unfold. unfold on_nic_state, zoom.
    destruct (e1000_irq_handler _ fuel _) as [[u n]| |]; [|done..].
    destruct (negb (Z.land status TIMER1_INTBIT =? 0)), (negb (Z.land status TIMER3_INTBIT =? 0)); done.
  - destruct (negb (Z.land status TIMER1_INTBIT =? 0)), (negb (Z.land status TIMER3_INTBIT =? 0)); done.
Qed.

(** C28: [handle_interrupt] serves exactly the pending sources, in the order
    network card, scheduler, clock: a timer interrupt switches tasks once and a
    clock interrupt advances the clock by one millisecond, each acknowledged at
    its own timer; without the card's bit neither driver, heap nor queue change.
    The bits of the other three PCI lines have no effect: nothing acknowledges
    an interrupt there, although their lines are enabled. *)
Theorem handle_interrupt_dispatch fuel (k : kernel D) status d n :
  read32 PIC_IRQ_STATUS (n_dev (k_nic k)) = (status, d) ->
  (if Z.testbit status 30 then e1000_irq_handler (k_clock k) fuel (set_n_dev d (k_nic k)) = Done (tt, n)
   else n = set_n_dev d (k_nic k)) ->
  handle_interrupt fuel k =
    Done (tt, mk_kernel
      (set_n_dev ((if Z.testbit status 5 then write8 TIMER3_INTCLR 1 else id)
                    ((if Z.testbit status 4 then write32 TIMER1_INTCLR 1 else id) (n_dev n))) n)
      (if Z.testbit status 4 then schedule (k_sched k) else k_sched k)
      (if Z.testbit status 5 then u64 (k_clock k + 1) else k_clock k)
      (k_context k) (k_irq_sp k) (k_table k)).
Proof.
  intros Hr Hpci. pose proof (handle_interrupt_eq fuel k) as E. rewrite Hr in E. cbv zeta in E.
  assert (forall b, 0 <= b -> negb (Z.land status (Z.shiftl 1 b) =? 0) = Z.testbit status b) as Hbit.
  { intros b Hb. rewrite Z.shiftl_1_l. destruct (Z.testbit status b) eqn:Eb.
    - apply negb_true_iff, Z.eqb_neq. intros E0.
      assert (Z.testbit (Z.land status (2 ^ b)) b = true) as Ht
        by (rewrite Z.land_spec, Eb, Z.pow2_bits_true by done; done).
      rewrite E0, Z.bits_0 in Ht. done.
    - apply negb_false_iff, Z.eqb_eq. apply Z.bits_inj'. intros m Hm.
      rewrite Z.land_spec, Z.bits_0, Z.pow2_bits_eqb by lia.
      destruct (Z.eqb_spec b m) as [<-|]; [by rewrite Eb|by rewrite andb_false_r]. }
  unfold PCI3_INTBIT, TIMER1_INTBIT, TIMER3_INTBIT in E. rewrite !Hbit in E by lia.
  rewrite E. clear E. destruct (Z.testbit status 30).
  - cbn [k_nic set_k_nic]. rewrite Hpci.
    by destruct (Z.testbit status 4), (Z.testbit status 5), n.
  - subst n. by destruct (Z.testbit status 4), (Z.testbit status 5).
Qed.

(** ** The context switch *)

(** An interrupt changes tasks only by a call of [schedule]. *)
Lemma handle_interrupt_frame fuel (k k' : kernel D) :
  handle_interrupt fuel k = Done (tt, k') ->
  k_context k' = k_context k /\ k_irq_sp k' = k_irq_sp k /\
  (k_sched k' = k_sched k \/ k_sched k' = schedule (k_sched k)).
Proof.
  pose proof (handle_interrupt_eq fuel k) as E.
  destruct (read32 PIC_IRQ_STATUS (n_dev (k_nic k))) as [status d]. cbv zeta in E. rewrite E.
  clear E. intros E.
  destruct (negb (Z.land status PCI3_INTBIT =? 0)); [destruct (e1000_irq_handler _ fuel _) as [[u n]| |]; [|done..]|];
    injection E as <-;
    destruct (negb (Z.land status TIMER1_INTBIT =? 0)), (negb (Z.land status TIMER3_INTBIT =? 0));
    (split; [done|split; [done|]]); by (left + right).
Qed.

Lemma schedule_tasks s : tasks (schedule s) = tasks s.
Proof.
  unfold schedule, ring_buffer_remove, ring_buffer_insert.
  repeat (case_match; simplify_eq/=); done.
Qed.

(** What an interrupt does to the task structures: the interrupted registers go
    to the current one, the others stay, and the registers of the task that is
    current afterwards are loaded. *)
Lemma irq_handler_spec fuel (k k' : kernel D) :
  irq_handler fuel k = Done (tt, k') ->
  exists i j, current_task (k_sched k) = Some i /\ current_task (k_sched k') = Some j /\
    tasks (k_sched k') = <[i := k_context k]> (tasks (k_sched k)) /\
    tasks (k_sched k') !! j = Some (k_context k').
Proof.
  intros (u & k1 & Hsave & Hrest)%bind_done_inv. apply bind_done_inv in Hrest as (v & k2 & Hh & Hload).
  destruct u, v. unfold save_current_task_state in Hsave.
  destruct (current_task (k_sched k)) as [i|] eqn:Ei; [|done]. injection Hsave as <-.
  destruct (handle_interrupt_frame _ _ _ Hh) as (_ & _ & Hs).
  assert (tasks (k_sched k2) = <[i := k_context k]> (tasks (k_sched k))) as Ht
    by (destruct Hs as [-> | ->]; rewrite ?schedule_tasks; done).
  unfold load_current_task_state in Hload.
  destruct (current_task (k_sched k2)) as [j|] eqn:Ej; [|done].
  destruct (tasks (k_sched k2) !! j) as [t|] eqn:Et; [|done]. injection Hload as <-.
  exists i, j. by split_and!.
Qed.

(** ** Start of the scheduler *)

Lemma mode_bits r m : 0 <= m < 32 -> Z.land (Z.lor (Z.land r (Z.lnot 0x1f)) m) 0x1f = m.
Proof.
  intros Hm. change 0x1f with (Z.ones 5). apply Z.bits_inj'. intros b Hb.
  rewrite Z.land_spec, Z.lor_spec, Z.land_spec, Z.lnot_spec by done.
  destruct (decide (b < 5)).
  - rewrite Z.ones_spec_low by lia. by rewrite andb_false_r, andb_true_r.
  - rewrite Z.ones_spec_high, andb_false_r by lia. symmetry.
    destruct (decide (m = 0)) as [->|]; [apply Z.bits_0|].
    apply Z.bits_above_log2; [lia|]. apply Z.log2_lt_pow2; [lia|].
    apply (Z.lt_le_trans _ (2 ^ 5)); [lia|]. apply Z.pow_le_mono_r; lia.
Qed.

(** The registers after the interrupt set-up: supervisor mode, interrupts on. *)
Definition boot_context (t : task_t) : task_t :=
  mk_task (reg t) (sp t) (lr t) (pc t)
    (Z.land (Z.lor (Z.land (Z.lor (Z.land (cpsr t) (Z.lnot 0x1f)) 0x12) (Z.lnot 0x1f)) 0x13) (Z.lnot 0x80)).

Lemma boot_context_mode t :
  Z.land (cpsr (boot_context t)) 0x1f = 0x13 /\ Z.testbit (cpsr (boot_context t)) 7 = false.
Proof.
  unfold boot_context. cbn [cpsr]. split.
  - rewrite <- Z.land_assoc. change (Z.land (Z.lnot 0x80) 0x1f) with 0x1f. by apply mode_bits.
  - rewrite Z.land_spec. change (Z.testbit (Z.lnot 0x80) 7) with false. by rewrite andb_false_r.
Qed.

Lemma prepare_scheduler_eq sh ih (k : kernel D) :
  prepare_scheduler sh ih k =
    Done (tt, mk_kernel
      (mk_nic (init_interrupt_controller (timer_stop (n_dev (k_nic k))))
         (set_ram (setup_ivt sh ih (ram (n_heap (k_nic k)))) (n_heap (k_nic k)))
         (n_e1000 (k_nic k)) (n_queue (k_nic k)))
      (start_scheduler_tasks (k_sched k)) (k_clock k) (boot_context (k_context k)) IRQ_STACK_ADDRESS (k_table k)).
Proof.
  unfold prepare_scheduler, init_interrupt_handling. unfold on_device, bus_do, on_bus, on_nic_state. st_unfold.
  destruct k as [n s c t p a]. destruct n as [d h e q]. cbn [k_nic n_dev n_heap].
  unfold setup_irq_stack, set_sp, set_cpsr, enable_irq. cbn [k_context set_k_context cpsr k_nic set_k_sched set_k_nic].
  rewrite mode_bits by lia. done.
Qed.

Lemma start_tasks_eq s i q :
  sched_ring_ok s -> ready s = Some i :: q ->
  current_task (start_scheduler_tasks s) = Some i /\ tasks (start_scheduler_tasks s) = tasks s /\
  ready (start_scheduler_tasks s) = q /\ isRunning (start_scheduler_tasks s) = 1 /\
  task_count (start_scheduler_tasks s) = task_count s.
Proof.
  intros Hok Hr. destruct (remove_cons s _ q Hok Hr) as [Hrem Hq].
  unfold start_scheduler_tasks. rewrite Hrem in *. by split_and!.
Qed.

(** [start_scheduler] enters the first ready task: its registers are
    loaded, so it runs in the mode and at the entry point [add_task] gave it;
    the others stay queued, the vector table is in RAM, interrupt mode has its
    own stack, and the timer is restarted behind the interrupt controller
    set-up. While the scheduler runs a second call does nothing. *)
Lemma start_scheduler_spec sh ih (k : kernel D) i q t :
  sched_ring_ok (k_sched k) -> ready (k_sched k) = Some i :: q -> tasks (k_sched k) !! i = Some t ->
  (isRunning (k_sched k) = 0 ->
   exists k', start_scheduler sh ih k = Done (tt, k') /\ k_context k' = t /\
     current_task (k_sched k') = Some i /\ ready (k_sched k') = q /\ isRunning (k_sched k') = 1 /\
     task_count (k_sched k') = task_count (k_sched k) /\
     ram (n_heap (k_nic k')) = setup_ivt sh ih (ram (n_heap (k_nic k))) /\
     k_irq_sp k' = IRQ_STACK_ADDRESS /\ k_clock k' = k_clock k /\
     n_dev (k_nic k') = timer_start TIMER_LOAD_VALUE (init_interrupt_controller (timer_stop (n_dev (k_nic k)))) /\
     k_sched k' = start_scheduler_tasks (k_sched k) /\ n_queue (k_nic k') = n_queue (k_nic k) /\
     n_e1000 (k_nic k') = n_e1000 (k_nic k) /\ k_table k' = k_table k /\
     n_heap (k_nic k') = set_ram (setup_ivt sh ih (ram (n_heap (k_nic k)))) (n_heap (k_nic k))) /\
  (isRunning (k_sched k) <> 0 -> start_scheduler sh ih k = Done (tt, k)).
Proof.
  intros Hok Hr Ht. destruct (start_tasks_eq _ _ _ Hok Hr) as (Hc & Hts & Hq & Hrun & Hcnt).
  unfold start_scheduler. rewrite (bind_done _ _ k (isRunning (k_sched k)) k) by done. split.
  - intros E. rewrite E. cbn [Z.eqb]. rewrite (bind_done _ _ _ _ _ (prepare_scheduler_eq sh ih k)).
    erewrite bind_done by done. unfold load_current_task_state. cbn [k_sched set_k_nic].
    rewrite Hc, Hts, Ht. eexists. split; [reflexivity|]. by split_and!.
  - intros E. by rewrite (proj2 (Z.eqb_neq _ _) E).
Qed.

(** C38: Interrupts are enabled before the first task's registers are loaded. An
    interrupt taken in between that does not switch tasks stores the boot code's
    registers as the first task's: what [load_current_task_state] then enters
    is the boot code, in supervisor mode, and the task's entry point is lost. *)
Theorem early_interrupt_replaces_task sh ih fuel (k k1 k2 : kernel D) i q t :
  sched_ring_ok (k_sched k) -> ready (k_sched k) = Some i :: q -> tasks (k_sched k) !! i = Some t ->
  prepare_scheduler sh ih k = Done (tt, k1) ->
  irq_handler fuel k1 = Done (tt, k2) -> current_task (k_sched k2) = Some i ->
  exists k3, load_current_task_state k2 = Done (tt, k3) /\ k_context k3 = boot_context (k_context k) /\
    Z.land (cpsr (k_context k3)) 0x1f = CPSR_MODE_SVC /\ pc (k_context k3) = pc (k_context k).
Proof.
  intros Hok Hr Ht Hprep Hirq Hcur. destruct (start_tasks_eq _ _ _ Hok Hr) as (Hc & Hts & _).
  rewrite prepare_scheduler_eq in Hprep. injection Hprep as <-.
  destruct (irq_handler_spec _ _ _ Hirq) as (a & b & Ha & Hb & Ht2 & _). cbn [k_sched k_context] in *.
  rewrite Hc in Ha. injection Ha as <-.
  unfold load_current_task_state. rewrite Hcur, Ht2, list_lookup_insert_eq
    by (rewrite Hts; by eapply lookup_lt_Some).
  eexists. split; [reflexivity|]. split; [done|]. split; [apply boot_context_mode|done].
Qed.

End Dispatch.

(** ** Witnesses *)

(** A register file as the devices: two tasks, no network card. *)
Definition example_kernel (status : Z) : kernel regfile :=
  mk_kernel (mk_nic (mk_regfile {[ PIC_IRQ_STATUS := status ]}) (initial_heap ∅) None pqueue_boot)
    (start_scheduler_tasks (boot_with 2)) 41 (mk_task (replicate 13 7) 0x3FDF000 5 0x8010 0x10) IRQ_STACK_ADDRESS None.

#[local] Instance no_card : Card regfile := fun _ x => x.

Lemma ivt_dispatch_witness : vector_target (cpu := BigEndian) (setup_ivt (cpu := BigEndian) 0x10100 0x10200 ∅) 0x18 = Some 0x10200.
Proof.
  destruct (ivt_dispatch (cpu := BigEndian) 0x10100 0x10200 ∅) as (_ & H & _); [done|done|exact H].
Defined.

Lemma handle_interrupt_dispatch_witness :
  exists k, handle_interrupt 1 (example_kernel 0x20) = Done (tt, k) /\ k_clock k = 42.
Proof.
  eexists. split.
  - by apply (handle_interrupt_dispatch 1 (example_kernel 0x20) 0x20
      (n_dev (k_nic (example_kernel 0x20)))).
  - vm_compute. reflexivity.
Defined.

Definition irq_result (k : kernel regfile) : kernel regfile :=
  match irq_handler 1 k with Done (_, k') => k' | _ => k end.

Definition example_boot : kernel regfile :=
  mk_kernel (mk_nic (mk_regfile ∅) (initial_heap ∅) None pqueue_boot) (boot_with 2) 0
    (mk_task (replicate 13 0) 0 0 0x10030 0xD3) 0 None.

Lemma example_boot_ready : sched_ring_ok (k_sched example_boot) /\
  ready (k_sched example_boot) = [Some 0%nat; Some 1%nat].
Proof. split; [|vm_compute; done]. split; [done|]. vm_compute. split; split; congruence. Qed.

Definition prepared_boot : kernel regfile :=
  match prepare_scheduler (cpu := LittleEndian) 0x10100 0x10200 example_boot with Done (_, k) => k | _ => example_boot end.

Lemma early_interrupt_replaces_task_witness :
  exists k3, load_current_task_state (irq_result prepared_boot) = Done (tt, k3) /\
    pc (k_context k3) = 0x10030 /\ Z.land (cpsr (k_context k3)) 0x1f = CPSR_MODE_SVC.
Proof.
  destruct example_boot_ready as [Hok Hr].
  destruct (early_interrupt_replaces_task (cpu := LittleEndian) 0x10100 0x10200 1 example_boot prepared_boot
    (irq_result prepared_boot) 0 [Some 1%nat] (init_task 0x8000 (task_stackbase 0)) Hok Hr)
    as (k3 & Hl & _ & Hm & Hp);
    [vm_compute; reflexivity|vm_compute; reflexivity|vm_compute; reflexivity|vm_compute; reflexivity|].
  exists k3. by split_and!.
Defined.
