(* ===== verification/MemoryMap.v ===== *)
(** * The memory map: kernel/memory.h

    The registers memory.h names beside those the other files use, for both
    boards, and the regions of the address space the kernel works in.  The regions
    do not overlap, the addresses written for the assembler are those written for
    C, and every register is a word of its own in its device's block; the one
    exception is a register of the EV3 that no code uses. *)

From S2P Require Import Prelude Memory Heap Clock Ev3 Scheduler Interrupt.

(** ** Definitions *)

(** *** VersatilePB *)

Definition TIMER1_INTCLR_ASM : Z := 0x101E200C.
Definition TIMER1_VALUE : Z := TIMER1_BASE + 0x4.
Definition TIMER1_RIS : Z := TIMER1_BASE + 0x10.
Definition TIMER1_MIS : Z := TIMER1_BASE + 0x14.
Definition TIMER3_INTCLR_ASM : Z := 0x101E300C.
Definition TIMER3_VALUE : Z := TIMER3_BASE + 0x4.
Definition TIMER3_RIS : Z := TIMER3_BASE + 0x10.
Definition TIMER3_MIS : Z := TIMER3_BASE + 0x14.

Definition PIC_FIQ_STATUS : Z := PIC_BASE + 0x04.
Definition PIC_RAW_INTR : Z := PIC_BASE + 0x08.
Definition PIC_INT_SELECT : Z := PIC_BASE + 0x0C.
Definition PIC_INT_ENABLE_CLEAR : Z := PIC_BASE + 0x14.
Definition PIC_SOFT_INT : Z := PIC_BASE + 0x18.
Definition PIC_SOFT_INT_CLEAR : Z := PIC_BASE + 0x1C.

Definition TIMER2_INTBIT : Z := Z.shiftl 1 4.
Definition TIMER4_INTBIT : Z := Z.shiftl 1 5.

Definition SIC_STATUS : Z := SIC_BASE + 0x00.
Definition SIC_RAWSTAT : Z := SIC_BASE + 0x04.
Definition SIC_EN_SET : Z := SIC_BASE + 0x08.
Definition SIC_EN_CLR : Z := SIC_BASE + 0x0C.
Definition SIC_SOFT_INT_SET : Z := SIC_BASE + 0x10.
Definition SIC_SOFT_INT_CLR : Z := SIC_BASE + 0x14.
Definition SIC_PIC_ENABLE : Z := SIC_BASE + 0x20.
Definition SIC_PIC_EN_CLR : Z := SIC_BASE + 0x24.

(** *** EV3 *)

Definition TIMER0_TIM12 : Z := TIMER0_BASE + 0x10.
Definition TIMER0_TIM34 : Z := TIMER0_BASE + 0x14.
Definition TIMER0_PRD12 : Z := TIMER0_BASE + 0x18.

Definition ENAMODE12 : Z := Z.shiftl 3 6.
Definition ENAMODE12_CONTIN : Z := Z.shiftl 2 6.
Definition CLKSRC12 : Z := Z.shiftl 1 8.
Definition PLUSEN : Z := Z.shiftl 1 4.
Definition TIM12RS_REMOVE : Z := Z.shiftl 1 0.
Definition PRDINTSTAT12 : Z := Z.shiftl 1 1.
Definition PRDINTEN12 : Z := Z.shiftl 1 0.

Definition AINTC_SECR2 : Z := AINTC_BASE + 0x0284.
Definition AINTC_SECR3 : Z := AINTC_BASE + 0x0288.
Definition AINTC_SECR4 : Z := AINTC_BASE + 0x038C.
Definition AINTC_ESR2 : Z := AINTC_BASE + 0x0304.
Definition AINTC_ESR3 : Z := AINTC_BASE + 0x0308.
Definition AINTC_ESR4 : Z := AINTC_BASE + 0x030C.
Definition AINTC_CMR0 : Z := AINTC_BASE + 0x0400.
Definition AINTC_HIPIR2 : Z := AINTC_BASE + 0x0904.

(** *** Regions *)

(** First address and size. *)
Definition region : Type := Z * Z.

Definition in_region (r : region) (a : Z) : Prop := r.1 <= a < r.1 + r.2.

(** The stack [add_task] gives to task [i], which grows down from
    [task_stackbase i]. *)
Definition task_stack (i : nat) : region := (task_stackbase (Z.of_nat i) - STACK_SIZE, STACK_SIZE).

(** The vectors with their constants, the stacks and the heap. *)
Definition ram_regions : list region :=
  [(0, 0x40); (SVC_STACK_ADDRESS - STACK_SIZE, STACK_SIZE); (IRQ_STACK_ADDRESS - STACK_SIZE, STACK_SIZE);
   (HEAP_START, HEAP_SIZE)] ++ (task_stack <$> seq 0 16).

(** A device's block and its registers. *)
Definition versatile_devices : list (region * list Z) :=
  [((TIMER1_BASE, 0x18), [TIMER1_LOAD; TIMER1_VALUE; TIMER1_CTRL; TIMER1_INTCLR; TIMER1_RIS; TIMER1_MIS]);
   ((TIMER3_BASE, 0x18), [TIMER3_LOAD; TIMER3_VALUE; TIMER3_CTRL; TIMER3_INTCLR; TIMER3_RIS; TIMER3_MIS]);
   ((PIC_BASE, 0x20), [PIC_IRQ_STATUS; PIC_FIQ_STATUS; PIC_RAW_INTR; PIC_INT_SELECT; PIC_INT_ENABLE;
     PIC_INT_ENABLE_CLEAR; PIC_SOFT_INT; PIC_SOFT_INT_CLEAR]);
   ((SIC_BASE, 0x28), [SIC_STATUS; SIC_RAWSTAT; SIC_EN_SET; SIC_EN_CLR; SIC_SOFT_INT_SET; SIC_SOFT_INT_CLR;
     SIC_PIC_EN_SET; SIC_PIC_EN_CLR])].

Definition ev3_devices : list (region * list Z) :=
  [((TIMER0_BASE, 0x48), [TIMER0_TIM12; TIMER0_TIM34; TIMER0_PRD12; TIMER0_PRD34; TIMER0_TCR; TIMER0_TGCR;
     TIMER0_INTCTLSTAT]);
   ((AINTC_BASE, 0x1504), [AINTC_GER; AINTC_SECR1; AINTC_SECR2; AINTC_SECR3; AINTC_SECR4; AINTC_ESR1; AINTC_ESR2;
     AINTC_ESR3; AINTC_ESR4; AINTC_CMR0; AINTC_CMR5; AINTC_HIPIR2; AINTC_HIER])].

(** ** Correctness *)

Definition apart (r1 r2 : region) : Prop := separate r1.1 r1.2 r2.1 r2.2.

(** Each element is related to those behind it. *)
Fixpoint pairwise (rs : list region) : Prop :=
  match rs with
  | [] => True
  | r :: rs' => Forall (apart r) rs' /\ pairwise rs'
  end.

#[local] Instance pairwise_dec rs : Decision (pairwise rs).
Proof. induction rs as [|r rs IH]; cbn [pairwise]; apply _. Defined.

Lemma pairwise_apart rs i j r1 r2 :
  pairwise rs -> rs !! i = Some r1 -> rs !! j = Some r2 -> i <> j -> apart r1 r2.
Proof.
  revert i j. induction rs as [|r rs IH]; intros i j Hp Hi Hj Hne; [done|]. destruct Hp as [Hr Hp].
  destruct i as [|i], j as [|j]; try done.
  - injection Hi as <-. by eapply (Forall_lookup_1 _ _ j).
  - injection Hj as <-. assert (apart r r1) as Ha by (by eapply (Forall_lookup_1 _ _ i)). unfold apart, separate in *. lia.
  - apply (IH i j); [done..|]. lia.
Qed.

Lemma ram_regions_pairwise : pairwise ram_regions.
Proof. apply (bool_decide_unpack _). by vm_compute. Qed.

(** What a device's registers must be: words of the block, none twice. *)
Definition registers_ok (d : region * list Z) : Prop :=
  Forall (fun a => a mod 4 = 0 /\ in_region d.1 a) d.2 /\ NoDup d.2.

(** The regions of RAM the kernel uses are apart and below the devices: what is
    stored in one of them (the vectors, a task's stack, the stacks of supervisor
    and interrupt mode, the heap) leaves every byte of the others alone, and no
    store to a device goes to RAM. *)
Theorem regions_independent i j r1 r2 e n m a v x :
  ram_regions !! i = Some r1 -> ram_regions !! j = Some r2 ->
  in_region r1 a -> a + Z.of_nat n <= r1.1 + r1.2 -> in_region r2 x ->
  (i <> j -> get8 (store e n m a v) x = get8 m x) /\
  Forall (fun d => apart r1 d.1) (versatile_devices ++ ev3_devices).
Proof.
  intros Hi Hj Ha Hn Hx. split.
  - intros Hne. pose proof (pairwise_apart _ i j r1 r2 ram_regions_pairwise Hi Hj Hne) as Hap.
    apply store_same_outside. unfold apart, separate, in_region in *. lia.
  - assert (Forall (fun r => Forall (fun d => apart r d.1) (versatile_devices ++ ev3_devices)) ram_regions) as Hall
      by (apply (bool_decide_unpack _); by vm_compute).
    by apply (Forall_lookup_1 _ _ _ _ Hall Hi).
Qed.

(** The registers of memory.h: on either board the blocks of the devices are
    apart, every register is a word of its device's block and no two names of a
    block stand for one address; the addresses and values written for the
    assembler are those written for C, so that the assembly of the timer
    interrupt acknowledges the timer that C started; and the request bits
    [handle_interrupt] tells apart are different. *)
Theorem registers_sound :
  Forall registers_ok (versatile_devices ++ ev3_devices) /\
  pairwise (versatile_devices.*1) /\ pairwise (ev3_devices.*1) /\
  TIMER1_INTCLR_ASM = TIMER1_INTCLR /\ TIMER3_INTCLR_ASM = TIMER3_INTCLR /\
  TIMER0_INTCTLSTAT_ASM = TIMER0_INTCTLSTAT /\ AINTC_SECR1_ASM = AINTC_SECR1 /\
  CLEARTIMER34_ASM = Z.lor PRDINTSTAT34 PRDINTEN34 /\ T64P0_TINT34_ASM = T64P0_TINT34 /\
  NoDup [TIMER1_INTBIT; TIMER3_INTBIT; PCI0_INTBIT; PCI1_INTBIT; PCI2_INTBIT; PCI3_INTBIT].
Proof. apply (bool_decide_unpack _). by vm_compute. Qed.

(** The four registers of the EV3's interrupt controller that clear a status are
    meant to follow one another; the fourth is in another group. *)
Lemma secr4_misplaced :
  AINTC_SECR2 = AINTC_SECR1 + 4 /\ AINTC_SECR3 = AINTC_SECR2 + 4 /\ AINTC_SECR4 <> AINTC_SECR3 + 4 /\
  AINTC_ESR4 = AINTC_ESR3 + 4.
Proof. by vm_compute. Qed.

(** Two names of memory.h stand for one register. *)
Lemma register_aliases :
  SIC_ENABLE = SIC_EN_SET /\ SIC_PIC_ENABLE = SIC_PIC_EN_SET /\
  TIMER2_INTBIT = TIMER1_INTBIT /\ TIMER4_INTBIT = TIMER3_INTBIT.
Proof. done. Qed.

(** ** Witness *)

(** A word on the first task's stack and the first word of the heap. *)
Lemma regions_independent_witness :
  get8 (store LittleEndian 4 ∅ 0x3FD0000 7) 0x5000000 = get8 ∅ 0x5000000.
Proof.
  destruct (regions_independent 4 3 (task_stack 0) (HEAP_START, HEAP_SIZE) LittleEndian 4 ∅ 0x3FD0000 7 0x5000000) as [Hs _].
  - vm_compute. reflexivity.
  - vm_compute. reflexivity.
  - unfold in_region. vm_compute. split; [intros [=]|reflexivity].
  - vm_compute. intros [=].
  - unfold in_region. vm_compute. split; [intros [=]|reflexivity].
  - apply Hs. discriminate.
Defined.
