(* ===== verification/CardRegisters.v ===== *)
(** * The card's and the bus's registers: kernel/network/e1000.h, kernel/pci/pci.h

    The registers, fields and flags the headers name beside those the drivers use,
    and what the flags the driver chooses mean: the receive buffers it allocates
    are as large as the card is told they are, so whatever frame the card puts into
    one of them stays inside. *)

From S2P Require Import Prelude StateMonad Memory Bus Heap PacketQueue NetworkIo PciMmio Pci E1000 Ethernet MemoryMap.

(** ** Definitions *)

(** *** Registers *)

Definition REG_STATUS : Z := 0x0008.
Definition REG_CTRL_EXT : Z := 0x0018.
Definition REG_RDFH : Z := 0x2410.
Definition REG_RDFT : Z := 0x2418.
Definition REG_RDFHS : Z := 0x2420.
Definition REG_RDFTS : Z := 0x2428.
Definition REG_RDFPC : Z := 0x2430.
Definition REG_TDFH : Z := 0x3410.
Definition REG_TDFT : Z := 0x3418.
Definition REG_TDFHS : Z := 0x3420.
Definition REG_TDFTS : Z := 0x3428.
Definition REG_TDFPC : Z := 0x3430.
Definition PBM_BASE : Z := 0x10000.
Definition PBM_END : Z := 0x1FFFC.
Definition REG_RDTR : Z := 0x2820.
Definition REG_RXDCTL : Z := 0x3828.
Definition REG_RADV : Z := 0x282C.
Definition REG_RSRPD : Z := 0x2C00.

(** *** Receive control *)

Definition RCTL_LPE : Z := Z.shiftl 1 5.
Definition RCTL_LBM_PHY : Z := Z.shiftl 3 6.
Definition RTCL_RDMTS_QUARTER : Z := Z.shiftl 1 8.
Definition RTCL_RDMTS_EIGHTH : Z := Z.shiftl 2 8.
Definition RCTL_MO_36 : Z := Z.shiftl 0 12.
Definition RCTL_MO_35 : Z := Z.shiftl 1 12.
Definition RCTL_MO_34 : Z := Z.shiftl 2 12.
Definition RCTL_MO_32 : Z := Z.shiftl 3 12.
Definition RCTL_VFE : Z := Z.shiftl 1 18.
Definition RCTL_CFIEN : Z := Z.shiftl 1 19.
Definition RCTL_CFI : Z := Z.shiftl 1 20.
Definition RCTL_DPF : Z := Z.shiftl 1 22.
Definition RCTL_PMCF : Z := Z.shiftl 1 23.
Definition RCTL_BSIZE_256 : Z := Z.shiftl 3 16.
Definition RCTL_BSIZE_512 : Z := Z.shiftl 2 16.
Definition RCTL_BSIZE_1024 : Z := Z.shiftl 1 16.
Definition RCTL_BSIZE_2048 : Z := Z.shiftl 0 16.
Definition RCTL_BSIZE_4096 : Z := Z.lor (Z.shiftl 3 16) (Z.shiftl 1 25).
Definition RCTL_BSIZE_16384 : Z := Z.lor (Z.shiftl 1 16) (Z.shiftl 1 25).

(** *** Transmission *)

Definition CMD_IC : Z := Z.shiftl 1 2.
Definition CMD_RPS : Z := Z.shiftl 1 4.
Definition CMD_VLE : Z := Z.shiftl 1 6.
Definition CMD_IDE : Z := Z.shiftl 1 7.
Definition TCTL_CT_SHIFT : Z := 4.
Definition TCTL_COLD_SHIFT : Z := 12.
Definition TCTL_SWXOFF : Z := Z.shiftl 1 22.
Definition TCTL_RTLC : Z := Z.shiftl 1 24.
Definition TSTA_DD : Z := Z.shiftl 1 0.
Definition TSTA_EC : Z := Z.shiftl 1 1.
Definition TSTA_LC : Z := Z.shiftl 1 2.
Definition LSTA_TU : Z := Z.shiftl 1 3.

(** *** Configuration space and the bus's controller *)

Definition PCI_DEVICE_STATUS_COMMAND_OFFSET : Z := 0x04.
Definition PCI_COMMAND_SPECIAL : Z := 0x8.
Definition PCI_COMMAND_VGA_PALETTE : Z := 0x20.
Definition PCI_COMMAND_PARITY : Z := 0x40.
Definition PCI_COMMAND_WAIT : Z := 0x80.
Definition PCI_COMMAND_SERR : Z := 0x100.
Definition PCI_COMMAND_FAST_BACK : Z := 0x200.
Definition PCI_COMMAND_INTX_DISABLE : Z := 0x400.
Definition PCI_REVISION_ID : Z := 0x08.
Definition PCI_CLASS_PROG : Z := 0x09.
Definition PCI_CLASS_DEVICE : Z := 0x0a.
Definition PCI_BAR_OFFSET : Z := 0x04.
Definition PCI_INTERRUPT_LINE : Z := 0x3c.
Definition PCI_INTERRUPT_PIN : Z := 0x3d.
Definition PCI_MIN_GNT : Z := 0x3e.
Definition PCI_MAX_LAT : Z := 0x3f.

Definition SYS_PCICTL : Z := 0x10000044.
Definition PCI_FLAGS : Z := 0x10001010.
Definition PCI_SMAP0 : Z := 0x10001014.
Definition PCI_SMAP1 : Z := 0x10001018.
Definition PCI_SMAP2 : Z := 0x1000101C.

(** The sizes of a receive buffer the receive control register can name. *)
Definition rctl_sizes : list (Z * Z) :=
  [(RCTL_BSIZE_256, 256); (RCTL_BSIZE_512, 512); (RCTL_BSIZE_1024, 1024); (RCTL_BSIZE_2048, 2048);
   (RCTL_BSIZE_4096, 4096); (RCTL_BSIZE_8192, 8192); (RCTL_BSIZE_16384, 16384)].

(** The bits that name it. *)
Definition RCTL_BSIZE_MASK : Z := foldr Z.lor 0 (rctl_sizes.*1).

Definition rctl_buffer_size (v : Z) : option Z :=
  snd <$> find (fun p => p.1 =? Z.land v RCTL_BSIZE_MASK) rctl_sizes.

(** The other flags of the register. *)
Definition rctl_flags : list Z :=
  [RCTL_EN; RCTL_SBP; RCTL_UPE; RCTL_MPE; RCTL_LPE; RCTL_LBM_NONE; RCTL_LBM_PHY; RTCL_RDMTS_HALF; RTCL_RDMTS_QUARTER;
   RTCL_RDMTS_EIGHTH; RCTL_MO_36; RCTL_MO_35; RCTL_MO_34; RCTL_MO_32; RCTL_BAM; RCTL_VFE; RCTL_CFIEN; RCTL_CFI;
   RCTL_DPF; RCTL_PMCF; RCTL_SECRC].

(** The registers of the card's window, and those of the bus's controller. *)
Definition card_registers : list Z :=
  [REG_CTRL; REG_STATUS; REG_EEPROM; REG_CTRL_EXT; REG_INT_CAUSE; REG_IMASK; REG_RCTRL; REG_TCTRL; REG_TIPG;
   REG_RDFH; REG_RDFT; REG_RDFHS; REG_RDFTS; REG_RDFPC; REG_RXDESCLO; REG_RXDESCHI; REG_RXDESCLEN; REG_RXDESCHEAD;
   REG_RXDESCTAIL; REG_RDTR; REG_RADV; REG_RSRPD; REG_TDFH; REG_TDFT; REG_TDFHS; REG_TDFTS; REG_TDFPC; REG_TXDESCLO;
   REG_TXDESCHI; REG_TXDESCLEN; REG_TXDESCHEAD; REG_TXDESCTAIL; REG_RXDCTL; MAC_OFFSET].

Definition pci_controller : region * list Z :=
  ((PCI_IMAP0, 0x20), [PCI_IMAP0; PCI_IMAP1; PCI_IMAP2; PCI_SELFID; PCI_FLAGS; PCI_SMAP0; PCI_SMAP1; PCI_SMAP2]).

Definition pci_commands : list Z :=
  [PCI_COMMAND_IO; PCI_COMMAND_MEMORY; PCI_COMMAND_MASTER; PCI_COMMAND_SPECIAL; PCI_COMMAND_INVALIDATE;
   PCI_COMMAND_VGA_PALETTE; PCI_COMMAND_PARITY; PCI_COMMAND_WAIT; PCI_COMMAND_SERR; PCI_COMMAND_FAST_BACK;
   PCI_COMMAND_INTX_DISABLE].

(** ** The registers *)

(** Every register of the card is a word of its own below the memory of the packet
    buffer; the bus's controller has its own block, apart from the devices of
    memory.h; the commands of configuration space are single bits, each
    different. *)
Theorem card_registers_sound :
  Forall (fun a => a mod 4 = 0 /\ 0 <= a < PBM_BASE) card_registers /\ NoDup card_registers /\
  registers_ok pci_controller /\ Forall (fun d => apart pci_controller.1 d.1) versatile_devices /\
  pci_commands = (Z.shiftl 1 <$> zseq 11).
Proof. apply (bool_decide_unpack _). by vm_compute. Qed.

(** The control register of the receive descriptors has an address among the
    registers of the transmit descriptors. *)
Lemma rxdctl_among_transmit :
  REG_TXDESCLO <= REG_RXDCTL < REG_TXDESCLO + 0x100 /\ ~ (REG_RXDESCLO <= REG_RXDCTL < REG_RXDESCLO + 0x100).
Proof. apply (bool_decide_unpack _). by vm_compute. Qed.

(** The interrupts the driver serves are among those it enables. *)
Lemma served_interrupts_enabled : Forall (fun c => Z.land 0x1F2D4 c = c) [LSC; RXDMT0; RXT0].
Proof. apply (bool_decide_unpack _). by vm_compute. Qed.

(** ** The size of the receive buffers *)

Lemma rctl_flags_outside : Forall (fun f => Z.land f RCTL_BSIZE_MASK = 0) rctl_flags.
Proof. apply (bool_decide_unpack _). by vm_compute. Qed.

(** Each size is read back from its flag, whatever the other bits are. *)
Lemma rctl_size_decodes flag size other :
  (flag, size) ∈ rctl_sizes -> Z.land other RCTL_BSIZE_MASK = 0 -> rctl_buffer_size (Z.lor flag other) = Some size.
Proof.
  intros Hin Ho. unfold rctl_buffer_size. rewrite Z.land_lor_distr_l, Ho, Z.lor_0_r.
  assert (Forall (fun p => snd <$> find (fun q => q.1 =? Z.land p.1 RCTL_BSIZE_MASK) rctl_sizes = Some p.2) rctl_sizes) as Hall
    by (apply (bool_decide_unpack _); by vm_compute).
  exact (proj1 (Forall_forall _ _) Hall (flag, size) Hin).
Qed.

Lemma land_foldr_lor l m : Forall (fun f => Z.land f m = 0) l -> Z.land (foldr Z.lor 0 l) m = 0.
Proof. induction 1 as [|f l Hf _ IH]; [done|]. cbn [foldr]. by rewrite Z.land_lor_distr_l, Hf, IH. Qed.

Section Card.
Context {D : Type} `{Bus D} {card : Card D} {cpu : Cpu}.

(** What is written to a register last. *)
Definition last_written (reg : Z) (l : list (Z * Z)) : option Z :=
  snd <$> find (fun rv => rv.1 =? reg) (reverse l).

(** A frame in one of the blocks [bl], behind its header. *)
Lemma receive_blocks (s : nic_state D) sp sp' bl :
  heap_rep (n_heap s) sp' -> s_used sp' = reverse bl ++ s_used sp -> Forall (fun x => 8208 + 16 <= x.2) bl ->
  forall i x frame, bl !! i = Some x -> Z.of_nat (length frame) <= MAX_PACKET_SIZE ->
  let m := write_bytes (ram (n_heap s)) (x.1 + 16) frame in
  heap_rep (set_ram m (n_heap s)) sp' /\
  (forall y b, y ∈ s_used sp -> y.1 <= b < y.1 + y.2 -> get8 m b = get8 (ram (n_heap s)) b) /\
  (forall j y b, bl !! j = Some y -> i <> j -> y.1 + 16 <= b < y.1 + 16 + MAX_PACKET_SIZE ->
     get8 m b = get8 (ram (n_heap s)) b).
Proof.
  intros Hrep Hu Hsz i x frame Hx Hframe m. unfold MAX_PACKET_SIZE in *.
  pose proof Hrep as ((Hok & _ & _) & _). pose proof Hok as (Hnd & _ & _).
  assert (forall b, ~ (x.1 + 16 <= b < x.1 + 8208) -> get8 m b = get8 (ram (n_heap s)) b) as Hm
    by (intros b Hb; apply write_bytes_outside; lia).
  pose proof (Forall_lookup_1 _ _ _ _ Hsz Hx) as Hxsz. cbv beta in Hxsz.
  assert (forall y, y ∈ bl -> y ∈ s_free sp' ++ s_used sp') as Hin
    by (intros y Hy; rewrite Hu, !elem_of_app, elem_of_reverse; auto).
  pose proof (list_elem_of_lookup_2 _ _ _ Hx) as Hxin.
  assert (forall y b, y ∈ s_free sp' ++ s_used sp' -> y <> x -> y.1 <= b < y.1 + y.2 -> ~ (x.1 + 16 <= b < x.1 + 8208)) as Hsep.
  { intros y b Hy Hne Hb. pose proof (blocks_ok_sep _ _ _ _ Hok Hy (Hin x Hxin) Hne). unfold separate in *. lia. }
  rewrite Hu in Hnd. apply NoDup_app in Hnd as (_ & _ & Hnd). apply NoDup_app in Hnd as (Hnd1 & Hnd2 & _).
  rewrite reverse_Permutation in Hnd1. split; [|split].
  - apply rep_set_ram; [done|]. intros y b Hy Hb. apply Hm. destruct (decide (y = x)) as [->|Hne]; [lia|].
    destruct (blocks_ok_wf _ _ _ Hok Hy) as (?&?&?&?&?). apply (Hsep y); [done|done|lia].
  - intros y b Hy Hb. apply Hm, (Hsep y); [rewrite Hu, !elem_of_app; auto| |done].
    intros ->. apply (Hnd2 x); [by apply elem_of_reverse|done].
  - intros j y b Hy Hne Hb. apply Hm. pose proof (Forall_lookup_1 _ _ _ _ Hsz Hy) as Hysz. cbv beta in Hysz.
    apply (Hsep y); [by apply Hin, (list_elem_of_lookup_2 _ j)| |lia].
    intros ->. apply Hne. by apply (NoDup_lookup bl _ _ x).
Qed.

(** C17: The receive buffers are as large as the card is told.  Initialising the
    receive side returns with the receive control register naming a buffer size
    of MAX_PACKET_SIZE bytes, with the ring's length that of its descriptors, and
    with long packets, loopback and filters off; and whatever the card writes into
    the buffer of a descriptor, up to that size, leaves the heap's structure, every
    block allocated before and the buffers of the other descriptors as they
    were. *)
Theorem receive_buffers_as_told fuel (s : nic_state D) a e sp :
  n_e1000 s = Some (a, e) -> length (rx_descs e) = 32%nat ->
  heap_rep (n_heap s) sp -> (length (s_free sp) < fuel)%nat ->
  s_brk sp + 32 * gross 8208 <= HEAP_START + HEAP_SIZE ->
  exists s' e' sp' l v, init_receive_descriptors fuel s = Done (tt, s') /\ n_e1000 s' = Some (a, e') /\
    heap_rep (n_heap s') sp' /\ n_dev s' = program_registers (e_mem_base e) l (n_dev s) /\
    last_written REG_RCTRL l = Some v /\ rctl_buffer_size v = Some MAX_PACKET_SIZE /\ Z.land v RCTL_EN = RCTL_EN /\
    Forall (fun f => Z.land v f = 0) [RCTL_LPE; RCTL_LBM_PHY; RCTL_VFE; RCTL_CFIEN; RCTL_DPF] /\
    last_written REG_RXDESCLEN l = Some (sizeof_rx_desc * Z.of_nat (length (rx_descs e'))) /\
    forall i frame, (i < 32)%nat -> Z.of_nat (length frame) <= MAX_PACKET_SIZE ->
      let m := write_bytes (ram (n_heap s')) (rx_addr (rx_descs e' !!! i)) frame in
      heap_rep (set_ram m (n_heap s')) sp' /\
      (forall y x, y ∈ s_used sp -> y.1 <= x < y.1 + y.2 -> get8 m x = get8 (ram (n_heap s')) x) /\
      (forall j x, (j < 32)%nat -> i <> j ->
         rx_addr (rx_descs e' !!! j) <= x < rx_addr (rx_descs e' !!! j) + MAX_PACKET_SIZE ->
         get8 m x = get8 (ram (n_heap s')) x).
Proof.
  intros He Hlen Hrep Hfuel Hroom.
  destruct (init_receive_descriptors_spec fuel s a e sp) as (s1 & rx & sp1 & bl & Hrun & He1 & Hlen1
    & _ & Hrep1 & Hu1 & _ & Hsz & Hd1 & Hdesc & _); [done..|].
  pose proof (receive_blocks s1 sp sp1 bl Hrep1 Hu1 Hsz) as Hblocks.
  eexists s1, _, sp1, _, _. do 4 (split; [done|]). split; [vm_compute; reflexivity|].
  split; [by vm_compute|]. split; [by vm_compute|]. split; [by apply (bool_decide_unpack _); vm_compute|].
  split; [cbn [rx_descs with_cursors with_rx_descs]; rewrite Hlen1; by vm_compute|].
  intros i frame Hi Hframe. cbn [rx_descs with_cursors with_rx_descs].
  destruct (Hdesc i Hi) as (x & Hx & -> & _). destruct (Hblocks i x frame Hx Hframe) as (Hheap & Hused & Hother).
  split; [exact Hheap|]. split; [exact Hused|]. intros j b Hj Hne Hb.
  destruct (Hdesc j Hj) as (y & Hy & Ey & _). rewrite Ey in Hb. by apply (Hother j y).
Qed.

End Card.

(** ** Witness *)

(** A frame of four bytes in the first buffer leaves the second one alone. *)
Lemma receive_buffers_as_told_witness :
  exists s' e', init_receive_descriptors (cpu := LittleEndian) 1 (example_nic example_e1000) = Done (tt, s') /\
    n_e1000 s' = Some (0x5000010, e') /\
    get8 (write_bytes (ram (n_heap s')) (rx_addr (rx_descs e' !!! 0%nat)) [1; 2; 3; 4]) (rx_addr (rx_descs e' !!! 1%nat)) =
    get8 (ram (n_heap s')) (rx_addr (rx_descs e' !!! 1%nat)).
Proof.
  destruct (receive_buffers_as_told (cpu := LittleEndian) 1 (example_nic example_e1000)
    0x5000010 example_e1000 (mk_spec [] [] HEAP_START))
    as (s' & e' & sp' & l & v & Hr & He & _ & _ & _ & _ & _ & _ & _ & Hall).
  - reflexivity.
  - reflexivity.
  - apply initial_heap_rep.
  - simpl. lia.
  - vm_compute. intros [=].
  - exists s', e'. split; [exact Hr|]. split; [exact He|].
    destruct (Hall 0%nat [1; 2; 3; 4]) as (_ & _ & Hother); [lia|vm_compute; intros [=]|].
    apply (Hother 1%nat); [lia|discriminate|]. unfold MAX_PACKET_SIZE. lia.
Defined.
