(* ===== verification/Arm.v ===== *)
(** * The processor: what the assembly of the kernel does

    The kernel's hand-written assembly runs on an ARM926EJ-S, in ARM state.
    [arm] is the part of its state that code uses: the registers with the
    banked stack pointers, link registers and saved status registers of user,
    interrupt and supervisor mode, the status register, RAM and the devices.
    [exec] is one instruction; [None] stands for what the architecture leaves
    undefined or this file does not cover.  Code that a compiler generated is a
    parameter: one step runs such a function to its return.

    Two things the kernel does are left unpredictable by the architecture: the
    write-back of the base register in a store of user registers ([StmUser]),
    and an access to a banked register right after a load of user registers.
    Both are given the meaning the emulator of the board gives them. *)

From S2P Require Import Prelude Memory Heap Bus Interrupt.

(** ** State *)

Record bank := mk_bank { b_sp : Z; b_lr : Z; b_spsr : Z }.

Record arm (D : Type) := mk_arm {
  gpr : list Z;
  usr : bank;
  irq : bank;
  svc : bank;
  arm_pc : Z;
  arm_cpsr : Z;
  arm_mem : mem;
  arm_dev : D;
}.
Arguments mk_arm {D}.
Arguments gpr {D}.
Arguments usr {D}.
Arguments irq {D}.
Arguments svc {D}.
Arguments arm_pc {D}.
Arguments arm_cpsr {D}.
Arguments arm_mem {D}.
Arguments arm_dev {D}.

Inductive mode := Usr | Irq | Svc.

#[export] Instance mode_eq_dec : EqDecision mode.
Proof. solve_decision. Defined.

(** System mode shares the registers of user mode but is privileged; it is not
    used. *)
Definition mode_of (c : Z) : option mode :=
  let m := Z.land c 0x1f in
  if m =? 0x10 then Some Usr else if m =? 0x12 then Some Irq else if m =? 0x13 then Some Svc else None.

(** [r0] to [r12] are the numbers 0 to 12. *)
Definition SP : nat := 13.
Definition LR : nat := 14.

(** The instructions the assembly uses. Immediate operands are those the
    assembler accepts; [LdrConst] is [ldr rd, =constant]. *)
Inductive instr :=
| Mov (rd rm : nat)
| MovImm (rd : nat) (imm : Z)
| AddImm (rd rn : nat) (imm : Z)
| SubImm (rd rn : nat) (imm : Z)
| BicImm (rd rn : nat) (imm : Z)
| OrrImm (rd rn : nat) (imm : Z)
| Cmp (rn rm : nat)
| LdrConst (rd : nat) (value : Z)
| Ldr (rd rn : nat) (offset : Z)
| LdrPost (rd rn : nat) (offset : Z)
| Str (rd rn : nat) (offset : Z)
| StrPost (rd rn : nat) (offset : Z)
| Push (regs : list nat)
| Pop (regs : list nat)
| StmUser (rn : nat) (regs : list nat)
| LdmUser (rn : nat) (regs : list nat)
| LdmReturn (rn : nat)
| MovsReturn
| MrsCpsr (rd : nat)
| MrsSpsr (rd : nat)
| MsrCpsr (mask : Z) (rm : nat)
| MsrSpsr (mask : Z) (rm : nat)
| B (target : Z)
| Beq (target : Z)
| Bl (target : Z)
| Blx (rm : nat)
| BxLr
| Svc_.

(** The fields [msr cpsr, ...] writes, flags and control, and those of
    [msr cpsr_c, ...]. *)
Definition PSR_fc : Z := 0xff0000ff.
Definition PSR_c : Z := 0xff.

Definition merge_psr (mask old new : Z) : Z := Z.lor (Z.land old (Z.lnot mask)) (Z.land new mask).

Section Machine.
Context {D : Type} `{Bus D} {cpu : Cpu}.

Definition set_gpr (l : list Z) (a : arm D) : arm D :=
  mk_arm l (usr a) (irq a) (svc a) (arm_pc a) (arm_cpsr a) (arm_mem a) (arm_dev a).
Definition set_pc (v : Z) (a : arm D) : arm D :=
  mk_arm (gpr a) (usr a) (irq a) (svc a) v (arm_cpsr a) (arm_mem a) (arm_dev a).
Definition set_psr (v : Z) (a : arm D) : arm D :=
  mk_arm (gpr a) (usr a) (irq a) (svc a) (arm_pc a) v (arm_mem a) (arm_dev a).
Definition set_memory (m : mem) (a : arm D) : arm D :=
  mk_arm (gpr a) (usr a) (irq a) (svc a) (arm_pc a) (arm_cpsr a) m (arm_dev a).
Definition set_devices (d : D) (a : arm D) : arm D :=
  mk_arm (gpr a) (usr a) (irq a) (svc a) (arm_pc a) (arm_cpsr a) (arm_mem a) d.

Definition bank_of (m : mode) (a : arm D) : bank :=
  match m with Usr => usr a | Irq => irq a | Svc => svc a end.

Definition set_bank (m : mode) (b : bank) (a : arm D) : arm D :=
  match m with
  | Usr => mk_arm (gpr a) b (irq a) (svc a) (arm_pc a) (arm_cpsr a) (arm_mem a) (arm_dev a)
  | Irq => mk_arm (gpr a) (usr a) b (svc a) (arm_pc a) (arm_cpsr a) (arm_mem a) (arm_dev a)
  | Svc => mk_arm (gpr a) (usr a) (irq a) b (arm_pc a) (arm_cpsr a) (arm_mem a) (arm_dev a)
  end.

(** Registers of a mode: the first thirteen are shared. *)
Definition reg_in (m : mode) (r : nat) (a : arm D) : option Z :=
  match r with
  | 13 => Some (b_sp (bank_of m a))
  | 14 => Some (b_lr (bank_of m a))
  | _ => gpr a !! r
  end%nat.

Definition set_reg_in (m : mode) (r : nat) (v : Z) (a : arm D) : arm D :=
  match r with
  | 13 => set_bank m (mk_bank v (b_lr (bank_of m a)) (b_spsr (bank_of m a))) a
  | 14 => set_bank m (mk_bank (b_sp (bank_of m a)) v (b_spsr (bank_of m a))) a
  | _ => set_gpr (<[r := v]> (gpr a)) a
  end%nat.

Definition get_reg (r : nat) (a : arm D) : option Z := m ← mode_of (arm_cpsr a); reg_in m r a.
Definition set_reg (r : nat) (v : Z) (a : arm D) : option (arm D) :=
  m ← mode_of (arm_cpsr a); Some (set_reg_in m r v a).

(** The saved status register; user mode has none. *)
Definition get_spsr (a : arm D) : option Z :=
  match mode_of (arm_cpsr a) with Some Irq => Some (b_spsr (irq a)) | Some Svc => Some (b_spsr (svc a)) | _ => None end.

Definition set_spsr (v : Z) (a : arm D) : option (arm D) :=
  match mode_of (arm_cpsr a) with
  | Some Irq => Some (set_bank Irq (mk_bank (b_sp (irq a)) (b_lr (irq a)) v) a)
  | Some Svc => Some (set_bank Svc (mk_bank (b_sp (svc a)) (b_lr (svc a)) v) a)
  | _ => None
  end.

(** ** Memory *)

(** Word accesses; what an unaligned one does is not covered. *)
Definition load_word (p : Z) (a : arm D) : option (Z * arm D) :=
  if negb (p mod 4 =? 0) then None
  else if p <? RAM_SIZE then Some (load cpu_endian 4 (arm_mem a) p, a)
  else let '(v, d) := bus_read 4 p (arm_dev a) in Some (u32 v, set_devices d a).

Definition store_word (p v : Z) (a : arm D) : option (arm D) :=
  if negb (p mod 4 =? 0) then None
  else if p <? RAM_SIZE then Some (set_memory (store cpu_endian 4 (arm_mem a) p v) a)
  else Some (set_devices (bus_write 4 p v (arm_dev a)) a).

(** The registers [rs] of mode [m] to ascending addresses from [p] on, and
    back; the mode is the current one but for the user-register forms. *)
Fixpoint store_regs (m : mode) (rs : list nat) (p : Z) (a : arm D) : option (arm D) :=
  match rs with
  | [] => Some a
  | r :: rs' => v ← reg_in m r a; a ← store_word p v a; store_regs m rs' (u32 (p + 4)) a
  end.

Fixpoint load_regs (m : mode) (rs : list nat) (p : Z) (a : arm D) : option (arm D) :=
  match rs with
  | [] => Some a
  | r :: rs' =>
      '(v, a) ← load_word p a;
      load_regs m rs' (u32 (p + 4)) (set_reg_in m r v a)
  end.

(** ** Execution *)

(** Condition flags of [x - y]. *)
Definition compare_flags (x y : Z) : Z :=
  let res := u32 (x - y) in
  Z.lor (Z.lor (if Z.testbit res 31 then Z.shiftl 1 31 else 0) (if res =? 0 then Z.shiftl 1 30 else 0))
    (Z.lor (if y <=? x then Z.shiftl 1 29 else 0)
       (if i32 x - i32 y =? i32 (x - y) then 0 else Z.shiftl 1 28)).

(** A return from an exception: the saved status register becomes the current
    one; in ARM state instructions are words. *)
Definition exception_return (target : Z) (a : arm D) : option (arm D) :=
  s ← get_spsr a;
  Some (set_pc (Z.land target (Z.lnot (if Z.testbit s 5 then 1 else 3))) (set_psr s a)).

(** The status register on entry to an exception: ARM state, interrupts off. *)
Definition exception_psr (c mode : Z) : Z :=
  Z.lor (Z.lor (Z.land c (Z.lnot 0x3f)) mode) 0x80.

Definition bytes_of (rs : list nat) : Z := 4 * Z.of_nat (length rs).

(** [a] has the address of the next instruction in its pc. *)
Definition exec (i : instr) (a : arm D) : option (arm D) :=
  match i with
  | Mov rd rm => v ← get_reg rm a; set_reg rd v a
  | MovImm rd imm => set_reg rd (u32 imm) a
  | AddImm rd rn imm => v ← get_reg rn a; set_reg rd (u32 (v + imm)) a
  | SubImm rd rn imm => v ← get_reg rn a; set_reg rd (u32 (v - imm)) a
  | BicImm rd rn imm => v ← get_reg rn a; set_reg rd (Z.land v (Z.lnot imm)) a
  | OrrImm rd rn imm => v ← get_reg rn a; set_reg rd (Z.lor v imm) a
  | Cmp rn rm =>
      x ← get_reg rn a; y ← get_reg rm a;
      Some (set_psr (Z.lor (compare_flags x y) (Z.land (arm_cpsr a) 0x0fffffff)) a)
  | LdrConst rd value => set_reg rd value a
  | Ldr rd rn offset =>
      p ← get_reg rn a; '(v, a) ← load_word (u32 (p + offset)) a; set_reg rd v a
  | LdrPost rd rn offset =>
      p ← get_reg rn a; '(v, a) ← load_word p a; a ← set_reg rn (u32 (p + offset)) a; set_reg rd v a
  | Str rd rn offset =>
      p ← get_reg rn a; v ← get_reg rd a; store_word (u32 (p + offset)) v a
  | StrPost rd rn offset =>
      p ← get_reg rn a; v ← get_reg rd a; a ← store_word p v a; set_reg rn (u32 (p + offset)) a
  | Push rs =>
      m ← mode_of (arm_cpsr a); p ← get_reg SP a;
      a ← store_regs m rs (u32 (p - bytes_of rs)) a; set_reg SP (u32 (p - bytes_of rs)) a
  | Pop rs =>
      m ← mode_of (arm_cpsr a); p ← get_reg SP a;
      a ← set_reg SP (u32 (p + bytes_of rs)) a; load_regs m rs p a
  | StmUser rn rs =>
      p ← get_reg rn a; a ← store_regs Usr rs p a; set_reg rn (u32 (p + bytes_of rs)) a
  | LdmUser rn rs => p ← get_reg rn a; load_regs Usr rs p a
  | LdmReturn rn => p ← get_reg rn a; '(v, a) ← load_word p a; exception_return v a
  | MovsReturn => v ← get_reg LR a; exception_return v a
  | MrsCpsr rd => set_reg rd (arm_cpsr a) a
  | MrsSpsr rd => s ← get_spsr a; set_reg rd s a
  | MsrCpsr mask rm =>
      v ← get_reg rm a; m ← mode_of (arm_cpsr a);
      Some (set_psr (merge_psr (if decide (m = Usr) then Z.land mask 0xf0000000 else mask) (arm_cpsr a) v) a)
  | MsrSpsr mask rm => v ← get_reg rm a; s ← get_spsr a; set_spsr (merge_psr mask s v) a
  | B target => Some (set_pc target a)
  | Beq target => Some (if Z.testbit (arm_cpsr a) 30 then set_pc target a else a)
  | Bl target => a' ← set_reg LR (arm_pc a) a; Some (set_pc target a')
  | Blx rm => v ← get_reg rm a; a' ← set_reg LR (arm_pc a) a; Some (set_pc v a')
  | BxLr => v ← get_reg LR a; Some (set_pc v a)
  | Svc_ =>
      Some (set_pc 0x08 (set_psr (exception_psr (arm_cpsr a) 0x13)
        (set_bank Svc (mk_bank (b_sp (svc a)) (arm_pc a) (arm_cpsr a)) a)))
  end.

(** The assembly in memory at [base]. *)
Definition code_at (base : Z) (l : list instr) (p : Z) : option instr :=
  if (base <=? p) && ((p - base) mod 4 =? 0) then l !! Z.to_nat ((p - base) / 4) else None.

(** [code] is the assembly, [compiled] the C functions: called at an address,
    such a function runs until it returns. Below 0x20 are the vectors. *)
Variable code : Z -> option instr.
Variable compiled : Z -> option (arm D -> arm D).

Definition step (a : arm D) : option (arm D) :=
  if arm_pc a <? 0x20
  then t ← vector_target (arm_mem a) (arm_pc a); Some (set_pc t a)
  else
    match code (arm_pc a) with
    | Some i => exec i (set_pc (u32 (arm_pc a + 4)) a)
    | None => f ← compiled (arm_pc a); Some (f a)
    end.

Fixpoint steps (n : nat) (a : arm D) : option (arm D) :=
  match n with
  | O => Some a
  | S n' => a ← step a; steps n' a
  end.

(** An interrupt request, when interrupts are on. *)
Definition raise_irq (a : arm D) : option (arm D) :=
  if Z.testbit (arm_cpsr a) 7 then None
  else Some (set_pc 0x18 (set_psr (exception_psr (arm_cpsr a) 0x12)
    (set_bank Irq (mk_bank (b_sp (irq a)) (u32 (arm_pc a + 4)) (arm_cpsr a)) a))).

End Machine.

(** The [i]th instruction of assembly at [base]. *)
Definition at_ (base : Z) (i : nat) : Z := base + 4 * Z.of_nat i.

(** *** Words in memory *)

Fixpoint store_words {cpu : Cpu} (m : mem) (p : Z) (ws : list Z) : mem :=
  match ws with
  | [] => m
  | w :: ws' => store_words (store cpu_endian 4 m p w) (p + 4) ws'
  end.

Fixpoint load_words {cpu : Cpu} (m : mem) (p : Z) (n : nat) : list Z :=
  match n with
  | O => []
  | S n' => load cpu_endian 4 m p :: load_words m (p + 4) n'
  end.

(** ** Running code *)

Section Running.
Context {D : Type} `{Bus D} {cpu : Cpu} (code : Z -> option instr) (compiled : Z -> option (arm D -> arm D)).

Abbreviation run := (steps code compiled).

(** The assembly [l] is in memory at [base]. *)
Definition holds (base : Z) (l : list instr) : Prop :=
  0x20 <= base /\ base + 4 * Z.of_nat (length l) < 0x80000000 /\
  (forall i ins, l !! i = Some ins -> code (at_ base i) = Some ins).

(** One instruction of it. *)
Lemma step_held base l i ins a n :
  holds base l -> l !! i = Some ins -> arm_pc a = at_ base i ->
  run (S n) a = (a' ← exec ins (set_pc (at_ base (S i)) a); run n a').
Proof.
  intros (Hlow & Hhigh & Hl) Hi Hpc. pose proof (lookup_lt_Some _ _ _ Hi).
  unfold steps at 1. fold run. unfold step. rewrite Hpc, (proj2 (Z.ltb_ge _ _)) by (unfold at_; lia).
  rewrite (Hl i ins Hi). assert (u32 (at_ base i + 4) = at_ base (S i)) as ->; [|done].
  rewrite u32_id by (unfold is_u32, at_; lia). unfold at_. lia.
Qed.

(** A compiled function. *)
Lemma step_compiled p f a n :
  compiled p = Some f -> code p = None -> 0x20 <= p -> arm_pc a = p -> run (S n) a = run n (f a).
Proof.
  intros Hf Hc Hp Hpc. cbn [steps]. unfold step. rewrite Hpc, (proj2 (Z.ltb_ge _ _)) by lia. by rewrite Hc, Hf.
Qed.

(** A vector. *)
Lemma step_vector v (a : arm D) t n :
  v < 0x20 -> arm_pc a = v -> vector_target (arm_mem a) v = Some t -> run (S n) a = run n (set_pc t a).
Proof.
  intros Hv Hpc Ht. unfold steps at 1. fold run. unfold step. rewrite Hpc, (proj2 (Z.ltb_lt _ _)) by done.
  by rewrite Ht.
Qed.

Lemma steps_add n k a : run (n + k) a = (a' ← run n a; run k a').
Proof.
  revert a. induction n as [|n IH]; intros a; [done|]. cbn [Nat.add steps].
  destruct (step _ _ a) as [a'|]; [|done]. apply IH.
Qed.

(** Some number of steps later. *)
Definition reaches (a a' : arm D) : Prop := exists n, run n a = Some a'.

Lemma reaches_trans a b c : reaches a b -> reaches b c -> reaches a c.
Proof. intros [n Hn] [k Hk]. exists (n + k)%nat. by rewrite steps_add, Hn. Qed.

End Running.

Lemma code_at_holds base l :
  0x20 <= base -> base + 4 * Z.of_nat (length l) < 0x80000000 -> holds (code_at base l) base l.
Proof.
  intros Hlow Hhigh. split; [done|]. split; [done|]. intros i ins Hi. unfold code_at, at_.
  rewrite (proj2 (Z.leb_le _ _)) by lia.
  replace (base + 4 * Z.of_nat i - base) with (Z.of_nat i * 4) by lia.
  rewrite Z.mod_mul, Z.div_mul by lia. cbn [andb Z.eqb]. by rewrite Nat2Z.id.
Qed.

Section Accesses.
Context {D : Type} `{Bus D} {cpu : Cpu}.

Lemma load_word_ram p (a : arm D) :
  p mod 4 = 0 -> p < RAM_SIZE -> load_word p a = Some (load cpu_endian 4 (arm_mem a) p, a).
Proof. intros Hm Hr. unfold load_word. by rewrite Hm, (proj2 (Z.ltb_lt _ _)). Qed.

Lemma store_word_ram p v (a : arm D) :
  p mod 4 = 0 -> p < RAM_SIZE -> store_word p v a = Some (set_memory (store cpu_endian 4 (arm_mem a) p v) a).
Proof. intros Hm Hr. unfold store_word. by rewrite Hm, (proj2 (Z.ltb_lt _ _)). Qed.

Lemma store_word_device p v (a : arm D) :
  p mod 4 = 0 -> RAM_SIZE <= p -> store_word p v a = Some (set_devices (bus_write 4 p v (arm_dev a)) a).
Proof. intros Hm Hr. unfold store_word. by rewrite Hm, (proj2 (Z.ltb_ge _ _)). Qed.

End Accesses.

Section Words.
Context {cpu : Cpu}.

Lemma load_words_ext m m' p n :
  (forall x, p <= x < p + 4 * Z.of_nat n -> get8 m' x = get8 m x) -> load_words m' p n = load_words m p n.
Proof.
  revert p. induction n as [|n IH]; intros p Hx; [done|]. cbn [load_words].
  f_equal; [apply load_ext; intros; apply Hx; lia|apply IH; intros; apply Hx; lia].
Qed.

Lemma store_words_outside m p ws x :
  ~ (p <= x < p + 4 * Z.of_nat (length ws)) -> get8 (store_words m p ws) x = get8 m x.
Proof.
  revert m p. induction ws as [|w ws IH]; intros m p Hx; [done|]. cbn [store_words length] in *.
  rewrite IH by lia. apply store_same_outside. lia.
Qed.

Lemma load_store_words m p ws :
  Forall is_u32 ws -> load_words (store_words m p ws) p (length ws) = ws.
Proof.
  revert m p. induction ws as [|w ws IH]; intros m p Hws; [done|]. apply Forall_cons in Hws as [Hw Hws].
  cbn [store_words load_words length]. f_equal; [|by apply IH].
  rewrite (load_ext _ _ _ (store cpu_endian 4 m p w)).
  - rewrite load_store_same. by apply u32_id.
  - intros x Hx. apply store_words_outside. lia.
Qed.

Lemma load_words_nth m p n i :
  (i < n)%nat -> load cpu_endian 4 m (p + 4 * Z.of_nat i) = nth i (load_words m p n) 0.
Proof.
  revert p i. induction n as [|n IH]; intros p [|i] Hi; cbn [load_words nth]; [lia|lia|f_equal; lia|].
  rewrite <- IH by lia. f_equal. lia.
Qed.

End Words.

(** ** Symbolic execution *)

Ltac arm_bounds := unfold is_u32, at_, separate, RAM_SIZE.

Lemma aligned_plus p c : p mod 4 = 0 -> c mod 4 = 0 -> (p + c) mod 4 = 0.
Proof. intros. word_lia. Qed.

Ltac arm_aligned := first [assumption | reflexivity | apply aligned_plus; [assumption|reflexivity]].

(** Several registers at once. *)
Fixpoint set_regs {D} (m : mode) (rs : list nat) (ws : list Z) (a : arm D) : arm D :=
  match rs, ws with
  | r :: rs', w :: ws' => set_regs m rs' ws' (set_reg_in m r w a)
  | _, _ => a
  end.

Lemma set_reg_in_mem {D} m r v (a : arm D) : arm_mem (set_reg_in m r v a) = arm_mem a.
Proof. do 15 (destruct r as [|r]; [by destruct m|]). done. Qed.

Lemma reg_in_memory {D} m r v (a : arm D) : reg_in m r (set_memory v a) = reg_in m r a.
Proof. do 15 (destruct r as [|r]; [by destruct m|]). done. Qed.

Section Registers.
Context {D : Type} `{Bus D} {cpu : Cpu}.

Lemma load_regs_ram m rs p (a : arm D) :
  p mod 4 = 0 -> 0 <= p -> p + 4 * Z.of_nat (length rs) <= RAM_SIZE ->
  load_regs m rs p a = Some (set_regs m rs (load_words (arm_mem a) p (length rs)) a).
Proof.
  revert p a. induction rs as [|r rs IH]; intros p a Hp H0 Hr; [done|].
  cbn [load_regs length set_regs load_words] in *. rewrite load_word_ram by (done || lia).
  cbn [mbind option_bind]. rewrite u32_id by (unfold is_u32, RAM_SIZE in *; lia).
  rewrite IH by (apply aligned_plus || lia; done). by rewrite set_reg_in_mem.
Qed.

Lemma store_regs_ram m rs ws p (a : arm D) :
  p mod 4 = 0 -> 0 <= p -> p + 4 * Z.of_nat (length rs) <= RAM_SIZE ->
  mapM (fun r => reg_in m r a) rs = Some ws ->
  store_regs m rs p a = Some (set_memory (store_words (arm_mem a) p ws) a).
Proof.
  intros Hp H0 Hr Hws%mapM_Some. revert p a Hp H0 Hr Hws. revert ws.
  induction rs as [|r rs IH]; intros ws p a Hp H0 Hr Hws.
  { apply Forall2_nil_inv_l in Hws as ->. by destruct a. }
  apply Forall2_cons_inv_l in Hws as (w & ws' & Hw & Hws & ->).
  cbn [store_regs length store_words] in *. rewrite Hw. cbn [mbind option_bind].
  rewrite store_word_ram by (done || lia). cbn [mbind option_bind].
  rewrite u32_id by (unfold is_u32, RAM_SIZE in *; lia).
  rewrite (IH ws') by first [done | lia | by apply aligned_plus
    | eapply Forall2_impl; [exact Hws|]; cbn; intros; by rewrite reg_in_memory]. done.
Qed.

End Registers.

(** Registers of a state given one by one. *)
Ltac arm_simpl :=
  cbv beta iota zeta delta
    [exec get_reg set_reg reg_in set_reg_in get_spsr set_spsr bank_of set_bank set_gpr set_pc set_psr set_memory
     set_devices gpr usr irq svc arm_pc arm_cpsr arm_mem arm_dev b_sp b_lr b_spsr mbind option_bind
     lookup list_lookup insert list_insert SP LR set_regs load_words].

Lemma load_store_words_separate {cpu : Cpu} m p ws q :
  separate p (4 * Z.of_nat (length ws)) q 4 -> load cpu_endian 4 (store_words m p ws) q = load cpu_endian 4 m q.
Proof. intros Hs. apply load_ext. intros x Hx. apply store_words_outside. unfold separate in Hs. lia. Qed.

(** Addresses are a base and a constant. *)
Ltac arm_words :=
  repeat match goal with
  | |- context [?x + 0] => rewrite (Z.add_0_r x)
  | |- context [?x + Zpos ?p + Zpos ?q] =>
      rewrite <- (Z.add_assoc x (Zpos p) (Zpos q));
      let r := eval cbv in (Zpos p + Zpos q) in change (Zpos p + Zpos q) with r
  | |- context [bytes_of ?l] => let r := eval cbv in (bytes_of l) in change (bytes_of l) with r
  | |- context [u32 ?x] => rewrite (u32_id x) by (arm_bounds; lia)
  end.

(** Accesses to RAM; a load behind a store elsewhere. *)
Ltac arm_memory :=
  repeat match goal with
  | |- context [load_word ?p ?a] => rewrite (load_word_ram p a) by (first [arm_aligned | arm_bounds; lia]); arm_simpl
  | |- context [load_regs ?m ?l ?p ?a] => rewrite (load_regs_ram m l p a) by (cbn [length]; first [arm_aligned | arm_bounds; lia]); cbn [length]; arm_simpl
  | |- context [store_regs ?m ?l ?p ?a] =>
      let o := eval cbv beta iota zeta delta [mapM mbind option_bind mret option_ret reg_in bank_of gpr usr irq svc b_sp b_lr lookup list_lookup] in (mapM (fun r => reg_in m r a) l) in
      match o with
      | Some ?ws => rewrite (store_regs_ram m l ws p a) by first [reflexivity | arm_aligned | cbn [length]; arm_bounds; lia]; arm_simpl
      end
  | |- context [store_word ?p ?v ?a] => rewrite (store_word_ram p v a) by (first [arm_aligned | arm_bounds; lia]); arm_simpl
  | |- context [load ?e 4 (store ?e 4 ?m ?q ?v) ?p] =>
      rewrite (load_store_separate e 4 4 m q p v) by (arm_bounds; lia)
  | |- context [load _ 4 (store_words ?m ?q ?ws) ?p] =>
      rewrite (load_store_words_separate m q ws p) by (cbn [length]; arm_bounds; lia)
  end.

(** The [i]th instruction of the code held by [H], executed on a state given
    register by register, in a mode known from [Hmode]. *)
Ltac arm_step H i Hmode :=
  rewrite (step_held _ _ _ _ i _ _ _ H eq_refl) by reflexivity; arm_simpl;
  repeat (progress (rewrite ?Hmode; arm_simpl; arm_words; arm_memory)).

(** A status register without reserved bits. *)
Definition psr_ok (c : Z) : Prop := is_u32 c /\ Z.land c 0x00ffff00 = 0.

Lemma merge_psr_fc old new : psr_ok old -> psr_ok new -> merge_psr PSR_fc old new = new.
Proof.
  intros [Ho Ho0] [Hn Hn0]. unfold merge_psr, PSR_fc.
  assert (forall c, is_u32 c -> Z.land c 0x00ffff00 = 0 -> Z.land c 0xff0000ff = c) as Hkeep.
  { intros c Hc Hc0. assert (Z.land c (Z.ones 32) = c) as E by (rewrite Z.land_ones by lia; by apply Z.mod_small).
    rewrite <- E at 2. change (Z.ones 32) with (Z.lor 0xff0000ff 0x00ffff00).
    by rewrite Z.land_lor_distr_r, Hc0, Z.lor_0_r. }
  rewrite (Hkeep new), <- (Hkeep old) by done.
  rewrite <- Z.land_assoc. change (Z.land 0xff0000ff (Z.lnot 0xff0000ff)) with 0. by rewrite Z.land_0_r.
Qed.

Lemma aligned_target p : p mod 4 = 0 -> Z.land p (Z.lnot 3) = p.
Proof.
  intros Hp. change 3 with (Z.ones 2). rewrite <- Z.ldiff_land, Z.ldiff_ones_r by lia.
  rewrite Z.shiftr_div_pow2, Z.shiftl_mul_pow2 by lia. change (2 ^ 2) with 4. word_lia.
Qed.

Lemma list_13 (l : list Z) : length l = 13%nat ->
  exists x0 x1 x2 x3 x4 x5 x6 x7 x8 x9 x10 x11 x12, l = [x0; x1; x2; x3; x4; x5; x6; x7; x8; x9; x10; x11; x12].
Proof.
  intros Hl. do 13 (destruct l as [|? l]; [done|]). destruct l; [|done]. by repeat eexists.
Qed.

Lemma exception_psr_facts c m : m = 0x12 \/ m = 0x13 ->
  Z.land (exception_psr c m) 0x1f = m /\ Z.testbit (exception_psr c m) 7 = true.
Proof.
  intros Hm. unfold exception_psr. split.
  - rewrite !Z.land_lor_distr_l, <- Z.land_assoc. change (Z.land (Z.lnot 0x3f) 0x1f) with 0.
    rewrite Z.land_0_r. by destruct Hm as [->| ->].
  - by rewrite Z.lor_spec, orb_true_r.
Qed.
