(* ===== verification/ContextSwitch.v ===== *)
(** * The context switch in assembly: kernel/interrupt_handler.S

    Interrupt.v says what saving and loading a task's registers means; here are
    the instructions that do it.  They are proved to implement that model: from
    the interrupt request through the vector table, the save, the C function
    [handle_interrupt] and the load to the return from the exception.  How the
    compiler lays out the C variables is the interface [Layout], and a compiled
    C function is a parameter that keeps the procedure call standard. *)

From S2P Require Import Prelude StateMonad Memory Bus Heap Clock Scheduler PacketQueue E1000 Interrupt Arm.

(** ** Definitions *)

(** [task_t] in memory: seventeen words. *)
Definition task_words (t : task_t) : list Z := reg t ++ [sp t; lr t; pc t; cpsr t].
Definition sizeof_task_t : Z := 68.

(** Where the compiler and the linker put the variables the assembly uses, and
    how the other variables and the heap are represented. *)
Class Layout (D : Type) := {
  current_task_at : Z;
  tasks_at : Z;
  others : kernel D -> mem -> Prop;
  ly_aligned : current_task_at mod 4 = 0 /\ tasks_at mod 4 = 0;
  ly_current : 0x10000 <= current_task_at <= IRQ_STACK_ADDRESS - STACK_SIZE - 4;
  ly_tasks : 0x10000 <= tasks_at <= IRQ_STACK_ADDRESS - STACK_SIZE - 16 * sizeof_task_t;
  ly_separate : separate current_task_at 4 tasks_at (16 * sizeof_task_t);
  others_memory k m m' : others k m ->
    (forall x, ~ (tasks_at <= x < tasks_at + 16 * sizeof_task_t) ->
       ~ (IRQ_STACK_ADDRESS - STACK_SIZE <= x < IRQ_STACK_ADDRESS) -> get8 m' x = get8 m x) -> others k m';
  others_context k c m : others k m -> others (set_k_context c k) m;
  others_tasks k l m : others k m ->
    others (set_k_sched (with_tasks (k_sched k) (task_count (k_sched k)) l) k) m;
  others_device k d m : others k m -> others (set_k_nic (set_n_dev d (k_nic k)) k) m;
}.

Abbreviation r0_r2_lr := ([0; 1; 2; 14]%nat).
Abbreviation r3_r12_sp_lr := ([3; 4; 5; 6; 7; 8; 9; 10; 11; 12; 13; 14]%nat).
Abbreviation r0_r14 := ([0; 1; 2; 3; 4; 5; 6; 7; 8; 9; 10; 11; 12; 13; 14]%nat).

Section Code.
Context {D : Type} {layout : Layout D}.

(** The assembly is linked at [base]; the two C functions it calls, at
    [schedule_at] and [handle_interrupt_at]. *)
Variables base schedule_at handle_interrupt_at : Z.

Definition irq_handler_timer_code : list instr :=
  [Push r0_r2_lr;
   Bl schedule_at;
   LdrConst 0 TIMER1_INTCLR;
   MovImm 1 0x1;
   Str 1 0 0;
   Pop r0_r2_lr;
   BxLr].

Definition save_current_task_state_at : Z := at_ base 13.
Definition load_current_task_state_at : Z := at_ base 28.

Definition irq_handler_code : list instr :=
  [Push r0_r2_lr;
   Mov 0 SP;
   Bl save_current_task_state_at;
   Bl handle_interrupt_at;
   Pop r0_r2_lr;
   B load_current_task_state_at].

Definition save_current_task_state_code : list instr :=
  [LdrConst 2 current_task_at;
   Ldr 2 2 0;
   LdrPost 1 0 4;
   StrPost 1 2 4;
   LdrPost 1 0 4;
   StrPost 1 2 4;
   LdrPost 1 0 4;
   StrPost 1 2 4;
   StmUser 2 r3_r12_sp_lr;
   Ldr 1 0 0;
   SubImm 1 1 4;
   StrPost 1 2 4;
   MrsSpsr 1;
   StrPost 1 2 4;
   BxLr].

Definition load_current_task_state_code : list instr :=
  [LdrConst 0 current_task_at;
   Ldr 0 0 0;
   Ldr 1 0 64;
   MsrSpsr PSR_fc 1;
   AddImm LR 0 60;
   LdmUser 0 r0_r14;
   LdmReturn LR].

Definition interrupt_handler_code : list instr :=
  irq_handler_timer_code ++ irq_handler_code ++ save_current_task_state_code ++ load_current_task_state_code.

End Code.

(** ** The routines *)

Section Routines.
Context {D : Type} `{Bus D} {layout : Layout D} {cpu : Cpu} (base schedule_at handle_interrupt_at : Z)
  (text : Z -> option instr) (compiled : Z -> option (arm D -> arm D)).

Abbreviation code := (interrupt_handler_code base schedule_at handle_interrupt_at).
Abbreviation run := (steps text compiled).

Hypothesis code_held : holds text base code.

(** Saving: the four words at [r0] are the interrupted r0 to r2 and the return
    address. *)
Lemma save_run r1 r2 r3 r4 r5 r6 r7 r8 r9 r10 r11 r12 usp ulr us s spsr_ ret v c m d t w0 w1 w2 w3 :
  mode_of c = Some Irq -> load cpu_endian 4 m current_task_at = t ->
  t mod 4 = 0 -> tasks_at <= t <= tasks_at + 15 * sizeof_task_t ->
  s mod 4 = 0 -> IRQ_STACK_ADDRESS - STACK_SIZE <= s <= IRQ_STACK_ADDRESS - 16 ->
  load cpu_endian 4 m s = w0 -> load cpu_endian 4 m (s + 4) = w1 -> load cpu_endian 4 m (s + 8) = w2 ->
  load cpu_endian 4 m (s + 12) = w3 ->
  run 15 (mk_arm [s; r1; r2; r3; r4; r5; r6; r7; r8; r9; r10; r11; r12] (mk_bank usp ulr us) (mk_bank s ret spsr_)
    v (at_ base 13) c m d) =
  Some (mk_arm [s + 12; spsr_; t + 68; r3; r4; r5; r6; r7; r8; r9; r10; r11; r12] (mk_bank usp ulr us)
    (mk_bank s ret spsr_) v ret c
    (store_words m t [w0; w1; w2; r3; r4; r5; r6; r7; r8; r9; r10; r11; r12; usp; ulr; u32 (w3 - 4); spsr_]) d).
Proof.
  intros Hc Ht Htm Htr Hsm Hsr <- <- <- Hw3.
  destruct ly_aligned as [Ha1 Ha2]. pose proof ly_current as Hcur. pose proof ly_tasks as Htasks.
  unfold IRQ_STACK_ADDRESS, STACK_SIZE, sizeof_task_t in *.
  arm_step code_held 13%nat Hc. arm_step code_held 14%nat Hc. rewrite Ht. arm_step code_held 15%nat Hc.
  arm_step code_held 16%nat Hc. arm_step code_held 17%nat Hc. arm_step code_held 18%nat Hc. arm_step code_held 19%nat Hc. arm_step code_held 20%nat Hc.
  arm_step code_held 21%nat Hc. arm_step code_held 22%nat Hc. rewrite Hw3. arm_step code_held 23%nat Hc. arm_step code_held 24%nat Hc. arm_step code_held 25%nat Hc.
  arm_step code_held 26%nat Hc. arm_step code_held 27%nat Hc. cbn [steps store_words]. arm_words. reflexivity.
Qed.

(** Loading, in a privileged mode: the seventeen words at [t] become the
    registers of the task. *)
Lemma load_run M g0 g1 g2 g3 g4 g5 g6 g7 g8 g9 g10 g11 g12 us ib sb c m d t
    w0 w1 w2 w3 w4 w5 w6 w7 w8 w9 w10 w11 w12 w13 w14 w15 w16 :
  let a pc := mk_arm [g0; g1; g2; g3; g4; g5; g6; g7; g8; g9; g10; g11; g12] us ib sb pc c m d in
  mode_of c = Some M -> M <> Usr -> load cpu_endian 4 m current_task_at = t ->
  t mod 4 = 0 -> tasks_at <= t <= tasks_at + 15 * sizeof_task_t ->
  load_words m t 17 = [w0; w1; w2; w3; w4; w5; w6; w7; w8; w9; w10; w11; w12; w13; w14; w15; w16] ->
  psr_ok (b_spsr (bank_of M (a 0))) -> psr_ok w16 -> Z.testbit w16 5 = false -> w15 mod 4 = 0 ->
  run 7 (a (at_ base 28)) =
  Some (set_bank M (mk_bank (b_sp (bank_of M (a 0))) (t + 60) w16)
    (mk_arm [w0; w1; w2; w3; w4; w5; w6; w7; w8; w9; w10; w11; w12] (mk_bank w13 w14 (b_spsr us)) ib sb w15 w16 m d)).
Proof.
  intros a Hc HM Ht Htm Htr Hw Hold Hnew HT Hpc.
  destruct ly_aligned as [Ha1 Ha2]. pose proof ly_current as Hcur. pose proof ly_tasks as Htasks.
  unfold IRQ_STACK_ADDRESS, STACK_SIZE, sizeof_task_t in *.
  assert (forall i p, (i < 17)%nat -> p = t + 4 * Z.of_nat i -> load cpu_endian 4 m p =
    nth i [w0; w1; w2; w3; w4; w5; w6; w7; w8; w9; w10; w11; w12; w13; w14; w15; w16] 0) as Hn
    by (intros i p Hi ->; rewrite <- Hw; by apply load_words_nth).
  subst a. destruct us as [usp ulr uspsr].
  destruct M; [done|destruct ib as [s ret spsr_]|destruct sb as [s ret spsr_]]; cbn [bank_of irq svc b_spsr b_sp] in *;
    arm_step code_held 28%nat Hc; arm_step code_held 29%nat Hc; rewrite Ht; arm_step code_held 30%nat Hc; rewrite (Hn 16%nat (t + 64)) by lia;
    cbn [nth]; arm_step code_held 31%nat Hc; rewrite merge_psr_fc by done; arm_step code_held 32%nat Hc; arm_step code_held 33%nat Hc;
    rewrite (Hn 0%nat t), (Hn 1%nat (t + 4)), (Hn 2%nat (t + 8)), (Hn 3%nat (t + 12)), (Hn 4%nat (t + 16)),
      (Hn 5%nat (t + 20)), (Hn 6%nat (t + 24)), (Hn 7%nat (t + 28)), (Hn 8%nat (t + 32)), (Hn 9%nat (t + 36)),
      (Hn 10%nat (t + 40)), (Hn 11%nat (t + 44)), (Hn 12%nat (t + 48)), (Hn 13%nat (t + 52)), (Hn 14%nat (t + 56)) by lia;
    cbn [nth]; arm_step code_held 34%nat Hc; rewrite (Hn 15%nat (t + 60)) by lia; cbn [nth]; unfold exception_return, get_spsr;
    arm_simpl; rewrite Hc; arm_simpl; by rewrite HT, aligned_target by done.
Qed.

End Routines.

(** ** The kernel in memory *)

Definition task_at {D} {layout : Layout D} (i : nat) : Z := tasks_at + sizeof_task_t * Z.of_nat i.

(** What the assembly can rely on in a task structure: words, and code in ARM
    state. *)
Definition task_ok (t : task_t) : Prop :=
  length (reg t) = 13%nat /\ Forall is_u32 (task_words t) /\ pc t mod 4 = 0 /\
  psr_ok (cpsr t) /\ Z.testbit (cpsr t) 5 = false.

Section Refinement.
Context {D : Type} `{Bus D} {card : Card D} {layout : Layout D} {cpu : Cpu}.
Variable base : Z.

(** The scheduler's variables the assembly reads and writes. *)
Definition sched_in (s : sched) (m : mem) : Prop :=
  length (tasks s) = 16%nat /\
  (forall i t, tasks s !! i = Some t -> load_words m (task_at i) 17 = task_words t) /\
  (forall i, current_task s = Some i -> (i < 16)%nat) /\
  load cpu_endian 4 m current_task_at = match current_task s with Some i => task_at i | None => 0 end.

Definition kernel_in (k : kernel D) (a : arm D) : Prop :=
  sched_in (k_sched k) (arm_mem a) /\ Forall task_ok (tasks (k_sched k)) /\ others k (arm_mem a) /\
  arm_dev a = n_dev (k_nic k) /\ vector_target (arm_mem a) 0x18 = Some (at_ base 7).

(** The registers an interrupt saves. *)
Definition runs_task (t : task_t) (a : arm D) : Prop :=
  gpr a = reg t /\ b_sp (usr a) = sp t /\ b_lr (usr a) = lr t /\ arm_pc a = pc t /\ arm_cpsr a = cpsr t.

Definition represents (k : kernel D) (a : arm D) : Prop :=
  kernel_in k a /\ task_ok (k_context k) /\ runs_task (k_context k) a /\
  k_irq_sp k = IRQ_STACK_ADDRESS /\ b_sp (irq a) = IRQ_STACK_ADDRESS.

(** What a compiled function called in mode [M] keeps, by the procedure call
    standard: it returns to its caller with the stack pointer, r4 to r11 and the
    caller's stack as they were; it does not touch the banked registers of
    other modes or the saved status register. *)
Definition returned (M : mode) (a a' : arm D) : Prop :=
  arm_pc a' = b_lr (bank_of M a) /\ mode_of (arm_cpsr a') = Some M /\
  length (gpr a') = 13%nat /\ (forall r, (4 <= r < 12)%nat -> gpr a' !! r = gpr a !! r) /\
  (forall M', M' <> M -> bank_of M' a' = bank_of M' a) /\ b_sp (bank_of M a') = b_sp (bank_of M a) /\ b_spsr (bank_of M a') = b_spsr (bank_of M a) /\
  (forall x, b_sp (bank_of M a) <= x < IRQ_STACK_ADDRESS -> get8 (arm_mem a') x = get8 (arm_mem a) x).

(** *** Frame properties *)

Lemma vector_target_same v m m' :
  0 <= v < 0x20 -> (forall x, 0 <= x < 0x10000 -> get8 m' x = get8 m x) -> vector_target m' v = vector_target m v.
Proof.
  intros Hv Hx. unfold vector_target.
  rewrite (load_ext _ _ m' m) by (intros; apply Hx; lia).
  destruct (arm_ldr_pc v (load cpu_endian 4 m v)) as [a|] eqn:Ea; [|done]. cbn [mbind option_bind]. f_equal.
  apply load_ext. intros x Hr. apply Hx. unfold arm_ldr_pc in Ea. destruct (_ =? _); [|done]. injection Ea as <-.
  assert (0 <= Z.land (load cpu_endian 4 m v) 4095 < 4096) as Hl.
  { change 4095 with (Z.ones 12). rewrite Z.land_ones by lia. apply Z.mod_pos_bound. lia. }
  rewrite u32_id in Hr by (unfold is_u32; lia). lia.
Qed.

Lemma vector_target_ext m m' :
  (forall x, 0 <= x < 0x10000 -> get8 m' x = get8 m x) -> vector_target m' 0x18 = vector_target m 0x18.
Proof. by apply vector_target_same. Qed.

Lemma task_at_range i : (i < 16)%nat -> tasks_at <= task_at i <= tasks_at + 15 * sizeof_task_t /\ task_at i mod 4 = 0.
Proof.
  intros Hi. destruct ly_aligned as [_ Ha]. unfold task_at, sizeof_task_t. split; [lia|]. word_lia.
Qed.

Lemma task_at_apart i j : i <> j -> separate (task_at i) 68 (task_at j) 68.
Proof. unfold separate, task_at, sizeof_task_t. lia. Qed.

Lemma task_ok_length t : task_ok t -> length (task_words t) = 17%nat.
Proof. intros (Hl & _). unfold task_words. rewrite length_app, Hl. done. Qed.

(** Writing below the kernel's variables does not change them. *)
Lemma kernel_in_stack k a m :
  kernel_in k a ->
  (forall x, ~ (IRQ_STACK_ADDRESS - STACK_SIZE <= x < IRQ_STACK_ADDRESS) -> get8 m x = get8 (arm_mem a) x) ->
  kernel_in k (set_memory m a).
Proof.
  intros ((Hl & Ht & Hr & Hc) & Hok & Ho & Hd & Hv) Hm.
  pose proof ly_current as Hcur. pose proof ly_tasks as Htasks.
  unfold IRQ_STACK_ADDRESS, STACK_SIZE, sizeof_task_t in *.
  split_and!; try done; cbn [arm_mem set_memory].
  - split_and!; try done.
    + intros i t Hi. rewrite <- (Ht i t Hi). apply load_words_ext. intros x Hx. apply Hm.
      apply lookup_lt_Some in Hi. destruct (task_at_range i) as [Hri _]; [lia|]. unfold sizeof_task_t in *. lia.
    + rewrite <- Hc. apply load_ext. intros x Hx. apply Hm. lia.
  - apply (others_memory k (arm_mem a)); [done|]. intros x _ Hx. by apply Hm.
  - rewrite <- Hv. apply vector_target_ext. intros x Hx. apply Hm. lia.
Qed.

(** Saving a task. *)
Lemma kernel_in_save k a i t :
  kernel_in k a -> (i < 16)%nat -> task_ok t ->
  kernel_in (set_k_sched (with_tasks (k_sched k) (task_count (k_sched k)) (<[i := t]> (tasks (k_sched k)))) k)
    (set_memory (store_words (arm_mem a) (task_at i) (task_words t)) a).
Proof.
  intros ((Hl & Ht & Hr & Hc) & Hok & Ho & Hd & Hv) Hi Htok.
  pose proof ly_current as Hcur. pose proof ly_tasks as Htasks. pose proof ly_separate as Hsep.
  destruct (task_at_range i Hi) as [Hri _]. pose proof (task_ok_length t Htok) as Hlen.
  unfold separate, IRQ_STACK_ADDRESS, STACK_SIZE, sizeof_task_t in *.
  assert (forall x, ~ (task_at i <= x < task_at i + 68) ->
    get8 (store_words (arm_mem a) (task_at i) (task_words t)) x = get8 (arm_mem a) x) as Hout
    by (intros x Hx; apply store_words_outside; rewrite Hlen; lia).
  split_and!; cbn [arm_mem set_memory k_sched set_k_sched tasks with_tasks]; try done.
  - split_and!; cbn [tasks with_tasks]; [by rewrite length_insert| |done|].
    + intros j u Hj. destruct (decide (i = j)) as [<-|Hne].
      * rewrite list_lookup_insert_eq in Hj by lia. injection Hj as <-. rewrite <- Hlen.
        apply load_store_words, Htok.
      * rewrite list_lookup_insert_ne in Hj by done. rewrite <- (Ht j u Hj). apply load_words_ext.
        intros x Hx. apply Hout. pose proof (task_at_apart i j Hne) as Hap. unfold separate in Hap. lia.
    + etrans; [|exact Hc]. apply load_ext. intros x Hx. apply Hout. lia.
  - by apply Forall_insert.
  - apply others_tasks. apply (others_memory k (arm_mem a)); [done|]. intros x Hx _. apply Hout.
    unfold sizeof_task_t in Hx. lia.
  - rewrite <- Hv. apply vector_target_ext. intros x Hx. apply Hout. lia.
Qed.

End Refinement.

(** ** From the interrupt request to the return *)

Section Main.
Context {D : Type} `{Bus D} {card : Card D} {layout : Layout D} {cpu : Cpu}.
Variables (base schedule_at handle_interrupt_at : Z) (text : Z -> option instr) (compiled : Z -> option (arm D -> arm D)).

Abbreviation code := (interrupt_handler_code base schedule_at handle_interrupt_at).
Abbreviation run := (steps text compiled).
Abbreviation reaches := (reaches text compiled).

Hypothesis handler_held : holds text base code.

(** Through the vector to the save. *)
Lemma entry_run r0 r1 r2 r3 r4 r5 r6 r7 r8 r9 r10 r11 r12 u ret s sb c m d :
  mode_of c = Some Irq -> vector_target m 0x18 = Some (at_ base 7) ->
  run 4 (mk_arm [r0; r1; r2; r3; r4; r5; r6; r7; r8; r9; r10; r11; r12] u (mk_bank IRQ_STACK_ADDRESS ret s) sb 0x18 c m d) =
  Some (mk_arm [IRQ_STACK_ADDRESS - 16; r1; r2; r3; r4; r5; r6; r7; r8; r9; r10; r11; r12] u
    (mk_bank (IRQ_STACK_ADDRESS - 16) (at_ base 10) s) sb (at_ base 13) c
    (store_words m (IRQ_STACK_ADDRESS - 16) [r0; r1; r2; ret]) d).
Proof.
  intros Hc Hv. rewrite (step_vector _ _ 0x18 _ (at_ base 7)) by done. arm_simpl. unfold IRQ_STACK_ADDRESS.
  arm_step handler_held 7%nat Hc.
  arm_step handler_held 8%nat Hc. arm_step handler_held 9%nat Hc. reflexivity.
Qed.

(** From the return of [handle_interrupt] to the load. *)
Lemma exit_run r0 r1 r2 r3 r4 r5 r6 r7 r8 r9 r10 r11 r12 u ret s sb c m d :
  mode_of c = Some Irq ->
  exists x0 x1 x2 x3,
  run 2 (mk_arm [r0; r1; r2; r3; r4; r5; r6; r7; r8; r9; r10; r11; r12] u (mk_bank (IRQ_STACK_ADDRESS - 16) ret s) sb
    (at_ base 11) c m d) =
  Some (mk_arm [x0; x1; x2; r3; r4; r5; r6; r7; r8; r9; r10; r11; r12] u
    (mk_bank IRQ_STACK_ADDRESS x3 s) sb (at_ base 28) c m d).
Proof.
  intros Hc. do 4 eexists. unfold IRQ_STACK_ADDRESS.
  arm_step handler_held 11%nat Hc.  arm_step handler_held 12%nat Hc. reflexivity.
Qed.

(** The save as a whole: from the request to the call of [handle_interrupt]. *)
Lemma irq_saves k k1 i u r c m d sb us :
  let t := k_context k in
  let a := mk_arm (reg t) u r sb (pc t) (cpsr t) m d in
  kernel_in base k a -> task_ok t -> b_sp u = sp t -> b_lr u = lr t -> mode_of c = Some Irq ->
  current_task (k_sched k) = Some i ->
  k1 = set_k_sched (with_tasks (k_sched k) (task_count (k_sched k)) (<[i := t]> (tasks (k_sched k)))) k ->
  b_spsr r = us ->
  exists a1, reaches (mk_arm (reg t) u (mk_bank IRQ_STACK_ADDRESS (u32 (pc t + 4)) (cpsr t)) sb 0x18 c m d) a1 /\
    arm_pc a1 = handle_interrupt_at /\ irq a1 = mk_bank (IRQ_STACK_ADDRESS - 16) (at_ base 11) (cpsr t) /\
    arm_cpsr a1 = c /\ svc a1 = sb /\ length (gpr a1) = 13%nat /\ kernel_in base k1 a1.
Proof.
  intros t a Hk Ht Hsp Hlr Hc Hi -> Hus. destruct u as [usp ulr us']. cbn [b_sp b_lr] in *. subst usp ulr.
  pose proof Ht as (Hlen & Hw & Hal & Hok & HT).
  assert (is_u32 (pc t)) as Hpc.
  { apply (proj1 (Forall_forall _ _) Hw). unfold task_words. rewrite !elem_of_app, !elem_of_cons. tauto. }
  destruct (list_13 _ Hlen) as (r0 & r1 & r2 & r3 & r4 & r5 & r6 & r7 & r8 & r9 & r10 & r11 & r12 & Er).
  set (m1 := store_words m (IRQ_STACK_ADDRESS - 16) [r0; r1; r2; u32 (pc t + 4)]).
  assert (kernel_in base k (set_memory m1 a)) as Hk1.
  { apply kernel_in_stack; [done|]. intros x Hx. apply store_words_outside. cbn [length].
    unfold IRQ_STACK_ADDRESS, STACK_SIZE in *. lia. }
  pose proof Hk1 as ((_ & _ & Hrange & Hcur) & _ & _ & _ & _). rewrite Hi in Hcur. specialize (Hrange i Hi).
  destruct (task_at_range i Hrange) as [Htr Htm].
  assert (load_words m1 (IRQ_STACK_ADDRESS - 16) 4 = [r0; r1; r2; u32 (pc t + 4)]) as Hst.
  { apply (load_store_words m _ [r0; r1; r2; u32 (pc t + 4)]). unfold task_words in Hw. rewrite Er in Hw.
    cbn [app] in Hw. rewrite !Forall_cons in Hw. repeat (constructor; [tauto || apply u32_range|]). constructor. }
  cbn [load_words] in Hst. injection Hst as E0 E1 E2 E3.
  eexists. split.
  { eapply reaches_trans; [exists 4%nat; rewrite Er; apply entry_run; [done|apply Hk]|].
    eapply reaches_trans; [exists 15%nat; apply (save_run _ _ _ _ _ handler_held) with (t := task_at i); try done|].
    exists 1%nat. arm_step handler_held 10%nat Hc. reflexivity. }
  cbn [arm_pc irq arm_cpsr usr svc]. split_and!; try done.
  assert (u32 (u32 (pc t + 4) - 4) = pc t) as -> by (unfold is_u32 in Hpc; word_lia).
  pose proof (kernel_in_save base k (set_memory m1 a) i t Hk1 Hrange Ht) as Hk2. unfold task_words in Hk2. rewrite Er in Hk2.
  exact Hk2.
Qed.

(** The load as a whole, in either privileged mode: the handler and
    [start_scheduler] end with it. *)
Lemma load_task M (k k' : kernel D) a :
  kernel_in base k a -> mode_of (arm_cpsr a) = Some M -> M <> Usr -> arm_pc a = at_ base 28 ->
  length (gpr a) = 13%nat -> psr_ok (b_spsr (bank_of M a)) -> load_current_task_state k = Done (tt, k') ->
  exists a', reaches a a' /\ kernel_in base k' a' /\ task_ok (k_context k') /\ runs_task (k_context k') a' /\
    b_sp (bank_of M a') = b_sp (bank_of M a) /\ (forall M', M' <> M -> M' <> Usr -> bank_of M' a' = bank_of M' a).
Proof.
  intros Hk Hc HM Hpc Hlen Hs Hload.
  unfold load_current_task_state in Hload. destruct (current_task (k_sched k)) as [j|] eqn:Ej; [|done].
  destruct (tasks (k_sched k) !! j) as [t|] eqn:Et; [|done]. injection Hload as <-.
  pose proof Hk as ((Hl & Htasks & Hrange & Hcur) & Hall & Hothers & Hdev & Hvec). rewrite Ej in Hcur.
  destruct (task_at_range j (Hrange j Ej)) as [Htr Htm].
  pose proof (proj1 (Forall_lookup _ _) Hall j t Et) as Ht. pose proof Ht as (Htl & Hw & Hal & Hok & HT).
  destruct (list_13 _ Htl) as (w0 & w1 & w2 & w3 & w4 & w5 & w6 & w7 & w8 & w9 & w10 & w11 & w12 & Ew).
  pose proof (Htasks j t Et) as Hwords. unfold task_words in Hwords. rewrite Ew in Hwords.
  destruct a as [g u ib sb p c m d]. cbn [gpr arm_pc arm_cpsr arm_mem arm_dev] in *. subst p.
  destruct (list_13 _ Hlen) as (r0 & r1 & r2 & r3 & r4 & r5 & r6 & r7 & r8 & r9 & r10 & r11 & r12 & ->).
  eexists. split.
  { exists 7%nat. by apply (load_run _ _ _ _ _ handler_held) with (M := M) (t := task_at j) (1 := Hc) (6 := Hwords). }
  pose proof (others_context k t m Hothers).
  split; [by destruct M; [done| |]; (split; [apply Hk|by split_and!])|]. split; [done|].
  split; [by destruct M; split_and!; rewrite ?Ew|]. split; [by destruct M|].
  intros [] ? ?; by destruct M.
Qed.

(** From the return of [handle_interrupt] to the task. *)
Lemma irq_loads k2 k' a1 a2 s :
  kernel_in base k2 a2 -> load_current_task_state k2 = Done (tt, k') ->
  irq a1 = mk_bank (IRQ_STACK_ADDRESS - 16) (at_ base 11) s -> psr_ok s -> returned Irq a1 a2 ->
  exists a', reaches a2 a' /\ kernel_in base k' a' /\ task_ok (k_context k') /\ runs_task (k_context k') a' /\
    b_sp (irq a') = IRQ_STACK_ADDRESS /\ svc a' = svc a1.
Proof.
  intros Hk Hload Hi Hs (Hpc & Hc & Hlen & _ & Hbanks & Hsp & Hspsr & _).
  cbn [bank_of] in Hpc, Hsp, Hspsr. rewrite Hi in Hpc, Hsp, Hspsr. cbn [b_sp b_lr b_spsr] in Hpc, Hsp, Hspsr.
  pose proof (Hbanks Svc ltac:(done)) as Hsvc. cbn [bank_of] in Hsvc.
  destruct a2 as [g ub [isp ilr ispsr] sb p c m d]. cbn [gpr usr irq svc arm_pc arm_cpsr bank_of b_sp b_spsr] in *.
  subst isp ispsr p sb.
  destruct (list_13 _ Hlen) as (r0 & r1 & r2 & r3 & r4 & r5 & r6 & r7 & r8 & r9 & r10 & r11 & r12 & ->).
  destruct (exit_run r0 r1 r2 r3 r4 r5 r6 r7 r8 r9 r10 r11 r12 ub ilr s (svc a1) c m d Hc) as (x0 & x1 & x2 & x3 & Hexit).
  destruct (load_task Irq k2 k' (mk_arm [x0; x1; x2; r3; r4; r5; r6; r7; r8; r9; r10; r11; r12] ub
    (mk_bank IRQ_STACK_ADDRESS x3 s) (svc a1) (at_ base 28) c m d)) as (a' & Hr & Hk' & Ht & Hrun & Hsp' & Hb); try done.
  exists a'. split; [by eapply reaches_trans; [exists 2%nat|]|]. split_and!; try done. by apply (Hb Svc).
Qed.

(** C3: The assembly of the interrupt handler implements the model: on a machine that
    runs the current task, an interrupt request leads through the vector table,
    the save, [handle_interrupt] and the load to a machine that runs the task
    which is current afterwards, with exactly the registers the model gives it;
    the interrupt stack is left as it was found.  This holds for any layout of
    the kernel's variables and any compiled [handle_interrupt] that implements
    its source and keeps the procedure call standard. *)
Theorem irq_handler_refines fuel (k k' : kernel D) a f :
  compiled handle_interrupt_at = Some f -> text handle_interrupt_at = None -> 0x20 <= handle_interrupt_at ->
  represents base k a -> Z.testbit (cpsr (k_context k)) 7 = false ->
  irq_handler fuel k = Done (tt, k') ->
  (forall k1 k2 a1, save_current_task_state k = Done (tt, k1) -> handle_interrupt fuel k1 = Done (tt, k2) ->
     kernel_in base k1 a1 -> mode_of (arm_cpsr a1) = Some Irq -> length (gpr a1) = 13%nat ->
     b_sp (irq a1) = IRQ_STACK_ADDRESS - 16 ->
     kernel_in base k2 (f a1) /\ returned Irq a1 (f a1)) ->
  exists a0 a', raise_irq a = Some a0 /\ reaches a0 a' /\ represents base k' a' /\ svc a' = svc a.
Proof.
  intros Hf Hcode Hlow (Hk & Hctx & (Hg & Hsp & Hlr & Hpc & Hpsr) & Hks & His) Hirq Hrun Hcall.
  apply bind_done_inv in Hrun as ([] & k1 & Hsave & Hrun). apply bind_done_inv in Hrun as ([] & k2 & Hh & Hload).
  pose proof (Hcall k1 k2) as Hcall'. pose proof Hsave as Hsave'. unfold save_current_task_state in Hsave.
  destruct (current_task (k_sched k)) as [i|] eqn:Ei; [|done]. injection Hsave as Ek1.
  destruct (exception_psr_facts (cpsr (k_context k)) 0x12) as [Hm _]; [by left|].
  assert (mode_of (exception_psr (cpsr (k_context k)) 0x12) = Some Irq) as Hc by (unfold mode_of; by rewrite Hm).
  destruct a as [g u [isp ilr ispsr] sb p c m d]. cbn [gpr usr irq svc arm_pc arm_cpsr arm_mem b_sp] in *.
  subst g isp p c.
  destruct (irq_saves k k1 i u (mk_bank IRQ_STACK_ADDRESS ilr ispsr) _ m d sb ispsr Hk Hctx Hsp Hlr Hc Ei)
    as (a1 & Hr1 & Hp1 & Hi1 & Hc1 & Hs1 & Hlen1 & Hk1); [done|done|].
  destruct (Hcall' a1) as [Hk2 Hret]; [done|done|done|by rewrite Hc1|done|by rewrite Hi1|].
  destruct (irq_loads k2 k' a1 (f a1) (cpsr (k_context k))) as (a' & Hr2 & Hk' & Ht' & Hrun' & Hsp' & Hsvc');
    [done|done|done|apply Hctx|done|].
  do 2 eexists. split; [unfold raise_irq; cbn [arm_cpsr]; by rewrite Hirq|]. split; [|split].
  - eapply reaches_trans; [exact Hr1|]. eapply reaches_trans; [|exact Hr2].
    exists 1%nat. by rewrite (step_compiled _ _ handle_interrupt_at f).
  - split_and!; try done.
    destruct (handle_interrupt_frame _ _ _ Hh) as (_ & Hisp & _). unfold load_current_task_state in Hload.
    destruct (current_task (k_sched k2)); [|done]. destruct (tasks _ !! _); [|done]. injection Hload as <-.
    cbn [k_irq_sp set_k_context]. by rewrite Hisp, <- Ek1.
  - by rewrite Hsvc'.
Qed.

(** ** The scheduler's interrupt *)

(** The assembly routine is itself a function that keeps the procedure call
    standard, and also r0 to r2: the compiler may call it from C. *)
Lemma timer_run r0 r1 r2 r3 r4 r5 r6 r7 r8 r9 r10 r11 r12 u ret sp_ s sb c m d f :
  let g := [r0; r1; r2; r3; r4; r5; r6; r7; r8; r9; r10; r11; r12] in
  let a1 := mk_arm g u (mk_bank (sp_ - 16) (at_ base 2) s) sb schedule_at c (store_words m (sp_ - 16) [r0; r1; r2; ret]) d in
  mode_of c = Some Irq -> sp_ mod 4 = 0 -> IRQ_STACK_ADDRESS - STACK_SIZE + 16 <= sp_ <= IRQ_STACK_ADDRESS ->
  Forall is_u32 [r0; r1; r2; ret] ->
  compiled schedule_at = Some f -> text schedule_at = None -> 0x20 <= schedule_at ->
  returned Irq a1 (f a1) ->
  exists a', reaches (mk_arm g u (mk_bank sp_ ret s) sb (at_ base 0) c m d) a' /\
    arm_dev a' = bus_write 4 TIMER1_INTCLR 1 (arm_dev (f a1)) /\ arm_mem a' = arm_mem (f a1) /\
    arm_pc a' = ret /\ arm_cpsr a' = arm_cpsr (f a1) /\ usr a' = u /\ svc a' = sb /\
    irq a' = mk_bank sp_ ret s /\ (exists r3' r12', gpr a' = [r0; r1; r2; r3'; r4; r5; r6; r7; r8; r9; r10; r11; r12']).
Proof.
  intros g a1 Hc Hal Hsp Hw Hf Hcode Hlow (Hpc & Hc' & Hlen & Hkeep & Hbanks & Hsp' & Hspsr' & Hmem).
  unfold IRQ_STACK_ADDRESS, STACK_SIZE in *.
  assert ((sp_ - 16) mod 4 = 0) as Hal' by word_lia.
  assert (reaches (mk_arm g u (mk_bank sp_ ret s) sb (at_ base 0) c m d) a1) as Hto.
  { exists 2%nat. unfold g. arm_step handler_held 0%nat Hc. arm_step handler_held 1%nat Hc. reflexivity. }
  pose proof (Hbanks Usr ltac:(done)) as Hu. pose proof (Hbanks Svc ltac:(done)) as Hs.
  assert (load_words (arm_mem (f a1)) (sp_ - 16) 4 = [r0; r1; r2; ret]) as Hst.
  { etrans; [|apply (load_store_words m (sp_ - 16) _ Hw)]. apply load_words_ext. intros x Hx. apply Hmem.
    unfold a1. cbn [bank_of irq b_sp length] in *. lia. }
  destruct (f a1) as [g' u' [isp ilr ispsr] sb' p' c' m' d'] eqn:Ef.
  cbn [gpr usr irq svc arm_pc arm_cpsr arm_mem arm_dev bank_of b_sp b_lr b_spsr] in *. unfold a1 in Hpc, Hsp', Hspsr', Hu, Hs, Hkeep. cbn [gpr usr irq svc b_sp b_lr b_spsr bank_of] in *. subst isp ispsr p' sb' u'.
  destruct (list_13 _ Hlen) as (x0 & x1 & x2 & x3 & x4 & x5 & x6 & x7 & x8 & x9 & x10 & x11 & x12 & ->).
  pose proof (Hkeep 4%nat ltac:(lia)) as E4. pose proof (Hkeep 5%nat ltac:(lia)) as E5.
  pose proof (Hkeep 6%nat ltac:(lia)) as E6. pose proof (Hkeep 7%nat ltac:(lia)) as E7.
  pose proof (Hkeep 8%nat ltac:(lia)) as E8. pose proof (Hkeep 9%nat ltac:(lia)) as E9.
  pose proof (Hkeep 10%nat ltac:(lia)) as E10. pose proof (Hkeep 11%nat ltac:(lia)) as E11.
  injection E4 as ->. injection E5 as ->. injection E6 as ->. injection E7 as ->.
  injection E8 as ->. injection E9 as ->. injection E10 as ->. injection E11 as ->.
  cbn [load_words] in Hst. injection Hst as L0 L1 L2 L3.
  eexists. split.
  { eapply reaches_trans; [exact Hto|]. eapply reaches_trans; [exists 1%nat; by rewrite (step_compiled _ _ schedule_at f)|].
    rewrite Ef. exists 5%nat. arm_step handler_held 2%nat Hc'. arm_step handler_held 3%nat Hc'.
    arm_step handler_held 4%nat Hc'. change (u32 TIMER1_INTCLR) with TIMER1_INTCLR.
    rewrite store_word_device by (vm_compute; done). arm_simpl.
    arm_step handler_held 5%nat Hc'. replace (sp_ - 16 + 16) with sp_ by lia. arm_step handler_held 6%nat Hc'.
    replace (sp_ - 16 + 4 + 4 + 4) with (sp_ - 16 + 12) in L3 by lia.
    replace (sp_ - 16 + 4 + 4) with (sp_ - 16 + 8) in L2 by lia. rewrite L0, L1, L2, L3. reflexivity. }
  split_and!; try done. by exists x3, x12.
Qed.

(** C26: The routine for the scheduler's timer implements its model: called in
    interrupt mode it switches tasks once and acknowledges the timer, and comes
    back with r0 to r2, r4 to r11, the stack pointer and the banked registers as
    they were, so that [handle_interrupt] may call it as a C function. *)
Theorem irq_handler_timer_refines (k k' : kernel D) a f :
  compiled schedule_at = Some f -> text schedule_at = None -> 0x20 <= schedule_at ->
  kernel_in base k a -> mode_of (arm_cpsr a) = Some Irq -> arm_pc a = at_ base 0 ->
  length (gpr a) = 13%nat -> Forall is_u32 (gpr a) -> is_u32 (b_lr (irq a)) ->
  b_sp (irq a) mod 4 = 0 -> IRQ_STACK_ADDRESS - STACK_SIZE + 16 <= b_sp (irq a) <= IRQ_STACK_ADDRESS ->
  (forall a1, kernel_in base k a1 -> mode_of (arm_cpsr a1) = Some Irq -> length (gpr a1) = 13%nat ->
     b_sp (irq a1) = b_sp (irq a) - 16 ->
     kernel_in base (set_k_sched (schedule (k_sched k)) k) (f a1) /\ returned Irq a1 (f a1)) ->
  irq_handler_timer k = Done (tt, k') ->
  exists a', reaches a a' /\ kernel_in base k' a' /\ returned Irq a a' /\ take 3 (gpr a') = take 3 (gpr a).
Proof.
  intros Hf Hcode Hlow Hk Hc Hpc Hlen Hg Hlr Hal Hsp Hcall Hrun.
  destruct a as [g u [isp ret s] sb p c m d]. cbn [gpr usr irq svc arm_pc arm_cpsr arm_mem arm_dev b_sp b_lr] in *. subst p.
  destruct (list_13 _ Hlen) as (r0 & r1 & r2 & r3 & r4 & r5 & r6 & r7 & r8 & r9 & r10 & r11 & r12 & ->).
  set (a1 := mk_arm [r0; r1; r2; r3; r4; r5; r6; r7; r8; r9; r10; r11; r12] u (mk_bank (isp - 16) (at_ base 2) s) sb
    schedule_at c (store_words m (isp - 16) [r0; r1; r2; ret]) d).
  assert (kernel_in base k a1) as Hk1.
  { apply (kernel_in_stack base k (mk_arm (gpr a1) u (irq a1) sb schedule_at c m d)); [exact Hk|].
    intros x Hx. apply store_words_outside. cbn [length]. unfold IRQ_STACK_ADDRESS, STACK_SIZE in *. lia. }
  destruct (Hcall a1 Hk1 Hc eq_refl eq_refl) as [Hk2 Hret].
  destruct (timer_run r0 r1 r2 r3 r4 r5 r6 r7 r8 r9 r10 r11 r12 u ret isp s sb c m d f)
    as (a' & Hreach & Hd & Hm & Hp & Hpsr & Hu & Hs & Hi & r3' & r12' & Hgpr); try done.
  { rewrite !Forall_cons in Hg. repeat (constructor; [tauto|]). constructor. }
  fold a1 in Hd, Hm, Hpsr. exists a'. split; [done|]. injection Hrun as <-. destruct Hret as (_ & Hc' & _ & _ & _ & _ & _ & Hmem).
  split; [|split].
  - destruct Hk2 as (Hsched & Hall & Hoth & Hdev & Hvec). unfold kernel_in. rewrite Hm, Hd, Hdev.
    split_and!; try done.
    exact (others_device _ (write32 TIMER1_INTCLR 1 (n_dev (k_nic k))) _ Hoth).
  - unfold returned. cbn [bank_of irq b_sp b_lr b_spsr]. rewrite Hp, Hpsr, Hgpr, Hi, Hm. split_and!; try done.
    + intros r Hr. do 13 (destruct r as [|r]; [done || lia|]). lia.
    + intros [] HM; [done|done|done].
    + intros x Hx. rewrite Hmem by (cbn; lia). apply store_words_outside. cbn [length]. lia.
  - by rewrite Hgpr.
Qed.

End Main.

(** ** Witnesses *)

(** Two tasks on a register file as the devices (the receive queue is not used), and the scheduler's variables
    somewhere in low memory. *)
#[local] Instance example_layout : Layout regfile.
Proof.
  refine {| current_task_at := 0x20000; tasks_at := 0x21000; others _ _ := True |}; try done.
  left. by vm_compute.
Defined.

#[local] Instance no_card : Card regfile := fun _ x => x.

Definition example_base : Z := 0x10000.
Definition example_text : Z -> option instr := code_at example_base (interrupt_handler_code example_base 0x30000 0x31000).
Definition example_tasks : kernel regfile :=
  mk_kernel (mk_nic (mk_regfile {[ PIC_IRQ_STATUS := 0x10 ]}) (initial_heap ∅) None (mk_pqueue 0 0 []))
    (start_scheduler_tasks (boot_with 2)) 41 (mk_task (zseq 13) 0x3FDF000 5 0x8010 0x60000010) IRQ_STACK_ADDRESS None.

Definition example_memory : mem :=
  let m := setup_ivt (cpu := LittleEndian) 0x10100 (at_ example_base 7) ∅ in
  let m := store LittleEndian 4 m current_task_at (task_at 0) in
  foldl (fun m '(i, t) => store_words (cpu := LittleEndian) m (task_at i) (task_words t)) m
    (imap pair (tasks (k_sched example_tasks))).

Definition example_arm : arm regfile :=
  mk_arm (zseq 13) (mk_bank 0x3FDF000 5 0) (mk_bank IRQ_STACK_ADDRESS 0 0) (mk_bank 0 0 0) 0x8010 0x60000010
    example_memory (n_dev (k_nic example_tasks)).

(** [handle_interrupt] compiled for this one situation: the timer of the
    scheduler has fired, the other task is next. *)
Definition example_switch (a : arm regfile) : arm regfile :=
  set_pc (b_lr (irq a)) (set_memory (store LittleEndian 4 (arm_mem a) current_task_at (task_at 1))
    (set_devices (write32 TIMER1_INTCLR 1 (arm_dev a)) a)).

Lemma sched_in_check (s : sched) (m : mem) :
  bool_decide (length (tasks s) = 16%nat /\
    imap (fun i _ => load_words (cpu := LittleEndian) m (task_at i) 17) (tasks s) = (task_words <$> tasks s) /\
    (default 0%nat (current_task s) < 16)%nat /\
    load LittleEndian 4 m current_task_at = match current_task s with Some i => task_at i | None => 0 end) = true ->
  sched_in (cpu := LittleEndian) s m.
Proof.
  intros (Hl & Ht & Hc & Hm)%bool_decide_eq_true. split; [done|]. split; [|split; [|done]].
  - intros i t Hi. pose proof (f_equal (fun l => l !! i) Ht) as E. cbv beta in E.
    rewrite list_lookup_imap, list_lookup_fmap, Hi in E. by injection E.
  - intros i Hi. by rewrite Hi in Hc.
Qed.

#[local] Instance task_ok_dec t : Decision (task_ok t).
Proof. unfold task_ok, psr_ok. apply _. Defined.

Lemma example_represented :
  represents (cpu := LittleEndian) example_base example_tasks example_arm.
Proof.
  split; [split; [apply sched_in_check; by vm_compute|split; [|split; [done|split; [done|by vm_compute]]]]|].
  - apply (bool_decide_unpack _). by vm_compute.
  - split; [apply (bool_decide_unpack _); by vm_compute|]. split; [done|]. done.
Qed.

(** [kernel_in] after a store to [current_task] and a device access. *)
Lemma example_current_in k1 k2 a1 p :
  current_task (k_sched k2) = Some 1%nat -> tasks (k_sched k2) = tasks (k_sched k1) ->
  kernel_in (cpu := LittleEndian) example_base k1 a1 ->
  kernel_in (cpu := LittleEndian) example_base k2
    (set_pc p (set_memory (store LittleEndian 4 (arm_mem a1) current_task_at (task_at 1))
      (set_devices (n_dev (k_nic k2)) a1))).
Proof.
  intros Hc Ht ((Hl & Hw & Hr & _) & Hok & _ & Hdev & Hv).
  assert (forall x, ~ (0x20000 <= x < 0x20004) ->
    get8 (store LittleEndian 4 (arm_mem a1) current_task_at (task_at 1)) x = get8 (arm_mem a1) x) as Hout
    by (intros x Hx; apply store_same_outside; cbn [current_task_at example_layout]; lia).
  split; [|split; [by rewrite Ht|split; [done|split; [done|]]]].
  - unfold sched_in. rewrite Ht. split; [done|]. split; [|split].
    + intros i t Hi. rewrite <- (Hw i t Hi). apply load_words_ext. intros x Hx. apply Hout.
      unfold task_at in Hx. cbn [tasks_at example_layout] in Hx. unfold sizeof_task_t in Hx. lia.
    + intros i Hi. rewrite Hc in Hi. injection Hi as <-. lia.
    + rewrite Hc. cbn [arm_mem set_pc set_memory set_devices]. by rewrite load_store_same.
  - rewrite <- Hv. cbn [arm_mem set_pc set_memory set_devices]. apply vector_target_ext. intros x Hx. apply Hout. lia.
Qed.

Lemma example_switch_returned a1 :
  mode_of (arm_cpsr a1) = Some Irq -> length (gpr a1) = 13%nat -> 0x20004 <= b_sp (irq a1) -> returned Irq a1 (example_switch a1).
Proof.
  intros Hm Hl Hsp. split_and!; try done.
  intros x Hx. apply store_same_outside. cbn [bank_of] in Hx. cbn [current_task_at example_layout]. lia.
Qed.

Definition example_compiled (p : Z) : option (arm regfile -> arm regfile) :=
  if p =? 0x31000 then Some example_switch else None.

(** The interrupted task is the first one; the second one is started. *)
Lemma irq_handler_refines_witness :
  exists a0 a', raise_irq example_arm = Some a0 /\
    (exists n, steps (cpu := LittleEndian) example_text example_compiled n a0 = Some a') /\
    gpr a' = zseq 13 /\ arm_pc a' = 0x8000 /\ b_sp (usr a') = 0x3FD0000.
Proof.
  assert (holds example_text example_base (interrupt_handler_code example_base 0x30000 0x31000)) as Hheld
    by (apply code_at_holds; by vm_compute).
  destruct (irq_handler_refines (cpu := LittleEndian) example_base 0x30000 0x31000 example_text example_compiled
    Hheld 1 example_tasks (match irq_handler 1 example_tasks with Done (_, k) => k | _ => example_tasks end)
    example_arm example_switch) as (a0 & a' & Hraise & Hreach & Hrep & _).
  - done.
  - by vm_compute.
  - done.
  - apply example_represented.
  - by vm_compute.
  - by vm_compute.
  - intros k1 k2 a1 Hs Hh Hk Hm Hl Hsp. vm_compute in Hs. injection Hs as <-. vm_compute in Hh. injection Hh as <-.
    split; [|apply example_switch_returned; [done|done|rewrite Hsp; by vm_compute]].
    pose proof (proj1 (proj2 (proj2 (proj2 Hk)))) as Hd. unfold example_switch. rewrite Hd.
    revert Hk. apply example_current_in; by vm_compute.
  - exists a0, a'. split; [exact Hraise|]. split; [exact Hreach|].
    destruct Hrep as (_ & _ & (Hg & Hs & _ & Hp & _) & _). rewrite Hg, Hs, Hp. vm_compute. done.
Defined.

(** [schedule] compiled for the same situation, and the call from
    [handle_interrupt]. *)
Definition example_schedule (a : arm regfile) : arm regfile :=
  set_pc (b_lr (irq a)) (set_memory (store LittleEndian 4 (arm_mem a) current_task_at (task_at 1)) a).

Definition example_call : arm regfile :=
  mk_arm (zseq 13) (mk_bank 0x3FDF000 5 0) (mk_bank 0x3FFFFE0 0x31040 0x10) (mk_bank 0 0 0) example_base 0x92
    example_memory (n_dev (k_nic example_tasks)).

Lemma irq_handler_timer_refines_witness :
  exists a', (exists n, steps (cpu := LittleEndian) example_text
      (fun p => if p =? 0x30000 then Some example_schedule else None) n example_call = Some a') /\
    arm_pc a' = 0x31040 /\ take 3 (gpr a') = [0; 1; 2] /\
    load LittleEndian 4 (arm_mem a') current_task_at = task_at 1.
Proof.
  assert (holds example_text example_base (interrupt_handler_code example_base 0x30000 0x31000)) as Hheld
    by (apply code_at_holds; by vm_compute).
  destruct (irq_handler_timer_refines (cpu := LittleEndian) example_base 0x30000 0x31000 example_text
    (fun p => if p =? 0x30000 then Some example_schedule else None) Hheld example_tasks
    (match irq_handler_timer example_tasks with Done (_, k) => k | _ => example_tasks end) example_call example_schedule)
    as (a' & Hreach & Hk & Hret & Htake).
  - done.
  - by vm_compute.
  - done.
  - apply example_represented.
  - done.
  - done.
  - done.
  - apply (bool_decide_unpack _). by vm_compute.
  - done.
  - done.
  - by vm_compute.
  - intros a1 Hk Hm Hl Hsp. split.
    + pose proof (proj1 (proj2 (proj2 (proj2 Hk)))) as Hd.
      pose proof (example_current_in example_tasks (set_k_sched (schedule (k_sched example_tasks)) example_tasks) a1
        (b_lr (irq a1)) ltac:(by vm_compute) ltac:(by vm_compute) Hk) as Hk2.
      destruct a1. cbn in Hd. subst. exact Hk2.
    + split_and!; try done. intros x Hx. apply store_same_outside. cbn [bank_of] in Hx. rewrite Hsp in Hx.
      cbn [current_task_at example_layout]. cbn in Hx. lia.
  - by vm_compute.
  - exists a'. split; [exact Hreach|]. destruct Hret as (Hp & _). split; [exact Hp|]. split; [exact Htake|].
    destruct Hk as ((_ & _ & _ & Hc) & _). exact Hc.
Defined.
