(* ===== verification/Reset.v ===== *)
(** * From reset to kernel_main: kernel/boot/start.S

    The code at the entry point sets the stack pointer of supervisor mode,
    clears the bss, runs the initialisers the linker collected (the constructors of
    the drivers), and calls [kernel_main]; when that returns the finalisers run and
    the processor stays in an endless loop.  The arrays may hold any functions that
    keep the procedure call standard ([calls_kept], [array_holds]).
    The addresses are symbols of the linker script kernel/link-arm-eabi.ld. *)

From S2P Require Import Prelude Memory Bus Heap Interrupt Arm.

(** ** Definitions *)

(** The symbols of the linker script, and the address of [kernel_main]. *)
Record symbols := mk_symbols {
  bss_start : Z;
  bss_end : Z;
  init_array_start : Z;
  init_array_end : Z;
  fini_array_start : Z;
  fini_array_end : Z;
  kernel_main_at : Z;
}.

Section Code.
Variables (base : Z) (y : symbols).

Abbreviation label := (at_ base).

Definition start_code : list instr :=
  [LdrConst SP (bss_end y);
   Push [0; 1; 2]%nat;
   LdrConst 0 (bss_start y);
   LdrConst 1 (bss_end y);
   MovImm 2 0;
   (* bss_clear_loop *)
   Cmp 0 1;
   Beq (label 10);
   Str 2 0 0;
   AddImm 0 0 4;
   B (label 5);
   (* bss_clear_loop_end *)
   LdrConst 0 (init_array_start y);
   LdrConst 1 (init_array_end y);
   (* init_array_loop *)
   Cmp 0 1;
   Beq (label 20);
   Ldr 2 0 0;
   Push [0; 1]%nat;
   Blx 2;
   Pop [0; 1]%nat;
   AddImm 0 0 4;
   B (label 12);
   (* init_array_loop_end *)
   Pop [0; 1; 2]%nat;
   LdrConst 3 (kernel_main_at y);
   Blx 3;
   LdrConst 0 (fini_array_start y);
   LdrConst 1 (fini_array_end y);
   (* fini_array_loop *)
   Cmp 0 1;
   Beq (label 33);
   Ldr 2 0 0;
   Push [0; 1]%nat;
   Blx 2;
   Pop [0; 1]%nat;
   AddImm 0 0 4;
   B (label 25);
   (* fini_array_loop_end, halt *)
   B (label 33)].

End Code.

(** ** Comparing *)

Lemma compare_flags_cases x y :
  exists n z c v : bool, compare_flags x y =
    Z.lor (Z.lor (if n then Z.shiftl 1 31 else 0) (if z then Z.shiftl 1 30 else 0))
      (Z.lor (if c then Z.shiftl 1 29 else 0) (if v then 0 else Z.shiftl 1 28)) /\ z = (u32 (x - y) =? 0).
Proof. by do 4 eexists. Qed.

Definition compared (x y c : Z) : Z := Z.lor (compare_flags x y) (Z.land c 0x0fffffff).

Lemma compared_mode x y c : mode_of (compared x y c) = mode_of c.
Proof.
  unfold compared, mode_of. destruct (compare_flags_cases x y) as (n & z & cf & v & -> & _).
  rewrite Z.land_lor_distr_l, <- Z.land_assoc. change (Z.land 0x0fffffff 0x1f) with 0x1f.
  by destruct n, z, cf, v.
Qed.

Lemma compared_equal x y c : is_u32 x -> is_u32 y -> Z.testbit (compared x y c) 30 = (x =? y).
Proof.
  intros Hx Hy. unfold compared. rewrite Z.lor_spec, Z.land_spec.
  change (Z.testbit 0x0fffffff 30) with false. rewrite andb_false_r, orb_false_r.
  destruct (compare_flags_cases x y) as (n & z & cf & v & -> & Ez).
  assert ((x =? y) = z) as -> by (rewrite Ez; unfold is_u32 in *; destruct (Z.eqb_spec x y), (Z.eqb_spec (u32 (x - y)) 0);
    (done || (exfalso; word_lia))).
  by destruct n, z, cf, v.
Qed.

(** ** The loops *)

Section Loops.
Context {D : Type} `{Bus D} {cpu : Cpu} (base : Z) (y : symbols) (compiled : Z -> option (arm D -> arm D)).
Hypothesis Hbase : base mod 4 = 0 /\ 0x20 <= base /\ base + 4 * 34 < 0x80000000.

Abbreviation code := (start_code base y).
Abbreviation run := (steps (code_at base code) compiled).
Abbreviation reaches := (reaches (code_at base code) compiled).

Lemma start_held : holds (code_at base code) base code.
Proof. destruct Hbase as (_ & Hlow & Hhigh). by apply code_at_holds. Qed.

(** One round of the loop that clears the bss. *)
Lemma clear_round r0 e r3 r4 r5 r6 r7 r8 r9 r10 r11 r12 u ib sb c m d :
  let rs r0 := [r0; e; 0; r3; r4; r5; r6; r7; r8; r9; r10; r11; r12] in
  mode_of c = Some Svc -> r0 <> e -> r0 mod 4 = 0 -> 0 <= r0 < RAM_SIZE -> is_u32 e ->
  run 5 (mk_arm (rs r0) u ib sb (at_ base 5) c m d) =
  Some (mk_arm (rs (r0 + 4)) u ib sb (at_ base 5) (compared r0 e c) (store cpu_endian 4 m r0 0) d).
Proof.
  intros rs Hc Hne Hal Hr He. unfold rs, RAM_SIZE in *.
  assert (mode_of (compared r0 e c) = Some Svc) as Hc' by (by rewrite compared_mode).
  arm_step start_held 5%nat Hc. fold (compared r0 e c). arm_step start_held 6%nat Hc'.
  rewrite compared_equal, (proj2 (Z.eqb_neq _ _)) by (done || (unfold is_u32; lia)).
  arm_step start_held 7%nat Hc'. arm_step start_held 8%nat Hc'. arm_step start_held 9%nat Hc'. reflexivity.
Qed.

Lemma clear_exit e r2 r3 r4 r5 r6 r7 r8 r9 r10 r11 r12 u ib sb c m d :
  let g := [e; e; r2; r3; r4; r5; r6; r7; r8; r9; r10; r11; r12] in
  mode_of c = Some Svc -> is_u32 e ->
  run 2 (mk_arm g u ib sb (at_ base 5) c m d) = Some (mk_arm g u ib sb (at_ base 10) (compared e e c) m d).
Proof.
  intros g Hc He. unfold g.
  assert (mode_of (compared e e c) = Some Svc) as Hc' by (by rewrite compared_mode).
  arm_step start_held 5%nat Hc. fold (compared e e c). arm_step start_held 6%nat Hc'. rewrite compared_equal, Z.eqb_refl by done. reflexivity.
Qed.

Lemma get8_store_zero m p x :
  get8 (store cpu_endian 4 m p 0) x = if decide (p <= x < p + 4) then 0 else get8 m x.
Proof.
  unfold store. rewrite get8_write_bytes, length_enc. change (p + Z.of_nat 4) with (p + 4).
  case_decide as Hx; [|done]. assert (exists i, (i < 4)%nat /\ Z.to_nat (x - p) = i) as (i & Hi & ->) by (eexists; split; [|done]; lia).
  unfold cpu_endian. by destruct cpu; do 4 (destruct i as [|i]; [done|]); lia.
Qed.

(** The loop clears everything from r0 up to r1 and ends. *)
Lemma clear_loop k r0 e r3 r4 r5 r6 r7 r8 r9 r10 r11 r12 u ib sb c m d :
  let rs r0 := [r0; e; 0; r3; r4; r5; r6; r7; r8; r9; r10; r11; r12] in
  mode_of c = Some Svc -> r0 mod 4 = 0 -> 0 <= r0 -> e = r0 + 4 * Z.of_nat k -> e <= RAM_SIZE ->
  exists c' m', reaches (mk_arm (rs r0) u ib sb (at_ base 5) c m d) (mk_arm (rs e) u ib sb (at_ base 10) c' m' d) /\
    mode_of c' = Some Svc /\ (forall x, get8 m' x = if decide (r0 <= x < e) then 0 else get8 m x).
Proof.
  intros rs. revert r0 c m. induction k as [|k IH]; intros r0 c m Hc Hal H0 He Hr.
  - assert (r0 = e) as -> by lia. exists (compared e e c), m. split; [|split].
    + exists 2%nat. apply clear_exit; [done|]. unfold is_u32, RAM_SIZE in *. lia.
    + by rewrite compared_mode.
    + intros x. by rewrite decide_False by lia.
  - destruct (IH (r0 + 4) (compared r0 e c) (store cpu_endian 4 m r0 0)) as (c' & m' & Hreach & Hc' & Hm').
    + by rewrite compared_mode.
    + by apply aligned_plus.
    + lia.
    + lia.
    + done.
    + exists c', m'. split; [|split; [done|]].
      * eapply reaches_trans; [|exact Hreach]. exists 5%nat. apply clear_round; [done|lia|done|lia|unfold is_u32, RAM_SIZE in *; lia].
      * intros x. rewrite Hm', get8_store_zero. repeat case_decide; (done || lia).
Qed.

Lemma load_zero m p : (forall x, p <= x < p + 4 -> get8 m x = 0) -> load cpu_endian 4 m p = 0.
Proof.
  intros Hx. rewrite (load_ext _ _ _ ∅) by (intros; by rewrite Hx). unfold cpu_endian. by destruct cpu.
Qed.

(** *** The loops over the initialisers and over the finalisers *)

(** Both loops have the same eight instructions, from instruction [h] on. *)
Definition is_loop (h : nat) : Prop := h = 12%nat \/ h = 25%nat.

(** The head of the loop: the next entry of the array is at [p], its end is [e]. *)
Definition loop_head (h : nat) (p e : Z) (a : arm D) : arm D :=
  mk_arm (p :: e :: drop 2 (gpr a)) (usr a) (irq a) (svc a) (at_ base h) (arm_cpsr a) (arm_mem a) (arm_dev a).

(** The entry of the function: p and e are saved on the stack. *)
Definition entered (h : nat) (p e : Z) (a : arm D) : arm D :=
  let f := load cpu_endian 4 (arm_mem a) p in
  mk_arm (p :: e :: f :: drop 3 (gpr a)) (usr a) (irq a)
    (mk_bank (b_sp (svc a) - 8) (at_ base (h + 5)) (b_spsr (svc a))) f (compared p e (arm_cpsr a))
    (store_words (arm_mem a) (b_sp (svc a) - 8) [p; e]) (arm_dev a).

(** Its return: p and e are restored. *)
Definition resumed (h : nat) (p e : Z) (b : arm D) : arm D :=
  loop_head h (p + 4) e
    (mk_arm (gpr b) (usr b) (irq b) (mk_bank (b_sp (svc b) + 8) (b_lr (svc b)) (b_spsr (svc b))) (arm_pc b)
       (arm_cpsr b) (arm_mem b) (arm_dev b)).

(** The functions [fs] called one after another. *)
Fixpoint run_calls (h : nat) (fs : list (arm D -> arm D)) (p e : Z) (a : arm D) : arm D :=
  match fs with
  | [] => a
  | f :: fs' => run_calls h fs' (p + 4) e (resumed h p e (f (entered h p e a)))
  end.

(** A function called in state [a] that returns in [b] keeps the procedure call
    standard, what is on the stack up to [top], and the array from [lo] to [hi]. *)
Definition returns_kept (top lo hi : Z) (a b : arm D) : Prop :=
  arm_pc b = b_lr (svc a) /\ mode_of (arm_cpsr b) = Some Svc /\ b_sp (svc b) = b_sp (svc a) /\ length (gpr b) = 13%nat /\
  forall x, b_sp (svc a) <= x < top \/ lo <= x < hi -> get8 (arm_mem b) x = get8 (arm_mem a) x.

Fixpoint calls_kept (h : nat) (top lo hi : Z) (fs : list (arm D -> arm D)) (p e : Z) (a : arm D) : Prop :=
  match fs with
  | [] => True
  | f :: fs' =>
      returns_kept top lo hi (entered h p e a) (f (entered h p e a)) /\
      calls_kept h top lo hi fs' (p + 4) e (resumed h p e (f (entered h p e a)))
  end.

(** The array from [p] on holds the addresses of the compiled functions [fs]. *)
Definition array_holds (p : Z) (fs : list (arm D -> arm D)) (m : mem) : Prop :=
  forall i f, fs !! i = Some f -> let w := load cpu_endian 4 m (p + 4 * Z.of_nat i) in
    compiled w = Some f /\ code_at base code w = None /\ 0x20 <= w.

Lemma array_holds_ext p fs m m' :
  (forall x, p <= x < p + 4 * Z.of_nat (length fs) -> get8 m' x = get8 m x) -> array_holds p fs m -> array_holds p fs m'.
Proof.
  intros Hm Ha i f Hi. cbv zeta. rewrite (load_ext _ _ _ m); [by apply Ha|].
  apply lookup_lt_Some in Hi. intros x Hx. apply Hm. lia.
Qed.

Lemma array_holds_tail p f fs m : array_holds p (f :: fs) m -> array_holds (p + 4) fs m.
Proof. intros Ha i g Hi. pose proof (Ha (S i) g Hi) as Hw. by replace (p + 4 * Z.of_nat (S i)) with (p + 4 + 4 * Z.of_nat i) in Hw by lia. Qed.

(** The call of one function. *)
Lemma call_entered_run h p e g u ib sp lr s c m d :
  is_loop h -> mode_of c = Some Svc -> p mod 4 = 0 -> 0 <= p < RAM_SIZE -> p <> e -> is_u32 e ->
  sp mod 4 = 0 -> 8 <= sp <= RAM_SIZE -> length g = 13%nat ->
  let a := loop_head h p e (mk_arm g u ib (mk_bank sp lr s) 0 c m d) in
  run 5 a = Some (entered h p e a).
Proof.
  intros Hh Hc Hp Hpr Hne He Hsp Hspr Hlen a. unfold RAM_SIZE in *.
  destruct (list_13 _ Hlen) as (r0 & r1 & r2 & r3 & r4 & r5 & r6 & r7 & r8 & r9 & r10 & r11 & r12 & ->).
  assert (mode_of (compared p e c) = Some Svc) as Hc' by (by rewrite compared_mode).
  assert ((sp - 8) mod 4 = 0) as Hal by word_lia.
  unfold a, entered, loop_head. cbn [gpr usr irq svc arm_pc arm_cpsr arm_mem arm_dev b_sp b_lr b_spsr drop].
  destruct Hh as [->| ->].
  - arm_step start_held 12%nat Hc. fold (compared p e c). arm_step start_held 13%nat Hc'.
    rewrite compared_equal, (proj2 (Z.eqb_neq _ _)) by (done || (unfold is_u32; lia)).
    arm_step start_held 14%nat Hc'. arm_step start_held 15%nat Hc'. arm_step start_held 16%nat Hc'. reflexivity.
  - arm_step start_held 25%nat Hc. fold (compared p e c). arm_step start_held 26%nat Hc'.
    rewrite compared_equal, (proj2 (Z.eqb_neq _ _)) by (done || (unfold is_u32; lia)).
    arm_step start_held 27%nat Hc'. arm_step start_held 28%nat Hc'. arm_step start_held 29%nat Hc'. reflexivity.
Qed.

(** From its return to the head of the loop. *)
Lemma resumed_run h p e g u ib sp lr s c m d :
  is_loop h -> mode_of c = Some Svc -> p mod 4 = 0 -> 0 <= p < RAM_SIZE -> is_u32 e ->
  sp mod 4 = 0 -> 0 <= sp -> sp + 8 <= RAM_SIZE -> length g = 13%nat -> load_words m sp 2 = [p; e] ->
  let b := mk_arm g u ib (mk_bank sp lr s) (at_ base (h + 5)) c m d in
  run 3 b = Some (resumed h p e b).
Proof.
  intros Hh Hc Hp Hpr He Hsp H0 Hspr Hlen Hw b. unfold RAM_SIZE in *. cbn [load_words] in Hw.
  destruct (list_13 _ Hlen) as (r0 & r1 & r2 & r3 & r4 & r5 & r6 & r7 & r8 & r9 & r10 & r11 & r12 & ->).
  injection Hw as Hw0 Hw1.
  unfold b, resumed, loop_head. cbn [gpr usr irq svc arm_pc arm_cpsr arm_mem arm_dev b_sp b_lr b_spsr drop].
  destruct Hh as [->| ->].
  - change (at_ base (12 + 5)) with (at_ base 17). arm_step start_held 17%nat Hc. rewrite Hw0, Hw1.
    arm_step start_held 18%nat Hc. arm_step start_held 19%nat Hc. reflexivity.
  - change (at_ base (25 + 5)) with (at_ base 30). arm_step start_held 30%nat Hc. rewrite Hw0, Hw1.
    arm_step start_held 31%nat Hc. arm_step start_held 32%nat Hc. reflexivity.
Qed.

Lemma loop_exit_run h e g u ib sb c m d :
  is_loop h -> mode_of c = Some Svc -> is_u32 e -> length g = 13%nat ->
  let a := loop_head h e e (mk_arm g u ib sb 0 c m d) in
  run 2 a = Some (set_pc (at_ base (h + 8)) (set_psr (compared e e c) a)).
Proof.
  intros Hh Hc He Hlen a.
  destruct (list_13 _ Hlen) as (r0 & r1 & r2 & r3 & r4 & r5 & r6 & r7 & r8 & r9 & r10 & r11 & r12 & ->).
  assert (mode_of (compared e e c) = Some Svc) as Hc' by (by rewrite compared_mode).
  unfold a, loop_head. cbn [gpr usr irq svc arm_pc arm_cpsr arm_mem arm_dev drop].
  destruct Hh as [->| ->].
  - arm_step start_held 12%nat Hc. fold (compared e e c). arm_step start_held 13%nat Hc'.
    rewrite compared_equal, Z.eqb_refl by done. reflexivity.
  - arm_step start_held 25%nat Hc. fold (compared e e c). arm_step start_held 26%nat Hc'.
    rewrite compared_equal, Z.eqb_refl by done. reflexivity.
Qed.

(** The loop calls all the functions, each once, in order, and ends. *)
Lemma loop_runs h top lo hi fs p e (a0 : arm D) :
  let a := loop_head h p e a0 in let sp := b_sp (svc a0) in
  is_loop h -> mode_of (arm_cpsr a0) = Some Svc -> length (gpr a0) = 13%nat ->
  p mod 4 = 0 -> 0 <= lo <= p -> e = p + 4 * Z.of_nat (length fs) -> e <= hi -> e <= RAM_SIZE ->
  sp mod 4 = 0 -> 8 <= sp <= RAM_SIZE -> sp <= top -> hi <= sp - 8 \/ sp <= lo ->
  array_holds p fs (arm_mem a0) -> calls_kept h top lo hi fs p e a ->
  let b := run_calls h fs p e a in
  exists c', reaches a (set_pc (at_ base (h + 8)) (set_psr c' b)) /\ mode_of c' = Some Svc /\
    b_sp (svc b) = sp /\ length (gpr b) = 13%nat /\
    forall x, sp <= x < top \/ lo <= x < hi -> get8 (arm_mem b) x = get8 (arm_mem a0) x.
Proof.
  intros a sp. unfold a, sp. clear a sp. revert p a0.
  induction fs as [|f fs IH]; intros p [g u ib [sp lr s] pc0 c m d]; cbn [gpr svc arm_cpsr arm_mem b_sp run_calls calls_kept length];
    intros Hh Hc Hlen Hp Hlo He Hhi Her Hsp Hspr Htop Hapart Harr Hkept.
  - assert (e = p) as -> by lia. exists (compared p p c). rewrite compared_mode. split; [|split; [done|split; [done|split; [|done]]]].
    + exists 2%nat. apply (loop_exit_run h p g u ib (mk_bank sp lr s) c m d); [done|done|unfold is_u32, RAM_SIZE in *; lia|done].
    + cbn. rewrite length_drop. by rewrite Hlen.
  - destruct Hkept as [Hret Hkept]. pose proof (Harr 0%nat f eq_refl) as (Hf & Hcode & Hlow).
    rewrite Z.add_0_r in Hf, Hcode, Hlow.
    set (a := loop_head h p e _) in *. set (a1 := entered h p e a) in *.
    assert (run 5 a = Some a1) as Hrun1
      by (apply (call_entered_run h p e g u ib sp lr s c m d); try done; unfold is_u32, RAM_SIZE in *; lia).
    assert (run 1 a1 = Some (f a1)) as Hrun2 by (by rewrite (step_compiled _ _ (load cpu_endian 4 m p) f)).
    destruct Hret as (Hpc & Hmode & Hspb & Hlb & Hmem).
    assert (forall x, get8 (arm_mem a1) x = get8 (store_words m (sp - 8) [p; e]) x) as Hm1 by done.
    assert (load_words (arm_mem (f a1)) (sp - 8) 2 = [p; e]) as Hpop.
    { transitivity (load_words (store_words m (sp - 8) [p; e]) (sp - 8) (length [p; e])).
      - apply load_words_ext. intros x Hx. apply Hmem. left. change (b_sp (svc a1)) with (sp - 8). cbn [length] in Hx. lia.
      - apply load_store_words. repeat constructor; unfold is_u32, RAM_SIZE in *; lia. }
    assert (forall x, sp <= x < top \/ lo <= x < hi -> get8 (arm_mem (f a1)) x = get8 m x) as Hsame.
    { intros x Hx. rewrite Hmem by (destruct Hx; [left; change (b_sp (svc a1)) with (sp - 8); lia|by right]). rewrite Hm1. apply store_words_outside. cbn [length]. lia. }
    destruct (f a1) as [gb ub ibb [spb lrb sb] pcb cb mb db]. cbn [gpr svc arm_cpsr arm_mem arm_pc b_sp b_lr] in *.
    change (b_sp (svc a1)) with (sp - 8) in Hspb. change (b_lr (svc a1)) with (at_ base (h + 5)) in Hpc. subst pcb spb.
    assert (run 3 (mk_arm gb ub ibb (mk_bank (sp - 8) lrb sb) (at_ base (h + 5)) cb mb db) =
      Some (resumed h p e (mk_arm gb ub ibb (mk_bank (sp - 8) lrb sb) (at_ base (h + 5)) cb mb db))) as Hrun3.
    { apply resumed_run; try done; unfold is_u32, RAM_SIZE in *; try lia. word_lia. }
    unfold resumed in *. cbn [gpr usr irq svc arm_pc arm_cpsr arm_mem arm_dev b_sp b_lr b_spsr] in *.
    replace (sp - 8 + 8) with sp in * by lia.
    destruct (IH (p + 4) (mk_arm gb ub ibb (mk_bank sp lrb sb) (at_ base (h + 5)) cb mb db))
      as (c' & Hreach & Hc' & Hspf & Hlf & Hmf); cbn [gpr svc arm_cpsr arm_mem b_sp]; try done; try lia.
    + by apply aligned_plus.
    + apply array_holds_tail in Harr. eapply array_holds_ext; [|exact Harr]. intros x Hx. apply Hsame. right. lia.
    + exists c'. split; [|split; [done|split; [done|split; [done|]]]].
      * eapply reaches_trans; [by exists 5%nat|]. eapply reaches_trans; [by exists 1%nat|].
        eapply reaches_trans; [by exists 3%nat|]. exact Hreach.
      * intros x Hx. rewrite Hmf by done. by apply Hsame.
Qed.

(** What the linker script and the build give, for [ni] initialisers and [nf]
    finalisers: a bss of whole words, with room for five registers, and the two
    arrays below it.  The script aligns the start of the bss, not its end. *)
Definition symbols_ok (ni nf : nat) : Prop :=
  bss_start y mod 4 = 0 /\ bss_end y mod 4 = 0 /\ 0 <= bss_start y /\ bss_start y + 20 <= bss_end y <= RAM_SIZE /\
  init_array_start y mod 4 = 0 /\ 0 <= init_array_start y /\
  init_array_end y = init_array_start y + 4 * Z.of_nat ni /\ init_array_end y <= bss_start y /\
  fini_array_start y mod 4 = 0 /\ 0 <= fini_array_start y /\
  fini_array_end y = fini_array_start y + 4 * Z.of_nat nf /\ fini_array_end y <= bss_start y.

(** Up to the loop. *)
Lemma start_run ni nf r0 r1 r2 r3 r4 r5 r6 r7 r8 r9 r10 r11 r12 u ib isp ilr s c m d :
  symbols_ok ni nf -> mode_of c = Some Svc ->
  run 5 (mk_arm [r0; r1; r2; r3; r4; r5; r6; r7; r8; r9; r10; r11; r12] u ib (mk_bank isp ilr s) (at_ base 0) c m d) =
  Some (mk_arm [bss_start y; bss_end y; 0; r3; r4; r5; r6; r7; r8; r9; r10; r11; r12] u ib (mk_bank (bss_end y - 12) ilr s)
    (at_ base 5) c (store_words m (bss_end y - 12) [r0; r1; r2]) d).
Proof.
  intros (Hs & He & H0 & Hr & _) Hc. unfold RAM_SIZE in *. assert ((bss_end y - 12) mod 4 = 0) as Hal by word_lia.
  arm_step start_held 0%nat Hc. arm_step start_held 1%nat Hc. arm_step start_held 2%nat Hc. arm_step start_held 3%nat Hc. arm_step start_held 4%nat Hc. reflexivity.
Qed.

(** From reset to the loop over the initialisers: the bss is zero. *)
Lemma reset_run ni nf (a : arm D) :
  symbols_ok ni nf -> mode_of (arm_cpsr a) = Some Svc -> arm_pc a = base -> length (gpr a) = 13%nat ->
  exists a1, reaches a (loop_head 12 (init_array_start y) (init_array_end y) a1) /\
    mode_of (arm_cpsr a1) = Some Svc /\ b_sp (svc a1) = bss_end y - 12 /\ length (gpr a1) = 13%nat /\
    (forall x, get8 (arm_mem a1) x = if decide (bss_start y <= x < bss_end y) then 0 else get8 (arm_mem a) x) /\
    arm_dev a1 = arm_dev a.
Proof.
  intros Hok Hc Hpc Hlen. pose proof Hok as (Hs & He & H0 & Hr & _).
  destruct a as [g u ib [isp ilr s] p c m d]. cbn [gpr arm_pc arm_cpsr arm_mem arm_dev] in *.
  destruct (list_13 _ Hlen) as (r0 & r1 & r2 & r3 & r4 & r5 & r6 & r7 & r8 & r9 & r10 & r11 & r12 & ->).
  assert (p = at_ base 0) as -> by (unfold at_; lia).
  pose proof (start_run ni nf r0 r1 r2 r3 r4 r5 r6 r7 r8 r9 r10 r11 r12 u ib isp ilr s c m d Hok Hc) as Hrun1.
  destruct (clear_loop (Z.to_nat ((bss_end y - bss_start y) / 4)) (bss_start y) (bss_end y) r3 r4 r5 r6 r7 r8 r9 r10 r11 r12
    u ib (mk_bank (bss_end y - 12) ilr s) c (store_words m (bss_end y - 12) [r0; r1; r2]) d)
    as (c1 & m1 & Hrun2 & Hc1 & Hm1); [done|done|done| |lia|].
  { rewrite Z2Nat.id by word_lia. word_lia. }
  exists (mk_arm [bss_end y; bss_end y; 0; r3; r4; r5; r6; r7; r8; r9; r10; r11; r12] u ib (mk_bank (bss_end y - 12) ilr s)
    (at_ base 10) c1 m1 d). split; [|split_and!; try done].
  - eapply reaches_trans; [by exists 5%nat|]. eapply reaches_trans; [exact Hrun2|]. exists 2%nat. unfold loop_head.
    cbn [gpr usr irq svc arm_cpsr arm_mem arm_dev drop].
    arm_step start_held 10%nat Hc1. arm_step start_held 11%nat Hc1. reflexivity.
  - cbn [arm_mem]. intros x. rewrite Hm1. case_decide; [done|]. apply store_words_outside. cbn [length]. lia.
Qed.

(** From the end of that loop to the call of [kernel_main]. *)
Lemma call_run (b : arm D) :
  b_sp (svc b) = bss_end y - 12 -> 12 <= bss_end y <= RAM_SIZE -> bss_end y mod 4 = 0 ->
  mode_of (arm_cpsr b) = Some Svc -> length (gpr b) = 13%nat ->
  (forall x, bss_end y - 12 <= x < bss_end y -> get8 (arm_mem b) x = 0) ->
  let a' := mk_arm ([0; 0; 0; kernel_main_at y] ++ drop 4 (gpr b)) (usr b) (irq b)
    (mk_bank (bss_end y) (at_ base 23) (b_spsr (svc b))) (kernel_main_at y) (arm_cpsr b) (arm_mem b) (arm_dev b) in
  run 3 (set_pc (at_ base 20) b) = Some a'.
Proof.
  intros Hsp Hr Hal Hc Hlen Hm. unfold RAM_SIZE in *. destruct b as [g u ib [sp lr s] p c m d].
  cbn [gpr usr irq svc arm_pc arm_cpsr arm_mem arm_dev b_sp b_spsr set_pc] in *. subst sp.
  destruct (list_13 _ Hlen) as (r0 & r1 & r2 & r3 & r4 & r5 & r6 & r7 & r8 & r9 & r10 & r11 & r12 & ->).
  cbn [drop app]. assert ((bss_end y - 12) mod 4 = 0) as Hal' by word_lia.
  arm_step start_held 20%nat Hc. replace (bss_end y - 12 + 12) with (bss_end y) by lia.
  rewrite !load_zero by (intros; apply Hm; lia). arm_step start_held 21%nat Hc. arm_step start_held 22%nat Hc. reflexivity.
Qed.

(** [kernel_main] has returned. *)
Lemma after_main_run (a : arm D) :
  mode_of (arm_cpsr a) = Some Svc -> arm_pc a = at_ base 23 -> length (gpr a) = 13%nat ->
  run 2 a = Some (loop_head 25 (fini_array_start y) (fini_array_end y) a).
Proof.
  intros Hc Hpc Hlen. destruct a as [g u ib sb p c m d]. cbn [gpr arm_pc arm_cpsr] in *. subst p.
  destruct (list_13 _ Hlen) as (r0 & r1 & r2 & r3 & r4 & r5 & r6 & r7 & r8 & r9 & r10 & r11 & r12 & ->).
  unfold loop_head. cbn [gpr usr irq svc arm_cpsr arm_mem arm_dev drop].
  arm_step start_held 23%nat Hc. arm_step start_held 24%nat Hc. reflexivity.
Qed.

Lemma halted (a : arm D) n : mode_of (arm_cpsr a) = Some Svc -> arm_pc a = at_ base 33 -> run n a = Some a.
Proof.
  intros Hc Hp. destruct a as [g u ib sb p c m d]. cbn [arm_pc arm_cpsr] in *. subst p.
  induction n as [|n IH]; [done|]. arm_step start_held 33%nat Hc. exact IH.
Qed.

(** C12: From reset in supervisor mode start.S clears the bss, leaves the rest of
    memory and the devices as they are, and calls the initialisers of .init_array, the
    constructors of the drivers, each once and in order, on a stack that grows down
    from the end of the bss into the bss.  If they keep the procedure call standard,
    the array and what is on the stack, it then calls [kernel_main] with the stack
    pointer at the end of the bss, and with memory and devices as the last of them
    left them: the bss is not zero any more where they have written, and their stack
    frames were there.  The three registers start.S saves for [kernel_main] do not
    survive: they are pushed into the bss before that is cleared, so [kernel_main]
    gets zeros.  If [kernel_main] ever returns, the finalisers of .fini_array are
    called in the same way, and the processor stays at the last instruction for ever.
    The end of the bss has to be aligned to words, which the linker script does not
    ask for. *)
Theorem start_calls_kernel_main inits finis (a : arm D) :
  symbols_ok (length inits) (length finis) -> array_holds (init_array_start y) inits (arm_mem a) ->
  mode_of (arm_cpsr a) = Some Svc -> arm_pc a = base -> length (gpr a) = 13%nat ->
  exists a0, reaches a a0 /\ arm_pc a0 = at_ base 12 /\ mode_of (arm_cpsr a0) = Some Svc /\ length (gpr a0) = 13%nat /\
    b_sp (svc a0) = bss_end y - 12 /\
    (forall x, bss_start y <= x < bss_end y -> get8 (arm_mem a0) x = 0) /\
    (forall x, ~ (bss_start y <= x < bss_end y) -> get8 (arm_mem a0) x = get8 (arm_mem a) x) /\
    arm_dev a0 = arm_dev a /\
    let b := run_calls 12 inits (init_array_start y) (init_array_end y) a0 in
    (calls_kept 12 (bss_end y) (init_array_start y) (init_array_end y) inits (init_array_start y) (init_array_end y) a0 ->
     exists a', reaches a0 a' /\ arm_pc a' = kernel_main_at y /\ mode_of (arm_cpsr a') = Some Svc /\
       b_sp (svc a') = bss_end y /\ b_lr (svc a') = at_ base 23 /\ take 3 (gpr a') = [0; 0; 0] /\ length (gpr a') = 13%nat /\
       arm_mem a' = arm_mem b /\ arm_dev a' = arm_dev b /\
       forall main, compiled (kernel_main_at y) = Some main -> code_at base code (kernel_main_at y) = None ->
         0x20 <= kernel_main_at y -> arm_pc (main a') = at_ base 23 -> mode_of (arm_cpsr (main a')) = Some Svc ->
         length (gpr (main a')) = 13%nat -> b_sp (svc (main a')) = bss_end y ->
         array_holds (fini_array_start y) finis (arm_mem (main a')) ->
         let a1 := loop_head 25 (fini_array_start y) (fini_array_end y) (main a') in
         let b1 := run_calls 25 finis (fini_array_start y) (fini_array_end y) a1 in
         calls_kept 25 (bss_end y) (fini_array_start y) (fini_array_end y) finis (fini_array_start y) (fini_array_end y) a1 ->
         exists a2, reaches a' a2 /\ arm_pc a2 = at_ base 33 /\ arm_mem a2 = arm_mem b1 /\ arm_dev a2 = arm_dev b1 /\
           forall n, run n a2 = Some a2).
Proof.
  intros Hok Harr Hc Hpc Hlen.
  pose proof Hok as (Hs & He & H0 & Hr & Hi4 & Hi0 & Hie & Hib & Hf4 & Hf0 & Hfe & Hfb).
  destruct (reset_run (length inits) (length finis) a Hok Hc Hpc Hlen) as (a1 & Hreach & Hc1 & Hsp1 & Hl1 & Hm1 & Hd1).
  exists (loop_head 12 (init_array_start y) (init_array_end y) a1).
  split; [exact Hreach|]. split; [done|]. split; [exact Hc1|].
  split; [cbn [gpr loop_head]; cbn [length]; rewrite length_drop, Hl1; lia|]. split; [exact Hsp1|].
  split; [intros x Hx; cbn [arm_mem loop_head]; by rewrite Hm1, decide_True|].
  split; [intros x Hx; cbn [arm_mem loop_head]; by rewrite Hm1, decide_False|]. split; [exact Hd1|].
  intros b Hkept.
  destruct (loop_runs 12 (bss_end y) (init_array_start y) (init_array_end y) inits (init_array_start y) (init_array_end y) a1)
    as (c' & Hreach2 & Hc' & Hspb & Hlb & Hmb); rewrite ?Hsp1; try done; try lia.
  { by left. } { word_lia. }
  { eapply array_holds_ext; [|exact Harr]. intros x Hx. rewrite Hm1, decide_False by lia. done. }
  fold b in Hreach2, Hspb, Hlb, Hmb. rewrite Hsp1 in Hspb, Hmb.
  pose proof (call_run (set_psr c' b) Hspb ltac:(lia) He Hc' Hlb) as Hcall. cbv zeta in Hcall.
  eexists. split; [eapply reaches_trans; [exact Hreach2|]; exists 3%nat; apply Hcall|].
  { intros x Hx. cbn [arm_mem set_psr]. rewrite Hmb by (left; lia). by rewrite Hm1, decide_True by lia. }
  split_and!; try done; [cbn [gpr set_psr]; rewrite length_app, length_drop; cbn [length]; rewrite Hlb; lia|].
  set (a' := mk_arm _ _ _ _ _ _ _ _). intros main Hmain Hcode Hlow Hp2 Hc2 Hl2 Hsp2 Harr2 a2 b1 Hkept2.
  assert (run 1 a' = Some (main a')) as Hrun1 by (by rewrite (step_compiled _ _ (kernel_main_at y) main)).
  pose proof (after_main_run (main a') Hc2 Hp2 Hl2) as Hrun2. fold a2 in Hrun2.
  destruct (loop_runs 25 (bss_end y) (fini_array_start y) (fini_array_end y) finis (fini_array_start y) (fini_array_end y) (main a'))
    as (c3 & Hreach3 & Hc3 & _); rewrite ?Hsp2; try done; try lia.
  { by right. }
  exists (set_pc (at_ base 33) (set_psr c3 b1)). split; [|split; [done|split; [done|split; [done|]]]].
  - eapply reaches_trans; [by exists 1%nat|]. eapply reaches_trans; [by exists 2%nat|]. exact Hreach3.
  - intros n. by apply halted.
Qed.

End Loops.

(** ** Witness *)

(** A bss of sixteen words at 0x40000 with garbage in RAM; an initialiser and a
    finaliser that write a word of the bss, and a [kernel_main] that returns at
    once. *)
Definition example_symbols : symbols := mk_symbols 0x40000 0x40040 0x30000 0x30004 0x30004 0x30008 0x20000.

Definition example_return (a : arm regfile) : arm regfile := set_pc (b_lr (svc a)) a.
Definition example_constructor (v : Z) (a : arm regfile) : arm regfile :=
  example_return (set_memory (store LittleEndian 4 (arm_mem a) 0x40000 v) a).

Definition example_functions (p : Z) : option (arm regfile -> arm regfile) :=
  if p =? 0x20000 then Some example_return
  else if p =? 0x20100 then Some (example_constructor 7)
  else if p =? 0x20200 then Some (example_constructor 8)
  else None.

Definition example_image : mem :=
  store LittleEndian 4 (store LittleEndian 4 (write_bytes ∅ 0x3FFFC (replicate 64 0xAA)) 0x30000 0x20100) 0x30004 0x20200.

Definition example_reset : arm regfile :=
  mk_arm [1; 2; 3; 4; 5; 6; 7; 8; 9; 10; 11; 12; 13] (mk_bank 0 0 0) (mk_bank 0 0 0) (mk_bank 0 0 0) 0x10000 0xD3
    example_image (mk_regfile ∅).

Lemma constructor_kept v (a : arm regfile) lo hi :
  mode_of (arm_cpsr a) = Some Svc -> length (gpr a) = 13%nat -> 0x40004 <= b_sp (svc a) -> hi <= 0x40000 ->
  returns_kept 0x40040 lo hi a (example_constructor v a).
Proof.
  intros Hc Hl Hsp Hhi. split_and!; try done. intros x Hx. apply store_same_outside. lia.
Qed.

Lemma start_calls_kernel_main_witness :
  exists a', arm_pc a' = 0x20000 /\ b_sp (svc a') = 0x40040 /\ load LittleEndian 4 (arm_mem a') 0x40000 = 7 /\
    exists a2, reaches (cpu := LittleEndian) (code_at 0x10000 (start_code 0x10000 example_symbols)) example_functions a' a2 /\
      arm_pc a2 = 0x10084 /\ load LittleEndian 4 (arm_mem a2) 0x40000 = 8.
Proof.
  destruct (start_calls_kernel_main (cpu := LittleEndian) 0x10000 example_symbols example_functions
    (conj eq_refl (conj (ltac:(done) : 0x20 <= 0x10000) (eq_refl : 0x10000 + 4 * 34 < 0x80000000)))
    [example_constructor 7] [example_constructor 8] example_reset)
    as (a0 & _ & _ & Hc0 & Hl0 & Hsp0 & _ & Hout & _ & Hmain).
  - by apply (bool_decide_unpack _); vm_compute.
  - intros [|i] f Hi; [|done]. injection Hi as <-. split; [by vm_compute|]. split; [by vm_compute|]. by vm_compute.
  - done.
  - done.
  - done.
  - assert (forall h p e v lo hi (a : arm regfile), mode_of (arm_cpsr a) = Some Svc -> length (gpr a) = 13%nat ->
      0x40034 <= b_sp (svc a) + 8 -> hi <= 0x40000 ->
      returns_kept 0x40040 lo hi (entered (cpu := LittleEndian) 0x10000 h p e a)
        (example_constructor v (entered (cpu := LittleEndian) 0x10000 h p e a))) as Hkept.
    { intros h p e v lo hi a Hc Hl Hsp Hhi. apply constructor_kept; [| | |done].
      - unfold entered. cbn [arm_cpsr]. by rewrite compared_mode.
      - unfold entered. cbn [gpr length]. by rewrite length_drop, Hl.
      - unfold entered. cbn [svc b_sp]. lia. }
    destruct Hmain as (a' & _ & Hp & Hc & Hsp & Hlr & _ & Hl & Hmem & _ & Hret).
    { split; [|done]. apply Hkept; [done|done|rewrite Hsp0; cbn; lia|cbn; lia]. }
    exists a'. split; [exact Hp|]. split; [exact Hsp|]. split; [rewrite Hmem; by apply load_store_same|].
    destruct (Hret example_return) as (a2 & Hreach & Hp2 & Hmem2 & _); try done.
    + intros [|i] f Hi; [|done]. injection Hi as <-.
      assert (load LittleEndian 4 (arm_mem (example_return a')) 0x30004 = 0x20200) as Hw.
      { change (arm_mem (example_return a')) with (arm_mem a'). rewrite Hmem, (load_ext _ _ _ example_image); [by vm_compute|].
        intros x Hx. cbn [run_calls]. unfold example_constructor, entered. cbn [arm_mem resumed loop_head set_memory example_return set_pc].
        rewrite store_same_outside by lia. rewrite store_words_outside by (rewrite Hsp0; cbn; lia). apply Hout. cbn. lia. }
      change (fini_array_start example_symbols + 4 * Z.of_nat 0) with 0x30004. change (@cpu_endian LittleEndian) with LittleEndian.
      cbv zeta. rewrite Hw. split; [by vm_compute|]. split; [by vm_compute|]. by vm_compute.
    + split; [|done]. apply Hkept; [done|cbn [gpr loop_head length]; rewrite length_drop; change (gpr (example_return a')) with (gpr a'); by rewrite Hl|cbn; rewrite Hsp; cbn; lia|cbn; lia].
    + exists a2. split; [exact Hreach|]. split; [exact Hp2|]. rewrite Hmem2. by apply load_store_same.
Defined.
