(* ===== verification/ModeSwitch.v ===== *)
(** * Inline assembly: kernel/interrupt.c, utilities.c, syscall.c, syscall_handler.c

    The pieces of assembly inside C functions.  Which registers hold their
    operands is the compiler's choice and a parameter here.  They are proved to
    do what Interrupt.v and Syscall.v say of them, for the choices that are
    safe; the others are named. *)

From S2P Require Import Prelude StateMonad Memory Bus Heap Scheduler Interrupt Arm.

(** ** Definitions *)

(** [setup_irq_stack], with the stack's address in [rs]. *)
Definition setup_irq_stack_code (rs : nat) : list instr :=
  [MrsCpsr 0;
   BicImm 0 0 0x1f;
   OrrImm 0 0 0x12;
   MsrCpsr PSR_fc 0;
   Mov SP rs;
   BicImm 0 0 0x1f;
   OrrImm 0 0 0x13;
   MsrCpsr PSR_fc 0].

Definition enable_irq_code : list instr :=
  [MrsCpsr 1;
   BicImm 1 1 0x80;
   MsrCpsr PSR_c 1].

(** [get_operating_mode], with [current_pcsr] in [rd]. *)
Definition get_operating_mode_code (rd : nat) : list instr :=
  [MrsCpsr 3;
   Mov rd 3].

(** [syscall], with [number], [data] and [ret] in these registers. *)
Definition syscall_code (number data ret : nat) : list instr :=
  [Mov 0 number;
   Mov 1 data;
   Svc_;
   Mov ret 0].

(** The beginning of [syscall_handler], with [syscallno] and [data] in these
    registers. *)
Definition syscall_arguments_code (syscallno data : nat) : list instr :=
  [Mov syscallno 0;
   Mov data 1].

(** The end of [syscall_handler]; in front of it the compiler has pushed r11 and
    lr and made room for the two local variables. *)
Definition syscall_return_code : list instr :=
  [AddImm SP SP 8;
   Pop [11; 14]%nat;
   MovsReturn].

(** ** General registers *)

Lemma reg_in_gpr {D} M r (a : arm D) : (r < 13)%nat -> reg_in M r a = gpr a !! r.
Proof. intros Hr. do 13 (destruct r as [|r]; [done|]). lia. Qed.

Lemma set_reg_in_gpr {D} M r v (a : arm D) : (r < 13)%nat -> set_reg_in M r v a = set_gpr (<[r := v]> (gpr a)) a.
Proof. intros Hr. do 13 (destruct r as [|r]; [done|]). lia. Qed.

Lemma exec_mov {D} `{Bus D} {cpu : Cpu} M rd rm v (a : arm D) :
  mode_of (arm_cpsr a) = Some M -> (rd < 13)%nat -> gpr a !! rm = Some v -> (rm < 13)%nat ->
  exec (Mov rd rm) a = Some (set_gpr (<[rd := v]> (gpr a)) a).
Proof.
  intros HM Hrd Hv Hrm. unfold exec, get_reg, set_reg. rewrite HM. cbn [mbind option_bind].
  by rewrite reg_in_gpr, Hv by done; cbn [mbind option_bind]; rewrite set_reg_in_gpr.
Qed.

(** ** Interrupt mode *)

Lemma merge_psr_bits mask old new b :
  0 <= b -> Z.testbit (merge_psr mask old new) b = if Z.testbit mask b then Z.testbit new b else Z.testbit old b.
Proof.
  intros Hb. unfold merge_psr. rewrite Z.lor_spec, !Z.land_spec, Z.lnot_spec by done.
  destruct (Z.testbit mask b), (Z.testbit old b), (Z.testbit new b); done.
Qed.

Lemma psr_ok_update c k m : psr_ok c -> 0 <= m < 256 -> psr_ok (Z.lor (Z.land c (Z.lnot k)) m).
Proof.
  intros [Hc Hc0] Hm. assert (Z.land m 0xff = m) as Em by (change 0xff with (Z.ones 8); rewrite Z.land_ones by lia; by apply Z.mod_small).
  assert (Z.land c (Z.ones 32) = c) as Ec by (rewrite Z.land_ones by lia; by apply Z.mod_small).
  assert (Z.land m (Z.ones 32) = m) as Em' by (rewrite Z.land_ones by lia; apply Z.mod_small; lia).
  split.
  - assert (Z.land (Z.lor (Z.land c (Z.lnot k)) m) (Z.ones 32) = Z.lor (Z.land c (Z.lnot k)) m) as <-.
    { rewrite Z.land_lor_distr_l, <- Z.land_assoc, (Z.land_comm (Z.lnot k)), Z.land_assoc, Ec. by rewrite Em'. }
    rewrite Z.land_ones by lia. apply Z.mod_pos_bound. lia.
  - rewrite Z.land_lor_distr_l, <- Z.land_assoc, (Z.land_comm (Z.lnot k)), Z.land_assoc, Hc0, <- Em, <- Z.land_assoc.
    change (Z.land 0xff 0x00ffff00) with 0. by rewrite !Z.land_0_r.
Qed.

Section Setup.
Context {D : Type} `{Bus D} {cpu : Cpu} (code : Z -> option instr) (compiled : Z -> option (arm D -> arm D)) (base : Z).

Abbreviation run := (steps code compiled).

Abbreviation reaches := (reaches code compiled).

(** The status register in interrupt mode, and after it. *)
Definition irq_psr (c : Z) : Z := Z.lor (Z.land c (Z.lnot 0x1f)) 0x12.
Definition svc_psr (c : Z) : Z := Z.lor (Z.land (irq_psr c) (Z.lnot 0x1f)) 0x13.

Lemma setup_irq_stack_run rs r0 r1 r2 r3 r4 r5 r6 r7 r8 r9 r10 r11 r12 u ib sb c m d v :
  let g r0 := [r0; r1; r2; r3; r4; r5; r6; r7; r8; r9; r10; r11; r12] in
  holds code base (setup_irq_stack_code rs) -> mode_of c = Some Svc -> psr_ok c ->
  (if decide (rs = 0%nat) then v = irq_psr c else g 0 !! rs = Some v) ->
  run 8 (mk_arm (g r0) u ib sb (at_ base 0) c m d) =
  Some (mk_arm (g (svc_psr c)) u (mk_bank v (b_lr ib) (b_spsr ib)) sb (at_ base 8) (svc_psr c) m d).
Proof.
  intros g Hl Hc Hok Hv.
  assert (psr_ok (irq_psr c)) as Hok1 by (apply psr_ok_update; [done|lia]).
  assert (psr_ok (svc_psr c)) as Hok2 by (apply psr_ok_update; [done|lia]).
  assert (mode_of (irq_psr c) = Some Irq) as Hc1 by (unfold mode_of, irq_psr; by rewrite mode_bits by lia).
  assert (mode_of (svc_psr c) = Some Svc) as Hc2 by (unfold mode_of, svc_psr; by rewrite mode_bits by lia).
  unfold g in *.
  arm_step Hl 0%nat Hc. arm_step Hl 1%nat Hc. arm_step Hl 2%nat Hc. fold (irq_psr c).
  arm_step Hl 3%nat Hc. rewrite decide_False, merge_psr_fc by done. 
  arm_step Hl 4%nat Hc1.
  match goal with |- context [match ?e with Some x => Some _ | None => None end] => assert (e = Some v) as -> end.
  { do 13 (destruct rs as [|rs]; [by (injection Hv as <- || rewrite Hv)|]). done. }
  arm_simpl. arm_step Hl 5%nat Hc1. arm_step Hl 6%nat Hc1. fold (svc_psr c).
  arm_step Hl 7%nat Hc1. rewrite decide_False, merge_psr_fc by done. reflexivity.
Qed.

Lemma enable_irq_run r0 r1 r2 r3 r4 r5 r6 r7 r8 r9 r10 r11 r12 u ib sb c m d :
  let g r1 := [r0; r1; r2; r3; r4; r5; r6; r7; r8; r9; r10; r11; r12] in
  holds code base enable_irq_code -> mode_of c = Some Svc ->
  run 3 (mk_arm (g r1) u ib sb (at_ base 0) c m d) =
  Some (mk_arm (g (Z.land c (Z.lnot 0x80))) u ib sb (at_ base 3) (Z.land c (Z.lnot 0x80)) m d).
Proof.
  intros g Hl Hc. unfold g.
  arm_step Hl 0%nat Hc. arm_step Hl 1%nat Hc. arm_step Hl 2%nat Hc.
  rewrite decide_False by done. cbn [steps]. do 2 f_equal. apply Z.bits_inj'. intros b Hb.
  rewrite merge_psr_bits by done. destruct (Z.testbit PSR_c b) eqn:Eb; [done|].
  rewrite Z.land_spec, Z.lnot_spec by done.
  assert (Z.testbit 0x80 b = false) as ->; [|by rewrite andb_true_r].
  destruct (decide (b < 8)); [|apply Z.bits_above_log2; [lia|cbn; lia]].
  unfold PSR_c in Eb. change 0xff with (Z.ones 8) in Eb. rewrite Z.ones_spec_low in Eb by lia. done.
Qed.

(** The status register arrives in [rd]; r3 is lost. *)
Lemma get_operating_mode_run rd g u ib sb c m d :
  holds code base (get_operating_mode_code rd) -> mode_of c <> None -> length g = 13%nat -> (rd < 13)%nat ->
  exists a', run 2 (mk_arm g u ib sb (at_ base 0) c m d) = Some a' /\ gpr a' = <[rd := c]> (<[3%nat := c]> g) /\
    Z.land (gpr a' !!! rd) 0x1f = get_operating_mode c.
Proof.
  intros Hl Hc Hlen Hrd. destruct (mode_of c) as [M|] eqn:HM; [|done]. eexists.
  rewrite (step_held _ _ _ _ 0 _ _ _ Hl eq_refl) by reflexivity. arm_simpl. rewrite HM. arm_simpl.
  change ((fix go (i : nat) (y : Z) (l : list Z) {struct l} : list Z :=
     match l with [] => [] | x :: l0 => match i with O => y :: l0 | S i0 => x :: go i0 y l0 end end) 3%nat c g) with (<[3%nat := c]> g).
  rewrite (step_held _ _ _ _ 1 _ _ _ Hl eq_refl) by reflexivity.
  rewrite (exec_mov M _ _ c) by first [done | lia | apply list_lookup_insert_eq; lia].
  split; [reflexivity|]. split; [done|]. cbn [gpr set_gpr set_pc]. rewrite list_lookup_total_insert_eq; [done|].
  rewrite length_insert. lia.
Qed.

(** C27: The assembly of [setup_irq_stack] and [enable_irq] does what their models
    say, when the compiler keeps the operand of [setup_irq_stack] in any register
    but r0: interrupt mode gets its stack pointer, the processor comes back to
    supervisor mode with everything but r0 as it was, and then interrupts are
    on.  The assembly changes r0 without telling the compiler; were the operand
    in r0, interrupt mode would get the status register as its stack pointer. *)
Theorem irq_setup_implemented rs (k : kernel D) (a : arm D) :
  mode_of (arm_cpsr a) = Some Svc -> psr_ok (arm_cpsr a) -> length (gpr a) = 13%nat -> arm_pc a = at_ base 0 ->
  arm_cpsr a = cpsr (k_context k) ->
  (holds code base (setup_irq_stack_code rs) ->
   (if decide (rs = 0%nat) then True else gpr a !! rs = Some IRQ_STACK_ADDRESS) ->
   exists a', reaches a a' /\ arm_pc a' = at_ base 8 /\ drop 1 (gpr a') = drop 1 (gpr a) /\
     usr a' = usr a /\ svc a' = svc a /\ arm_mem a' = arm_mem a /\
     arm_cpsr a' = cpsr (k_context (setup_irq_stack k)) /\
     (if decide (rs = 0%nat) then b_sp (irq a') = irq_psr (arm_cpsr a)
      else b_sp (irq a') = k_irq_sp (setup_irq_stack k))) /\
  (holds code base enable_irq_code ->
   exists a', reaches a a' /\ arm_pc a' = at_ base 3 /\ arm_cpsr a' = cpsr (k_context (enable_irq k)) /\
     Z.testbit (arm_cpsr a') 7 = false /\ irq a' = irq a /\ usr a' = usr a /\ svc a' = svc a /\ arm_mem a' = arm_mem a).
Proof.
  intros Hc Hok Hlen Hpc Hpsr. destruct a as [g u ib sb p c m d]. cbn [gpr usr irq svc arm_pc arm_cpsr arm_mem] in *.
  subst p. destruct (list_13 _ Hlen) as (r0 & r1 & r2 & r3 & r4 & r5 & r6 & r7 & r8 & r9 & r10 & r11 & r12 & ->). split.
  - intros Hl Hrs. eexists. split.
    { exists 8%nat. apply (setup_irq_stack_run rs) with (v := if decide (rs = 0%nat) then irq_psr c else IRQ_STACK_ADDRESS); try done.
      destruct (decide (rs = 0%nat)) as [|Hne]; [done|]. destruct rs; [done|exact Hrs]. }
    cbn [gpr usr irq svc arm_pc arm_cpsr arm_mem b_sp].
    assert (cpsr (k_context (setup_irq_stack k)) = svc_psr c /\ k_irq_sp (setup_irq_stack k) = IRQ_STACK_ADDRESS) as [-> ->].
    { unfold setup_irq_stack, set_sp, set_cpsr. cbn [k_context set_k_context cpsr]. rewrite <- Hpsr, mode_bits by lia. done. }
    split_and!; try done. by destruct (decide (rs = 0%nat)).
  - intros Hl. eexists. split; [exists 3%nat; by apply enable_irq_run|].
    cbn [gpr usr irq svc arm_pc arm_cpsr arm_mem]. split_and!; try done.
    + unfold enable_irq, set_cpsr. cbn [k_context set_k_context cpsr]. by rewrite Hpsr.
    + by rewrite Z.land_spec, andb_false_r.
Qed.

End Setup.

(** ** System calls *)

Section Syscall.
Context {D : Type} `{Bus D} {cpu : Cpu} (code : Z -> option instr) (compiled : Z -> option (arm D -> arm D)).

Abbreviation run := (steps code compiled).
Abbreviation reaches := (reaches code compiled).

(** The call site, and the end of the handler in memory. *)
Variables (site exit_ handler : Z) (number data ret : nat).
Hypothesis Hsite : holds code site (syscall_code number data ret).
Hypothesis Hexit : holds code exit_ syscall_return_code.
Hypothesis Hsites : site mod 4 = 0.
Hypothesis Hoperands : (number < 13)%nat /\ (data < 13)%nat /\ (ret < 13)%nat.

(** Up to the vector and through it. *)
Lemma svc_run g u ib sb c m d no v :
  mode_of c = Some Usr -> vector_target m 0x08 = Some handler -> g !! number = Some no -> <[0%nat := no]> g !! data = Some v ->
  run 4 (mk_arm g u ib sb (at_ site 0) c m d) =
  Some (mk_arm (<[1%nat := v]> (<[0%nat := no]> g)) u ib (mk_bank (b_sp sb) (at_ site 3) c) handler (exception_psr c 0x13) m d).
Proof.
  intros Hc Hv Hno Hdata. destruct Hoperands as (H1 & H2 & _).
  rewrite (step_held _ _ _ _ 0 _ _ _ Hsite eq_refl) by reflexivity.
  rewrite (exec_mov Usr _ _ no) by (done || lia). cbn [mbind option_bind].
  rewrite (step_held _ _ _ _ 1 _ _ _ Hsite eq_refl) by reflexivity.
  rewrite (exec_mov Usr _ _ v) by (done || lia). cbn [mbind option_bind].
  rewrite (step_held _ _ _ _ 2 _ _ _ Hsite eq_refl) by reflexivity. arm_simpl.
  cbn [steps]. unfold step. cbn [arm_pc arm_mem]. change (0x08 <? 0x20) with true. cbv iota. by rewrite Hv.
Qed.

(** The return from the handler: [q] is the stack pointer in its body. *)
Lemma return_run r0 r1 r2 r3 r4 r5 r6 r7 r8 r9 r10 r11 r12 u ib q l0 s c m d f :
  mode_of c = Some Svc -> Z.testbit s 5 = false -> q mod 4 = 0 -> 0 <= q <= RAM_SIZE - 16 ->
  load cpu_endian 4 m (q + 8) = f -> load cpu_endian 4 m (q + 12) = at_ site 3 ->
  run 3 (mk_arm [r0; r1; r2; r3; r4; r5; r6; r7; r8; r9; r10; r11; r12] u ib (mk_bank q l0 s) (at_ exit_ 0) c m d) =
  Some (mk_arm [r0; r1; r2; r3; r4; r5; r6; r7; r8; r9; r10; f; r12] u ib (mk_bank (q + 16) (at_ site 3) s) (at_ site 3) s m d).
Proof.
  intros Hc HT Hal Hq Ef Elr. unfold RAM_SIZE in *.
  assert (at_ site 3 mod 4 = 0) as Hal3 by (unfold at_; word_lia).
  arm_step Hexit 0%nat Hc. arm_step Hexit 1%nat Hc. rewrite Ef, Elr. arm_step Hexit 2%nat Hc.
  unfold exception_return, get_spsr. arm_simpl. rewrite Hc. arm_simpl. rewrite HT, aligned_target by done. reflexivity.
Qed.

(** The handler gets the call's number and argument out of r0 and r1, if the
    compiler does not choose r1 for the number, which the assembly does not
    forbid: the number is written there before the argument is read. *)
Lemma syscall_arguments_read entry syscallno arg g u ib sb c m d no v :
  holds code entry (syscall_arguments_code syscallno arg) -> mode_of c = Some Svc -> length g = 13%nat ->
  (syscallno < 13)%nat -> (arg < 13)%nat -> syscallno <> arg -> g !! 0%nat = Some no -> g !! 1%nat = Some v ->
  exists a', run 2 (mk_arm g u ib sb (at_ entry 0) c m d) = Some a' /\ arm_pc a' = at_ entry 2 /\
    gpr a' !! syscallno = Some no /\
    gpr a' !! arg = Some (if decide (syscallno = 1%nat) then no else v) /\
    usr a' = u /\ irq a' = ib /\ svc a' = sb /\ arm_cpsr a' = c /\ arm_mem a' = m /\ arm_dev a' = d.
Proof.
  intros Hl Hc Hlen Hn Ha Hne Hno Hv.
  set (w := if decide (syscallno = 1%nat) then no else v).
  assert (<[syscallno := no]> g !! 1%nat = Some w) as Hw.
  { unfold w. destruct (decide (syscallno = 1%nat)) as [->|]; [apply list_lookup_insert_eq; lia|].
    by rewrite list_lookup_insert_ne. }
  eexists. rewrite (step_held _ _ _ _ 0 _ _ _ Hl eq_refl) by reflexivity.
  rewrite (exec_mov Svc _ _ no) by (done || lia). cbn [mbind option_bind].
  rewrite (step_held _ _ _ _ 1 _ _ _ Hl eq_refl) by reflexivity.
  rewrite (exec_mov Svc _ _ w) by (done || lia). cbn [mbind option_bind]. split; [reflexivity|].
  cbn [gpr usr irq svc arm_pc arm_cpsr arm_mem arm_dev set_gpr set_pc]. split; [done|]. split.
  - rewrite list_lookup_insert_ne by done. apply list_lookup_insert_eq. lia.
  - split; [apply list_lookup_insert_eq; rewrite length_insert; lia|done].
Qed.

(** What the compiler makes of the body of [syscall_handler], up to its last
    piece of assembly, without optimisation: r11 and lr are pushed, two words are
    reserved, and r4 to r10 are kept. *)
Definition handler_body (a1 a2 : arm D) : Prop :=
  arm_pc a2 = at_ exit_ 0 /\ mode_of (arm_cpsr a2) = Some Svc /\ length (gpr a2) = 13%nat /\
  (forall r, (4 <= r < 11)%nat -> gpr a2 !! r = gpr a1 !! r) /\ usr a2 = usr a1 /\ irq a2 = irq a1 /\
  b_spsr (svc a2) = b_spsr (svc a1) /\ b_sp (svc a2) = b_sp (svc a1) - 16 /\
  gpr a1 !! 11%nat = Some (load cpu_endian 4 (arm_mem a2) (b_sp (svc a1) - 8)) /\
  load cpu_endian 4 (arm_mem a2) (b_sp (svc a1) - 4) = b_lr (svc a1).

(** The processor as the handler finds it. *)
Definition entered (a : arm D) (no v : Z) : arm D :=
  mk_arm (<[1%nat := if decide (data = 0%nat) then no else v]> (<[0%nat := no]> (gpr a))) (usr a) (irq a)
    (mk_bank (b_sp (svc a)) (at_ site 3) (arm_cpsr a)) handler (exception_psr (arm_cpsr a) 0x13) (arm_mem a) (arm_dev a).

Lemma exception_psr_svc c : Z.testbit c 5 = false ->
  exception_psr c 0x13 = Z.lor (Z.lor (Z.land c (Z.lnot 0x1f)) 0x13) 0x80.
Proof.
  intros HT. unfold exception_psr. do 2 f_equal. apply Z.bits_inj'. intros b Hb.
  rewrite !Z.land_spec, !Z.lnot_spec by done.
  change 0x3f with (Z.ones 6). change 0x1f with (Z.ones 5).
  destruct (decide (b < 5)); [by rewrite !Z.ones_spec_low by lia|].
  destruct (decide (b = 5)) as [->|]; [by rewrite HT|]. by rewrite !Z.ones_spec_high by lia.
Qed.

(** C13: A system call as the processor executes it: [syscall] puts its number into
    r0 and its argument into r1, the exception leads through the vector to the
    handler in supervisor mode with interrupts off, and the handler's last
    instructions bring the caller back behind the call, in user mode, with the
    handler's r0 as the result, r4 to r11 and the registers of user mode as they
    were and the supervisor's stack as before.  If the compiler keeps the
    argument in r0, which the assembly does not forbid, the handler gets the
    number instead of the argument. *)
Theorem syscall_implemented (a : arm D) no v body :
  mode_of (arm_cpsr a) = Some Usr -> Z.testbit (arm_cpsr a) 5 = false -> arm_pc a = at_ site 0 ->
  length (gpr a) = 13%nat -> gpr a !! number = Some no -> gpr a !! data = Some v ->
  b_sp (svc a) mod 4 = 0 -> 16 <= b_sp (svc a) <= RAM_SIZE ->
  vector_target (arm_mem a) 0x08 = Some handler -> 0x20 <= handler -> code handler = None -> compiled handler = Some body ->
  handler_body (entered a no v) (body (entered a no v)) ->
  arm_cpsr (entered a no v) = Z.lor (Z.lor (Z.land (arm_cpsr a) (Z.lnot 0x1f)) 0x13) 0x80 /\
  exists a', reaches a a' /\ arm_pc a' = at_ site 4 /\ arm_cpsr a' = arm_cpsr a /\ usr a' = usr a /\ irq a' = irq a /\
    b_sp (svc a') = b_sp (svc a) /\ gpr a' !! ret = gpr (body (entered a no v)) !! 0%nat /\
    (forall r, (4 <= r < 12)%nat -> r <> ret -> gpr a' !! r = gpr a !! r) /\
    arm_mem a' = arm_mem (body (entered a no v)) /\ arm_dev a' = arm_dev (body (entered a no v)).
Proof.
  intros Hc HT Hpc Hlen Hno Hdata Hal Hsp Hv Hlow Hcode Hbody.
  intros (Hp2 & Hm2 & Hl2 & Hkeep & Hu & Hi & Hspsr & Hsp2 & E11 & Elr).
  split; [by apply exception_psr_svc|].
  assert (run 4 a = Some (entered a no v)) as Hrun1.
  { destruct a as [g u ib sb p c m d]. cbn [arm_pc] in Hpc. subst p. apply svc_run; try done.
    destruct (decide (data = 0%nat)) as [->|Hne]; [apply list_lookup_insert_eq; cbn in *; lia|].
    by rewrite list_lookup_insert_ne by done. }
  set (a1 := entered a no v) in *.
  destruct (body a1) as [g2 u2 ib2 [isp ilr ispsr] p2 c2 m2 d2] eqn:Eb.
  cbn [gpr usr irq svc arm_pc arm_cpsr arm_mem arm_dev b_sp b_spsr] in *. subst p2 u2 ib2 ispsr.
  destruct (list_13 _ Hl2) as (r0 & r1 & r2 & r3 & r4 & r5 & r6 & r7 & r8 & r9 & r10 & r11 & r12 & ->).
  change (b_sp (svc a1)) with (b_sp (svc a)) in *. subst isp.
  set (f := load cpu_endian 4 m2 (b_sp (svc a) - 8)) in *.
  pose proof (return_run r0 r1 r2 r3 r4 r5 r6 r7 r8 r9 r10 r11 r12 (usr a1) (irq a1) (b_sp (svc a) - 16) ilr
    (b_spsr (svc a1)) c2 m2 d2 f Hm2 HT) as Hrun2.
  assert (b_sp (svc a) - 16 + 8 = b_sp (svc a) - 8) as E8 by lia.
  assert (b_sp (svc a) - 16 + 12 = b_sp (svc a) - 4) as E4 by lia.
  rewrite E8, E4 in Hrun2. specialize (Hrun2 ltac:(word_lia) ltac:(lia) eq_refl Elr).
  destruct Hoperands as (_ & _ & Hret).
  eexists. split.
  { exists (4 + (1 + (3 + 1)))%nat. rewrite (steps_add _ _ 4), Hrun1. cbn [mbind option_bind].
    change (1 + (3 + 1))%nat with (S (3 + 1)). rewrite (step_compiled _ _ handler body), Eb, (steps_add _ _ 3), Hrun2 by done.
    cbn [mbind option_bind]. rewrite (step_held _ _ _ _ 3 _ _ _ Hsite eq_refl) by reflexivity.
    rewrite (exec_mov Usr _ _ r0) by (done || lia). reflexivity. }
  cbn [gpr usr irq svc arm_pc arm_cpsr arm_mem arm_dev b_sp set_gpr set_pc]. split_and!; try done; [lia|..].
  - apply list_lookup_insert_eq. cbn. lia.
  - intros r Hr Hne. rewrite list_lookup_insert_ne by done.
    assert (gpr a1 !! r = gpr a !! r) as <-.
    { unfold a1, entered. cbn [gpr]. by rewrite !list_lookup_insert_ne by lia. }
    destruct (decide (r = 11%nat)) as [->|]; [by rewrite E11|]. rewrite <- Hkeep by lia.
    do 13 (destruct r as [|r]; [done || lia|]). lia.
Qed.

End Syscall.

(** ** Witnesses *)

Definition example_operands : arm regfile :=
  mk_arm [0; 1; 2; IRQ_STACK_ADDRESS; 4; 5; 6; 7; 8; 9; 10; 11; 12] (mk_bank 0 0 0) (mk_bank 0 0 0) (mk_bank 0x40000 0 0)
    0x10000 0xD3 ∅ (mk_regfile ∅).

Definition example_booting : kernel regfile :=
  mk_kernel (E1000.mk_nic (mk_regfile ∅) (initial_heap ∅) None (PacketQueue.mk_pqueue 0 0 [])) sched_boot 0
    (mk_task (replicate 13 0) 0 0 0x10030 0xD3) 0 None.

(** The stack's address in r3. *)
Lemma irq_setup_implemented_witness :
  exists a', reaches (cpu := LittleEndian) (code_at 0x10000 (setup_irq_stack_code 3)) (fun _ => None) example_operands a' /\
    b_sp (irq a') = IRQ_STACK_ADDRESS /\ arm_cpsr a' = 0xD3.
Proof.
  destruct (irq_setup_implemented (cpu := LittleEndian) (code_at 0x10000 (setup_irq_stack_code 3)) (fun _ => None) 0x10000 3
    example_booting example_operands) as [Hsetup _]; [done|by split; vm_compute|done|done|done|].
  destruct (Hsetup (code_at_holds 0x10000 (setup_irq_stack_code 3) ltac:(done) ltac:(done)) eq_refl)
    as (a' & Hreach & _ & _ & _ & _ & _ & Hc & Hsp).
  exists a'. split; [exact Hreach|]. split; [exact Hsp|exact Hc].
Defined.

(** A call of number 1 with its operands in r2 and r3, a handler without
    optimisation that answers 7. *)
Definition example_pieces (p : Z) : option instr :=
  match code_at 0x8000 (syscall_code 3 2 3) p with
  | Some i => Some i
  | None => code_at 0x10100 syscall_return_code p
  end.

Definition example_caller : arm regfile :=
  mk_arm [0; 0; 0x3FDFF00; 1; 4; 5; 6; 7; 8; 9; 10; 0x3FDFF20; 12] (mk_bank 0x3FDFEF0 0x8050 0) (mk_bank 0 0 0)
    (mk_bank 0x40000 0 0) 0x8000 0x10 (setup_ivt (cpu := LittleEndian) 0x10080 0x10200 ∅) (mk_regfile ∅).

Definition example_body (a : arm regfile) : arm regfile :=
  let s := b_sp (svc a) in
  let m := store LittleEndian 4 (arm_mem a) (s - 8) (gpr a !!! 11%nat) in
  let m := store LittleEndian 4 m (s - 4) (b_lr (svc a)) in
  mk_arm (<[0%nat := 7]> (gpr a)) (usr a) (irq a) (mk_bank (s - 16) 0x10100 (b_spsr (svc a))) 0x10100 (arm_cpsr a) m (arm_dev a).

Lemma syscall_implemented_witness :
  exists a', reaches (cpu := LittleEndian) example_pieces (fun p => if p =? 0x10080 then Some example_body else None)
      example_caller a' /\ arm_pc a' = 0x8010 /\ gpr a' !! 3%nat = Some 7.
Proof.
  destruct (syscall_implemented (cpu := LittleEndian) example_pieces (fun p => if p =? 0x10080 then Some example_body else None)
    0x8000 0x10100 0x10080 3 2 3) with (a := example_caller) (no := 1) (v := 0x3FDFF00) (body := example_body)
    as (_ & a' & Hreach & Hp & _ & _ & _ & _ & Hr & _).
  - split; [done|]. split; [done|]. intros i ins Hi.
    do 4 (destruct i as [|i]; [exact Hi|]). done.
  - split; [done|]. split; [done|]. intros i ins Hi.
    do 3 (destruct i as [|i]; [exact Hi|]). done.
  - done.
  - lia.
  - done.
  - done.
  - done.
  - done.
  - done.
  - done.
  - done.
  - by split; vm_compute.
  - by vm_compute.
  - done.
  - by vm_compute.
  - done.
  - split; [done|]. split; [done|]. split; [done|]. split.
    { intros r Hr. do 13 (destruct r as [|r]; [done || lia|]). lia. }
    by vm_compute.
  - exists a'. split; [exact Hreach|]. split; [exact Hp|]. rewrite Hr. by vm_compute.
Defined.
