(* ===== verification/Syscall.v ===== *)
(** * System calls: kernel/syscall.c, syscall_handler.c, utilities.c

    The stubs a task calls, the supervisor call, and the dispatcher that runs in
    supervisor mode.  The dispatcher follows the pointer a task hands it without
    looking at it: a pointer that is null, not aligned or not into RAM is undefined
    behaviour here ([spec_pointer]).  A call returns with r0 set and with r1 to r3
    and r12 overwritten, as the compiled dispatcher may. *)

From stdpp Require Import strings.
From S2P Require Import Prelude StateMonad Memory Bus RingBuffer Heap Clock Stdio Scheduler.
From S2P Require Import NetworkIo PacketQueue Pci E1000 Interrupt.

(** ** Definitions *)

Definition ZERO_SYSCALL : Z := 0.
Definition CREATE_PROCESS : Z := 1.
Definition SHUTDOWN : Z := 99.
Definition EINVALIDSYSCALLNO : Z := 4.

(** Where a [create_process_spec], which is one word, can be read. *)
Definition spec_pointer (data : Z) : bool := (0 <? data) && (data mod 4 =? 0) && (data + 4 <=? RAM_SIZE).

Section Syscall.
Context {D : Type} `{Bus D} {cpu : Cpu}.

(** What a call leaves in the registers the compiled dispatcher uses for itself;
    in r0 when a function that should return a value does not. *)
Variable unspecified : nat -> Z.

Abbreviation K := (ST (kernel D)).

Definition uart_io {A} (m : ST D A) : K A := on_nic_state (zoom n_dev set_n_dev m).

Definition kernel_ram (k : kernel D) : mem := ram (n_heap (k_nic k)).
Definition set_kernel_ram (m : mem) (k : kernel D) : kernel D :=
  set_k_nic (set_n_heap (set_ram m (n_heap (k_nic k))) (k_nic k)) k.

(** [add_task] with the processor mode of the caller. *)
Definition kernel_add_task (entrypoint : Z) : K Z := fun k =>
  let '(r, s) := add_task (cpsr (k_context k)) entrypoint (k_sched k) in
  Done (r, set_k_sched s k).

(** The privileged branch is empty: there is no halt instruction. *)
Definition halt_execution : K unit := fun k =>
  if is_privileged (cpsr (k_context k)) then Done (tt, k) else Done (tt, k).

Definition syscall_zero_dispatch (data : Z) : K Z :=
  _ ← uart_io (puts (cstr "This is not a real syscall!" ++ [10]));
  mret 0.

(** The caller's pointer is followed unchecked. *)
Definition create_process_dispatch (data : Z) : K Z :=
  if spec_pointer data
  then
    m ← gets kernel_ram;
    let function := load cpu_endian 4 m data in
    _ ← kernel_add_task function;
    mret 0
  else undefined.

Definition shutdown_dispatch (data : Z) : K Z :=
  halt_execution ;;
  mret (u32 (unspecified 0)).

Definition dispatcher_format : list Z :=
  cstr "Handling syscall %i with data at address %x." ++ [10].

Definition syscall_dispatcher (syscallno data : Z) : K Z :=
  _ ← uart_io (printf dispatcher_format [VInt syscallno; VInt data]);
  if syscallno =? ZERO_SYSCALL then syscall_zero_dispatch data
  else if syscallno =? CREATE_PROCESS then create_process_dispatch data
  else if syscallno =? SHUTDOWN then shutdown_dispatch data
  else
    modify (fun k => set_k_sched (with_errno (k_sched k) EINVALIDSYSCALLNO) k) ;;
    mret (u32 (-1)).

(** The registers behind a call: the result in r0, r1 to r3 and r12 overwritten,
    the others as the compiled functions keep them. *)
Definition returned_from (r : Z) (t : task_t) : task_t :=
  mk_task (<[0%nat := r]> (foldr (fun i l => <[i := u32 (unspecified i)]> l) (reg t) [1; 2; 3; 12]%nat))
    (sp t) (lr t) (pc t) (cpsr t).

(** [svc #0]: the processor enters supervisor mode with interrupts off; the
    handler dispatches and returns with [movs pc, lr], which restores cpsr. *)
Definition syscall (number data : Z) : K Z :=
  saved ← gets (fun k => cpsr (k_context k));
  modify (set_cpsr (Z.lor (Z.lor (Z.land saved (Z.lnot 0x1f)) 0x13) 0x80)) ;;
  r ← syscall_dispatcher (u32 number) data;
  modify (set_cpsr saved) ;;
  modify (fun k => set_k_context (returned_from r (k_context k)) k) ;;
  mret r.

(** The structure lies at [new_process] on the caller's stack. *)
Definition create_process (new_process function : Z) : K Z :=
  modify (fun k => set_kernel_ram (store cpu_endian 4 (kernel_ram k) new_process function) k) ;;
  syscall 1 new_process.

Definition shutdown : K Z := syscall 99 0.

End Syscall.

(** ** Correctness *)

(** The calls with defined behaviour: [printf] of the dispatcher cannot print the
    least integer, and a new process comes with a valid pointer. *)
Definition call_defined (number data : Z) : Prop :=
  number <> 0x80000000 /\ (number = CREATE_PROCESS -> spec_pointer data = true).

#[export] Instance call_defined_dec number data : Decision (call_defined number data).
Proof. unfold call_defined. apply _. Defined.

(** What the dispatcher prints first. *)
Definition dispatcher_text (no data : Z) (text : list Z) : Prop :=
  exists t1 t2, number_text 10 decimal_char (i32 no) t1 /\ number_text 16 (hex_char 97) data t2 /\
    text = cstr "Handling syscall " ++ t1 ++ cstr " with data at address " ++ t2 ++ cstr "." ++ [10].

(** All a call prints. *)
Definition call_text (no data : Z) (text : list Z) : Prop :=
  exists t, dispatcher_text no data t /\
    text = t ++ if no =? ZERO_SYSCALL then cstr "This is not a real syscall!" ++ [10] ++ [10] else [].

(** The registers a compiled function keeps. *)
Definition callee_kept (t t' : task_t) : Prop :=
  length (reg t') = length (reg t) /\ (forall i, (4 <= i < 12)%nat -> reg t' !! i = reg t !! i) /\
  sp t' = sp t /\ lr t' = lr t /\ pc t' = pc t /\ cpsr t' = cpsr t.

#[export] Instance callee_kept_preorder : PreOrder callee_kept.
Proof.
  split; [done|]. intros t1 t2 t3 (L & R & E1 & E2 & E3 & E4) (L' & R' & E1' & E2' & E3' & E4').
  split; [congruence|]. split; [intros i Hi; by rewrite R', R|]. split_and!; congruence.
Qed.

Section Correct.
Context {D : Type} `{Bus D} {cpu : Cpu} (unspecified : nat -> Z).

Lemma uart_io_done {A} (m : ST D A) (k : kernel D) a d :
  m (n_dev (k_nic k)) = Done (a, d) ->
  uart_io m k = Done (a, set_k_nic (set_n_dev d (k_nic k)) k).
Proof. intros Hm. unfold uart_io, on_nic_state, zoom. by rewrite Hm. Qed.

Lemma uart_io_undefined {A} (m : ST D A) (k : kernel D) :
  m (n_dev (k_nic k)) = Undefined -> uart_io m k = Undefined.
Proof. intros Hm. unfold uart_io, on_nic_state, zoom. by rewrite Hm. Qed.

Lemma returned_kept r t : callee_kept t (returned_from unspecified r t).
Proof.
  split; [unfold returned_from; cbn [reg foldr]; by rewrite !length_insert|]. split; [|done].
  intros i Hi. unfold returned_from. cbn [reg foldr]. by rewrite !list_lookup_insert_ne by lia.
Qed.

Lemma returned_result r t : (0 < length (reg t))%nat -> reg (returned_from unspecified r t) !! 0%nat = Some r.
Proof. intros Hl. unfold returned_from. cbn [reg foldr]. apply list_lookup_insert_eq. by rewrite !length_insert. Qed.

Lemma returned_words r t : is_u32 r -> Forall is_u32 (reg t) -> Forall is_u32 (reg (returned_from unspecified r t)).
Proof.
  intros Hr Ht. unfold returned_from. cbn [reg foldr]. repeat (apply Forall_insert; [|done || apply u32_range]). done.
Qed.

(** The message of the dispatcher, for every number [%i] can print. *)
Lemma dispatcher_message no data (d : D) :
  is_u32 no -> no <> 0x80000000 -> is_u32 data ->
  exists n text, dispatcher_text no data text /\
    printf dispatcher_format [VInt no; VInt data] d = Done (n, emit text d).
Proof.
  intros Hno Hmin Hdata.
  destruct (number_text_exists 10 decimal_char (i32 no) ltac:(lia)) as [t1 H1].
  destruct (number_text_exists 16 (hex_char 97) data ltac:(lia)) as [t2 H2].
  pose proof (number_text_length 10 decimal_char (i32 no) t1 10 ltac:(lia) ltac:(word_lia) H1).
  pose proof (number_text_length 16 (hex_char 97) data t2 8 ltac:(lia) ltac:(unfold is_u32 in Hdata; lia) H2).
  set (s1 := cstr "Handling syscall "). set (s2 := cstr " with data at address "). set (s3 := cstr "." ++ [10]).
  exists (Z.of_nat (length (s1 ++ t1 ++ s2 ++ t2 ++ s3))), (s1 ++ t1 ++ s2 ++ t2 ++ s3).
  split; [by exists t1, t2|]. apply (vprintf_spec 0 _ _ _ []).
  - change dispatcher_format with (s1 ++ 37 :: 105 :: s2 ++ 37 :: 120 :: s3).
    apply formats_literal; [literal|]. apply (formats_number 105 (VInt no) 10 decimal_char (i32 no) t1).
    + cbn [number_conversion Z.eqb Pos.eqb]. rewrite (proj2 (Z.eqb_neq _ _)); [done|].
      unfold INT_MIN. unfold is_u32, i32 in *. word_lia.
    + done.
    + apply formats_literal; [literal|]. apply (formats_number 120 (VInt data) 16 (hex_char 97) data t2); [|done|].
      * cbn [number_conversion Z.eqb Pos.eqb]. by rewrite u32_id.
      * rewrite <- (app_nil_r s3). apply formats_literal; [literal|constructor].
  - rewrite !length_app. assert (length s1 = 17%nat) as -> by done. assert (length s2 = 22%nat) as -> by done.
    assert (length s3 = 2%nat) as -> by done. lia.
Qed.

Lemma svc_mode c : Z.land (Z.lor (Z.lor (Z.land c (Z.lnot 0x1f)) 0x13) 0x80) 0x1f = 0x13.
Proof.
  rewrite Z.land_lor_distr_l, mode_bits by lia. done.
Qed.

(** The mode of the processor decides on [add_task] only through the
    privilege test. *)
Lemma add_task_svc c entry s : Z.land c 0x1f = 0x13 -> add_task c entry s = add_task CPSR_MODE_SVC entry s.
Proof. intros Hc. unfold add_task, is_privileged, get_operating_mode. by rewrite Hc. Qed.

(** The dispatcher changes scheduler and devices only; the call the registers as
    well. *)
Definition after_dispatch (k : kernel D) (d : D) (s : sched) : kernel D :=
  mk_kernel (set_n_dev d (k_nic k)) s (k_clock k) (k_context k) (k_irq_sp k) (k_table k).

Definition after_syscall (r : Z) (k : kernel D) (d : D) (s : sched) : kernel D :=
  set_k_context (returned_from unspecified r (k_context k)) (after_dispatch k d s).

(** The processor state in which the supervisor call runs its handler. *)
Definition enter_svc (k : kernel D) : kernel D :=
  set_cpsr (Z.lor (Z.lor (Z.land (cpsr (k_context k)) (Z.lnot 0x1f)) 0x13) 0x80) k.

(** The supervisor call around the dispatcher. *)
Lemma syscall_eq number data (k : kernel D) r d s :
  is_u32 number ->
  syscall_dispatcher unspecified number data (enter_svc k) = Done (r, after_dispatch (enter_svc k) d s) ->
  syscall unspecified number data k = Done (r, after_syscall r k d s).
Proof.
  intros Hn Hd. unfold syscall. rewrite (bind_done _ _ k (cpsr (k_context k)) k) by done.
  erewrite bind_done by done. rewrite (u32_id number Hn). erewrite bind_done by (by apply Hd).
  do 2 (erewrite bind_done by done). unfold after_syscall, after_dispatch, enter_svc, set_cpsr, returned_from. cbn.
  by destruct (k_context k).
Qed.

Lemma syscall_undefined number data (k : kernel D) :
  is_u32 number -> syscall_dispatcher unspecified number data (enter_svc k) = Undefined ->
  syscall unspecified number data k = Undefined.
Proof.
  intros Hn Hd. unfold syscall. rewrite (bind_done _ _ k (cpsr (k_context k)) k) by done.
  erewrite bind_done by done. rewrite (u32_id number Hn). by apply bind_undefined.
Qed.

(** The result of a call, and what it does to the scheduler. *)
Definition call_result (number : Z) : Z :=
  if number =? ZERO_SYSCALL then 0
  else if number =? CREATE_PROCESS then 0
  else if number =? SHUTDOWN then u32 (unspecified 0)
  else 0xFFFFFFFF.

Definition call_sched (number entry : Z) (s : sched) : sched :=
  if number =? ZERO_SYSCALL then s
  else if number =? CREATE_PROCESS then (add_task CPSR_MODE_SVC entry s).2
  else if number =? SHUTDOWN then s
  else with_errno s EINVALIDSYSCALLNO.

Lemma call_result_u32 number : is_u32 (call_result number).
Proof. unfold call_result. repeat case_bool; first [apply u32_range | done]. Qed.

(** What the dispatcher does in supervisor mode, for every defined call. *)
Lemma syscall_dispatcher_spec number data (k : kernel D) :
  is_u32 number -> call_defined number data -> is_u32 data ->
  Z.land (cpsr (k_context k)) 0x1f = CPSR_MODE_SVC ->
  exists text, call_text number data text /\ syscall_dispatcher unspecified number data k =
    Done (call_result number,
          after_dispatch k (emit text (n_dev (k_nic k)))
            (call_sched number (load cpu_endian 4 (kernel_ram k) data) (k_sched k))).
Proof.
  intros Hn (Hmin & Hptr) Hdata Hsvc.
  destruct (dispatcher_message number data (n_dev (k_nic k)) Hn Hmin Hdata) as (n & text & Htext & Hmsg).
  eexists. split; [by exists text|]. rewrite emit_app.
  unfold syscall_dispatcher, call_result, call_sched. erewrite bind_done; [|by apply uart_io_done].
  destruct (number =? ZERO_SYSCALL); [|destruct (Z.eqb_spec number CREATE_PROCESS) as [E|_];
    [|destruct (number =? SHUTDOWN); [|done]]].
  - unfold syscall_zero_dispatch. erewrite bind_done; [|apply uart_io_done, puts_spec; apply (bool_decide_unpack _); by vm_compute].
    cbn [k_nic set_k_nic set_n_dev n_dev]. by rewrite <- app_assoc.
  - unfold create_process_dispatch. rewrite (Hptr E). st_unfold. unfold kernel_add_task.
    cbn [set_k_nic k_context k_sched k_nic set_n_dev kernel_ram n_heap cpsr].
    rewrite (add_task_svc (cpsr (k_context k))) by done.
    change (kernel_ram _) with (kernel_ram k).
    destruct (add_task CPSR_MODE_SVC (load cpu_endian 4 (kernel_ram k) data) (k_sched k)) as [r s]. done.
  - unfold shutdown_dispatch, halt_execution. st_unfold. by destruct (is_privileged _).
Qed.

(** The others are undefined behaviour. *)
Lemma syscall_dispatcher_undefined number data (k : kernel D) :
  is_u32 number -> is_u32 data -> ~ call_defined number data -> syscall_dispatcher unspecified number data k = Undefined.
Proof.
  intros Hn Hdata Hbad. unfold syscall_dispatcher. destruct (decide (number = 0x80000000)) as [->|Hmin].
  - apply bind_undefined, uart_io_undefined.
    by apply (printf_sign_bit (cstr "Handling syscall ") (cstr " with data at address %x." ++ [10])); [literal|].
  - destruct (dispatcher_message number data (n_dev (k_nic k)) Hn Hmin Hdata) as (n & text & _ & Hmsg).
    erewrite bind_done; [|by apply uart_io_done].
    destruct (decide (number = CREATE_PROCESS)) as [->|Hne]; [|exfalso; apply Hbad; by split].
    cbn [Z.eqb Pos.eqb ZERO_SYSCALL CREATE_PROCESS]. unfold create_process_dispatch.
    destruct (spec_pointer data) eqn:E; [|done]. exfalso. apply Hbad. by split.
Qed.

(** The whole call. *)
Lemma syscall_spec number data (k : kernel D) :
  is_u32 number -> call_defined number data -> is_u32 data ->
  exists text, call_text number data text /\ syscall unspecified number data k =
    Done (call_result number,
          after_syscall (call_result number) k (emit text (n_dev (k_nic k)))
            (call_sched number (load cpu_endian 4 (kernel_ram k) data) (k_sched k))).
Proof.
  intros Hn Hdef Hdata.
  destruct (syscall_dispatcher_spec number data (enter_svc k)) as (text & Htext & Hd); [done..|apply svc_mode|].
  exists text. split; [done|]. by apply syscall_eq.
Qed.

(** C32: Every system call number reaches its routine.  Number 1 adds a task with the
    entry point in the caller's structure, whatever the caller's mode, and returns 0
    even when [add_task] fails; number 0 only prints; 99 (shutdown) does nothing
    but return, with no defined result; any other sets errno and returns -1.  The
    dispatcher first prints number and pointer.  The caller goes on in its mode with
    the result in r0 and with r4 to r11, the stack pointer and the link register as
    they were; r1 to r3 and r12 are lost.  Undefined are exactly the number
    0x80000000, which the dispatcher's [%i] cannot print, and number 1 with a
    pointer that is null, unaligned or outside RAM, which it follows unchecked. *)
Theorem syscall_dispatch number data (k : kernel D) :
  is_u32 number -> is_u32 data ->
  (number = 0x80000000 \/ number = CREATE_PROCESS /\ spec_pointer data = false ->
   syscall unspecified number data k = Undefined) /\
  (~ (number = 0x80000000 \/ number = CREATE_PROCESS /\ spec_pointer data = false) ->
   exists text t k', call_text number data text /\ callee_kept (k_context k) t /\
     ((0 < length (reg (k_context k)))%nat -> reg t !! 0%nat = Some (call_result number)) /\
     syscall unspecified number data k = Done (call_result number, k') /\
     k' = set_k_context t (after_dispatch k (emit text (n_dev (k_nic k)))
            (if number =? ZERO_SYSCALL then k_sched k
             else if number =? CREATE_PROCESS
             then (add_task CPSR_MODE_SVC (load cpu_endian 4 (kernel_ram k) data) (k_sched k)).2
             else if number =? SHUTDOWN then k_sched k
             else with_errno (k_sched k) EINVALIDSYSCALLNO))) /\
  call_result ZERO_SYSCALL = 0 /\ call_result CREATE_PROCESS = 0 /\
  (number <> ZERO_SYSCALL -> number <> CREATE_PROCESS -> number <> SHUTDOWN -> call_result number = 0xFFFFFFFF).
Proof.
  intros Hn Hdata. split; [|split; [|split; [done|split; [done|]]]].
  - intros Hbad. apply syscall_undefined, syscall_dispatcher_undefined; [done..|].
    intros (Hmin & Hptr). destruct Hbad as [|[E Hf]]; [done|]. by rewrite (Hptr E) in Hf.
  - intros Hgood. destruct (syscall_spec number data k) as (text & Htext & Hs); [done| |done|].
    { split; [tauto|]. intros E. destruct (spec_pointer data) eqn:Ep; [done|tauto]. }
    exists text, (returned_from unspecified (call_result number) (k_context k)). eexists. split; [done|].
    split; [apply returned_kept|]. split; [apply returned_result|]. split; [exact Hs|done].
  - intros H0' H1' H2'. unfold call_result. by rewrite !(proj2 (Z.eqb_neq _ _)).
Qed.

(** [create_process] is [add_task] in supervisor mode. *)
Lemma create_process_spec new_process function (k : kernel D) :
  spec_pointer new_process = true -> is_u32 function ->
  exists k', create_process unspecified new_process function k = Done (0, k') /\
    k_context k' = returned_from unspecified 0 (k_context k) /\
    k_sched k' = (add_task CPSR_MODE_SVC function (k_sched k)).2.
Proof.
  intros Hptr Hf. unfold create_process. erewrite bind_done by done.
  set (k1 := set_kernel_ram _ k).
  assert (is_u32 new_process) as Hnp
    by (unfold spec_pointer, RAM_SIZE in Hptr; unfold is_u32; lia).
  destruct (syscall_spec 1 new_process k1) as (text & _ & Hs); [done|by split|done|].
  eexists. split; [exact Hs|]. split; [done|].
  change (k_sched (after_syscall _ _ _ ?s)) with s. unfold call_sched.
  cbn [Z.eqb Pos.eqb ZERO_SYSCALL CREATE_PROCESS]. change (k_sched k1) with (k_sched k).
  assert (load cpu_endian 4 (kernel_ram k1) new_process = function) as ->; [|done].
  unfold k1, kernel_ram, set_kernel_ram. cbn [k_nic set_k_nic set_n_heap n_heap set_ram ram].
  rewrite load_store_same. by apply u32_id.
Qed.

(** C31: [create_process] gives a user task what [add_task] refuses it.  The structure
    lies in a word of RAM, and with a place in the task array the new task takes the
    next one: it is in user mode at the function with a stack of its own, it is the
    last of the tasks that wait for the processor, as long as fewer than 15 wait, and
    no other task is touched.  With 16 tasks [create_process] still returns 0, so the
    caller cannot see the failure. *)
Theorem create_process_correct new_process function (k : kernel D) :
  spec_pointer new_process = true -> is_u32 function -> Z.land (cpsr (k_context k)) 0x1f = CPSR_MODE_USER ->
  sched_ring_ok (k_sched k) -> length (tasks (k_sched k)) = 16%nat -> 0 <= task_count (k_sched k) ->
  let c := task_count (k_sched k) in
  add_task (cpsr (k_context k)) function (k_sched k) = (-1, with_errno (k_sched k) EPERMISSION) /\
  exists k', create_process unspecified new_process function k = Done (0, k') /\
    callee_kept (k_context k) (k_context k') /\
    (c < 16 ->
       task_count (k_sched k') = c + 1 /\
       tasks (k_sched k') !! Z.to_nat c = Some (init_task function (task_stackbase c)) /\
       (forall j, j <> Z.to_nat c -> tasks (k_sched k') !! j = tasks (k_sched k) !! j) /\
       current_task (k_sched k') = current_task (k_sched k) /\
       ((length (ready (k_sched k)) < 15)%nat -> ready (k_sched k') = ready (k_sched k) ++ [Some (Z.to_nat c)])) /\
    (16 <= c -> k_sched k' = with_errno (k_sched k) ETOOMANYTASKS).
Proof.
  intros Hnp Hf Hmode Hok Hlen Hc c. split.
  { unfold add_task, is_privileged, get_operating_mode. by rewrite Hmode. }
  destruct (create_process_spec new_process function k Hnp Hf) as (k' & Hs & Hctx & Hsch).
  exists k'. split; [done|]. split; [rewrite Hctx; apply returned_kept|]. rewrite Hsch.
  destruct (add_task_spec CPSR_MODE_SVC function (k_sched k) Hok Hlen Hc) as (_ & Hfull & Hroom).
  split.
  - intros Hlt. destruct (Hroom ltac:(done) Hlt) as (s' & -> & Hcount & Htask & Hother & Hcur & _ & Hready).
    cbn [snd]. split; [done|]. split; [|split; [done|split; [done|]]].
    + unfold c. rewrite Htask. unfold init_task, task_stackbase. f_equal.
      rewrite (u32_id function) by done. f_equal.
      unfold TASK_STACK_BASE_ADDRESS, SVC_STACK_ADDRESS, IRQ_STACK_ADDRESS, STACK_SIZE. word_lia.
    + intros Hl. by rewrite Hready, decide_True.
  - intros Hge. by rewrite (Hfull ltac:(done) Hge).
Qed.

End Correct.

(** ** Witnesses *)

Lemma syscall_dispatch_witness :
  (exists k', syscall (cpu := LittleEndian) (fun _ => 77) 2 0 (example_kernel 0) = Done (0xFFFFFFFF, k') /\
    sched_errno (k_sched k') = EINVALIDSYSCALLNO) /\
  syscall (cpu := LittleEndian) (fun _ => 77) 1 2 (example_kernel 0) = Undefined.
Proof.
  split.
  - destruct (syscall_dispatch (cpu := LittleEndian) (fun _ => 77) 2 0 (example_kernel 0)) as (_ & Hdo & _); [done|done|].
    destruct Hdo as (text & t & k' & _ & _ & _ & Hs & E); [by intros [|[]]|].
    exists k'. split; [exact Hs|]. rewrite E. reflexivity.
  - destruct (syscall_dispatch (cpu := LittleEndian) (fun _ => 77) 1 2 (example_kernel 0)) as (Hbad & _); [done|done|].
    apply Hbad. by right.
Defined.

Lemma create_process_correct_witness :
  exists k', create_process (cpu := LittleEndian) (fun _ => 77) 0x3FDEFF0 0x8800 (example_kernel 0) = Done (0, k') /\
    task_count (k_sched k') = 3.
Proof.
  destruct (create_process_correct (cpu := LittleEndian) (fun _ => 77) 0x3FDEFF0 0x8800 (example_kernel 0))
    as (_ & k' & Hs & _ & Hroom & _);
    [done|done|done|split; [done|]; vm_compute; split; split; congruence|done|vm_compute; congruence|].
  exists k'. split; [exact Hs|]. by apply Hroom.
Defined.
