(* ===== verification/Tasks.v ===== *)
(** * The test tasks: the task functions of kernel/main.c

    Tasks that count, one that tries to create a task itself and to shut the
    system down, and one that creates two processes by system calls.  They run
    in user mode. *)

From stdpp Require Import strings.
From S2P Require Import Prelude StateMonad Memory Bus RingBuffer Heap Clock Stdio Scheduler.
From S2P Require Import NetworkIo PacketQueue Pci E1000 Interrupt Syscall.

(** ** Definitions *)

Section Tasks.
Context {D : Type} `{Bus D} {cpu : Cpu} (unspecified : nat -> Z) (fuel : nat).

Abbreviation K := (ST (kernel D)).

(** [for (i = 0; i < 10000000; ++i);] with a volatile counter on the stack. *)
Fixpoint delay_loop (n : nat) (i : Z) : K unit :=
  match n with
  | O => no_fuel
  | S n' => if i <? 10000000 then delay_loop n' (i32 (i + 1)) else mret ()
  end.

Definition delay : K unit := delay_loop fuel 0.

(** One iteration of a counting task: the new counter. *)
Definition count_iteration (message : list Z) (n : Z) : K Z :=
  _ ← uart_io (printf message [VInt n]);
  delay ;;
  mret (u32 (n + 1)).

Definition task_a : Z -> K Z := count_iteration (cstr "  task a: %i" ++ [10]).
Definition task_b : Z -> K Z := count_iteration (cstr "  task b: %i" ++ [10]).
Definition task_c : Z -> K Z := count_iteration (cstr "  task c: %i" ++ [10]).

(** [task_d] before its loop, and an iteration of the loop. *)
Definition task_d_start (task_c_address : Z) : K unit :=
  direct_call_result ← kernel_add_task task_c_address;
  if direct_call_result <? 0
  then
    e ← gets (fun k => sched_errno (k_sched k));
    _ ← uart_io (printf (cstr "add task failed with errno %i " ++ [10]) [VInt e]);
    mret ()
  else mret ().

Definition task_d_iteration (n : Z) : K Z :=
  n ← count_iteration (cstr "  task d: %i" ++ [10]) n;
  (if 5 <? n then _ ← shutdown unspecified; mret () else mret ()) ;;
  mret n.

(** [k] iterations. *)
Fixpoint task_d_loop (k : nat) (n : Z) : K Z :=
  match k with
  | O => mret n
  | S k' => n ← task_d_iteration n; task_d_loop k' n
  end.

Definition task_d (task_c_address : Z) (k : nat) : K Z :=
  task_d_start task_c_address ;;
  task_d_loop k 0.

(** The two structures lie at [p1] and [p2] on the stack. *)
Definition syscall_test (p1 p2 task_a_address task_b_address : Z) : K unit :=
  _ ← create_process unspecified p1 task_a_address;
  _ ← create_process unspecified p2 task_b_address;
  mret ().

End Tasks.

(** ** Correctness *)

Section Correct.
Context {D : Type} `{Bus D} {cpu : Cpu} (unspecified : nat -> Z) (fuel : nat).
Hypothesis Hfuel : 10000000 < Z.of_nat fuel.

Lemma delay_returns n i (k : kernel D) :
  0 <= i <= 10000000 -> 10000000 - i < Z.of_nat n -> delay_loop n i k = Done (tt, k).
Proof.
  revert i. induction n as [|n IH]; intros i Hi Hn; [lia|]. cbn [delay_loop].
  destruct (Z.ltb_spec i 10000000); [|done]. rewrite i32_id by (unfold is_i32; lia). apply IH; lia.
Qed.

(** A message with one number. *)
Lemma print_number s1 s2 z (d : D) :
  literal_text s1 -> literal_text s2 -> (length s1 <= 100)%nat -> (length s2 <= 100)%nat ->
  is_u32 z -> z <> 0x80000000 ->
  exists n t, number_text 10 decimal_char (i32 z) t /\
    printf (s1 ++ 37 :: 105 :: s2) [VInt z] d = Done (n, emit (s1 ++ t ++ s2) d).
Proof.
  intros H1 H2 L1 L2 Hz Hmin. destruct (number_text_exists 10 decimal_char (i32 z) ltac:(lia)) as [t Ht].
  pose proof (number_text_length 10 decimal_char (i32 z) t 10 ltac:(lia) ltac:(word_lia) Ht).
  eexists _, t. split; [done|]. apply (vprintf_spec 0 _ _ _ []).
  - apply formats_literal; [done|]. apply (formats_number 105 (VInt z) 10 decimal_char (i32 z) t); [|done|].
    + cbn [number_conversion Z.eqb Pos.eqb]. rewrite (proj2 (Z.eqb_neq _ _)); [done|].
      unfold INT_MIN, is_u32, i32 in *. word_lia.
    + rewrite <- (app_nil_r s2). apply formats_literal; [done|constructor].
  - rewrite !length_app. cbn [length]. lia.
Qed.

(** A change of the devices only. *)
Definition output (text : list Z) (k : kernel D) : kernel D :=
  set_k_nic (set_n_dev (emit text (n_dev (k_nic k))) (k_nic k)) k.

Lemma output_output t1 t2 (k : kernel D) : output t2 (output t1 k) = output (t1 ++ t2) k.
Proof. unfold output. cbn [k_nic set_k_nic n_dev set_n_dev]. by rewrite emit_app. Qed.

Lemma count_iteration_prints s1 s2 n (k : kernel D) :
  literal_text s1 -> literal_text s2 -> (length s1 <= 100)%nat -> (length s2 <= 100)%nat ->
  0 <= n < 0x80000000 ->
  exists t, number_text 10 decimal_char n t /\
    count_iteration fuel (s1 ++ 37 :: 105 :: s2) n k = Done (n + 1, output (s1 ++ t ++ s2) k).
Proof.
  intros H1 H2 L1 L2 Hn.
  destruct (print_number s1 s2 n (n_dev (k_nic k))) as (r & t & Ht & Hp); [done..|unfold is_u32; lia|lia|].
  rewrite i32_id in Ht by (unfold is_i32; lia). exists t. split; [done|]. unfold count_iteration.
  erewrite bind_done by (by apply uart_io_done). erewrite bind_done by (apply delay_returns; lia).
  by rewrite u32_id by (unfold is_u32; lia).
Qed.

(** Output, and registers a call may use. *)
Definition prints (text : list Z) (k k' : kernel D) : Prop :=
  exists t, callee_kept (k_context k) t /\ k' = set_k_context t (output text k).

Lemma prints_output text (k : kernel D) : prints text k (output text k).
Proof. exists (k_context k). split; [done|]. by destruct k. Qed.

Lemma prints_trans t1 t2 (k k1 k2 : kernel D) : prints t1 k k1 -> prints t2 k1 k2 -> prints (t1 ++ t2) k k2.
Proof.
  intros (c1 & H1 & ->) (c2 & H2 & ->). exists c2. split; [by etrans|]. by rewrite <- output_output.
Qed.

(** A shutdown is only a message. *)
Definition shutdown_text : list Z := cstr "Handling syscall 99 with data at address 0." ++ [10].

Lemma shutdown_message text : call_text 99 0 text -> text = shutdown_text.
Proof.
  intros (t & (t1 & t2 & H1 & H2 & ->) & ->).
  assert (number_text 10 decimal_char (i32 99) [57; 57]) as H1'.
  { exists [9; 9]. split; [|done]. change (Z.abs (i32 99)) with (9 * 10 + 9).
    by apply (numeral_snoc 10 9 [9] 9); [|constructor|]. }
  assert (number_text 16 (hex_char 97) 0 [48]) as H2' by (exists [0]; split; [by constructor|done]).
  rewrite (number_text_unique 10 decimal_char _ t1 [57; 57] ltac:(lia) H1 H1').
  by rewrite (number_text_unique 16 (hex_char 97) _ t2 [48] ltac:(lia) H2 H2').
Qed.

Lemma shutdown_returns (k : kernel D) :
  exists r k', shutdown unspecified k = Done (r, k') /\ prints shutdown_text k k'.
Proof.
  destruct (syscall_spec unspecified 99 0 k) as (text & Htext & Hs); [done|by split|done|].
  apply shutdown_message in Htext as ->. do 2 eexists. split; [exact Hs|].
  eexists. split; [apply returned_kept|]. by destruct k.
Qed.

(** What [j] iterations print, from the counter [n] on. *)
Fixpoint task_d_text (j : nat) (n : Z) (text : list Z) : Prop :=
  match j with
  | O => text = []
  | S j' => exists t rest, number_text 10 decimal_char n t /\ task_d_text j' (n + 1) rest /\
      text = cstr "  task d: " ++ t ++ [10] ++ (if 5 <=? n then shutdown_text else []) ++ rest
  end.

Lemma task_d_iteration_returns n (k : kernel D) :
  0 <= n < 0x80000000 -> exists t k', number_text 10 decimal_char n t /\
    task_d_iteration unspecified fuel n k = Done (n + 1, k') /\
    prints (cstr "  task d: " ++ t ++ [10] ++ (if 5 <=? n then shutdown_text else [])) k k'.
Proof.
  intros Hn. unfold task_d_iteration.
  change (cstr "  task d: %i" ++ [10]) with (cstr "  task d: " ++ 37 :: 105 :: [10]).
  destruct (count_iteration_prints (cstr "  task d: ") [10] n k) as (t & Ht & Hc);
    [literal|literal|cbn; lia|cbn; lia|done|].
  exists t. rewrite (bind_done _ _ _ _ _ Hc).
  destruct (Z.ltb_spec 5 (n + 1)), (Z.leb_spec 5 n); try lia.
  - destruct (shutdown_returns (output (cstr "  task d: " ++ t ++ [10]) k)) as (r & k' & Hs & Hp).
    exists k'. split; [done|]. split; [erewrite bind_done by (by rewrite (bind_done _ _ _ _ _ Hs)); done|].
    rewrite !(assoc_L (++)). eapply prints_trans; [apply prints_output|]. by rewrite <- !(assoc_L (++)) in *.
  - eexists. split; [done|]. split; [done|]. rewrite app_nil_r. apply prints_output.
Qed.

Lemma task_d_loop_returns j n (k : kernel D) :
  0 <= n -> n + Z.of_nat j <= 0x80000000 ->
  exists text k', task_d_text j n text /\
    task_d_loop unspecified fuel j n k = Done (n + Z.of_nat j, k') /\ prints text k k'.
Proof.
  revert n k. induction j as [|j IH]; intros n k Hn Hj; cbn [task_d_loop task_d_text].
  - exists [], k. split; [done|]. split; [by replace (n + Z.of_nat 0) with n by lia|].
    exists (k_context k). split; [done|]. unfold output. rewrite emit_nil. by destruct k as [[] ? ? ? ? ?].
  - destruct (task_d_iteration_returns n k) as (t & k1 & Ht & H1 & P1); [lia|]. rewrite (bind_done _ _ _ _ _ H1).
    destruct (IH (n + 1) k1) as (rest & k2 & Hrest & H2 & P2); [lia..|]. eexists _, k2.
    split; [by exists t, rest|]. split; [rewrite H2; do 2 f_equal; lia|].
    pose proof (prints_trans _ _ _ _ _ P1 P2) as P. by rewrite <- !(assoc_L (++)) in P.
Qed.

(** The counter cannot be printed for ever. *)
Lemma task_d_loop_undefined j n (k : kernel D) :
  0 <= n <= 0x80000000 -> 0x80000000 < n + Z.of_nat j -> task_d_loop unspecified fuel j n k = Undefined.
Proof.
  revert n k. induction j as [|j IH]; intros n k Hn Hj; [lia|]. cbn [task_d_loop].
  destruct (decide (n = 0x80000000)) as [->|Hne].
  - apply bind_undefined. unfold task_d_iteration, count_iteration. do 2 apply bind_undefined.
    apply uart_io_undefined. by apply (printf_sign_bit (cstr "  task d: ") [10]); [literal|].
  - destruct (task_d_iteration_returns n k) as (t & k1 & _ & H1 & _); [lia|]. rewrite (bind_done _ _ _ _ _ H1).
    apply IH; lia.
Qed.

(** C39: The test task [task_d] in user mode: its direct call of [add_task] fails and
    says so with errno 1 (EPERMISSION), no task is created; then it counts, prints
    the counter in every iteration, and from the sixth one on calls [shutdown], of
    which only the dispatcher's message is seen: the loop goes on behind every call,
    with the registers a call keeps.  It does so for 2^31 iterations; the counter is
    unsigned, and with the next one printing it as [%i] is undefined. *)
Theorem task_d_never_stops task_c_address j (k : kernel D) :
  Z.land (cpsr (k_context k)) 0x1f = CPSR_MODE_USER ->
  let k1 := set_k_sched (with_errno (k_sched k) EPERMISSION) k in
  (Z.of_nat j <= 0x80000000 ->
   exists text k', task_d_text j 0 text /\ task_d unspecified fuel task_c_address j k = Done (Z.of_nat j, k') /\
     prints (cstr "add task failed with errno 1 " ++ [10] ++ text) k1 k') /\
  (0x80000000 < Z.of_nat j -> task_d unspecified fuel task_c_address j k = Undefined).
Proof.
  intros Hmode k1.
  assert (kernel_add_task task_c_address k = Done (-1, k1)) as Hadd.
  { unfold kernel_add_task, add_task, is_privileged, get_operating_mode. by rewrite Hmode. }
  destruct (print_number (cstr "add task failed with errno ") (cstr " " ++ [10]) 1 (n_dev (k_nic k1)))
    as (r & t & Ht & Hp); [literal|literal|cbn; lia|cbn; lia|done|done|].
  assert (t = [49]) as ->.
  { destruct Ht as (ds & Hds & ->). change (Z.abs (i32 1)) with 1 in Hds. inversion Hds; subst; [done|].
    exfalso. lia. }
  set (k2 := output (cstr "add task failed with errno " ++ [49] ++ cstr " " ++ [10]) k1).
  assert (task_d_start task_c_address k = Done (tt, k2)) as Hstart.
  { unfold task_d_start. rewrite (bind_done _ _ _ _ _ Hadd). cbn [Z.ltb Z.compare].
    rewrite (bind_done _ _ k1 1 k1) by done.
    change (cstr "add task failed with errno %i " ++ [10])
      with (cstr "add task failed with errno " ++ 37 :: 105 :: cstr " " ++ [10]).
    by rewrite (bind_done _ _ _ _ _ (uart_io_done _ _ _ _ Hp)). }
  unfold task_d. rewrite (bind_done _ _ _ _ _ Hstart). split; intros Hj; [|by apply task_d_loop_undefined].
  destruct (task_d_loop_returns j 0 k2) as (text & k' & Htext & Hloop & P); [lia|lia|].
  exists text, k'. split; [done|]. split; [exact Hloop|].
  apply (prints_trans (cstr "add task failed with errno 1 " ++ [10]) text k1 k2); [apply prints_output|done].
Qed.

End Correct.

Section Processes.
Context {D : Type} `{Bus D} {cpu : Cpu} (unspecified : nat -> Z).

(** The test task [syscall_test] creates two processes from user mode: with
    room for both, they are the next two tasks, in user mode at their entry
    points, with stacks of their own, and both are ready to run. *)
Theorem syscall_test_creates p1 p2 task_a_address task_b_address (k : kernel D) :
  spec_pointer p1 = true -> spec_pointer p2 = true -> is_u32 task_a_address -> is_u32 task_b_address ->
  sched_inv (k_sched k) -> task_count (k_sched k) <= 13 ->
  exists k', syscall_test unspecified p1 p2 task_a_address task_b_address k = Done (tt, k') /\
    callee_kept (k_context k) (k_context k') /\
    let c := task_count (k_sched k) in
    task_count (k_sched k') = c + 2 /\
    tasks (k_sched k') !! Z.to_nat c = Some (init_task task_a_address (task_stackbase c)) /\
    tasks (k_sched k') !! Z.to_nat (c + 1) = Some (init_task task_b_address (task_stackbase (c + 1))) /\
    ready (k_sched k') = ready (k_sched k) ++ [Some (Z.to_nat c); Some (Z.to_nat (c + 1))].
Proof.
  intros Hp1 Hp2 Ha Hb Hinv Hc.
  destruct (create_process_spec unspecified p1 task_a_address k Hp1 Ha) as (k1 & H1 & Hctx1 & Hs1).
  destruct (create_process_spec unspecified p2 task_b_address k1 Hp2 Hb) as (k2 & H2 & Hctx2 & Hs2).
  exists k2. split.
  { unfold syscall_test. rewrite (bind_done _ _ _ _ _ H1), (bind_done _ _ _ _ _ H2). done. }
  split; [rewrite Hctx2; etrans; [|apply returned_kept]; rewrite Hctx1; apply returned_kept|]. cbv zeta.
  pose proof (add_task_inv CPSR_MODE_SVC task_a_address (k_sched k) Hinv) as Hinv1. rewrite <- Hs1 in Hinv1.
  assert (forall entry s, is_u32 entry -> sched_inv s -> task_count s <= 14 ->
    exists s', (add_task CPSR_MODE_SVC entry s).2 = s' /\ task_count s' = task_count s + 1 /\
      tasks s' !! Z.to_nat (task_count s) = Some (init_task entry (task_stackbase (task_count s))) /\
      (forall j, j <> Z.to_nat (task_count s) -> tasks s' !! j = tasks s !! j) /\
      ready s' = ready s ++ [Some (Z.to_nat (task_count s))]) as Hadd.
  { intros entry s He Hs Hle. pose proof (live_length s Hs ltac:(lia)) as Hlive. pose proof (ready_le_live s).
    destruct Hs as (Hok & Hlen & Hcnt & _).
    destruct (add_task_spec CPSR_MODE_SVC entry s Hok Hlen ltac:(lia)) as (_ & _ & Hroom).
    destruct (Hroom ltac:(done) ltac:(lia)) as (s' & -> & Hcount & Htask & Hother & _ & _ & Hr).
    exists s'. split; [done|]. split; [done|]. rewrite decide_True in Hr by lia.
    split; [|by split]. rewrite Htask. unfold init_task, task_stackbase.
    rewrite (u32_id entry) by done. do 2 f_equal.
    unfold TASK_STACK_BASE_ADDRESS, SVC_STACK_ADDRESS, IRQ_STACK_ADDRESS, STACK_SIZE. word_lia. }
  assert (0 <= task_count (k_sched k)) as Hc0 by apply Hinv.
  destruct (Hadd task_a_address (k_sched k) Ha Hinv ltac:(lia)) as (sa & Ea & Hca & Hta & _ & Hra).
  rewrite Ea in Hs1. subst sa.
  destruct (Hadd task_b_address (k_sched k1) Hb Hinv1 ltac:(lia)) as (sb & Eb & Hcb & Htb & Hob & Hrb).
  rewrite Eb in Hs2. rewrite Hs2, Hcb, Hrb, Hca, Hra, <- app_assoc. rewrite Hca in Htb, Hob.
  split_and!; [lia| |done|done]. by rewrite Hob by lia.
Qed.

End Processes.

(** ** Witnesses *)

Lemma task_d_never_stops_witness :
  exists k, task_d (D := regfile) (cpu := LittleEndian) (fun _ => 77) (Z.to_nat 10000001) 0x8000 8 (example_kernel 0) = Done (8, k).
Proof.
  destruct (task_d_never_stops (D := regfile) (cpu := LittleEndian) (fun _ => 77) (Z.to_nat 10000001) ltac:(rewrite Z2Nat.id by lia; lia)
    0x8000 8 (example_kernel 0)) as [Hd _]; [done|].
  destruct Hd as (text & k & _ & Hrun & _); [lia|]. exists k. exact Hrun.
Defined.

Lemma syscall_test_creates_witness :
  exists k, syscall_test (D := regfile) (cpu := LittleEndian) (fun _ => 77) 0x3FDEFF0 0x3FDEFF0 0x8100 0x8200 (example_kernel 0) = Done (tt, k) /\
    task_count (k_sched k) = 4.
Proof.
  destruct (syscall_test_creates (D := regfile) (cpu := LittleEndian) (fun _ => 77) 0x3FDEFF0 0x3FDEFF0 0x8100 0x8200 (example_kernel 0))
    as (k & Hk & _ & Hc & _); [done..| |done|].
  - apply reachable_inv. apply (started_reachable 2); vm_compute; congruence.
  - exists k. split; [exact Hk|exact Hc].
Defined.
