(* ===== verification/Gpio.v ===== *)
(** * Pins: kernel/drivers/gpio.c and pininfo.c

    The pin multiplexing table of the EV3 and the operations on pins. What the
    chip does with its registers is the class [GpioChip]: the system
    configuration registers keep what is written to them, but the multiplexing
    ones only while the two kick registers hold their keys; a bank's set and
    clear registers drive output latches; its input register shows the pins. *)

From stdpp Require Import strings.
From S2P Require Import Prelude StateMonad Memory Bus Clock Stdio.

(** ** Definitions *)

Record pin_info := pi {
  muxreg : Z;
  muxreg_mask : Z;
  muxreg_mode : Z;
}.

(** The GPIO pins of the nine banks; a zero mask marks an unknown pin. *)
Definition gpio_pins_0 : list pin_info :=
  [pi 0 0x00000000 0x00000000; pi 1 0xF0FFFFFF 0x08000000;
   pi 1 0xFF0FFFFF 0x00800000; pi 1 0xFFF0FFFF 0x00080000;
   pi 1 0xFFFF0FFF 0x00008000; pi 1 0xFFFFF0FF 0x00000800;
   pi 1 0xFFFFFF0F 0x00000080; pi 1 0xFFFFFFF0 0x00000008;
   pi 0 0x00000000 0x00000000; pi 0 0x00000000 0x00000000;
   pi 0 0x00000000 0x00000000; pi 0 0xFFF0FFFF 0x00080000;
   pi 0 0xFFFF0FFF 0x00008000; pi 0 0xFFFFF0FF 0x00000800;
   pi 0 0xFFFFFF0F 0x00000080; pi 0 0xFFFFFFF0 0x00000008].

Definition gpio_pins_1 : list pin_info :=
  [pi 4 0x0FFFFFFF 0x80000000; pi 0 0x00000000 0x00000000;
   pi 0 0x00000000 0x00000000; pi 0 0x00000000 0x00000000;
   pi 0 0x00000000 0x00000000; pi 0 0x00000000 0x00000000;
   pi 0 0x00000000 0x00000000; pi 0 0x00000000 0x00000000;
   pi 3 0xFFFFFFF0 0x00000004; pi 2 0xF0FFFFFF 0x04000000;
   pi 2 0xFF0FFFFF 0x00400000; pi 2 0xFFF0FFFF 0x00040000;
   pi 2 0xFFFF0FFF 0x00004000; pi 2 0xFFFFF0FF 0x00000400;
   pi 2 0xFFFFFF0F 0x00000040; pi 2 0xFFFFFFF0 0x00000008].

Definition gpio_pins_2 : list pin_info :=
  [pi 6 0x0FFFFFFF 0x80000000; pi 6 0xF0FFFFFF 0x08000000;
   pi 6 0xFF0FFFFF 0x00800000; pi 6 0xFFF0FFFF 0x00080000;
   pi 6 0xFFFF0FFF 0x00008000; pi 6 0xFFFFF0FF 0x00000800;
   pi 6 0xFFFFFF0F 0x00000080; pi 6 0xFFFFFFF0 0x00000008;
   pi 5 0x0FFFFFFF 0x80000000; pi 5 0xF0FFFFFF 0x08000000;
   pi 5 0xFF0FFFFF 0x00800000; pi 5 0xFFF0FFFF 0x00080000;
   pi 5 0xFFFF0FFF 0x00008000; pi 5 0xFFFFF0FF 0x00000800;
   pi 0 0x00000000 0x00000000; pi 0 0x00000000 0x00000000].

Definition gpio_pins_3 : list pin_info :=
  [pi 8 0x0FFFFFFF 0x80000000; pi 8 0xF0FFFFFF 0x08000000;
   pi 8 0xFF0FFFFF 0x00800000; pi 8 0xFFF0FFFF 0x00080000;
   pi 8 0xFFFF0FFF 0x00008000; pi 8 0xFFFFF0FF 0x00000800;
   pi 8 0xFFFFFF0F 0x00000080; pi 8 0xFFFFFFF0 0x00000008;
   pi 7 0x0FFFFFFF 0x80000000; pi 7 0xF0FFFFFF 0x08000000;
   pi 7 0xFF0FFFFF 0x00800000; pi 7 0xFFF0FFFF 0x00080000;
   pi 7 0xFFFF0FFF 0x00008000; pi 7 0xFFFFF0FF 0x00000800;
   pi 7 0xFFFFFF0F 0x00000080; pi 7 0xFFFFFFF0 0x00000008].

Definition gpio_pins_4 : list pin_info :=
  [pi 0 0x00000000 0x00000000; pi 10 0xF0FFFFFF 0x08000000;
   pi 0 0x00000000 0x00000000; pi 0 0x00000000 0x00000000;
   pi 0 0x00000000 0x00000000; pi 0 0x00000000 0x00000000;
   pi 0 0x00000000 0x00000000; pi 0 0x00000000 0x00000000;
   pi 9 0x0FFFFFFF 0x80000000; pi 9 0xF0FFFFFF 0x08000000;
   pi 9 0xFF0FFFFF 0x00800000; pi 0 0x00000000 0x00000000;
   pi 9 0xFFFF0FFF 0x00008000; pi 0 0x00000000 0x00000000;
   pi 9 0xFFFFFF0F 0x00000080; pi 0 0x00000000 0x00000000].

Definition gpio_pins_5 : list pin_info :=
  [pi 12 0x0FFFFFFF 0x80000000; pi 12 0xF0FFFFFF 0x08000000;
   pi 12 0xFF0FFFFF 0x00800000; pi 12 0xFFF0FFFF 0x00080000;
   pi 12 0xFFFF0FFF 0x00008000; pi 12 0xFFFFF0FF 0x00000800;
   pi 12 0xFFFFFF0F 0x00000080; pi 12 0xFFFFFFF0 0x00000008;
   pi 11 0x0FFFFFFF 0x80000000; pi 11 0xF0FFFFFF 0x08000000;
   pi 11 0xFF0FFFFF 0x00800000; pi 11 0xFFF0FFFF 0x00080000;
   pi 11 0xFFFF0FFF 0x00008000; pi 11 0xFFFFF0FF 0x00000800;
   pi 11 0xFFFFFF0F 0x00000080; pi 11 0xFFFFFFF0 0x00000008].

Definition gpio_pins_6 : list pin_info :=
  [pi 19 0xF0FFFFFF 0x08000000; pi 19 0xFF0FFFFF 0x00800000;
   pi 19 0xFFF0FFFF 0x00080000; pi 19 0xFFFF0FFF 0x00008000;
   pi 19 0xFFFFF0FF 0x00000800; pi 16 0xFFFFFF0F 0x00000080;
   pi 14 0xFFFFFF0F 0x00000080; pi 14 0xFFFFFFF0 0x00000008;
   pi 13 0x0FFFFFFF 0x80000000; pi 13 0xF0FFFFFF 0x08000000;
   pi 13 0xFF0FFFFF 0x00800000; pi 13 0xFFF0FFFF 0x00080000;
   pi 13 0xFFFF0FFF 0x00008000; pi 13 0xFFFFF0FF 0x00000800;
   pi 13 0xFFFFFF0F 0x00000080; pi 13 0xFFFFFFF0 0x00000008].

Definition gpio_pins_7 : list pin_info :=
  [pi 0 0x00000000 0x00000000; pi 0 0x00000000 0x00000000;
   pi 0 0x00000000 0x00000000; pi 0 0x00000000 0x00000000;
   pi 17 0xFF0FFFFF 0x00800000; pi 0 0x00000000 0x00000000;
   pi 0 0x00000000 0x00000000; pi 0 0x00000000 0x00000000;
   pi 17 0xFFFFFF0F 0x00000080; pi 17 0xFFFFFFF0 0x00000008;
   pi 16 0x0FFFFFFF 0x80000000; pi 16 0xF0FFFFFF 0x08000000;
   pi 16 0xFF0FFFFF 0x00800000; pi 16 0xFFF0FFFF 0x00080000;
   pi 16 0xFFFF0FFF 0x00008000; pi 16 0xFFFFF0FF 0x00000800].

Definition gpio_pins_8 : list pin_info :=
  [pi 0 0x00000000 0x00000000; pi 0 0x00000000 0x00000000;
   pi 3 0xF0FFFFFF 0x04000000; pi 3 0xFF0FFFFF 0x00400000;
   pi 0 0x00000000 0x00000000; pi 3 0xFFFF0FFF 0x00004000;
   pi 3 0xFFFFF0FF 0x00000400; pi 0 0x00000000 0x00000000;
   pi 19 0xFFFFFF0F 0x00000080; pi 19 0xFFFFFFF0 0x00000008;
   pi 18 0x0FFFFFFF 0x80000000; pi 18 0xF0FFFFFF 0x08000000;
   pi 18 0xFF0FFFFF 0x00800000; pi 18 0xFFF0FFFF 0x00080000;
   pi 18 0xFFFF0FFF 0x00008000; pi 18 0xFFFFF0FF 0x00000800].

Definition gpio_pins : list pin_info :=
  gpio_pins_0 ++ gpio_pins_1 ++ gpio_pins_2 ++ gpio_pins_3 ++ gpio_pins_4 ++
  gpio_pins_5 ++ gpio_pins_6 ++ gpio_pins_7 ++ gpio_pins_8.

Definition no_pin : pin_info := pi 0 0 0.

(** The entry behind the last bank, the UART pins, a gap, the SPI0 pins and a
    terminator. *)
Definition uart_pins : list pin_info :=
  [pi 3 0xFF0FFFFF 0x00200000; pi 3 0xFFF0FFFF 0x00020000;
   pi 4 0x0FFFFFFF 0x20000000].

Definition spi_pins : list pin_info :=
  [pi 3 0xFFFF0FFF 0x00001000; pi 3 0xFFFFF0FF 0x00000100;
   pi 3 0xFFFFFFF0 0x00000001; pi 3 0xF0FFFFFF 0x01000000].

Definition pininfo : list pin_info :=
  gpio_pins ++ [no_pin] ++ uart_pins ++ [no_pin] ++ spi_pins ++ [no_pin].

Definition pininfo_size : Z := Z.of_nat (length pininfo).

Definition SYSCFG0_BASE : Z := 0x01C14000.
Definition SYSCFG1_BASE : Z := 0x01E2C000.
Definition GPIO_BASE : Z := 0x01E26000.

Definition GPIO_PIN (B O : Z) : Z := B * 0x10 + O.
Definition GPIO_BANK (N : Z) : Z := GPIO_BASE + 0x10 + Z.shiftr N 5 * 0x28.
Definition GPIO_MASK (N : Z) : Z := Z.shiftl 1 (Z.land N 0x1F).
Definition GPIO_DIR (N : Z) : Z := GPIO_BANK N + 0x00.
Definition GPIO_SET (N : Z) : Z := GPIO_BANK N + 0x08.
Definition GPIO_CLR (N : Z) : Z := GPIO_BANK N + 0x0C.

Definition SYSCFG_KICK (N : Z) : Z := SYSCFG0_BASE + 0x38 + N * 0x4.
Definition SYSCFG_PINMUX (N : Z) : Z := SYSCFG0_BASE + 0x120 + N * 0x4.

Definition KICK0_UNLOCK : Z := 0x83E70B13.
Definition KICK1_UNLOCK : Z := 0x95A4F1E0.
Definition KICK0_LOCK : Z := 0x0.
Definition KICK1_LOCK : Z := 0x0.

Section Gpio.
Context {D : Type} `{Bus D}.

Definition SYSCFG_UNLOCK (d : D) : D :=
  write32 (SYSCFG_KICK 1) KICK1_UNLOCK (write32 (SYSCFG_KICK 0) KICK0_UNLOCK d).
Definition SYSCFG_LOCK (d : D) : D :=
  write32 (SYSCFG_KICK 1) KICK1_LOCK (write32 (SYSCFG_KICK 0) KICK0_LOCK d).

Definition gpio_message : list Z :=
  cstr "gpio: can not initialize pin %x - need init information in pin_info" ++ [10].

(** The table is read before the bounds check; behind its end that is
    undefined. *)
Definition gpio_init_pin (pin : Z) : ST D unit :=
  modify SYSCFG_UNLOCK ;;
  match pininfo !! Z.to_nat pin with
  | None => undefined
  | Some p =>
      (if (pininfo_size <=? pin) || (muxreg_mask p =? 0)
       then _ ← printf gpio_message [VInt pin]; mret ()
       else mret ()) ;;
      modify (and32 (SYSCFG_PINMUX (muxreg p)) (muxreg_mask p)) ;;
      modify (or32 (SYSCFG_PINMUX (muxreg p)) (muxreg_mode p)) ;;
      modify SYSCFG_LOCK
  end.

Definition gpio_init_outpin (pin : Z) : ST D unit :=
  modify SYSCFG_UNLOCK ;;
  gpio_init_pin pin ;;
  modify (write32 (GPIO_CLR pin) (GPIO_MASK pin)) ;;
  modify (and32 (GPIO_DIR pin) (Z.lnot (GPIO_MASK pin))) ;;
  modify SYSCFG_LOCK.

Definition gpio_init_inpin (pin : Z) : ST D unit :=
  modify SYSCFG_UNLOCK ;;
  gpio_init_pin pin ;;
  modify (or32 (GPIO_DIR pin) (GPIO_MASK pin)) ;;
  modify SYSCFG_LOCK.

Definition gpio_set (pin value : Z) : ST D unit :=
  gpio_init_outpin pin ;;
  modify (write32 (GPIO_BANK pin + 8 + (if value =? 0 then 1 else 0) * 4) (GPIO_MASK pin)).

Definition gpio_get (pin : Z) : ST D Z :=
  gpio_init_inpin pin ;;
  v ← lift id (fun d _ => d) (read32 (GPIO_BANK pin + 0x10));
  mret (if negb (Z.land v (GPIO_MASK pin) =? 0) then 1 else 0).

End Gpio.

(** ** The table *)

(** The bits of its multiplexing register that belong to a pin. *)
Definition mux_field (e : pin_info) : Z := 0xFFFFFFFF - muxreg_mask e.

Definition known_pin (p : Z) (e : pin_info) : Prop :=
  0 <= p /\ gpio_pins !! Z.to_nat p = Some e /\ muxreg_mask e <> 0.

Definition entry_ok (e : pin_info) : bool :=
  (muxreg_mask e =? 0) ||
  ((0 <=? muxreg e) && (muxreg e <? 20) && (0 <=? muxreg_mask e) && (muxreg_mask e <=? 0xFFFFFFFF) &&
   (Z.land (muxreg_mask e) (mux_field e) =? 0) && (Z.land (muxreg_mode e) (mux_field e) =? muxreg_mode e) &&
   existsb (fun k => mux_field e =? Z.shiftl 0xF (4 * k)) (zseq 8)).

Definition entries_apart (e f : pin_info) : bool :=
  (muxreg_mask e =? 0) || (muxreg_mask f =? 0) || negb (muxreg e =? muxreg f) ||
  ((Z.land (muxreg_mask e) (mux_field f) =? mux_field f) && (Z.land (muxreg_mode e) (mux_field f) =? 0)).

Lemma gpio_entries_ok : forallb entry_ok gpio_pins = true.
Proof. vm_compute. reflexivity. Qed.

Lemma gpio_entries_apart :
  forallb (fun i => forallb (fun j =>
    bool_decide (i = j) || entries_apart (nth i gpio_pins no_pin) (nth j gpio_pins no_pin))
    (seq 0 144)) (seq 0 144) = true.
Proof. vm_compute. reflexivity. Qed.

Lemma known_entry p e : known_pin p e ->
  0 <= muxreg e < 20 /\ is_u32 (muxreg_mask e) /\ Z.land (muxreg_mask e) (mux_field e) = 0 /\
  Z.land (muxreg_mode e) (mux_field e) = muxreg_mode e /\
  exists k, 0 <= k < 8 /\ mux_field e = Z.shiftl 0xF (4 * k).
Proof.
  intros (Hp & He & Hm). pose proof gpio_entries_ok as Hall. rewrite forallb_forall in Hall.
  specialize (Hall e ltac:(apply list_elem_of_In; by eapply list_elem_of_lookup_2)).
  unfold entry_ok in Hall. rewrite (proj2 (Z.eqb_neq _ _) Hm) in Hall. cbn [orb] in Hall.
  rewrite !andb_true_iff, !Z.eqb_eq, !Z.leb_le, Z.ltb_lt, existsb_exists in Hall.
  destruct Hall as ((((((? & ?) & ?) & ?) & ?) & ?) & k & Hk & E).
  unfold is_u32. split_and!; try lia. apply list_elem_of_In, elem_of_zseq in Hk.
  exists k. split; [lia|by apply Z.eqb_eq].
Qed.

Lemma known_lt p e : known_pin p e -> 0 <= p < 144.
Proof. intros (Hp & He & _). apply lookup_lt_Some in He. change (length gpio_pins) with 144%nat in He. lia. Qed.

Lemma known_apart p q e f : known_pin p e -> known_pin q f -> p <> q -> muxreg e = muxreg f ->
  Z.land (muxreg_mask e) (mux_field f) = mux_field f /\ Z.land (muxreg_mode e) (mux_field f) = 0.
Proof.
  intros Hp Hq Hne Hreg. pose proof (known_lt _ _ Hp). pose proof (known_lt _ _ Hq).
  destruct Hp as (Hp0 & He & Hme), Hq as (Hq0 & Hf & Hmf).
  pose proof gpio_entries_apart as Hall. rewrite forallb_forall in Hall.
  specialize (Hall (Z.to_nat p) ltac:(apply in_seq; lia)). rewrite forallb_forall in Hall.
  specialize (Hall (Z.to_nat q) ltac:(apply in_seq; lia)).
  rewrite bool_decide_false in Hall by lia. cbn [orb] in Hall.
  rewrite (nth_lookup_Some _ _ _ _ He), (nth_lookup_Some _ _ _ _ Hf) in Hall.
  unfold entries_apart in Hall.
  rewrite (proj2 (Z.eqb_neq _ _) Hme), (proj2 (Z.eqb_neq _ _) Hmf), (proj2 (Z.eqb_eq _ _) Hreg) in Hall.
  cbn [orb negb] in Hall. by rewrite andb_true_iff, !Z.eqb_eq in Hall.
Qed.

(** ** The chip *)

Definition is_mux (a : Z) : bool := (SYSCFG_PINMUX 0 <=? a) && (a <? SYSCFG_PINMUX 20).

(** The registers that keep what is written to them: the system configuration
    modules and the direction registers of the five register groups. *)
Definition config_register (a : Z) : bool :=
  ((SYSCFG0_BASE <=? a) && (a <? SYSCFG0_BASE + 0x1000)) ||
  ((SYSCFG1_BASE <=? a) && (a <? SYSCFG1_BASE + 0x1000)) ||
  ((GPIO_BASE + 0x10 <=? a) && (a <? GPIO_BASE + 0x10 + 5 * 0x28) &&
   ((a - (GPIO_BASE + 0x10)) mod 0x28 =? 0)).

Definition group_base (g : Z) : Z := GPIO_BASE + 0x10 + g * 0x28.

Class GpioChip (D : Type) `{Bus D} := {
  chip_reg : Z -> D -> Z;
  chip_out : Z -> D -> bool;
  chip_in : Z -> D -> bool;
  chip_unlocked d := chip_reg (SYSCFG_KICK 0) d = KICK0_UNLOCK /\ chip_reg (SYSCFG_KICK 1) d = KICK1_UNLOCK;
  chip_reg_u32 a d : is_u32 (chip_reg a d);
  chip_read a d : config_register a = true -> bus_read 4 a d = (chip_reg a d, d);
  chip_write a v d a' : config_register a = true -> is_u32 v -> is_mux a = false \/ chip_unlocked d ->
    chip_reg a' (bus_write 4 a v d) = if decide (a' = a) then v else chip_reg a' d;
  chip_write_out a v d p : config_register a = true -> chip_out p (bus_write 4 a v d) = chip_out p d;
  chip_set g v d p : 0 <= g < 5 ->
    chip_out p (bus_write 4 (group_base g + 8) v d) =
      if bool_decide (Z.shiftr p 5 = g) && Z.testbit v (Z.land p 0x1F) then true else chip_out p d;
  chip_clear g v d p : 0 <= g < 5 ->
    chip_out p (bus_write 4 (group_base g + 12) v d) =
      if bool_decide (Z.shiftr p 5 = g) && Z.testbit v (Z.land p 0x1F) then false else chip_out p d;
  chip_data_reg g o v d a : 0 <= g < 5 -> o = 8 \/ o = 12 ->
    chip_reg a (bus_write 4 (group_base g + o) v d) = chip_reg a d;
  chip_uart c d a : chip_reg a (bus_write 1 UART_THR c d) = chip_reg a d;
  chip_input g d : 0 <= g < 5 -> exists v, bus_read 4 (group_base g + 0x10) d = (v, d) /\ is_u32 v /\
    forall p, Z.shiftr p 5 = g -> Z.testbit v (Z.land p 0x1F) = chip_in p d;
}.

(** ** Register accesses *)

Lemma testbit_u32 v i : 0 <= i < 32 -> Z.testbit (u32 v) i = Z.testbit v i.
Proof. intros Hi. unfold u32. change 4294967296 with (2 ^ 32). apply Z.mod_pow2_bits_low. lia. Qed.

Lemma group_address g : 0 <= g < 5 ->
  config_register (group_base g) = true /\ is_mux (group_base g) = false /\ is_u32 (group_base g).
Proof.
  intros Hg. assert (g = 0 \/ g = 1 \/ g = 2 \/ g = 3 \/ g = 4) as [->|[->|[->|[->| ->]]]] by lia; by vm_compute.
Qed.

Lemma pin_group p e : known_pin p e -> 0 <= Z.shiftr p 5 < 5 /\ 0 <= Z.land p 0x1F < 32.
Proof.
  intros Hk. pose proof (known_lt _ _ Hk). rewrite Z.shiftr_div_pow2 by lia.
  change 0x1F with (Z.ones 5). rewrite Z.land_ones by lia. change (2 ^ 5) with 32. word_lia.
Qed.

Lemma pin_bits p q : Z.shiftr p 5 = Z.shiftr q 5 -> Z.land p 0x1F = Z.land q 0x1F -> p = q.
Proof.
  rewrite !Z.shiftr_div_pow2 by lia. change 0x1F with (Z.ones 5). rewrite !Z.land_ones by lia.
  change (2 ^ 5) with 32. word_lia.
Qed.

Lemma mux_address n : 0 <= n < 20 ->
  config_register (SYSCFG_PINMUX n) = true /\ is_mux (SYSCFG_PINMUX n) = true /\ is_u32 (SYSCFG_PINMUX n).
Proof.
  intros Hn. unfold config_register, is_mux, is_u32, SYSCFG_PINMUX, SYSCFG0_BASE.
  rewrite !andb_true_iff, !orb_true_iff, !andb_true_iff, !Z.leb_le, !Z.ltb_lt. lia.
Qed.

Lemma GPIO_DIR_group p : GPIO_DIR p = group_base (Z.shiftr p 5).
Proof. unfold GPIO_DIR, GPIO_BANK, group_base. lia. Qed.

Section Chip.
Context {D : Type} `{GpioChip D}.

Lemma reg_write32 a v (d : D) a' :
  config_register a = true -> is_u32 a -> is_mux a = false \/ chip_unlocked d ->
  chip_reg a' (write32 a v d) = if decide (a' = a) then u32 v else chip_reg a' d.
Proof. intros Hc Ha Hm. unfold write32. rewrite (u32_id a Ha). apply chip_write; [done|apply u32_range|done]. Qed.

Lemma read32_config a (d : D) : config_register a = true -> is_u32 a -> read32 a d = (chip_reg a d, d).
Proof.
  intros Hc Ha. unfold read32. rewrite (u32_id a Ha), chip_read by done. by rewrite u32_id by apply chip_reg_u32.
Qed.

Lemma reg_and32 a m (d : D) a' :
  config_register a = true -> is_u32 a -> is_mux a = false \/ chip_unlocked d ->
  chip_reg a' (and32 a m d) = if decide (a' = a) then u32 (Z.land (chip_reg a d) m) else chip_reg a' d.
Proof. intros Hc Ha Hm. unfold and32. rewrite read32_config by done. by apply reg_write32. Qed.

Lemma reg_or32 a m (d : D) a' :
  config_register a = true -> is_u32 a -> is_mux a = false \/ chip_unlocked d ->
  chip_reg a' (or32 a m d) = if decide (a' = a) then u32 (Z.lor (chip_reg a d) m) else chip_reg a' d.
Proof. intros Hc Ha Hm. unfold or32. rewrite read32_config by done. by apply reg_write32. Qed.

Lemma out_write32 a v (d : D) p : config_register a = true -> is_u32 a -> chip_out p (write32 a v d) = chip_out p d.
Proof. intros Hc Ha. unfold write32. rewrite (u32_id a Ha). by apply chip_write_out. Qed.

Lemma out_and32 a m (d : D) p : config_register a = true -> is_u32 a -> chip_out p (and32 a m d) = chip_out p d.
Proof. intros Hc Ha. unfold and32. rewrite read32_config by done. by apply out_write32. Qed.

Lemma out_or32 a m (d : D) p : config_register a = true -> is_u32 a -> chip_out p (or32 a m d) = chip_out p d.
Proof. intros Hc Ha. unfold or32. rewrite read32_config by done. by apply out_write32. Qed.

(** ** What a pin does *)

Definition pin_function (e : pin_info) (d : D) : Z := Z.land (chip_reg (SYSCFG_PINMUX (muxreg e)) d) (mux_field e).
Definition pin_is_input (p : Z) (d : D) : bool := Z.testbit (chip_reg (GPIO_DIR p) d) (Z.land p 0x1F).
Definition chip_locked (d : D) : Prop := chip_reg (SYSCFG_KICK 0) d = 0 /\ chip_reg (SYSCFG_KICK 1) d = 0.

(** Between [d] and [d'] nothing happens to the known pins other than [p]. *)
Definition only_pin (p : Z) (d d' : D) : Prop :=
  forall q f, known_pin q f -> q <> p ->
    pin_function f d' = pin_function f d /\ pin_is_input q d' = pin_is_input q d /\ chip_out q d' = chip_out q d.

Lemma only_pin_trans p d1 d2 d3 : only_pin p d1 d2 -> only_pin p d2 d3 -> only_pin p d1 d3.
Proof.
  intros H1 H2 q f Hq Hne. destruct (H1 q f Hq Hne) as (A1 & B1 & C1), (H2 q f Hq Hne) as (A2 & B2 & C2).
  split_and!; congruence.
Qed.

Lemma kick_address k : k = 0 \/ k = 1 ->
  config_register (SYSCFG_KICK k) = true /\ is_mux (SYSCFG_KICK k) = false /\ is_u32 (SYSCFG_KICK k).
Proof. by intros [->| ->]; vm_compute. Qed.

(** Writing the kick registers changes nothing else. *)
Lemma reg_kick a k0 k1 (d : D) :
  chip_reg a (write32 (SYSCFG_KICK 1) k1 (write32 (SYSCFG_KICK 0) k0 d)) =
  if decide (a = SYSCFG_KICK 1) then u32 k1 else if decide (a = SYSCFG_KICK 0) then u32 k0 else chip_reg a d.
Proof.
  destruct (kick_address 0 (or_introl eq_refl)) as (? & ? & ?), (kick_address 1 (or_intror eq_refl)) as (? & ? & ?).
  rewrite !reg_write32 by auto. done.
Qed.

Lemma out_kick p k0 k1 (d : D) :
  chip_out p (write32 (SYSCFG_KICK 1) k1 (write32 (SYSCFG_KICK 0) k0 d)) = chip_out p d.
Proof.
  destruct (kick_address 0 (or_introl eq_refl)) as (? & ? & ?), (kick_address 1 (or_intror eq_refl)) as (? & ? & ?).
  by rewrite !out_write32.
Qed.

Lemma unlock_unlocks (d : D) : chip_unlocked (SYSCFG_UNLOCK d).
Proof. split; unfold SYSCFG_UNLOCK; rewrite reg_kick; by vm_compute. Qed.

(** [gpio_init_pin] on a known pin, step by step. *)
Lemma init_pin_eq p e (d : D) : known_pin p e ->
  gpio_init_pin p d = Done (tt,
    SYSCFG_LOCK (or32 (SYSCFG_PINMUX (muxreg e)) (muxreg_mode e)
      (and32 (SYSCFG_PINMUX (muxreg e)) (muxreg_mask e) (SYSCFG_UNLOCK d)))).
Proof.
  intros Hk. pose proof (known_lt _ _ Hk). destruct Hk as (Hp & He & Hm).
  unfold gpio_init_pin. st_unfold.
  assert (pininfo !! Z.to_nat p = Some e) as ->
    by (unfold pininfo; rewrite lookup_app_l by (by eapply lookup_lt_Some); done).
  rewrite (proj2 (Z.eqb_neq _ _) Hm), (proj2 (Z.leb_gt pininfo_size p)) by (change pininfo_size with 154; lia).
  done.
Qed.

Lemma init_pin_reg p e (d : D) a : known_pin p e ->
  chip_reg a (SYSCFG_LOCK (or32 (SYSCFG_PINMUX (muxreg e)) (muxreg_mode e)
      (and32 (SYSCFG_PINMUX (muxreg e)) (muxreg_mask e) (SYSCFG_UNLOCK d)))) =
  if decide (a = SYSCFG_KICK 1) then 0 else if decide (a = SYSCFG_KICK 0) then 0
  else if decide (a = SYSCFG_PINMUX (muxreg e))
  then u32 (Z.lor (u32 (Z.land (chip_reg a d) (muxreg_mask e))) (muxreg_mode e)) else chip_reg a d.
Proof.
  intros Hk. destruct (known_entry _ _ Hk) as (Hr & _). destruct (mux_address _ Hr) as (Hc & Hm & Ha).
  pose proof (unlock_unlocks d) as [U0 U1].
  assert (forall k, k = 0 \/ k = 1 -> SYSCFG_KICK k <> SYSCFG_PINMUX (muxreg e)) as Hne
    by (unfold SYSCFG_KICK, SYSCFG_PINMUX; intros k [->| ->]; lia).
  unfold SYSCFG_LOCK. rewrite reg_kick. change (u32 KICK0_LOCK) with 0. change (u32 KICK1_LOCK) with 0.
  repeat case_decide; try done.
  - subst a. rewrite reg_or32, decide_True; try done.
    + rewrite reg_and32, decide_True by (try done; right; by split).
      unfold SYSCFG_UNLOCK. rewrite reg_kick, !decide_False by done. done.
    + right. split; rewrite reg_and32 by (try done; right; by split); rewrite decide_False by auto; done.
  - rewrite reg_or32, decide_False; try done.
    + rewrite reg_and32, decide_False by (try done; right; by split).
      unfold SYSCFG_UNLOCK. by rewrite reg_kick, !decide_False by done.
    + right. split; rewrite reg_and32 by (try done; right; by split); rewrite decide_False by auto; done.
Qed.

Lemma land_u32_l y n : is_u32 n -> Z.land (u32 y) n = Z.land y n.
Proof.
  intros Hn. unfold u32. change 4294967296 with (2 ^ 32). rewrite <- Z.land_ones by lia.
  rewrite <- Z.land_assoc. f_equal. rewrite Z.land_comm, Z.land_ones by lia. apply Z.mod_small.
  unfold is_u32 in Hn. lia.
Qed.

Lemma mux_field_u32 p e : known_pin p e -> is_u32 (mux_field e).
Proof. intros Hk. destruct (known_entry _ _ Hk) as (_ & Hm & _). unfold mux_field, is_u32 in *. lia. Qed.

(** The value a multiplexing register gets, seen through a field. *)
Lemma select_field x m mode n : is_u32 n ->
  Z.land (u32 (Z.lor (u32 (Z.land x m)) mode)) n = Z.lor (Z.land x (Z.land m n)) (Z.land mode n).
Proof.
  intros Hn. rewrite land_u32_l, Z.land_lor_distr_l, land_u32_l by done. by rewrite Z.land_assoc.
Qed.

Lemma init_pin_spec p e (d : D) : known_pin p e ->
  exists d', gpio_init_pin p d = Done (tt, d') /\ pin_function e d' = muxreg_mode e /\
    (forall q f, known_pin q f -> q <> p -> pin_function f d' = pin_function f d) /\
    (forall g, 0 <= g < 5 -> chip_reg (group_base g) d' = chip_reg (group_base g) d) /\
    (forall q, chip_out q d' = chip_out q d) /\ chip_locked d'.
Proof.
  intros Hk. eexists. split; [by apply init_pin_eq|].
  destruct (known_entry _ _ Hk) as (Hr & Hm32 & Hmn & Hmode & _).
  assert (forall r, SYSCFG_PINMUX r <> SYSCFG_KICK 1 \/ r < 0) as Hk1
    by (intros r; unfold SYSCFG_KICK, SYSCFG_PINMUX; lia).
  assert (forall r, SYSCFG_PINMUX r <> SYSCFG_KICK 0 \/ r < 0) as Hk0
    by (intros r; unfold SYSCFG_KICK, SYSCFG_PINMUX; lia).
  split_and!.
  - unfold pin_function. destruct (Hk1 (muxreg e)), (Hk0 (muxreg e)); try lia.
    rewrite (init_pin_reg p e _ _ Hk), !decide_False, decide_True by done.
    rewrite select_field by (by eapply mux_field_u32). by rewrite Hmn, Z.land_0_r, Z.lor_0_l.
  - intros q f Hq Hne. unfold pin_function. destruct (known_entry _ _ Hq) as (Hrq & _).
    destruct (Hk1 (muxreg f)), (Hk0 (muxreg f)); try lia.
    rewrite (init_pin_reg p e _ _ Hk). rewrite decide_False by done. rewrite decide_False by done.
    case_decide as Hreg; [|done]. assert (muxreg e = muxreg f) as Er by (unfold SYSCFG_PINMUX in Hreg; lia).
    destruct (known_apart p q e f Hk Hq ltac:(congruence) Er) as [Ha1 Ha2].
    rewrite select_field by (by eapply mux_field_u32). by rewrite Ha1, Ha2, Z.lor_0_r.
  - intros g Hg. rewrite (init_pin_reg p e _ _ Hk).
    rewrite !decide_False; [done|..]; unfold group_base, SYSCFG_PINMUX, SYSCFG_KICK, SYSCFG0_BASE, GPIO_BASE; lia.
  - intros q. unfold SYSCFG_LOCK, SYSCFG_UNLOCK. destruct (mux_address _ Hr) as (? & ? & ?).
    by rewrite out_kick, out_or32, out_and32, out_kick.
  - split; rewrite (init_pin_reg p e _ _ Hk); by vm_compute.
Qed.

(** The operations of a data register. *)
Lemma data_write g o v (d : D) : 0 <= g < 5 -> o = 8 \/ o = 12 ->
  write32 (group_base g + o) v d = bus_write 4 (group_base g + o) (u32 v) d.
Proof.
  intros Hg Ho. unfold write32. rewrite (u32_id (group_base g + o)); [done|].
  unfold is_u32, group_base, GPIO_BASE. lia.
Qed.

Lemma mask_bit p i : 0 <= i < 32 -> Z.testbit (u32 (GPIO_MASK p)) i = bool_decide (Z.land p 0x1F = i).
Proof.
  intros Hi. rewrite testbit_u32 by done. unfold GPIO_MASK. rewrite Z.shiftl_1_l.
  rewrite Z.pow2_bits_eqb by (apply Z.land_nonneg; lia). by destruct (Z.eqb_spec (Z.land p 0x1F) i); case_bool_decide.
Qed.

(** The bits of a register group select the pin. *)
Lemma selects_pin p q e f : known_pin p e -> known_pin q f ->
  (bool_decide (Z.shiftr q 5 = Z.shiftr p 5) && Z.testbit (u32 (GPIO_MASK p)) (Z.land q 0x1F)) = bool_decide (q = p).
Proof.
  intros Hp Hq. destruct (pin_group q f Hq) as [_ Hb]. rewrite mask_bit by done.
  destruct (decide (q = p)) as [->|Hne]; [by rewrite !bool_decide_true|].
  rewrite (bool_decide_false (q = p)) by done.
  apply andb_false_iff. destruct (decide (Z.shiftr q 5 = Z.shiftr p 5)) as [E|E];
    [right|left]; apply bool_decide_false; [|done]. intros E2. apply Hne. by apply pin_bits.
Qed.

(** An update of the direction register, one bit of which is [p]'s. *)
Lemma dir_update p e (d d' : D) (out : bool) : known_pin p e ->
  (forall g, 0 <= g < 5 -> chip_reg (group_base g) d' =
     if decide (g = Z.shiftr p 5)
     then u32 (if out then Z.land (chip_reg (group_base g) d) (Z.lnot (GPIO_MASK p))
               else Z.lor (chip_reg (group_base g) d) (GPIO_MASK p))
     else chip_reg (group_base g) d) ->
  pin_is_input p d' = negb out /\
  (forall q f, known_pin q f -> q <> p -> pin_is_input q d' = pin_is_input q d).
Proof.
  intros Hk Hreg. destruct (pin_group p e Hk) as [Hg Hb].
  assert (forall q f, known_pin q f -> Z.testbit (GPIO_MASK p) (Z.land q 0x1F) = bool_decide (Z.land p 0x1F = Z.land q 0x1F)) as Hm.
  { intros q f Hq. destruct (pin_group q f Hq) as [_ Hbq]. rewrite <- testbit_u32 by done. by apply mask_bit. }
  assert (forall q f, known_pin q f -> Z.shiftr q 5 = Z.shiftr p 5 ->
    pin_is_input q d' = if bool_decide (Z.land p 0x1F = Z.land q 0x1F) then negb out else pin_is_input q d) as Hin.
  { intros q f Hq Eg. destruct (pin_group q f Hq) as [Hgq Hbq]. unfold pin_is_input. rewrite !GPIO_DIR_group.
    rewrite Hreg, decide_True, testbit_u32 by done. destruct out.
    - rewrite Z.land_spec, Z.lnot_spec, (Hm q f Hq) by lia. case_bool_decide; cbn [negb];
        by rewrite ?andb_false_r, ?andb_true_r.
    - rewrite Z.lor_spec, (Hm q f Hq). case_bool_decide; by rewrite ?orb_true_r, ?orb_false_r. }
  split.
  - rewrite (Hin p e Hk eq_refl). by rewrite bool_decide_true.
  - intros q f Hq Hne. destruct (decide (Z.shiftr q 5 = Z.shiftr p 5)) as [Eg|Eg].
    + rewrite (Hin q f Hq Eg). rewrite bool_decide_false; [done|]. intros E. apply Hne. by apply pin_bits.
    + unfold pin_is_input. rewrite !GPIO_DIR_group. destruct (pin_group q f Hq) as [Hgq _].
      by rewrite Hreg, decide_False by done.
Qed.

Lemma address_apart r g : 0 <= r < 20 -> 0 <= g < 5 ->
  SYSCFG_PINMUX r <> group_base g /\ SYSCFG_PINMUX r <> SYSCFG_KICK 0 /\ SYSCFG_PINMUX r <> SYSCFG_KICK 1 /\
  group_base g <> SYSCFG_KICK 0 /\ group_base g <> SYSCFG_KICK 1.
Proof. unfold SYSCFG_PINMUX, SYSCFG_KICK, SYSCFG0_BASE, group_base, GPIO_BASE. lia. Qed.

(** The two initialisations have this shape: select the pin's function, act on
    the latches, set its direction, lock. *)
Lemma finish_pin p e (d d1 d2 : D) (out : bool) : known_pin p e ->
  pin_function e d1 = muxreg_mode e ->
  (forall q f, known_pin q f -> q <> p -> pin_function f d1 = pin_function f d) ->
  (forall g, 0 <= g < 5 -> chip_reg (group_base g) d1 = chip_reg (group_base g) d) ->
  (forall a, chip_reg a d2 = if decide (a = GPIO_DIR p)
     then u32 (if out then Z.land (chip_reg (GPIO_DIR p) d1) (Z.lnot (GPIO_MASK p))
               else Z.lor (chip_reg (GPIO_DIR p) d1) (GPIO_MASK p)) else chip_reg a d1) ->
  (forall q f, known_pin q f -> q <> p -> chip_out q d2 = chip_out q d) ->
  let d' := SYSCFG_LOCK d2 in
  pin_function e d' = muxreg_mode e /\ pin_is_input p d' = negb out /\ only_pin p d d' /\ chip_locked d' /\
  chip_out p d' = chip_out p d2.
Proof.
  intros Hk Hsel Hfun Hdir Hd2 Hout d'. destruct (pin_group p e Hk) as [Hg _].
  assert (forall a, chip_reg a d' = if decide (a = SYSCFG_KICK 1) then 0 else if decide (a = SYSCFG_KICK 0) then 0
    else chip_reg a d2) as Hreg by (intros a; unfold d', SYSCFG_LOCK; apply reg_kick).
  assert (forall q f, known_pin q f -> pin_function f d' = pin_function f d1) as Hf.
  { intros q f Hq. destruct (known_entry _ _ Hq) as (Hr & _). unfold pin_function. rewrite Hreg, Hd2, GPIO_DIR_group.
    destruct (address_apart (muxreg f) (Z.shiftr p 5) Hr Hg) as (? & ? & ? & _). by rewrite !decide_False by done. }
  destruct (dir_update p e d d' out Hk) as [Hin Hoth].
  { intros g Hgr. rewrite Hreg, Hd2. destruct (address_apart 0 g ltac:(lia) Hgr) as (_ & _ & _ & ? & ?).
    rewrite !GPIO_DIR_group, Hdir by done. rewrite decide_False, decide_False by done.
    destruct (decide (g = Z.shiftr p 5)) as [->|Hne]; [by rewrite decide_True by done|].
    rewrite decide_False by (unfold group_base; lia). by apply Hdir. }
  split_and!.
  - by rewrite (Hf p e Hk).
  - done.
  - intros q f Hq Hne. split_and!; [by rewrite (Hf q f Hq), (Hfun q f Hq Hne)|by eapply Hoth|].
    unfold d', SYSCFG_LOCK. rewrite out_kick. by eapply Hout.
  - split; rewrite Hreg; by vm_compute.
  - unfold d', SYSCFG_LOCK. by rewrite out_kick.
Qed.

(** What an unlock in front does not change. *)
Lemma unlock_same (d : D) :
  (forall q f, known_pin q f -> pin_function f (SYSCFG_UNLOCK d) = pin_function f d) /\
  (forall g, 0 <= g < 5 -> chip_reg (group_base g) (SYSCFG_UNLOCK d) = chip_reg (group_base g) d) /\
  (forall q, chip_out q (SYSCFG_UNLOCK d) = chip_out q d).
Proof.
  split_and!.
  - intros q f Hq. destruct (known_entry _ _ Hq) as (Hr & _). unfold pin_function, SYSCFG_UNLOCK. rewrite reg_kick.
    destruct (address_apart (muxreg f) 0 Hr ltac:(lia)) as (_ & ? & ? & _). by rewrite !decide_False by done.
  - intros g Hg. unfold SYSCFG_UNLOCK. rewrite reg_kick.
    destruct (address_apart 0 g ltac:(lia) Hg) as (_ & _ & _ & ? & ?). by rewrite !decide_False by done.
  - intros q. unfold SYSCFG_UNLOCK. by rewrite out_kick.
Qed.

Lemma gpio_init_outpin_spec p e (d : D) : known_pin p e ->
  exists d', gpio_init_outpin p d = Done (tt, d') /\ pin_function e d' = muxreg_mode e /\
    pin_is_input p d' = false /\ chip_out p d' = false /\ only_pin p d d' /\ chip_locked d'.
Proof.
  intros Hk. destruct (pin_group p e Hk) as [Hg Hb]. destruct (unlock_same d) as (Uf & Ug & Uo).
  destruct (init_pin_spec p e (SYSCFG_UNLOCK d) Hk) as (d1 & Hrun & Hsel & Hfun & Hdir & Hout & _).
  unfold gpio_init_outpin. rewrite (bind_done _ _ d tt (SYSCFG_UNLOCK d)) by done.
  rewrite (bind_done _ _ _ _ _ Hrun). eexists. split; [reflexivity|].
  set (d2 := write32 (GPIO_CLR p) (GPIO_MASK p) d1).
  assert (GPIO_CLR p = group_base (Z.shiftr p 5) + 12) as Hclr by (unfold GPIO_CLR, GPIO_BANK, group_base; lia).
  assert (forall a, chip_reg a d2 = chip_reg a d1) as Hd2.
  { intros a. unfold d2. rewrite Hclr, data_write by auto. apply chip_data_reg; auto. }
  assert (forall q f, known_pin q f -> chip_out q d2 = if bool_decide (q = p) then false else chip_out q d) as Ho2.
  { intros q f Hq. unfold d2. rewrite Hclr, data_write, chip_clear, (selects_pin p q e f) by auto. by rewrite Hout, Uo. }
  destruct (group_address _ Hg) as (Hc & Hm & Ha).
  destruct (finish_pin p e d d1 (and32 (GPIO_DIR p) (Z.lnot (GPIO_MASK p)) d2) true Hk Hsel)
    as (R1 & R2 & R3 & R4 & R5).
  - intros q f Hq Hne. by rewrite (Hfun q f Hq Hne), (Uf q f Hq).
  - intros g Hgr. by rewrite Hdir, Ug.
  - intros a. rewrite GPIO_DIR_group, reg_and32 by auto. by rewrite !Hd2.
  - intros q f Hq Hne. rewrite GPIO_DIR_group, out_and32 by auto. rewrite (Ho2 q f Hq). by rewrite bool_decide_false.
  - split_and!; try done. etrans; [exact R5|]. rewrite GPIO_DIR_group, out_and32 by auto.
    rewrite (Ho2 p e Hk). by rewrite bool_decide_true.
Qed.

Lemma gpio_init_inpin_spec p e (d : D) : known_pin p e ->
  exists d', gpio_init_inpin p d = Done (tt, d') /\ pin_function e d' = muxreg_mode e /\
    pin_is_input p d' = true /\ only_pin p d d' /\ chip_locked d'.
Proof.
  intros Hk. destruct (pin_group p e Hk) as [Hg Hb]. destruct (unlock_same d) as (Uf & Ug & Uo).
  destruct (init_pin_spec p e (SYSCFG_UNLOCK d) Hk) as (d1 & Hrun & Hsel & Hfun & Hdir & Hout & _).
  unfold gpio_init_inpin. rewrite (bind_done _ _ d tt (SYSCFG_UNLOCK d)) by done.
  rewrite (bind_done _ _ _ _ _ Hrun). eexists. split; [reflexivity|].
  destruct (group_address _ Hg) as (Hc & Hm & Ha).
  destruct (finish_pin p e d d1 (or32 (GPIO_DIR p) (GPIO_MASK p) d1) false Hk Hsel)
    as (R1 & R2 & R3 & R4 & R5).
  - intros q f Hq Hne. by rewrite (Hfun q f Hq Hne), (Uf q f Hq).
  - intros g Hgr. by rewrite Hdir, Ug.
  - intros a. by rewrite GPIO_DIR_group, reg_or32 by auto.
  - intros q f Hq Hne. rewrite GPIO_DIR_group, out_or32 by auto. by rewrite Hout, Uo.
  - by split_and!.
Qed.

(** [gpio_set] on a known pin makes it a GPIO output driven to the value:
    its multiplexing field selects the GPIO function, its direction is output and
    its latch is high exactly for a nonzero value; function, direction and latch
    of every other pin stay as they were, and the configuration is locked. *)
Lemma gpio_set_spec p e value (d : D) : known_pin p e ->
  exists d', gpio_set p value d = Done (tt, d') /\ pin_function e d' = muxreg_mode e /\
    pin_is_input p d' = false /\ chip_out p d' = negb (value =? 0) /\ only_pin p d d' /\ chip_locked d'.
Proof.
  intros Hk. destruct (pin_group p e Hk) as [Hg _].
  destruct (gpio_init_outpin_spec p e d Hk) as (d1 & Hrun & Hf & Hin & Hout & Honly & Hlock).
  unfold gpio_set. rewrite (bind_done _ _ _ _ _ Hrun). eexists. split; [reflexivity|].
  set (o := 8 + (if value =? 0 then 1 else 0) * 4).
  assert (GPIO_BANK p + 8 + (if value =? 0 then 1 else 0) * 4 = group_base (Z.shiftr p 5) + o) as ->
    by (unfold o, GPIO_BANK, group_base; lia).
  assert (o = 8 \/ o = 12) as Ho by (unfold o; destruct (value =? 0); lia).
  set (d2 := write32 _ _ d1).
  assert (forall a, chip_reg a d2 = chip_reg a d1) as Hr
    by (intros a; unfold d2; rewrite data_write by auto; by apply chip_data_reg).
  assert (forall q f, known_pin q f -> chip_out q d2 = if bool_decide (q = p) then negb (value =? 0) else chip_out q d1) as Ho2.
  { intros q f Hq. unfold d2, o. rewrite data_write by auto. destruct (value =? 0).
    - change (8 + 1 * 4) with 12. rewrite chip_clear, (selects_pin p q e f) by auto. done.
    - change (8 + 0 * 4) with 8. rewrite chip_set, (selects_pin p q e f) by auto. done. }
  split_and!.
  - unfold pin_function. by rewrite Hr.
  - unfold pin_is_input. by rewrite Hr.
  - rewrite (Ho2 p e Hk). by rewrite bool_decide_true.
  - eapply only_pin_trans; [exact Honly|]. intros q f Hq Hne.
    unfold pin_function, pin_is_input. rewrite !Hr, (Ho2 q f Hq). by rewrite bool_decide_false.
  - unfold chip_locked. by rewrite !Hr.
Qed.

(** [gpio_get] on a known pin makes it a GPIO input and returns 1 exactly
    when the pin is high; the other pins stay as they were. *)
Lemma gpio_get_spec p e (d : D) : known_pin p e ->
  exists d1 d2, gpio_get p d = Done (if chip_in p d1 then 1 else 0, d2) /\
    gpio_init_inpin p d = Done (tt, d1) /\ pin_function e d1 = muxreg_mode e /\
    pin_is_input p d1 = true /\ only_pin p d d1 /\ chip_locked d1 /\ d2 = d1.
Proof.
  intros Hk. destruct (pin_group p e Hk) as [Hg Hb].
  destruct (gpio_init_inpin_spec p e d Hk) as (d1 & Hrun & Hf & Hin & Honly & Hlock).
  exists d1, d1. split; [|by split_and!].
  unfold gpio_get. rewrite (bind_done _ _ _ _ _ Hrun).
  destruct (chip_input (Z.shiftr p 5) d1 Hg) as (v & Hv & Hv32 & Hbits).
  assert (read32 (GPIO_BANK p + 0x10) d1 = (v, d1)) as Hread.
  { unfold read32. assert (u32 (GPIO_BANK p + 0x10) = group_base (Z.shiftr p 5) + 16) as ->
      by (rewrite u32_id; unfold is_u32, GPIO_BANK, group_base, GPIO_BASE in *; lia).
    rewrite Hv. by rewrite u32_id. }
  unfold lift, id. st_unfold. rewrite Hread. rewrite <- (Hbits p eq_refl).
  assert (negb (Z.land v (GPIO_MASK p) =? 0) = Z.testbit v (Z.land p 0x1F)) as ->; [|done].
  unfold GPIO_MASK. rewrite Z.shiftl_1_l. destruct (Z.testbit v (Z.land p 0x1F)) eqn:Eb.
  - apply negb_true_iff, Z.eqb_neq. intros E0.
    assert (Z.testbit (Z.land v (2 ^ Z.land p 0x1F)) (Z.land p 0x1F) = true) as Ht
      by (rewrite Z.land_spec, Eb, Z.pow2_bits_true by lia; done).
    by rewrite E0, Z.bits_0 in Ht.
  - apply negb_false_iff, Z.eqb_eq, Z.bits_inj'. intros m Hm.
    rewrite Z.land_spec, Z.bits_0, Z.pow2_bits_eqb by lia.
    destruct (Z.eqb_spec (Z.land p 0x1F) m) as [<-|]; [by rewrite Eb|by rewrite andb_false_r].
Qed.

End Chip.

(** ** Pins without an entry *)

Lemma unknown_entries : forallb (fun e => negb (muxreg_mask e =? 0) || ((muxreg e =? 0) && (muxreg_mode e =? 0))) gpio_pins = true.
Proof. vm_compute. reflexivity. Qed.

Lemma emit_reg {D} `{GpioChip D} text (d : D) a : chip_reg a (emit text d) = chip_reg a d.
Proof.
  unfold emit. revert d. induction (crlf text) as [|b l IH]; intros d; [done|].
  simpl. rewrite IH. unfold write8. by rewrite chip_uart.
Qed.

(** A pin without an entry is reported but not refused: its zero mask
    clears the multiplexing register 0, and with it the function of the five
    pins GP0_11 to GP0_15; behind the end of the table the behaviour is
    undefined, since the entry is read before the check. *)
Theorem gpio_unknown_pin {D} `{GpioChip D} p e (d : D) :
  (0 <= p -> gpio_pins !! Z.to_nat p = Some e -> muxreg_mask e = 0 ->
     exists d', gpio_init_pin p d = Done (tt, d') /\ chip_reg (SYSCFG_PINMUX 0) d' = 0 /\
       (forall q f, known_pin q f -> 11 <= q <= 15 -> pin_function f d' <> muxreg_mode f)) /\
  (pininfo_size <= p -> gpio_init_pin p d = Undefined).
Proof.
  split.
  - intros Hp He Hm. pose proof (lookup_lt_Some _ _ _ He) as Hlt.
    pose proof unknown_entries as Hu. rewrite forallb_forall in Hu.
    specialize (Hu e ltac:(apply list_elem_of_In; by eapply list_elem_of_lookup_2)).
    rewrite Hm, Z.eqb_refl in Hu. cbn [negb orb] in Hu. rewrite andb_true_iff, !Z.eqb_eq in Hu. destruct Hu as [Hr0 Hmode].
    unfold gpio_init_pin. rewrite (bind_done _ _ d tt (SYSCFG_UNLOCK d)) by done.
    assert (pininfo !! Z.to_nat p = Some e) as -> by (unfold pininfo; by rewrite lookup_app_l).
    rewrite Hm, Hr0, Hmode, orb_true_r.
    assert (exists n text, printf gpio_message [VInt p] (SYSCFG_UNLOCK d) = Done (n, emit text (SYSCFG_UNLOCK d)))
      as (n & text & Hmsg).
    { destruct (number_text_exists 16 (hex_char 97) p ltac:(lia)) as [t Ht].
      change (length gpio_pins) with 144%nat in Hlt.
      pose proof (number_text_length 16 (hex_char 97) p t 8 ltac:(lia) ltac:(lia) Ht).
      set (s1 := cstr "gpio: can not initialize pin "). set (s2 := cstr " - need init information in pin_info" ++ [10]).
      do 2 eexists. apply (vprintf_spec 0 _ _ (s1 ++ t ++ s2 ++ []) []).
      - change gpio_message with (s1 ++ 37 :: 120 :: s2 ++ []). apply formats_literal; [literal|].
        apply (formats_number 120 (VInt p) 16 (hex_char 97) p t); [|done|apply formats_literal; [literal|constructor]].
        cbn [number_conversion Z.eqb Pos.eqb]. rewrite u32_id by (unfold is_u32; lia). done.
      - rewrite !length_app. assert (length s1 = 29%nat) as -> by done. assert (length s2 = 37%nat) as -> by done.
        simpl length. lia. }
    set (d1 := emit text (SYSCFG_UNLOCK d)) in *.
    assert (chip_unlocked d1) as Hunl
      by (pose proof (unlock_unlocks d) as [U0 U1]; split; unfold d1; by rewrite emit_reg).
    erewrite (bind_done _ _ _ tt d1) by (by rewrite (bind_done _ _ _ _ _ Hmsg)).
    eexists. split; [reflexivity|]. destruct (mux_address 0 ltac:(lia)) as (Hc & Hm0 & Ha).
    set (d2 := and32 (SYSCFG_PINMUX 0) 0 d1). set (d3 := or32 (SYSCFG_PINMUX 0) 0 d2).
    assert (chip_reg (SYSCFG_PINMUX 0) d2 = 0) as H2
      by (unfold d2; rewrite reg_and32 by auto; by rewrite decide_True, Z.land_0_r by done).
    assert (chip_unlocked d2) as Hunl2
      by (destruct Hunl; split; unfold d2; rewrite reg_and32 by (try done; right; by split); by rewrite decide_False by done).
    assert (chip_reg (SYSCFG_PINMUX 0) (SYSCFG_LOCK d3) = 0) as H3.
    { unfold SYSCFG_LOCK. rewrite reg_kick, !decide_False by done. unfold d3.
      rewrite reg_or32 by auto. by rewrite decide_True, H2 by done. }
    split; [exact H3|]. intros q f Hq Hq15. destruct Hq as (Hq0 & Hf & Hfm).
    assert (q = 11 \/ q = 12 \/ q = 13 \/ q = 14 \/ q = 15) as [->|[->|[->|[->| ->]]]] by lia;
      injection Hf as <-; unfold pin_function; cbn [muxreg]; rewrite H3; by vm_compute.
  - intros Hp. unfold gpio_init_pin. rewrite (bind_done _ _ d tt (SYSCFG_UNLOCK d)) by done.
    rewrite lookup_ge_None_2; [done|]. change (length pininfo) with 154%nat. change pininfo_size with 154 in Hp. lia.
Qed.

(** The multiplexing table is consistent: every known pin owns exactly one
    four-bit field of one of the 20 registers, its mode lies within the field,
    and no two GPIO pins own the same field. *)
Theorem pin_fields_disjoint p q e f :
  known_pin p e -> known_pin q f ->
  (exists k, 0 <= k < 8 /\ mux_field e = Z.shiftl 0xF (4 * k)) /\ 0 <= muxreg e < 20 /\
  Z.land (muxreg_mode e) (mux_field e) = muxreg_mode e /\
  (p <> q -> muxreg e = muxreg f -> Z.land (mux_field e) (mux_field f) = 0).
Proof.
  intros Hp Hq. destruct (known_entry _ _ Hp) as (Hr & Hm32 & Hmn & Hmode & Hnib).
  split_and!; [done|lia|lia|done|].
  intros Hne Hreg. destruct (known_apart p q e f Hp Hq Hne Hreg) as [Ha _].
  rewrite <- Ha, Z.land_assoc, (Z.land_comm (mux_field e)), Hmn. apply Z.land_0_l.
Qed.

(** ** A chip *)

(** Registers, output latches and input levels, the latter two as one word per
    register group. *)
Record chip := mk_chip {
  c_regs : gmap Z Z;
  c_out : gmap Z Z;
  c_in : gmap Z Z;
}.

Definition word_of (m : gmap Z Z) (a : Z) : Z := u32 (default 0 (m !! a)).

Definition chip_has_keys (d : chip) : bool :=
  (word_of (c_regs d) (SYSCFG_KICK 0) =? KICK0_UNLOCK) && (word_of (c_regs d) (SYSCFG_KICK 1) =? KICK1_UNLOCK).

Definition chip_write_word (a v : Z) (d : chip) : chip :=
  let g := (a - group_base 0) / 0x28 in
  let o := (a - group_base 0) mod 0x28 in
  if config_register a
  then if is_mux a && negb (chip_has_keys d) then d else mk_chip (<[a := v]> (c_regs d)) (c_out d) (c_in d)
  else if o =? 8 then mk_chip (c_regs d) (<[g := Z.lor (word_of (c_out d) g) v]> (c_out d)) (c_in d)
  else if o =? 12 then mk_chip (c_regs d) (<[g := Z.ldiff (word_of (c_out d) g) v]> (c_out d)) (c_in d)
  else d.

#[export] Instance chip_bus : Bus chip := {|
  bus_read n a d :=
    (if config_register a then word_of (c_regs d) a
     else word_of (c_in d) ((a - group_base 0) / 0x28), d);
  bus_write n a v d := if (n =? 4)%nat then chip_write_word a v d else d;
|}.

Lemma group_offset g o : 0 <= g < 5 -> 0 < o < 0x28 ->
  config_register (group_base g + o) = false /\ (group_base g + o - group_base 0) / 0x28 = g /\
  (group_base g + o - group_base 0) mod 0x28 = o.
Proof.
  intros Hg Ho. assert (group_base g + o - group_base 0 = o + g * 0x28) as E by (unfold group_base; lia).
  rewrite E, Z.div_add, Z.mod_add, Z.div_small, Z.mod_small by lia. split_and!; [|lia|done].
  unfold config_register. rewrite !orb_false_iff, !andb_false_iff, Z.eqb_neq, !Z.leb_gt, !Z.ltb_ge.
  replace (group_base g + o - (GPIO_BASE + 0x10)) with (o + g * 0x28) by (unfold group_base; lia).
  rewrite Z.mod_add, Z.mod_small by lia. unfold group_base, GPIO_BASE, SYSCFG0_BASE, SYSCFG1_BASE. lia.
Qed.

Lemma bit_range p : 0 <= Z.land p 0x1F < 32.
Proof. change 0x1F with (Z.ones 5). rewrite Z.land_ones by lia. apply Z.mod_pos_bound. lia. Qed.

#[export, refine] Instance chip_gpio : GpioChip chip := {|
  chip_reg a d := word_of (c_regs d) a;
  chip_out p d := Z.testbit (word_of (c_out d) (Z.shiftr p 5)) (Z.land p 0x1F);
  chip_in p d := Z.testbit (word_of (c_in d) (Z.shiftr p 5)) (Z.land p 0x1F);
|}.
Proof.
  - intros a d. apply u32_range.
  - intros a d Hc. simpl. by rewrite Hc.
  - intros a v d a' Hc Hv Hm. simpl. unfold chip_write_word. rewrite Hc.
    assert (is_mux a && negb (chip_has_keys d) = false) as ->.
    { destruct Hm as [->|[H0 H1]]; [done|]. unfold chip_has_keys. by rewrite H0, H1, andb_false_r. }
    simpl. unfold word_of. case_decide as E; [subst; by rewrite lookup_insert_eq, u32_id|by rewrite lookup_insert_ne].
  - intros a v d p Hc. simpl. unfold chip_write_word. rewrite Hc. by destruct (is_mux a && _).
  - intros g v d p Hg. simpl. unfold chip_write_word. destruct (group_offset g 8 Hg ltac:(lia)) as (-> & -> & ->).
    simpl. unfold word_of at 1. case_bool_decide as E; cbn [andb].
    + subst g. rewrite lookup_insert_eq. simpl. rewrite testbit_u32, Z.lor_spec by apply bit_range.
      destruct (Z.testbit v _); [apply orb_true_r|apply orb_false_r].
    + by rewrite lookup_insert_ne by done.
  - intros g v d p Hg. simpl. unfold chip_write_word. destruct (group_offset g 12 Hg ltac:(lia)) as (-> & -> & ->).
    simpl. unfold word_of at 1. case_bool_decide as E; cbn [andb].
    + subst g. rewrite lookup_insert_eq. simpl. rewrite testbit_u32, Z.ldiff_spec by apply bit_range.
      destruct (Z.testbit v _); [apply andb_false_r|apply andb_true_r].
    + by rewrite lookup_insert_ne by done.
  - intros g o v d a Hg Ho. simpl. unfold chip_write_word.
    destruct (group_offset g o Hg ltac:(lia)) as (-> & -> & ->). by destruct Ho as [->| ->].
  - done.
  - intros g d Hg. simpl. destruct (group_offset g 16 Hg ltac:(lia)) as (-> & -> & _).
    eexists. split; [reflexivity|]. split; [apply u32_range|]. by intros p <-.
Defined.

(** ** Witnesses *)

Definition example_chip : chip := mk_chip ∅ ∅ {[ 3 := Z.shiftl 1 6 ]}.

Lemma example_pin b o e : gpio_pins !! Z.to_nat (GPIO_PIN b o) = Some e -> 0 <= b -> 0 <= o -> muxreg_mask e <> 0 ->
  known_pin (GPIO_PIN b o) e.
Proof. intros. split; [unfold GPIO_PIN; lia|done]. Qed.

Lemma pin_fields_disjoint_witness :
  Z.land (mux_field (pi 13 0xFFFFF0FF 0x00000800)) (mux_field (pi 13 0xFFFFFF0F 0x00000080)) = 0.
Proof.
  destruct (pin_fields_disjoint (GPIO_PIN 6 13) (GPIO_PIN 6 14) (pi 13 0xFFFFF0FF 0x00000800)
    (pi 13 0xFFFFFF0F 0x00000080)) as (_ & _ & _ & H); [by apply example_pin|by apply example_pin|].
  by apply H.
Defined.

Lemma gpio_unknown_pin_witness :
  exists d, gpio_init_pin (GPIO_PIN 1 1) example_chip = Done (tt, d) /\ chip_reg (SYSCFG_PINMUX 0) d = 0.
Proof.
  destruct (gpio_unknown_pin (GPIO_PIN 1 1) no_pin example_chip) as [H _].
  destruct H as (d & Hs & H0 & _); [unfold GPIO_PIN; lia|reflexivity|reflexivity|]. by exists d.
Defined.
