(* ===== verification/Devices.v ===== *)
(** * LEDs, buttons and motors: kernel/drivers/led.c, button.c, motor.c

    The drivers that only use pins. Their theorems are about the pins of any
    [GpioChip]. *)

From S2P Require Import Prelude StateMonad Memory Bus Clock Stdio Gpio.

(** ** Definitions *)

Definition LED_LEFT : Z := 0x01.
Definition LED_RIGHT : Z := 0x02.
Definition LED_BOTH : Z := Z.lor LED_LEFT LED_RIGHT.
Definition LED_BLACK : Z := 0x00.
Definition LED_RED : Z := 0x01.
Definition LED_GREEN : Z := 0x02.
Definition LED_ORANGE : Z := Z.lor LED_RED LED_GREEN.

Definition MOTOR_BACKWARD : Z := 0x00.
Definition MOTOR_OFF : Z := 0x01.
Definition MOTOR_FORWARD : Z := 0x02.

Record led_info := mk_led { led_pin1 : Z; led_pin2 : Z }.

Definition led_left_info : led_info := mk_led (GPIO_PIN 6 13) (GPIO_PIN 6 7).
Definition led_right_info : led_info := mk_led (GPIO_PIN 6 12) (GPIO_PIN 6 14).

Definition buttons : list Z :=
  [GPIO_PIN 6 6; GPIO_PIN 7 12; GPIO_PIN 7 15; GPIO_PIN 7 14; GPIO_PIN 1 13; GPIO_PIN 6 10].

Record motor_port_info := mk_motor {
  m_pin1 : Z;
  m_pin2 : Z;
  m_pin5w : Z;
  m_pin5r : Z;
  m_pin6 : Z;
  m_adc1 : Z;
  m_adc2 : Z;
}.

Definition motor_ports : list motor_port_info :=
  [mk_motor (GPIO_PIN 3 15) (GPIO_PIN 3 6) (GPIO_PIN 5 4) (GPIO_PIN 5 11) (GPIO_PIN 0 4) 0x6 0x5;
   mk_motor (GPIO_PIN 0 3) (GPIO_PIN 2 1) (GPIO_PIN 2 5) (GPIO_PIN 5 8) (GPIO_PIN 2 9) 0x8 0x7;
   mk_motor (GPIO_PIN 6 8) (GPIO_PIN 5 9) (GPIO_PIN 3 8) (GPIO_PIN 5 13) (GPIO_PIN 3 14) 0xA 0x9;
   mk_motor (GPIO_PIN 5 10) (GPIO_PIN 5 3) (GPIO_PIN 5 15) (GPIO_PIN 6 9) (GPIO_PIN 2 8) 0xC 0xB].

Section Devices.
Context {D : Type} `{Bus D}.

Definition led_set (led color : Z) : ST D unit :=
  (if negb (Z.land led LED_LEFT =? 0)
   then
     gpio_set (led_pin1 led_left_info) (Z.land color 1) ;;
     gpio_set (led_pin2 led_left_info) (Z.shiftr (Z.land color 2) 1)
   else mret ()) ;;
  (if negb (Z.land led LED_RIGHT =? 0)
   then
     gpio_set (led_pin1 led_right_info) (Z.land color 1) ;;
     gpio_set (led_pin2 led_right_info) (Z.shiftr (Z.land color 2) 1)
   else mret ()).

Definition led_init : ST D unit :=
  gpio_init_outpin (led_pin1 led_left_info) ;;
  gpio_init_outpin (led_pin2 led_left_info) ;;
  gpio_init_outpin (led_pin1 led_right_info) ;;
  gpio_init_outpin (led_pin2 led_right_info).

(** An identifier outside the table is undefined. *)
Definition button_get_state (button : Z) : ST D Z :=
  match buttons !! Z.to_nat button with
  | Some pin => gpio_get pin
  | None => undefined
  end.

Definition button_init : ST D unit :=
  for_each buttons gpio_init_inpin ;;
  modify (and32 (SYSCFG1_BASE + 0x10) 0xFDFFFFFF).

Definition motor_set_state (port state : Z) : ST D unit :=
  match motor_ports !! Z.to_nat port with
  | None => undefined
  | Some m =>
      if state =? MOTOR_FORWARD then gpio_set (m_pin1 m) 1 ;; gpio_set (m_pin2 m) 0
      else if state =? MOTOR_BACKWARD then gpio_set (m_pin1 m) 0 ;; gpio_set (m_pin2 m) 1
      else gpio_set (m_pin1 m) 0 ;; gpio_set (m_pin2 m) 0
  end.

Definition motor_init : ST D unit :=
  for_each motor_ports (fun m =>
    gpio_init_outpin (m_pin1 m) ;;
    gpio_init_outpin (m_pin2 m) ;;
    gpio_init_outpin (m_pin5w m) ;;
    gpio_init_outpin (m_pin5r m) ;;
    gpio_init_outpin (m_pin6 m)) ;;
  modify (and32 (SYSCFG1_BASE + 0x0C) (Z.lnot 0xFFFFFFFF)).

End Devices.

(** ** Pins the drivers use *)

Definition pin_known (p : Z) : bool :=
  (0 <=? p) && match gpio_pins !! Z.to_nat p with Some e => negb (muxreg_mask e =? 0) | None => false end.

Lemma pin_known_spec p : pin_known p = true -> exists e, known_pin p e.
Proof.
  unfold pin_known. rewrite andb_true_iff, Z.leb_le. intros [Hp Hm].
  destruct (gpio_pins !! Z.to_nat p) as [e|] eqn:E; [|done]. exists e.
  rewrite negb_true_iff, Z.eqb_neq in Hm. by split_and!.
Qed.

Section Pins.
Context {D : Type} `{GpioChip D}.

(** From [d] to [d'] the pins of [l] are set to the levels given and nothing
    else happens to a known pin. *)
Definition pins_set (l : list (Z * bool)) (d d' : D) : Prop :=
  (forall p b, (p, b) ∈ l -> chip_out p d' = b /\ pin_is_input p d' = false) /\
  (forall q f, known_pin q f -> ~ q ∈ l.*1 ->
     pin_function f d' = pin_function f d /\ pin_is_input q d' = pin_is_input q d /\ chip_out q d' = chip_out q d).

Lemma pins_set_one p v (d : D) : pin_known p = true ->
  exists d', gpio_set p v d = Done (tt, d') /\ pins_set [(p, negb (v =? 0))] d d'.
Proof.
  intros [e Hk]%pin_known_spec.
  destruct (gpio_set_spec p e v d Hk) as (d' & Hrun & _ & Hin & Hout & Honly & _).
  exists d'. split; [done|]. split.
  - intros p' b [= -> ->]%list_elem_of_singleton. done.
  - intros q f Hq Hne. apply Honly; [done|]. intros ->. apply Hne. left.
Qed.

Lemma pins_set_cons p b l (d d1 d2 : D) : pin_known p = true -> ~ p ∈ l.*1 ->
  pins_set [(p, b)] d d1 -> pins_set l d1 d2 -> pins_set ((p, b) :: l) d d2.
Proof.
  intros [e Hk]%pin_known_spec Hnot [Hset1 Hoth1] [Hset2 Hoth2]. split.
  - intros p' b' [[= -> ->]|Hin]%elem_of_cons; [|by apply Hset2].
    destruct (Hoth2 p e Hk Hnot) as (_ & -> & ->). apply Hset1. left.
  - intros q f Hq Hne. simpl in Hne. rewrite not_elem_of_cons in Hne. destruct Hne as [Hqp Hql].
    destruct (Hoth2 q f Hq Hql) as (-> & -> & ->). apply (Hoth1 q f Hq). simpl.
    by intros ->%list_elem_of_singleton.
Qed.

Lemma pins_set_nil (d : D) : pins_set [] d d.
Proof. split; [by intros p b ?%elem_of_nil|done]. Qed.

(** Two pins one after the other. *)
Lemma pins_set_two p v q w (d : D) : pin_known p = true -> pin_known q = true -> p <> q ->
  exists d', (gpio_set p v ;; gpio_set q w) d = Done (tt, d') /\
    pins_set [(p, negb (v =? 0)); (q, negb (w =? 0))] d d'.
Proof.
  intros Hp Hq Hne. destruct (pins_set_one p v d Hp) as (d1 & H1 & S1).
  destruct (pins_set_one q w d1 Hq) as (d2 & H2 & S2). exists d2. split.
  - by rewrite (bind_done _ _ _ _ _ H1).
  - eapply pins_set_cons; [done| |done|done]. simpl. by intros ?%list_elem_of_singleton.
Qed.

Lemma pins_set_app l1 l2 (d d1 d2 : D) :
  Forall (fun p => pin_known p = true /\ ~ p ∈ l2.*1) l1.*1 ->
  pins_set l1 d d1 -> pins_set l2 d1 d2 -> pins_set (l1 ++ l2) d d2.
Proof.
  intros Hl [Hset1 Hoth1] [Hset2 Hoth2]. split.
  - intros p b [Hin|Hin]%elem_of_app; [|by apply Hset2]. rewrite Forall_forall in Hl.
    destruct (Hl p) as [[e Hk]%pin_known_spec Hnot]; [apply list_elem_of_fmap; by exists (p, b)|].
    destruct (Hoth2 p e Hk Hnot) as (_ & -> & ->). by apply Hset1.
  - intros q f Hq Hne. rewrite fmap_app, not_elem_of_app in Hne. destruct Hne as [Hn1 Hn2].
    destruct (Hoth2 q f Hq Hn2) as (-> & -> & ->). by apply (Hoth1 q f Hq).
Qed.

(** ** LEDs *)

(** The pins of an LED and the levels of a color: red, then green. *)
Definition led_levels (info : led_info) (color : Z) : list (Z * bool) :=
  [(led_pin1 info, Z.testbit color 0); (led_pin2 info, Z.testbit color 1)].

Lemma color_bits color : 0 <= color < 4 ->
  negb (Z.land color 1 =? 0) = Z.testbit color 0 /\
  negb (Z.shiftr (Z.land color 2) 1 =? 0) = Z.testbit color 1.
Proof.
  intros Hc. assert (color = 0 \/ color = 1 \/ color = 2 \/ color = 3) as [->|[->|[->| ->]]] by lia; done.
Qed.

(** [led_set] shows the color on exactly the LEDs asked for: the red pin is
    high when the color contains red, the green pin when it contains green; the
    other LED and every other known pin keep function, direction and level. *)
Theorem led_set_correct led color (d : D) :
  1 <= led <= 3 -> 0 <= color < 4 ->
  exists d', led_set led color d = Done (tt, d') /\
    pins_set ((if Z.testbit led 0 then led_levels led_left_info color else []) ++
              (if Z.testbit led 1 then led_levels led_right_info color else [])) d d'.
Proof.
  intros Hled Hc. destruct (color_bits color Hc) as [E0 E1].
  assert (forall info (d : D), pin_known (led_pin1 info) = true -> pin_known (led_pin2 info) = true ->
    led_pin1 info <> led_pin2 info -> exists d',
    (gpio_set (led_pin1 info) (Z.land color 1) ;; gpio_set (led_pin2 info) (Z.shiftr (Z.land color 2) 1)) d =
      Done (tt, d') /\ pins_set (led_levels info color) d d') as Hone.
  { intros info d0 H1 H2 Hne. unfold led_levels. rewrite <- E0, <- E1. by apply pins_set_two. }
  destruct (Hone led_left_info d) as (dl & Rl & Sl); [done..|].
  destruct (Hone led_right_info d) as (dr & Rr & Sr); [done..|].
  destruct (Hone led_right_info dl) as (db & Rb & Sb); [done..|].
  unfold led_set. assert (led = 1 \/ led = 2 \/ led = 3) as [->|[->| ->]] by lia.
  - exists dl. split; [by rewrite (bind_done _ _ _ _ _ Rl)|exact Sl].
  - exists dr. split; [|exact Sr]. by rewrite (bind_done _ _ d tt d) by done.
  - exists db. split; [by rewrite (bind_done _ _ _ _ _ Rl)|].
    eapply pins_set_app; [|exact Sl|exact Sb]. by apply (bool_decide_unpack _); vm_compute.
Qed.

(** ** Buttons *)

(** [button_get_state] of a button of the enumeration returns BUTTON_DOWN
    exactly when the button's pin is high at the moment it is sampled, with the
    pin configured as input, and changes no other pin; an identifier beyond the
    table is undefined. *)
Theorem button_get_state_correct button (d : D) :
  (forall pin, buttons !! Z.to_nat button = Some pin ->
     exists d', button_get_state button d = Done (if chip_in pin d' then 1 else 0, d') /\
       pin_is_input pin d' = true /\ only_pin pin d d') /\
  (6 <= button -> button_get_state button d = Undefined).
Proof.
  split.
  - intros pin Hpin. unfold button_get_state. rewrite Hpin.
    assert (pin_known pin = true) as [e Hk]%pin_known_spec.
    { assert (Forall (fun p => pin_known p = true) buttons) as Hall by literal.
      by apply (Forall_lookup_1 _ _ _ _ Hall Hpin). }
    destruct (gpio_get_spec pin e d Hk) as (d1 & d2 & Hrun & _ & _ & Hin & Honly & _ & ->).
    exists d1. by split_and!.
  - intros Hb. unfold button_get_state. rewrite lookup_ge_None_2; [done|]. cbn [buttons length]. lia.
Qed.

(** ** Motors *)

(** [motor_set_state] drives the two direction pins of the port: forward is
    (high, low), backward (low, high), anything else (low, low), so the bridge
    is never left with both inputs high; no other known pin changes. *)
Theorem motor_set_state_correct port state (d : D) :
  (forall m, motor_ports !! Z.to_nat port = Some m ->
     exists d', motor_set_state port state d = Done (tt, d') /\
       pins_set [(m_pin1 m, state =? MOTOR_FORWARD); (m_pin2 m, state =? MOTOR_BACKWARD)] d d') /\
  (4 <= port -> motor_set_state port state d = Undefined).
Proof.
  split.
  - intros m Hm. unfold motor_set_state. rewrite Hm.
    assert (pin_known (m_pin1 m) = true /\ pin_known (m_pin2 m) = true /\ m_pin1 m <> m_pin2 m) as (H1 & H2 & H3).
    { assert (Forall (fun m => pin_known (m_pin1 m) = true /\ pin_known (m_pin2 m) = true /\
        m_pin1 m <> m_pin2 m) motor_ports) as Hall by literal.
      by apply (Forall_lookup_1 _ _ _ _ Hall Hm). }
    destruct (Z.eqb_spec state MOTOR_FORWARD) as [->|]; [by apply pins_set_two|].
    destruct (state =? MOTOR_BACKWARD); by apply pins_set_two.
  - intros Hp. unfold motor_set_state. rewrite lookup_ge_None_2; [done|]. cbn [motor_ports length]. lia.
Qed.

End Pins.

(** ** Witnesses *)

Lemma led_set_correct_witness :
  exists d, led_set LED_LEFT LED_GREEN example_chip = Done (tt, d) /\ chip_out (GPIO_PIN 6 7) d = true.
Proof.
  destruct (led_set_correct LED_LEFT LED_GREEN example_chip) as (d & Hs & Hset & _); [done|done|].
  exists d. split; [exact Hs|]. apply (Hset (GPIO_PIN 6 7) true). right. left.
Defined.

Lemma button_get_state_correct_witness :
  button_get_state 6 example_chip = Undefined /\
  exists d, button_get_state 0 example_chip = Done (if chip_in (GPIO_PIN 6 6) d then 1 else 0, d).
Proof.
  destruct (button_get_state_correct 6 example_chip) as [_ H]. split; [apply H; lia|].
  destruct (button_get_state_correct 0 example_chip) as [H0 _].
  destruct (H0 (GPIO_PIN 6 6) eq_refl) as (d & Hd & _). by exists d.
Defined.

Lemma motor_set_state_correct_witness :
  exists d, motor_set_state 0 MOTOR_FORWARD example_chip = Done (tt, d) /\
    chip_out (GPIO_PIN 3 15) d = true /\ chip_out (GPIO_PIN 3 6) d = false.
Proof.
  destruct (motor_set_state_correct 0 MOTOR_FORWARD example_chip) as [H _].
  destruct (H _ eq_refl) as (d & Hd & Hset & _). exists d. split; [exact Hd|].
  split; [apply (Hset _ true); left|apply (Hset _ false); right; left].
Defined.
