(* ===== verification/Spi.v ===== *)
(** * SPI, analog input and sensors: kernel/drivers/spi.c, adc.c, sensor.c

    The serial interface with its two busy-waiting loops, the set-up that saves
    the interface's registers and the clean-up that restores them, the analog
    converter behind it, and the touch and light sensors. The loops take fuel;
    [spi_poll_returns] says how much is enough. *)

From S2P Require Import Prelude StateMonad Memory Bus Clock Stdio Gpio.

(** ** Definitions *)

Definition SPI0_CLOCK : Z := 150000000.
Definition ADC_TIME : Z := 8.
Definition ADC_CLOCK : Z := (1000000 * 16) / ADC_TIME.
Definition CNVSPD : Z := SPI0_CLOCK / ADC_CLOCK - 1.

Definition SPI0_OFFSET : Z := GPIO_PIN 9 0 + 5.
Definition SPI0_MOSI : Z := SPI0_OFFSET + 0.
Definition SPI0_MISO : Z := SPI0_OFFSET + 1.
Definition SPI0_SCL : Z := SPI0_OFFSET + 2.
Definition SPI0_CS : Z := SPI0_OFFSET + 3.

Definition SPI_BASE : Z := 0x01C41000.
Definition SPIGCR0 : Z := SPI_BASE + 0x00.
Definition SPIGCR1 : Z := SPI_BASE + 0x04.
Definition SPIINT0 : Z := SPI_BASE + 0x08.
Definition SPIPC0 : Z := SPI_BASE + 0x14.
Definition SPIDAT0 : Z := SPI_BASE + 0x38.
Definition SPIDAT1 : Z := SPI_BASE + 0x3C.
Definition SPIBUF : Z := SPI_BASE + 0x40.
Definition SPIDELAY : Z := SPI_BASE + 0x48.
Definition SPIDEF : Z := SPI_BASE + 0x4C.
Definition SPIFMT0 : Z := SPI_BASE + 0x50.

Definition SPITxFULL : Z := 0x20000000.
Definition SPIRxEMPTY : Z := 0x80000000.

(** The registers [spi_init] saves in static variables. *)
Record spi_saved := mk_saved {
  save_GCR0 : Z;
  save_GCR1 : Z;
  save_PC0 : Z;
  save_DAT1 : Z;
  save_FMT0 : Z;
  save_DELAY : Z;
  save_DEF : Z;
}.

Record sensor_port_info := mk_sensor {
  s_pin1 : Z;
  s_pin2 : Z;
  s_pin5 : Z;
  s_pin6 : Z;
  s_buffer : Z;
  s_adc1 : Z;
  s_adc2 : Z;
}.

Definition sensor_ports : list sensor_port_info :=
  [mk_sensor (GPIO_PIN 8 10) (GPIO_PIN 2 2) (GPIO_PIN 0 2) (GPIO_PIN 0 15) (GPIO_PIN 8 11) 0x6 0x5;
   mk_sensor (GPIO_PIN 8 12) (GPIO_PIN 8 15) (GPIO_PIN 0 14) (GPIO_PIN 0 13) (GPIO_PIN 8 14) 0x8 0x7;
   mk_sensor (GPIO_PIN 8 9) (GPIO_PIN 7 11) (GPIO_PIN 0 12) (GPIO_PIN 1 14) (GPIO_PIN 7 9) 0xA 0x9;
   mk_sensor (GPIO_PIN 6 4) (GPIO_PIN 7 8) (GPIO_PIN 0 1) (GPIO_PIN 1 15) (GPIO_PIN 7 10) 0xC 0xB].

Inductive sensor_touch_state := SENSOR_TOUCH_DOWN | SENSOR_TOUCH_UP.

#[export] Instance sensor_touch_state_eq_dec : EqDecision sensor_touch_state.
Proof. solve_decision. Defined.

Section Spi.
Context {D : Type} `{Bus D}.

Definition reg_read (a : Z) : ST D Z := lift id (fun d _ => d) (read32 a).
Definition reg_write (a v : Z) : ST D unit := modify (write32 a v).

(** [while (SPIBUF & flag);] *)
Fixpoint spi_wait (fuel : nat) (flag : Z) : ST D unit :=
  match fuel with
  | O => no_fuel
  | S fuel' =>
      v ← reg_read SPIBUF;
      if negb (Z.land v flag =? 0) then spi_wait fuel' flag else mret ()
  end.

Definition spi_update (fuel : nat) (data : Z) : ST D Z :=
  spi_wait fuel SPITxFULL ;;
  reg_write SPIDAT0 (u16 data) ;;
  spi_wait fuel SPIRxEMPTY ;;
  v ← reg_read SPIBUF;
  mret (u16 (Z.land v 0x0000FFFF)).

Definition spi_init : ST D spi_saved :=
  gpio_init_pin SPI0_MOSI ;;
  gpio_init_pin SPI0_MISO ;;
  gpio_init_pin SPI0_SCL ;;
  gpio_init_pin SPI0_CS ;;
  gcr0 ← reg_read SPIGCR0;
  gcr1 ← reg_read SPIGCR1;
  pc0 ← reg_read SPIPC0;
  dat1 ← reg_read SPIDAT1;
  fmt0 ← reg_read SPIFMT0;
  delay ← reg_read SPIDELAY;
  def ← reg_read SPIDEF;
  reg_write SPIGCR0 0x00000001 ;;
  reg_write SPIGCR1 0x00000003 ;;
  reg_write SPIPC0 0x00000E08 ;;
  reg_write SPIDAT1 0x00000000 ;;
  reg_write SPIFMT0 (Z.lor 0x00010010 (Z.land (Z.shiftl CNVSPD 8) 0xFF00)) ;;
  reg_write SPIDELAY 0x0A0A0A0A ;;
  reg_write SPIINT0 0x00000000 ;;
  reg_write SPIDEF 0x00000008 ;;
  reg_write SPIGCR1 0x01000003 ;;
  mret (mk_saved gcr0 gcr1 pc0 dat1 fmt0 delay def).

Definition spi_fini (s : spi_saved) : ST D unit :=
  reg_write SPIGCR0 (save_GCR0 s) ;;
  reg_write SPIGCR1 (save_GCR1 s) ;;
  reg_write SPIPC0 (save_PC0 s) ;;
  reg_write SPIDAT1 (save_DAT1 s) ;;
  reg_write SPIFMT0 (save_FMT0 s) ;;
  reg_write SPIDELAY (save_DELAY s) ;;
  reg_write SPIDEF (save_DEF s).

Definition adc_command (channel : Z) : Z := Z.lor 0x1840 (Z.shiftl (Z.land channel 0x000F) 7).

Definition adc_get (fuel : nat) (channel : Z) : ST D Z :=
  v ← spi_update fuel (adc_command channel);
  mret (Z.land v 0x0FFF).

Definition adc_init (fuel : nat) : ST D unit :=
  gpio_init_pin (GPIO_PIN 6 14) ;;
  gpio_init_pin (GPIO_PIN 0 6) ;;
  reg_write (GPIO_SET (GPIO_PIN 0 6)) (GPIO_MASK (GPIO_PIN 0 6)) ;;
  modify (and32 (GPIO_DIR (GPIO_PIN 0 6)) (Z.lnot (GPIO_MASK (GPIO_PIN 0 6)))) ;;
  for_each (replicate 6 0x400F) (fun data => _ ← spi_update fuel data; mret ()).

Definition touch_state (Data1 Data2 : Z) : sensor_touch_state :=
  if (3000 <? Data2) || ((500 <? Data1) && (Data1 <? 1000)) then SENSOR_TOUCH_DOWN else SENSOR_TOUCH_UP.

Definition sensor_touch_get_state (fuel : nat) (port : Z) : ST D sensor_touch_state :=
  match sensor_ports !! Z.to_nat port with
  | None => undefined
  | Some s =>
      Data1 ← adc_get fuel (s_adc1 s);
      Data2 ← adc_get fuel (s_adc2 s);
      mret (touch_state Data1 Data2)
  end.

Definition sensor_light_get (fuel : nat) (port : Z) : ST D Z :=
  match sensor_ports !! Z.to_nat port with
  | None => undefined
  | Some s => gpio_set (s_pin5 s) 1 ;; adc_get fuel (s_adc1 s)
  end.

Definition sensor_init : ST D unit :=
  for_each sensor_ports (fun s =>
    gpio_init_inpin (s_pin1 s) ;;
    gpio_init_inpin (s_pin2 s) ;;
    gpio_init_outpin (s_pin5 s) ;;
    gpio_init_pin (s_pin6 s) ;;
    gpio_init_pin (s_buffer s)) ;;
  modify (and32 (SYSCFG1_BASE + 0x0C) (Z.lnot 0xFFFFFFFF)).

End Spi.

(** ** The busy-waiting loops *)

Section Polling.
Context {D : Type} `{Bus D}.

(** A read of the buffer register: what it shows and what it leaves. *)
Definition spi_status (d : D) : Z := (read32 SPIBUF d).1.
Definition spi_poll (d : D) : D := (read32 SPIBUF d).2.

Lemma reg_read_eq a (d : D) : reg_read a d = Done (read32 a d).
Proof. unfold reg_read, lift, id. by destruct (read32 a d). Qed.

Lemma spi_wait_step fuel flag (d : D) :
  spi_wait (S fuel) flag d =
  if negb (Z.land (spi_status d) flag =? 0) then spi_wait fuel flag (spi_poll d) else Done (tt, spi_poll d).
Proof.
  cbn [spi_wait]. unfold spi_status, spi_poll. destruct (read32 SPIBUF d) as [v d'] eqn:E.
  rewrite (bind_done _ _ d v d') by (by rewrite reg_read_eq, E). by destruct (negb _).
Qed.

Lemma spi_poll_returns k fuel flag (d : D) :
  (forall j, (j < k)%nat -> Z.land (spi_status (Nat.iter j spi_poll d)) flag <> 0) ->
  Z.land (spi_status (Nat.iter k spi_poll d)) flag = 0 -> (k < fuel)%nat ->
  spi_wait fuel flag d = Done (tt, Nat.iter (S k) spi_poll d).
Proof.
  revert k d. induction fuel as [|fuel IH]; intros k d Hbusy Hfree Hk; [lia|].
  rewrite spi_wait_step. destruct k as [|k].
  - simpl in Hfree. by rewrite Hfree.
  - assert (Z.land (spi_status d) flag <> 0) as H0 by (apply (Hbusy 0%nat); lia).
    rewrite (proj2 (Z.eqb_neq _ _) H0). cbn [negb].
    rewrite (IH k (spi_poll d)); [by rewrite <- Nat.iter_succ_r| |by rewrite <- Nat.iter_succ_r|lia].
    intros j Hj. rewrite <- Nat.iter_succ_r. apply Hbusy. lia.
Qed.

Lemma spi_poll_spins fuel flag (d : D) :
  (forall j, Z.land (spi_status (Nat.iter j spi_poll d)) flag <> 0) -> spi_wait fuel flag d = NoFuel.
Proof.
  revert d. induction fuel as [|fuel IH]; intros d Hbusy; [done|].
  assert (Z.land (spi_status d) flag <> 0) as H0 by apply (Hbusy 0%nat).
  rewrite spi_wait_step, (proj2 (Z.eqb_neq _ _) H0). cbn [negb]. apply IH.
  intros j. rewrite <- Nat.iter_succ_r. apply Hbusy.
Qed.

Lemma low_bits v n : 0 <= n -> Z.land v (Z.ones n) = v mod 2 ^ n.
Proof. intros. by apply Z.land_ones. Qed.

(** [spi_update] on an interface that becomes ready after [j] polls and has the
    answer after [k] more. *)
Lemma spi_update_returns j k fuel data (d : D) :
  (forall i, (i < j)%nat -> Z.land (spi_status (Nat.iter i spi_poll d)) SPITxFULL <> 0) ->
  Z.land (spi_status (Nat.iter j spi_poll d)) SPITxFULL = 0 ->
  let d1 := write32 SPIDAT0 (u16 data) (Nat.iter (S j) spi_poll d) in
  (forall i, (i < k)%nat -> Z.land (spi_status (Nat.iter i spi_poll d1)) SPIRxEMPTY <> 0) ->
  Z.land (spi_status (Nat.iter k spi_poll d1)) SPIRxEMPTY = 0 ->
  (j < fuel)%nat -> (k < fuel)%nat ->
  spi_update fuel data d = Done (spi_status (Nat.iter (S k) spi_poll d1) mod 65536, Nat.iter (S (S k)) spi_poll d1).
Proof.
  intros Hb1 Hf1 d1 Hb2 Hf2 Hj Hk. unfold spi_update.
  rewrite (bind_done _ _ _ _ _ (spi_poll_returns j fuel SPITxFULL d Hb1 Hf1 Hj)).
  erewrite bind_done by done. fold d1.
  rewrite (bind_done _ _ _ _ _ (spi_poll_returns k fuel SPIRxEMPTY d1 Hb2 Hf2 Hk)).
  set (d2 := Nat.iter (S k) spi_poll d1).
  rewrite (bind_done _ _ d2 (spi_status d2) (spi_poll d2))
    by (rewrite reg_read_eq; unfold spi_status, spi_poll; by rewrite <- surjective_pairing).
  change (Z.land (spi_status d2) 0x0000FFFF) with (Z.land (spi_status d2) (Z.ones 16)).
  rewrite low_bits by lia. unfold u16. change (2 ^ 16) with 65536. by rewrite Z.mod_mod by lia.
Qed.

Lemma adc_commands c : 0 <= c < 16 -> u16 (Z.lor 0x1840 (Z.shiftl c 7)) = 0x1840 + 0x80 * c.
Proof.
  intros Hc. assert (forallb (fun c => u16 (Z.lor 0x1840 (Z.shiftl c 7)) =? 0x1840 + 0x80 * c) (zseq 16) = true) as Hall
    by (vm_compute; reflexivity).
  rewrite forallb_forall in Hall. apply Z.eqb_eq, Hall, list_elem_of_In, elem_of_zseq. lia.
Qed.

(** [adc_get] returns once the interface is ready and has answered: the
    command on the wire selects the channel (of 16) in manual mode, and the
    result is the low twelve bits of the answer, whatever the channel bits above
    them say. If the interface never becomes ready the call never returns. *)
Theorem adc_get_correct j k fuel channel (d : D) :
  let busy_until n flag d :=
    (forall i, (i < n)%nat -> Z.land (spi_status (Nat.iter i spi_poll d)) flag <> 0) /\
    Z.land (spi_status (Nat.iter n spi_poll d)) flag = 0 in
  let command := 0x1840 + 0x80 * (channel mod 16) in
  let d1 := write32 SPIDAT0 command (Nat.iter (S j) spi_poll d) in
  (busy_until j SPITxFULL d -> busy_until k SPIRxEMPTY d1 -> (j < fuel)%nat -> (k < fuel)%nat ->
   adc_get fuel channel d =
     Done (spi_status (Nat.iter (S k) spi_poll d1) mod 4096, Nat.iter (S (S k)) spi_poll d1)) /\
  ((forall i, Z.land (spi_status (Nat.iter i spi_poll d)) SPITxFULL <> 0) -> adc_get fuel channel d = NoFuel).
Proof.
  intros busy command d1. split.
  - intros [Hb1 Hf1] [Hb2 Hf2] Hj Hk. unfold adc_get.
    assert (u16 (adc_command channel) = command) as Hcmd.
    { unfold adc_command, command. change 0xF with (Z.ones 4). rewrite low_bits by lia. change (2 ^ 4) with 16.
      apply adc_commands, Z.mod_pos_bound. lia. }
    pose proof (spi_update_returns j k fuel (adc_command channel) d Hb1 Hf1) as Hu. cbv zeta in Hu. rewrite Hcmd in Hu.
    fold d1 in Hu. rewrite (bind_done _ _ _ _ _ (Hu Hb2 Hf2 Hj Hk)).
    change (Z.land ?v 0xFFF) with (Z.land v (Z.ones 12)). rewrite low_bits by lia. change (2 ^ 12) with 4096.
    unfold mret, st_ret. f_equal. f_equal. word_lia.
  - intros Hbusy. unfold adc_get, spi_update. st_unfold. by rewrite spi_poll_spins.
Qed.

End Polling.

(** ** Saving and restoring the interface *)

(** Word registers that keep what is written to them. *)
Class PlainRegisters (D : Type) `{Bus D} := {
  pr_value : Z -> D -> Z;
  pr_read a d : bus_read 4 a d = (pr_value a d, d);
  pr_write a v d b : pr_value b (bus_write 4 a v d) = if decide (b = a) then v else pr_value b d;
}.

#[export, refine] Instance regfile_plain_registers : PlainRegisters regfile := {| pr_value := regfile_value |}.
Proof.
  - done.
  - intros a v d b. unfold regfile_value. simpl.
    case_decide; [subst; by rewrite lookup_insert_eq|by rewrite lookup_insert_ne].
Defined.

Definition spi_saved_registers : list Z := [SPIGCR0; SPIGCR1; SPIPC0; SPIDAT1; SPIFMT0; SPIDELAY; SPIDEF].

Section Restore.
Context {D : Type} `{PlainRegisters D}.

Lemma read32_plain a (d : D) : is_u32 a -> read32 a d = (u32 (pr_value a d), d).
Proof. intros Ha. unfold read32. by rewrite (u32_id a Ha), pr_read. Qed.

Lemma value_write32 a v (d : D) b : is_u32 a -> pr_value b (write32 a v d) = if decide (b = a) then u32 v else pr_value b d.
Proof. intros Ha. unfold write32. by rewrite (u32_id a Ha), pr_write. Qed.

Lemma value_update32 a v (d : D) b : is_u32 a -> b <> a ->
  pr_value b (write32 a v d) = pr_value b d /\ pr_value b (and32 a v d) = pr_value b d /\
  pr_value b (or32 a v d) = pr_value b d.
Proof.
  intros Ha Hb. unfold and32, or32. rewrite read32_plain by done. by rewrite !value_write32, !decide_False.
Qed.

(** Configuring the interface's pins touches none of its registers. *)
Lemma spi_pin_keeps p (d : D) : SPI0_MOSI <= p <= SPI0_CS ->
  exists d', gpio_init_pin p d = Done (tt, d') /\
    forall a, SPI_BASE <= a < SPI_BASE + 0x100 -> pr_value a d' = pr_value a d.
Proof.
  intros Hp. assert (p = 149 \/ p = 150 \/ p = 151 \/ p = 152) as Hcase
    by (unfold SPI0_MOSI, SPI0_CS, SPI0_OFFSET, GPIO_PIN in Hp; lia).
  assert (exists e, pininfo !! Z.to_nat p = Some e /\ muxreg e = 3 /\ muxreg_mask e <> 0) as (e & He & Hr & Hm)
    by (destruct Hcase as [->|[->|[->| ->]]]; eexists; by split_and!).
  unfold gpio_init_pin. rewrite (bind_done _ _ d tt (SYSCFG_UNLOCK d)) by done. rewrite He, Hr.
  rewrite (proj2 (Z.eqb_neq _ _) Hm), (proj2 (Z.leb_gt pininfo_size p)) by (change pininfo_size with 154; lia).
  eexists. split; [reflexivity|]. intros a Ha.
  assert (a <> SYSCFG_KICK 0 /\ a <> SYSCFG_KICK 1 /\ a <> SYSCFG_PINMUX 3) as (N0 & N1 & N3)
    by (unfold SPI_BASE, SYSCFG_KICK, SYSCFG_PINMUX, SYSCFG0_BASE in *; lia).
  assert (is_u32 (SYSCFG_KICK 0) /\ is_u32 (SYSCFG_KICK 1) /\ is_u32 (SYSCFG_PINMUX 3)) as (U0 & U1 & U3) by (by vm_compute).
  unfold SYSCFG_LOCK, SYSCFG_UNLOCK.
  repeat first [rewrite (proj1 (value_update32 _ _ _ _ U1 N1)) | rewrite (proj1 (value_update32 _ _ _ _ U0 N0))
    | rewrite (proj1 (proj2 (value_update32 _ _ _ _ U3 N3))) | rewrite (proj2 (proj2 (value_update32 _ _ _ _ U3 N3)))].
  done.
Qed.

Lemma reg_read_plain a (d : D) : is_u32 a -> reg_read a d = Done (u32 (pr_value a d), d).
Proof. intros Ha. by rewrite reg_read_eq, read32_plain. Qed.

(** What [spi_init] saves. *)
Lemma spi_init_saves (d : D) :
  exists d', spi_init d = Done (mk_saved (u32 (pr_value SPIGCR0 d)) (u32 (pr_value SPIGCR1 d)) (u32 (pr_value SPIPC0 d))
    (u32 (pr_value SPIDAT1 d)) (u32 (pr_value SPIFMT0 d)) (u32 (pr_value SPIDELAY d)) (u32 (pr_value SPIDEF d)), d').
Proof.
  destruct (spi_pin_keeps SPI0_MOSI d ltac:(by vm_compute)) as (d1 & R1 & K1).
  destruct (spi_pin_keeps SPI0_MISO d1 ltac:(by vm_compute)) as (d2 & R2 & K2).
  destruct (spi_pin_keeps SPI0_SCL d2 ltac:(by vm_compute)) as (d3 & R3 & K3).
  destruct (spi_pin_keeps SPI0_CS d3 ltac:(by vm_compute)) as (d4 & R4 & K4).
  assert (forall a, SPI_BASE <= a < SPI_BASE + 0x100 -> pr_value a d4 = pr_value a d) as K
    by (intros a Ha; by rewrite K4, K3, K2, K1).
  unfold spi_init. rewrite (bind_done _ _ _ _ _ R1), (bind_done _ _ _ _ _ R2), (bind_done _ _ _ _ _ R3), (bind_done _ _ _ _ _ R4).
  do 7 (erewrite bind_done; [|apply reg_read_plain; by vm_compute]).
  rewrite !K by (by vm_compute). eexists. reflexivity.
Qed.

(** [spi_fini] undoes [spi_init]: whatever happened to the interface in
    between, the seven registers saved at start-up read afterwards as they did
    before it. *)
Theorem spi_fini_restores (d d2 : D) :
  exists s d1 d3, spi_init d = Done (s, d1) /\ spi_fini s d2 = Done (tt, d3) /\
    forall a, a ∈ spi_saved_registers -> (read32 a d3).1 = (read32 a d).1.
Proof.
  destruct (spi_init_saves d) as [d1 Hinit]. do 2 eexists. eexists. split; [exact Hinit|]. split; [reflexivity|].
  assert (is_u32 SPIGCR0 /\ is_u32 SPIGCR1 /\ is_u32 SPIPC0 /\ is_u32 SPIDAT1 /\ is_u32 SPIFMT0 /\
    is_u32 SPIDELAY /\ is_u32 SPIDEF) as (? & ? & ? & ? & ? & ? & ?) by (by vm_compute).
  assert (forall x, u32 (u32 (u32 x)) = u32 x) as Hu by (intros x; word_lia).
  intros a Ha. unfold spi_saved_registers in Ha. rewrite !elem_of_cons, elem_of_nil in Ha.
  destruct Ha as [->|[->|[->|[->|[->|[->|[->|[]]]]]]]]; rewrite !read32_plain by done; cbn [fst save_GCR0 save_GCR1 save_PC0
    save_DAT1 save_FMT0 save_DELAY save_DEF];
    rewrite !value_write32 by done; repeat (first [rewrite decide_True by done | rewrite decide_False by done]); apply Hu.
Qed.

End Restore.

(** ** Sensors *)

Section Sensors.
Context {D : Type} `{Bus D}.

(** [sensor_touch_get_state] samples both channels of the port, first the
    port's first one, and reports a press exactly when the second reads above
    3000 or the first between 501 and 999; a port beyond the table is
    undefined. *)
Theorem sensor_touch_correct fuel port (d : D) :
  (forall s v1 d1 v2 d2, sensor_ports !! Z.to_nat port = Some s ->
     adc_get fuel (s_adc1 s) d = Done (v1, d1) -> adc_get fuel (s_adc2 s) d1 = Done (v2, d2) ->
     exists r, sensor_touch_get_state fuel port d = Done (r, d2) /\
       (r = SENSOR_TOUCH_DOWN <-> 3000 < v2 \/ 500 < v1 < 1000)) /\
  (4 <= port -> sensor_touch_get_state fuel port d = Undefined).
Proof.
  split.
  - intros s v1 d1 v2 d2 Hs H1 H2. unfold sensor_touch_get_state. rewrite Hs.
    rewrite (bind_done _ _ _ _ _ H1), (bind_done _ _ _ _ _ H2). eexists. split; [reflexivity|].
    unfold touch_state. destruct (Z.ltb_spec 3000 v2), (Z.ltb_spec 500 v1), (Z.ltb_spec v1 1000); cbn [orb andb];
      (split; [intros; try discriminate; lia|intros; try done; lia]).
  - intros Hp. unfold sensor_touch_get_state. rewrite lookup_ge_None_2; [done|]. cbn [sensor_ports length]. lia.
Qed.

End Sensors.

(** ** Witnesses *)

(** An interface that is ready and answers 0x5123. *)
Definition example_spi : regfile := mk_regfile {[ SPIBUF := 0x5123 ]}.

Lemma adc_get_correct_witness :
  exists d, adc_get 1 6 example_spi = Done (0x123, d).
Proof.
  destruct (adc_get_correct 0 0 1 6 example_spi) as [H _]. eexists. etrans; [apply H|].
  - split; [lia|vm_compute; reflexivity].
  - split; [lia|vm_compute; reflexivity].
  - lia.
  - lia.
  - vm_compute. reflexivity.
Defined.

Lemma spi_fini_restores_witness :
  exists s d1 d3, spi_init example_spi = Done (s, d1) /\ spi_fini s d1 = Done (tt, d3) /\
    (read32 SPIPC0 d3).1 = 0.
Proof.
  destruct (spi_fini_restores example_spi
    (match spi_init example_spi with Done (_, d) => d | _ => example_spi end)) as (s & d1 & d3 & Hi & Hf & Hr).
  exists s, d1, d3. split; [exact Hi|]. rewrite Hi in Hf. split; [exact Hf|].
  rewrite (Hr SPIPC0) by (do 2 right; left). vm_compute. reflexivity.
Defined.

Lemma sensor_touch_correct_witness :
  exists r d, sensor_touch_get_state 1 0 (mk_regfile {[ SPIBUF := 700 ]}) = Done (r, d) /\ r = SENSOR_TOUCH_DOWN.
Proof.
  set (d := mk_regfile {[ SPIBUF := 700 ]}).
  set (next d := match adc_get 1 0 d with Done (_, d') => d' | _ => d end).
  destruct (sensor_touch_correct 1 0 d) as [H _].
  destruct (adc_get 1 6 d) as [[v1 d1]| |] eqn:E1; [|vm_compute in E1; discriminate..].
  destruct (adc_get 1 5 d1) as [[v2 d2]| |] eqn:E2.
  - destruct (H _ v1 d1 v2 d2 eq_refl E1 E2) as (r & Hr & Hiff). exists r, d2. split; [exact Hr|].
    apply Hiff. right. assert (v1 = 700) as ->; [|lia].
    vm_compute in E1. by injection E1.
  - vm_compute in E1. injection E1 as <- <-. vm_compute in E2. discriminate.
  - vm_compute in E1. injection E1 as <- <-. vm_compute in E2. discriminate.
Defined.
