(* ===== verification/Ports.v ===== *)
(** * The ports of the brick: kernel/drivers/led.h, button.h, motor.h, sensor.h

    The names the headers give to LEDs, buttons and ports.  Each driver is proved
    alone in Devices.v; here they are together: every name is served, no two of
    them share a pin, and so no driver disturbs what belongs to another. *)

From S2P Require Import Prelude StateMonad Memory Bus Clock Stdio Gpio Devices Spi.

(** ** Definitions *)

Inductive button_id := BUTTON_LEFT | BUTTON_RIGHT | BUTTON_TOP | BUTTON_BOTTOM | BUTTON_CENTER | BUTTON_BACK.
Inductive motor_port_id := MOTOR_PORT_A | MOTOR_PORT_B | MOTOR_PORT_C | MOTOR_PORT_D.
Inductive sensor_port_id := SENSOR_PORT_1 | SENSOR_PORT_2 | SENSOR_PORT_3 | SENSOR_PORT_4.
Inductive button_state := BUTTON_UP | BUTTON_DOWN.

(** The values the headers give them. *)
Definition button_value (b : button_id) : Z :=
  match b with
  | BUTTON_LEFT => 0x00 | BUTTON_RIGHT => 0x01 | BUTTON_TOP => 0x02
  | BUTTON_BOTTOM => 0x03 | BUTTON_CENTER => 0x04 | BUTTON_BACK => 0x05
  end.

Definition motor_port_value (m : motor_port_id) : Z :=
  match m with MOTOR_PORT_A => 0x00 | MOTOR_PORT_B => 0x01 | MOTOR_PORT_C => 0x02 | MOTOR_PORT_D => 0x03 end.

Definition sensor_port_value (s : sensor_port_id) : Z :=
  match s with SENSOR_PORT_1 => 0x00 | SENSOR_PORT_2 => 0x01 | SENSOR_PORT_3 => 0x02 | SENSOR_PORT_4 => 0x03 end.

Definition button_state_value (s : button_state) : Z := match s with BUTTON_UP => 0x00 | BUTTON_DOWN => 0x01 end.

(** What a driver serves. *)
Inductive port :=
| LeftLed
| RightLed
| Button (b : button_id)
| Motor (m : motor_port_id)
| Sensor (s : sensor_port_id).

#[export] Instance port_eq_dec : EqDecision port.
Proof. intros p q. unfold Decision. repeat decide equality. Defined.

Definition led_pins (i : led_info) : list Z := [led_pin1 i; led_pin2 i].
Definition motor_pins (m : motor_port_info) : list Z := [m_pin1 m; m_pin2 m; m_pin5w m; m_pin5r m; m_pin6 m].
Definition sensor_pins (s : sensor_port_info) : list Z := [s_pin1 s; s_pin2 s; s_pin5 s; s_pin6 s; s_buffer s].

(** The pins the drivers' tables give a port. *)
Definition port_pins (p : port) : list Z :=
  match p with
  | LeftLed => led_pins led_left_info
  | RightLed => led_pins led_right_info
  | Button b => option_list (buttons !! Z.to_nat (button_value b))
  | Motor m => default [] (motor_pins <$> motor_ports !! Z.to_nat (motor_port_value m))
  | Sensor s => default [] (sensor_pins <$> sensor_ports !! Z.to_nat (sensor_port_value s))
  end.

Definition all_ports : list port :=
  [LeftLed; RightLed] ++
  (Button <$> [BUTTON_LEFT; BUTTON_RIGHT; BUTTON_TOP; BUTTON_BOTTOM; BUTTON_CENTER; BUTTON_BACK]) ++
  (Motor <$> [MOTOR_PORT_A; MOTOR_PORT_B; MOTOR_PORT_C; MOTOR_PORT_D]) ++
  (Sensor <$> [SENSOR_PORT_1; SENSOR_PORT_2; SENSOR_PORT_3; SENSOR_PORT_4]).

(** The LEDs [led_set] is asked for. *)
Definition leds_of (led : Z) : list port :=
  (if Z.testbit led 0 then [LeftLed] else []) ++ (if Z.testbit led 1 then [RightLed] else []).

(** ** Pins and ports *)

Lemma all_ports_all u : u ∈ all_ports.
Proof. by destruct u as [| |[]|[]|[]]; apply (bool_decide_unpack _); vm_compute. Qed.

(** Every port has pins, all of which the pin table knows. *)
Lemma port_pins_known u : port_pins u <> [] /\ Forall (fun p => pin_known p = true) (port_pins u).
Proof.
  assert (Forall (fun u => port_pins u <> [] /\ Forall (fun p => pin_known p = true) (port_pins u)) all_ports) as Hall
    by (apply (bool_decide_unpack _); by vm_compute).
  exact (proj1 (Forall_forall _ _) Hall u (all_ports_all u)).
Qed.

(** A pin belongs to one port. *)
Lemma port_pins_apart u v p : p ∈ port_pins u -> p ∈ port_pins v -> u = v.
Proof.
  assert (Forall (fun u => Forall (fun v => u = v \/ Forall (fun p => p ∉ port_pins v) (port_pins u)) all_ports) all_ports) as Hall
    by (apply (bool_decide_unpack _); by vm_compute).
  intros Hu Hv. pose proof (proj1 (Forall_forall _ _) Hall u (all_ports_all u)) as Hr. cbv beta in Hr.
  destruct (proj1 (Forall_forall _ _) Hr v (all_ports_all v)) as [|Hn]; [done|].
  by destruct (proj1 (Forall_forall _ _) Hn p Hu).
Qed.

Section Ports.
Context {D : Type} `{GpioChip D}.

(** From [d] to [d'] the pins of all ports but those of [us] keep function,
    direction and output. *)
Definition others_kept (us : list port) (d d' : D) : Prop :=
  forall v p e, v ∉ us -> p ∈ port_pins v -> known_pin p e ->
    pin_function e d' = pin_function e d /\ pin_is_input p d' = pin_is_input p d /\ chip_out p d' = chip_out p d.

Lemma pins_set_kept us l (d d' : D) :
  pins_set l d d' -> Forall (fun p => exists u, u ∈ us /\ p ∈ port_pins u) l.*1 -> others_kept us d d'.
Proof.
  intros [_ Hother] Hl v p e Hv Hp Hk. apply Hother; [done|]. intros Hin.
  destruct (proj1 (Forall_forall _ _) Hl p Hin) as (u & Hu & Hpu). by rewrite (port_pins_apart v u p) in Hv.
Qed.

Lemma only_pin_kept u p (d d' : D) : p ∈ port_pins u -> only_pin p d d' -> others_kept [u] d d'.
Proof.
  intros Hp Honly v q e Hv Hq Hk. apply Honly; [done|]. intros ->. apply Hv.
  rewrite (port_pins_apart v u p) by done. by apply list_elem_of_singleton.
Qed.

Lemma motor_serves m state (d : D) :
  exists i d', motor_ports !! Z.to_nat (motor_port_value m) = Some i /\
    motor_set_state (motor_port_value m) state d = Done (tt, d') /\ others_kept [Motor m] d d' /\
    chip_out (m_pin1 i) d' = (state =? MOTOR_FORWARD) /\ chip_out (m_pin2 i) d' = (state =? MOTOR_BACKWARD).
Proof.
  assert (exists i, motor_ports !! Z.to_nat (motor_port_value m) = Some i) as [i Hi] by (destruct m; by eexists).
  destruct (motor_set_state_correct (motor_port_value m) state d) as [Hset _].
  destruct (Hset i Hi) as (d' & Hrun & Hpins). exists i, d'. split_and!; try done.
  - apply (pins_set_kept [Motor m] _ d d' Hpins).
    apply Forall_forall. intros p Hp. exists (Motor m). split; [by apply list_elem_of_singleton|].
    cbn [fmap list_fmap fst] in Hp. rewrite !elem_of_cons, elem_of_nil in Hp.
    destruct m; injection Hi as <-; destruct Hp as [->|[->|[]]]; by apply (bool_decide_unpack _); vm_compute.
  - apply (proj1 Hpins). left.
  - apply (proj1 Hpins). right. left.
Qed.

Lemma button_serves b (d : D) :
  exists pin d' s, buttons !! Z.to_nat (button_value b) = Some pin /\
    button_get_state (button_value b) d = Done (button_state_value s, d') /\ others_kept [Button b] d d' /\
    (s = BUTTON_DOWN <-> chip_in pin d' = true).
Proof.
  assert (exists pin, buttons !! Z.to_nat (button_value b) = Some pin) as [pin Hpin] by (destruct b; by eexists).
  destruct (button_get_state_correct (button_value b) d) as [Hget _].
  destruct (Hget pin Hpin) as (d' & Hrun & _ & Honly).
  exists pin, d', (if chip_in pin d' then BUTTON_DOWN else BUTTON_UP). split_and!; try done.
  - rewrite Hrun. by destruct (chip_in pin d').
  - apply (only_pin_kept (Button b) pin); [|done]. unfold port_pins. rewrite Hpin. by apply list_elem_of_singleton.
  - by destruct (chip_in pin d').
Qed.

Definition led_of (u : port) : led_info := match u with LeftLed => led_left_info | _ => led_right_info end.

Lemma leds_serve led color (d : D) :
  1 <= led <= 3 -> 0 <= color < 4 ->
  exists d', led_set led color d = Done (tt, d') /\ others_kept (leds_of led) d d' /\
    forall u, u ∈ leds_of led ->
      chip_out (led_pin1 (led_of u)) d' = Z.testbit color 0 /\ chip_out (led_pin2 (led_of u)) d' = Z.testbit color 1.
Proof.
  intros Hled Hcolor. destruct (led_set_correct led color d Hled Hcolor) as (d' & Hrun & Hpins).
  exists d'. split; [done|]. assert (led = 1 \/ led = 2 \/ led = 3) as Hcases by lia. split.
  - apply (pins_set_kept _ _ d d' Hpins).
    destruct Hcases as [->|[->| ->]];
      apply Forall_forall; intros p Hp; cbn [fmap list_fmap fst Z.testbit Z.odd Z.div2 Pos.testbit Pos.pred_N Pos.pred_double app led_levels] in Hp; rewrite !elem_of_cons, elem_of_nil in Hp;
      repeat destruct Hp as [-> |Hp]; try done;
      first [exists LeftLed; split; by apply (bool_decide_unpack _); vm_compute
        | exists RightLed; split; by apply (bool_decide_unpack _); vm_compute].
  - destruct Hpins as [Hset _]. unfold leds_of. intros u [Hu|Hu]%elem_of_app.
    + destruct (Z.testbit led 0); [|by apply elem_of_nil in Hu]. apply list_elem_of_singleton in Hu as ->.
      split; apply Hset, elem_of_app; left; [left|right; left].
    + destruct (Z.testbit led 1); [|by apply elem_of_nil in Hu]. apply list_elem_of_singleton in Hu as ->.
      split; apply Hset, elem_of_app; right; [left|right; left].
Qed.

(** C37: The drivers of the ports do not disturb one another.  Every name in the
    headers is served: [motor_set_state], [button_get_state] and [led_set] return
    for each of them and each value, and do with its pins what they promise; and
    the pins of every other LED, button, motor and sensor port keep function,
    direction and level. *)
Theorem drivers_independent (d : D) :
  (forall m state, exists i d', motor_ports !! Z.to_nat (motor_port_value m) = Some i /\
     motor_set_state (motor_port_value m) state d = Done (tt, d') /\ others_kept [Motor m] d d' /\
     chip_out (m_pin1 i) d' = (state =? MOTOR_FORWARD) /\ chip_out (m_pin2 i) d' = (state =? MOTOR_BACKWARD)) /\
  (forall b, exists pin d1 s, buttons !! Z.to_nat (button_value b) = Some pin /\
     button_get_state (button_value b) d = Done (button_state_value s, d1) /\ others_kept [Button b] d d1 /\
     (s = BUTTON_DOWN <-> chip_in pin d1 = true)) /\
  (forall led color, 1 <= led <= 3 -> 0 <= color < 4 -> exists d',
     led_set led color d = Done (tt, d') /\ others_kept (leds_of led) d d' /\
     forall u, u ∈ leds_of led ->
       chip_out (led_pin1 (led_of u)) d' = Z.testbit color 0 /\ chip_out (led_pin2 (led_of u)) d' = Z.testbit color 1).
Proof.
  split; [|split].
  - intros m state. apply motor_serves.
  - intros b. apply button_serves.
  - intros led color Hled Hcolor. by apply leds_serve.
Qed.

End Ports.

(** ** What the tables share *)

(** The motor ports are given the analog channels of the sensor ports; no code
    reads them. *)
Lemma motor_channels_of_sensors :
  ((fun m => (m_adc1 m, m_adc2 m)) <$> motor_ports) = ((fun s => (s_adc1 s, s_adc2 s)) <$> sensor_ports).
Proof. done. Qed.

(** [adc_init] switches a pin to its power supply that led.c has as the green
    diode of the right LED. *)
Lemma adc_pin_of_led : GPIO_PIN 6 14 ∈ port_pins RightLed.
Proof. apply (bool_decide_unpack _). by vm_compute. Qed.

(** ** Witness *)

(** Motor B is started: the left LED stays as it was. *)
Lemma drivers_independent_witness :
  exists d, motor_set_state (motor_port_value MOTOR_PORT_B) MOTOR_FORWARD example_chip = Done (tt, d) /\
    chip_out (GPIO_PIN 0 3) d = true /\ chip_out (GPIO_PIN 6 7) d = chip_out (GPIO_PIN 6 7) example_chip.
Proof.
  destruct (drivers_independent example_chip) as [Hmotor _].
  destruct (Hmotor MOTOR_PORT_B MOTOR_FORWARD) as (i & d & Hi & Hrun & Hkept & Hout & _). exists d. split; [exact Hrun|].
  injection Hi as <-. split; [exact Hout|].
  assert (pin_known (GPIO_PIN 6 7) = true) as Hknown by (vm_compute; reflexivity).
  destruct (pin_known_spec _ Hknown) as [e He].
  apply (Hkept LeftLed (GPIO_PIN 6 7) e).
  - intros Hin%list_elem_of_singleton. discriminate.
  - right. left.
  - exact He.
Defined.
