(* ===== verification/Demo.v ===== *)
(** * The demonstrations: kernel/demo/demo_led.c and demo_motor.c

    Sequences of LED colors with busy waiting in between, and a motor that
    follows a touch sensor. *)

From S2P Require Import Prelude StateMonad Memory Bus Clock Stdio Gpio Devices Spi.

(** ** Definitions *)

Definition MOTOR_PORT_A : Z := 0.
Definition SENSOR_PORT_2 : Z := 1.

Section Demo.
Context {D : Type} `{Bus D} (fuel : nat).

(** The counter is a volatile variable on the stack. *)
Fixpoint spin_loop (n : nat) (timer ticks : Z) : ST D unit :=
  match n with
  | O => no_fuel
  | S n' => if timer <? ticks then spin_loop n' (u32 (timer + 1)) ticks else mret ()
  end.

Definition spin (ticks : Z) : ST D unit := spin_loop fuel 0 ticks.

Definition blink (led color : Z) : ST D unit :=
  for_each (zseq 6) (fun i =>
    led_set led (if negb (Z.land i 1 =? 0) then LED_BLACK else color) ;;
    spin (512 * 1024)).

Definition flash_LR (color : Z) : ST D unit :=
  led_set LED_LEFT color ;;
  spin (64 * 1024) ;;
  led_set LED_BOTH LED_BLACK ;;
  led_set LED_RIGHT color ;;
  spin (64 * 1024) ;;
  led_set LED_BOTH LED_BLACK ;;
  spin (512 * 1024).

Definition flash_RL (color : Z) : ST D unit :=
  led_set LED_RIGHT color ;;
  spin (64 * 1024) ;;
  led_set LED_BOTH LED_BLACK ;;
  led_set LED_LEFT color ;;
  spin (64 * 1024) ;;
  led_set LED_BOTH LED_BLACK ;;
  spin (512 * 1024).

Definition demo_led : ST D unit :=
  led_set LED_LEFT LED_GREEN ;;
  spin (512 * 1024) ;;
  led_set LED_BOTH LED_BLACK ;;
  spin (512 * 1024) ;;
  led_set LED_RIGHT LED_GREEN ;;
  spin (512 * 1024) ;;
  led_set LED_BOTH LED_BLACK ;;
  spin (512 * 1024) ;;
  blink LED_BOTH LED_GREEN ;;
  spin (1024 * 1024) ;;
  flash_RL LED_RED ;;
  flash_LR LED_RED ;;
  spin (512 * 1024) ;;
  flash_RL LED_GREEN ;;
  flash_RL LED_RED ;;
  flash_RL LED_ORANGE ;;
  blink LED_BOTH LED_RED ;;
  led_set LED_LEFT LED_GREEN ;;
  spin (1024 * 1024) ;;
  led_set LED_RIGHT LED_RED ;;
  spin (1024 * 1024) ;;
  blink LED_LEFT LED_GREEN ;;
  blink LED_RIGHT LED_RED ;;
  led_set LED_BOTH LED_ORANGE ;;
  spin (1024 * 1024) ;;
  blink LED_BOTH LED_ORANGE ;;
  spin (2 * 1024 * 1024).

Definition demo_motor : ST D unit :=
  state ← sensor_touch_get_state fuel SENSOR_PORT_2;
  match state with
  | SENSOR_TOUCH_DOWN => motor_set_state MOTOR_PORT_A MOTOR_FORWARD
  | SENSOR_TOUCH_UP => motor_set_state MOTOR_PORT_A MOTOR_OFF
  end.

End Demo.

(** ** What the LEDs show *)

Definition blinks (led color : Z) : list (Z * Z) :=
  [(led, color); (led, LED_BLACK); (led, color); (led, LED_BLACK); (led, color); (led, LED_BLACK)].
Definition flash (first second color : Z) : list (Z * Z) :=
  [(first, color); (LED_BOTH, LED_BLACK); (second, color); (LED_BOTH, LED_BLACK)].

(** The settings [demo_led] makes, in order. *)
Definition demo_sequence : list (Z * Z) :=
  [(LED_LEFT, LED_GREEN); (LED_BOTH, LED_BLACK); (LED_RIGHT, LED_GREEN); (LED_BOTH, LED_BLACK)] ++
  blinks LED_BOTH LED_GREEN ++
  flash LED_RIGHT LED_LEFT LED_RED ++ flash LED_LEFT LED_RIGHT LED_RED ++
  flash LED_RIGHT LED_LEFT LED_GREEN ++ flash LED_RIGHT LED_LEFT LED_RED ++ flash LED_RIGHT LED_LEFT LED_ORANGE ++
  blinks LED_BOTH LED_RED ++ [(LED_LEFT, LED_GREEN); (LED_RIGHT, LED_RED)] ++
  blinks LED_LEFT LED_GREEN ++ blinks LED_RIGHT LED_RED ++ [(LED_BOTH, LED_ORANGE)] ++
  blinks LED_BOTH LED_ORANGE.

Definition led_pins : list Z :=
  [led_pin1 led_left_info; led_pin2 led_left_info; led_pin1 led_right_info; led_pin2 led_right_info].

Section Shows.
Context {D : Type} `{Bus D} (fuel : nat).
Hypothesis Hfuel : 2 * 1024 * 1024 < Z.of_nat fuel.

Definition show (l : list (Z * Z)) : ST D unit := for_each l (fun p => led_set p.1 p.2).

(** [m] makes the settings [l]. *)
Definition shows (m : ST D unit) (l : list (Z * Z)) : Prop := forall d, m d = show l d.

Lemma spin_returns n timer ticks (d : D) :
  0 <= timer <= ticks -> ticks - timer < Z.of_nat n -> ticks < 4294967296 ->
  spin_loop n timer ticks d = Done (tt, d).
Proof.
  revert timer. induction n as [|n IH]; intros timer Ht Hn Hmax; [lia|]. cbn [spin_loop].
  destruct (Z.ltb_spec timer ticks); [|done]. rewrite u32_id by (unfold is_u32; lia). apply IH; lia.
Qed.

Lemma shows_spin ticks : 0 <= ticks <= 2 * 1024 * 1024 -> shows (spin fuel ticks) [].
Proof. intros Ht d. apply spin_returns; lia. Qed.

Lemma shows_led led color : shows (led_set led color) [(led, color)].
Proof.
  intros d. unfold show. cbn [for_each fst snd]. unfold mbind, st_bind.
  by destruct (led_set led color d) as [[[] d']| |].
Qed.

Lemma shows_bind m1 m2 l1 l2 : shows m1 l1 -> shows m2 l2 -> shows (m1 ;; m2) (l1 ++ l2).
Proof.
  intros H1 H2 d. unfold show. rewrite for_each_app. fold (show l1) (show l2). unfold mbind, st_bind. rewrite H1.
  destruct (show l1 d) as [[u d']| |]; [|done..]. apply H2.
Qed.

Lemma shows_blink led color : shows (blink fuel led color) (blinks led color).
Proof.
  unfold blink. change (zseq 6) with [0; 1; 2; 3; 4; 5].
  assert (forall c, shows (led_set led c ;; spin fuel (512 * 1024)) [(led, c)]) as Hone.
  { intros c. apply (shows_bind _ _ [_] []); [apply shows_led|apply shows_spin; lia]. }
  cbn [for_each Z.land Pos.land negb Z.eqb].
  repeat (apply (shows_bind _ _ [_] _); [apply Hone|]). done.
Qed.

(** One step of a sequence. *)
Ltac show_step :=
  match goal with
  | |- shows (spin _ _) _ => apply shows_spin; lia
  | |- shows (mbind _ (spin _ _)) ?l => apply (shows_bind _ _ [] l); [apply shows_spin; lia|]
  | |- shows (mbind _ (led_set _ _)) (?x :: ?l) => apply (shows_bind _ _ [x] l); [apply shows_led|]
  | |- shows (mbind _ (blink _ _ _)) (?l1 ++ ?l2) => apply (shows_bind _ _ l1 l2); [apply shows_blink|]
  | |- shows (mbind _ (blink _ _ _)) ?l => apply (shows_bind _ _ l []); [apply shows_blink|]
  end.

Lemma shows_flash_LR color : shows (flash_LR fuel color) (flash LED_LEFT LED_RIGHT color).
Proof. unfold flash_LR, flash. repeat show_step. Qed.

Lemma shows_flash_RL color : shows (flash_RL fuel color) (flash LED_RIGHT LED_LEFT color).
Proof. unfold flash_RL, flash. repeat show_step. Qed.

(** The whole demonstration, without the waiting. *)
Lemma shows_demo_led : shows (demo_led fuel) demo_sequence.
Proof.
  unfold demo_led, demo_sequence. cbn [app].
  repeat first
    [ show_step
    | match goal with
      | |- shows (mbind _ (flash_LR _ _)) (?l1 ++ ?l2) => apply (shows_bind _ _ l1 l2); [apply shows_flash_LR|]
      | |- shows (mbind _ (flash_RL _ _)) (?l1 ++ ?l2) => apply (shows_bind _ _ l1 l2); [apply shows_flash_RL|]
      end ].
Qed.

End Shows.

(** ** The state of the pins *)

Section DemoPins.
Context {D : Type} `{GpioChip D} (fuel : nat).

(** Only pins of LEDs change. *)
Definition leds_only (d d' : D) : Prop :=
  forall q f, known_pin q f -> q ∉ led_pins ->
    pin_function f d' = pin_function f d /\ pin_is_input q d' = pin_is_input q d /\ chip_out q d' = chip_out q d.

Lemma leds_only_trans d1 d2 d3 : leds_only d1 d2 -> leds_only d2 d3 -> leds_only d1 d3.
Proof.
  intros H1 H2 q f Hq Hn. destruct (H1 q f Hq Hn) as (? & ? & ?), (H2 q f Hq Hn) as (? & ? & ?).
  split_and!; congruence.
Qed.

Definition setting_ok (p : Z * Z) : Prop := 1 <= p.1 <= 3 /\ 0 <= p.2 < 4.

Lemma led_set_leds led color (d : D) :
  setting_ok (led, color) -> exists d', led_set led color d = Done (tt, d') /\ leds_only d d'.
Proof.
  intros [Hl Hc]. destruct (led_set_correct led color d Hl Hc) as (d' & Hs & _ & Hoth). exists d'. split; [done|].
  intros q f Hq Hn. apply (Hoth q f Hq). intros Hin. apply Hn.
  rewrite fmap_app in Hin. unfold led_pins. apply elem_of_app in Hin as [Hin|Hin];
    [destruct (Z.testbit led 0)|destruct (Z.testbit led 1)]; cbn in Hin |- *; set_solver.
Qed.

Lemma show_leds l (d : D) :
  Forall setting_ok l -> exists d', show l d = Done (tt, d') /\ leds_only d d'.
Proof.
  intros Hl. revert d. induction Hl as [|[led color] l Hp _ IH]; intros d; [by exists d|].
  destruct (led_set_leds led color d Hp) as (d1 & H1 & L1). destruct (IH d1) as (d2 & H2 & L2).
  exists d2. split; [|by eapply leds_only_trans]. unfold show. cbn [for_each fst snd].
  by rewrite (bind_done _ _ _ _ _ H1).
Qed.

(** [demo_led] ends when each busy wait is given its iterations; it makes
    the settings of [demo_sequence] in order, leaves all four LED pins low and
    touches no other known pin. *)
Theorem demo_led_correct (d : D) :
  2 * 1024 * 1024 < Z.of_nat fuel ->
  exists d', demo_led fuel d = Done (tt, d') /\ show demo_sequence d = Done (tt, d') /\ leds_only d d' /\
    forall p, p ∈ led_pins -> chip_out p d' = false /\ pin_is_input p d' = false.
Proof.
  intros Hf.
  assert (exists l, demo_sequence = l ++ [(LED_BOTH, LED_BLACK)] /\ Forall setting_ok l) as (l & El & Hl).
  { exists (take (length demo_sequence - 1) demo_sequence). split; [by vm_compute|].
    unfold setting_ok. apply (bool_decide_unpack _). vm_compute. done. }
  destruct (show_leds l d Hl) as (d1 & H1 & L1).
  destruct (led_set_correct LED_BOTH LED_BLACK d1) as (d2 & H2 & Hset & _); [done..|].
  destruct (led_set_leds LED_BOTH LED_BLACK d1) as (d3 & H3 & L2); [done|]. rewrite H2 in H3. injection H3 as <-.
  assert (show demo_sequence d = Done (tt, d2)) as Hs.
  { rewrite El. unfold show. rewrite for_each_app. fold (show l). rewrite (bind_done _ _ _ _ _ H1).
    cbn [for_each fst snd]. by rewrite (bind_done _ _ _ _ _ H2). }
  exists d2. split; [by rewrite (shows_demo_led fuel Hf d)|]. split; [done|]. split; [by eapply leds_only_trans|].
  intros p Hp. apply (Hset p false).
  change ((p, false) ∈ (fun p => (p, false)) <$> led_pins). by apply (list_elem_of_fmap_2 (fun p => (p, false))).
Qed.

End DemoPins.

(** ** Witness *)

Lemma demo_led_correct_witness :
  exists d, demo_led (Z.to_nat (2 * 1024 * 1024 + 1)) example_chip = Done (tt, d) /\
    chip_out (GPIO_PIN 6 13) d = false.
Proof.
  destruct (demo_led_correct (Z.to_nat (2 * 1024 * 1024 + 1)) example_chip) as (d & Hd & _ & _ & Hp).
  - rewrite Z2Nat.id by lia. lia.
  - exists d. split; [exact Hd|]. apply (Hp (GPIO_PIN 6 13)). left.
Defined.
