(* ===== verification/Boot.v ===== *)
(** * Start-up: kernel_main of kernel/main.c

    The kernel's components put together: the banner, the PCI bus, the network
    card, the network task, the clock and the scheduler. [start_scheduler] does
    not return to [kernel_main] when it loads the first task's registers, so the
    result is [None] then, and the lines behind it run only when the scheduler
    had been running already. *)

From stdpp Require Import strings.
From S2P Require Import Prelude StateMonad Memory Bus RingBuffer Heap Clock Stdio Scheduler.
From S2P Require Import NetworkIo PacketQueue Pci E1000 Interrupt Syscall.

(** ** Definitions *)

Definition shuriken : list Z :=
  cstr "                 /\" ++ [10] ++
  cstr "                /  \" ++ [10] ++
  cstr "                |  |" ++ [10] ++
  cstr "              __/()\__" ++ [10] ++
  cstr "             /   /\   \" ++ [10] ++
  cstr "            /___/  \___\" ++ [10].

Section Boot.
Context {D : Type} `{Bus D} {card : Card D} {cpu : Cpu} {board : Board}.

(** Addresses the linker chooses. *)
Variables (network_task_recv syscall_handler irq_handler_address : Z).

(** [pci_init] fills the static table [pci_devices], which [e1000_init] reads. *)
Definition kernel_main (fuel : nat) (garbage : e1000_device) (table : list pci_device) : ST (kernel D) (option Z) :=
  _ ← uart_io (puts (cstr "This is ninjastorms OS"));
  _ ← uart_io (puts (cstr "  shuriken ready"));
  _ ← uart_io (puts shuriken);
  now ← gets k_clock;
  table ← on_nic_state (on_bus (pci_init now table));
  on_nic_state (e1000_init now fuel garbage table) ;;
  _ ← kernel_add_task network_task_recv;
  on_device time_init ;;
  running ← gets (fun k => isRunning (k_sched k));
  start_scheduler syscall_handler irq_handler_address ;;
  if running =? 0 then mret None
  else
    _ ← uart_io (puts (cstr "All done. ninjastorms out!"));
    mret (Some 0).

(** ** Correctness *)

Lemma boot_ring : sched_ring_ok sched_boot /\ ready sched_boot = [].
Proof. split; [split; [done|]; vm_compute; split; split; congruence|vm_compute; done]. Qed.

(** The banner on the UART. *)
Definition banner : list Z :=
  cstr "This is ninjastorms OS" ++ [10] ++ cstr "  shuriken ready" ++ [10] ++ shuriken ++ [10].

Lemma banner_plain : plain_text (cstr "This is ninjastorms OS") /\ plain_text (cstr "  shuriken ready") /\ plain_text shuriken.
Proof. literal. Qed.

Lemma banner_emitted (d : D) :
  emit (shuriken ++ [10]) (emit (cstr "  shuriken ready" ++ [10]) (emit (cstr "This is ninjastorms OS" ++ [10]) d)) =
  emit banner d.
Proof. unfold banner. by rewrite !emit_app. Qed.

Lemma set_n_dev_twice (d d' : D) (n : nic_state D) : set_n_dev d (set_n_dev d' n) = set_n_dev d n.
Proof. done. Qed.

(** The state behind the banner. *)
Lemma uart_puts s (k : kernel D) : plain_text s ->
  uart_io (puts s) k = Done (0, set_k_nic (set_n_dev (emit (s ++ [10]) (n_dev (k_nic k))) (k_nic k)) k).
Proof. intros Hs. by apply uart_io_done, puts_spec. Qed.

Lemma first_task_ready entry :
  let s := (add_task CPSR_MODE_SVC entry sched_boot).2 in
  sched_ring_ok s /\ ready s = [Some 0%nat] /\ isRunning s = 0 /\ task_count s = 1 /\
  tasks s !! 0%nat = Some (init_task (u32 entry) (task_stackbase 0)).
Proof.
  destruct boot_ring as [Hok Hr].
  split; [by apply add_task_ring_ok|]. split_and!; try done.
Qed.

Lemma kernel_main_spec fuel garbage table (k : kernel D) sp :
  k_sched k = sched_boot -> Z.land (cpsr (k_context k)) 0x1f = CPSR_MODE_SVC ->
  heap_rep (n_heap (k_nic k)) sp -> (length (s_free sp) < fuel)%nat ->
  exists k' n, kernel_main fuel garbage table k = Done (None, k') /\
    (let '(table', d) := pci_init (k_clock k) table (emit banner (n_dev (k_nic k))) in
     e1000_init (k_clock k) fuel garbage table' (set_n_dev d (k_nic k)) = Done (tt, n)) /\
    k_context k' = init_task (u32 network_task_recv) (task_stackbase 0) /\
    current_task (k_sched k') = Some 0%nat /\ ready (k_sched k') = [] /\ task_count (k_sched k') = 1 /\
    isRunning (k_sched k') = 1 /\ k_clock k' = k_clock k /\ k_irq_sp k' = IRQ_STACK_ADDRESS /\
    ram (n_heap (k_nic k')) = setup_ivt syscall_handler irq_handler_address (ram (n_heap n)) /\
    n_dev (k_nic k') =
      timer_start TIMER_LOAD_VALUE (init_interrupt_controller (timer_stop (time_init (n_dev n)))) /\
    k_sched k' = start_scheduler_tasks (add_task CPSR_MODE_SVC network_task_recv sched_boot).2 /\
    n_queue (k_nic k') = n_queue n /\ n_e1000 (k_nic k') = n_e1000 n /\ k_table k' = k_table k /\
    n_heap (k_nic k') = set_ram (setup_ivt syscall_handler irq_handler_address (ram (n_heap n))) (n_heap n).
Proof.
  intros Hs Hmode Hrep Hfuel. destruct banner_plain as (P1 & P2 & P3).
  destruct (pci_init (k_clock k) table (emit banner (n_dev (k_nic k)))) as [table' d] eqn:Hpci.
  destruct (e1000_init_returns fuel (k_clock k) garbage table' (set_n_dev d (k_nic k)) sp) as (n & _ & He1000 & _); [done..|].
  unfold kernel_main.
  rewrite (bind_done _ _ _ _ _ (uart_puts _ k P1)).
  rewrite (bind_done _ _ _ _ _ (uart_puts _ _ P2)), (bind_done _ _ _ _ _ (uart_puts _ _ P3)).
  cbn [k_nic set_k_nic set_n_dev n_dev]. rewrite banner_emitted.
  erewrite (bind_done (gets k_clock)) by done. cbn [k_clock set_k_nic].
  erewrite bind_done.
  2:{ unfold on_nic_state, zoom, on_bus, lift. cbn [k_nic set_k_nic set_n_dev n_dev]. by rewrite Hpci. }
  erewrite bind_done.
  2:{ unfold on_nic_state, zoom. cbn [k_nic set_k_nic].
      rewrite !set_n_dev_twice, He1000. done. }
  cbn [k_nic set_k_nic]. set (k1 := set_k_nic n _).
  destruct (first_task_ready network_task_recv) as (Hok & Hr & Hrun & Hcount & Htask).
  set (s := (add_task CPSR_MODE_SVC network_task_recv sched_boot).2) in *.
  rewrite (bind_done _ _ k1 0 (set_k_sched s k1)).
  2:{ unfold kernel_add_task. change (k_sched k1) with (k_sched k). change (k_context k1) with (k_context k).
      by rewrite Hs, (add_task_svc _ _ _ Hmode). }
  erewrite bind_done by done. cbn [k_nic set_k_nic set_k_sched]. set (k2 := set_k_nic _ (set_k_sched s k1)).
  rewrite (bind_done _ _ k2 0 k2) by done.
  destruct (start_scheduler_spec syscall_handler irq_handler_address k2 0 [] _ Hok Hr Htask) as [Hstart _].
  destruct (Hstart Hrun) as (k' & Hk' & Hctx & Hcur & Hready & Hrun' & Hcnt & Hram & Hsp & Hclk & Hdev & Hsch & Hqu & He & Htb & Hhp).
  rewrite (bind_done _ _ _ _ _ Hk'). exists k', n. split; [done|]. split_and!; try done.
Qed.

(** C22: From the boot state in supervisor mode [kernel_main] prints the banner,
    sets up PCI and the card, and hands the processor to the network task,
    whatever the devices answer: it is task 0, in user mode, at its entry point
    with its own stack, nothing else is ready, the clock still stands at zero,
    the vector table is in RAM behind whatever the card's set-up did, and the
    clock's and the scheduler's timers are programmed. It never returns to the
    line behind. *)
Theorem kernel_main_boots fuel garbage table (k : kernel D) sp :
  k_sched k = sched_boot -> Z.land (cpsr (k_context k)) 0x1f = CPSR_MODE_SVC ->
  heap_rep (n_heap (k_nic k)) sp -> (length (s_free sp) < fuel)%nat ->
  exists k' n, kernel_main fuel garbage table k = Done (None, k') /\
    (let '(table', d) := pci_init (k_clock k) table (emit banner (n_dev (k_nic k))) in
     e1000_init (k_clock k) fuel garbage table' (set_n_dev d (k_nic k)) = Done (tt, n)) /\
    k_context k' = init_task (u32 network_task_recv) (task_stackbase 0) /\
    current_task (k_sched k') = Some 0%nat /\ ready (k_sched k') = [] /\ task_count (k_sched k') = 1 /\
    isRunning (k_sched k') = 1 /\ k_clock k' = k_clock k /\ k_irq_sp k' = IRQ_STACK_ADDRESS /\
    ram (n_heap (k_nic k')) = setup_ivt syscall_handler irq_handler_address (ram (n_heap n)) /\
    n_dev (k_nic k') =
      timer_start TIMER_LOAD_VALUE (init_interrupt_controller (timer_stop (time_init (n_dev n)))).
Proof.
  intros Hs Hmode Hrep Hfuel.
  destruct (kernel_main_spec fuel garbage table k sp Hs Hmode Hrep Hfuel)
    as (k' & n & Hk & Hn & Hctx & Hcur & Hr & Hcnt & Hrun & Hclk & Hsp & Hram & Hdev & _).
  exists k', n. by split_and!.
Qed.

End Boot.

(** ** Witness *)

Definition example_start : kernel regfile :=
  mk_kernel (mk_nic (mk_regfile ∅) (initial_heap ∅) None pqueue_boot) sched_boot 0
    (mk_task (replicate 13 0) 0 0 0x10030 0xD3) 0 None.

Lemma kernel_main_boots_witness :
  exists k', kernel_main (cpu := LittleEndian) (board := 0) 0x10000 0x10100 0x10200 50 example_e1000 [] example_start =
      Done (None, k') /\ pc (k_context k') = 0x10000.
Proof.
  destruct (kernel_main_boots (cpu := LittleEndian) (board := 0) 0x10000 0x10100 0x10200 50
    example_e1000 [] example_start (mk_spec [] [] HEAP_START)) as (k' & n & Hk & _ & Hc & _);
    [done|done|apply initial_heap_rep|simpl; lia|].
  exists k'. split; [exact Hk|]. by rewrite Hc.
Defined.
