(* ===== verification/System.v ===== *)
(** * The running system

    The kernel after [kernel_main]: tasks compute in user mode, write to RAM and
    to devices, call the kernel; the network card acts on its own; interrupts
    are taken at any point between.  Every reachable state can take the next
    interrupt and serve the next system call, and then goes on with a created
    task in user mode.  A preempted task gets its registers back, whatever the others
    do until then. *)

From S2P Require Import Prelude StateMonad Memory Bus RingBuffer Heap Clock Stdio Scheduler.
From S2P Require Import NetworkIo PacketQueue PciMmio Pci E1000 Ethernet Driver Reception CardInit Interrupt Syscall Boot.

(** ** Definitions *)

(** A task structure holds words. *)
Definition task_typed (t : task_t) : Prop :=
  length (reg t) = 13%nat /\ Forall is_u32 (reg t) /\ is_u32 (sp t) /\ is_u32 (lr t) /\ is_u32 (pc t) /\ is_u32 (cpsr t).

(** The registers of code in user mode, where interrupts cannot be masked. *)
Definition user_context (t : task_t) : Prop :=
  task_typed t /\ Z.land (cpsr t) 0x1f = CPSR_MODE_USER /\ Z.testbit (cpsr t) 7 = false.

#[export] Instance user_context_dec t : Decision (user_context t).
Proof. unfold user_context, task_typed. apply _. Defined.

Section System.
Context {D : Type} `{E1000Card D} {cpu : Cpu} {board : Board} (unspecified : nat -> Z) (fuel : nat).

(** What can happen between two instructions of a task.  Tasks do not touch the
    kernel's variables (the network task's ARP table apart), the driver's structure
    or the card's registers other than through the code of the kernel; one frame is
    sent at a time. *)
Inductive sys_step : kernel D -> kernel D -> Prop :=
| user_computes k t h tb :
    user_context t -> sys_step k (set_k_table tb (set_k_context t (set_k_nic (set_n_heap h (k_nic k)) k)))
| user_reads k n a :
    sys_step k (set_k_nic (set_n_dev (bus_read n a (n_dev (k_nic k))).2 (k_nic k)) k)
| user_writes k n a v :
    a < 0x41000000 -> sys_step k (set_k_nic (set_n_dev (bus_write n a v (n_dev (k_nic k))) (k_nic k)) k)
| card_acts k : sys_step k (set_k_nic (acts (k_nic k)) k)
| packet_taken k :
    packets (n_queue (k_nic k)) <> [] ->
    sys_step k (set_k_nic (set_n_queue (remove_packet_advance (n_queue (k_nic k))) (k_nic k)) k)
| frame_given k a e p len :
    driver_ready (k_nic k) -> n_e1000 (k_nic k) = Some (a, e) ->
    sys_step k (set_k_nic (doorbell a e p len (k_nic k)) k)
| system_call k number data r k' :
    is_u32 number -> call_defined number data -> is_u32 data ->
    syscall unspecified number data k = Done (r, k') -> sys_step k k'
| interrupt k k' : irq_handler fuel k = Done (tt, k') -> sys_step k k'.

(** ** The invariant *)

Definition tasks_user (s : sched) : Prop :=
  forall i t, tasks s !! i = Some t -> Z.of_nat i < task_count s -> user_context t.

(** [bound] bounds the packets the card can still deliver. *)
Definition sys_inv (bound : nat) (k : kernel D) : Prop :=
  nic_inv (k_nic k) /\ (nic_load (k_nic k) <= bound)%nat /\
  sched_inv (k_sched k) /\ isRunning (k_sched k) <> 0 /\ tasks_user (k_sched k) /\ user_context (k_context k).

(** A change to the card's side only. *)
Lemma sys_inv_nic bound k n :
  sys_inv bound k -> handling (k_nic k) n -> sys_inv bound (set_k_nic n k).
Proof. intros (Hn & Hl & Hrest) (Hn' & Hl' & _). split; [done|]. split; [cbn; lia|done]. Qed.

(** The running task is one of the created ones. *)
Lemma current_created bound k :
  sys_inv bound k -> exists i, current_task (k_sched k) = Some i /\ Z.of_nat i < task_count (k_sched k) <= 16 /\
    (i < length (tasks (k_sched k)))%nat.
Proof.
  intros (_ & _ & (_ & Hlen & Hc & Hsub & _) & Hrun & _).
  assert (current_task (k_sched k) ∈ created (k_sched k)) as (i & Hi & Hin%elem_of_seq)%list_elem_of_fmap.
  { eapply elem_of_submseteq; [|exact Hsub]. unfold live. rewrite (proj2 (Z.eqb_neq _ _) Hrun). apply elem_of_cons. by left. }
  exists i. split; [done|]. lia.
Qed.

(** *** Interrupts *)

Lemma handle_interrupt_returns (k : kernel D) :
  nic_inv (k_nic k) -> (nic_load (k_nic k) < fuel)%nat ->
  exists k', handle_interrupt fuel k = Done (tt, k') /\ serving (k_nic k) (k_nic k').
Proof.
  intros Hn Hload. pose proof (handle_interrupt_eq fuel k) as E. unfold read32 in E.
  pose proof (bus_read_serving 4 (u32 PIC_IRQ_STATUS) (k_nic k) Hn) as Hr.
  destruct (bus_read 4 (u32 PIC_IRQ_STATUS) (n_dev (k_nic k))) as [status d]. cbv zeta in E. rewrite E. clear E.
  cbn [snd] in Hr. pose proof Hr as ((Hn1 & Hl1 & _) & _).
  set (k1 := set_k_nic (set_n_dev d (k_nic k)) k) in *.
  assert (forall k0 : kernel D, nic_inv (k_nic k0) ->
    let k1 := if negb (Z.land (u32 status) TIMER1_INTBIT =? 0) then after_timer k0 else k0 in
    serving (k_nic k0) (k_nic (if negb (Z.land (u32 status) TIMER3_INTBIT =? 0) then after_clock k1 else k1))) as Htail.
  { intros k0 Hk0. cbv zeta.
    assert (serving (k_nic k0) (k_nic (if negb (Z.land (u32 status) TIMER1_INTBIT =? 0) then after_timer k0 else k0))) as Ht.
    { destruct (negb _); [|by apply serving_refl]. by apply bus_write_serving. }
    destruct (negb (Z.land (u32 status) TIMER3_INTBIT =? 0)); [|done].
    eapply serving_trans; [exact Ht|]. by apply bus_write_serving; [apply Ht|]. }
  destruct (negb (Z.land (u32 status) PCI3_INTBIT =? 0)).
  - destruct (e1000_irq_handler_serving (k_clock k) fuel (k_nic k1)) as (n & -> & Hh); [done|unfold k1; cbn [k_nic set_k_nic]; lia|].
    eexists. split; [done|]. eapply serving_trans; [exact Hr|]. eapply serving_trans; [exact Hh|].
    apply (Htail (set_k_nic n k1)), Hh.
  - eexists. split; [done|]. eapply serving_trans; [exact Hr|]. by apply (Htail k1).
Qed.

Lemma handle_interrupt_sched_inv (k k' : kernel D) :
  handle_interrupt fuel k = Done (tt, k') -> sched_inv (k_sched k) -> isRunning (k_sched k) <> 0 ->
  sched_inv (k_sched k') /\ isRunning (k_sched k') <> 0 /\ task_count (k_sched k') = task_count (k_sched k) /\
  tasks (k_sched k') = tasks (k_sched k) /\ k_context k' = k_context k.
Proof.
  intros Hh Hs Hrun. destruct (handle_interrupt_frame _ _ _ Hh) as (Hc & _ & Hcase).
  destruct Hcase as [Es|Es]; rewrite Es; [done|].
  destruct (schedule_fields (k_sched k)) as (-> & -> & ->). split; [by apply tick_inv|done].
Qed.

(** Saving the interrupted registers keeps the scheduler's invariant. *)
Lemma save_inv s i t : sched_inv s -> sched_inv (with_tasks s (task_count s) (<[i := t]> (tasks s))).
Proof. intros (? & Hl & ? & ? & ?). split; [done|]. split; [by cbn; rewrite length_insert|]. done. Qed.

Lemma save_user s i t :
  tasks_user s -> user_context t -> tasks_user (with_tasks s (task_count s) (<[i := t]> (tasks s))).
Proof.
  intros Hu Ht j t'. cbn. intros Hj Hlt. destruct (decide (i = j)) as [->|Hne].
  - destruct (decide (j < length (tasks s))%nat).
    + rewrite list_lookup_insert_eq in Hj by done. by injection Hj as <-.
    + rewrite list_insert_ge in Hj by lia. by eapply Hu.
  - rewrite list_lookup_insert_ne in Hj by done. by eapply Hu.
Qed.

Lemma irq_handler_returns bound (k : kernel D) :
  sys_inv bound k -> (bound < fuel)%nat ->
  exists k', irq_handler fuel k = Done (tt, k') /\ sys_inv bound k' /\ serving (k_nic k) (k_nic k').
Proof.
  intros Hk Hfuel. destruct (current_created bound k Hk) as (i & Hi & Hlt & Hlen).
  destruct Hk as (Hn & Hl & Hs & Hrun & Hu & Hctx).
  set (k1 := set_k_sched (with_tasks (k_sched k) (task_count (k_sched k)) (<[i := k_context k]> (tasks (k_sched k)))) k).
  assert (save_current_task_state k = Done (tt, k1)) as Hsave by (unfold save_current_task_state; by rewrite Hi).
  destruct (handle_interrupt_returns k1) as (k2 & Hh & Hn2); [done|cbn; lia|].
  destruct (handle_interrupt_sched_inv _ _ Hh) as (Hs2 & Hrun2 & Hc2 & Ht2 & Hctx2); [by apply save_inv|done|].
  assert (sys_inv bound k2) as Hk2.
  { destruct Hn2 as [(Hn2' & Hl2 & _) _]. split; [done|]. split; [cbn in Hl2; lia|]. split; [done|]. split; [done|].
    split; [|by rewrite Hctx2]. intros j t. rewrite Hc2, Ht2. by apply (save_user (k_sched k) i (k_context k)). }
  destruct (current_created bound k2 Hk2) as (j & Hj & Hjlt & Hjlen).
  destruct (lookup_lt_is_Some_2 _ _ Hjlen) as [t Ht].
  exists (set_k_context t k2). split.
  - unfold irq_handler. rewrite (bind_done _ _ _ _ _ Hsave), (bind_done _ _ _ _ _ Hh).
    unfold load_current_task_state. by rewrite Hj, Ht.
  - split; [|done]. destruct Hk2 as (? & ? & ? & ? & Hu2 & _). split_and!; try done; apply (Hu2 j t Ht); lia.
Qed.

(** *** The steps of the tasks *)

Lemma acts_queue (s : nic_state D) : n_queue (acts s) = n_queue s.
Proof. unfold acts. destruct (n_e1000 s) as [[a e]|]; [|done]. by destruct (card_step _ _) as [[[d m] rx] tx]. Qed.

Lemma doorbell_handling s a e p len :
  nic_inv s -> driver_ready s -> n_e1000 s = Some (a, e) -> handling s (doorbell a e p len s).
Proof.
  clear unspecified fuel. intros (Hq & a1 & e1 & He1 & Hpci & Hrx & Hw & _) (a2 & e2 & He2 & _ & Hlen & Hcur & _ & _ & Hvh & _) He.
  rewrite He in He1, He2. injection He1 as <- <-. injection He2 as <- <-.
  destruct (register_write (e_mem_base e) 0x3818 ((tx_cur e + 1) mod 8) (n_dev s)) as [Hview Hp];
    [done|lia|done|unfold is_u32; word_lia|lia|].
  unfold register_written in Hview. rewrite Hvh, (setup_tx_tail _ (v_setup _)) in Hview.
  destruct (lookup_lt_is_Some_2 (tx_descs e) (Z.to_nat (tx_cur e))) as [x Hx]; [lia|].
  apply handling_quiet; try done.
  - split; [done|]. eexists a, _. split; [done|]. unfold doorbell, card_up. cbn [n_dev]. split; [by rewrite Hview|].
    split; [done|]. destruct Hw as (? & ? & ? & Hb). unfold window_ok. rewrite Hview.
    split; [done|]. split; [done|]. split; [cbn; word_lia|]. right. split; [done|].
    cbn. rewrite list_lookup_alter_eq, Hx. by eexists.
  - unfold nic_load, doorbell. rewrite He. cbn [n_e1000 n_dev rx_descs with_cursors with_tx_descs]. lia.
  - intros b. unfold driver_dma, doorbell. by rewrite He.
Qed.

Lemma remove_packet_advance_ok q : pqueue_ok q -> packets q <> [] -> pqueue_ok (remove_packet_advance q).
Proof.
  intros Hq Hne. pose proof (remove_packet_spec q Hq) as Hr. destruct (packets q) as [|x l]; [done|].
  destruct Hr as (q' & Hr & _ & _ & _ & _ & Hok & _). unfold remove_packet in Hr.
  destruct (_ =? _); [done|]. injection Hr as <-. exact Hok.
Qed.

Lemma init_task_typed entry stack : is_u32 entry -> is_u32 stack -> task_typed (init_task entry stack).
Proof. intros He Hs. split; [done|]. split; [by apply (bool_decide_unpack _); vm_compute|]. by split_and!. Qed.

Lemma init_task_user entry stack : is_u32 entry -> is_u32 stack -> user_context (init_task entry stack).
Proof. intros He Hs. split; [by apply init_task_typed|done]. Qed.

Lemma add_task_user mode entry s :
  sched_inv s -> tasks_user s -> tasks_user (add_task mode entry s).2.
Proof.
  intros (Hok & Hlen & Hc & _) Hu. destruct (add_task_spec mode entry s Hok Hlen ltac:(lia)) as (Hb1 & Hb2 & Hb3).
  destruct (decide (Z.land mode 0x1f = 0x10)) as [Hm|Hm]; [by rewrite Hb1|].
  destruct (decide (16 <= task_count s)); [by rewrite Hb2|].
  destruct Hb3 as (s' & E & Hc' & Ht & Hother & _); [done|lia|]. rewrite E. cbn [snd].
  intros j t Hj Hlt. destruct (decide (j = Z.to_nat (task_count s))) as [->|Hne].
  - rewrite Ht in Hj. injection Hj as <-. apply init_task_user; [apply u32_range|unfold is_u32; lia].
  - rewrite Hother in Hj by done. apply (Hu j t Hj). lia.
Qed.

Lemma call_sched_inv s number entry :
  sched_inv s -> tasks_user s -> isRunning s <> 0 ->
  let r := call_sched number entry s in sched_inv r /\ tasks_user r /\ isRunning r <> 0.
Proof.
  intros Hs Hu Hrun. unfold call_sched. destruct (number =? ZERO_SYSCALL); [done|].
  destruct (number =? CREATE_PROCESS); [|by destruct (number =? SHUTDOWN)].
  split; [by apply add_task_inv|]. split; [by apply add_task_user|].
  unfold add_task. destruct (negb _); [done|]. destruct (_ <=? _); [done|].
  unfold ring_buffer_insert. by destruct (negb _).
Qed.

(** The registers behind a call are those of a task. *)
Lemma returned_user r t : is_u32 r -> user_context t -> user_context (returned_from unspecified r t).
Proof.
  intros Hr ((Hl & Hw & Hrest) & Hmode). destruct (returned_kept unspecified r t) as (El & _).
  split; [|exact Hmode]. split; [by rewrite El|]. split; [by apply returned_words|exact Hrest].
Qed.

(** A system call returns to its caller. *)
Lemma syscall_returns bound number data (k : kernel D) :
  is_u32 number -> call_defined number data -> is_u32 data -> sys_inv bound k ->
  exists r k', syscall unspecified number data k = Done (r, k') /\ sys_inv bound k' /\
    k_context k' = returned_from unspecified r (k_context k) /\
    exists text, k_nic k' = set_n_dev (emit text (n_dev (k_nic k))) (k_nic k).
Proof.
  intros Hno Hdef Hdata (Hn & Hl & Hs & Hrun & Hu & Hctx).
  destruct (syscall_spec unspecified number data k) as (text & _ & Hsys); [done..|].
  eexists _, _. split; [exact Hsys|]. split; [|split; [done|by exists text]].
  destruct (emit_serving text (k_nic k) Hn) as [(Hn' & Hl' & _) _].
  destruct (call_sched_inv (k_sched k) number (load cpu_endian 4 (kernel_ram k) data) Hs Hu Hrun)
    as (Hs' & Hu' & Hrun').
  split; [done|]. split; [etrans; [exact Hl'|done]|]. split_and!; try done.
  apply returned_user; [apply call_result_u32|done].
Qed.

(** *** Preservation *)

Lemma sys_step_inv bound k k' : (bound < fuel)%nat -> sys_step k k' -> sys_inv bound k -> sys_inv bound k'.
Proof.
  intros Hfuel Hstep Hk. pose proof Hk as (Hn & Hl & Hs & Hrun & Hu & Hctx).
  destruct Hstep as [k t h tb Ht|k n a|k n a v Ha|k|k Hne|k a e p len Hr He|k number data r k' Hno Hmin Hdata Hsys|k k' Hirq].
  - split; [exact Hn|]. by split_and!.
  - apply sys_inv_nic; [done|]. by apply bus_read_serving.
  - apply sys_inv_nic; [done|]. by apply bus_write_serving.
  - apply sys_inv_nic; [done|]. by apply acts_serving.
  - destruct Hn as (Hq & Hn). split; [|by split_and!]. split; [by apply remove_packet_advance_ok|exact Hn].
  - apply sys_inv_nic; [done|]. by apply doorbell_handling.
  - destruct (syscall_returns bound number data k Hno Hmin Hdata Hk) as (r' & k2 & Hs2 & Hk2 & _).
    rewrite Hsys in Hs2. by injection Hs2 as _ <-.
  - destruct (irq_handler_returns bound k Hk Hfuel) as (k2 & Hi2 & Hk2 & _).
    rewrite Hirq in Hi2. by injection Hi2 as <-.
Qed.

Lemma sys_steps_inv bound k k' : (bound < fuel)%nat -> rtc sys_step k k' -> sys_inv bound k -> sys_inv bound k'.
Proof. intros Hf. induction 1 as [|x y z Hxy _ IH]; [done|]. intros Hx. by apply IH, (sys_step_inv bound x). Qed.

(** *** Preempted tasks *)

(** A new task takes a place of its own. *)
Lemma add_task_other mode entry s i :
  sched_inv s -> Z.of_nat i < task_count s ->
  tasks (add_task mode entry s).2 !! i = tasks s !! i /\ task_count s <= task_count (add_task mode entry s).2.
Proof.
  intros (Hok & Hlen & Hc & _) Hi. destruct (add_task_spec mode entry s Hok Hlen ltac:(lia)) as (Hb1 & Hb2 & Hb3).
  destruct (decide (Z.land mode 0x1f = 0x10)) as [Hm|Hm]; [by rewrite Hb1|].
  destruct (decide (16 <= task_count s)); [by rewrite Hb2|].
  destruct Hb3 as (s' & -> & Hc' & _ & Hother & _); [done|lia|]. cbn [snd]. split; [apply Hother|]; lia.
Qed.

Lemma irq_handler_count k k' : irq_handler fuel k = Done (tt, k') -> task_count (k_sched k') = task_count (k_sched k).
Proof.
  intros Hirq. apply bind_done_inv in Hirq as ([] & k1 & Hsave & Hirq). apply bind_done_inv in Hirq as ([] & k2 & Hh & Hload).
  unfold save_current_task_state in Hsave. destruct (current_task (k_sched k)); [|done]. injection Hsave as <-.
  unfold load_current_task_state in Hload. destruct (current_task (k_sched k2)); [|done].
  destruct (tasks _ !! _); [|done]. injection Hload as <-. cbn [k_sched set_k_context].
  destruct (handle_interrupt_frame _ _ _ Hh) as (_ & _ & [-> | ->]); [done|].
  match goal with |- task_count (schedule ?s) = _ => by destruct (schedule_fields s) as (_ & -> & _) end.
Qed.

(** A step from a state in which another task than [i] is current. *)
Definition step_without (i : nat) (k k' : kernel D) : Prop :=
  current_task (k_sched k) <> Some i /\ sys_step k k'.

Lemma step_without_saved bound i k k' :
  sys_inv bound k -> Z.of_nat i < task_count (k_sched k) -> step_without i k k' ->
  tasks (k_sched k') !! i = tasks (k_sched k) !! i /\ task_count (k_sched k) <= task_count (k_sched k').
Proof.
  intros Hk Hi [Hne Hstep].
  destruct Hstep as [k t h tb Ht|k n a|k n a v Ha|k|k _|k a e p len Hr He|k number data r k' Hno Hdef Hdata Hsys|k k' Hirq];
    try done.
  - destruct (syscall_spec unspecified number data k) as (text & _ & Hsys'); [done..|]. rewrite Hsys in Hsys'.
    injection Hsys' as _ ->. change (k_sched (after_syscall _ _ _ _ ?s)) with s. unfold call_sched.
    destruct (number =? ZERO_SYSCALL); [done|]. destruct (number =? CREATE_PROCESS); [|by destruct (number =? SHUTDOWN)].
    apply add_task_other; [apply Hk|done].
  - rewrite (irq_handler_count _ _ Hirq). destruct (irq_handler_spec _ _ _ Hirq) as (a & b & Ha & _ & -> & _).
    split; [|done]. apply list_lookup_insert_ne. by intros ->.
Qed.

Lemma steps_without_saved bound i k k' :
  (bound < fuel)%nat -> sys_inv bound k -> Z.of_nat i < task_count (k_sched k) -> rtc (step_without i) k k' ->
  tasks (k_sched k') !! i = tasks (k_sched k) !! i.
Proof.
  intros Hf Hk Hi Hsteps. revert Hk Hi. induction Hsteps as [|x y z Hxy _ IH]; [done|]. intros Hk Hi.
  destruct (step_without_saved bound i x y Hk Hi Hxy) as [<- Hle]. apply IH; [|lia].
  destruct Hxy as [_ Hxy]. by apply (sys_step_inv bound x).
Qed.

(** C7: A preempted task resumes with exactly the registers it was interrupted with,
    whatever happens in between while other tasks run: they compute, write to RAM and
    devices, make system calls, creating tasks among them, the card acts, packets
    are queued and sent, and any number of interrupts is taken.  An interrupt that
    does not switch tasks is transparent. *)
Theorem preempted_task_resumes bound i (k k1 k2 k3 : kernel D) :
  (bound < fuel)%nat -> sys_inv bound k -> current_task (k_sched k) = Some i ->
  irq_handler fuel k = Done (tt, k1) ->
  (current_task (k_sched k1) = Some i -> k_context k1 = k_context k) /\
  (rtc (step_without i) k1 k2 -> current_task (k_sched k2) <> Some i ->
   irq_handler fuel k2 = Done (tt, k3) -> current_task (k_sched k3) = Some i ->
   k_context k3 = k_context k).
Proof.
  intros Hf Hk Hi Hirq. destruct (current_created bound k Hk) as (i0 & Hi0 & Hlt & Hlen).
  rewrite Hi in Hi0. injection Hi0 as <-.
  destruct (irq_handler_spec _ _ _ Hirq) as (i' & j & Ei & Ej & Ht & Hctx).
  rewrite Hi in Ei. injection Ei as <-.
  assert (tasks (k_sched k1) !! i = Some (k_context k)) as Hsaved
    by (rewrite Ht; by apply list_lookup_insert_eq).
  split.
  - intros Hj. rewrite Hj in Ej. injection Ej as <-. rewrite Hsaved in Hctx. by injection Hctx.
  - intros Hsteps Hne Hirq2 Hcur.
    assert (sys_inv bound k1) as Hk1 by (by apply (sys_step_inv bound k); [|apply interrupt|]).
    rewrite <- (steps_without_saved bound i k1 k2 Hf Hk1) in Hsaved by (done || rewrite (irq_handler_count _ _ Hirq); lia).
    destruct (irq_handler_spec _ _ _ Hirq2) as (a & b & Ha & Hb & Ht2 & Hctx2).
    rewrite Hcur in Hb. injection Hb as <-. rewrite Ht2, list_lookup_insert_ne in Hctx2 by congruence.
    rewrite Hsaved in Hctx2. by injection Hctx2.
Qed.

(** ** From power-on *)

(** Code that touches devices other than the card. *)
Definition quiet (f : D -> D) : Prop := forall s, nic_inv s -> serving s (set_n_dev (f (n_dev s)) s).

Lemma quiet_comp (f g : D -> D) : quiet f -> quiet g -> quiet (fun d => g (f d)).
Proof.
  intros Hf Hg s Hs. pose proof (Hf s Hs) as H1. eapply serving_trans; [exact H1|].
  apply (Hg (set_n_dev (f (n_dev s)) s)), H1.
Qed.

Lemma quiet_write n a v : a < 0x41000000 -> quiet (bus_write n a v).
Proof. intros Ha s Hs. by apply bus_write_serving. Qed.

(** A register read and written back. *)
Lemma quiet_update n a (v : Z -> Z) :
  a < 0x41000000 -> quiet (fun d => let '(x, d) := bus_read n a d in bus_write n a (v x) d).
Proof.
  intros Ha s Hs. pose proof (bus_read_serving n a s Hs) as Hr. destruct (bus_read n a (n_dev s)) as [x d].
  cbn [snd] in Hr. eapply serving_trans; [exact Hr|]. apply (quiet_write n a (v x) Ha (set_n_dev d s)), Hr.
Qed.

Lemma quiet_id : quiet (fun d => d).
Proof. intros s Hs. destruct s. by apply serving_refl. Qed.

(** A small register access. *)
Ltac quiet_access :=
  intros Ha; unfold or8, and8, or32, read8, read32, write8, write32;
  let s := fresh in let Hs := fresh in
  intros s Hs;
  match goal with
  | |- context [bus_read ?n ?a (n_dev s)] =>
      pose proof (bus_read_serving n a s Hs) as Hr; destruct (bus_read n a (n_dev s)) as [x d];
      cbn [snd] in Hr; eapply serving_trans; [exact Hr|]; apply (quiet_write n a _ Ha (set_n_dev d s)), Hr
  end.

Lemma quiet_or8 a m : u32 a < 0x41000000 -> quiet (or8 a m).
Proof. quiet_access. Qed.
Lemma quiet_and8 a m : u32 a < 0x41000000 -> quiet (and8 a m).
Proof. quiet_access. Qed.
Lemma quiet_or32 a m : u32 a < 0x41000000 -> quiet (or32 a m).
Proof. quiet_access. Qed.
Lemma quiet_write8 a v : u32 a < 0x41000000 -> quiet (write8 a v).
Proof. apply quiet_write. Qed.
Lemma quiet_write32 a v : u32 a < 0x41000000 -> quiet (write32 a v).
Proof. apply quiet_write. Qed.

(** A sequence of such accesses. *)
Ltac quiet_sequence :=
  repeat match goal with
  | |- quiet (fun d => d) => apply quiet_id
  | |- quiet (fun d => ?g ?a ?b (@?f d)) =>
      apply (quiet_comp f (g a b));
      [|first [apply quiet_or8 | apply quiet_and8 | apply quiet_or32 | apply quiet_write8 | apply quiet_write32];
        by vm_compute]
  end.

(** The timers and the interrupt controllers. *)
Lemma quiet_boot :
  quiet (fun d => timer_start TIMER_LOAD_VALUE (init_interrupt_controller (timer_stop (time_init d)))).
Proof.
  unfold timer_start, init_interrupt_controller, init_timer_interrupt, init_pci_interrupt, timer_stop,
    time_init, clock_start, clock_stop. cbv zeta. quiet_sequence.
Qed.

(** The scheduler behind [kernel_main]: the network task runs. *)
Lemma boot_sched entry :
  let s := start_scheduler_tasks (add_task CPSR_MODE_SVC entry sched_boot).2 in
  sched_inv s /\ isRunning s <> 0 /\ tasks_user s.
Proof.
  cbv zeta. destruct (first_task_ready entry) as (Hok & Hr & Hrun & Hcount & _).
  pose proof (add_task_inv CPSR_MODE_SVC entry sched_boot boot_inv) as Hinv.
  destruct (start_tasks_eq _ _ _ Hok Hr) as (_ & Ht & _ & Hrun' & Hc).
  split; [apply start_inv; [done..|by rewrite Hr]|]. split; [by rewrite Hrun'|].
  intros i t. rewrite Ht, Hc. apply (add_task_user CPSR_MODE_SVC entry sched_boot boot_inv).
  intros j u _ Hj. cbn in Hj. lia.
Qed.

(** The vector table lies below the heap. *)
Lemma setup_ivt_rep sh ih h sp : heap_rep h sp -> heap_rep (set_ram (setup_ivt sh ih (ram h)) h) sp.
Proof.
  intros Hrep. apply rep_set_ram; [done|]. intros x a Hx Ha. apply setup_ivt_outside.
  destruct Hrep as ((Hok & _) & _). destruct (blocks_ok_wf _ _ x Hok Hx) as (? & ? & ? & ? & ?).
  unfold HEAP_START in *. lia.
Qed.

(** The heap below the driver: what the card may write is in live blocks. *)
Definition heap_below (sp : spec_heap) (s : nic_state D) : Prop :=
  heap_rep (n_heap s) sp /\
  forall a, driver_dma s a -> exists x, x ∈ s_used sp /\ x.1 + 16 <= a < x.1 + x.2.

(** The state [kernel_main] reaches. *)
Lemma kernel_main_inv network_task_recv sh ih fuel0 garbage table (k0 : kernel D) sp :
  k_sched k0 = sched_boot -> Z.land (cpsr (k_context k0)) 0x1f = CPSR_MODE_SVC ->
  heap_rep (n_heap (k_nic k0)) sp -> (length (s_free sp) < fuel0)%nat ->
  s_brk sp + gross sizeof_e1000_device + 32 * gross 8208 <= HEAP_START + HEAP_SIZE ->
  pqueue_ok (n_queue (k_nic k0)) -> structure_wf garbage ->
  (let '(table', d) := pci_init (k_clock k0) table (emit banner (n_dev (k_nic k0))) in card_answers table' d) ->
  exists k1, kernel_main network_task_recv sh ih fuel0 garbage table k0 = Done (None, k1) /\
    sys_inv (nic_load (k_nic k1)) k1 /\
    driver_ready (k_nic k1) /\ current_task (k_sched k1) = Some 0%nat /\ k_table k1 = k_table k0 /\
    n_queue (k_nic k1) = n_queue (k_nic k0) /\
    exists sp', heap_below sp' (k_nic k1) /\ (length (s_free sp') <= length (s_free sp))%nat /\
      s_brk sp' <= s_brk sp + gross sizeof_e1000_device + 32 * gross 8208.
Proof.
  intros Hs Hmode Hrep Hf Hroom Hq Hg Hcard.
  destruct (kernel_main_spec network_task_recv sh ih fuel0 garbage table k0 sp)
    as (k1 & n & Hk & Hn & Hctx & Hcur & _ & _ & _ & _ & _ & _ & Hdev & Hsch & Hqu & He & Htb & Hhp); [done..|].
  exists k1. split; [done|].
  destruct (pci_init (k_clock k0) table (emit banner (n_dev (k_nic k0)))) as [table' d].
  destruct (e1000_init_spec (k_clock k0) fuel0 garbage table' (set_n_dev d (k_nic k0)) sp)
    as (n' & sp' & Hn' & Hr & Hi & Hq' & Hrep' & _ & Hdma & Hbrk & Hfree); [done..|].
  rewrite Hn' in Hn. injection Hn as <-.
  destruct (quiet_boot n' Hi) as [(Hi' & _) [Hidle _]]. destruct (Hidle Hr) as [Hr' _].
  destruct (boot_sched network_task_recv) as (Hinv & Hrun & Hu).
  split_and!; [| |done|done|by rewrite Hqu|].
  - split; [|split; [done|]].
    + destruct Hi' as (Hq1 & a & e & He1 & Hrest). split; [by rewrite Hqu|]. exists a, e.
      split; [by rewrite He|]. by rewrite Hdev.
    + rewrite Hsch. split; [done|]. split; [done|]. split; [done|]. rewrite Hctx.
      apply init_task_user; apply u32_range.
  - destruct Hr' as (a & e & He1 & Hrest). exists a, e. split; [by rewrite He|]. by rewrite Hdev.
  - exists sp'. split_and!; [|done|done]. split; [rewrite Hhp; by apply setup_ivt_rep|].
    unfold driver_dma in *. by rewrite He.
Qed.

(** C2: From power-on with a card on the bus, [kernel_main] starts the system, and in
    every state the running system can reach a created task is running in user
    mode, and the next interrupt can be taken: nothing the tasks compute, the card
    does, or the order of events makes the interrupt handler follow a null pointer,
    leave an array, or wait for ever; after it the registers of a created task are
    loaded, in user mode.  The next system call returns to its caller, with its result
    in r0 and the registers a call keeps, unless it is one of the two whose argument
    the kernel does not look at: the number 0x80000000, which the dispatcher's
    [printf] negates, and number 1 with a pointer that is null, unaligned or outside
    RAM, which it follows.  These are undefined behaviour of the kernel. *)
Theorem running_system_safe network_task_recv sh ih fuel0 garbage table (k0 : kernel D) sp :
  k_sched k0 = sched_boot -> Z.land (cpsr (k_context k0)) 0x1f = CPSR_MODE_SVC ->
  heap_rep (n_heap (k_nic k0)) sp -> (length (s_free sp) < fuel0)%nat ->
  s_brk sp + gross sizeof_e1000_device + 32 * gross 8208 <= HEAP_START + HEAP_SIZE ->
  pqueue_ok (n_queue (k_nic k0)) -> structure_wf garbage ->
  (let '(table', d) := pci_init (k_clock k0) table (emit banner (n_dev (k_nic k0))) in card_answers table' d) ->
  exists k1, kernel_main network_task_recv sh ih fuel0 garbage table k0 = Done (None, k1) /\
    ((nic_load (k_nic k1) < fuel)%nat -> forall k, rtc sys_step k1 k ->
      (exists i, current_task (k_sched k) = Some i /\ Z.of_nat i < task_count (k_sched k) <= 16) /\
      user_context (k_context k) /\
      (exists k' j, irq_handler fuel k = Done (tt, k') /\ user_context (k_context k') /\
         current_task (k_sched k') = Some j /\ tasks (k_sched k') !! j = Some (k_context k')) /\
      (forall number data, is_u32 number -> is_u32 data ->
         (call_defined number data ->
            exists r k', syscall unspecified number data k = Done (r, k') /\ user_context (k_context k') /\
              callee_kept (k_context k) (k_context k') /\ reg (k_context k') !! 0%nat = Some r) /\
         (~ call_defined number data -> syscall unspecified number data k = Undefined))).
Proof.
  intros Hs Hmode Hrep Hf Hroom Hq Hg Hcard.
  destruct (kernel_main_inv network_task_recv sh ih fuel0 garbage table k0 sp) as (k1 & Hk1 & Hinv & _); [done..|].
  exists k1. split; [done|]. intros Hload k Hsteps.
  pose proof (sys_steps_inv _ k1 k Hload Hsteps Hinv) as Hk.
  destruct (current_created _ k Hk) as (i & Hi & Hlt & _).
  destruct (irq_handler_returns _ k Hk Hload) as (k' & Hirq & Hk' & _).
  destruct (irq_handler_spec _ _ _ Hirq) as (_ & j & _ & Hj & _ & Ht).
  split; [by exists i|]. split; [apply Hk|]. split; [exists k', j; by split_and!; try apply Hk'|].
  intros number data Hno Hdata. split; intros Hdef; [|by apply syscall_undefined, syscall_dispatcher_undefined].
  destruct (syscall_returns _ number data k Hno Hdef Hdata Hk) as (r & k2 & Hsys & Hk2 & Hctx & _).
  exists r, k2. split; [done|]. split; [apply Hk2|]. rewrite Hctx. split; [apply returned_kept|].
  apply returned_result. destruct Hk as (_ & _ & _ & _ & _ & (Hl & _) & _). rewrite Hl. lia.
Qed.

End System.

(** ** Witness *)

(** Configuration space with the card in slot 11 and nothing elsewhere; the
    card's interrupt is pending. *)
Definition example_answers (a : Z) : Z :=
  let slot := u32 (PCI_CONFIG + slot_offset 11) in
  if a =? slot then INTEL_VEND
  else if a =? slot + 2 then E1000_DEV
  else if (0x41000000 <=? a) && (a <? 0x43000000) && (a mod 0x800 =? 0) then PCI_INVALID_VENDOR
  else 0.

Definition example_power_on : kernel sim :=
  mk_kernel (mk_nic (blank_sim [[1; 2; 3]] example_answers) (initial_heap ∅) None pqueue_boot) sched_boot 0
    (mk_task (replicate 13 0) 0 0 0x10030 0xD3) 0 None.

(** The first card interrupt after the start. *)
Lemma running_system_safe_witness :
  exists k1 k', kernel_main (cpu := LittleEndian) (board := 0) 0x10000 0x10100 0x10200 1 fresh_driver pci_devices_boot
      example_power_on = Done (None, k1) /\ irq_handler 100 k1 = Done (tt, k').
Proof.
  destruct (running_system_safe (D := sim) (cpu := LittleEndian) (board := 0) (fun _ => 0) 100 0x10000 0x10100 0x10200 1
    fresh_driver pci_devices_boot example_power_on (mk_spec [] [] HEAP_START)) as (k1 & Hk1 & Hsafe).
  - done.
  - done.
  - apply initial_heap_rep.
  - cbn. lia.
  - vm_compute. done.
  - apply pqueue_boot_ok.
  - split; [done|]. split; [done|]. by apply mac_wf_dec; vm_compute.
  - vm_compute. reflexivity.
  - assert (nic_load (k_nic k1) < 100)%nat as Hload.
    { revert Hk1. match goal with |- ?m = _ -> _ => 
        assert (match m with Done (_, k) => (nic_load (k_nic k) < 100)%nat | _ => False end) as Hm
          by (vm_compute; lia); destruct m as [[o k]| |]; [|done..] end.
      intros E. injection E as _ <-. exact Hm. }
    destruct (Hsafe Hload k1 (rtc_refl _ _)) as (_ & _ & (k' & _ & Hirq & _) & _).
    exists k1, k'. split; [exact Hk1|exact Hirq].
Defined.

(** Two tasks, of which the first is interrupted by the timer of the scheduler; the
    second creates a third one before it is interrupted. *)
Definition two_tasks : kernel sim :=
  mk_kernel (mk_nic (example_sim [] (fun _ => 0x10)) buffer_heap (Some (0x4000000, sim_driver)) pqueue_boot)
    (start_scheduler_tasks (boot_with 2)) 41 (mk_task (replicate 13 7) 0x3FDF000 5 0x8010 0x10) IRQ_STACK_ADDRESS None.

Lemma two_tasks_inv : sys_inv (D := sim) 0 two_tasks.
Proof.
  split; [|split; [vm_compute; lia|]].
  - split; [apply pqueue_boot_ok|]. exists 0x4000000, sim_driver. split; [done|].
    split; [split; [by eexists|apply sim_setup_programmed]|]. split_and!.
    + split; [done|]. split; [cbn; lia|]. by apply Forall_replicate.
    + split; [done|]. split; [cbn; lia|]. split; [cbn; lia|done].
    + split; [cbn; lia|]. split; [cbn; lia|]. by left.
  - split; [apply reachable_inv, (started_reachable 2); vm_compute; congruence|]. split; [by vm_compute|]. split.
    + assert (Forall user_context (take 2 (tasks (k_sched two_tasks)))) as Hu by (apply (bool_decide_unpack _); by vm_compute).
      intros i t Ht Hi. apply (Forall_lookup_1 _ _ i t Hu). assert (task_count (k_sched two_tasks) = 2) as Hc by (by vm_compute).
      by rewrite lookup_take_lt by lia.
    + split; [|done]. split; [done|]. split; [by apply (bool_decide_unpack _); vm_compute|]. by split_and!.
Qed.

Definition sim_irq (k : kernel sim) : kernel sim := match irq_handler 1 k with Done (_, k') => k' | _ => k end.
Definition sim_create (k : kernel sim) : kernel sim :=
  match syscall (cpu := LittleEndian) (fun _ => 0) CREATE_PROCESS 0x3FCF000 k with Done (_, k') => k' | _ => k end.

Lemma sim_create_step (k : kernel sim) : sys_step (D := sim) (cpu := LittleEndian) (fun _ => 0) 1 k (sim_create k).
Proof.
  assert (is_u32 1 /\ call_defined 1 0x3FCF000 /\ is_u32 0x3FCF000) as (H1 & H2 & H3)
    by (apply (bool_decide_unpack _); by vm_compute).
  destruct (syscall_spec (cpu := LittleEndian) (fun _ => 0) 1 0x3FCF000 k H1 H2 H3) as (text & _ & Hs).
  unfold sim_create, CREATE_PROCESS. rewrite Hs. exact (system_call _ _ k 1 0x3FCF000 _ _ H1 H2 H3 Hs).
Qed.

Lemma preempted_task_resumes_witness :
  let k2 := sim_create (sim_irq two_tasks) in
  task_count (k_sched k2) = 3 /\ current_task (k_sched (sim_irq k2)) = Some 0%nat /\
  k_context (sim_irq k2) = k_context two_tasks.
Proof.
  intros k2. split; [by vm_compute|]. split; [by vm_compute|].
  destruct (preempted_task_resumes (D := sim) (cpu := LittleEndian) (fun _ => 0) 1 0 0 two_tasks
    (sim_irq two_tasks) k2 (sim_irq k2))
    as [_ H]; [lia|apply two_tasks_inv|vm_compute; done|vm_compute; reflexivity|].
  apply H; [|vm_compute; done|vm_compute; reflexivity|vm_compute; done].
  apply rtc_once. split; [vm_compute; done|].
  apply sim_create_step.
Defined.
