(* ===== verification/Machine.v ===== *)
(** * The machine running the kernel

    System.v is about the model of the kernel; here is the processor itself, with
    the assembly of ContextSwitch.v and ModeSwitch.v in memory, tasks that execute
    arbitrary code of their own in user mode, and interrupts between any two of
    their instructions.  Every state of such a machine represents a state that the
    system of System.v reaches, so what is proved there holds of the machine.

    A task may use the memory [user_area] gives it; the card reads and writes
    memory on its own, at any time. *)

From stdpp Require Import strings.
From S2P Require Import Prelude StateMonad Memory Bus RingBuffer Heap Clock Stdio Scheduler NetworkIo PacketQueue PciMmio Pci E1000 Ethernet Driver Reception CardInit Interrupt MemoryMap Arm ContextSwitch ModeSwitch Syscall Boot System.

(** ** Definitions *)

(** Memory for tasks: none of the kernel's variables and none of the vectors is in
    it, and the model's RAM has the same bytes there. *)
Class UserArea (D : Type) {layout : Layout D} := {
  user_area : Z -> Prop;
  ua_outside x : user_area x ->
    0x10000 <= x < RAM_SIZE /\ ~ (current_task_at <= x < current_task_at + 4) /\
    ~ (tasks_at <= x < tasks_at + 16 * sizeof_task_t);
  ua_store k m e n p v : others k m -> (forall x, p <= x < p + Z.of_nat n -> user_area x) ->
    others (set_kernel_ram (store e n (kernel_ram k) p v) k) (store e n m p v);
  ua_load k m e n p : others k m -> (forall x, p <= x < p + Z.of_nat n -> user_area x) ->
    load e n (kernel_ram k) p = load e n m p;
}.

(** The stacks [add_task] hands out are such memory when the linker puts the
    variables elsewhere. *)
Definition in_stacks (x : Z) : Prop := exists i, (i < 16)%nat /\ in_region (task_stack i) x.

Lemma in_stacks_range x : in_stacks x -> 0x3EE0000 <= x < 0x3FE0000.
Proof.
  intros (i & Hi & Hx). unfold in_region, task_stack, task_stackbase in Hx. cbn [fst snd] in Hx.
  unfold TASK_STACK_BASE_ADDRESS, SVC_STACK_ADDRESS, IRQ_STACK_ADDRESS, STACK_SIZE in Hx.
  rewrite u32_id in Hx by (unfold is_u32; lia). lia.
Qed.

Section Machine.
Context {D : Type} `{E1000Card D} {layout : Layout D} {area : UserArea D} {cpu : Cpu} {board : Board}.
Variables (unspecified : nat -> Z) (fuel : nat).

(** The kernel in memory: its assembly and its compiled functions. *)
Variables (base schedule_at handle_interrupt_at syscall_handler_at exit_ svc_sp : Z)
  (text : Z -> option instr) (compiled : Z -> option (arm D -> arm D)).

(** What the card does next, to the devices and to memory. *)
Variable dma : D -> mem -> D * mem.

(** The system calls the tasks make: number and argument. *)
Variable calls : Z -> Z -> Prop.

Abbreviation code := (interrupt_handler_code base schedule_at handle_interrupt_at).
Abbreviation run := (steps text compiled).

(** Code of a task: no vector, not the kernel's assembly, no function of the
    kernel. *)
Definition in_task (p : Z) : Prop := 0x20 <= p /\ text p = None /\ compiled p = None.

(** A task calls the kernel with a number and an argument in r0 and r1, with defined
    behaviour; the function of a new task is in the caller's memory. *)
Definition call_ok (no data : Z) (m : mem) : Prop :=
  call_defined no data /\ calls no data /\
  (no = CREATE_PROCESS ->
     (forall x, data <= x < data + 4 -> user_area x) /\ in_task (u32 (load cpu_endian 4 m data))).

Definition supervisor_call (a : arm D) : option (arm D) := exec Svc_ (set_pc (u32 (arm_pc a + 4)) a).

Definition card_moves (a : arm D) : arm D :=
  let '(d, m) := dma (arm_dev a) (arm_mem a) in set_memory m (set_devices d a).

(** What happens between two instructions of a task, or is one: it computes in
    its registers; it stores to its memory; it accesses a device; the card acts; the
    task calls the kernel, or an interrupt is taken, and the kernel runs until a
    task goes on. *)
Inductive machine_step : arm D -> arm D -> Prop :=
| m_computes a t :
    user_context t -> task_ok t -> in_task (pc t) ->
    machine_step a (mk_arm (reg t) (mk_bank (sp t) (lr t) (b_spsr (usr a))) (irq a) (svc a) (pc t) (cpsr t)
      (arm_mem a) (arm_dev a))
| m_stores a n p v :
    (forall x, p <= x < p + Z.of_nat n -> user_area x) ->
    machine_step a (set_memory (store cpu_endian n (arm_mem a) p v) a)
| m_reads a n p : machine_step a (set_devices (bus_read n p (arm_dev a)).2 a)
| m_writes a n p v :
    RAM_SIZE <= p < 0x41000000 -> machine_step a (set_devices (bus_write n p v (arm_dev a)) a)
| m_card a : machine_step a (card_moves a)
| m_interrupted a a0 n a' :
    raise_irq a = Some a0 -> run n a0 = Some a' -> in_task (arm_pc a') -> machine_step a a'
| m_calls a no data a0 n a' :
    gpr a !! 0%nat = Some no -> gpr a !! 1%nat = Some data -> call_ok no data (arm_mem a) ->
    in_task (u32 (arm_pc a + 4)) -> supervisor_call a = Some a0 -> run n a0 = Some a' -> in_task (arm_pc a') ->
    machine_step a a'.

(** The steps of the system they stand for. *)
Inductive task_step : kernel D -> kernel D -> Prop :=
| t_computes k t : user_context t -> task_step k (set_k_context t k)
| t_stores k n p v : task_step k (set_kernel_ram (store cpu_endian n (kernel_ram k) p v) k)
| t_reads k n p : task_step k (set_k_nic (set_n_dev (bus_read n p (n_dev (k_nic k))).2 (k_nic k)) k)
| t_writes k n p v :
    p < 0x41000000 -> task_step k (set_k_nic (set_n_dev (bus_write n p v (n_dev (k_nic k))) (k_nic k)) k)
| t_card k : task_step k (set_k_nic (acts (k_nic k)) k)
| t_interrupted k k' : irq_handler fuel k = Done (tt, k') -> task_step k k'
| t_calls k no data r k' t :
    is_u32 no -> is_u32 data -> call_ok no data (kernel_ram k) ->
    syscall unspecified no data k = Done (r, k') -> user_context t -> task_step k (set_k_context t k').

(** [f], what the compiler made of [handle_interrupt], does in state [k] what its
    source says, and keeps the procedure call standard. *)
Definition implements_handler (f : arm D -> arm D) (k : kernel D) : Prop :=
  forall k1 k2 a1, save_current_task_state k = Done (tt, k1) -> handle_interrupt fuel k1 = Done (tt, k2) ->
    kernel_in base k1 a1 -> mode_of (arm_cpsr a1) = Some Irq -> length (gpr a1) = 13%nat ->
    b_sp (irq a1) = IRQ_STACK_ADDRESS - 16 ->
    kernel_in base k2 (f a1) /\ returned Irq a1 (f a1).

(** [g], what it made of [syscall_handler] up to the assembly at its end, does what
    the call's source says, and has the result in r0. *)
Definition implements_call (g : arm D -> arm D) (k : kernel D) : Prop :=
  forall no data r k1 a1, is_u32 no -> is_u32 data -> call_ok no data (kernel_ram k) ->
    syscall unspecified no data k = Done (r, k1) ->
    kernel_in base k a1 -> mode_of (arm_cpsr a1) = Some Svc -> length (gpr a1) = 13%nat ->
    Forall is_u32 (gpr a1) -> is_u32 (b_lr (svc a1)) ->
    gpr a1 !! 0%nat = Some no -> gpr a1 !! 1%nat = Some data -> b_sp (svc a1) = svc_sp ->
    handler_body exit_ a1 (g a1) /\ kernel_in base k1 (g a1) /\ Forall is_u32 (gpr (g a1)) /\
    (no <> SHUTDOWN -> gpr (g a1) !! 0%nat = Some r).

(** Where the assembly relies on memory: the vectors, the current task and the
    task structures. *)
Definition kernel_memory (x : Z) : Prop :=
  0 <= x < 0x10000 \/ current_task_at <= x < current_task_at + 4 \/ tasks_at <= x < tasks_at + 16 * sizeof_task_t.

(** [dma] is the card of the model: it does to the descriptors and buffers in memory
    what [card_step] does to those of state [k], and leaves the kernel's variables. *)
Definition implements_card (k : kernel D) : Prop :=
  forall m, others k m ->
    let n := acts (k_nic k) in
    let '(d, m') := dma (n_dev (k_nic k)) m in
    d = n_dev n /\ others (set_k_nic n k) m' /\ forall x, kernel_memory x -> get8 m' x = get8 m x.

(** All of it does what the model says, in state [k]. *)
Definition implements (f g : arm D -> arm D) (k : kernel D) : Prop :=
  implements_handler f k /\ implements_call g k /\ implements_card k.

(** The kernel as the linker leaves it in memory. *)
Record kernel_image (f g : arm D -> arm D) : Prop := {
  im_irq : holds text base code;
  im_exit : holds text exit_ syscall_return_code;
  im_handler : compiled handle_interrupt_at = Some f /\ text handle_interrupt_at = None /\ 0x20 <= handle_interrupt_at;
  im_call : compiled syscall_handler_at = Some g /\ text syscall_handler_at = None /\ 0x20 <= syscall_handler_at;
  im_vector k m : others k m -> vector_target m 0x08 = Some syscall_handler_at;
  im_stack : svc_sp mod 4 = 0 /\ 16 <= svc_sp <= RAM_SIZE;
}.

(** The code of the tasks is apart from the kernel's. *)
Definition tasks_within (k : kernel D) : Prop :=
  in_task (pc (k_context k)) /\
  forall i t, tasks (k_sched k) !! i = Some t -> Z.of_nat i < task_count (k_sched k) -> in_task (pc t).

(** ** The simulation *)

Definition simulated (bound : nat) (k : kernel D) (a : arm D) : Prop :=
  represents base k a /\ b_sp (svc a) = svc_sp /\ sys_inv bound k /\ tasks_within k.

Lemma computes_sys k t : user_context t -> sys_step unspecified fuel k (set_k_context t k).
Proof.
  intros Ht. pose proof (user_computes unspecified fuel k t (n_heap (k_nic k)) (k_table k) Ht) as Hs.
  by destruct k as [[] ? ? ? ? ?].
Qed.

Lemma task_step_sys k k' : user_context (k_context k) -> task_step k k' -> rtc (sys_step unspecified fuel) k k'.
Proof.
  intros Hctx Hstep.
  destruct Hstep as [k0 t Ht|k0 n p v|k0 n p|k0 n p v Hp|k0|k0 k0' Hirq|k0 no data r k0' t Hno Hdata Hok Hcall Ht].
  - by apply rtc_once, computes_sys.
  - apply rtc_once. pose proof (user_computes unspecified fuel k0 (k_context k0)
      (set_ram (store cpu_endian n (kernel_ram k0) p v) (n_heap (k_nic k0))) (k_table k0) Hctx) as Hs.
    by destruct k0 as [[] ? ? ? ? ?].
  - apply rtc_once, user_reads.
  - by apply rtc_once, user_writes.
  - apply rtc_once, card_acts.
  - by apply rtc_once, interrupt.
  - destruct Hok as (Hmin & _). eapply rtc_l; [by apply (system_call unspecified fuel k0 no data r k0')|]. by apply rtc_once, computes_sys.
Qed.

Lemma task_step_inv bound k k' : (bound < fuel)%nat -> task_step k k' -> sys_inv bound k -> sys_inv bound k'.
Proof.
  intros Hf Hk Hinv. apply (sys_steps_inv unspecified fuel bound k); [done| |done]. apply task_step_sys; [apply Hinv|done].
Qed.

Lemma task_steps_sys bound k k' :
  (bound < fuel)%nat -> sys_inv bound k -> rtc task_step k k' -> rtc (sys_step unspecified fuel) k k'.
Proof.
  intros Hf Hinv Hsteps. induction Hsteps as [|x y z Hxy _ IH]; [done|].
  etrans; [apply task_step_sys; [apply Hinv|done]|]. apply IH. by apply (task_step_inv bound x).
Qed.

(** *** The machine computes *)

Lemma represents_computes k a t :
  represents base k a -> task_ok t ->
  represents base (set_k_context t k) (mk_arm (reg t) (mk_bank (sp t) (lr t) (b_spsr (usr a))) (irq a) (svc a) (pc t)
    (cpsr t) (arm_mem a) (arm_dev a)).
Proof.
  intros ((Hsched & Hok & Ho & Hd & Hv) & _ & _ & Hks & His) Ht.
  split; [split; [done|split_and!; try done]|by split_and!]. by apply others_context.
Qed.

(** Memory changes, but none the assembly relies on. *)
Lemma represents_memory k k' a m :
  represents base k a -> (forall x, kernel_memory x -> get8 m x = get8 (arm_mem a) x) ->
  k_sched k' = k_sched k -> k_context k' = k_context k -> k_irq_sp k' = k_irq_sp k -> others k' m ->
  represents base k' (set_memory m (set_devices (n_dev (k_nic k')) a)).
Proof.
  intros (((Hl & Hw & Hr & Hc) & Hok & Ho & Hd & Hv) & Ht & Hrun & Hks & His) Hm Es Ec Ei Ho'.
  unfold represents, kernel_in, sched_in. rewrite Es, Ec, Ei. cbn [arm_mem set_memory].
  split; [split; [|split_and!; try done]|by split_and!].
  - split_and!; try done.
    + intros i u Hi. rewrite <- (Hw i u Hi). apply load_words_ext. intros x Hx. apply Hm. right. right.
      apply lookup_lt_Some in Hi. destruct (task_at_range i) as [Hri _]; [lia|]. unfold sizeof_task_t in *. lia.
    + rewrite <- Hc. apply load_ext. intros x Hx. apply Hm. right. left. lia.
  - rewrite <- Hv. apply vector_target_ext. intros x Hx. apply Hm. by left.
Qed.

Lemma represents_stores k a n p v :
  represents base k a -> (forall x, p <= x < p + Z.of_nat n -> user_area x) ->
  represents base (set_kernel_ram (store cpu_endian n (kernel_ram k) p v) k)
    (set_memory (store cpu_endian n (arm_mem a) p v) a).
Proof.
  intros Hrep Hp. pose proof Hrep as ((_ & _ & Ho & Hd & _) & _).
  pose proof (represents_memory k (set_kernel_ram (store cpu_endian n (kernel_ram k) p v) k) a
    (store cpu_endian n (arm_mem a) p v) Hrep) as Hto.
  change (n_dev (k_nic (set_kernel_ram _ k))) with (n_dev (k_nic k)) in Hto. rewrite <- Hd in Hto. destruct a. apply Hto; try done.
  - intros x Hx. apply store_same_outside. intros Hin. destruct (ua_outside x (Hp x Hin)) as (? & ? & ?).
    unfold kernel_memory in Hx. lia.
  - by apply ua_store.
Qed.

Lemma represents_card k a :
  represents base k a -> implements_card k -> represents base (set_k_nic (acts (k_nic k)) k) (card_moves a).
Proof.
  intros Hrep Himp. pose proof Hrep as ((_ & _ & Ho & Hd & _) & _). specialize (Himp (arm_mem a) Ho). cbv zeta in Himp.
  unfold card_moves. rewrite Hd. destruct (dma (n_dev (k_nic k)) (arm_mem a)) as [d m]. destruct Himp as (-> & Ho' & Hm).
  by apply (represents_memory k (set_k_nic (acts (k_nic k)) k)).
Qed.

Lemma represents_device k a d :
  represents base k a -> represents base (set_k_nic (set_n_dev d (k_nic k)) k) (set_devices d a).
Proof.
  intros (((Hl & Hw & Hr & Hc) & Hok & Ho & Hd & Hv) & Ht & Hrun & Hks & His).
  split; [split; [by split_and!|split_and!; try done]|by split_and!]. by apply others_device.
Qed.

(** *** The kernel returns to a task *)

(** In a task the kernel has nothing to run. *)
Lemma in_task_stops n b : in_task (arm_pc b) -> run (S n) b = None.
Proof. intros (Hlow & Hc & Hf). cbn [steps]. unfold step. by rewrite (proj2 (Z.ltb_ge _ _) Hlow), Hc, Hf. Qed.

Lemma return_unique n n' a b b' :
  run n a = Some b -> run n' a = Some b' -> in_task (arm_pc b) -> in_task (arm_pc b') -> b = b'.
Proof.
  revert n n' b b'. assert (forall n k b b', run n a = Some b -> run (n + k) a = Some b' -> in_task (arm_pc b) -> b = b') as Hle.
  { intros n k b b' Hn Hk Hb. rewrite steps_add, Hn in Hk. cbn [mbind option_bind] in Hk.
    destruct k; [by injection Hk|]. by rewrite in_task_stops in Hk. }
  intros n n' b b' Hn Hn' Hb Hb'. destruct (decide (n <= n')%nat).
  - apply (Hle n (n' - n)%nat); [done| |done]. by replace (n + (n' - n))%nat with n' by lia.
  - symmetry. apply (Hle n' (n - n')%nat); [done| |done]. by replace (n' + (n - n'))%nat with n by lia.
Qed.

(** *** Interrupts *)

Lemma tasks_within_interrupt bound k k' :
  (bound < fuel)%nat -> sys_inv bound k -> tasks_within k -> irq_handler fuel k = Done (tt, k') -> tasks_within k'.
Proof.
  intros Hf Hk [Hctx Hw] Hirq. destruct (irq_handler_spec _ _ _ Hirq) as (i & j & Hi & Hj & Ht & Hjt).
  pose proof (irq_handler_count _ _ _ Hirq) as Hc.
  assert (forall p t, tasks (k_sched k') !! p = Some t -> Z.of_nat p < task_count (k_sched k') -> in_task (pc t)) as Hall.
  { intros p t. rewrite Hc, Ht. intros Hp Hlt. destruct (decide (i = p)) as [<-|Hne].
    - destruct (decide (i < length (tasks (k_sched k)))%nat).
      + rewrite list_lookup_insert_eq in Hp by done. by injection Hp as <-.
      + rewrite list_insert_ge in Hp by lia. by eapply Hw.
    - rewrite list_lookup_insert_ne in Hp by done. by eapply Hw. }
  destruct (irq_handler_returns fuel bound k Hk Hf) as (k2 & Hirq2 & Hk2 & _). rewrite Hirq in Hirq2. injection Hirq2 as <-.
  destruct (current_created bound k' Hk2) as (j' & Hj' & Hlt & _). rewrite Hj in Hj'. injection Hj' as <-.
  split; [|done]. apply (Hall j); [done|lia].
Qed.

Variables f g : arm D -> arm D.
Hypothesis Himage : kernel_image f g.

(** An interrupt on the machine, as the model has it. *)
Lemma interrupted_returns bound k a :
  (bound < fuel)%nat -> simulated bound k a -> implements_handler f k ->
  exists k' a0 n a', raise_irq a = Some a0 /\ run n a0 = Some a' /\ irq_handler fuel k = Done (tt, k') /\
    in_task (arm_pc a') /\ simulated bound k' a'.
Proof.
  intros Hfuel (Hrep & Hsvc & Hk & Hw) Himp. destruct (irq_handler_returns fuel bound k Hk Hfuel) as (k' & Hirq & Hk' & _).
  pose proof (tasks_within_interrupt bound k k' Hfuel Hk Hw Hirq) as Hw'.
  destruct (im_handler f g Himage) as (Hf & Hpc & Hlow).
  destruct (irq_handler_refines base schedule_at handle_interrupt_at text compiled (im_irq f g Himage) fuel k k' a f Hf Hpc Hlow)
    as (a0 & a' & Hraise & [n Hrun] & Hrep' & Hsvc'); [done|apply Hk|done|exact Himp|].
  exists k', a0, n, a'. split_and!; try done.
  - pose proof Hrep' as (_ & _ & (_ & _ & _ & -> & _) & _). apply Hw'.
  - split; [done|]. by rewrite Hsvc'.
Qed.

(** *** System calls *)

(** The processor at the entry of the handler, and behind the call. *)
Definition call_entered (a : arm D) : arm D :=
  mk_arm (gpr a) (usr a) (irq a) (mk_bank (b_sp (svc a)) (u32 (arm_pc a + 4)) (arm_cpsr a)) syscall_handler_at
    (exception_psr (arm_cpsr a) 0x13) (arm_mem a) (arm_dev a).

Definition call_left (a a2 : arm D) : arm D :=
  mk_arm (<[11%nat := gpr a !!! 11%nat]> (gpr a2)) (usr a) (irq a) (mk_bank (b_sp (svc a)) (u32 (arm_pc a + 4)) (arm_cpsr a))
    (u32 (arm_pc a + 4)) (arm_cpsr a) (arm_mem a2) (arm_dev a2).

Lemma call_runs a :
  Z.testbit (arm_cpsr a) 5 = false -> length (gpr a) = 13%nat -> arm_pc a mod 4 = 0 -> is_u32 (arm_pc a) ->
  0x20 <= u32 (arm_pc a + 4) -> b_sp (svc a) = svc_sp -> vector_target (arm_mem a) 0x08 = Some syscall_handler_at ->
  handler_body exit_ (call_entered a) (g (call_entered a)) ->
  exists a0, supervisor_call a = Some a0 /\ run 5 a0 = Some (call_left a (g (call_entered a))).
Proof.
  intros HT Hlen Hal Hpc Hnext Hsvc Hv (Hp2 & Hm2 & Hl2 & _ & Hu & Hi & Hspsr & Hsp2 & E11 & Elr).
  destruct (im_call f g Himage) as (Hg & Htext & Hlow). destruct (im_stack f g Himage) as [Hs4 Hsr].
  assert (u32 (arm_pc a + 4) = arm_pc a + 4) as Epc by (unfold is_u32 in Hpc; word_lia).
  eexists. split; [done|]. change 5%nat with (1 + (1 + 3))%nat. rewrite (steps_add _ _ 1).
  cbn [steps]. unfold step. cbn [arm_pc arm_mem set_pc set_psr set_bank gpr usr irq svc arm_cpsr arm_dev].
  change (0x08 <? 0x20) with true. cbv iota. rewrite Hv. cbn [mbind option_bind].
  match goal with |- run _ ?x = _ => change x with (call_entered a) end.
  rewrite (step_compiled _ _ syscall_handler_at g) by done.
  set (a1 := call_entered a) in *. change (b_sp (svc a1)) with (b_sp (svc a)) in *. rewrite Hsvc in *.
  assert (gpr a !!! 11%nat = load cpu_endian 4 (arm_mem (g a1)) (svc_sp - 8)) as E by (by apply list_lookup_total_correct).
  destruct (g a1) as [g2 u2 ib2 [isp ilr ispsr] p2 c2 m2 d2].
  unfold call_left. cbn [gpr usr irq svc arm_pc arm_cpsr arm_mem arm_dev b_sp b_spsr] in *. subst p2 u2 ib2 ispsr isp.
  destruct (list_13 _ Hl2) as (r0 & r1 & r2 & r3 & r4 & r5 & r6 & r7 & r8 & r9 & r10 & r11 & r12 & ->).
  change (usr a1) with (usr a). change (irq a1) with (irq a). change (b_lr (svc a1)) with (u32 (arm_pc a + 4)) in Elr.
  change (b_spsr (svc a1)) with (arm_cpsr a). rewrite Hsvc, E, Epc in *.
  rewrite (return_run text compiled (arm_pc a - 8) exit_ 0 0 0 (im_exit f g Himage)) with (f := load cpu_endian 4 m2 (svc_sp - 8));
    first [done | lia | word_lia | idtac].
  - unfold at_. replace (arm_pc a - 8 + 4 * Z.of_nat 3) with (arm_pc a + 4) by lia. by replace (svc_sp - 16 + 16) with svc_sp by lia.
  - f_equal. lia.
  - unfold at_. replace (svc_sp - 16 + 12) with (svc_sp - 4) by lia. rewrite Elr. lia.
Qed.

(** A call adds at most a task whose function the caller may name. *)
Lemma add_task_within entry s :
  sched_inv s -> in_task (u32 entry) ->
  (forall i t, tasks s !! i = Some t -> Z.of_nat i < task_count s -> in_task (pc t)) ->
  let s' := (add_task CPSR_MODE_SVC entry s).2 in
  forall i t, tasks s' !! i = Some t -> Z.of_nat i < task_count s' -> in_task (pc t).
Proof.
  intros (Hok & Hlen & Hc & _) He Hw s' i t.
  destruct (add_task_spec CPSR_MODE_SVC entry s Hok Hlen ltac:(lia)) as (_ & Hfull & Hroom).
  subst s'. destruct (decide (16 <= task_count s)) as [Hge|Hlt]; [rewrite Hfull by done; apply Hw|].
  destruct Hroom as (s' & -> & Hcount & Ht & Hother & _); [done|lia|]. cbn [snd]. rewrite Hcount.
  destruct (decide (i = Z.to_nat (task_count s))) as [->|Hne].
  - rewrite Ht. intros [= <-] _. done.
  - rewrite Hother by done. intros Hi Hl. apply (Hw i t Hi). lia.
Qed.

Lemma call_within no data r k k1 :
  is_u32 no -> is_u32 data -> call_ok no data (kernel_ram k) -> sched_inv (k_sched k) -> tasks_within k ->
  syscall unspecified no data k = Done (r, k1) ->
  k_irq_sp k1 = k_irq_sp k /\
  forall i t, tasks (k_sched k1) !! i = Some t -> Z.of_nat i < task_count (k_sched k1) -> in_task (pc t).
Proof.
  intros Hno Hdata (Hmin & _ & Hnew) Hs [_ Hw] Hcall.
  destruct (syscall_spec unspecified no data k) as (text' & _ & Hd); [done..|].
  rewrite Hcall in Hd. injection Hd as _ ->. split; [done|].
  change (k_sched (after_syscall _ _ _ _ ?s)) with s. unfold call_sched.
  destruct (no =? ZERO_SYSCALL); [done|]. destruct (Z.eqb_spec no CREATE_PROCESS) as [E|_].
  - apply add_task_within; [done|by apply Hnew|done].
  - by destruct (no =? SHUTDOWN).
Qed.

(** The task as the call leaves it. *)
Definition registers_of (a : arm D) : task_t := mk_task (gpr a) (b_sp (usr a)) (b_lr (usr a)) (arm_pc a) (arm_cpsr a).

(** What the task has in r0 and r1, for the model. *)
Lemma call_operands k a no data :
  represents base k a -> gpr a !! 0%nat = Some no -> gpr a !! 1%nat = Some data -> call_ok no data (arm_mem a) ->
  is_u32 no /\ is_u32 data /\ call_ok no data (kernel_ram k).
Proof.
  intros ((_ & _ & Ho & _) & (_ & Hwords & _) & (Eg & _) & _) H0' H1' (Hmin & Hcalls & Hnew).
  unfold task_words in Hwords. apply Forall_app in Hwords as [Hregs _]. rewrite <- Eg in Hregs.
  split; [by apply (Forall_lookup_1 _ _ _ _ Hregs H0')|]. split; [by apply (Forall_lookup_1 _ _ _ _ Hregs H1')|].
  split; [done|]. split; [done|]. intros E. destruct (Hnew E) as [Harea Hin]. split; [done|].
  by rewrite (ua_load k (arm_mem a)).
Qed.

(** Behind the call there is a task again. *)
Lemma call_left_task k a a2 :
  represents base k a -> user_context (k_context k) -> is_u32 (arm_pc a + 4) ->
  length (gpr a2) = 13%nat -> Forall is_u32 (gpr a2) ->
  user_context (registers_of (call_left a a2)) /\ task_ok (registers_of (call_left a a2)).
Proof.
  intros (_ & (Hlen & _ & Hal & Hpsr & HT) & (Eg & Esp & Elr & Epc & Ec) & _) Hctx Hnext Hl2 Hu32.
  destruct Hctx as ((_ & Hregs & ? & ? & Hpc & ?) & Hmode & HI).
  assert (Forall is_u32 (gpr (call_left a a2))) as Hg.
  { apply Forall_insert; [done|]. rewrite Eg. apply (Forall_lookup_1 is_u32 (reg (k_context k)) 11%nat); [done|].
    apply list_lookup_lookup_total_lt. lia. }
  unfold registers_of, call_left, user_context, task_typed, task_ok, task_words in *.
  cbn [reg sp lr pc cpsr gpr usr arm_pc arm_cpsr b_sp b_lr] in *.
  rewrite Esp, Elr, Ec, length_insert, Forall_app, !Forall_cons. rewrite Epc in *.
  split_and!; first [done | apply u32_range | word_lia].
Qed.

Lemma call_left_keeps k a a2 i :
  represents base k a -> handler_body exit_ (call_entered a) a2 -> (4 <= i < 12)%nat ->
  gpr (call_left a a2) !! i = gpr a !! i.
Proof.
  intros (_ & (Hlen & _) & (Eg & _) & _) (_ & _ & Hl2 & Hkeep & _) Hi. unfold call_left. cbn [gpr].
  destruct (decide (i = 11%nat)) as [->|Hne].
  - rewrite list_lookup_insert_eq by lia. symmetry. apply list_lookup_lookup_total_lt. rewrite Eg. lia.
  - rewrite list_lookup_insert_ne by done. apply Hkeep. lia.
Qed.

(** A system call on the machine, as the model has it. *)
Lemma call_returns bound k a no data :
  (bound < fuel)%nat -> simulated bound k a -> implements_call g k ->
  gpr a !! 0%nat = Some no -> gpr a !! 1%nat = Some data -> call_ok no data (arm_mem a) -> in_task (u32 (arm_pc a + 4)) ->
  exists r k1 a0 n a', syscall unspecified no data k = Done (r, k1) /\ supervisor_call a = Some a0 /\ run n a0 = Some a' /\
    task_step k (set_k_context (registers_of a') k1) /\ simulated bound (set_k_context (registers_of a') k1) a' /\
    arm_pc a' = u32 (arm_pc a + 4) /\ usr a' = usr a /\ arm_cpsr a' = arm_cpsr a /\
    (forall i, (4 <= i < 12)%nat -> gpr a' !! i = gpr a !! i) /\ (no <> SHUTDOWN -> gpr a' !! 0%nat = Some r).
Proof.
  intros Hfuel (Hrep & Hsvc & Hk & Hw) Himp H0' H1' Hcall Hnext. pose proof Hk as (_ & _ & Hs & _ & _ & Hctx).
  destruct (call_operands k a no data Hrep H0' H1' Hcall) as (Hno & Hdata & Hcall').
  destruct (syscall_returns unspecified bound no data k Hno (proj1 Hcall) Hdata Hk) as (r & k1 & Hsys & Hk1 & Hctx1 & _).
  destruct (call_within no data r k k1 Hno Hdata Hcall' Hs Hw Hsys) as [Hisp Hw1].
  pose proof Hrep as (Hin & (Hlen & _ & Hal & _ & HT) & (Eg & _ & _ & Epc & Ec) & Hks & His).
  assert (is_u32 (arm_pc a)) as Hpc by (rewrite Epc; apply Hctx).
  assert (is_u32 (arm_pc a + 4)) as Hpc4 by (destruct Hnext as [? _]; rewrite Epc in *; unfold is_u32 in *; word_lia).
  destruct (Himp no data r k1 (call_entered a) Hno Hdata Hcall' Hsys) as (Hbody & Hk2 & Hu32 & Hr); try done.
  { unfold mode_of, call_entered. cbn [arm_cpsr]. by destruct (exception_psr_facts (arm_cpsr a) 0x13) as [-> _]; [right|]. }
  { unfold call_entered. cbn [gpr]. by rewrite Eg. }
  { unfold call_entered. cbn [gpr]. rewrite Eg. apply Hctx. }
  { apply u32_range. }
  destruct (call_runs a) as (a0 & Hsupervisor & Hrun); try done;
    [by rewrite Ec|by rewrite Eg|by rewrite Epc|apply Hnext|eapply im_vector; [exact Himage|apply Hin]|].
  set (a2 := g (call_entered a)) in *.
  destruct (call_left_task k a a2) as [Huser Htask]; try done; [apply Hbody|].
  assert (task_step k (set_k_context (registers_of (call_left a a2)) k1)) as Hstep by (by apply (t_calls k no data r)).
  exists r, k1, a0, 5%nat, (call_left a a2). split_and!; try done.
  - split; [|split; [done|split; [by apply (task_step_inv bound k)|by split]]].
    split; [|split; [done|split; [done|split; [by rewrite <- Hisp in Hks|done]]]].
    destruct Hk2 as (Hsched2 & Hall2 & Ho2 & Hdev2 & Hv2). split_and!; try done. by apply others_context.
  - intros i. by apply (call_left_keeps k).
  - intros Hne. unfold call_left. cbn [gpr]. rewrite list_lookup_insert_ne by done. by apply Hr.
Qed.

(** *** Runs *)

Lemma machine_step_simulated bound k a a' :
  (bound < fuel)%nat -> simulated bound k a -> implements f g k -> machine_step a a' ->
  exists k', task_step k k' /\ simulated bound k' a'.
Proof.
  intros Hfuel Hs (Hf & Hg & Hcard) Hstep.
  assert (forall k', task_step k k' -> represents base k' a' -> b_sp (svc a') = svc_sp -> tasks_within k' ->
    exists k', task_step k k' /\ simulated bound k' a') as Hto
    by (intros k' Hk' Hr' Hsvc' Hw'; exists k'; split; [done|]; split; [done|]; split; [done|]; split; [|done];
      apply (task_step_inv bound k); [done|done|apply Hs]).
  pose proof Hs as (Hrep & Hsvc & Hk & Hctx & Hw). pose proof Hrep as ((_ & _ & _ & Hdev & _) & _).
  destruct Hstep as [a t Hu Ht Hp|a n p v Hp|a n p|a n p v Hp|a|a a0 n a' Hraise Hrun Hin|a no data a0 n a' H0' H1' Hcall Hnext Hsup Hrun Hin].
  - apply (Hto (set_k_context t k)); [by constructor|by apply represents_computes|done|by split].
  - eapply Hto; [by apply (t_stores k n p v)|by apply represents_stores|done|by split].
  - rewrite Hdev in *. eapply Hto; [by apply (t_reads k n p)|by apply represents_device|done|by split].
  - rewrite Hdev in *. eapply Hto; [apply (t_writes k n p v); lia|by apply represents_device|done|by split].
  - assert (svc (card_moves a) = svc a) as Es by (unfold card_moves; by destruct (dma _ _)).
    eapply Hto; [apply (t_card k)|by apply represents_card|by rewrite Es|by split].
  - destruct (interrupted_returns bound k a Hfuel Hs Hf) as (k' & b0 & n' & b & Hraise' & Hrun' & Hirq & Hin' & Hs').
    rewrite Hraise in Hraise'. injection Hraise' as <-. rewrite (return_unique n n' a0 a' b) by done.
    exists k'. split; [by constructor|done].
  - destruct (call_returns bound k a no data Hfuel Hs Hg H0' H1' Hcall Hnext)
      as (r & k1 & b0 & n' & b & _ & Hsup' & Hrun' & Hstep & Hs' & Hpc & _).
    rewrite Hsup in Hsup'. injection Hsup' as <-. rewrite (return_unique n n' a0 a' b) by (done || by rewrite Hpc).
    by eexists.
Qed.

Lemma machine_steps_simulated bound k a a' :
  (bound < fuel)%nat -> simulated bound k a ->
  (forall k', rtc task_step k k' -> implements f g k') ->
  rtc machine_step a a' -> exists k', rtc task_step k k' /\ simulated bound k' a'.
Proof.
  intros Hfuel Hs Himp Hsteps. revert k Hs Himp. induction Hsteps as [a|a b c Hab _ IH]; intros k Hs Himp; [by exists k|].
  destruct (machine_step_simulated bound k a b Hfuel Hs (Himp k (rtc_refl _ _)) Hab) as (k1 & Hk1 & Hs1).
  destruct (IH k1 Hs1) as (k2 & Hk2 & Hs2); [intros k' Hk'; apply Himp; by eapply rtc_l|].
  exists k2. split; [by eapply rtc_l|done].
Qed.

(** ** From power-on *)

(** The kernel before [kernel_main], with a card on the bus. *)
Record boots (boot_fuel : nat) (garbage : e1000_device) (table : list pci_device) (k0 : kernel D) (sp : spec_heap) : Prop := {
  bt_sched : k_sched k0 = sched_boot;
  bt_mode : Z.land (cpsr (k_context k0)) 0x1f = CPSR_MODE_SVC;
  bt_heap : heap_rep (n_heap (k_nic k0)) sp;
  bt_fuel : (length (s_free sp) < boot_fuel)%nat;
  bt_room : s_brk sp + gross sizeof_e1000_device + 32 * gross 8208 <= HEAP_START + HEAP_SIZE;
  bt_queue : pqueue_ok (n_queue (k_nic k0));
  bt_garbage : structure_wf garbage;
  bt_card : let '(table', d) := pci_init (k_clock k0) table (emit banner (n_dev (k_nic k0))) in card_answers table' d;
}.

Lemma boots_within entry sh ih boot_fuel garbage table k0 sp :
  boots boot_fuel garbage table k0 sp -> in_task (u32 entry) ->
  exists k1, kernel_main entry sh ih boot_fuel garbage table k0 = Done (None, k1) /\
    sys_inv (nic_load (k_nic k1)) k1 /\ tasks_within k1.
Proof.
  intros [Hs Hm Hrep Hfu Hroom Hq Hg Hcard] Hentry.
  destruct (kernel_main_inv entry sh ih boot_fuel garbage table k0 sp) as (k1 & Hk1 & Hinv & _); [done..|].
  exists k1. split; [done|]. split; [done|].
  destruct (kernel_main_spec entry sh ih boot_fuel garbage table k0 sp)
    as (k1' & n & Hk1' & _ & Hctx & _ & _ & Hcount & _ & _ & _ & _ & _ & Hsch & _); [done..|].
  rewrite Hk1 in Hk1'. injection Hk1' as <-. split; [by rewrite Hctx|]. intros i t. rewrite Hcount, Hsch.
  destruct (first_task_ready entry) as (Hok & Hr & _ & _ & Htask).
  destruct (start_tasks_eq _ _ _ Hok Hr) as (_ & -> & _). intros Hi Hlt. assert (i = 0%nat) as -> by lia.
  rewrite Htask in Hi. by injection Hi as <-.
Qed.

Lemma simulated_user bound k a : simulated bound k a -> mode_of (arm_cpsr a) = Some Usr.
Proof.
  intros ((_ & _ & (_ & _ & _ & _ & ->) & _) & _ & (_ & _ & _ & _ & _ & _ & Hmode & _) & _). unfold mode_of.
  by rewrite Hmode.
Qed.


End Machine.

(** ** Witness *)

(** The simulated card, a timer of the scheduler that is always due, and one task,
    which calls the kernel with the number that only prints. *)
#[local] Instance machine_layout : Layout sim.
Proof.
  refine {| current_task_at := 0x20000; tasks_at := 0x21000;
    others k m := vector_target (cpu := LittleEndian) m 0x08 = Some 0x32000 /\
      forall x, in_stacks x -> get8 (kernel_ram k) x = get8 m x |}; try done.
  - left. by vm_compute.
  - unfold sizeof_task_t, IRQ_STACK_ADDRESS, STACK_SIZE. intros k m m' [Hv Hm] Hx. split.
    + rewrite <- Hv. apply vector_target_same; [done|]. intros x Hr. apply Hx; lia.
    + intros x Hin. rewrite Hm by done. symmetry. apply in_stacks_range in Hin. apply Hx; lia.
Defined.

#[local] Instance machine_area : UserArea sim.
Proof.
  refine {| user_area := in_stacks |}.
  - intros x Hx%in_stacks_range. cbn. unfold RAM_SIZE, sizeof_task_t. lia.
  - intros k m e n p v [Hv Hm] Hp. split.
    + rewrite <- Hv. apply vector_target_same; [done|]. intros x Hr. apply store_same_outside.
      intros Hin. apply Hp, in_stacks_range in Hin. lia.
    + intros x Hx. change (get8 (store e n (kernel_ram k) p v) x = get8 (store e n m p v) x).
      unfold store. rewrite !get8_write_bytes. case_decide; [done|]. by apply Hm.
  - intros k m e n p [_ Hm] Hp. apply load_ext. intros x Hx. by apply Hm, Hp.
Defined.

Definition machine_base : Z := 0x10000.
Definition machine_text (p : Z) : option instr :=
  match code_at machine_base (interrupt_handler_code machine_base 0x30000 0x31000) p with
  | Some i => Some i
  | None => code_at 0x10100 syscall_return_code p
  end.

(** [handle_interrupt] compiled for one task and this timer: the scheduler comes
    back to the same task, and the timer is acknowledged. *)
Definition machine_handler (a : arm sim) : arm sim :=
  set_pc (b_lr (irq a)) (set_devices (write32 TIMER1_INTCLR 1 (read32 PIC_IRQ_STATUS (arm_dev a)).2) a).

(** What call 0 prints. *)
Definition zero_output (data : Z) (d : sim) : sim :=
  match printf dispatcher_format [VInt 0; VInt data] d with
  | Done (_, d) => match puts (cstr "This is not a real syscall!" ++ [10]) d with Done (_, d) => d | _ => d end
  | _ => d
  end.

(** [syscall_handler] compiled for it, without optimisation. *)
Definition machine_call (a : arm sim) : arm sim :=
  let s := b_sp (svc a) in
  let m := store LittleEndian 4 (arm_mem a) (s - 8) (gpr a !!! 11%nat) in
  let m := store LittleEndian 4 m (s - 4) (b_lr (svc a)) in
  mk_arm (<[0%nat := 0]> (gpr a)) (usr a) (irq a) (mk_bank (s - 16) 0x10100 (b_spsr (svc a))) 0x10100 (arm_cpsr a) m
    (zero_output (gpr a !!! 1%nat) (arm_dev a)).

Definition machine_compiled (p : Z) : option (arm sim -> arm sim) :=
  if p =? 0x31000 then Some machine_handler else if p =? 0x32000 then Some machine_call else None.

Definition zero_calls (no data : Z) : Prop := no = ZERO_SYSCALL.

Definition machine_answers (a : Z) : Z := if a =? PIC_IRQ_STATUS then 0x10 else example_answers a.

Definition machine_power_on : kernel sim :=
  mk_kernel (mk_nic (blank_sim [] machine_answers) (initial_heap ∅) None pqueue_boot) sched_boot 0
    (mk_task (replicate 13 0) 0 0 0x40030 0xD3) 0 None.

Definition machine_started : kernel sim :=
  match kernel_main (cpu := LittleEndian) (board := 0) 0x40000 0x32000 (at_ machine_base 7) 1 fresh_driver pci_devices_boot
      machine_power_on with
  | Done (_, k) => k
  | _ => machine_power_on
  end.

Definition machine_memory : mem :=
  let m := store LittleEndian 4 (kernel_ram machine_started) current_task_at (task_at 0) in
  foldl (fun m '(i, t) => store_words (cpu := LittleEndian) m (task_at i) (task_words t)) m
    (imap pair (tasks (k_sched machine_started))).

Definition machine_arm : arm sim :=
  mk_arm (zseq 13) (mk_bank 0x3FE0000 0 0) (mk_bank IRQ_STACK_ADDRESS 0 0) (mk_bank SVC_STACK_ADDRESS 0 0) 0x40000 0x10
    machine_memory (n_dev (k_nic machine_started)).

(** *** The kernel stays with its one task *)

(** The timer is due, and the card has nothing to send and nothing to deliver. *)
Definition idle_sim (d : sim) : Prop :=
  sim_answers d = machine_answers /\ v_base (sim_view d) = 0x50000000 /\ v_head (sim_view d) = v_tail (sim_view d) /\
  sim_arrivals d = [].

(** So it does nothing to memory. *)
Definition machine_dma (d : sim) (m : mem) : sim * mem := (d, m).

Definition one_task (k : kernel sim) : Prop :=
  sys_inv (D := sim) 0 k /\ task_count (k_sched k) = 1 /\ idle_sim (n_dev (k_nic k)).

Lemma idle_write n p v (d : sim) : p < 0x41000000 -> idle_sim d -> idle_sim (bus_write n p v d).
Proof.
  intros Hp (Ha & Hb & Ht & Hl). unfold idle_sim. cbn [bus_write sim_bus sim_answers sim_arrivals sim_view].
  rewrite written_below by lia. by split_and!.
Qed.

Lemma idle_acts (n : nic_state sim) : idle_sim (n_dev n) -> acts n = n.
Proof.
  intros (Ha & Hb & Ht & Hl). destruct n as [[[b h t w g] l c f] [] [[x []]|] q]; [|done].
  cbn [n_dev sim_view sim_arrivals sim_answers v_head v_tail] in *. subst l t. unfold acts. cbn [n_e1000 n_dev n_heap n_queue].
  unfold card_step, sim_card, sim_transmit, sim_receive. cbn [sim_view v_head v_tail sim_arrivals]. by rewrite Z.eqb_refl.
Qed.

Lemma one_task_current (s : sched) :
  sched_inv s -> isRunning s <> 0 -> task_count s = 1 -> current_task s = Some 0%nat.
Proof.
  intros (_ & _ & _ & Hsub & _) Hrun Hc.
  assert (current_task s ∈ created s) as (i & Hi & Hin%elem_of_seq)%list_elem_of_fmap.
  { eapply elem_of_submseteq; [|exact Hsub]. unfold live. rewrite (proj2 (Z.eqb_neq _ _) Hrun). apply elem_of_cons. by left. }
  rewrite Hi. f_equal. lia.
Qed.

Lemma one_task_read (d : sim) : idle_sim d -> read32 PIC_IRQ_STATUS d = (0x10, d).
Proof.
  intros (Ha & Hb & _). unfold read32. change (u32 PIC_IRQ_STATUS) with PIC_IRQ_STATUS. cbn [bus_read sim_bus]. rewrite Hb, Ha. done.
Qed.

(** The timer's interrupt. *)
Lemma one_task_interrupt (k : kernel sim) :
  idle_sim (n_dev (k_nic k)) -> handle_interrupt 100 k = Done (tt, after_timer k).
Proof.
  intros Hd. pose proof (handle_interrupt_eq 100 k) as E. rewrite (one_task_read _ Hd) in E. cbv zeta in E.
  rewrite E. change (negb (Z.land 0x10 PCI3_INTBIT =? 0)) with false. change (negb (Z.land 0x10 TIMER1_INTBIT =? 0)) with true.
  change (negb (Z.land 0x10 TIMER3_INTBIT =? 0)) with false. cbv iota. by destruct k as [[] ? ? ? ? ?].
Qed.

(** The system call. *)
Lemma zero_output_emitted data (d : sim) :
  is_u32 data -> exists n text1 text2,
    printf dispatcher_format [VInt 0; VInt data] d = Done (n, emit text1 d) /\
    puts (cstr "This is not a real syscall!" ++ [10]) (emit text1 d) = Done (0, emit text2 (emit text1 d)) /\
    zero_output data d = emit text2 (emit text1 d).
Proof.
  intros Hdata. destruct (dispatcher_message 0 data d) as (n & text & _ & Hmsg); [done..|].
  exists n, text. eexists. unfold zero_output. rewrite Hmsg, puts_spec by (apply (bool_decide_unpack _); by vm_compute). done.
Qed.

Lemma one_task_call r data (k k1 : kernel sim) :
  is_u32 data -> syscall (cpu := LittleEndian) (fun _ => 0) ZERO_SYSCALL data k = Done (r, k1) ->
  r = 0 /\ k1 = set_k_context (returned_from (fun _ => 0) 0 (k_context k))
    (set_k_nic (set_n_dev (zero_output data (n_dev (k_nic k))) (k_nic k)) k).
Proof.
  intros Hdata Hcall. destruct (zero_output_emitted data (n_dev (k_nic k)) Hdata) as (n & t1 & t2 & Hmsg & Hputs & ->).
  rewrite (syscall_eq (fun _ => 0) ZERO_SYSCALL data k 0 (emit t2 (emit t1 (n_dev (k_nic k)))) (k_sched k)) in Hcall; [|done|].
  - injection Hcall as <- <-. split; [done|]. by destruct k.
  - unfold syscall_dispatcher. erewrite bind_done; [|by apply uart_io_done]. cbn [Z.eqb ZERO_SYSCALL].
    unfold syscall_zero_dispatch. erewrite bind_done; [|by apply uart_io_done]. by destruct k.
Qed.

Lemma idle_emit text (d : sim) : idle_sim d -> idle_sim (emit text d).
Proof.
  unfold emit. generalize (crlf text). intros l. revert d. induction l as [|c l IH]; intros d Hd; [done|]. cbn [foldl].
  apply IH. unfold write8. by apply idle_write.
Qed.

Lemma idle_zero_output data (d : sim) : is_u32 data -> idle_sim d -> idle_sim (zero_output data d).
Proof.
  intros Hdata Hd. destruct (zero_output_emitted data d Hdata) as (n & t1 & t2 & _ & _ & ->). by do 2 apply idle_emit.
Qed.

(** *** The compiled functions implement their source *)

Abbreviation machine_task_step := (task_step (cpu := LittleEndian) (area := machine_area) (fun _ => 0) 100 machine_text machine_compiled zero_calls).

Lemma one_task_step (k k' : kernel sim) : machine_task_step k k' -> one_task k -> one_task k'.
Proof.
  intros Hstep (Hinv & Hc & Hd).
  pose proof (task_step_inv (cpu := LittleEndian) (fun _ => 0) 100 machine_text machine_compiled zero_calls 0 k k' ltac:(lia) Hstep Hinv) as Hinv'.
  destruct Hstep as [k t|k n p v|k n p|k n p v Hp|k|k k' Hirq|k no data r k' t _ Hdata (_ & -> & _) Hcall Ht];
    split; try exact Hinv'; try (split; [done|]).
  - done.
  - done.
  - done.
  - by apply idle_write.
  - by rewrite (idle_acts (k_nic k) Hd).
  - split; [by rewrite (irq_handler_count 100 k k' Hirq)|].
    apply bind_done_inv in Hirq as ([] & k1 & Hsave & Hirq). apply bind_done_inv in Hirq as ([] & k2 & Hh & Hload).
    unfold save_current_task_state in Hsave. destruct (current_task (k_sched k)); [|done]. injection Hsave as <-.
    rewrite one_task_interrupt in Hh by done. injection Hh as <-.
    unfold load_current_task_state in Hload. destruct (current_task _); [|done]. destruct (tasks _ !! _); [|done].
    injection Hload as <-. cbn [k_nic set_k_context after_timer set_k_nic set_k_sched n_dev set_n_dev].
    unfold read32, write32. cbn [bus_read sim_bus snd]. by apply idle_write.
  - destruct (one_task_call r data k k' Hdata Hcall) as [_ ->]. split; [done|]. by apply idle_zero_output.
Qed.

Lemma one_task_steps (k k' : kernel sim) : rtc machine_task_step k k' -> one_task k -> one_task k'.
Proof. induction 1 as [|x y z Hxy _ IH]; [done|]. intros Hx. by apply IH, (one_task_step x). Qed.

Lemma machine_handler_implements (k : kernel sim) :
  one_task k -> implements_handler (cpu := LittleEndian) 100 machine_base machine_handler k.
Proof.
  intros (Hinv & Hc & Hidle) k1 k2 a1 Hsave Hh Hk1 Hmode Hlen Hsp.
  unfold save_current_task_state in Hsave. pose proof Hinv as (_ & _ & Hs & Hrun & _).
  pose proof (one_task_current _ Hs Hrun Hc) as Hcur. rewrite Hcur in Hsave. injection Hsave as <-.
  set (k1 := set_k_sched _ k) in *.
  rewrite one_task_interrupt in Hh by done. injection Hh as <-.
  assert (sched_inv (k_sched k1)) as Hs1 by (by apply save_inv).
  destruct (schedule_fields (k_sched k1)) as (Er & Ec & Et).
  assert (current_task (schedule (k_sched k1)) = Some 0%nat) as Hcur2.
  { apply one_task_current; [by apply tick_inv|by rewrite Er|by rewrite Ec]. }
  destruct Hk1 as ((Hl & Hw & Hr & Hm) & Hok & Ho & Hd & Hv). split.
  - unfold machine_handler. rewrite Hd, one_task_read by done.
    split; [|split; [cbn [after_timer k_sched set_k_nic set_k_sched]; by rewrite Et|by split_and!]].
    split_and!; cbn [after_timer k_sched set_k_nic set_k_sched]; rewrite ?Et; try done.
    + intros i. rewrite Hcur2. intros [= <-]. lia.
    + rewrite Hcur2. change (current_task (k_sched k1)) with (current_task (k_sched k)) in Hm. by rewrite Hcur in Hm.
  - by split_and!.
Qed.

Lemma machine_call_implements (k : kernel sim) :
  one_task k ->
  implements_call (cpu := LittleEndian) (area := machine_area) (fun _ => 0) machine_base 0x10100 SVC_STACK_ADDRESS machine_text
    machine_compiled zero_calls machine_call k.
Proof.
  intros _ no data r k1 a1 _ Hdata (_ & -> & _) Hcall Hk Hmode Hlen Hregs Hlr H0' H1' Hsp.
  destruct (one_task_call r data k k1 Hdata Hcall) as [-> ->].
  assert (gpr a1 !!! 1%nat = data) as E1 by (by apply list_lookup_total_correct).
  assert (exists v, gpr a1 !! 11%nat = Some v) as [v E11] by (apply lookup_lt_is_Some; lia).
  assert (is_u32 v) as Hv11 by (by apply (Forall_lookup_1 _ _ _ _ Hregs E11)).
  assert (gpr a1 !!! 11%nat = v) as E11' by (by apply list_lookup_total_correct).
  unfold machine_call. rewrite Hsp, E1, E11'. set (lr := b_lr (svc a1)) in *.
  set (m := store LittleEndian 4 (store LittleEndian 4 (arm_mem a1) (SVC_STACK_ADDRESS - 8) v) (SVC_STACK_ADDRESS - 4) lr).
  assert (forall x, ~ (0x3FEFFF8 <= x < 0x3FF0000) -> get8 m x = get8 (arm_mem a1) x) as Hm.
  { intros x Hx. unfold SVC_STACK_ADDRESS, STACK_SIZE, IRQ_STACK_ADDRESS in m. unfold m.
    rewrite !store_same_outside by lia. done. }
  split; [|split; [|split]].
  - split_and!; try done; cbn [gpr svc arm_mem b_sp].
    + by rewrite length_insert.
    + intros i Hi. by rewrite list_lookup_insert_ne by lia.
    + by rewrite Hsp.
    + rewrite Hsp, E11. f_equal. unfold m.
      rewrite load_store_separate by (unfold separate; lia). rewrite load_store_same. symmetry. by apply u32_id.
    + rewrite Hsp. unfold m. rewrite load_store_same. by apply u32_id.
  - destruct Hk as ((Hl & Hw & Hr & Hc) & Hok & (Hvec & Ho) & Hd & Hv).
    split; [|split; [done|split; [|split; [by rewrite <- Hd|]]]]; cbn [arm_mem arm_dev];
      change (k_sched (set_k_context _ (set_k_nic _ k))) with (k_sched k).
    + split_and!; try done.
      * intros i t Hi. rewrite <- (Hw i t Hi). apply load_words_ext. intros x Hx. apply Hm. apply lookup_lt_Some in Hi.
        destruct (task_at_range i) as [Hri _]; [lia|]. cbn [tasks_at machine_layout] in *. unfold sizeof_task_t in *. lia.
      * rewrite <- Hc. apply load_ext. intros x Hx. apply Hm. cbn [current_task_at machine_layout] in Hx. lia.
    + split.
      * rewrite <- Hvec. apply vector_target_same; [done|]. intros x Hx. apply Hm. lia.
      * intros x Hx. change (get8 (kernel_ram k) x = get8 m x). rewrite Hm by (apply in_stacks_range in Hx; lia). by apply Ho.
    + rewrite <- Hv. apply vector_target_ext. intros x Hx. apply Hm. lia.
  - by apply Forall_insert.
  - intros _. apply list_lookup_insert_eq. lia.
Qed.

Lemma machine_card_implements (k : kernel sim) : one_task k -> implements_card machine_dma k.
Proof.
  intros (_ & _ & Hidle) m Hm. cbv zeta. unfold machine_dma. rewrite (idle_acts _ Hidle).
  split; [done|]. split; [|done]. by destruct k.
Qed.

(** *** The machine after [kernel_main] *)

Lemma machine_image :
  kernel_image (cpu := LittleEndian) machine_base 0x30000 0x31000 0x32000 0x10100 SVC_STACK_ADDRESS machine_text machine_compiled
    machine_handler machine_call.
Proof.
  split; try done.
  - destruct (code_at_holds machine_base (interrupt_handler_code machine_base 0x30000 0x31000) ltac:(done) ltac:(done))
      as (? & ? & Hcode).
    split; [done|]. split; [done|]. intros i ins Hi. unfold machine_text. by rewrite (Hcode i ins Hi).
  - split; [done|]. split; [done|]. intros i ins Hi. do 3 (destruct i as [|i]; [exact Hi|]). done.
  - intros k m [Hv _]. exact Hv.
Qed.

(** The tasks are written far below the stacks. *)
Lemma write_tasks_outside l (m : mem) x :
  Forall (fun it => (it.1 < 16)%nat /\ length (task_words it.2) = 17%nat) l -> 0x22000 <= x ->
  get8 (foldl (fun m '(i, t) => store_words (cpu := LittleEndian) m (task_at i) (task_words t)) m l) x = get8 m x.
Proof.
  intros Hl Hx. revert m. induction Hl as [|[i t] l [Hi Hw] _ IH]; intros m; [done|]. cbn [foldl fst snd] in *.
  rewrite IH. apply store_words_outside. rewrite Hw. destruct (task_at_range i Hi) as [Hr _].
  cbn [tasks_at machine_layout] in Hr. unfold sizeof_task_t in Hr. lia.
Qed.

Lemma machine_represented : represents (cpu := LittleEndian) machine_base machine_started machine_arm.
Proof.
  split; [split; [apply sched_in_check; by vm_compute|split; [|split; [|split; [done|by vm_compute]]]]|].
  - apply (bool_decide_unpack _). by vm_compute.
  - split; [by vm_compute|]. intros x Hx%in_stacks_range. unfold machine_arm, machine_memory. cbn [arm_mem].
    rewrite write_tasks_outside; [|apply (bool_decide_unpack _); by vm_compute|lia]. symmetry. apply store_same_outside.
    cbn [current_task_at machine_layout]. lia.
  - split; [apply (bool_decide_unpack _); by vm_compute|]. split; [|done]. by vm_compute.
Qed.

Lemma machine_boots :
  boots (D := sim) (cpu := LittleEndian) 1 fresh_driver pci_devices_boot machine_power_on (mk_spec [] [] HEAP_START).
Proof.
  split.
  - reflexivity.
  - reflexivity.
  - apply initial_heap_rep.
  - cbn. lia.
  - vm_compute. intros [=].
  - apply pqueue_boot_ok.
  - split; [done|]. split; [done|]. by apply mac_wf_dec; vm_compute.
  - vm_compute. reflexivity.
Qed.

Lemma machine_entry : in_task machine_text machine_compiled (u32 0x40000).
Proof. split; [vm_compute; intros [=]|]. split; vm_compute; reflexivity. Qed.

Lemma machine_start_one : nic_load (k_nic machine_started) = 0%nat /\ one_task machine_started.
Proof.
  destruct (boots_within (D := sim) (cpu := LittleEndian) (board := 0) machine_text machine_compiled 0x40000 0x32000
    (at_ machine_base 7) 1 fresh_driver pci_devices_boot machine_power_on (mk_spec [] [] HEAP_START))
    as (k1 & Hk1 & Hinv & _); [apply machine_boots|apply machine_entry|].
  assert (k1 = machine_started) as -> by (unfold machine_started; by rewrite Hk1).
  assert (nic_load (k_nic machine_started) = 0%nat) as Hload by (vm_compute; reflexivity).
  rewrite Hload in Hinv. split; [done|]. split; [done|]. split; [vm_compute; reflexivity|].
  split; [|split; [vm_compute; reflexivity|split; vm_compute; reflexivity]].
  exact (eq_refl machine_answers <: sim_answers (n_dev (k_nic machine_started)) = machine_answers).
Qed.

