(* ===== verification/Types.v ===== *)
(** * The types of the kernel's state

    Every step of the running system keeps the state within its C types: the
    scheduler's counters in range, every task pointer of the ring and the current
    one inside the task array, thirteen registers of 32 bits in every task, and
    the clock within 64 bits. *)

From S2P Require Import Prelude StateMonad Memory Bus RingBuffer Heap Clock Stdio Scheduler.
From S2P Require Import NetworkIo PacketQueue PciMmio Pci E1000 Ethernet Driver Reception CardInit Interrupt Syscall Boot System.

(** ** Typed states *)

(** NULL, or the address of an element of the task array. *)
Definition pointer_typed (p : option nat) : Prop := match p with Some i => (i < 16)%nat | None => True end.

Definition sched_typed (s : sched) : Prop :=
  0 <= task_count s <= 16 /\ 0 <= buffer_start s < 16 /\ 0 <= buffer_end s < 16 /\ is_i32 (isRunning s) /\
  length (tasks s) = 16%nat /\ Forall task_typed (tasks s) /\
  length (ring_buffer s) = 16%nat /\ Forall pointer_typed (ring_buffer s) /\
  pointer_typed (current_task s) /\ is_i32 (sched_errno s).

Definition kernel_typed {D} (k : kernel D) : Prop :=
  sched_typed (k_sched k) /\ is_u64 (k_clock k) /\ task_typed (k_context k) /\ is_u32 (k_irq_sp k).

(** ** The scheduler *)

Lemma boot_typed : sched_typed sched_boot.
Proof.
  assert (Forall task_typed (replicate 16 task_zero)) as Ht.
  { apply Forall_replicate. split; [done|]. split; [by apply (bool_decide_unpack _); vm_compute|done]. }
  split_and!; try done. by apply (Forall_replicate _ 16 None).
Qed.

Lemma ring_insert_typed p s : pointer_typed p -> sched_typed s -> sched_typed (ring_buffer_insert p s).
Proof.
  intros Hp (? & ? & ? & ? & ? & ? & Hl & Hr & ? & ?). unfold ring_buffer_insert, MAX_TASK_NUMBER.
  destruct (negb _); [|done]. pose proof (Z.rem_bound_pos (buffer_end s + 1) 16 ltac:(lia) ltac:(lia)).
  split_and!; cbn; try done; try lia; [by rewrite length_insert|by apply Forall_insert].
Qed.

Lemma ring_remove_typed s :
  sched_typed s -> pointer_typed (ring_buffer_remove s).1 /\ sched_typed (ring_buffer_remove s).2.
Proof.
  intros Hs. pose proof Hs as (? & ? & ? & ? & ? & ? & Hl & Hr & ? & ?). unfold ring_buffer_remove, MAX_TASK_NUMBER.
  destruct (_ =? _); [done|]. cbn [fst snd]. split.
  - destruct (lookup_lt_is_Some_2 (ring_buffer s) (Z.to_nat (buffer_start s))) as [p Hp]; [lia|].
    rewrite (list_lookup_total_correct _ _ _ Hp). by apply (Forall_lookup_1 _ _ _ _ Hr Hp).
  - pose proof (Z.rem_bound_pos (buffer_start s + 1) 16 ltac:(lia) ltac:(lia)).
    split_and!; cbn; try done; lia.
Qed.

Lemma with_current_typed p s : pointer_typed p -> sched_typed s -> sched_typed (with_current s p).
Proof. unfold sched_typed. cbn. tauto. Qed.

Lemma schedule_typed s : sched_typed s -> sched_typed (schedule s).
Proof.
  intros Hs. unfold schedule.
  assert (pointer_typed (current_task s)) as Hc by apply Hs.
  destruct (ring_remove_typed _ (ring_insert_typed _ _ Hc Hs)) as [Hp Hs2].
  destruct (ring_buffer_remove _) as [p s2]. by apply with_current_typed.
Qed.

Lemma with_errno_typed e s : is_i32 e -> sched_typed s -> sched_typed (with_errno s e).
Proof. unfold sched_typed. cbn. tauto. Qed.

Lemma save_typed i t s :
  task_typed t -> sched_typed s -> sched_typed (with_tasks s (task_count s) (<[i := t]> (tasks s))).
Proof.
  intros Ht Hs. pose proof Hs as (_ & _ & _ & _ & Hl & Hf & _).
  unfold sched_typed in *. cbn. rewrite length_insert.
  pose proof (Forall_insert task_typed (tasks s) i t Hf Ht). tauto.
Qed.

Lemma add_task_typed mode entry s : sched_typed s -> sched_typed (add_task mode entry s).2.
Proof.
  intros Hs. unfold add_task. destruct (negb _); [by apply with_errno_typed|].
  destruct (Z.leb_spec MAX_TASK_NUMBER (task_count s)) as [Hle|Hlt]; [by apply with_errno_typed|].
  unfold MAX_TASK_NUMBER in Hlt. pose proof Hs as (Hc & _). cbn [snd].
  set (s1 := with_tasks s (task_count s) _).
  assert (sched_typed s1) as H1.
  { apply save_typed; [|done]. apply init_task_typed; apply u32_range. }
  assert (sched_typed (ring_buffer_insert (Some (Z.to_nat (task_count s))) s1)) as H2.
  { apply ring_insert_typed; [cbn; lia|done]. }
  assert (task_count (ring_buffer_insert (Some (Z.to_nat (task_count s))) s1) = task_count s) as Ec
    by (unfold ring_buffer_insert; by destruct (negb _)).
  unfold sched_typed in *. cbn. rewrite Ec. assert (0 <= task_count s + 1 <= 16) by lia. tauto.
Qed.

Lemma start_typed s : sched_typed s -> sched_typed (start_scheduler_tasks s).
Proof.
  intros Hs. unfold start_scheduler_tasks. destruct (ring_remove_typed s Hs) as [Hp Hs2].
  destruct (ring_buffer_remove s) as [p s2]. cbn [fst snd] in *.
  unfold sched_typed in *. cbn. assert (is_i32 1) by done. tauto.
Qed.

(** ** The running system *)

Section Steps.
Context {D : Type} `{E1000Card D} {cpu : Cpu} {board : Board} (unspecified : nat -> Z) (fuel : nat).

(** What an interrupt does to the scheduler and the clock. *)
Lemma handle_interrupt_typed (k k' : kernel D) :
  handle_interrupt fuel k = Done (tt, k') -> kernel_typed k -> kernel_typed k'.
Proof.
  intros Hh (Hs & Hc & Hctx & Hsp). destruct (handle_interrupt_frame _ _ _ Hh) as (Ectx & Esp & Hcase).
  unfold kernel_typed. rewrite Ectx, Esp. split; [|split; [|done]].
  - destruct Hcase as [Es|Es]; rewrite Es; [done|by apply schedule_typed].
  - pose proof (handle_interrupt_eq fuel k) as E. destruct (read32 PIC_IRQ_STATUS (n_dev (k_nic k))) as [status d].
    cbv zeta in E. rewrite E in Hh. clear E.
    assert (forall k0 : kernel D, is_u64 (k_clock k0) ->
      is_u64 (k_clock (let k1 := if negb (Z.land status TIMER1_INTBIT =? 0) then after_timer k0 else k0 in
        if negb (Z.land status TIMER3_INTBIT =? 0) then after_clock k1 else k1))) as Htail.
    { intros k0 Hk0. cbv zeta.
      destruct (negb (Z.land status TIMER3_INTBIT =? 0)); [apply u64_range|].
      by destruct (negb (Z.land status TIMER1_INTBIT =? 0)). }
    destruct (negb (Z.land status PCI3_INTBIT =? 0)); [|by injection Hh as <-; apply (Htail (set_k_nic _ k))].
    destruct (e1000_irq_handler _ fuel _) as [[u n]| |]; [|done..]. injection Hh as <-.
    by apply (Htail (set_k_nic n (set_k_nic _ k))).
Qed.

Lemma irq_handler_typed (k k' : kernel D) : irq_handler fuel k = Done (tt, k') -> kernel_typed k -> kernel_typed k'.
Proof.
  intros (u & k1 & Hsave & Hrest)%bind_done_inv Hk. apply bind_done_inv in Hrest as (v & k2 & Hh & Hload).
  destruct u, v. unfold save_current_task_state in Hsave.
  destruct (current_task (k_sched k)) as [i|]; [|done]. injection Hsave as <-.
  apply handle_interrupt_typed in Hh as (Hs & Hc & _ & Hsp).
  2:{ destruct Hk as (Hs & Hc & Hctx & Hsp). split; [by apply save_typed|done]. }
  unfold load_current_task_state in Hload. destruct (current_task (k_sched k2)) as [j|]; [|done].
  destruct (tasks (k_sched k2) !! j) as [t|] eqn:Et; [|done]. injection Hload as <-.
  split; [done|]. split; [done|]. split; [|done]. destruct Hs as (_ & _ & _ & _ & _ & Ht & _).
  by apply (Forall_lookup_1 _ _ _ _ Ht Et).
Qed.

(** A change below the kernel's own variables. *)
Lemma set_k_nic_typed n (k : kernel D) : kernel_typed k -> kernel_typed (set_k_nic n k).
Proof. done. Qed.

(** C11: Type preservation: every step of the running system takes a state whose
    scheduler, clock and registers have their C types to such a state: the
    counters stay in range, no task pointer ever leaves the task array, every
    task has thirteen registers of 32 bits, and the clock wraps at 64 bits. *)
Theorem sys_step_typed (k k' : kernel D) :
  sys_step unspecified fuel k k' -> kernel_typed k -> kernel_typed k'.
Proof.
  intros Hstep Hk. pose proof Hk as (Hs & Hc & Hctx & Hsp).
  destruct Hstep as [k t h tb Ht|k n a|k n a v Ha|k|k Hne|k a e p len Hr He|k number data r k' Hno Hmin Hdata Hsys|k k' Hirq].
  - split; [done|]. split; [done|]. split; [apply Ht|done].
  - by apply set_k_nic_typed.
  - by apply set_k_nic_typed.
  - by apply set_k_nic_typed.
  - by apply set_k_nic_typed.
  - by apply set_k_nic_typed.
  - destruct (syscall_spec unspecified number data k) as (text & _ & Hd); [done..|].
    rewrite Hsys in Hd. injection Hd as _ ->.
    split; [|split; [done|split; [|done]]].
    2:{ destruct Hctx as (Hlen & Hw & Hrest).
        destruct (returned_kept unspecified (call_result unspecified number) (k_context k)) as (El & _).
        split; [etrans; [exact El|exact Hlen]|]. split; [apply returned_words; [apply call_result_u32|done]|exact Hrest]. }
    change (k_sched (after_syscall _ _ _ _ ?s)) with s. unfold call_sched. destruct (number =? ZERO_SYSCALL); [done|].
    destruct (number =? CREATE_PROCESS); [by apply add_task_typed|].
    destruct (number =? SHUTDOWN); [done|]. by apply with_errno_typed.
  - by apply (irq_handler_typed k).
Qed.

End Steps.

(** ** Witness *)

Definition typed_kernel : kernel sim :=
  mk_kernel (sim_nic pqueue_boot) (start_scheduler_tasks (boot_with 2)) 41
    (init_task 0x8010 0x3FDF000) IRQ_STACK_ADDRESS None.

Lemma typed_kernel_ok : kernel_typed typed_kernel.
Proof.
  split; [|split; [done|split; [by apply init_task_typed|done]]].
  apply start_typed. do 2 apply add_task_typed. apply boot_typed.
Qed.

(** The task computes. *)
Lemma sys_step_typed_witness :
  kernel_typed (set_k_table None (set_k_context (init_task 0x8014 0x3FDF000)
    (set_k_nic (set_n_heap (initial_heap ∅) (k_nic typed_kernel)) typed_kernel))).
Proof.
  apply (sys_step_typed (D := sim) (cpu := LittleEndian) (fun _ => 77) 1 typed_kernel).
  - apply user_computes. by apply init_task_user.
  - apply typed_kernel_ok.
Defined.
