(* ===== verification/Preemption.v ===== *)
(** * The network task among interrupts and other tasks

    The kernel as the network task sees it while it sends: before a frame is
    handed to the card and at every poll of the wait, interrupts may be taken,
    other tasks may compute and call the kernel, and the card acts.  The laws of
    [Nic] hold for this card as well, so what is proved of the network stack above
    it holds for the preempted network task. *)

From S2P Require Import Prelude StateMonad Memory Bus RingBuffer Heap Clock Stdio Logger Scheduler.
From S2P Require Import NetworkIo PacketQueue PciMmio Pci E1000 Ethernet Within Driver Reception Interrupt Syscall Boot System.

(** ** Definitions *)

(** What can come between two instructions of the network task. *)
Inductive event :=
| Interrupted
| Card_acted
| Computed (t : task_t)                 (* another task, which leaves these registers *)
| Called (number data : Z).             (* a system call of another task *)

Definition event_ok (e : event) : Prop :=
  match e with
  | Computed t => user_context t
  | Called number data => is_u32 number /\ call_defined number data /\ is_u32 data
  | Interrupted | Card_acted => True
  end.

(** The kernel, and what happens at each of the next polls. *)
Record world (D : Type) := mk_world {
  w_kernel : kernel D;
  w_events : list (list event);
}.
Arguments mk_world {D}.
Arguments w_kernel {D}.
Arguments w_events {D}.

Section Preemption.
Context {D : Type} `{E1000Card D} {cpu : Cpu} {board : Board} (unspecified : nat -> Z) (fuel wait_fuel : nat).

Definition happens (e : event) : ST (kernel D) unit :=
  match e with
  | Interrupted => irq_handler fuel
  | Card_acted => modify (fun k => set_k_nic (acts (k_nic k)) k)
  | Computed t => modify (set_k_context t)
  | Called number data => _ ← syscall unspecified number data; mret ()
  end.

Definition on_kernel {A} (m : ST (kernel D) A) : ST (world D) A :=
  zoom w_kernel (fun k w => mk_world k (w_events w)) m.
Definition on_driver {A} (m : ST (nic_state D) A) : ST (world D) A := on_kernel (on_nic_state m).

Definition meanwhile : ST (world D) unit := fun w =>
  on_kernel (for_each (hd [] (w_events w)) happens) (mk_world (w_kernel w) (tl (w_events w))).

(** [wait_sent] and [e1000_send_packet] of E1000.v, preempted. *)
Fixpoint wait_sent_among (n : nat) (i : Z) : ST (world D) unit :=
  match n with
  | O => no_fuel
  | S n' =>
      meanwhile ;;
      on_driver E1000.card_acts ;;
      curr ← on_driver (tx_desc i);
      if tx_status curr =? 0 then wait_sent_among n' i else mret ()
  end.

Definition send_packet_among (p_data p_len : Z) : ST (world D) Z :=
  meanwhile ;;
  slot ← on_driver (e1000_start_frame p_data p_len);
  match slot with
  | None => mret (u32 (-1))
  | Some i => wait_sent_among wait_fuel i ;; mret 0
  end.

Definition w_nic (w : world D) : nic_state D := k_nic (w_kernel w).
Definition set_w_nic (s : nic_state D) (w : world D) : world D := mk_world (set_k_nic s (w_kernel w)) (w_events w).

#[local] Instance world_nic : Nic (world D) := {|
  nic_heap w := n_heap (w_nic w);
  nic_set_heap h w := set_w_nic (set_n_heap h (w_nic w)) w;
  nic_get_mac := on_driver e1000_get_mac;
  nic_send_packet := send_packet_among;
  nic_log now severity file message w :=
    set_w_nic (set_n_dev (log_line now severity file message (n_dev (w_nic w))) (w_nic w)) w;
|}.

(** ** Without events *)

Lemma on_driver_done {A} (m : ST (nic_state D) A) w a s :
  m (w_nic w) = Done (a, s) -> on_driver m w = Done (a, set_w_nic s w).
Proof. intros Hm. unfold on_driver, on_kernel, on_nic_state, zoom. unfold w_nic in Hm. by rewrite Hm. Qed.

Lemma on_driver_inv {A} (m : ST (nic_state D) A) w a w' :
  on_driver m w = Done (a, w') -> exists s, m (w_nic w) = Done (a, s) /\ w' = set_w_nic s w.
Proof.
  unfold on_driver, on_kernel, on_nic_state, zoom, w_nic. destruct (m _) as [[b s]| |]; [|done..].
  intros E. injection E as -> <-. by exists s.
Qed.

Lemma tx_desc_inv i s x (s' : nic_state D) : tx_desc i s = Done (x, s') -> s' = s.
Proof.
  unfold tx_desc, e1000. st_step. destruct (n_e1000 s) as [[a e]|]; [|done]. destruct (_ !! _); [|done].
  intros E. by injection E as _ <-.
Qed.

Lemma set_w_nic_same w : set_w_nic (w_nic w) w = w.
Proof. destruct w as [k l]. unfold set_w_nic, w_nic. cbn. by destruct k. Qed.

Lemma set_w_nic_twice s s' w : set_w_nic s (set_w_nic s' w) = set_w_nic s w.
Proof. done. Qed.

Lemma meanwhile_nothing (k : kernel D) : meanwhile (mk_world k []) = Done (tt, mk_world k []).
Proof. done. Qed.

Lemma on_driver_bind {A B} (m : ST (nic_state D) A) (f : A -> ST (nic_state D) B) w :
  on_driver (m ≫= f) w = (on_driver m ≫= (fun a => on_driver (f a))) w.
Proof.
  unfold on_driver, on_kernel, on_nic_state. unfold zoom, mbind, st_bind. cbn.
  destruct (m (k_nic (w_kernel w))) as [[a s]| |]; [|done..]. cbn. by destruct (f a s) as [[b s']| |].
Qed.

Lemma on_driver_ret {A} (a : A) w : on_driver (mret a) w = Done (a, w).
Proof. rewrite <- (set_w_nic_same w) at 2. by apply on_driver_done. Qed.

Lemma wait_among_nothing n i w : w_events w = [] -> wait_sent_among n i w = on_driver (wait_sent n i) w.
Proof.
  revert w. induction n as [|n IH]; intros w Hw; [done|]. cbn [wait_sent_among wait_sent].
  destruct w as [k l]. cbn [w_events] in Hw. subst l. rewrite (bind_done _ _ _ _ _ (meanwhile_nothing k)).
  rewrite on_driver_bind. unfold mbind at 1 3, st_bind.
  destruct (on_driver E1000.card_acts (mk_world k [])) as [[[] w1]| |] eqn:E1; [|done..].
  apply on_driver_inv in E1 as (s1 & _ & ->). rewrite on_driver_bind. unfold mbind, st_bind.
  destruct (on_driver (tx_desc i) _) as [[curr w2]| |] eqn:E2; [|done..].
  apply on_driver_inv in E2 as (s2 & _ & ->).
  destruct (tx_status curr =? 0); [by apply IH|by rewrite on_driver_ret].
Qed.

(** Undisturbed, the card is the driver of E1000.v. *)
Lemma send_among_nothing p len w :
  w_events w = [] -> send_packet_among p len w = on_driver (e1000_send_packet wait_fuel p len) w.
Proof.
  intros Hw. destruct w as [k l]. cbn [w_events] in Hw. subst l.
  unfold send_packet_among, e1000_send_packet. rewrite (bind_done _ _ _ _ _ (meanwhile_nothing k)), on_driver_bind.
  unfold mbind at 1 3, st_bind. destruct (on_driver (e1000_start_frame p len) _) as [[slot w1]| |] eqn:E1; [|done..].
  apply on_driver_inv in E1 as (s1 & _ & ->). destruct slot as [i|]; [|by rewrite on_driver_ret].
  rewrite on_driver_bind. unfold mbind, st_bind. rewrite wait_among_nothing by done.
  destruct (on_driver (wait_sent wait_fuel i) _) as [[u w2]| |]; [|done..]. by rewrite on_driver_ret.
Qed.

(** ** The laws *)

Section Laws.
Variable bound : nat.
Hypothesis Hbound : (bound < fuel)%nat.

Lemma happens_serving e (k : kernel D) :
  event_ok e -> sys_inv bound k ->
  exists k', happens e k = Done (tt, k') /\ sys_inv bound k' /\ serving (k_nic k) (k_nic k').
Proof.
  intros He Hk. pose proof Hk as (Hn & Hl & Hs & Hrun & Hu & Hctx). destruct e as [| |t|number data]; cbn [happens].
  - by apply irq_handler_returns.
  - eexists. split; [done|]. pose proof (acts_serving (k_nic k) Hn) as Ha.
    split; [|exact Ha]. apply sys_inv_nic; [done|apply Ha].
  - eexists. split; [done|]. split; [by split_and!|by apply serving_refl].
  - destruct He as (Hno & Hmin & Hdata).
    destruct (syscall_returns unspecified bound number data k Hno Hmin Hdata Hk) as (r & k' & Hc & Hk' & _ & text & Hnic).
    exists k'. rewrite (bind_done _ _ _ _ _ Hc). split; [done|]. split; [done|]. rewrite Hnic. by apply emit_serving.
Qed.

Lemma happen_serving l (k : kernel D) :
  Forall event_ok l -> sys_inv bound k ->
  exists k', for_each l happens k = Done (tt, k') /\ sys_inv bound k' /\ serving (k_nic k) (k_nic k').
Proof.
  intros Hl. revert k. induction Hl as [|e l He _ IH]; intros k Hk; cbn [for_each].
  - exists k. split; [done|]. split; [done|]. apply serving_refl, Hk.
  - destruct (happens_serving e k He Hk) as (k1 & H1 & Hk1 & S1). rewrite (bind_done _ _ _ _ _ H1).
    destruct (IH k1 Hk1) as (k' & H2 & Hk' & S2). exists k'. split; [done|]. split; [done|]. by eapply serving_trans.
Qed.

(** The events are possible ones, and the wait is long enough for them. *)
Definition events_ok (l : list (list event)) : Prop :=
  Forall (Forall event_ok) l /\ (length l + cd_delay < wait_fuel)%nat.

Lemma events_ok_tl l : events_ok l -> events_ok (tl l).
Proof. intros [Hl Hf]. destruct l as [|x l]; [done|]. apply Forall_cons in Hl as [_ Hl]. split; [done|]. cbn in *. lia. Qed.

(** Without events only the card and the driver work. *)
Definition undisturbed (w w' : world D) : Prop :=
  w_events w = [] ->
  w_events w' = [] /\ k_sched (w_kernel w') = k_sched (w_kernel w) /\ n_queue (w_nic w') = n_queue (w_nic w).

#[export] Instance undisturbed_preorder : PreOrder undisturbed.
Proof.
  split; [done|]. intros w1 w2 w3 H12 H23 E. destruct (H12 E) as (E2 & S2 & Q2). destruct (H23 E2) as (E3 & S3 & Q3).
  split_and!; congruence.
Qed.

Lemma meanwhile_serving w :
  events_ok (w_events w) -> sys_inv bound (w_kernel w) ->
  exists w', meanwhile w = Done (tt, w') /\ w_events w' = tl (w_events w) /\ sys_inv bound (w_kernel w') /\
    serving (w_nic w) (w_nic w') /\ undisturbed w w' /\ (w_events w = [] -> w' = w).
Proof.
  intros [Hl _] Hk. destruct w as [k [|x l]].
  - exists (mk_world k []). split_and!; try done. apply serving_refl, Hk.
  - apply Forall_cons in Hl as [Hx _]. destruct (happen_serving x k Hx Hk) as (k' & Hd & Hk' & Hs).
    exists (mk_world k' l). unfold meanwhile, on_kernel, zoom. cbn [w_kernel w_events hd tl]. rewrite Hd.
    by split_and!.
Qed.

(** *** A frame that is being sent *)

Lemma acts_undisturbed w : undisturbed w (set_w_nic (acts (w_nic w)) w).
Proof. intros E. split; [done|]. split; [done|]. apply acts_queue. Qed.

(** The poll reads the status the card reports. *)
Lemma poll_status i mac wire frame w :
  0 <= i < 8 -> frame_sending i mac wire frame (w_nic w) ->
  exists curr, on_driver (tx_desc i) w = Done (curr, w) /\
    ((tx_status curr =? 0) = true -> flying i mac wire frame (w_nic w)) /\
    ((tx_status curr =? 0) = false -> landed i mac wire frame (w_nic w)).
Proof.
  intros Hi Hs.
  assert (forall x, frame_in_ring i mac (w_nic w) x -> on_driver (tx_desc i) w = Done (x, w)) as Hread.
  { intros x (a & e & He & _ & _ & _ & _ & _ & _ & _ & Hx). rewrite <- (set_w_nic_same w) at 2. apply on_driver_done.
    unfold tx_desc, e1000. st_step. by rewrite He, Hx. }
  destruct Hs as [Hf|Hl].
  - pose proof Hf as (x & Hx & _ & _ & _ & Hst & _). exists x. split; [by apply Hread|]. by rewrite Hst.
  - pose proof Hl as (x & Hx & _ & _ & Hst). exists x. split; [by apply Hread|]. by rewrite (proj2 (Z.eqb_neq _ _) Hst).
Qed.

(** How many polls are left at most. *)
Definition polls_left (w : world D) : nat :=
  match w_events w with [] => cd_busy (n_dev (w_nic w)) | l => length l + cd_delay end.

Lemma polls_left_bound w : (polls_left w <= length (w_events w) + cd_delay)%nat.
Proof. unfold polls_left. destruct (w_events w); [apply cd_busy_bound|done]. Qed.

Lemma wait_among_lands n i mac wire frame w :
  0 <= i < 8 -> sys_inv bound (w_kernel w) -> events_ok (w_events w) ->
  frame_sending i mac wire frame (w_nic w) -> (polls_left w < n)%nat ->
  exists w', wait_sent_among n i w = Done (tt, w') /\ sys_inv bound (w_kernel w') /\ events_ok (w_events w') /\
    handling (w_nic w) (w_nic w') /\ landed i mac wire frame (w_nic w') /\ undisturbed w w'.
Proof.
  intros Hi. revert w. induction n as [|n IH]; intros w Hk Hev Hs Hn; [lia|]. cbn [wait_sent_among].
  destruct (meanwhile_serving w Hev Hk) as (w1 & Hm & Ev1 & Hk1 & (Hh1 & _ & Hf1) & Hu1 & Hsame).
  rewrite (bind_done _ _ _ _ _ Hm). apply Hf1 in Hs; [|done].
  pose proof (proj1 Hk1) as Hn1. destruct (acts_serving (w_nic w1) Hn1) as (Hh2 & _ & Hf2).
  set (w2 := set_w_nic (acts (w_nic w1)) w1) in *.
  rewrite (bind_done _ _ w1 tt w2) by (by apply on_driver_done).
  assert (frame_sending i mac wire frame (w_nic w2)) as Hs2 by (by apply Hf2).
  assert (sys_inv bound (w_kernel w2)) as Hk2 by (by apply sys_inv_nic).
  assert (events_ok (w_events w2)) as Hev2 by (cbn; rewrite Ev1; by apply events_ok_tl).
  assert (handling (w_nic w) (w_nic w2)) as Hh by (by eapply handling_trans).
  assert (undisturbed w w2) as Hu by (etrans; [exact Hu1|apply acts_undisturbed]).
  destruct (poll_status i mac wire frame w2 Hi Hs2) as (curr & Hread & Hzero & Hset).
  rewrite (bind_done _ _ _ _ _ Hread). destruct (tx_status curr =? 0); [|exists w2; by split_and!; try apply Hset].
  destruct (IH w2 Hk2 Hev2 Hs2) as (w' & Hw & Hk' & Hev' & Hh' & Hl & Hu').
  - unfold polls_left in *. change (w_events w2) with (w_events w1). rewrite Ev1.
    destruct (w_events w) as [|x [|y l]] eqn:Ew; cbn [tl length] in *.
    + pose proof (Hsame eq_refl) as ->. destruct Hs as [Hf|Hf].
      * destruct (acts_flying _ i mac wire frame Hi Hf) as [Hl|[_ Hlt]]; [|change (w_nic w2) with (acts (w_nic w)); lia].
        exfalso. by apply (flying_not_landed i mac wire frame (w_nic w2)); [by apply Hzero|].
      * exfalso. apply (flying_not_landed i mac wire frame (w_nic w2)); [by apply Hzero|by apply acts_landed].
    + pose proof (cd_busy_bound (n_dev (w_nic w2))). lia.
    + lia.
  - exists w'. split_and!; try done; [by eapply handling_trans|by etrans].
Qed.

Lemma doorbell_flying s a e p len :
  driver_ready s -> n_e1000 s = Some (a, e) -> is_u32 p -> is_u16 len ->
  (forall b, p <= b < p + len -> ~ driver_dma s b) ->
  flying (tx_cur e) (driver_mac s) (driver_sent s) (read_bytes (ram (n_heap s)) p (Z.to_nat len)) (doorbell a e p len s).
Proof.
  intros (a1 & e1 & He1 & [Hpci Hset] & Hlen & Hcur & Hmac & Hwin & Hvh & Hvt) He Hp Hl Hdma.
  rewrite He in He1. injection He1 as <- <-.
  destruct (lookup_lt_is_Some_2 (tx_descs e) (Z.to_nat (tx_cur e))) as [d Hd]; [lia|].
  assert (cd_view (n_dev (doorbell a e p len s)) =
    mk_view (e_mem_base e) (tx_cur e) ((tx_cur e + 1) mod 8) (driver_sent s) (v_setup (cd_view (n_dev s)))) as Hv.
  { unfold doorbell. cbn [n_dev]. rewrite tail_write, Hvh by (done || word_lia). done. }
  exists (mk_tx_desc (u32 p) (u16 len) (tx_cso d) 0x0B 0 (tx_css d) (tx_special d)).
  rewrite Hv. cbn [tx_addr tx_length tx_status v_head v_wire]. rewrite (u32_id p), (u16_id len) by done. split_and!; try done.
  - eexists a, _. split; [done|]. unfold window_ok, card_up. rewrite Hv. destruct Hwin as (? & ? & ? & _).
    unfold driver_mac. rewrite He. cbn. rewrite length_alter, list_lookup_alter_eq, Hd. cbn. rewrite u32_id, u16_id by done. by split_and!.
  - unfold driver_dma in *. rewrite He in Hdma. exact Hdma.
Qed.

(** *** Sending *)

Definition world_ready (w : world D) : Prop :=
  sys_inv bound (w_kernel w) /\ events_ok (w_events w) /\ driver_ready (w_nic w).

Lemma send_among_sends p len w :
  world_ready w -> is_u32 p -> is_u16 len -> (forall a, p <= a < p + len -> ~ driver_dma (w_nic w) a) ->
  exists w', send_packet_among p len w = Done (0, w') /\ world_ready w' /\ handling (w_nic w) (w_nic w') /\
    driver_mac (w_nic w') = driver_mac (w_nic w) /\
    driver_sent (w_nic w') = driver_sent (w_nic w) ++ [read_bytes (ram (n_heap (w_nic w))) p (Z.to_nat len)] /\
    undisturbed w w'.
Proof.
  intros (Hk & Hev & Hr) Hp Hl Hdma.
  destruct (meanwhile_serving w Hev Hk) as (w1 & Hm & Ev1 & Hk1 & (Hh1 & Hi1 & _) & Hu1 & _).
  destruct (Hi1 Hr) as (Hr1 & Hsent1 & Hmac1). pose proof Hr1 as (a & e & He & [Hpci _] & Hlen & Hcur & _).
  pose proof Hh1 as (_ & _ & _ & (m & Hheap & Hram) & Hdd).
  assert (forall b, p <= b < p + len -> ~ driver_dma (w_nic w1) b) as Hdma1 by (intros b Hb; rewrite Hdd; by apply Hdma).
  set (w2 := set_w_nic (doorbell a e p len (w_nic w1)) w1).
  pose proof (doorbell_handling (w_nic w1) a e p len (proj1 Hk1) Hr1 He) as Hh2.
  pose proof (doorbell_flying (w_nic w1) a e p len Hr1 He Hp Hl Hdma1) as Hfly.
  assert (read_bytes (ram (n_heap (w_nic w1))) p (Z.to_nat len) = read_bytes (ram (n_heap (w_nic w))) p (Z.to_nat len)) as Hbytes.
  { apply read_bytes_ext. intros b Hb. rewrite Hheap. apply Hram, Hdma. unfold is_u16 in Hl. lia. }
  rewrite Hbytes, Hsent1, Hmac1 in Hfly.
  assert (events_ok (w_events w2)) as Hev2 by (cbn; rewrite Ev1; by apply events_ok_tl).
  edestruct (wait_among_lands wait_fuel (tx_cur e)) with (w := w2) as (w' & Hw & Hk' & Hev' & Hh' & Hland & Hu');
    [done|by apply sys_inv_nic|done|left; exact Hfly|pose proof (polls_left_bound w2); destruct Hev2; lia|].
  destruct (landed_ready _ _ _ _ _ Hcur Hland) as (Hr' & Hsent' & Hmac').
  exists w'. unfold send_packet_among. rewrite (bind_done _ _ _ _ _ Hm).
  rewrite (bind_done _ _ w1 (Some (tx_cur e)) w2) by (by apply on_driver_done, e1000_start_frame_eq).
  rewrite (bind_done _ _ _ _ _ Hw). split; [done|]. split; [done|].
  split; [eapply handling_trans; [exact Hh1|]; by eapply handling_trans|]. split_and!; [done|done|].
  etrans; [exact Hu1|]. etrans; [|exact Hu']. intros E. by split_and!.
Qed.

Lemma log_world now severity file message w :
  sys_inv bound (w_kernel w) -> printable_log severity file message ->
  let w' := nic_log now severity file message w in
  sys_inv bound (w_kernel w') /\ serving (w_nic w) (w_nic w') /\ n_heap (w_nic w') = n_heap (w_nic w) /\
  n_e1000 (w_nic w') = n_e1000 (w_nic w) /\ undisturbed w w'.
Proof.
  intros Hk Hlog. cbn [nic_log world_nic]. rewrite log_line_eq by done.
  pose proof (emit_serving (log_text now severity file message) (w_nic w) (proj1 Hk)) as Hs.
  split; [by apply sys_inv_nic; [|apply Hs]|]. split; [exact Hs|]. split; [done|]. split; [done|]. intros E. by split_and!.
Qed.

#[local, refine] Instance world_nic_laws : NicLaws (world D) := {|
  nic_ready := world_ready;
  nic_mac w := driver_mac (w_nic w);
  nic_sent w := driver_sent (w_nic w);
  nic_dma w := driver_dma (w_nic w);
|}.
Proof.
  all: try done.
  - intros w (_ & _ & a & e & He & _ & _ & _ & Hm & _). unfold driver_mac. by rewrite He.
  - intros w (_ & _ & a & e & He & _). rewrite <- (set_w_nic_same w) at 3. apply on_driver_done.
    unfold e1000_get_mac, driver_mac, e1000. st_step. by rewrite He.
  - intros p len w Hw Hp Hl Hd.
    destruct (send_among_sends p len w Hw Hp Hl Hd) as (w' & Hs & Hw' & (_ & _ & _ & (m & Hh & Hm) & Hdd) & Hmac & Hsent & _).
    exists 0, w', m. by split_and!.
  - intros now severity file message w (Hk & Hev & Hr) Hlog.
    destruct (log_world now severity file message w Hk Hlog) as (Hk' & (_ & Hidle & _) & Hh & He & _).
    destruct (Hidle Hr) as (Hr' & Hs' & Hm'). split; [by split_and!|]. split_and!; [done..|].
    intros b. unfold driver_dma. by rewrite He.
Defined.

(** *** What sending is made of *)

(** A relation that the events, the card, the doorbell, output and the task's own
    changes of RAM keep is kept by the network stack. *)
Section Made_of.
Variable T : relation (world D).
Context `{!PreOrder T}.
Hypothesis meanwhile_T : forall w w',
  events_ok (w_events w) -> sys_inv bound (w_kernel w) -> meanwhile w = Done (tt, w') -> T w w'.
Hypothesis acts_T : forall w, T w (set_w_nic (acts (w_nic w)) w).
Hypothesis doorbell_T : forall w a e p len,
  driver_ready (w_nic w) -> n_e1000 (w_nic w) = Some (a, e) -> T w (set_w_nic (doorbell a e p len (w_nic w)) w).
Hypothesis heap_T : forall w h, sys_inv bound (w_kernel w) -> T w (set_w_nic (set_n_heap h (w_nic w)) w).
Hypothesis text_T : forall w text,
  sys_inv bound (w_kernel w) -> T w (set_w_nic (set_n_dev (emit text (n_dev (w_nic w))) (w_nic w)) w).

Definition world_sane (w : world D) : Prop := sys_inv bound (w_kernel w).

Lemma wait_among_T n i w w' :
  sys_inv bound (w_kernel w) -> events_ok (w_events w) -> wait_sent_among n i w = Done (tt, w') ->
  T w w' /\ sys_inv bound (w_kernel w').
Proof.
  revert w. induction n as [|n IH]; intros w Hk Hev E; [done|]. cbn [wait_sent_among] in E.
  destruct (meanwhile_serving w Hev Hk) as (w1 & Hm & Ev1 & Hk1 & _).
  rewrite (bind_done _ _ _ _ _ Hm) in E.
  rewrite (bind_done _ _ w1 tt (set_w_nic (acts (w_nic w1)) w1)) in E by (by apply on_driver_done).
  set (w2 := set_w_nic (acts (w_nic w1)) w1) in *.
  assert (sys_inv bound (w_kernel w2)) as Hk2 by (apply sys_inv_nic; [done|apply acts_serving, Hk1]).
  assert (T w w2) as HT by (etrans; [by apply meanwhile_T|apply acts_T]).
  apply bind_done_inv in E as (curr & w3 & Er & E).
  apply on_driver_inv in Er as (s & Er%tx_desc_inv & ->). subst s. rewrite set_w_nic_same in E.
  destruct (tx_status curr =? 0); [|by injection E as <-].
  destruct (IH w2 Hk2) as [HT' Hk']; [cbn; rewrite Ev1; by apply events_ok_tl|done|].
  split; [by etrans|done].
Qed.

Lemma send_among_T p len w r w' :
  world_ready w -> send_packet_among p len w = Done (r, w') -> T w w' /\ world_sane w'.
Proof.
  intros (Hk & Hev & Hr) E. unfold send_packet_among in E.
  destruct (meanwhile_serving w Hev Hk) as (w1 & Hm & Ev1 & Hk1 & (Hh1 & Hi1 & _) & _).
  rewrite (bind_done _ _ _ _ _ Hm) in E. destruct (Hi1 Hr) as (Hr1 & _).
  pose proof Hr1 as (a & e & He & [Hpci _] & Hlen & Hcur & _).
  set (w2 := set_w_nic (doorbell a e p len (w_nic w1)) w1).
  rewrite (bind_done _ _ w1 (Some (tx_cur e)) w2) in E by (by apply on_driver_done, e1000_start_frame_eq).
  apply bind_done_inv in E as ([] & w3 & Hw & E). injection E as _ <-.
  destruct (wait_among_T wait_fuel (tx_cur e) w2 w3) as [HT Hk3];
    [apply sys_inv_nic; [done|by apply doorbell_handling; [apply Hk1|..]]|cbn; rewrite Ev1; by apply events_ok_tl|done|].
  split; [|done]. etrans; [by apply meanwhile_T|]. etrans; [by apply (doorbell_T w1 a e p len)|done].
Qed.

#[local, refine] Instance world_within : NicWithin (world D) T world_ready world_sane := {}.
Proof.
  - by intros w (Hk & _).
  - intros h w Hk. split; [by apply heap_T|done].
  - done.
  - intros now severity file message w Hk Hlog. split; [|by apply (log_world now severity file message)].
    cbn [nic_log world_nic]. rewrite log_line_eq by done. by apply text_T.
  - intros w m w' Hw E. pose proof Hw as (_ & _ & a & e & He & _).
    assert (on_driver e1000_get_mac w = Done (e_mac e, w)) as Hmac.
    { rewrite <- (set_w_nic_same w) at 2. apply on_driver_done. unfold e1000_get_mac, e1000. st_step. by rewrite He. }
    cbn [nic_get_mac world_nic] in E. rewrite Hmac in E. by injection E as _ <-.
  - intros p len w r w' Hw E. by eapply send_among_T.
Defined.

End Made_of.

End Laws.
End Preemption.
