(* ===== verification/Answering.v ===== *)
(** * From power-on to the wire

    The network task on the state of the whole kernel, and its runs between and
    among interrupts, system calls and other tasks.  Every request that reaches the
    receive queue after [kernel_main] is answered on the wire, once and in the
    order of arrival; [reply_to] is what a packet of any length is answered with. *)

From S2P Require Import Prelude StateMonad Memory Bus RingBuffer Heap Clock Stdio Logger Scheduler.
From S2P Require Import NetworkIo PacketQueue PciMmio Pci E1000 Ethernet Routing Arp Ipv4 NetworkTask Within.
From S2P Require Import Driver Reception CardInit Interrupt Syscall Boot System Preemption.

(** ** Definitions *)

(** The frames [r] sent for the packet [x] by a driver with the address [own]: those
    RFC 826 asks for, when the packet is a whole ARP frame; none for a packet of
    another EtherType.  A shorter packet is read as a whole frame all the same, with
    what happens to lie behind it in its slot of the queue. *)
Definition reply_to (own x : list Z) (r : list (list Z)) : Prop :=
  (exists rest, r = arp_answer own (x ++ rest)) /\ (length r <= 1)%nat /\
  ((42 <= length x)%nat -> r = arp_answer own x) /\
  ((14 <= length x)%nat -> wire_field 2 12 x <> 0x0806 -> r = []).

Lemma arp_answer_one own x : (length (arp_answer own x) <= 1)%nat.
Proof. unfold arp_answer. case_decide; cbn [length]; lia. Qed.

Lemma reply_to_frame own x frame : take (length x) frame = x -> reply_to own x (arp_answer own frame).
Proof.
  intros E. split_and!.
  - exists (drop (length x) frame). f_equal. rewrite <- (take_drop (length x) frame) at 1. by rewrite E.
  - apply arp_answer_one.
  - intros Hl. rewrite <- (arp_answer_take own (length x) frame) by done. by rewrite E.
  - intros Hl Hne. rewrite <- E, wire_field_take in Hne by lia. unfold arp_answer. rewrite decide_False by tauto. done.
Qed.

Lemma replies_to_frames own xs frames :
  Forall2 (fun x frame => take (length x) frame = x) xs frames ->
  Forall2 (reply_to own) xs (arp_answer own <$> frames).
Proof. induction 1; constructor; [by apply reply_to_frame|done]. Qed.

Lemma bind_concat {A B} (f : A -> list B) l : l ≫= f = concat (f <$> l).
Proof. induction l as [|x l IH]; [done|]. rewrite bind_cons. cbn. by rewrite IH. Qed.

Section Answering.
Context {D : Type} `{E1000Card D} {cpu : Cpu} {board : Board}.

(** The address of a local variable of [arp_receive] on the task's stack; the
    result of a system call that has none; bounds for the receive loop, for the
    wait for a frame to be sent, and for the search of [malloc]. *)
Context (arp_stack : Z) (unspecified : nat -> Z) (fuel wait_fuel heap_fuel : nat).

#[local] Instance kernel_nic : Nic (world D) := world_nic unspecified fuel wait_fuel.

(** Code of the network task on the kernel's variables, while [events] happen. *)
Definition on_network {A} (events : list (list event)) (m : ST (netstack (world D)) A) : ST (kernel D) A := fun k =>
  match m (mk_net (mk_world k events) (k_table k) (k_clock k)) with
  | Done (a, s) => Done (a, set_k_table (ns_table s) (w_kernel (ns_nic s)))
  | Undefined => Undefined
  | NoFuel => NoFuel
  end.

(** [network_task_recv]: up to its loop, and one iteration of it.  The slot the
    packet was in is not overwritten while it is processed (PacketQueue.v). *)
Definition network_start : ST (kernel D) unit := on_network [] (routing_init_call heap_fuel).

Definition network_round (events : list (list event)) : ST (kernel D) unit := fun k =>
  if new_packet_available (n_queue (k_nic k)) then
    let '(packet, q) := remove_packet (n_queue (k_nic k)) in
    match packet with
    | None => Undefined
    | Some i =>
        on_network events (start_pdu_encapsulation arp_stack heap_fuel (data (recv_packet_queue q !!! i)))
          (set_k_nic (set_n_queue q (k_nic k)) k)
    end
  else Done (tt, k).

(** A step of the kernel, with the packets that enter the receive queue in it.
    The network task is task 0. *)
Inductive net_step : kernel D -> list (list Z) -> kernel D -> Prop :=
| step_round events k l k' :
    current_task (k_sched k) = Some 0%nat -> events_ok wait_fuel events ->
    network_round events k = Done (tt, k') ->
    packets (n_queue (k_nic k')) = tail (packets (n_queue (k_nic k))) ++ l -> net_step k l k'
| step_event e k l k' :
    event_ok e -> happens unspecified fuel e k = Done (tt, k') ->
    packets (n_queue (k_nic k')) = packets (n_queue (k_nic k)) ++ l -> net_step k l k'.

(** A run, with the packets received in it. *)
Inductive net_run (k0 : kernel D) : list (list Z) -> kernel D -> Prop :=
| run_start : net_run k0 [] k0
| run_step l k l' k' : net_run k0 l k -> net_step k l' k' -> net_run k0 (l ++ l') k'.

(** ** The invariant of a run *)

Section Run.
Variable bound : nat.
Hypothesis Hwait : (cd_delay < wait_fuel)%nat.
Hypothesis Hbound : (bound < fuel)%nat.
Hypothesis Hagree : board_agrees.
Hypothesis Hstack : arp_stack + 28 <= HEAP_START.

#[local] Instance run_laws : NicLaws (world D) := world_nic_laws unspecified fuel wait_fuel bound Hbound.

(** The system's invariant; the queue holds bytes; a reply can be sent. *)
Definition net_inv (k : kernel D) : Prop :=
  sys_inv bound k /\ slots_u8 (n_queue (k_nic k)) /\ exists sp, keeps_sending heap_fuel sp (mk_world k []).

(** Nothing was sent. *)
Definition silent (s0 s : nic_state D) : Prop := driver_sent s = driver_sent s0 /\ driver_mac s = driver_mac s0.

Lemma no_events_ok : events_ok wait_fuel [].
Proof. by split. Qed.

(** What can be sent does not depend on the scheduler, the queue or the events. *)
Lemma keeps_sending_world sp (k k' : kernel D) events events' :
  sys_inv bound k' -> events_ok wait_fuel events' -> driver_ready (k_nic k') -> n_heap (k_nic k') = n_heap (k_nic k) ->
  (forall a, driver_dma (k_nic k') a <-> driver_dma (k_nic k) a) ->
  keeps_sending heap_fuel sp (mk_world k events) -> keeps_sending heap_fuel sp (mk_world k' events').
Proof.
  intros Hk Hev Hr Hh Hd ((_ & Hrep & Hf & Hroom & Hdma) & Hcase). split; [|done].
  change (heap_rep (n_heap (k_nic k)) sp) in Hrep.
  split; [by split_and!|]. split; [change (heap_rep (n_heap (k_nic k')) sp); by rewrite Hh|]. split_and!; [done..|].
  intros a Ha. apply (Hdma a), Hd, Ha.
Qed.

(** What the card writes into its buffers does not matter either. *)
Lemma keeps_sending_dma sp (k k' : kernel D) m :
  sys_inv bound k' -> driver_ready (k_nic k') -> n_heap (k_nic k') = set_ram m (n_heap (k_nic k)) ->
  (forall a, ~ driver_dma (k_nic k) a -> get8 m a = get8 (ram (n_heap (k_nic k))) a) ->
  (forall a, driver_dma (k_nic k') a <-> driver_dma (k_nic k) a) ->
  keeps_sending heap_fuel sp (mk_world k []) -> keeps_sending heap_fuel sp (mk_world k' []).
Proof.
  intros Hk Hr Hh Hm Hdma ((_ & Hrep & Hf & Hroom & Hd) & Hcase). split; [|done].
  change (heap_rep (n_heap (k_nic k)) sp) in Hrep.
  split; [split; [done|]; by split; [apply no_events_ok|]|]. split; [|split; [done|split; [done|]]].
  - change (heap_rep (n_heap (k_nic k')) sp). rewrite Hh. pose proof Hrep as ((Hok & _) & _).
    apply rep_set_ram; [done|]. intros y a Hy Ha. apply Hm.
    destruct (blocks_ok_wf _ _ y Hok Hy) as (? & ? & ? & ? & ?).
    apply (dma_outside sp sp (mk_world k []) y a Hd Hok); [done|done|lia|right; lia].
  - intros a Ha. apply (Hd a), Hdma, Ha.
Qed.

Lemma push_packets_u8 l q : Forall (Forall is_u8) l -> slots_u8 q -> slots_u8 (push_packets l q).
Proof.
  revert q. induction l as [|x l IH]; intros q Hl Hq; [done|]. apply Forall_cons in Hl as [Hx Hl].
  apply IH; [done|]. unfold push_packet, insert_packet. destruct (negb (queue_full q)); [|done].
  pose proof (slot_u8 q (Z.to_nat (recv_queue_end q)) Hq) as Hslot. unfold fill_packet.
  destruct (_ <=? _)%nat; [|done]. apply Forall_insert; [done|]. cbn [data].
  apply Forall_app. split; [done|by apply Forall_drop].
Qed.

(** *** What a round does to the queue *)

Definition queue_grows (q q' : pqueue) : Prop :=
  exists l, Forall (fun x => packet_fits x /\ Forall is_u8 x) l /\ q' = push_packets l q.

Lemma queue_grows_ok q q' :
  queue_grows q q' -> pqueue_ok q -> slots_u8 q ->
  slots_u8 q' /\ exists l, packets q' = packets q ++ l.
Proof.
  intros (l & Hl & ->) Hq Hu. split.
  - apply push_packets_u8; [|done]. eapply Forall_impl; [exact Hl|]. by intros ? [_ ?].
  - destruct (push_packets_ok l q Hq) as (_ & _ & Hp); [|done]. eapply Forall_impl; [exact Hl|]. by intros ? [? _].
Qed.

Definition queued (w w' : world D) : Prop :=
  queue_grows (n_queue (w_nic w)) (n_queue (w_nic w')) /\ undisturbed w w'.

#[local] Instance queued_preorder : PreOrder queued.
Proof.
  split.
  - intros w. split; [by exists []|done].
  - intros w1 w2 w3 [(l1 & F1 & Q1) U1] [(l2 & F2 & Q2) U2]. split; [|by etrans].
    exists (l1 ++ l2). split; [by apply Forall_app|]. by rewrite push_packets_app, <- Q1.
Qed.

Lemma queued_same w s : n_queue s = n_queue (w_nic w) -> queued w (set_w_nic s w).
Proof. intros E. split; [by exists []|]. intros Hw. by split_and!. Qed.

#[local] Instance queued_within : NicWithin (world D) queued (world_ready wait_fuel bound) (world_sane bound).
Proof.
  apply world_within; try apply _; try done.
  - intros w w' Hev Hk Hm. destruct (meanwhile_serving unspecified fuel wait_fuel bound Hbound w Hev Hk)
      as (w2 & Hm2 & _ & _ & ((_ & _ & Hq & _) & _) & Hu & _). rewrite Hm in Hm2. injection Hm2 as ->. by split.
  - intros w. apply queued_same, acts_queue.
  - intros w a e p len _ _. by apply queued_same.
  - intros w h _. by apply queued_same.
  - intros w text _. by apply queued_same.
Qed.

(** ** One round *)

Lemma round_idle events (k : kernel D) :
  net_inv k -> packets (n_queue (k_nic k)) = [] -> network_round events k = Done (tt, k).
Proof.
  intros (((Hq & _) & _) & _) E. pose proof (remove_packet_spec _ Hq) as Hrem. rewrite E in Hrem.
  unfold network_round, new_packet_available, remove_packet in *.
  by destruct (recv_queue_start _ =? recv_queue_end _).
Qed.

(** The queue's own part of a round. *)
Lemma round_takes x l (k : kernel D) :
  net_inv k -> packets (n_queue (k_nic k)) = x :: l ->
  exists i q, remove_packet (n_queue (k_nic k)) = (Some i, q) /\ pqueue_ok q /\ slots_u8 q /\ packets q = l /\
    let frame := data (recv_packet_queue q !!! i) in
    (Forall is_u8 frame /\ (42 <= length frame)%nat /\ take (length x) frame = x) /\
    (forall events, network_round events k =
       on_network events (start_pdu_encapsulation arp_stack heap_fuel frame) (set_k_nic (set_n_queue q (k_nic k)) k)).
Proof.
  intros (((Hq & _) & _) & Hb & _) E. pose proof (remove_packet_spec _ Hq) as Hrem. rewrite E in Hrem.
  destruct Hrem as (q & Hr & Hx & Hqq & _ & _ & Hq' & Hl). eexists _, q. split; [exact Hr|]. cbv zeta. rewrite Hqq.
  split; [done|]. split; [unfold slots_u8 in *; by rewrite Hqq|]. split; [done|]. split; [by apply first_frame|].
  intros events. unfold network_round. rewrite Hr. cbv iota beta. rewrite Hqq. revert Hr.
  unfold new_packet_available, remove_packet. by destruct (_ =? _).
Qed.

Lemma round_answers events x l (k : kernel D) :
  net_inv k -> events_ok wait_fuel events -> packets (n_queue (k_nic k)) = x :: l ->
  exists k' frame received, network_round events k = Done (tt, k') /\ net_inv k' /\
    packets (n_queue (k_nic k')) = l ++ received /\ take (length x) frame = x /\
    driver_sent (k_nic k') = driver_sent (k_nic k) ++ arp_answer (hton_mac (driver_mac (k_nic k))) frame /\
    driver_mac (k_nic k') = driver_mac (k_nic k) /\
    (events = [] -> k_sched k' = k_sched k /\ received = []).
Proof.
  intros Hk Hev E. destruct (round_takes x l k Hk E) as (i & q & _ & Hq & Hu & Hl & (Hfb & Hlen & Htake) & ->).
  destruct Hk as (((_ & Hn) & Hload & Hrest) & _ & sp & Hsp).
  set (frame := data (recv_packet_queue q !!! i)) in *. set (k1 := set_k_nic (set_n_queue q (k_nic k)) k).
  assert (sys_inv bound k1) as Hk1 by (split; [by split|by split]).
  apply (keeps_sending_world sp k k1 _ events) in Hsp; [|done|done|apply Hsp|done|done].
  set (s := mk_net (mk_world k1 events) (k_table k1) (k_clock k1)).
  destruct (pdu_answers arp_stack heap_fuel Hagree Hstack frame sp s Hfb Hlen Hsp)
    as (s' & Hrun & (_ & Hmac & Hsent & sp' & Hsp')).
  destruct (pdu_does arp_stack heap_fuel frame s tt s') as [(Hgrow & Hquiet) _]; [apply Hsp|done|].
  destruct (queue_grows_ok _ _ Hgrow Hq Hu) as (Hu' & received & Hp).
  exists (set_k_table (ns_table s') (w_kernel (ns_nic s'))), frame, received.
  split; [unfold on_network; fold k1 s; by rewrite Hrun|].
  assert (sys_inv bound (set_k_table (ns_table s') (w_kernel (ns_nic s')))) as Hk' by apply Hsp'.
  split; [split; [done|split; [exact Hu'|]]|].
  - exists sp'. destruct (ns_nic s') as [k2 ev2] eqn:Es.
    by apply (keeps_sending_world sp' k2 _ ev2 []); [|apply no_events_ok|apply Hsp'|..].
  - split; [by rewrite <- Hl|]. split_and!; [done|exact Hsent|exact Hmac|].
    intros ->. destruct (Hquiet eq_refl) as (_ & Hs & Hqq). split; [done|].
    change (n_queue (w_nic (ns_nic s'))) with (n_queue (w_nic (ns_nic s'))) in Hp. rewrite Hqq in Hp.
    apply (f_equal length) in Hp. rewrite length_app in Hp. apply nil_length_inv. cbn in *. lia.
Qed.

(** ** Steps and runs *)

(** From [k] to [k'] the packets [l] arrive; those that leave the queue are
    answered. *)
Definition answers (k : kernel D) (l : list (list Z)) (k' : kernel D) : Prop :=
  driver_mac (k_nic k') = driver_mac (k_nic k) /\
  exists taken frames, packets (n_queue (k_nic k)) ++ l = taken ++ packets (n_queue (k_nic k')) /\
    Forall2 (fun x frame => take (length x) frame = x) taken frames /\
    driver_sent (k_nic k') =
      driver_sent (k_nic k) ++ (frames ≫= arp_answer (hton_mac (driver_mac (k_nic k)))).

Lemma answers_trans k1 l1 k2 l2 k3 : answers k1 l1 k2 -> answers k2 l2 k3 -> answers k1 (l1 ++ l2) k3.
Proof.
  intros (M1 & t1 & f1 & E1 & F1 & S1) (M2 & t2 & f2 & E2 & F2 & S2). split; [congruence|].
  exists (t1 ++ t2), (f1 ++ f2). rewrite app_assoc, E1, <- app_assoc, E2, app_assoc. split; [done|].
  split; [by apply Forall2_app|]. by rewrite S2, S1, M1, bind_app, app_assoc.
Qed.

Lemma net_step_answers k l k' : net_step k l k' -> net_inv k -> net_inv k' /\ answers k l k'.
Proof.
  intros Hstep Hk. destruct Hstep as [events k l k' Hcur Hev Hround E|e k l k' He Hhap E].
  - destruct (packets (n_queue (k_nic k))) as [|x q] eqn:Eq.
    + rewrite (round_idle events k Hk Eq) in Hround. injection Hround as <-. split; [done|]. split; [done|].
      exists [], []. rewrite Eq in *. cbn in E. subst l. split; [done|]. split; [done|]. by rewrite app_nil_r.
    + destruct (round_answers events x q k Hk Hev Eq) as (k2 & frame & received & Hr & Hk2 & E2 & Hx & Hsent & Hmac & _).
      rewrite Hr in Hround. injection Hround as <-. split; [done|]. split; [done|].
      exists [x], [frame]. rewrite Eq, E. split; [done|]. split; [by constructor|]. by rewrite bind_cons, Hsent, app_nil_r.
  - pose proof Hk as (Hsys & Hu & sp & Hsp).
    destruct (happens_serving unspecified fuel bound Hbound e k He Hsys)
      as (k2 & Hh2 & Hk2 & ((_ & _ & Hq & (m & Hheap & Hm) & Hdma) & Hidle & _)).
    rewrite Hhap in Hh2. injection Hh2 as <-. destruct (Hidle ltac:(apply Hsp)) as (Hr' & Hsent & Hmac).
    destruct (queue_grows_ok _ _ Hq) as [Hu' _]; [apply Hsys|done|].
    split; [split; [done|split; [done|]]|].
    + exists sp. by eapply keeps_sending_dma.
    + split; [done|]. exists [], []. rewrite E. split; [done|]. split; [done|]. by rewrite app_nil_r.
Qed.

Lemma net_run_answers k0 l k : net_run k0 l k -> net_inv k0 -> net_inv k /\ answers k0 l k.
Proof.
  induction 1 as [|l k l' k' _ IH Hstep]; intros Hstart.
  - split; [done|]. split; [done|]. exists [], []. split; [by rewrite app_nil_r|]. split; [done|]. by rewrite app_nil_r.
  - destruct (IH Hstart) as [Hk Ha]. destruct (net_step_answers _ _ _ Hstep Hk) as [Hk' Ha'].
    split; [done|]. by eapply answers_trans.
Qed.

(** Every round and every event is a step. *)
Lemma round_steps events (k : kernel D) :
  net_inv k -> current_task (k_sched k) = Some 0%nat -> events_ok wait_fuel events ->
  exists l k', network_round events k = Done (tt, k') /\ net_step k l k'.
Proof.
  intros Hk Hcur Hev. destruct (packets (n_queue (k_nic k))) as [|x q] eqn:E.
  - exists [], k. pose proof (round_idle events k Hk E) as Hr. split; [done|]. apply (step_round events); try done.
    by rewrite E.
  - destruct (round_answers events x q k Hk Hev E) as (k' & frame & l & Hr & _ & E' & _).
    exists l, k'. split; [done|]. apply (step_round events); try done. by rewrite E, E'.
Qed.

Lemma event_steps e (k : kernel D) :
  net_inv k -> event_ok e -> exists l k', happens unspecified fuel e k = Done (tt, k') /\ net_step k l k'.
Proof.
  intros (Hsys & Hu & _) He.
  destruct (happens_serving unspecified fuel bound Hbound e k He Hsys) as (k' & Hh & _ & ((_ & _ & Hq & _) & _)).
  destruct (queue_grows_ok _ _ Hq) as (_ & l & E); [apply Hsys|done|].
  exists l, k'. split; [done|]. by apply (step_event e).
Qed.

(** When the network task is left alone it empties the queue. *)
Lemma rounds_drain k0 l n (k : kernel D) :
  net_run k0 l k -> net_inv k -> current_task (k_sched k) = Some 0%nat ->
  length (packets (n_queue (k_nic k))) = n ->
  exists k', net_run k0 l k' /\ packets (n_queue (k_nic k')) = [].
Proof.
  revert k. induction n as [|n IH]; intros k Hrun Hk Hcur Hlen.
  - exists k. split; [done|]. by apply nil_length_inv.
  - destruct (packets (n_queue (k_nic k))) as [|x q] eqn:E; [done|].
    destruct (round_answers [] x q k Hk no_events_ok E) as (k2 & frame & received & Hr & Hk2 & E2 & _ & _ & _ & Hq).
    destruct (Hq eq_refl) as [Hs ->]. rewrite app_nil_r in E2.
    apply (IH k2); [|done|by rewrite Hs|rewrite E2; by injection Hlen].
    rewrite <- (app_nil_r l). eapply run_step; [exact Hrun|]. apply (step_round []); [done|apply no_events_ok|done|].
    by rewrite E, E2, app_nil_r.
Qed.

(** The start of the network task: the invariant of the run holds, nothing is on
    the wire yet. *)
Lemma network_start_inv (k : kernel D) sp :
  sys_inv bound k -> driver_ready (k_nic k) -> slots_u8 (n_queue (k_nic k)) -> heap_below sp (k_nic k) ->
  (length (s_free sp) + 1 < heap_fuel)%nat ->
  s_brk sp + gross (MAX_ARP_TABLE_ENTRIES * sizeof_arp_entry) + 2 * gross 60 <= HEAP_START + HEAP_SIZE ->
  exists k', network_start k = Done (tt, k') /\ net_inv k' /\ silent (k_nic k) (k_nic k') /\
    n_queue (k_nic k') = n_queue (k_nic k).
Proof.
  intros Hk Hr Hb [Hrep Hd] Hf Hroom. set (s := mk_net (mk_world k []) (k_table k) (k_clock k)).
  destruct (routing_init_keeps arp_stack heap_fuel Hagree Hstack sp s)
    as (s' & Hinit & _ & Hmac & Hsent & sp' & Hsp'); [by split; [|split; [apply no_events_ok|]]|done..|].
  destruct (routing_init_does heap_fuel s tt s') as [(_ & Hquiet) _]; [done..|].
  destruct (Hquiet eq_refl) as (Hev & _ & Hq). rewrite app_nil_r in Hsent.
  exists (set_k_table (ns_table s') (w_kernel (ns_nic s'))).
  split; [unfold network_start, on_network; fold s; by rewrite Hinit|].
  split; [split; [apply Hsp'|split; [change (slots_u8 (n_queue (w_nic (ns_nic s')))); by rewrite Hq|]]|by split].
  exists sp'. destruct (ns_nic s') as [k2 ev2] eqn:Es.
  by apply (keeps_sending_world sp' k2 _ ev2 []); [apply Hsp'|apply no_events_ok|apply Hsp'|..].
Qed.

(** What has been sent. *)
Lemma answers_replies (k : kernel D) l k' :
  answers k l k' -> packets (n_queue (k_nic k)) = [] ->
  exists answered replies, l = answered ++ packets (n_queue (k_nic k')) /\
    Forall2 (reply_to (hton_mac (driver_mac (k_nic k)))) answered replies /\
    driver_sent (k_nic k') = driver_sent (k_nic k) ++ concat replies.
Proof.
  intros (_ & taken & frames & E & Hf & Hsent) Hnil. rewrite Hnil in E.
  exists taken, (arp_answer (hton_mac (driver_mac (k_nic k))) <$> frames).
  split; [done|]. split; [by apply replies_to_frames|]. by rewrite Hsent, bind_concat.
Qed.

End Run.

(** ** From power-on *)

Lemma pqueue_boot_u8 : slots_u8 pqueue_boot.
Proof. unfold slots_u8, pqueue_boot. cbn [recv_packet_queue]. by repeat apply Forall_replicate. Qed.

(** The kernel before [kernel_main]: a board the driver was written for, an empty
    receive queue, room on the heap for the driver, its buffers, the ARP table
    and two frames, and a card that answers in configuration space. *)
Record powered_on (boot_fuel : nat) (table : list pci_device) (k0 : kernel D) (sp : spec_heap) : Prop := {
  on_board : board_agrees;
  on_stack : arp_stack + 28 <= HEAP_START;
  on_wait : (cd_delay < wait_fuel)%nat;
  on_sched : k_sched k0 = sched_boot;
  on_mode : Z.land (cpsr (k_context k0)) 0x1f = CPSR_MODE_SVC;
  on_heap : heap_rep (n_heap (k_nic k0)) sp;
  on_boot_fuel : (length (s_free sp) < boot_fuel)%nat;
  on_heap_fuel : (length (s_free sp) + 1 < heap_fuel)%nat;
  on_room : s_brk sp + gross sizeof_e1000_device + 32 * gross 8208 +
    gross (MAX_ARP_TABLE_ENTRIES * sizeof_arp_entry) + 2 * gross 60 <= HEAP_START + HEAP_SIZE;
  on_queue : n_queue (k_nic k0) = pqueue_boot;
  on_card : let '(table', d) := pci_init (k_clock k0) table (emit banner (n_dev (k_nic k0))) in card_answers table' d;
}.

(** [kernel_main] and the start of the network task. *)
Lemma power_on_network network_task_recv sh ih boot_fuel garbage table (k0 : kernel D) sp :
  powered_on boot_fuel table k0 sp -> structure_wf garbage ->
  exists k1, kernel_main network_task_recv sh ih boot_fuel garbage table k0 = Done (None, k1) /\
    user_context (k_context k1) /\ sys_inv (nic_load (k_nic k1)) k1 /\
    forall Hload : (nic_load (k_nic k1) < fuel)%nat,
    exists k2, network_start k1 = Done (tt, k2) /\ net_inv (nic_load (k_nic k1)) Hload k2 /\
      packets (n_queue (k_nic k2)) = [].
Proof.
  intros [Hag Hst Hwait Hs Hmode Hrep Hbf Hhf Hroom Hq Hcard] Hg.
  assert (0 <= gross 60 /\ 0 <= gross (MAX_ARP_TABLE_ENTRIES * sizeof_arp_entry)) as [? ?] by (by split; vm_compute).
  destruct (kernel_main_inv network_task_recv sh ih boot_fuel garbage table k0 sp)
    as (k1 & Hk1 & Hinv & Hr & _ & _ & Hq1 & sp1 & Hb & Hf1 & Hbrk1); [done..|lia|rewrite Hq; apply pqueue_boot_ok|done|done|].
  rewrite Hq in Hq1. exists k1. split; [done|]. split; [apply Hinv|]. split; [done|]. intros Hload.
  destruct (network_start_inv (nic_load (k_nic k1)) Hwait Hload Hag Hst k1 sp1)
    as (k2 & Hk2 & Hinv2 & _ & Hq2); [done|done|rewrite Hq1; apply pqueue_boot_u8|done|lia|lia|].
  exists k2. split_and!; [done|done|]. rewrite Hq2, Hq1. by vm_compute.
Qed.

(** C1: From power-on every ARP request for our address that reaches the receive
    queue is answered on the wire. [kernel_main] and the start of the network
    task return. In every run behind them (rounds of the network task, and between
    and in the middle of them, while a frame is being sent, interrupts, actions of
    the card, other tasks and system calls with defined behaviour) the next event and
    the next round return.  Whatever packets were received, they are answered in the
    order in which they arrived: the frames sent are one reply for each request for
    our address among the packets taken from the queue and nothing for the others,
    and the rest is still in the queue; while the network task is the current one,
    its rounds empty the queue, so that every packet received so far is answered.  A
    packet shorter than the 42 bytes of a request, which the card is told to store,
    is answered as the frame made of it and of the bytes an earlier packet left
    behind it in the slot, since no length is checked. *)
Theorem requests_answered_from_power_on network_task_recv sh ih boot_fuel garbage table (k0 : kernel D) sp :
  powered_on boot_fuel table k0 sp -> structure_wf garbage ->
  exists k1, kernel_main network_task_recv sh ih boot_fuel garbage table k0 = Done (None, k1) /\
    ((nic_load (k_nic k1) < fuel)%nat ->
     exists k2, network_start k1 = Done (tt, k2) /\
     let own := hton_mac (driver_mac (k_nic k2)) in
     forall received k, net_run k2 received k ->
       (forall e, event_ok e -> exists l k', happens unspecified fuel e k = Done (tt, k') /\ net_step k l k') /\
       (forall events, current_task (k_sched k) = Some 0%nat -> events_ok wait_fuel events ->
          exists l k', network_round events k = Done (tt, k') /\ net_step k l k') /\
       (exists answered replies, received = answered ++ packets (n_queue (k_nic k)) /\
          Forall2 (reply_to own) answered replies /\ driver_sent (k_nic k) = driver_sent (k_nic k2) ++ concat replies) /\
       (current_task (k_sched k) = Some 0%nat ->
        exists k' replies, net_run k2 received k' /\ packets (n_queue (k_nic k')) = [] /\
          Forall2 (reply_to own) received replies /\
          driver_sent (k_nic k') = driver_sent (k_nic k2) ++ concat replies)).
Proof.
  intros Hon Hg. pose proof Hon as [Hag Hst Hwait _ _ _ _ _ _ _ _].
  destruct (power_on_network network_task_recv sh ih boot_fuel garbage table k0 sp Hon Hg) as (k1 & Hk1 & _ & _ & Hnet).
  exists k1. split; [done|]. intros Hload. destruct (Hnet Hload) as (k2 & Hk2 & Hinv2 & Hempty).
  exists k2. split; [done|]. intros own received k Hrun. set (bound := nic_load (k_nic k1)) in *.
  destruct (net_run_answers bound Hwait Hload Hag Hst _ _ _ Hrun Hinv2) as [Hk Ha]. split_and!.
  - intros e He. by apply (event_steps bound Hload).
  - intros events Hcur Hev. by apply (round_steps bound Hwait Hload Hag Hst).
  - by apply (answers_replies k2 received k).
  - intros Hcur. destruct (rounds_drain bound Hwait Hload Hag Hst k2 received _ k Hrun Hk Hcur eq_refl)
      as (k' & Hrun' & E').
    destruct (net_run_answers bound Hwait Hload Hag Hst _ _ _ Hrun' Hinv2) as [_ Ha'].
    destruct (answers_replies k2 received k' Ha' Hempty) as (answered & replies & E & Hr & Hsent).
    rewrite E', app_nil_r in E. subst answered. by exists k', replies.
Qed.

End Answering.

(** ** Witness *)

(** The bus of [example_power_on] with the card's address 52:54:00:12:34:56, and
    the card's receive interrupt pending. *)
Definition request_answers (a : Z) : Z :=
  if a =? PIC_IRQ_STATUS then PCI3_INTBIT
  else if a =? 0x50000000 + REG_INT_CAUSE then RXT0
  else if a =? 0x50000000 + MAC_OFFSET then 0x563412005452
  else example_answers a.

(** A request for our address is about to arrive. *)
Definition request_power_on : kernel sim :=
  mk_kernel (mk_nic (blank_sim [example_request] request_answers) (initial_heap ∅) None pqueue_boot) sched_boot 0
    (mk_task (replicate 13 0) 0 0 0x10030 0xD3) 0 None.

Lemma request_powered_on :
  powered_on (D := sim) (cpu := LittleEndian) (board := 0) 0x3FD0000 5 2 1 pci_devices_boot request_power_on
    (mk_spec [] [] HEAP_START).
Proof.
  split.
  - vm_compute. done.
  - unfold HEAP_START. lia.
  - apply Nat.lt_0_succ.
  - done.
  - done.
  - apply initial_heap_rep.
  - cbn. lia.
  - cbn. lia.
  - vm_compute. done.
  - done.
  - vm_compute. reflexivity.
Qed.

Lemma fresh_structure_wf : structure_wf fresh_driver.
Proof. split; [done|]. split; [done|]. by apply mac_wf_dec; vm_compute. Qed.

Lemma request_load (k1 : kernel sim) :
  kernel_main (cpu := LittleEndian) (board := 0) 0x10000 0x10100 0x10200 1 fresh_driver pci_devices_boot
    request_power_on = Done (None, k1) -> (nic_load (k_nic k1) < 100)%nat.
Proof.
  assert (match kernel_main (cpu := LittleEndian) (board := 0) 0x10000 0x10100 0x10200 1 fresh_driver pci_devices_boot
      request_power_on with Done (_, k) => (nic_load (k_nic k) <? 100)%nat | _ => false end = true) as Hm
    by (vm_compute; reflexivity).
  intros E. rewrite E in Hm. by apply Nat.ltb_lt.
Qed.

(** The card's interrupt is taken. *)
Lemma requests_answered_from_power_on_witness :
  exists k1 k2 l k', kernel_main (cpu := LittleEndian) (board := 0) 0x10000 0x10100 0x10200 1 fresh_driver pci_devices_boot
      request_power_on = Done (None, k1) /\
    network_start (cpu := LittleEndian) (fun _ => 0) 100 5 2 k1 = Done (tt, k2) /\
    net_step (cpu := LittleEndian) (board := 0) 0x3FD0000 (fun _ => 0) 100 5 2 k2 l k'.
Proof.
  destruct (requests_answered_from_power_on (D := sim) (cpu := LittleEndian) (board := 0) 0x3FD0000 (fun _ => 0) 100 5 2
    0x10000 0x10100 0x10200 1 fresh_driver pci_devices_boot request_power_on (mk_spec [] [] HEAP_START))
    as (k1 & Hk1 & Hrun).
  - apply request_powered_on.
  - apply fresh_structure_wf.
  - destruct (Hrun (request_load k1 Hk1)) as (k2 & Hk2 & Hsteps).
    destruct (Hsteps [] k2 (run_start _ _ _ _ _ _)) as (Hevent & _).
    destruct (Hevent Interrupted I) as (l & k' & _ & Hstep).
    exists k1, k2, l, k'. split; [exact Hk1|]. split; [exact Hk2|exact Hstep].
Defined.

(** The request is on the card when its interrupt is taken, and one round of the
    network task later the reply is on the wire, although the card's interrupt is
    taken twice more in the middle of the round. *)
Example request_on_the_wire :
  match (_ ← kernel_main (cpu := LittleEndian) (board := 0) 0x10000 0x10100 0x10200 1 fresh_driver pci_devices_boot;
         network_start (cpu := LittleEndian) (fun _ => 0) 100 5 2 ;;
         irq_handler 100 ;;
         network_round (cpu := LittleEndian) (board := 0) 0x3FD0000 (fun _ => 0) 100 5 2 [[Interrupted]; [Card_acted; Interrupted]])
        request_power_on with
  | Done (_, k) => v_wire (sim_view (n_dev (k_nic k)))
  | _ => []
  end =
  [arp_wire [0x52; 0x55; 10; 0; 2; 2] [0x52; 0x54; 0; 0x12; 0x34; 0x56] 2 OWN_IPV4_ADDR
     [0x52; 0x55; 10; 0; 2; 2] 0x0A000202].
Proof. vm_compute. reflexivity. Qed.
