(* ===== verification/NetworkSteps.v ===== *)
(** * The network task's code as steps of the system

    System.v lets tasks write to RAM, take packets and hand frames to the card at
    any time.  Here the code of the network task is shown to do nothing else: what
    [network_start] and [network_round] do to the kernel, with all that happens in
    the middle, is a sequence of those steps, so what System.v proves of all of
    them holds for the program. *)

From S2P Require Import Prelude StateMonad Memory Bus RingBuffer Heap Clock Stdio Logger Scheduler.
From S2P Require Import NetworkIo PacketQueue PciMmio Pci E1000 Ethernet Routing Arp Ipv4 NetworkTask Within.
From S2P Require Import Driver Reception CardInit Interrupt Syscall Boot System Preemption Answering.

Section Steps.
Context {D : Type} `{E1000Card D} {cpu : Cpu} {board : Board}.
Context (arp_stack : Z) (unspecified : nat -> Z) (fuel wait_fuel heap_fuel : nat).

#[local] Instance steps_nic : Nic (world D) := world_nic unspecified fuel wait_fuel.

Abbreviation sys := (sys_step unspecified fuel).

(** ** The parts *)

Lemma print_sys text (k : kernel D) : rtc sys k (set_k_nic (set_n_dev (emit text (n_dev (k_nic k))) (k_nic k)) k).
Proof.
  unfold emit. generalize (crlf text). clear text. intros l. revert k.
  induction l as [|c l IH]; intros k; cbn [foldl].
  - assert (set_k_nic (set_n_dev (n_dev (k_nic k)) (k_nic k)) k = k) as -> by (by destruct k as [[] ? ? ? ? ?]). done.
  - eapply rtc_l; [by apply (user_writes _ _ k 1 (u32 UART_THR) (u8 c)); vm_compute|].
    exact (IH (set_k_nic (set_n_dev (write8 UART_THR c (n_dev (k_nic k))) (k_nic k)) k)).
Qed.

Lemma heap_sys h (k : kernel D) :
  user_context (k_context k) -> sys k (set_k_nic (set_n_heap h (k_nic k)) k).
Proof.
  intros Hctx. pose proof (user_computes unspecified fuel k (k_context k) h (k_table k) Hctx) as Hs.
  by destruct k.
Qed.

Lemma table_sys tb (k : kernel D) : user_context (k_context k) -> sys k (set_k_table tb k).
Proof.
  intros Hctx. pose proof (user_computes unspecified fuel k (k_context k) (n_heap (k_nic k)) tb Hctx) as Hs.
  by destruct k as [[] ? ? ? ? ?].
Qed.

Lemma event_sys e (k k' : kernel D) : event_ok e -> happens unspecified fuel e k = Done (tt, k') -> sys k k'.
Proof.
  intros He E. destruct e as [| |t|number x]; cbn [happens] in E.
  - by apply interrupt.
  - injection E as <-. apply card_acts.
  - injection E as <-. pose proof (user_computes unspecified fuel k t (n_heap (k_nic k)) (k_table k) He) as Hs.
    by destruct k as [[] ? ? ? ? ?].
  - destruct He as (Hno & Hmin & Hx). apply bind_done_inv in E as (r & k1 & Hcall & E). injection E as <-.
    by apply (system_call unspecified fuel k number x r k1).
Qed.

Lemma events_sys l (k k' : kernel D) :
  Forall event_ok l -> for_each l (happens unspecified fuel) k = Done (tt, k') -> rtc sys k k'.
Proof.
  intros Hl. revert k. induction Hl as [|e l He _ IH]; intros k E; cbn [for_each] in E; [by injection E as <-|].
  apply bind_done_inv in E as ([] & k1 & E1 & E). eapply rtc_l; [by apply (event_sys e)|]. by apply IH.
Qed.

(** ** The network stack *)

Section Bound.
Variable bound : nat.
Hypothesis Hbound : (bound < fuel)%nat.

Definition sys_related (w w' : world D) : Prop := rtc sys (w_kernel w) (w_kernel w').

#[local] Instance sys_related_preorder : PreOrder sys_related.
Proof. split; [intros w; apply rtc_refl|]. intros w1 w2 w3 H12 H23. unfold sys_related in *. by etrans. Qed.

#[local] Instance sys_within : NicWithin (world D) sys_related (world_ready wait_fuel bound) (world_sane bound).
Proof.
  apply world_within; try apply _; try done.
  - intros w w' [Hl _] Hk Hm. destruct w as [k l]. unfold meanwhile, on_kernel, zoom in Hm. cbn [w_kernel w_events] in *.
    destruct (for_each _ _ _) as [[[] k']| |] eqn:E; [|done..]. injection Hm as <-.
    apply (events_sys (hd [] l)); [|exact E]. destruct Hl; [done|assumption].
  - intros w. apply rtc_once, card_acts.
  - intros w a e p len Hr He. by apply rtc_once, frame_given.
  - intros w h Hk. apply rtc_once, heap_sys, Hk.
  - intros w text Hk. apply print_sys.
Qed.

(** ** The network task *)

Lemma network_round_sys events (k k' : kernel D) :
  sys_inv bound k -> driver_ready (k_nic k) -> events_ok wait_fuel events ->
  network_round arp_stack unspecified fuel wait_fuel heap_fuel events k = Done (tt, k') -> rtc sys k k'.
Proof.
  intros Hk Hr Hev E. unfold network_round in E. pose proof Hk as ((Hq & Hn) & Hrest).
  destruct (new_packet_available (n_queue (k_nic k))) eqn:Hnew; [|by injection E as <-].
  pose proof (remove_packet_spec _ Hq) as Hrem.
  unfold remove_packet, new_packet_available in *. apply negb_true_iff in Hnew. rewrite Hnew in *.
  fold (remove_packet_advance (n_queue (k_nic k))) in *. set (q := remove_packet_advance (n_queue (k_nic k))) in *.
  destruct (packets (n_queue (k_nic k))) as [|x l] eqn:Ep; [done|].
  destruct Hrem as (q' & Hr' & _ & _ & _ & _ & Hq' & _). injection Hr' as <-.
  unfold on_network in E. set (k1 := set_k_nic (set_n_queue q (k_nic k)) k) in *.
  destruct (start_pdu_encapsulation _ _ _ _) as [[u s]| |] eqn:Hpdu in E; [|done..]. injection E as _ <-.
  edestruct (pdu_does arp_stack heap_fuel) as [Hsteps Hsane]; [|exact Hpdu|]; [by split; [split; [split|]|]|].
  eapply rtc_l; [apply (packet_taken unspecified fuel k); by rewrite Ep|].
  etrans; [exact Hsteps|]. apply rtc_once, table_sys, Hsane.
Qed.

Lemma network_start_sys (k k' : kernel D) :
  sys_inv bound k -> network_start unspecified fuel wait_fuel heap_fuel k = Done (tt, k') -> rtc sys k k'.
Proof.
  intros Hk E. unfold network_start, on_network in E.
  destruct (routing_init_call _ _) as [[u s]| |] eqn:Hinit; [|done..]. injection E as _ <-.
  edestruct (routing_init_does heap_fuel) as [Hsteps Hsane]; [|exact Hinit|]; [exact Hk|].
  etrans; [exact Hsteps|]. apply rtc_once, table_sys, Hsane.
Qed.

(** A step of a run with the network task, from a state with its invariant. *)
Lemma net_step_sys (k : kernel D) l k' :
  net_inv unspecified fuel wait_fuel heap_fuel bound Hbound k ->
  net_step arp_stack unspecified fuel wait_fuel heap_fuel k l k' -> rtc sys k k'.
Proof.
  intros (Hk & _ & sp & (((_ & _ & Hr) & _) & _)) Hstep.
  destruct Hstep as [events k l k' Hcur Hev Hround _|e k l k' He Hhap _].
  - by apply (network_round_sys events).
  - apply rtc_once. by apply (event_sys e).
Qed.

Lemma net_run_sys (k0 : kernel D) l k :
  (cd_delay < wait_fuel)%nat -> board_agrees -> arp_stack + 28 <= HEAP_START ->
  net_inv unspecified fuel wait_fuel heap_fuel bound Hbound k0 ->
  net_run arp_stack unspecified fuel wait_fuel heap_fuel k0 l k -> rtc sys k0 k.
Proof.
  intros Hwait Hag Hst H0'. induction 1 as [|l k l' k' Hrun IH Hstep]; [done|]. etrans; [exact IH|].
  destruct (net_run_answers arp_stack unspecified fuel wait_fuel heap_fuel bound Hwait Hbound Hag Hst _ _ _ Hrun H0') as [Hk _].
  by eapply net_step_sys.
Qed.

End Bound.

(** C8: The code of the network task does nothing System.v does not allow a
    task: from power-on, every state of a run of the task (its start, its rounds,
    and interrupts, the card, other tasks and system calls between them and in the
    middle of them) is reached by steps of the system. *)
Theorem network_task_within_system network_task_recv sh ih boot_fuel garbage table (k0 : kernel D) sp :
  powered_on arp_stack wait_fuel heap_fuel boot_fuel table k0 sp -> structure_wf garbage ->
  exists k1, kernel_main network_task_recv sh ih boot_fuel garbage table k0 = Done (None, k1) /\
    ((nic_load (k_nic k1) < fuel)%nat ->
     exists k2, network_start unspecified fuel wait_fuel heap_fuel k1 = Done (tt, k2) /\
     forall received k, net_run arp_stack unspecified fuel wait_fuel heap_fuel k2 received k -> rtc sys k1 k).
Proof.
  intros Hon Hg. pose proof Hon as [Hag Hst Hwait _ _ _ _ _ _ _ _].
  destruct (power_on_network arp_stack unspecified fuel wait_fuel heap_fuel network_task_recv sh ih boot_fuel garbage table
    k0 sp Hon Hg) as (k1 & Hk1 & _ & Hinv & Hnet).
  exists k1. split; [done|]. intros Hload. destruct (Hnet Hload) as (k2 & Hk2 & Hinv2 & _).
  exists k2. split; [done|]. intros received k Hrun.
  etrans; [by eapply network_start_sys|]. by eapply net_run_sys.
Qed.

End Steps.

(** ** Witness *)

(** The state behind the start of the network task is one the system reaches. *)
Lemma network_task_within_system_witness :
  exists k1 k2, kernel_main (cpu := LittleEndian) (board := 0) 0x10000 0x10100 0x10200 1 fresh_driver pci_devices_boot
      request_power_on = Done (None, k1) /\
    network_start (cpu := LittleEndian) (fun _ => 0) 100 5 2 k1 = Done (tt, k2) /\
    rtc (sys_step (cpu := LittleEndian) (fun _ => 0) 100) k1 k2.
Proof.
  destruct (network_task_within_system (D := sim) (cpu := LittleEndian) (board := 0) 0x3FD0000 (fun _ => 0) 100 5 2
    0x10000 0x10100 0x10200 1 fresh_driver pci_devices_boot request_power_on (mk_spec [] [] HEAP_START))
    as (k1 & Hk1 & Hrun).
  - apply request_powered_on.
  - apply fresh_structure_wf.
  - destruct (Hrun (request_load k1 Hk1)) as (k2 & Hk2 & Hsys).
    exists k1, k2. split; [exact Hk1|]. split; [exact Hk2|]. apply (Hsys []), run_start.
Defined.
